(* ===== verification/_CoqProject ===== *)
-Q . S2P
Prelude.v
RustStr.v
RustWords.v
RustPath.v
Channel.v
CoreError.v
Base64.v
SftpPacket.v
SftpWire.v
SftpFraming.v
SftpTypes.v
SftpServer.v
SftpClient.v
SftpLoopback.v
SftpService.v
SftpTransfer.v
SftpFiles.v
SftpMemory.v
SftpTasks.v
SftpConnect.v
SftpSim.v
SftpEdges.v
Endpoint.v
Config.v
KnownHosts.v
KnownHostsSpec.v
KnownHostsFiles.v
ClientErrors.v
ClientCommand.v
ClientAuth.v
Shell.v
ShellIo.v
TunnelStream.v
Tunnel.v
Client.v
ServerTypes.v
ServerBuild.v
ServerHandler.v
ServerSessions.v
ServerExec.v
ServerInput.v
ServerRuns.v
AuthServer.v
Stack.v
SessionCommands.v
SessionFiles.v
ServerRun.v
Programs.v
ExampleServers.v
ShellServer.v
SftpMock.v
SftpMockClient.v
Loopback.v
LoopbackRun.v
Debug.v
SftpPipeline.v
ExampleClients.v
ExampleSftp.v
RustTest.v
CoreTests.v
KnownHostsTests.v
SftpTests.v
ClientTests.v
ServerTests.v
