(* ===== verification/Prelude.v ===== *)
(** * russh-extra: a verification development

    russh-extra is a high-level SSH client and server library over the [russh]
    crate.  This development translates its own logic into executable
    definitions and proves what makes it correct.  Paths below are under
    [src/crates/].

    ** The program

    - [russh-extra-core] holds the vocabulary: errors ([error.rs]), endpoints and
      session ids ([session.rs]), forwarding specifications ([forward.rs]),
      credentials ([auth.rs]), configuration ([config.rs]), channel data
      ([channel.rs]).
    - [russh-extra/src/sftp] is an SFTP version 3 implementation of its own: the
      wire format ([packet.rs]), the user-facing types ([types.rs]), the server's
      runtime and handler trait ([server.rs]), the client's runtime with its
      reader and writer tasks ([client.rs]) and the client API ([mod.rs]).
    - [russh-extra/src/known_hosts.rs] is the host-key store.
    - [russh-extra/src/client.rs] configures and connects, checks the host key,
      authenticates, runs remote commands, and takes the channels a server opens.
    - [russh-extra/src/server.rs] is the server: builder, host keys, and the
      handler of one connection, which calls the application's callbacks and owns
      the SFTP runtime.
    - [russh-extra/src/shell.rs] is interactive shells and subsystems, read through a
      handle or through a byte-stream wrapper served by a task.
    - [russh-extra/src/tunnel.rs] is port forwarding: local listeners, forwards at
      the server with a registry of their targets, and streams over one channel.
    - [russh-extra-test-support] is the SSH server the integration tests run against,
      with an SFTP server of its own.
    - [russh-extra/examples] are fourteen programs over the library.

    The client's SFTP API talks to the server's SFTP runtime over a byte stream;
    the client's command runner talks to the server's exec handler over channel
    messages, and its shells to the server's channel callbacks; connecting composes
    the host-key check, which consults the known-hosts store, with authentication.
    These pairs are composed in the development and have end-to-end theorems, up to a
    session that connects to a server, logs in, and then runs commands or transfers
    files there.

    ** Files

    Shared:
    - [Prelude]: Rust's [Result], machine integers as [Z] with their wrap, bytes.
    - [RustStr], [RustWords], [RustPath]: what the program uses of Rust's [str]
      (splitting, trimming, parsing integers, UTF-8 validity) and of paths, with
      their laws.
    - [Channel], [CoreError], [Endpoint], [Config]: the core crate.
    - [Base64]: the standard base64 alphabet, an instance of the codec the known-hosts
      store takes as a parameter, and the helpers around that codec.
    - [Debug]: every [fmt::Debug] the crates write, and when two values print alike.

    SFTP:
    - [SftpPacket]: every encoder and decoder of [packet.rs], over a parser monad
      that reads at a position.  [SftpWire]: the wire grammar, round trips of all
      requests and responses, truncation.
    - [SftpFraming]: length-prefixed reassembly, shared by both sides.
    - [SftpTypes]: metadata, directory entries, open modes.
    - [SftpServer]: the handler trait (a class of state-passing methods, with the
      trait's defaults), per-packet handlers, dispatch, [handle_data].
    - [SftpClient]: responses, the request/response exchange as a state monad over
      an abstract transport, every operation of [client.rs] and [mod.rs], file and
      directory handles with their close-on-drop.
    - [SftpService]: the abstract service and the proof that the server refines
      it; [SftpLoopback], [SftpTransfer]: client operations over the real server,
      and what they return in terms of the handler; [SftpFiles]: the contract of
      a file store ([FileStore], a class) under which [write_all] and
      [read_to_vec] are inverse; [SftpMemory]: an in-memory handler that meets it.
    - [SftpTasks]: the client's concurrency: callers, writer task, reader task,
      the table of pending requests and its one-shot channels, as a step function
      on events; invariants by induction on reachability.  [SftpConnect]: version
      negotiation.  [SftpEdges]: directory listings and corner cases.
    - [SftpPipeline]: [SftpTasks] and [SftpServer] joined by a byte stream in each
      direction that delivers any number of bytes at a time: concurrent requests end
      to end, under every schedule.

    Known hosts: [KnownHosts] (the store and its file format), [KnownHostsSpec]
    (what a lookup means), [KnownHostsFiles] (files, saving and loading).

    Client: [ClientErrors] (error mapping, host-key decision), [ClientCommand]
    (the command loop), [ClientAuth] (the credential loop), [Client] (builder,
    [Client::connect], sessions, certificates).

    Shells: [Shell] (builders, opening, the handle and its reads), [ShellIo] (the
    wrapper and the bridge task, under every schedule), [ShellServer] (opening against
    the server's connection handler).  Tunnels: [TunnelStream]
    (direct channels, the stream and its task, the copy loops), [Tunnel] (local and
    remote forwards, the registries and the tasks that undo a forward, the channels
    a server opens).

    Server: [ServerTypes] (contexts, decisions, responses), [ServerBuild]
    (callback table, [ServerHandler] trait, builder, host keys, shared cells),
    [ServerHandler] (one definition per callback of the connection handler, in a
    state and error monad), [ServerSessions] (login and session invariants),
    [ServerExec] (exec end to end), [ServerInput] (standard input),
    [ServerRuns] (concrete runs), [ServerRun] (running and shutting down, the
    methods of a streaming handler's context).

    Client and server together: [AuthServer] (the client's login against the server's
    callbacks, over an interface of what [russh] carries between them), [Stack] (a
    command, from [Session::command] through the handler to the application's callback
    and back, against a specification in terms of the callbacks alone), [SessionCommands]
    (from [Client::connect] to a command's output), [SftpSim] (the SFTP client's
    operations over two wires that agree: a simulation), [SessionFiles] (from
    [Client::connect] through [Session::sftp] to files in the application's store).

    Examples: [Programs] (a monad of state, output and outcome for [main] functions),
    [ExampleServers], [ExampleClients], [ExampleSftp].

    Test support: [SftpMock] (the in-memory SFTP server of the tests, written
    independently of the library's encoders, and its reading of requests),
    [SftpMockClient] (the client's operations against it), [Loopback] (the loopback
    SSH server's configuration and handler, and commands run against it),
    [LoopbackRun] (starting and dropping it).

    The program's unit tests: [RustTest] (assertions), [CoreTests], [KnownHostsTests],
    [SftpTests], [ClientTests], [ServerTests].  Each [#[test]] function is a boolean
    definition over the model, and each file ends with the evaluation of its suite, so
    that the model is checked against what the authors expect of the code.

    ** What the theorems show

    - C1, C2, C5, C20-C24, C39: SFTP.  Requests survive the wire and any chunking; the
      server calls the handler once per request, in order, and answers each; every
      client operation returns what the handler returned; a file written is read
      back; truncated requests are refused.
    - C3, C4: SFTP with requests in flight, while the channel is up.  Whatever the
      interleaving of callers, tasks and network, the requests that returned have the results of one
      sequential execution by the handler; from every state, letting the system run
      brings every request to its result.
    - C14-C16: the client's SFTP tasks alone.  Responses in any order reach the right
      request; every waiting request is registered; a failing writer answers
      everyone.
    - C6-C8, C30: connecting.  A session exists only after the server's key was
      accepted and the user authenticated; against a server of this library, only if
      the connection is logged in there as the configured user, with the application's
      consent to a configured credential, and a user the application welcomes gets in;
      nothing is trusted by default.
    - C9-C11: the whole stack.  On a session that connected to a server of this library,
      a command returns what the application's callback says, run for that user on what
      the client's loop sends, cut into packets, up to its end of file; and files written
      are in the application's store and come back.
    - C28, C32, C34, C35, C38: the server and commands: who is logged in, how many
      sessions, standard input, command output, what running returns.
    - C33: the [Debug] output of the types it lists does not depend on the secrets they
      hold.  (Another type does print one, the answers of a keyboard-interactive dialogue:
      [reply_debug_shows_responses].)
    - C12, C13, C19, C37, C40: shells.  What opening sends, and that a server of this
      library lets it succeed exactly when its callbacks accept; reads lose, repeat
      and reorder nothing; the wrapper is a pair of streams under every schedule; its
      task ends.
    - C17, C18: tunnels.  A forwarded connection reaches its own tunnel's target; a
      tunnel stream is a byte stream in both directions.
    - C25-C27, C29: the known-hosts store against its specification; files.
    - C31, C36: the examples.  Two runs of [client_known_hosts]: the key trusted and saved
      by the first is the only one later runs accept.  A client that got into one of the
      example servers is their one user, and gets their answers.

    Theorems without a number are about the test servers and the text formats, or record
    behaviours that fall short of the documentation or the protocol, as what the code does.

    ** Conventions

    A [w]-bit integer is a [Z] with its range stated and its wrap written out; a
    string is its UTF-8 bytes; hash maps are [gmap].  An asynchronous function is
    the sequence of its effects; where tasks interleave ([SftpTasks],
    [SftpPipeline], [ShellIo], [TunnelStream], [Tunnel]) the code between two points at
    which another task can see its effects is a step, and theorems hold for every schedule
    of steps.  (A remote forward is two steps: registering the port, and the request with
    its answer, during which the session's handle is locked.)  [SftpPipeline] composes the
    tasks over a connection that stays up; the writer's failure and the end of the channel
    are in [SftpTasks].  [russh], the key library, base64, the file
    system and the application's callbacks are parameters, by their outcomes;
    hypotheses about them are named and have concrete witnesses.

    Loops that are not structural carry fuel.  [split_go] has the length of the
    buffer, and each turn removes at least five bytes; [read_loop] needs more
    turns than the file has bytes, which C5 assumes and the source's loop does not
    bound; [ki_loop] bounds the rounds a server may ask for, and the theorem about
    it holds for every bound; [trim_start] and [split_whitespace] have the length
    of the string; [feed_loop] has the length of the buffer, like [split_go];
    [echo_loop] has one turn per chunk of input; [print_shell] and [print_dir] need one
    turn more than there are bytes and entries, which their theorems show to be enough.

    ** Not modelled

    [russh]'s accept loop, by when it ends and with what.  Tracing and serde derives
    have no logic of the program, nor have the methods that only return a field, which
    are the projections of the records here.  The integration tests under [tests/] need
    the network.  One unit test is left out, that of the optional serde feature.  [Clone]
    of the connection handler, which nothing calls, is not among its operations.

    The reads of a channel end: a channel's messages are a finite list, after which
    the connection has dropped it. *)
From Stdlib Require Export ZArith Lia String Ascii.
From Stdlib Require Export Strings.Byte.
From stdpp Require Export base list gmap strings.

#[global] Open Scope Z_scope.
#[global] Set Default Goal Selector "!".

(** ** Rust's [Result] *)

Inductive result (E A : Type) : Type :=
| Ok (a : A)
| Err (e : E).
Arguments Ok {E A} a.
Arguments Err {E A} e.

#[export] Instance result_ret E : MRet (result E) := λ A a, Ok a.
#[export] Instance result_bind E : MBind (result E) :=
  λ A B f r, match r with Ok a => f a | Err e => Err e end.
#[export] Instance result_fmap E : FMap (result E) :=
  λ A B f r, match r with Ok a => Ok (f a) | Err e => Err e end.

Definition map_err {E F A} (f : E → F) (r : result E A) : result F A :=
  match r with Ok a => Ok a | Err e => Err (f e) end.

Definition ok_or {E A} (e : E) (o : option A) : result E A :=
  match o with Some a => Ok a | None => Err e end.

Definition is_ok {E A} (r : result E A) : bool :=
  match r with Ok _ => true | Err _ => false end.

(** ** Machine integers

    A [w]-bit unsigned integer is a [Z] in [0, 2^w); a narrowing [as] cast is
    reduction modulo [2^w]. *)

Definition fits (w : Z) (z : Z) : Prop := 0 ≤ z < 2 ^ w.
Abbreviation is_u16 := (fits 16).
Abbreviation is_u32 := (fits 32).
Abbreviation is_u64 := (fits 64).

Definition wrap (w : Z) (z : Z) : Z := z mod 2 ^ w.
Abbreviation as_u32 := (wrap 32).
Abbreviation as_u64 := (wrap 64).

(** ** Bytes *)

#[export] Instance byte_eq_dec : EqDecision byte := Byte.byte_eq_dec.

Definition b2z (b : byte) : Z := Z.of_N (Byte.to_N b).
Definition z2b (z : Z) : byte :=
  match Byte.of_N (Z.to_N (z mod 256)) with Some b => b | None => Byte.x00 end.

(** [to_be_bytes] of an [8*n]-bit integer, and [from_be_bytes]. *)
Fixpoint be_bytes (n : nat) (z : Z) : list byte :=
  match n with
  | O => []
  | S k => z2b (z / 256 ^ Z.of_nat k) :: be_bytes k z
  end.

Definition from_be (l : list byte) : Z :=
  fold_left (λ acc b, acc * 256 + b2z b) l 0.

(** Rust strings are their UTF-8 bytes, held in a [string]. *)
Definition as_bytes (s : string) : list byte := list_byte_of_string s.
Definition of_bytes (l : list byte) : string := string_of_list_byte l.

(** ** Automation *)

Ltac zdm := Z.div_mod_to_equations; lia.

Lemma fits_wrap w z : 0 ≤ w → fits w (wrap w z).
Proof. intros. apply Z.mod_pos_bound. by apply Z.pow_pos_nonneg. Qed.

Lemma wrap_small w z : fits w z → wrap w z = z.
Proof. apply Z.mod_small. Qed.

Lemma b2z_range b : 0 ≤ b2z b < 256.
Proof. unfold b2z. pose proof (Byte.to_N_bounded b). lia. Qed.

Lemma b2z_z2b z : b2z (z2b z) = z mod 256.
Proof.
  unfold z2b, b2z. pose proof (Z.mod_pos_bound z 256 eq_refl).
  destruct (Byte.of_N _) as [b|] eqn:Hb.
  - apply Byte.to_of_N in Hb. lia.
  - apply Byte.of_N_None_iff in Hb. lia.
Qed.

Lemma b2z_inj b c : b2z b = b2z c → b = c.
Proof.
  unfold b2z. intros H%N2Z.inj.
  pose proof (Byte.of_to_N b) as Hb. pose proof (Byte.of_to_N c) as Hc. congruence.
Qed.

Lemma z2b_b2z b : z2b (b2z b) = b.
Proof. apply b2z_inj. rewrite b2z_z2b. apply Z.mod_small, b2z_range. Qed.

Lemma length_be_bytes n z : length (be_bytes n z) = n.
Proof. induction n; simpl; lia. Qed.

Lemma from_be_acc l acc :
  fold_left (λ acc b, acc * 256 + b2z b) l acc
  = acc * 256 ^ Z.of_nat (length l) + from_be l.
Proof.
  unfold from_be. revert acc. induction l as [|b l IH]; intros acc; simpl fold_left.
  - simpl. lia.
  - rewrite IH, (IH (0 * 256 + _)). cbn [length].
    rewrite Nat2Z.inj_succ, Z.pow_succ_r by lia. lia.
Qed.

Lemma from_be_cons b l :
  from_be (b :: l) = b2z b * 256 ^ Z.of_nat (length l) + from_be l.
Proof. unfold from_be at 1. simpl fold_left. by rewrite from_be_acc. Qed.

Lemma pow256_pos n : 0 < 256 ^ Z.of_nat n.
Proof. apply Z.pow_pos_nonneg; lia. Qed.

Lemma from_be_be_bytes n z : from_be (be_bytes n z) = z mod 256 ^ Z.of_nat n.
Proof.
  induction n as [|n IH]; [by rewrite Z.mod_1_r|]. pose proof (pow256_pos n).
  cbn [be_bytes]. rewrite from_be_cons, IH, b2z_z2b, length_be_bytes.
  rewrite Nat2Z.inj_succ, Z.pow_succ_r, (Z.mul_comm 256) by lia.
  rewrite Z.rem_mul_r by lia. lia.
Qed.

Lemma from_be_range l : 0 ≤ from_be l < 256 ^ Z.of_nat (length l).
Proof.
  induction l as [|b l IH]; [by vm_compute|].
  rewrite from_be_cons. cbn [length]. rewrite Nat2Z.inj_succ, Z.pow_succ_r by lia.
  pose proof (b2z_range b). nia.
Qed.

Lemma be_bytes_mod n z k : (n ≤ k)%nat → be_bytes n (z mod 256 ^ Z.of_nat k) = be_bytes n z.
Proof.
  induction n as [|n IH]; intros Hk; [done|]. cbn [be_bytes].
  pose proof (pow256_pos n). pose proof (pow256_pos (k - S n)).
  rewrite IH by lia. f_equal. apply b2z_inj. rewrite !b2z_z2b.
  replace (Z.of_nat k) with (Z.of_nat n + (1 + Z.of_nat (k - S n))) by lia.
  rewrite Z.pow_add_r, Z.rem_mul_r, Z.pow_add_r by lia.
  rewrite (Z.mul_comm (256 ^ Z.of_nat n)), Z.div_add by lia.
  rewrite (Z.div_small (z mod _)) by (apply Z.mod_pos_bound; lia).
  rewrite Z.add_0_l, Z.rem_mul_r by lia.
  rewrite Z.pow_1_r, (Z.mul_comm 256), Z.mod_add by lia. by rewrite Z.mod_mod by lia.
Qed.

Lemma be_bytes_from_be l : be_bytes (length l) (from_be l) = l.
Proof.
  induction l as [|b l IH]; [done|]. cbn [length be_bytes].
  rewrite from_be_cons. pose proof (from_be_range l). pose proof (pow256_pos (length l)).
  f_equal.
  - rewrite Z.div_add_l, Z.div_small by lia. by rewrite Z.add_0_r, z2b_b2z.
  - rewrite <-(be_bytes_mod _ _ (length l)), Z.add_comm, Z.mod_add, Z.mod_small by lia.
    done.
Qed.

Lemma of_as_bytes s : of_bytes (as_bytes s) = s.
Proof. apply string_of_list_byte_of_string. Qed.

Lemma as_of_bytes l : as_bytes (of_bytes l) = l.
Proof. apply list_byte_of_string_of_list_byte. Qed.

(** ** Runs of a step relation *)

(** A measure that every step decreases bounds the length of every run. *)
Lemma nsteps_measure {A} (R : relation A) (f : A → nat) n x y :
  (∀ x y, R x y → (f y < f x)%nat) → nsteps R n x y → (n + f y ≤ f x)%nat.
Proof. intros HR. induction 1 as [|n x y z H _ IH]; [lia|]. apply HR in H. lia. Qed.
