(* ===== verification/RustStr.v ===== *)
(** * The string operations of Rust's standard library that the program uses

    A [&str]/[String] is the [string] of its UTF-8 bytes.  Every operation
    below works on bytes; because UTF-8 is self-synchronising and each pattern
    used here is a whole character (or several), the byte-level search is the
    character-level search of the standard library on well-formed strings. *)
From S2P Require Import Prelude.

#[global] Open Scope string_scope.
#[global] Open Scope list_scope.
#[global] Open Scope Z_scope.
#[global] Arguments String.append : simpl nomatch.

(** ** Searching and splitting *)

Fixpoint strip_prefix (p s : string) : option string :=
  match p, s with
  | "", _ => Some s
  | String a p', String b s' => if Ascii.eqb a b then strip_prefix p' s' else None
  | String _ _, "" => None
  end.

Definition starts_with (p s : string) : bool :=
  match strip_prefix p s with Some _ => true | None => false end.

Fixpoint strip_suffix (p s : string) : option string :=
  if String.eqb p s then Some ""
  else match s with
       | "" => None
       | String c s' => String c <$> strip_suffix p s'
       end.

(** The first, and the last, occurrence of a pattern. *)
Fixpoint split_once (p s : string) : option (string * string) :=
  match strip_prefix p s with
  | Some r => Some ("", r)
  | None =>
      match s with
      | "" => None
      | String c s' => '(a, b) ← split_once p s'; Some (String c a, b)
      end
  end.

Fixpoint rsplit_once (p s : string) : option (string * string) :=
  match s with
  | "" => match strip_prefix p s with Some r => Some ("", r) | None => None end
  | String c s' =>
      match rsplit_once p s' with
      | Some (a, b) => Some (String c a, b)
      | None => match strip_prefix p s with Some r => Some ("", r) | None => None end
      end
  end.

Fixpoint count_char (c : ascii) (s : string) : nat :=
  match s with
  | "" => 0
  | String d s' => (if Ascii.eqb c d then 1 else 0) + count_char c s'
  end%nat.

Definition contains_char (c : ascii) (s : string) : bool :=
  negb (Nat.eqb (count_char c s) 0).

(** [str::split(c)]: always at least one piece. *)
Fixpoint split_char (c : ascii) (s : string) : list string :=
  match s with
  | "" => [""]
  | String d s' =>
      if Ascii.eqb c d then "" :: split_char c s'
      else match split_char c s' with
           | [] => [String d ""]
           | x :: r => String d x :: r
           end
  end.

(** [slice::join]. *)
Fixpoint join (sep : string) (l : list string) : string :=
  match l with
  | [] => ""
  | [x] => x
  | x :: r => x +:+ sep +:+ join sep r
  end.

(** ** White space ([char::is_whitespace]: Unicode [White_Space]) *)

Definition utf8_of (l : list Z) : string := of_bytes (map z2b l).

Definition whitespace : list string :=
  map utf8_of
    ([[9]; [10]; [11]; [12]; [13]; [32]; [194; 133]; [194; 160]; [225; 154; 128]]
     ++ map (λ k, [226; 128; 128 + Z.of_nat k]) (seq 0 11)
     ++ [[226; 128; 168]; [226; 128; 169]; [226; 128; 175]; [226; 129; 159];
         [227; 128; 128]]).

Fixpoint strip_any (ps : list string) (s : string) : option string :=
  match ps with
  | [] => None
  | p :: ps' =>
      match strip_prefix p s with Some r => Some r | None => strip_any ps' s end
  end.

Definition strip_ws (s : string) : option string := strip_any whitespace s.

Fixpoint trim_start_go (fuel : nat) (s : string) : string :=
  match fuel with
  | O => s
  | S f => match strip_ws s with Some r => trim_start_go f r | None => s end
  end.

Definition trim_start (s : string) : string := trim_start_go (String.length s) s.

Fixpoint trim_end (s : string) : string :=
  match s with
  | "" => ""
  | String c s' => if String.eqb (trim_start s) "" then "" else String c (trim_end s')
  end.

Definition trim (s : string) : string := trim_start (trim_end s).

Fixpoint take_word (s : string) : string * string :=
  match s with
  | "" => ("", "")
  | String c s' =>
      match strip_ws s with
      | Some _ => ("", s)
      | None => let (w, r) := take_word s' in (String c w, r)
      end
  end.

Fixpoint split_whitespace_go (fuel : nat) (s : string) : list string :=
  match fuel with
  | O => []
  | S f =>
      match take_word (trim_start s) with
      | ("", _) => []
      | (w, r) => w :: split_whitespace_go f r
      end
  end.

Definition split_whitespace (s : string) : list string :=
  split_whitespace_go (S (String.length s)) s.

(** ** [str::lines] *)

Definition LF : ascii := "010".
Definition CR : string := String "013" "".

Fixpoint lines_of (l : list string) : list string :=
  match l with
  | [] => []
  | [last] => if String.eqb last "" then [] else [last]
  | x :: r => default x (strip_suffix CR x) :: lines_of r
  end.

Definition lines (s : string) : list string := lines_of (split_char LF s).

(** ** Integers: [Display] and [FromStr] *)

Definition digit (d : Z) : ascii := ascii_of_N (Z.to_N (48 + d)).

Definition digit_val (c : ascii) : option Z :=
  let n := Z.of_N (N_of_ascii c) in
  if (48 <=? n) && (n <=? 57) then Some (n - 48) else None.

Fixpoint dec_go (fuel : nat) (n : Z) (acc : string) : string :=
  match fuel with
  | O => acc
  | S f =>
      let acc' := String (digit (n mod 10)) acc in
      if n <? 10 then acc' else dec_go f (n / 10) acc'
  end.

(** [format!("{n}")] of an unsigned integer. *)
Definition dec (n : Z) : string := dec_go (S (Z.to_nat (Z.log2 n))) n "".

Fixpoint parse_digits (max acc : Z) (s : string) : option Z :=
  match s with
  | "" => Some acc
  | String c s' =>
      d ← digit_val c;
      let acc' := acc * 10 + d in
      if max <? acc' then None else parse_digits max acc' s'
  end.

(** [uN::from_str]: an optional [+], then at least one digit, no overflow. *)
Definition parse_uint (max : Z) (s : string) : option Z :=
  match s with
  | "" => None
  | String c r =>
      if Ascii.eqb c "+" then match r with "" => None | _ => parse_digits max 0 r end
      else parse_digits max 0 s
  end.

Definition parse_u16 : string → option Z := parse_uint 65535.

(** ** Case folding *)

Definition to_ascii_lowercase (c : ascii) : ascii :=
  let n := N_of_ascii c in
  if ((65 <=? n) && (n <=? 90))%N then ascii_of_N (n + 32) else c.

Fixpoint ascii_lower (s : string) : string :=
  match s with
  | "" => ""
  | String c s' => String (to_ascii_lowercase c) (ascii_lower s')
  end.

Definition eq_ignore_ascii_case (a b : string) : bool :=
  String.eqb (ascii_lower a) (ascii_lower b).

(** ** UTF-8 validation ([String::from_utf8]) *)

Definition in_range (lo hi : Z) (b : byte) : bool := (lo <=? b2z b) && (b2z b <=? hi).
Definition is_cont (b : byte) : bool := in_range 128 191 b.

Definition lead2 (b0 b1 : byte) : bool := in_range 194 223 b0 && is_cont b1.
Definition lead3 (b0 b1 b2 : byte) : bool :=
  (in_range 224 224 b0 && in_range 160 191 b1
   || in_range 225 236 b0 && is_cont b1
   || in_range 237 237 b0 && in_range 128 159 b1
   || in_range 238 239 b0 && is_cont b1) && is_cont b2.
Definition lead4 (b0 b1 b2 b3 : byte) : bool :=
  (in_range 240 240 b0 && in_range 144 191 b1
   || in_range 241 243 b0 && is_cont b1
   || in_range 244 244 b0 && in_range 128 143 b1) && is_cont b2 && is_cont b3.

Fixpoint utf8_valid (l : list byte) : bool :=
  match l with
  | [] => true
  | b0 :: r0 =>
      if b2z b0 <? 128 then utf8_valid r0
      else match r0 with
           | [] => false
           | b1 :: r1 =>
               if lead2 b0 b1 then utf8_valid r1
               else match r1 with
                    | [] => false
                    | b2 :: r2 =>
                        if lead3 b0 b1 b2 then utf8_valid r2
                        else match r2 with
                             | [] => false
                             | b3 :: r3 => lead4 b0 b1 b2 b3 && utf8_valid r3
                             end
                    end
           end
  end.

(** A value of type [String] holds valid UTF-8. *)
Definition is_str (s : string) : Prop := utf8_valid (as_bytes s) = true.

(** ** Lemmas: append *)

Lemma str_app_nil_r s : s +:+ "" = s.
Proof. induction s; simpl; congruence. Qed.

Lemma str_app_assoc a b c : (a +:+ b) +:+ c = a +:+ (b +:+ c).
Proof. induction a; simpl; congruence. Qed.

Lemma str_cons_app c a b : String c a +:+ b = String c (a +:+ b).
Proof. done. Qed.

Lemma str_length_app a b :
  String.length (a +:+ b) = (String.length a + String.length b)%nat.
Proof. induction a; simpl; lia. Qed.

Lemma count_char_app c a b :
  count_char c (a +:+ b) = (count_char c a + count_char c b)%nat.
Proof. induction a; simpl; [done|]. destruct (Ascii.eqb _ _); simpl; lia. Qed.

Lemma contains_char_false c s : contains_char c s = false ↔ count_char c s = 0%nat.
Proof. unfold contains_char. rewrite negb_false_iff. apply Nat.eqb_eq. Qed.

(** ** Lemmas: prefixes and splits *)

Lemma strip_prefix_app p s : strip_prefix p (p +:+ s) = Some s.
Proof. induction p; simpl; [done|]. by rewrite Ascii.eqb_refl. Qed.

Lemma strip_prefix_Some p s r : strip_prefix p s = Some r → s = p +:+ r.
Proof.
  revert s. induction p as [|a p IH]; intros [|b s]; simpl; try naive_solver.
  destruct (Ascii.eqb_spec a b); naive_solver.
Qed.

Lemma strip_char_hit c s : strip_prefix (String c "") (String c s) = Some s.
Proof. simpl. by rewrite Ascii.eqb_refl. Qed.

Lemma split_once_char c a b :
  count_char c a = 0%nat → split_once (String c "") (a +:+ String c b) = Some (a, b).
Proof.
  induction a as [|d a IH]; simpl.
  - intros _. by rewrite Ascii.eqb_refl.
  - destruct (Ascii.eqb c d); simpl; [done|]. intros H. by rewrite IH.
Qed.

Lemma rsplit_once_char_none c s :
  count_char c s = 0%nat → rsplit_once (String c "") s = None.
Proof.
  induction s as [|d s IH]; simpl; [done|].
  destruct (Ascii.eqb c d); simpl; [done|]. intros H. by rewrite IH.
Qed.

Lemma rsplit_once_char c a b :
  count_char c b = 0%nat → rsplit_once (String c "") (a +:+ String c b) = Some (a, b).
Proof.
  intros Hb. induction a as [|d a IH]; simpl.
  - rewrite rsplit_once_char_none by done. by rewrite Ascii.eqb_refl.
  - by rewrite IH.
Qed.

Lemma rsplit_once_none c p s :
  count_char c s = 0%nat → rsplit_once (String c p) s = None.
Proof.
  induction s as [|d s IH]; simpl; [done|].
  destruct (Ascii.eqb c d); simpl; [done|]. intros H. by rewrite IH.
Qed.

Lemma rsplit_once_app p a s x y :
  rsplit_once p s = Some (x, y) → rsplit_once p (a +:+ s) = Some (a +:+ x, y).
Proof. intros H. induction a as [|d a IH]; [done|]. cbn [String.append rsplit_once]. by rewrite IH. Qed.

Lemma split_char_none c s : count_char c s = 0%nat → split_char c s = [s].
Proof.
  induction s as [|d s IH]; simpl; [done|].
  destruct (Ascii.eqb c d); simpl; [done|]. intros H. by rewrite IH.
Qed.

Lemma split_char_app c a b :
  count_char c a = 0%nat → split_char c (a +:+ String c b) = a :: split_char c b.
Proof.
  induction a as [|d a IH]; simpl.
  - by rewrite Ascii.eqb_refl.
  - destruct (Ascii.eqb c d); simpl; [done|]. intros H. by rewrite IH.
Qed.

(** ** Lemmas: decimal round trip *)

Lemma digit_val_digit d : 0 ≤ d < 10 → digit_val (digit d) = Some d.
Proof.
  intros H. unfold digit_val, digit.
  rewrite N_ascii_embedding by lia. rewrite Z2N.id by lia.
  rewrite (proj2 (Z.leb_le _ _)), (proj2 (Z.leb_le _ _)) by lia. simpl. f_equal. lia.
Qed.

Lemma parse_digits_dec_go max fuel n acc :
  0 ≤ n ≤ max → n < 2 ^ Z.of_nat fuel → fuel ≠ O →
  parse_digits max 0 (dec_go fuel n acc) = parse_digits max n acc.
Proof.
  revert n acc. induction fuel as [|fuel IH]; intros n acc Hn Hlt Hf; [done|].
  rewrite Nat2Z.inj_succ, Z.pow_succ_r in Hlt by lia. cbn [dec_go].
  pose proof (Z.mod_pos_bound n 10 eq_refl).
  destruct (Z.ltb_spec n 10).
  - simpl. rewrite Z.mod_small, digit_val_digit by lia. simpl.
    by rewrite (proj2 (Z.ltb_ge _ _)) by lia.
  - rewrite IH; [|zdm|zdm|]; last first.
    { intros ->. simpl in Hlt. lia. }
    simpl. rewrite digit_val_digit by lia. simpl.
    replace (n / 10 * 10 + n mod 10) with n by zdm.
    by rewrite (proj2 (Z.ltb_ge _ _)) by lia.
Qed.

Lemma log2_fuel n : 0 ≤ n → n < 2 ^ Z.of_nat (S (Z.to_nat (Z.log2 n))).
Proof.
  intros. rewrite Nat2Z.inj_succ, Z2Nat.id by apply Z.log2_nonneg.
  destruct (Z.eq_dec n 0) as [->|]; [done|]. apply Z.log2_spec. lia.
Qed.

Lemma parse_digits_dec max n :
  0 ≤ n ≤ max → parse_digits max 0 (dec n) = Some n.
Proof.
  intros. unfold dec. rewrite parse_digits_dec_go; [done|lia| |lia].
  apply log2_fuel. lia.
Qed.

(** The printed form is made of digits only. *)
Fixpoint all_digits (s : string) : bool :=
  match s with
  | "" => true
  | String c s' => match digit_val c with Some _ => true | None => false end && all_digits s'
  end.

Lemma all_digits_dec_go fuel n acc :
  0 ≤ n → all_digits acc = true → all_digits (dec_go fuel n acc) = true.
Proof.
  revert n acc. induction fuel as [|fuel IH]; intros n acc Hn Ha; [done|]. cbn [dec_go].
  pose proof (Z.mod_pos_bound n 10 eq_refl).
  destruct (n <? 10); [|apply IH; [zdm|]]; simpl; by rewrite digit_val_digit by lia.
Qed.

Lemma all_digits_dec n : 0 ≤ n → all_digits (dec n) = true.
Proof. intros. by apply all_digits_dec_go. Qed.

Lemma dec_go_cons fuel n acc :
  (fuel ≠ O ∨ acc ≠ "") → ∃ c s, dec_go fuel n acc = String c s.
Proof.
  revert n acc. induction fuel as [|fuel IH]; intros n acc H; cbn [dec_go].
  - destruct H as [H|H]; [done|]. destruct acc; [done|eauto].
  - destruct (n <? 10); [eauto|]. apply IH. by right.
Qed.

Lemma dec_cons n : 0 ≤ n → ∃ c s d, dec n = String c s ∧ digit_val c = Some d.
Proof.
  intros Hn. unfold dec.
  destruct (dec_go_cons (S (Z.to_nat (Z.log2 n))) n "") as (c & s & E); [by left|].
  pose proof (all_digits_dec n Hn) as H. unfold dec in H. rewrite E in *. simpl in H.
  destruct (digit_val c) as [d|] eqn:Ed; [eauto|done].
Qed.

Lemma all_digits_no_char c s :
  digit_val c = None → all_digits s = true → count_char c s = 0%nat.
Proof.
  intros Hc. induction s as [|d s IH]; simpl; [done|].
  destruct (digit_val d) eqn:Hd; simpl; [|done]. intros.
  destruct (Ascii.eqb_spec c d); [congruence|]. by rewrite IH.
Qed.

Lemma parse_uint_dec max n : 0 ≤ n ≤ max → parse_uint max (dec n) = Some n.
Proof.
  intros. destruct (dec_cons n) as (c & s & d & E & Hd); [lia|].
  unfold parse_uint. rewrite E. destruct (Ascii.eqb_spec c "+") as [->|]; [done|].
  rewrite <-E. by apply parse_digits_dec.
Qed.

Lemma parse_digits_range max acc s n :
  0 ≤ acc ≤ max → parse_digits max acc s = Some n → 0 ≤ n ≤ max.
Proof.
  revert acc. induction s as [|c s IH]; intros acc Ha; cbn [parse_digits].
  { intros [= <-]. lia. }
  unfold digit_val.
  destruct ((48 <=? _) && (_ <=? 57)) eqn:E; cbn [mbind option_bind]; [|done].
  apply andb_prop in E as [E1%Z.leb_le E2%Z.leb_le].
  destruct (Z.ltb_spec max (acc * 10 + (Z.of_N (N_of_ascii c) - 48))); [done|].
  apply IH. lia.
Qed.

Lemma parse_uint_range max s n :
  0 ≤ max → parse_uint max s = Some n → 0 ≤ n ≤ max.
Proof.
  intros Hm. unfold parse_uint. destruct s as [|c s]; [done|].
  destruct (Ascii.eqb c "+").
  - destruct s; [done|]. apply parse_digits_range. lia.
  - apply parse_digits_range. lia.
Qed.

(** ** Lemmas: case folding *)

Lemma eq_ignore_ascii_case_refl s : eq_ignore_ascii_case s s = true.
Proof. apply String.eqb_refl. Qed.

Lemma eq_ignore_ascii_case_sym a b :
  eq_ignore_ascii_case a b = eq_ignore_ascii_case b a.
Proof. apply String.eqb_sym. Qed.

Lemma eq_ignore_ascii_case_trans a b c :
  eq_ignore_ascii_case a b = true →
  eq_ignore_ascii_case a c = eq_ignore_ascii_case b c.
Proof. unfold eq_ignore_ascii_case. by intros ->%String.eqb_eq. Qed.

Lemma length_ascii_lower s : String.length (ascii_lower s) = String.length s.
Proof. induction s; simpl; congruence. Qed.

Lemma eq_ignore_ascii_case_length a b :
  eq_ignore_ascii_case a b = true → String.length a = String.length b.
Proof.
  unfold eq_ignore_ascii_case. intros H%String.eqb_eq.
  by rewrite <-(length_ascii_lower a), H, length_ascii_lower.
Qed.
