(* ===== verification/RustWords.v ===== *)
(** * Words, lines and white space

    Laws of [split_whitespace], [trim] and [lines] on text made of words
    separated by single spaces: what the printers of the program produce. *)
From S2P Require Import Prelude RustStr.

(** A non-empty string with no white space in it. *)
Definition word (s : string) : Prop := s ≠ "" ∧ take_word s = (s, "").

#[export] Instance word_dec s : Decision (word s).
Proof. apply _. Defined.

(** ** White space next to a space *)

Lemma strip_prefix_mid p s c r x :
  strip_prefix p (s +:+ String c r) = Some x → count_char c p = 0%nat →
  is_Some (strip_prefix p s).
Proof.
  revert s. induction p as [|a p IH]; intros s; [intros _ _; by eexists|].
  destruct s as [|b s]; cbn [String.append strip_prefix count_char].
  - destruct (Ascii.eqb_spec a c) as [->|]; [|done]. rewrite Ascii.eqb_refl. lia.
  - destruct (Ascii.eqb a b); [|done]. intros H Hc. apply (IH s); [done|].
    destruct (Ascii.eqb c a); lia.
Qed.

Definition SPACE : ascii := " ".

Lemma whitespace_space :
  Forall (λ p, p = String SPACE "" ∨ count_char SPACE p = 0%nat) whitespace.
Proof. apply (bool_decide_unpack _). by vm_compute. Qed.

Lemma strip_any_none ps s : strip_any ps s = None ↔ Forall (λ p, strip_prefix p s = None) ps.
Proof.
  induction ps as [|p ps IH]; cbn [strip_any]; [done|]. rewrite Forall_cons.
  destruct (strip_prefix p s); [by split; [|intros []]|]. rewrite IH. by split; [|intros []].
Qed.

Lemma strip_ws_before_space s r :
  s ≠ "" → strip_ws s = None → strip_ws (s +:+ String SPACE r) = None.
Proof.
  unfold strip_ws. rewrite !strip_any_none. intros Hs H.
  apply Forall_forall. intros p Hp.
  pose proof (proj1 (Forall_forall _ _) H p Hp) as Hn. cbn beta in Hn.
  destruct (proj1 (Forall_forall _ _) whitespace_space p Hp) as [->|Hc].
  - destruct s as [|b s]; [done|]. cbn [String.append strip_prefix] in *.
    by destruct (Ascii.eqb SPACE b).
  - destruct (strip_prefix p (s +:+ _)) eqn:E; [|done].
    destruct (strip_prefix_mid _ _ _ _ _ E Hc) as [x Hx]. congruence.
Qed.

Lemma strip_ws_space r : strip_ws (String SPACE r) = Some r.
Proof. reflexivity. Qed.

(** The same for any character that is in no white-space sequence. *)
Definition apart (c : ascii) : bool := forallb (λ p, Nat.eqb (count_char c p) 0) whitespace.

Lemma strip_ws_before_apart c s r :
  apart c = true → s ≠ "" → strip_ws s = None → strip_ws (s +:+ String c r) = None.
Proof.
  unfold strip_ws, apart. rewrite forallb_forall, !strip_any_none, !Forall_forall.
  intros Ha Hs H p Hp. destruct (strip_prefix p (s +:+ _)) eqn:E; [|done].
  destruct (strip_prefix_mid _ _ _ _ _ E) as [x Hx].
  - apply Nat.eqb_eq, Ha. by apply list_elem_of_In.
  - by rewrite H in Hx.
Qed.

(** A character that begins no white-space sequence. *)
Definition plain_char (c : ascii) : bool :=
  forallb (λ p, match p with String d _ => negb (Ascii.eqb d c) | "" => false end) whitespace.

Lemma strip_ws_plain c s : plain_char c = true → strip_ws (String c s) = None.
Proof.
  unfold plain_char, strip_ws. rewrite forallb_forall, strip_any_none, Forall_forall.
  intros H p Hp%list_elem_of_In%H. destruct p as [|d p]; [done|]. cbn [strip_prefix].
  by destruct (Ascii.eqb d c).
Qed.

(** ** Words *)

Lemma take_word_cons c s :
  take_word (String c s) = (String c s, "") →
  strip_ws (String c s) = None ∧ take_word s = (s, "").
Proof.
  cbn [take_word]. destruct (strip_ws (String c s)); [done|].
  destruct (take_word s) as [w r]. intros [= -> ->]. done.
Qed.

Lemma word_strip_ws s : word s → strip_ws s = None.
Proof. intros [Hs H]. destruct s as [|c s]; [done|]. by apply take_word_cons in H as [? _]. Qed.

Lemma take_word_before_space w r :
  take_word w = (w, "") → take_word (w +:+ String SPACE r) = (w, String SPACE r).
Proof.
  induction w as [|c w IH]; intros H; [reflexivity|].
  apply take_word_cons in H as [Hc Hw]. cbn [String.append take_word].
  change (String c (w +:+ ?x)) with (String c w +:+ x).
  rewrite strip_ws_before_space by done. by rewrite IH.
Qed.

Lemma take_word_plain c s :
  plain_char c = true → take_word s = (s, "") → take_word (String c s) = (String c s, "").
Proof. intros Hc Hs. cbn [take_word]. by rewrite strip_ws_plain, Hs. Qed.

Lemma take_word_app_apart c w s :
  apart c = true → take_word w = (w, "") → take_word (String c s) = (String c s, "") →
  take_word (w +:+ String c s) = (w +:+ String c s, "").
Proof.
  intros Hc. induction w as [|d w IH]; intros Hw Hs; [done|].
  apply take_word_cons in Hw as [Hd Hw]. cbn [String.append take_word].
  change (String d (w +:+ ?x)) with (String d w +:+ x).
  rewrite strip_ws_before_apart by done. by rewrite IH.
Qed.

Lemma plain_digits : ∀ d, digit_val d ≠ None → plain_char d = true.
Proof.
  intros d Hd. destruct d as [[] [] [] [] [] [] [] []]; by vm_compute in Hd |- *.
Qed.

Lemma take_word_digits s : all_digits s = true → take_word s = (s, "").
Proof.
  induction s as [|c s IH]; [done|]. cbn [all_digits]. intros [Hc Hs]%andb_prop.
  apply take_word_plain; [|by apply IH]. apply plain_digits. by destruct (digit_val c).
Qed.

Lemma trim_start_id s : strip_ws s = None → trim_start s = s.
Proof. intros H. unfold trim_start. destruct (String.length s); cbn [trim_start_go]; [done|]. by rewrite H. Qed.

Lemma trim_start_space r : trim_start (String SPACE r) = trim_start_go (String.length r) r.
Proof. reflexivity. Qed.

(** ** Sentences: words joined by single spaces *)

Lemma join_cons w w' l : join " " (w :: w' :: l) = w +:+ String SPACE (join " " (w' :: l)).
Proof. reflexivity. Qed.

Lemma join_strip_ws w l : word w → strip_ws (join " " (w :: l)) = None.
Proof.
  intros Hw. destruct l as [|w' l]; [by apply word_strip_ws|]. rewrite join_cons.
  apply strip_ws_before_space; [apply Hw|by apply word_strip_ws].
Qed.

Lemma join_not_empty w l : word w → join " " (w :: l) ≠ "".
Proof.
  intros [Hw _]. destruct l as [|w' l]; [done|]. rewrite join_cons. by destruct w.
Qed.

Lemma take_word_join w w' l :
  word w → take_word (join " " (w :: w' :: l)) = (w, String SPACE (join " " (w' :: l))).
Proof. intros [_ Hw]. rewrite join_cons. by apply take_word_before_space. Qed.

Lemma split_whitespace_step f w r s :
  w ≠ "" → take_word (trim_start s) = (w, r) →
  split_whitespace_go (S f) s = w :: split_whitespace_go f r.
Proof. intros Hw E. cbn [split_whitespace_go]. rewrite E. by destruct w. Qed.

Lemma split_go_join fuel l :
  Forall word l → (length l ≤ fuel)%nat → split_whitespace_go fuel (join " " l) = l.
Proof.
  revert l. induction fuel as [|f IH]; intros l Hl Hf.
  { by destruct l; [|cbn in Hf; lia]. }
  destruct Hl as [|w l Hw Hl]; [reflexivity|].
  destruct l as [|w' l].
  - rewrite (split_whitespace_step f w "").
    + f_equal. by destruct f.
    + apply Hw.
    + cbn [join]. rewrite trim_start_id by by apply word_strip_ws. apply Hw.
  - rewrite (split_whitespace_step f w (String SPACE (join " " (w' :: l)))).
    + f_equal. destruct f as [|f]; [cbn in Hf; lia|].
      rewrite <-(IH (w' :: l)) at 2 by (done || cbn in *; lia).
      reflexivity.
    + apply Hw.
    + rewrite trim_start_id by by apply join_strip_ws. by apply take_word_join.
Qed.

Lemma words_length l : Forall word l → (length l ≤ String.length (join " " l))%nat.
Proof.
  induction 1 as [|w l [Hw _] Hl IH]; [done|].
  destruct w as [|c w]; [done|]. destruct l as [|w' l]; [cbn; lia|].
  rewrite join_cons, str_length_app. cbn [length String.length] in *. lia.
Qed.

Lemma split_whitespace_join l : Forall word l → split_whitespace (join " " l) = l.
Proof.
  intros Hl. apply split_go_join; [done|]. pose proof (words_length l Hl). lia.
Qed.

Lemma trim_end_word w : take_word w = (w, "") → trim_end w = w.
Proof.
  induction w as [|c w IH]; intros H; [done|]. apply take_word_cons in H as [Hc Hw].
  cbn [trim_end]. rewrite trim_start_id by done. cbn [String.eqb]. by rewrite IH.
Qed.

Lemma trim_end_app w s :
  take_word w = (w, "") → trim_start s = s → s ≠ "" →
  trim_end (w +:+ String SPACE s) = w +:+ String SPACE (trim_end s).
Proof.
  intros Hw Hs Hne. induction w as [|c w IH]; cbn [String.append].
  - cbn [trim_end]. rewrite trim_start_space.
    change (trim_start_go (String.length s) s) with (trim_start s). rewrite Hs.
    by destruct (String.eqb_spec s "").
  - apply take_word_cons in Hw as [Hc Hw]. cbn [trim_end].
    change (String c (w +:+ String SPACE s)) with (String c w +:+ String SPACE s) at 1.
    rewrite trim_start_id by by apply strip_ws_before_space. cbn [String.append String.eqb].
    by rewrite IH.
Qed.

Lemma trim_join l : Forall word l → trim (join " " l) = join " " l.
Proof.
  intros Hl. unfold trim. assert (E : trim_end (join " " l) = join " " l).
  { induction Hl as [|w l Hw Hl IH]; [done|]. destruct l as [|w' l].
    - apply trim_end_word, Hw.
    - rewrite join_cons. apply Forall_cons in Hl as [Hw' Hl].
      rewrite trim_end_app, IH; [done|apply Hw| |by apply join_not_empty].
      by apply trim_start_id, join_strip_ws. }
  rewrite E. destruct Hl; [done|]. by apply trim_start_id, join_strip_ws.
Qed.

(** ** Lines *)

Lemma take_word_no_char c s :
  take_word s = (s, "") → String c "" ∈ whitespace → count_char c s = 0%nat.
Proof.
  intros H Hc. induction s as [|d s IH]; [done|]. apply take_word_cons in H as [Hn Hs].
  cbn [count_char]. rewrite IH by done.
  destruct (Ascii.eqb_spec c d) as [->|]; [|done].
  unfold strip_ws in Hn. rewrite strip_any_none, Forall_forall in Hn.
  specialize (Hn _ Hc). by rewrite strip_char_hit in Hn.
Qed.

Lemma word_no_LF w : word w → count_char LF w = 0%nat.
Proof. intros [_ H]. apply take_word_no_char; [done|]. by apply (bool_decide_unpack _); vm_compute. Qed.

Lemma join_no_LF l : Forall word l → count_char LF (join " " l) = 0%nat.
Proof.
  induction 1 as [|w l Hw Hl IH]; [done|]. destruct l as [|w' l]; [by apply word_no_LF|].
  rewrite join_cons, count_char_app, word_no_LF by done. cbn [count_char].
  change (Ascii.eqb LF SPACE) with false. cbn. exact IH.
Qed.

Lemma strip_suffix_app p a b : b ≠ "" → strip_suffix p b = None → (String.length p ≤ String.length b)%nat →
  strip_suffix p (a +:+ b) = None.
Proof.
  intros Hb Hn Hlen. induction a as [|c a IH]; [done|]. cbn [String.append strip_suffix].
  destruct (String.eqb_spec p (String c (a +:+ b))) as [->|].
  { cbn in Hlen. rewrite str_length_app in Hlen. lia. }
  by rewrite IH.
Qed.

Lemma strip_suffix_Some p s x : strip_suffix p s = Some x → s = x +:+ p.
Proof.
  revert x. induction s as [|c s IH]; intros x; cbn [strip_suffix].
  - destruct (String.eqb_spec p "") as [->|]; [by intros [= <-]|done].
  - destruct (String.eqb_spec p (String c s)) as [->|]; [by intros [= <-]|].
    destruct (strip_suffix p s) as [y|]; [|done]. intros [= <-]. cbn. by rewrite (IH y).
Qed.

Lemma word_no_CR w : word w → strip_suffix CR w = None.
Proof.
  intros [_ H]. destruct (strip_suffix CR w) as [x|] eqn:E; [|done].
  apply strip_suffix_Some in E. exfalso.
  assert (Hc : count_char "013" w = 0%nat).
  { apply take_word_no_char; [done|]. by apply (bool_decide_unpack _); vm_compute. }
  rewrite E, count_char_app in Hc. cbn in Hc. lia.
Qed.

Lemma join_no_CR l : Forall word l → strip_suffix CR (join " " l) = None.
Proof.
  induction 1 as [|w l Hw Hl IH]; [done|]. destruct l as [|w' l]; [by apply word_no_CR|].
  rewrite join_cons. apply Forall_cons in Hl as [Hw' Hl].
  change (String SPACE ?x) with (" " +:+ x). rewrite <-str_app_assoc.
  pose proof (join_not_empty w' l Hw'). apply strip_suffix_app; [done|done|].
  destruct (join " " (w' :: l)); [done|]. cbn. lia.
Qed.

Lemma split_char_not_nil c s : split_char c s ≠ [].
Proof.
  destruct s as [|d s]; cbn [split_char]; [done|].
  destruct (Ascii.eqb c d); [done|]. by destruct (split_char c s).
Qed.

(** Every line of the text, each ended by a newline, is read back. *)
Lemma lines_concat ls :
  Forall (λ l, count_char LF l = 0%nat ∧ strip_suffix CR l = None) ls →
  lines (foldr (λ l acc, l +:+ String LF acc) "" ls) = ls.
Proof.
  unfold lines. induction 1 as [|l ls [Hl Hc] Hls IH]; [done|]. cbn [foldr].
  rewrite split_char_app by done.
  destruct (split_char LF _) as [|x r] eqn:E.
  { by apply split_char_not_nil in E. }
  cbn [lines_of]. rewrite Hc. cbn [default]. f_equal. exact IH.
Qed.
