(* ===== verification/RustPath.v ===== *)
(** * Paths

    A path is its text.  [expand_tilde] is the helper the program repeats in
    [russh-extra/src/known_hosts.rs], [russh-extra-core/src/auth.rs] and (as
    [expand_tilde_path]) in [russh-extra-core/src/forward.rs]; the value of the
    variable HOME is an argument. *)
From S2P Require Import Prelude RustStr.

(** [Path::join] on Unix. *)
Definition path_join (base rest : string) : string :=
  if starts_with "/" rest then rest
  else if String.eqb base "" then rest
  else if bool_decide (is_Some (strip_suffix "/" base)) then base +:+ rest
  else base +:+ "/" +:+ rest.

(** [home] is the value of the variable HOME, if set. *)
Definition expand_tilde (home : option string) (path : string) : string :=
  if String.eqb path "~" || starts_with "~/" path then
    match home with
    | Some home =>
        if String.eqb path "~" then home
        else path_join home (default "" (strip_prefix "~/" path))
    | None => path
    end
  else path.

(** A path that does not begin with a tilde is left alone; one that does keeps
    everything after it, below the home directory. *)
Lemma expand_tilde_plain home path :
  path ≠ "~" → starts_with "~/" path = false → expand_tilde home path = path.
Proof.
  intros H1 H2. unfold expand_tilde. by rewrite (proj2 (String.eqb_neq _ _)), H2.
Qed.

Lemma expand_tilde_home h rest :
  h ≠ "" → strip_suffix "/" h = None → starts_with "/" rest = false →
  expand_tilde (Some h) ("~/" +:+ rest) = h +:+ "/" +:+ rest.
Proof.
  intros Hh Hs Hr. unfold expand_tilde.
  replace (starts_with "~/" ("~/" +:+ rest)) with true
    by (unfold starts_with; by rewrite strip_prefix_app).
  rewrite orb_true_r, strip_prefix_app. replace (String.eqb _ "~") with false by done.
  change (default "" (Some rest)) with rest. unfold path_join. rewrite Hr, (proj2 (String.eqb_neq _ _)) by done.
  rewrite bool_decide_false; [done|]. rewrite Hs. by intros [].
Qed.
