(* ===== verification/Channel.v ===== *)
(** * Channel domain types ([russh-extra-core/src/channel.rs])

    Channel kinds, command exit values and limits, pseudo-terminal requests and
    terminal modes.  A [BTreeMap] is a list of pairs kept strictly sorted by
    the derived order of its keys. *)
From S2P Require Import Prelude RustStr.

Definition DEFAULT_COMMAND_OUTPUT_LIMIT : Z := 8 * 1024 * 1024.

Inductive ChannelKind :=
| Session
| DirectTcpIp
| ForwardedTcpIp
| DirectStreamLocal
| ForwardedStreamLocal
| Subsystem (name : string)
| X11
| AuthAgent.

#[export] Instance ChannelKind_eq_dec : EqDecision ChannelKind.
Proof. solve_decision. Defined.

Definition ChannelKind_session : ChannelKind := Session.
Definition ChannelKind_direct_tcp_ip : ChannelKind := DirectTcpIp.
Definition ChannelKind_forwarded_tcp_ip : ChannelKind := ForwardedTcpIp.
Definition ChannelKind_direct_stream_local : ChannelKind := DirectStreamLocal.
Definition ChannelKind_forwarded_stream_local : ChannelKind := ForwardedStreamLocal.
Definition ChannelKind_subsystem (name : string) : ChannelKind := Subsystem name.
Definition ChannelKind_x11 : ChannelKind := X11.
Definition ChannelKind_auth_agent : ChannelKind := AuthAgent.

(** ** Command exit *)

Inductive CommandExit :=
| Status (status : Z)
| Signal (signal : string) (core_dumped : bool)
| Missing.

#[export] Instance CommandExit_eq_dec : EqDecision CommandExit.
Proof. solve_decision. Defined.

Definition CommandExit_status (status : Z) : CommandExit := Status status.
Definition CommandExit_signal (signal : string) (core_dumped : bool) : CommandExit :=
  Signal signal core_dumped.
Definition CommandExit_missing : CommandExit := Missing.

Definition CommandExit_code (e : CommandExit) : option Z :=
  match e with Status s => Some s | Signal _ _ | Missing => None end.

Definition CommandExit_signal_name (e : CommandExit) : option string :=
  match e with Signal s _ => Some s | Status _ | Missing => None end.

Definition CommandExit_success (e : CommandExit) : bool :=
  match e with Status s => s =? 0 | _ => false end.

(** ** Command output limits *)

Record CommandLimits := { limit_stdout : Z; limit_stderr : Z }.

Definition CommandLimits_new (stdout stderr : Z) : CommandLimits :=
  {| limit_stdout := stdout; limit_stderr := stderr |}.

Definition CommandLimits_with_stdout (l : CommandLimits) (stdout : Z) : CommandLimits :=
  {| limit_stdout := stdout; limit_stderr := limit_stderr l |}.

Definition CommandLimits_with_stderr (l : CommandLimits) (stderr : Z) : CommandLimits :=
  {| limit_stdout := limit_stdout l; limit_stderr := stderr |}.

Definition CommandLimits_default : CommandLimits :=
  CommandLimits_new DEFAULT_COMMAND_OUTPUT_LIMIT DEFAULT_COMMAND_OUTPUT_LIMIT.

(** ** Terminal modes and pseudo-terminals *)

Inductive TerminalMode :=
| Interrupt | Quit | Erase | Kill | EndOfFile | InputSpeed | OutputSpeed
| Echo | EchoErase | EchoKill | EchoNl | CanonicalInput | SigCheck
| CrToNlInput | NlToCrInput | IgnoreCrInput | PostProcessOutput
| NlToCrNlOutput | CrToNlOutput | NoCrOnNl
| Custom (opcode : Z).

#[export] Instance TerminalMode_eq_dec : EqDecision TerminalMode.
Proof. solve_decision. Defined.

(** The derived [Ord]: declaration order, then the opcode of [Custom]. *)
Definition TerminalMode_rank (m : TerminalMode) : Z :=
  match m with
  | Interrupt => 0 | Quit => 1 | Erase => 2 | Kill => 3 | EndOfFile => 4
  | InputSpeed => 5 | OutputSpeed => 6 | Echo => 7 | EchoErase => 8
  | EchoKill => 9 | EchoNl => 10 | CanonicalInput => 11 | SigCheck => 12
  | CrToNlInput => 13 | NlToCrInput => 14 | IgnoreCrInput => 15
  | PostProcessOutput => 16 | NlToCrNlOutput => 17 | CrToNlOutput => 18
  | NoCrOnNl => 19 | Custom b => 20 + b
  end.

(** [BTreeMap::insert]. *)
Fixpoint modes_insert (m : TerminalMode) (v : Z) (l : list (TerminalMode * Z)) :
    list (TerminalMode * Z) :=
  match l with
  | [] => [(m, v)]
  | (k, w) :: r =>
      if TerminalMode_rank m <? TerminalMode_rank k then (m, v) :: l
      else if TerminalMode_rank m =? TerminalMode_rank k then (m, v) :: r
      else (k, w) :: modes_insert m v r
  end.

Record Pty := {
  pty_term : string;
  pty_width_columns : Z;
  pty_height_rows : Z;
  pty_width_pixels : Z;
  pty_height_pixels : Z;
  pty_modes : list (TerminalMode * Z);
}.

Definition Pty_new (term : string) (width_columns height_rows : Z) : Pty :=
  {| pty_term := term; pty_width_columns := width_columns;
     pty_height_rows := height_rows; pty_width_pixels := 0;
     pty_height_pixels := 0; pty_modes := [] |}.

Definition Pty_with_pixels (p : Pty) (width_pixels height_pixels : Z) : Pty :=
  {| pty_term := pty_term p; pty_width_columns := pty_width_columns p;
     pty_height_rows := pty_height_rows p; pty_width_pixels := width_pixels;
     pty_height_pixels := height_pixels; pty_modes := pty_modes p |}.

Definition Pty_with_term (p : Pty) (term : string) : Pty :=
  {| pty_term := term; pty_width_columns := pty_width_columns p;
     pty_height_rows := pty_height_rows p; pty_width_pixels := pty_width_pixels p;
     pty_height_pixels := pty_height_pixels p; pty_modes := pty_modes p |}.

Definition Pty_with_mode (p : Pty) (mode : TerminalMode) (value : Z) : Pty :=
  {| pty_term := pty_term p; pty_width_columns := pty_width_columns p;
     pty_height_rows := pty_height_rows p; pty_width_pixels := pty_width_pixels p;
     pty_height_pixels := pty_height_pixels p;
     pty_modes := modes_insert mode value (pty_modes p) |}.

Definition Pty_default : Pty := Pty_new "xterm-256color" 80 24.
