(* ===== verification/CoreError.v ===== *)
(** * Errors ([russh-extra-core/src/error.rs])

    The error sum, its category records and constructors, the predicates on
    it, and its [Display] text.  A boxed [dyn Error] source is kept as the text
    it displays; an [io::Error] as its kind and text. *)
From S2P Require Import Prelude RustStr Channel.

(** [{:?}] of a string: quoting and escaping is the standard library's and
    depends on its Unicode tables, so it is a parameter of every message that
    prints one. *)
Class StrDebug := str_debug : string → string.

Definition BoxError : Type := string.

Record CategoryError (K : Type) := {
  err_kind : K;
  err_message : string;
  err_source : option BoxError;
}.
Arguments err_kind {K} _.
Arguments err_message {K} _.
Arguments err_source {K} _.

Definition CategoryError_new {K} (kind : K) (message : string) : CategoryError K :=
  {| err_kind := kind; err_message := message; err_source := None |}.

Definition CategoryError_with_source {K} (kind : K) (message : string) (source : BoxError) :
    CategoryError K :=
  {| err_kind := kind; err_message := message; err_source := Some source |}.

Definition CategoryError_has_source {K} (e : CategoryError K) : bool :=
  match err_source e with Some _ => true | None => false end.

(** [Display] and [StdError::source] of a category error. *)
Definition CategoryError_display {K} (e : CategoryError K) : string := err_message e.
Definition CategoryError_source {K} (e : CategoryError K) : option BoxError := err_source e.

Inductive TransportErrorKind :=
| TransportDns | TransportTcpConnect | TransportNegotiation | TransportKeepalive
| TransportEncryption | TransportIo | TransportOther.

Inductive HostKeyErrorKind :=
| HostKeyUnknown | HostKeyChanged | HostKeyRejected | HostKeyUnsupported
| HostKeyUnavailable.

Inductive AuthenticationErrorKind :=
| AuthRejected | AuthExhausted | AuthPartial | AuthUnsupportedMethod | AuthUnavailable.

Inductive ChannelErrorKind :=
| ChannelOpenFailed | ChannelRequest | ChannelRead | ChannelWrite | ChannelEof
| ChannelClose | ChannelProtocol.

Inductive SftpErrorKind :=
| RemoteStatus | Protocol | ChannelIo | UnexpectedResponse | UnsupportedVersion
| Unsupported | NoSuchFile | PermissionDenied.

Inductive ForwardingErrorKind :=
| FwdBind | FwdListen | FwdAccept | FwdConnect | FwdGlobalRequest | FwdChannelOpen
| FwdStreamCopy | FwdCancel | FwdShutdown.

Inductive Operation :=
| OpConnect | OpAuthentication | OpChannelOpen | OpCommand | OpShell | OpSftp
| OpForwarding | OpServer | OpShutdown | OpOther.

Inductive SshErrorKind := SshRussh | SshOther.

#[export] Instance SftpErrorKind_eq_dec : EqDecision SftpErrorKind.
Proof. solve_decision. Defined.
#[export] Instance Operation_eq_dec : EqDecision Operation.
Proof. solve_decision. Defined.

(** The [io::ErrorKind]s the program distinguishes. *)
Inductive IoErrorKind := IoTimedOut | IoOtherKind.

Record IoError := { io_kind : IoErrorKind; io_message : string }.

Inductive Error :=
| InvalidConfig (message : string)
| ETransport (e : CategoryError TransportErrorKind)
| EHostKey (e : CategoryError HostKeyErrorKind)
| EAuthentication (e : CategoryError AuthenticationErrorKind)
| EChannel (e : CategoryError ChannelErrorKind)
| ECommandExit (exit : CommandExit)
| ESftp (e : CategoryError SftpErrorKind)
| EForwarding (e : CategoryError ForwardingErrorKind)
| ETimeout (e : CategoryError Operation)
| ECancelled (e : CategoryError Operation)
| EDisconnected (e : CategoryError Operation)
| EUnsupported (message : string)
| EIo (e : IoError)
| ESsh (e : CategoryError SshErrorKind).

Abbreviation Result := (result Error).

(** ** Constructors *)

Definition Error_invalid_config (message : string) : Error := InvalidConfig message.

Definition Error_transport (kind : TransportErrorKind) (message : string) : Error :=
  ETransport (CategoryError_new kind message).

Definition Error_transport_with_source (kind : TransportErrorKind) (message : string)
    (source : BoxError) : Error :=
  ETransport (CategoryError_with_source kind message source).

Definition Error_host_key (kind : HostKeyErrorKind) (message : string) : Error :=
  EHostKey (CategoryError_new kind message).

Definition Error_host_key_with_source (kind : HostKeyErrorKind) (message : string)
    (source : BoxError) : Error :=
  EHostKey (CategoryError_with_source kind message source).

Definition Error_authentication (message : string) : Error :=
  EAuthentication (CategoryError_new AuthRejected message).

Definition Error_authentication_kind (kind : AuthenticationErrorKind) (message : string) :
    Error :=
  EAuthentication (CategoryError_new kind message).

Definition Error_authentication_with_source (kind : AuthenticationErrorKind)
    (message : string) (source : BoxError) : Error :=
  EAuthentication (CategoryError_with_source kind message source).

Definition Error_channel (message : string) : Error :=
  EChannel (CategoryError_new ChannelProtocol message).

Definition Error_channel_kind (kind : ChannelErrorKind) (message : string) : Error :=
  EChannel (CategoryError_new kind message).

Definition Error_channel_with_source (kind : ChannelErrorKind) (message : string)
    (source : BoxError) : Error :=
  EChannel (CategoryError_with_source kind message source).

Definition Error_command_exit (exit : CommandExit) : Error := ECommandExit exit.

Definition Error_sftp (kind : SftpErrorKind) (message : string) : Error :=
  ESftp (CategoryError_new kind message).

Definition Error_sftp_with_source (kind : SftpErrorKind) (message : string)
    (source : BoxError) : Error :=
  ESftp (CategoryError_with_source kind message source).

Definition Error_forwarding (kind : ForwardingErrorKind) (message : string) : Error :=
  EForwarding (CategoryError_new kind message).

Definition Error_forwarding_with_source (kind : ForwardingErrorKind) (source : BoxError)
    (message : string) : Error :=
  EForwarding (CategoryError_with_source kind message source).

Definition Error_timeout (operation : Operation) (message : string) : Error :=
  ETimeout (CategoryError_new operation message).

Definition Error_cancelled (operation : Operation) (message : string) : Error :=
  ECancelled (CategoryError_new operation message).

Definition Error_disconnected (operation : Operation) (message : string) : Error :=
  EDisconnected (CategoryError_new operation message).

Definition Error_unsupported (message : string) : Error := EUnsupported message.

Definition Error_ssh_with_source (message : string) (source : BoxError) : Error :=
  ESsh (CategoryError_with_source SshOther message source).

(** [From<BoxError> for Error]. *)
Definition Error_from_boxed (source : BoxError) : Error :=
  ESsh (CategoryError_with_source SshOther "lower-level SSH error" source).

(** ** Predicates *)

Definition Error_is_timeout (e : Error) : bool :=
  match e with
  | ETimeout _ => true
  | EIo io => match io_kind io with IoTimedOut => true | IoOtherKind => false end
  | _ => false
  end.

Definition Error_is_cancelled (e : Error) : bool :=
  match e with ECancelled _ => true | _ => false end.

Definition Error_is_disconnected (e : Error) : bool :=
  match e with EDisconnected _ => true | _ => false end.

(** [StdError::source] of an error with a category: the category error, by the text it
    displays and its own source.  The source of an [io::Error] is not modelled. *)
Definition Error_source (e : Error) : option (string * option BoxError) :=
  let category {K} (c : CategoryError K) :=
    Some (CategoryError_display c, CategoryError_source c) in
  match e with
  | ETransport c => category c
  | EHostKey c => category c
  | EAuthentication c => category c
  | EChannel c => category c
  | ESftp c => category c
  | EForwarding c => category c
  | ETimeout c | ECancelled c | EDisconnected c => category c
  | ESsh c => category c
  | InvalidConfig _ | ECommandExit _ | EUnsupported _ | EIo _ => None
  end.

(** ** Display *)

Section Display.
Context `{!StrDebug}.

Definition bool_debug (b : bool) : string := if b then "true" else "false".

Definition CommandExit_debug (e : CommandExit) : string :=
  match e with
  | Status s => "Status(" +:+ dec s +:+ ")"
  | Signal s c => "Signal(" +:+ str_debug s +:+ ", " +:+ bool_debug c +:+ ")"
  | Missing => "Missing"
  end.

Definition Error_display (e : Error) : string :=
  match e with
  | InvalidConfig m => "invalid configuration: " +:+ m
  | ETransport c => "transport error: " +:+ err_message c
  | EHostKey c => "host key verification failed: " +:+ err_message c
  | EAuthentication c => "authentication failed: " +:+ err_message c
  | EChannel c => "channel error: " +:+ err_message c
  | ECommandExit exit =>
      "remote command exited unsuccessfully: " +:+ CommandExit_debug exit
  | ESftp c => "sftp error: " +:+ err_message c
  | EForwarding c => "forwarding error: " +:+ err_message c
  | ETimeout c => "operation timed out: " +:+ err_message c
  | ECancelled c => "operation cancelled: " +:+ err_message c
  | EDisconnected c => "remote disconnected: " +:+ err_message c
  | EUnsupported m => "unsupported operation: " +:+ m
  | EIo io => io_message io
  | ESsh c => "ssh error: " +:+ err_message c
  end.
End Display.
