(* ===== verification/Base64.v ===== *)
(** * Base64 as an instance

    The known-hosts code takes base64 from the [base64] crate, a parameter of the model.
    This file defines the encoding of RFC 4648 with the standard alphabet and required
    canonical padding, which is what the crate's [STANDARD] engine documents, and proves
    the two facts the theorems on saving and loading ask of the parameter.  At the end are
    the two helpers of [russh-extra/src/known_hosts.rs] that call the crate. *)
From S2P Require Import Prelude RustStr RustWords CoreError.

Definition b64_alphabet : string :=
  "ABCDEFGHIJKLMNOPQRSTUVWXYZabcdefghijklmnopqrstuvwxyz0123456789+/".

Definition b64_char (i : Z) : ascii := default "A"%char (String.get (Z.to_nat i) b64_alphabet).

Fixpoint index_of (c : ascii) (s : string) (i : Z) : option Z :=
  match s with
  | "" => None
  | String d s' => if Ascii.eqb c d then Some i else index_of c s' (i + 1)
  end.
Definition b64_val (c : ascii) : option Z := index_of c b64_alphabet 0.

Fixpoint b64_encode (l : list byte) : string :=
  match l with
  | [] => ""
  | [a] =>
      let a := b2z a in
      String (b64_char (a / 4)) (String (b64_char (a mod 4 * 16)) "==")
  | [a; b] =>
      let a := b2z a in let b := b2z b in
      String (b64_char (a / 4)) (String (b64_char (a mod 4 * 16 + b / 16))
        (String (b64_char (b mod 16 * 4)) "="))
  | a :: b :: c :: l' =>
      let a := b2z a in let b := b2z b in let c := b2z c in
      String (b64_char (a / 4)) (String (b64_char (a mod 4 * 16 + b / 16))
        (String (b64_char (b mod 16 * 4 + c / 64)) (String (b64_char (c mod 64))
           (b64_encode l'))))
  end.

Fixpoint b64_decode (s : string) : option (list byte) :=
  match s with
  | "" => Some []
  | String c1 (String c2 (String c3 (String c4 s'))) =>
      p ← b64_val c1; q ← b64_val c2;
      if Ascii.eqb c3 "=" then
        if Ascii.eqb c4 "=" && String.eqb s' "" && (q mod 16 =? 0) then
          Some [z2b (p * 4 + q / 16)]
        else None
      else
        r ← b64_val c3;
        if Ascii.eqb c4 "=" then
          if String.eqb s' "" && (r mod 4 =? 0) then
            Some [z2b (p * 4 + q / 16); z2b (q mod 16 * 16 + r / 4)]
          else None
        else
          t ← b64_val c4; rest ← b64_decode s';
          Some (z2b (p * 4 + q / 16) :: z2b (q mod 16 * 16 + r / 4) :: z2b (r mod 4 * 64 + t)
                :: rest)
  | _ => None
  end.

(** The writer never fails. *)
Definition base64_standard (l : list byte) : Result string := Ok (b64_encode l).

(** ** Laws *)

Lemma b64_chars :
  forallb (λ n, let c := b64_char (Z.of_nat n) in
     bool_decide (b64_val c = Some (Z.of_nat n)) && negb (Ascii.eqb c "=") && plain_char c)
    (seq 0 64) = true.
Proof. by vm_compute. Qed.

Lemma b64_char_ok i :
  0 ≤ i < 64 →
  b64_val (b64_char i) = Some i ∧ Ascii.eqb (b64_char i) "=" = false ∧
  plain_char (b64_char i) = true.
Proof.
  intros Hi. pose proof (proj1 (forallb_forall _ _) b64_chars (Z.to_nat i)) as H.
  rewrite in_seq in H. specialize (H ltac:(lia)). cbv zeta in H. rewrite Z2Nat.id in H by lia.
  apply andb_prop in H as [[H1%bool_decide_eq_true H2%negb_true_iff]%andb_prop H3]. done.
Qed.

Lemma z2b_eq z b : z mod 256 = b2z b → z2b z = b.
Proof. intros H. apply b2z_inj. by rewrite b2z_z2b. Qed.

(** The four characters of three bytes. *)
Lemma b64_quads a b c :
  let a' := b2z a in let b' := b2z b in let c' := b2z c in
  (0 ≤ a' / 4 < 64 ∧ 0 ≤ a' mod 4 * 16 + b' / 16 < 64 ∧
   0 ≤ b' mod 16 * 4 + c' / 64 < 64 ∧ 0 ≤ c' mod 64 < 64) ∧
  z2b (a' / 4 * 4 + (a' mod 4 * 16 + b' / 16) / 16) = a ∧
  z2b ((a' mod 4 * 16 + b' / 16) mod 16 * 16 + (b' mod 16 * 4 + c' / 64) / 4) = b ∧
  z2b ((b' mod 16 * 4 + c' / 64) mod 4 * 64 + c' mod 64) = c.
Proof.
  cbv zeta. pose proof (b2z_range a). pose proof (b2z_range b). pose proof (b2z_range c).
  split; [zdm|]. split; [|split]; apply z2b_eq; zdm.
Qed.

Lemma list3_ind {A} (P : list A → Prop) :
  P [] → (∀ a, P [a]) → (∀ a b, P [a; b]) → (∀ a b c l, P l → P (a :: b :: c :: l)) →
  ∀ l, P l.
Proof.
  intros H0 H1 H2 H3. fix IH 1. intros [|a [|b [|c l]]]; [done|apply H1|apply H2|].
  apply H3, IH.
Qed.

Lemma b64_roundtrip l : b64_decode (b64_encode l) = Some l.
Proof.
  induction l as [|a|a b|a b c l IH] using list3_ind; [done|..];
    cbn [b64_encode b64_decode]; pose proof (b2z_range a).
  - destruct (b64_char_ok (b2z a / 4) ltac:(zdm)) as (-> & _).
    destruct (b64_char_ok (b2z a mod 4 * 16) ltac:(zdm)) as (-> & _). cbn.
    rewrite (proj2 (Z.eqb_eq _ 0)) by zdm. do 2 f_equal. apply z2b_eq. zdm.
  - pose proof (b2z_range b).
    destruct (b64_char_ok (b2z a / 4) ltac:(zdm)) as (-> & _).
    destruct (b64_char_ok (b2z a mod 4 * 16 + b2z b / 16) ltac:(zdm)) as (-> & _).
    destruct (b64_char_ok (b2z b mod 16 * 4) ltac:(zdm)) as (-> & -> & _). cbn.
    rewrite (proj2 (Z.eqb_eq _ 0)) by zdm. do 2 f_equal; [|f_equal]; apply z2b_eq; zdm.
  - destruct (b64_quads a b c) as ((Q1 & Q2 & Q3 & Q4) & E1 & E2 & E3).
    destruct (b64_char_ok _ Q1) as (-> & _), (b64_char_ok _ Q2) as (-> & _).
    destruct (b64_char_ok _ Q3) as (-> & -> & _), (b64_char_ok _ Q4) as (-> & -> & _).
    cbn [mbind option_bind]. rewrite IH. cbn [mbind option_bind]. by rewrite E1, E2, E3.
Qed.

Lemma take_word_quad c1 c2 c3 c4 s :
  plain_char c1 = true → plain_char c2 = true → plain_char c3 = true → plain_char c4 = true →
  take_word s = (s, "") →
  take_word (String c1 (String c2 (String c3 (String c4 s))))
  = (String c1 (String c2 (String c3 (String c4 s))), "").
Proof. intros. by do 4 (apply take_word_plain; [done|]). Qed.

Lemma b64_take_word l : take_word (b64_encode l) = (b64_encode l, "").
Proof.
  induction l as [|a|a b|a b c l IH] using list3_ind; [done|..];
    cbn [b64_encode]; pose proof (b2z_range a); apply take_word_quad; try done;
    apply b64_char_ok; try pose proof (b2z_range b); try pose proof (b2z_range c); zdm.
Qed.

Lemma base64_inverse l s : base64_standard l = Ok s → b64_decode s = Some l.
Proof. intros [= <-]. apply b64_roundtrip. Qed.

Lemma base64_word l s : l ≠ [] → base64_standard l = Ok s → word s.
Proof.
  intros Hl [= <-]. split; [|apply b64_take_word]. by destruct l as [|a [|b [|c l]]].
Qed.

(** ** The helpers of [known_hosts.rs] *)

(** What reading to the end of the crate's decoder yields, and what its encoder has written
    when it is dropped; the text of the error of a failed [String::from_utf8]. *)
Section Helpers.
Context (decoder_read : list byte → result string (list byte))
        (encoder_write : list byte → result string (list byte))
        (utf8_error : list byte → string).

Definition base64_decode_key (encoded : string) : option (list byte) :=
  match decoder_read (as_bytes encoded) with Ok buf => Some buf | Err _ => None end.

Definition base64_encode (data : list byte) : Result string :=
  buf ← map_err (λ e, Error_invalid_config ("base64 encode failed: " +:+ e)) (encoder_write data);
  if utf8_valid buf then Ok (of_bytes buf)
  else Err (Error_invalid_config ("base64 output is not valid UTF-8: " +:+ utf8_error buf)).

(** They are inverse when the crate's decoder reads back what its encoder wrote. *)
Lemma base64_helpers_inverse l s :
  (∀ l e, encoder_write l = Ok e → decoder_read e = Ok l) →
  base64_encode l = Ok s → base64_decode_key s = Some l.
Proof.
  intros Hi. unfold base64_encode, base64_decode_key.
  destruct (encoder_write l) as [e|e] eqn:E; [|done]. cbn [mbind result_bind map_err].
  destruct (utf8_valid e); [|done]. intros [= <-]. by rewrite as_of_bytes, (Hi l e E).
Qed.
End Helpers.
