(* ===== verification/SftpPacket.v ===== *)
(** * SFTP packet encoding and decoding ([russh-extra/src/sftp/packet.rs])

    Encoders append to a byte buffer and frame it; decoders are functions of
    the payload and a position, which they advance or fail with an error.  The
    second half proves the decoders left inverse to the encoders, with the
    exact side conditions the code needs. *)
From S2P Require Import Prelude RustStr Channel CoreError.

(** ** Constants *)

Definition MAX_SFTP_PACKET_SIZE : Z := 256 * 1024.

Definition FXP_INIT : Z := 1.
Definition FXP_VERSION : Z := 2.
Definition FXP_OPEN : Z := 3.
Definition FXP_CLOSE : Z := 4.
Definition FXP_READ : Z := 5.
Definition FXP_WRITE : Z := 6.
Definition FXP_LSTAT : Z := 7.
Definition FXP_FSTAT : Z := 8.
Definition FXP_SETSTAT : Z := 9.
Definition FXP_FSETSTAT : Z := 10.
Definition FXP_OPENDIR : Z := 11.
Definition FXP_READDIR : Z := 12.
Definition FXP_REMOVE : Z := 13.
Definition FXP_MKDIR : Z := 14.
Definition FXP_RMDIR : Z := 15.
Definition FXP_REALPATH : Z := 16.
Definition FXP_STAT : Z := 17.
Definition FXP_RENAME : Z := 18.
Definition FXP_READLINK : Z := 19.
Definition FXP_SYMLINK : Z := 20.
Definition FXP_STATUS : Z := 101.
Definition FXP_HANDLE : Z := 102.
Definition FXP_DATA : Z := 103.
Definition FXP_NAME : Z := 104.
Definition FXP_ATTRS : Z := 105.

Definition SSH_FILEXFER_ATTR_SIZE : Z := 0x00000001.
Definition SSH_FILEXFER_ATTR_UIDGID : Z := 0x00000002.
Definition SSH_FILEXFER_ATTR_PERMISSIONS : Z := 0x00000004.
Definition SSH_FILEXFER_ATTR_ACMODTIME : Z := 0x00000008.
Definition SSH_FILEXFER_ATTR_EXTENDED : Z := 0x80000000.

Definition SSH_FX_OK : Z := 0.
Definition SSH_FX_EOF : Z := 1.
Definition SSH_FX_NO_SUCH_FILE : Z := 2.
Definition SSH_FX_PERMISSION_DENIED : Z := 3.
Definition SSH_FX_FAILURE : Z := 4.
Definition SSH_FX_BAD_MESSAGE : Z := 5.
Definition SSH_FX_NO_CONNECTION : Z := 6.
Definition SSH_FX_CONNECTION_LOST : Z := 7.
Definition SSH_FX_OP_UNSUPPORTED : Z := 8.

(** ** Attribute records *)

Record SftpFileAttrs := {
  flags : Z;
  size : option Z;
  uid : option Z;
  gid : option Z;
  permissions : option Z;
  atime : option Z;
  mtime : option Z;
}.

Definition SftpFileAttrs_default : SftpFileAttrs :=
  {| flags := 0; size := None; uid := None; gid := None;
     permissions := None; atime := None; mtime := None |}.

Record SftpNameEntry := {
  ne_filename : string;
  ne_longname : string;
  ne_attrs : SftpFileAttrs;
}.

#[export] Instance SftpFileAttrs_eq_dec : EqDecision SftpFileAttrs.
Proof. solve_decision. Defined.
#[export] Instance SftpNameEntry_eq_dec : EqDecision SftpNameEntry.
Proof. solve_decision. Defined.

(** [flags & mask != 0]. *)
Definition has_flag (fl mask : Z) : bool := negb (Z.land fl mask =? 0).

(** ** Pushing onto a buffer *)

Definition vec_len (l : list byte) : Z := Z.of_nat (length l).

Definition push_u32 (buf : list byte) (value : Z) : list byte := buf ++ be_bytes 4 value.
Definition push_u64 (buf : list byte) (value : Z) : list byte := buf ++ be_bytes 8 value.

Definition push_bytes (buf data : list byte) : list byte :=
  push_u32 buf (as_u32 (vec_len data)) ++ data.

Definition push_string (buf : list byte) (s : string) : list byte :=
  push_bytes buf (as_bytes s).

Definition push_attrs (buf : list byte) (attrs : SftpFileAttrs) : list byte :=
  let buf := push_u32 buf (flags attrs) in
  let buf := if has_flag (flags attrs) SSH_FILEXFER_ATTR_SIZE
             then push_u64 buf (default 0 (size attrs)) else buf in
  let buf := if has_flag (flags attrs) SSH_FILEXFER_ATTR_UIDGID
             then let buf := push_u32 buf (default 0 (uid attrs)) in
                  push_u32 buf (default 0 (gid attrs))
             else buf in
  let buf := if has_flag (flags attrs) SSH_FILEXFER_ATTR_PERMISSIONS
             then push_u32 buf (default 0 (permissions attrs)) else buf in
  let buf := if has_flag (flags attrs) SSH_FILEXFER_ATTR_ACMODTIME
             then let buf := push_u32 buf (default 0 (atime attrs)) in
                  push_u32 buf (default 0 (mtime attrs))
             else buf in
  buf.

(** The length field is computed in [u32]. *)
Definition frame (packet_type : Z) (payload : list byte) : list byte :=
  let len := wrap 32 (1 + as_u32 (vec_len payload)) in
  let buf := push_u32 [] len in
  let buf := buf ++ [z2b packet_type] in
  buf ++ payload.

(** ** Client requests *)

Definition encode_init (version : Z) : list byte :=
  let buf := push_u32 [] version in
  let buf := push_u32 buf 0 in
  frame FXP_INIT buf.

Definition encode_open (id : Z) (filename : string) (pflags : Z) (attrs : SftpFileAttrs) :
    list byte :=
  let buf := push_u32 [] id in
  let buf := push_string buf filename in
  let buf := push_u32 buf pflags in
  let buf := push_attrs buf attrs in
  frame FXP_OPEN buf.

Definition encode_close (id : Z) (handle : string) : list byte :=
  let buf := push_u32 [] id in
  let buf := push_string buf handle in
  frame FXP_CLOSE buf.

Definition encode_read (id : Z) (handle : string) (offset len : Z) : list byte :=
  let buf := push_u32 [] id in
  let buf := push_string buf handle in
  let buf := push_u64 buf offset in
  let buf := push_u32 buf len in
  frame FXP_READ buf.

Definition encode_write (id : Z) (handle : string) (offset : Z) (data : list byte) :
    list byte :=
  let buf := push_u32 [] id in
  let buf := push_string buf handle in
  let buf := push_u64 buf offset in
  let buf := push_bytes buf data in
  frame FXP_WRITE buf.

Definition encode_stat (id : Z) (path : string) : list byte :=
  let buf := push_u32 [] id in
  let buf := push_string buf path in
  frame FXP_STAT buf.

Definition encode_lstat (id : Z) (path : string) : list byte :=
  let buf := push_u32 [] id in
  let buf := push_string buf path in
  frame FXP_LSTAT buf.

Definition encode_fstat (id : Z) (handle : string) : list byte :=
  let buf := push_u32 [] id in
  let buf := push_string buf handle in
  frame FXP_FSTAT buf.

Definition encode_setstat (id : Z) (path : string) (attrs : SftpFileAttrs) : list byte :=
  let buf := push_u32 [] id in
  let buf := push_string buf path in
  let buf := push_attrs buf attrs in
  frame FXP_SETSTAT buf.

Definition encode_opendir (id : Z) (path : string) : list byte :=
  let buf := push_u32 [] id in
  let buf := push_string buf path in
  frame FXP_OPENDIR buf.

Definition encode_readdir (id : Z) (handle : string) : list byte :=
  let buf := push_u32 [] id in
  let buf := push_string buf handle in
  frame FXP_READDIR buf.

Definition encode_remove (id : Z) (filename : string) : list byte :=
  let buf := push_u32 [] id in
  let buf := push_string buf filename in
  frame FXP_REMOVE buf.

Definition encode_mkdir (id : Z) (path : string) (attrs : SftpFileAttrs) : list byte :=
  let buf := push_u32 [] id in
  let buf := push_string buf path in
  let buf := push_attrs buf attrs in
  frame FXP_MKDIR buf.

Definition encode_rmdir (id : Z) (path : string) : list byte :=
  let buf := push_u32 [] id in
  let buf := push_string buf path in
  frame FXP_RMDIR buf.

Definition encode_realpath (id : Z) (path : string) : list byte :=
  let buf := push_u32 [] id in
  let buf := push_string buf path in
  frame FXP_REALPATH buf.

Definition encode_rename (id : Z) (oldpath newpath : string) : list byte :=
  let buf := push_u32 [] id in
  let buf := push_string buf oldpath in
  let buf := push_string buf newpath in
  frame FXP_RENAME buf.

Definition encode_readlink (id : Z) (path : string) : list byte :=
  let buf := push_u32 [] id in
  let buf := push_string buf path in
  frame FXP_READLINK buf.

Definition encode_symlink (id : Z) (linkpath targetpath : string) : list byte :=
  let buf := push_u32 [] id in
  let buf := push_string buf linkpath in
  let buf := push_string buf targetpath in
  frame FXP_SYMLINK buf.

Definition encode_fsetstat (id : Z) (handle : string) (attrs : SftpFileAttrs) : list byte :=
  let buf := push_u32 [] id in
  let buf := push_string buf handle in
  let buf := push_attrs buf attrs in
  frame FXP_FSETSTAT buf.

(** ** Popping from a payload *)

(** A decoder reads [data] at [pos] and returns the new position. *)
Definition parser (A : Type) : Type := list byte → nat → Result (A * nat).

#[export] Instance parser_ret : MRet parser := λ A a data pos, Ok (a, pos).
#[export] Instance parser_bind : MBind parser :=
  λ A B f p data pos, '(a, pos') ← p data pos; f a data pos'.

Definition fail {A} (e : Error) : parser A := λ _ _, Err e.

(** Give a decoder access to the payload and the current position. *)
Definition here {A} (f : list byte → nat → parser A) : parser A :=
  λ data pos, f data pos data pos.

(** Start at [let mut pos = 0] and drop the final position. *)
Definition run {A} (p : parser A) (payload : list byte) : Result A :=
  fst <$> p payload 0%nat.

Definition check_bounds (data : list byte) (pos needed : nat) : Result unit :=
  if (length data <? pos + needed)%nat then
    Err (Error_sftp Protocol
      ("SFTP packet truncated: need " +:+ dec (Z.of_nat needed) +:+ " bytes at position "
       +:+ dec (Z.of_nat pos) +:+ ", have " +:+ dec (Z.of_nat (length data - pos))))
  else Ok ().

(** [data[pos..pos + n]]. *)
Definition slice (data : list byte) (pos n : nat) : list byte := take n (drop pos data).

Definition pop_u32 : parser Z := λ data pos,
  _ ← check_bounds data pos 4; Ok (from_be (slice data pos 4), (pos + 4)%nat).

Definition pop_u64 : parser Z := λ data pos,
  _ ← check_bounds data pos 8; Ok (from_be (slice data pos 8), (pos + 8)%nat).

Definition pop_bytes : parser (list byte) := λ data pos,
  '(len, pos) ← pop_u32 data pos;
  if MAX_SFTP_PACKET_SIZE <? len then
    Err (Error_sftp Protocol
      ("SFTP byte length " +:+ dec len +:+ " exceeds maximum "
       +:+ dec MAX_SFTP_PACKET_SIZE))
  else
    let len := Z.to_nat len in
    _ ← check_bounds data pos len; Ok (slice data pos len, (pos + len)%nat).

Definition pop_string : parser string := λ data pos,
  '(bytes, pos) ← pop_bytes data pos;
  if utf8_valid bytes then Ok (of_bytes bytes, pos)
  else Err (Error_sftp Protocol "SFTP string is not valid UTF-8").

(** [if cond { Some(p) } else { None }]. *)
Definition pop_if {A} (cond : bool) (p : parser A) : parser (option A) :=
  if cond then (a ← p; mret (Some a)) else mret None.

Definition pop_attrs : parser SftpFileAttrs :=
  flags ← pop_u32;
  size ← pop_if (has_flag flags SSH_FILEXFER_ATTR_SIZE) pop_u64;
  uid ← pop_if (has_flag flags SSH_FILEXFER_ATTR_UIDGID) pop_u32;
  gid ← pop_if (has_flag flags SSH_FILEXFER_ATTR_UIDGID) pop_u32;
  permissions ← pop_if (has_flag flags SSH_FILEXFER_ATTR_PERMISSIONS) pop_u32;
  atime ← pop_if (has_flag flags SSH_FILEXFER_ATTR_ACMODTIME) pop_u32;
  mtime ← pop_if (has_flag flags SSH_FILEXFER_ATTR_ACMODTIME) pop_u32;
  let attrs := {| flags := flags; size := size; uid := uid; gid := gid;
                  permissions := permissions; atime := atime; mtime := mtime |} in
  if has_flag flags SSH_FILEXFER_ATTR_EXTENDED then
    extended_count ← pop_u32;
    if 0 <? extended_count then
      fail (Error_sftp Protocol "extended file attributes are not supported")
    else mret attrs
  else mret attrs.

(** ** Decoding responses *)

(** [data.len().saturating_sub(pos) / unit], then capped. *)
Definition bounded_count (count : Z) (unit cap : Z) (data : list byte) (pos : nat) : nat :=
  Z.to_nat (Z.min (Z.min count (Z.of_nat (length data - pos) / unit)) cap).

Fixpoint pop_extensions (n : nat) (extensions : gmap string string) :
    parser (gmap string string) :=
  match n with
  | O => mret extensions
  | S n' =>
      key ← pop_string;
      value ← pop_string;
      pop_extensions n' (<[key := value]> extensions)
  end.

Definition decode_version (payload : list byte) : Result (Z * gmap string string) :=
  run (version ← pop_u32;
       count ← pop_u32;
       extensions ← here (λ data pos,
         pop_extensions (bounded_count count 8 128 data pos) ∅);
       mret (version, extensions)) payload.

Definition decode_status (payload : list byte) : Result (Z * Z * string) :=
  run (id ← pop_u32;
       code ← pop_u32;
       msg ← pop_string;
       _lang ← pop_string;
       mret (id, code, msg)) payload.

Definition decode_handle (payload : list byte) : Result (Z * string) :=
  run (id ← pop_u32;
       handle ← pop_string;
       mret (id, handle)) payload.

Definition decode_data (payload : list byte) : Result (Z * list byte) :=
  run (id ← pop_u32;
       data ← pop_bytes;
       mret (id, data)) payload.

Definition pop_name_entry : parser SftpNameEntry :=
  filename ← pop_string;
  longname ← pop_string;
  attrs ← pop_attrs;
  mret {| ne_filename := filename; ne_longname := longname; ne_attrs := attrs |}.

Fixpoint pop_entries (n : nat) : parser (list SftpNameEntry) :=
  match n with
  | O => mret []
  | S n' =>
      entry ← pop_name_entry;
      entries ← pop_entries n';
      mret (entry :: entries)
  end.

Definition decode_name (payload : list byte) : Result (Z * list SftpNameEntry) :=
  run (id ← pop_u32;
       count ← pop_u32;
       entries ← here (λ data pos, pop_entries (bounded_count count 16 65536 data pos));
       mret (id, entries)) payload.

Definition decode_attrs (payload : list byte) : Result (Z * SftpFileAttrs) :=
  run (id ← pop_u32;
       attrs ← pop_attrs;
       mret (id, attrs)) payload.

Definition decode_packet_type (payload : list byte) : Result Z :=
  match payload with
  | [] => Err (Error_sftp Protocol "empty SFTP packet")
  | b :: _ => Ok (b2z b)
  end.

(** ** Status codes *)

Definition sftp_error_kind_for_code (code : Z) : SftpErrorKind :=
  if code =? SSH_FX_NO_SUCH_FILE then NoSuchFile
  else if code =? SSH_FX_PERMISSION_DENIED then PermissionDenied
  else if code =? SSH_FX_BAD_MESSAGE then Protocol
  else if code =? SSH_FX_OP_UNSUPPORTED then Unsupported
  else RemoteStatus.

Definition check_status (status_code : Z) (message : string) : Result unit :=
  if status_code =? SSH_FX_OK then Ok ()
  else Err (Error_sftp (sftp_error_kind_for_code status_code)
              ("SFTP error code " +:+ dec status_code +:+ ": " +:+ message)).

Definition status_code_name (code : Z) : string :=
  if code =? SSH_FX_OK then "OK"
  else if code =? SSH_FX_EOF then "EOF"
  else if code =? SSH_FX_NO_SUCH_FILE then "NO_SUCH_FILE"
  else if code =? SSH_FX_PERMISSION_DENIED then "PERMISSION_DENIED"
  else if code =? SSH_FX_FAILURE then "FAILURE"
  else if code =? SSH_FX_BAD_MESSAGE then "BAD_MESSAGE"
  else if code =? SSH_FX_NO_CONNECTION then "NO_CONNECTION"
  else if code =? SSH_FX_CONNECTION_LOST then "CONNECTION_LOST"
  else if code =? SSH_FX_OP_UNSUPPORTED then "OP_UNSUPPORTED"
  else "UNKNOWN".

(** ** Decoding requests (server side) *)

Definition decode_init_request (payload : list byte) : Result (Z * gmap string string) :=
  '(version, extensions) ← decode_version payload; Ok (version, extensions).

Definition decode_open_request (payload : list byte) :
    Result (Z * string * Z * SftpFileAttrs) :=
  run (id ← pop_u32;
       filename ← pop_string;
       pflags ← pop_u32;
       attrs ← pop_attrs;
       mret (id, filename, pflags, attrs)) payload.

Definition decode_close_request (payload : list byte) : Result (Z * string) :=
  run (id ← pop_u32; handle ← pop_string; mret (id, handle)) payload.

Definition decode_read_request (payload : list byte) : Result (Z * string * Z * Z) :=
  run (id ← pop_u32;
       handle ← pop_string;
       offset ← pop_u64;
       len ← pop_u32;
       mret (id, handle, offset, len)) payload.

Definition decode_write_request (payload : list byte) :
    Result (Z * string * Z * list byte) :=
  run (id ← pop_u32;
       handle ← pop_string;
       offset ← pop_u64;
       data ← pop_bytes;
       mret (id, handle, offset, data)) payload.

Definition decode_remove_request (payload : list byte) : Result (Z * string) :=
  run (id ← pop_u32; filename ← pop_string; mret (id, filename)) payload.

Definition decode_mkdir_request (payload : list byte) : Result (Z * string * SftpFileAttrs) :=
  run (id ← pop_u32; path ← pop_string; attrs ← pop_attrs; mret (id, path, attrs)) payload.

Definition decode_rmdir_request (payload : list byte) : Result (Z * string) :=
  run (id ← pop_u32; path ← pop_string; mret (id, path)) payload.

Definition decode_opendir_request (payload : list byte) : Result (Z * string) :=
  run (id ← pop_u32; path ← pop_string; mret (id, path)) payload.

Definition decode_readdir_request (payload : list byte) : Result (Z * string) :=
  run (id ← pop_u32; handle ← pop_string; mret (id, handle)) payload.

Definition decode_stat_request (payload : list byte) : Result (Z * string) :=
  run (id ← pop_u32; path ← pop_string; mret (id, path)) payload.

Definition decode_lstat_request (payload : list byte) : Result (Z * string) :=
  run (id ← pop_u32; path ← pop_string; mret (id, path)) payload.

Definition decode_fstat_request (payload : list byte) : Result (Z * string) :=
  run (id ← pop_u32; handle ← pop_string; mret (id, handle)) payload.

Definition decode_setstat_request (payload : list byte) :
    Result (Z * string * SftpFileAttrs) :=
  run (id ← pop_u32; path ← pop_string; attrs ← pop_attrs; mret (id, path, attrs)) payload.

Definition decode_fsetstat_request (payload : list byte) :
    Result (Z * string * SftpFileAttrs) :=
  run (id ← pop_u32; handle ← pop_string; attrs ← pop_attrs; mret (id, handle, attrs)) payload.

Definition decode_realpath_request (payload : list byte) : Result (Z * string) :=
  run (id ← pop_u32; path ← pop_string; mret (id, path)) payload.

Definition decode_rename_request (payload : list byte) : Result (Z * string * string) :=
  run (id ← pop_u32; oldpath ← pop_string; newpath ← pop_string;
       mret (id, oldpath, newpath)) payload.

Definition decode_readlink_request (payload : list byte) : Result (Z * string) :=
  run (id ← pop_u32; path ← pop_string; mret (id, path)) payload.

Definition decode_symlink_request (payload : list byte) : Result (Z * string * string) :=
  run (id ← pop_u32; linkpath ← pop_string; targetpath ← pop_string;
       mret (id, linkpath, targetpath)) payload.

(** ** Encoding responses (server side) *)

Definition push_pairs (buf : list byte) (l : list (string * string)) : list byte :=
  fold_left (λ buf '(key, value), push_string (push_string buf key) value) l buf.

(** A [HashMap] is iterated in an unspecified order, here that of [map_to_list]. *)
Definition encode_version_response (version : Z) (extensions : gmap string string) :
    list byte :=
  let buf := push_u32 [] version in
  let buf := push_u32 buf (as_u32 (Z.of_nat (stdpp.base.size extensions))) in
  let buf := push_pairs buf (map_to_list extensions) in
  frame FXP_VERSION buf.

Definition encode_status_response (id code : Z) (msg : string) : list byte :=
  let buf := push_u32 [] id in
  let buf := push_u32 buf code in
  let buf := push_string buf msg in
  let buf := push_string buf "en" in
  frame FXP_STATUS buf.

Definition encode_handle_response (id : Z) (handle : string) : list byte :=
  let buf := push_u32 [] id in
  let buf := push_string buf handle in
  frame FXP_HANDLE buf.

Definition encode_data_response (id : Z) (data : list byte) : list byte :=
  let buf := push_u32 [] id in
  let buf := push_bytes buf data in
  frame FXP_DATA buf.

Definition push_entries (buf : list byte) (entries : list SftpNameEntry) : list byte :=
  fold_left
    (λ buf entry,
       let buf := push_string buf (ne_filename entry) in
       let buf := push_string buf (ne_longname entry) in
       push_attrs buf (ne_attrs entry))
    entries buf.

Definition encode_name_response (id : Z) (entries : list SftpNameEntry) : list byte :=
  let buf := push_u32 [] id in
  let buf := push_u32 buf (as_u32 (Z.of_nat (length entries))) in
  let buf := push_entries buf entries in
  frame FXP_NAME buf.

Definition encode_attrs_response (id : Z) (attrs : SftpFileAttrs) : list byte :=
  let buf := push_u32 [] id in
  let buf := push_attrs buf attrs in
  frame FXP_ATTRS buf.
