(* ===== verification/SftpWire.v ===== *)
(** * Laws of the SFTP wire format

    [parses p enc v] says that decoder [p] consumes exactly the bytes [enc],
    wherever they stand in a payload, and returns [v].  It composes along
    [bind], so that each decoder is proved inverse to its encoder by following
    the two definitions field by field. *)
From S2P Require Import Prelude RustStr Channel CoreError SftpPacket.

Create HintDb wire discriminated.
Create Rewrite HintDb wire.
#[global] Arguments be_bytes : simpl never.
#[global] Arguments push_bytes : simpl never.
#[global] Arguments push_attrs : simpl never.
#[global] Arguments frame : simpl never.

Definition parses {A} (p : parser A) (enc : list byte) (v : A) : Prop :=
  ∀ pre rest,
    p (pre ++ enc ++ rest) (length pre) = Ok (v, (length pre + length enc)%nat).

(** The bytes each push appends. *)
Definition enc_bytes (data : list byte) : list byte := push_bytes [] data.
Definition enc_string (s : string) : list byte := push_string [] s.
Definition enc_attrs (a : SftpFileAttrs) : list byte := push_attrs [] a.
Definition if_bytes (b : bool) (l : list byte) : list byte := if b then l else [].

Definition enc_entry (e : SftpNameEntry) : list byte :=
  enc_string (ne_filename e) ++ enc_string (ne_longname e) ++ enc_attrs (ne_attrs e).

(** What the wire carries of an attribute record: a flagged field is present,
    an unflagged one absent. *)
Definition wire_field (b : bool) (o : option Z) : option Z :=
  if b then Some (default 0 o) else None.

Definition attrs_wire (a : SftpFileAttrs) : SftpFileAttrs :=
  let f := has_flag (flags a) in
  {| flags := flags a;
     size := wire_field (f SSH_FILEXFER_ATTR_SIZE) (size a);
     uid := wire_field (f SSH_FILEXFER_ATTR_UIDGID) (uid a);
     gid := wire_field (f SSH_FILEXFER_ATTR_UIDGID) (gid a);
     permissions := wire_field (f SSH_FILEXFER_ATTR_PERMISSIONS) (permissions a);
     atime := wire_field (f SSH_FILEXFER_ATTR_ACMODTIME) (atime a);
     mtime := wire_field (f SSH_FILEXFER_ATTR_ACMODTIME) (mtime a) |}.

(** The values a Rust [SftpFileAttrs] can hold, without the extension bit. *)
Definition opt_fits (w : Z) (o : option Z) : Prop := fits w (default 0 o).

Definition attrs_typed (a : SftpFileAttrs) : Prop :=
  is_u32 (flags a) ∧ opt_fits 64 (size a) ∧ opt_fits 32 (uid a) ∧ opt_fits 32 (gid a) ∧
  opt_fits 32 (permissions a) ∧ opt_fits 32 (atime a) ∧ opt_fits 32 (mtime a).

Definition attrs_plain (a : SftpFileAttrs) : Prop :=
  attrs_typed a ∧ has_flag (flags a) SSH_FILEXFER_ATTR_EXTENDED = false.

Definition wire_bytes (data : list byte) : Prop := vec_len data ≤ MAX_SFTP_PACKET_SIZE.
Definition wire_str (s : string) : Prop := is_str s ∧ wire_bytes (as_bytes s).
Definition wire_entry (e : SftpNameEntry) : Prop :=
  wire_str (ne_filename e) ∧ wire_str (ne_longname e) ∧ attrs_plain (ne_attrs e).

(** ** Composition *)

Lemma parses_ret {A} (v : A) : parses (mret v) [] v.
Proof. intros pre rest. cbn. by rewrite Nat.add_0_r. Qed.

Lemma parses_bind {A B} (p : parser A) (k : A → parser B) e1 e2 v1 v2 :
  parses p e1 v1 → parses (k v1) e2 v2 → parses (p ≫= k) (e1 ++ e2) v2.
Proof.
  intros Hp Hk pre rest. unfold mbind, parser_bind.
  rewrite <-app_assoc, Hp. cbn [mbind result_bind].
  rewrite app_assoc, <-length_app, Hk. by rewrite !length_app, Nat.add_assoc.
Qed.

Lemma parses_step {A B} (p : parser A) (k : A → parser B) enc v pre rest :
  parses p enc v →
  (p ≫= k) (pre ++ enc ++ rest) (length pre)
  = k v (pre ++ enc ++ rest) (length (pre ++ enc)).
Proof.
  intros Hp. unfold mbind, parser_bind. rewrite Hp. cbn [mbind result_bind].
  by rewrite length_app.
Qed.

(** The last [bind] of a decoder returns without reading. *)
Lemma parses_bind_ret {A B} (p : parser A) (k : A → parser B) e v1 v2 :
  parses p e v1 → k v1 = mret v2 → parses (p ≫= k) e v2.
Proof.
  intros Hp Hk. rewrite <-(app_nil_r e). eapply parses_bind; [done|].
  rewrite Hk. apply parses_ret.
Qed.

Lemma parses_run {A} (p : parser A) enc v : parses p enc v → run p enc = Ok v.
Proof. intros H. unfold run. specialize (H [] []). cbn in H. by rewrite app_nil_r in H; rewrite H. Qed.

Lemma parses_pop_if {A} (b : bool) (p : parser A) enc v :
  parses p enc v → parses (pop_if b p) (if_bytes b enc) (if b then Some v else None).
Proof.
  intros Hp. destruct b; cbn.
  - by eapply parses_bind_ret.
  - apply parses_ret.
Qed.

(** ** Primitive decoders *)

Lemma check_bounds_ok data pos n :
  (pos + n ≤ length data)%nat → check_bounds data pos n = Ok ().
Proof. intros H. unfold check_bounds. by rewrite (proj2 (Nat.ltb_ge _ _)). Qed.

Lemma check_bounds_err data pos n :
  (length data < pos + n)%nat →
  ∃ m, check_bounds data pos n = Err (Error_sftp Protocol m).
Proof. intros H. unfold check_bounds. rewrite (proj2 (Nat.ltb_lt _ _)) by done. eauto. Qed.

Lemma slice_app pre enc rest n :
  length enc = n → slice (pre ++ enc ++ rest) (length pre) n = enc.
Proof. intros <-. unfold slice. by rewrite drop_app_length, take_app_length. Qed.

Lemma check_bounds_app pre enc rest n :
  length enc = n → check_bounds (pre ++ enc ++ rest) (length pre) n = Ok ().
Proof. intros <-. apply check_bounds_ok. rewrite !length_app. lia. Qed.

Lemma parses_u32 v : is_u32 v → parses pop_u32 (be_bytes 4 v) v.
Proof.
  intros Hv pre rest. unfold pop_u32.
  rewrite check_bounds_app by apply length_be_bytes. cbn [mbind result_bind].
  rewrite slice_app, from_be_be_bytes, length_be_bytes by apply length_be_bytes.
  do 2 f_equal. by apply Z.mod_small.
Qed.

Lemma parses_u64 v : is_u64 v → parses pop_u64 (be_bytes 8 v) v.
Proof.
  intros Hv pre rest. unfold pop_u64.
  rewrite check_bounds_app by apply length_be_bytes. cbn [mbind result_bind].
  rewrite slice_app, from_be_be_bytes, length_be_bytes by apply length_be_bytes.
  do 2 f_equal. by apply Z.mod_small.
Qed.

Lemma vec_len_nonneg l : 0 ≤ vec_len l.
Proof. unfold vec_len. lia. Qed.

Lemma wire_bytes_u32 data : wire_bytes data → is_u32 (vec_len data).
Proof.
  unfold wire_bytes, MAX_SFTP_PACKET_SIZE, fits. pose proof (vec_len_nonneg data). lia.
Qed.

Lemma enc_bytes_eq data :
  wire_bytes data → enc_bytes data = be_bytes 4 (vec_len data) ++ data.
Proof.
  intros H%wire_bytes_u32. unfold enc_bytes, push_bytes, push_u32. by rewrite wrap_small.
Qed.

Lemma parses_bytes data : wire_bytes data → parses pop_bytes (enc_bytes data) data.
Proof.
  intros Hd pre rest. rewrite enc_bytes_eq by done. unfold pop_bytes.
  rewrite <-app_assoc, (parses_u32 (vec_len data)) by by apply wire_bytes_u32.
  cbn [mbind result_bind]. rewrite (proj2 (Z.ltb_ge _ _)) by done.
  rewrite app_assoc. unfold vec_len. rewrite Nat2Z.id, <-length_app.
  rewrite check_bounds_app by done. cbn [mbind result_bind].
  rewrite slice_app, !length_app by done. do 2 f_equal. lia.
Qed.

Lemma parses_string s : wire_str s → parses pop_string (enc_string s) s.
Proof.
  intros [Hs Hd] pre rest. unfold pop_string.
  change (enc_string s) with (enc_bytes (as_bytes s)).
  rewrite (parses_bytes _ Hd). cbn [mbind result_bind].
  by rewrite Hs, of_as_bytes.
Qed.

(** ** Attributes *)

Lemma push_attrs_app buf a : push_attrs buf a = buf ++ enc_attrs a.
Proof.
  unfold enc_attrs, push_attrs, push_u32, push_u64.
  repeat destruct (has_flag _ _); by rewrite <-?app_assoc.
Qed.

Lemma enc_attrs_eq a :
  enc_attrs a =
    be_bytes 4 (flags a)
    ++ if_bytes (has_flag (flags a) SSH_FILEXFER_ATTR_SIZE) (be_bytes 8 (default 0 (size a)))
    ++ if_bytes (has_flag (flags a) SSH_FILEXFER_ATTR_UIDGID) (be_bytes 4 (default 0 (uid a)))
    ++ if_bytes (has_flag (flags a) SSH_FILEXFER_ATTR_UIDGID) (be_bytes 4 (default 0 (gid a)))
    ++ if_bytes (has_flag (flags a) SSH_FILEXFER_ATTR_PERMISSIONS)
         (be_bytes 4 (default 0 (permissions a)))
    ++ if_bytes (has_flag (flags a) SSH_FILEXFER_ATTR_ACMODTIME) (be_bytes 4 (default 0 (atime a)))
    ++ if_bytes (has_flag (flags a) SSH_FILEXFER_ATTR_ACMODTIME) (be_bytes 4 (default 0 (mtime a))).
Proof.
  unfold enc_attrs, push_attrs, push_u32, push_u64, if_bytes.
  repeat destruct (has_flag _ _); rewrite <-?app_assoc, ?app_nil_r; done.
Qed.

Lemma parses_attrs a : attrs_plain a → parses pop_attrs (enc_attrs a) (attrs_wire a).
Proof.
  intros [(Hf & Hs & Hu & Hg & Hp & Ha & Hm) Hext]. rewrite enc_attrs_eq. unfold pop_attrs.
  eapply parses_bind; [by apply parses_u32|].
  eapply parses_bind; [by apply parses_pop_if, parses_u64|].
  do 4 (eapply parses_bind; [by apply parses_pop_if, parses_u32|]).
  eapply parses_bind_ret; [by apply parses_pop_if, parses_u32|].
  cbn zeta. by rewrite Hext.
Qed.

(** ** Packets *)

Lemma push_u32_app buf v : push_u32 buf v = buf ++ be_bytes 4 v.
Proof. done. Qed.

Lemma push_u64_app buf v : push_u64 buf v = buf ++ be_bytes 8 v.
Proof. done. Qed.

Lemma push_bytes_app buf d : push_bytes buf d = buf ++ enc_bytes d.
Proof. unfold enc_bytes, push_bytes, push_u32. by rewrite <-app_assoc. Qed.

Lemma push_string_app buf s : push_string buf s = buf ++ enc_string s.
Proof. apply push_bytes_app. Qed.

Lemma push_entries_app buf l : push_entries buf l = buf ++ concat (map enc_entry l).
Proof.
  unfold push_entries. revert buf. induction l as [|e l IH]; intros buf; cbn [fold_left map concat].
  - by rewrite app_nil_r.
  - rewrite IH, push_attrs_app, !push_string_app. unfold enc_entry. by rewrite <-!app_assoc.
Qed.

#[export] Hint Rewrite push_u32_app push_u64_app push_bytes_app push_string_app
  push_attrs_app push_entries_app : wire.
#[export] Hint Resolve parses_u32 parses_u64 parses_bytes parses_string parses_attrs : wire.

Lemma frame_eq t payload :
  frame t payload
  = be_bytes 4 (wrap 32 (1 + as_u32 (vec_len payload))) ++ z2b t :: payload.
Proof. unfold frame, push_u32. by rewrite <-app_assoc. Qed.

(** Decode one encoded packet: skip the four length bytes and the type byte,
    then follow the fields. *)
Ltac wire_fields :=
  repeat first
    [ eapply parses_bind_ret; [solve [eauto with wire] | reflexivity]
    | eapply parses_bind; [solve [eauto with wire] |]].

Ltac wire :=
  intros; autorewrite with wire; cbn [app]; rewrite <-?app_assoc;
  apply parses_run; wire_fields.

Lemma drop_frame t payload : drop 5 (frame t payload) = payload.
Proof.
  rewrite frame_eq.
  change (drop 5 (be_bytes 4 ?[l] ++ z2b t :: payload)) with payload. done.
Qed.

Lemma parses_entry e :
  wire_entry e →
  parses pop_name_entry (enc_entry e)
    {| ne_filename := ne_filename e; ne_longname := ne_longname e;
       ne_attrs := attrs_wire (ne_attrs e) |}.
Proof. intros (? & ? & ?). unfold enc_entry, pop_name_entry. wire_fields. Qed.

Definition entry_wire (e : SftpNameEntry) : SftpNameEntry :=
  {| ne_filename := ne_filename e; ne_longname := ne_longname e;
     ne_attrs := attrs_wire (ne_attrs e) |}.

Lemma parses_entries l :
  Forall wire_entry l →
  parses (pop_entries (length l)) (concat (map enc_entry l)) (map entry_wire l).
Proof.
  induction 1 as [|e l He Hl IH]; cbn; [apply parses_ret|].
  eapply parses_bind; [by apply parses_entry|]. by eapply parses_bind_ret.
Qed.

(** ** All requests at once *)

(** The requests a client can send, as one sum. *)
Inductive Request :=
| ROpen (filename : string) (pflags : Z) (attrs : SftpFileAttrs)
| RClose (handle : string)
| RRead (handle : string) (offset len : Z)
| RWrite (handle : string) (offset : Z) (data : list byte)
| RRemove (filename : string)
| RRename (oldpath newpath : string)
| RMkdir (path : string) (attrs : SftpFileAttrs)
| RRmdir (path : string)
| ROpendir (path : string)
| RReaddir (handle : string)
| RStat (path : string)
| RLstat (path : string)
| RFstat (handle : string)
| RSetstat (path : string) (attrs : SftpFileAttrs)
| RFsetstat (handle : string) (attrs : SftpFileAttrs)
| RRealpath (path : string)
| RReadlink (path : string)
| RSymlink (linkpath targetpath : string).

(** The packet the client builds for a request: type byte and payload. *)
Definition encode_request (id : Z) (r : Request) : list byte :=
  match r with
  | ROpen f p a => encode_open id f p a
  | RClose h => encode_close id h
  | RRead h o n => encode_read id h o n
  | RWrite h o d => encode_write id h o d
  | RRemove f => encode_remove id f
  | RRename o n => encode_rename id o n
  | RMkdir p a => encode_mkdir id p a
  | RRmdir p => encode_rmdir id p
  | ROpendir p => encode_opendir id p
  | RReaddir h => encode_readdir id h
  | RStat p => encode_stat id p
  | RLstat p => encode_lstat id p
  | RFstat h => encode_fstat id h
  | RSetstat p a => encode_setstat id p a
  | RFsetstat h a => encode_fsetstat id h a
  | RRealpath p => encode_realpath id p
  | RReadlink p => encode_readlink id p
  | RSymlink l t => encode_symlink id l t
  end.

(** The server's reading of a packet, by its type byte. *)
Definition decode_body (t : Z) (body : list byte) : Result (Z * Request) :=
  if t =? FXP_OPEN then
    '(id, f, p, a) ← decode_open_request body; Ok (id, ROpen f p a)
  else if t =? FXP_CLOSE then '(id, h) ← decode_close_request body; Ok (id, RClose h)
  else if t =? FXP_READ then
    '(id, h, o, n) ← decode_read_request body; Ok (id, RRead h o n)
  else if t =? FXP_WRITE then
    '(id, h, o, d) ← decode_write_request body; Ok (id, RWrite h o d)
  else if t =? FXP_REMOVE then '(id, f) ← decode_remove_request body; Ok (id, RRemove f)
  else if t =? FXP_RENAME then
    '(id, o, n) ← decode_rename_request body; Ok (id, RRename o n)
  else if t =? FXP_MKDIR then '(id, p, a) ← decode_mkdir_request body; Ok (id, RMkdir p a)
  else if t =? FXP_RMDIR then '(id, p) ← decode_rmdir_request body; Ok (id, RRmdir p)
  else if t =? FXP_OPENDIR then '(id, p) ← decode_opendir_request body; Ok (id, ROpendir p)
  else if t =? FXP_READDIR then '(id, h) ← decode_readdir_request body; Ok (id, RReaddir h)
  else if t =? FXP_STAT then '(id, p) ← decode_stat_request body; Ok (id, RStat p)
  else if t =? FXP_LSTAT then '(id, p) ← decode_lstat_request body; Ok (id, RLstat p)
  else if t =? FXP_FSTAT then '(id, h) ← decode_fstat_request body; Ok (id, RFstat h)
  else if t =? FXP_SETSTAT then
    '(id, p, a) ← decode_setstat_request body; Ok (id, RSetstat p a)
  else if t =? FXP_FSETSTAT then
    '(id, h, a) ← decode_fsetstat_request body; Ok (id, RFsetstat h a)
  else if t =? FXP_REALPATH then '(id, p) ← decode_realpath_request body; Ok (id, RRealpath p)
  else if t =? FXP_READLINK then '(id, p) ← decode_readlink_request body; Ok (id, RReadlink p)
  else if t =? FXP_SYMLINK then
    '(id, l, x) ← decode_symlink_request body; Ok (id, RSymlink l x)
  else Err (Error_sftp Unsupported "unsupported SFTP operation").

Definition decode_request (packet : list byte) : Result (Z * Request) :=
  t ← decode_packet_type packet; decode_body t (drop 1 packet).

(** The layout of each request on the wire. *)
Definition request_type (r : Request) : Z :=
  match r with
  | ROpen _ _ _ => FXP_OPEN | RClose _ => FXP_CLOSE | RRead _ _ _ => FXP_READ
  | RWrite _ _ _ => FXP_WRITE | RRemove _ => FXP_REMOVE | RRename _ _ => FXP_RENAME
  | RMkdir _ _ => FXP_MKDIR | RRmdir _ => FXP_RMDIR | ROpendir _ => FXP_OPENDIR
  | RReaddir _ => FXP_READDIR | RStat _ => FXP_STAT | RLstat _ => FXP_LSTAT
  | RFstat _ => FXP_FSTAT | RSetstat _ _ => FXP_SETSTAT | RFsetstat _ _ => FXP_FSETSTAT
  | RRealpath _ => FXP_REALPATH | RReadlink _ => FXP_READLINK | RSymlink _ _ => FXP_SYMLINK
  end.

Definition request_fields (r : Request) : list byte :=
  match r with
  | ROpen f p a => enc_string f ++ be_bytes 4 p ++ enc_attrs a
  | RRead h o n => enc_string h ++ be_bytes 8 o ++ be_bytes 4 n
  | RWrite h o d => enc_string h ++ be_bytes 8 o ++ enc_bytes d
  | RRename a b | RSymlink a b => enc_string a ++ enc_string b
  | RMkdir p a | RSetstat p a | RFsetstat p a => enc_string p ++ enc_attrs a
  | RClose s | RRemove s | RRmdir s | ROpendir s | RReaddir s | RStat s | RLstat s
  | RFstat s | RRealpath s | RReadlink s => enc_string s
  end.

Definition request_wire (r : Request) : Request :=
  match r with
  | ROpen f p a => ROpen f p (attrs_wire a)
  | RMkdir p a => RMkdir p (attrs_wire a)
  | RSetstat p a => RSetstat p (attrs_wire a)
  | RFsetstat h a => RFsetstat h (attrs_wire a)
  | r => r
  end.

(** The arguments have their Rust types, strings and data fit the receiver's
    size limit, and no extension flag is set. *)
Definition request_ok (r : Request) : Prop :=
  match r with
  | ROpen f p a => wire_str f ∧ is_u32 p ∧ attrs_plain a
  | RRead h o n => wire_str h ∧ is_u64 o ∧ is_u32 n
  | RWrite h o d => wire_str h ∧ is_u64 o ∧ wire_bytes d
  | RRename a b | RSymlink a b => wire_str a ∧ wire_str b
  | RMkdir p a | RSetstat p a | RFsetstat p a => wire_str p ∧ attrs_plain a
  | RClose s | RRemove s | RRmdir s | ROpendir s | RReaddir s | RStat s | RLstat s
  | RFstat s | RRealpath s | RReadlink s => wire_str s
  end.

Lemma drop4_frame t payload : drop 4 (frame t payload) = z2b t :: payload.
Proof. rewrite frame_eq. reflexivity. Qed.

Lemma decode_request_frame t payload :
  0 ≤ t < 256 → decode_request (drop 4 (frame t payload)) = decode_body t payload.
Proof.
  intros Ht. rewrite drop4_frame. unfold decode_request. cbn [decode_packet_type].
  cbn [mbind result_bind]. by rewrite b2z_z2b, Z.mod_small.
Qed.

Lemma encode_request_frame id r :
  encode_request id r = frame (request_type r) (be_bytes 4 id ++ request_fields r).
Proof.
  destruct r; cbn [encode_request request_type request_fields].
  - unfold encode_open. autorewrite with wire. by rewrite <-!app_assoc.
  - unfold encode_close. by autorewrite with wire.
  - unfold encode_read. autorewrite with wire. by rewrite <-!app_assoc.
  - unfold encode_write. autorewrite with wire. by rewrite <-!app_assoc.
  - unfold encode_remove. by autorewrite with wire.
  - unfold encode_rename. autorewrite with wire. by rewrite <-!app_assoc.
  - unfold encode_mkdir. autorewrite with wire. by rewrite <-!app_assoc.
  - unfold encode_rmdir. by autorewrite with wire.
  - unfold encode_opendir. by autorewrite with wire.
  - unfold encode_readdir. by autorewrite with wire.
  - unfold encode_stat. by autorewrite with wire.
  - unfold encode_lstat. by autorewrite with wire.
  - unfold encode_fstat. by autorewrite with wire.
  - unfold encode_setstat. autorewrite with wire. by rewrite <-!app_assoc.
  - unfold encode_fsetstat. autorewrite with wire. by rewrite <-!app_assoc.
  - unfold encode_realpath. by autorewrite with wire.
  - unfold encode_readlink. by autorewrite with wire.
  - unfold encode_symlink. autorewrite with wire. by rewrite <-!app_assoc.
Qed.

(** Evaluate the tests on the type byte. *)
Ltac type_tests :=
  repeat match goal with
  | |- context [if ?a =? ?b then _ else _] =>
      let v := eval vm_compute in (a =? b) in
      replace (a =? b) with v by (vm_compute; reflexivity); cbv iota
  end.

(** Replace [run p payload] by the value the encoder put there. *)
Ltac wire_run := erewrite parses_run; [|solve [wire_fields]]; reflexivity.

Lemma decode_request_fields id r :
  is_u32 id → request_ok r →
  decode_body (request_type r) (be_bytes 4 id ++ request_fields r) = Ok (id, request_wire r).
Proof.
  intros Hid Hr. unfold decode_body.
  destruct r; cbn [request_ok] in Hr; destruct_and?; cbn [request_type request_fields];
    type_tests.
  - unfold decode_open_request. wire_run.
  - unfold decode_close_request. wire_run.
  - unfold decode_read_request. wire_run.
  - unfold decode_write_request. wire_run.
  - unfold decode_remove_request. wire_run.
  - unfold decode_rename_request. wire_run.
  - unfold decode_mkdir_request. wire_run.
  - unfold decode_rmdir_request. wire_run.
  - unfold decode_opendir_request. wire_run.
  - unfold decode_readdir_request. wire_run.
  - unfold decode_stat_request. wire_run.
  - unfold decode_lstat_request. wire_run.
  - unfold decode_fstat_request. wire_run.
  - unfold decode_setstat_request. wire_run.
  - unfold decode_fsetstat_request. wire_run.
  - unfold decode_realpath_request. wire_run.
  - unfold decode_readlink_request. wire_run.
  - unfold decode_symlink_request. wire_run.
Qed.

Lemma request_type_byte r : 0 ≤ request_type r < 256.
Proof. by destruct r. Qed.

(** Client and server agree on every request: what the server decodes from the
    packet the client sends is the request, with its id. *)
Lemma decode_encode_request id r :
  is_u32 id → request_ok r →
  decode_request (drop 4 (encode_request id r)) = Ok (id, request_wire r).
Proof.
  intros. rewrite encode_request_frame, decode_request_frame by apply request_type_byte.
  by apply decode_request_fields.
Qed.

(** ** Name lists *)

(** [decode_name] takes the announced count, but never more than one entry per
    sixteen remaining bytes, and never more than 65536. *)
Definition names_size (l : list SftpNameEntry) : Z := vec_len (concat (map enc_entry l)).
Definition names_kept (l : list SftpNameEntry) : nat :=
  Z.to_nat (Z.min (Z.min (Z.of_nat (length l)) (names_size l / 16)) 65536).

Lemma names_kept_le l : (names_kept l ≤ length l)%nat.
Proof.
  unfold names_kept, names_size. pose proof (vec_len_nonneg (concat (map enc_entry l))).
  assert (0 ≤ vec_len (concat (map enc_entry l)) / 16) by zdm. lia.
Qed.

Lemma decode_name_fields id l :
  is_u32 id → Z.of_nat (length l) < 2 ^ 32 → Forall wire_entry l →
  decode_name (be_bytes 4 id ++ be_bytes 4 (as_u32 (Z.of_nat (length l)))
               ++ concat (map enc_entry l))
  = Ok (id, map entry_wire (take (names_kept l) l)).
Proof.
  intros Hid Hlen Hl.
  assert (Hc : is_u32 (Z.of_nat (length l))) by (unfold fits; lia).
  rewrite wrap_small by done. set (n := Z.of_nat (length l)) in *.
  set (body := concat (map enc_entry l)). set (k := names_kept l).
  assert (Hk : length (take k l) = k) by (rewrite length_take_le; [done|apply names_kept_le]).
  assert (Hb : body = concat (map enc_entry (take k l)) ++ concat (map enc_entry (drop k l))).
  { subst body. by rewrite <-concat_app, <-map_app, take_drop. }
  pose proof (parses_entries (take k l) ltac:(by apply Forall_take)) as He. rewrite Hk in He.
  unfold decode_name, run.
  change ((be_bytes 4 id ++ ?x)) with ([] ++ be_bytes 4 id ++ x).
  change 0%nat with (@length byte []).
  rewrite (parses_step _ _ _ _ _ _ (parses_u32 id Hid)). cbn [app].
  rewrite (parses_step _ _ _ _ _ _ (parses_u32 n Hc)). unfold here.
  unfold mbind at 1, parser_bind at 1.
  replace (bounded_count n 16 65536 _ _) with k; last first.
  { unfold bounded_count, k, names_kept, names_size, vec_len. fold body n.
    rewrite !length_app, !length_be_bytes. do 4 f_equal. lia. }
  rewrite app_assoc, Hb, He. reflexivity.
Qed.

(** Nothing is lost when the entries are sixteen bytes long on average. *)
Definition names_fit (l : list SftpNameEntry) : Prop :=
  Z.of_nat (length l) ≤ 65536 ∧ 16 * Z.of_nat (length l) ≤ names_size l.

Lemma names_kept_all l : names_fit l → names_kept l = length l.
Proof. intros [H1 H2]. unfold names_kept. assert (Z.of_nat (length l) ≤ names_size l / 16) by zdm. lia. Qed.

(** ** Responses *)

Lemma decode_status_fields id code msg :
  is_u32 id → is_u32 code → wire_str msg →
  decode_status (be_bytes 4 id ++ be_bytes 4 code ++ enc_string msg ++ enc_string "en")
  = Ok (id, code, msg).
Proof.
  intros. assert (wire_str "en") by done. unfold decode_status.
  erewrite parses_run; [|solve [wire_fields]]. reflexivity.
Qed.

Lemma decode_handle_fields id h :
  is_u32 id → wire_str h → decode_handle (be_bytes 4 id ++ enc_string h) = Ok (id, h).
Proof. intros. unfold decode_handle. erewrite parses_run; [|solve [wire_fields]]. done. Qed.

Lemma decode_data_fields id d :
  is_u32 id → wire_bytes d → decode_data (be_bytes 4 id ++ enc_bytes d) = Ok (id, d).
Proof. intros. unfold decode_data. erewrite parses_run; [|solve [wire_fields]]. done. Qed.

Lemma decode_attrs_fields id a :
  is_u32 id → attrs_plain a →
  decode_attrs (be_bytes 4 id ++ enc_attrs a) = Ok (id, attrs_wire a).
Proof. intros. unfold decode_attrs. erewrite parses_run; [|solve [wire_fields]]. done. Qed.

(** ** Truncated packets *)

(** [cuts p enc]: on any proper prefix of [enc] the decoder fails, with a
    protocol error. *)
Definition protocol_error {A} (r : Result A) : Prop :=
  ∃ m, r = Err (Error_sftp Protocol m).

Definition cuts {A} (p : parser A) (enc : list byte) : Prop :=
  ∀ pre n, (n < length enc)%nat → protocol_error (p (pre ++ take n enc) (length pre)).

Lemma protocol_error_bind {A B} (r : Result A) (k : A → Result B) :
  protocol_error r → protocol_error (r ≫= k).
Proof. intros [m ->]. by exists m. Qed.

Lemma cuts_bind {A B} (p : parser A) (k : A → parser B) e1 e2 v1 :
  parses p e1 v1 → cuts p e1 → cuts (k v1) e2 → cuts (p ≫= k) (e1 ++ e2).
Proof.
  intros Hp Hc1 Hc2 pre n Hn. rewrite length_app in Hn. unfold mbind, parser_bind.
  destruct (decide (n < length e1)%nat) as [H1|H1].
  - rewrite take_app_le by lia. by apply protocol_error_bind, Hc1.
  - rewrite take_app_ge, Hp by lia. cbn [mbind result_bind].
    rewrite app_assoc, <-length_app. apply Hc2. lia.
Qed.

Lemma cuts_bind_ret {A B} (p : parser A) (k : A → parser B) e :
  cuts p e → cuts (p ≫= k) e.
Proof. intros Hc pre n Hn. unfold mbind, parser_bind. by apply protocol_error_bind, Hc. Qed.

Lemma cut_bounds pre (l : list byte) n k :
  (length l < k)%nat → (n ≤ length l)%nat →
  protocol_error (check_bounds (pre ++ take n l) (length pre) k).
Proof. intros. apply check_bounds_err. rewrite length_app, length_take. lia. Qed.

Lemma short_bounds pre (l : list byte) k :
  (length l < k)%nat → protocol_error (check_bounds (pre ++ l) (length pre) k).
Proof. intros. apply check_bounds_err. rewrite length_app. lia. Qed.

Lemma cuts_u32 v : cuts pop_u32 (be_bytes 4 v).
Proof.
  intros pre n Hn. unfold pop_u32. apply protocol_error_bind, short_bounds.
  rewrite length_take, length_be_bytes in *. lia.
Qed.

Lemma cuts_u64 v : cuts pop_u64 (be_bytes 8 v).
Proof.
  intros pre n Hn. unfold pop_u64. apply protocol_error_bind, short_bounds.
  rewrite length_take, length_be_bytes in *. lia.
Qed.

Lemma cuts_bytes data : wire_bytes data → cuts pop_bytes (enc_bytes data).
Proof.
  intros Hd. rewrite enc_bytes_eq by done. intros pre n Hn. unfold pop_bytes.
  rewrite length_app, length_be_bytes in Hn.
  destruct (decide (n < 4)%nat) as [H4|H4].
  - rewrite take_app_le by (rewrite length_be_bytes; lia).
    apply protocol_error_bind, cuts_u32. rewrite length_be_bytes. lia.
  - rewrite take_app_ge by (rewrite length_be_bytes; lia). rewrite length_be_bytes.
    rewrite (parses_u32 (vec_len data)) by by apply wire_bytes_u32.
    cbn [mbind result_bind]. rewrite (proj2 (Z.ltb_ge _ _)) by done.
    rewrite app_assoc, <-length_app.
    apply protocol_error_bind, short_bounds. unfold vec_len. rewrite length_take. lia.
Qed.

Lemma cuts_string s : wire_str s → cuts pop_string (enc_string s).
Proof.
  intros [_ Hd] pre n Hn. unfold pop_string.
  by apply protocol_error_bind, (cuts_bytes (as_bytes s)).
Qed.

Lemma cuts_pop_if {A} (b : bool) (p : parser A) enc :
  cuts p enc → cuts (pop_if b p) (if_bytes b enc).
Proof. intros Hp. destruct b; [by apply cuts_bind_ret|]. intros pre n Hn. simpl in Hn. lia. Qed.

Lemma cuts_attrs a : attrs_plain a → cuts pop_attrs (enc_attrs a).
Proof.
  intros [(Hf & Hs & Hu & Hg & Hp & Ha & Hm) _]. rewrite enc_attrs_eq. unfold pop_attrs.
  eapply cuts_bind; [by apply parses_u32|by apply cuts_u32|].
  eapply cuts_bind; [by apply parses_pop_if, parses_u64|by apply cuts_pop_if, cuts_u64|].
  do 4 (eapply cuts_bind; [by apply parses_pop_if, parses_u32|by apply cuts_pop_if, cuts_u32|]).
  apply cuts_bind_ret. by apply cuts_pop_if, cuts_u32.
Qed.

#[export] Hint Resolve cuts_u32 cuts_u64 cuts_bytes cuts_string cuts_attrs : wire.

Lemma cuts_run {A} (p : parser A) enc n :
  cuts p enc → (n < length enc)%nat → protocol_error (run p (take n enc)).
Proof. intros Hc Hn. destruct (Hc [] n Hn) as [m Hm]. exists m. unfold run. cbn in Hm. by rewrite Hm. Qed.

Ltac cut_fields :=
  repeat first
    [ eapply cuts_bind; [solve [eauto with wire]|solve [eauto with wire]|]
    | apply cuts_bind_ret; solve [eauto with wire] ].

Lemma decode_request_cut id r n :
  is_u32 id → request_ok r → (n < length (be_bytes 4 id ++ request_fields r))%nat →
  protocol_error (decode_body (request_type r) (take n (be_bytes 4 id ++ request_fields r))).
Proof.
  intros Hid Hr Hn. unfold decode_body.
  destruct r; cbn [request_ok] in Hr; destruct_and?; cbn [request_type request_fields] in *;
    type_tests; apply protocol_error_bind; (eapply cuts_run; [|exact Hn]); cut_fields.
Qed.
