(* ===== verification/SftpFraming.v ===== *)
(** * Packet reassembly

    The client's [read_task] ([sftp/client.rs]) and the server's [handle_data]
    ([sftp/server.rs]) cut the incoming byte stream into packets with the same
    loop; [split_packets] is that loop.  The laws say that cutting does not
    depend on how the stream was chunked, and that it recovers the packets that
    were framed. *)
From S2P Require Import Prelude RustStr Channel CoreError SftpPacket SftpWire.

(** How the loop ends: it waits for more bytes, or it saw a length field it
    refuses. *)
Inductive SplitEnd :=
| NeedMore (buf : list byte)
| BadLength (len_u32 : Z).

Definition bad_length (len_u32 : Z) : bool :=
  (MAX_SFTP_PACKET_SIZE <? len_u32) || (len_u32 =? 0).

(** Each turn removes at least five bytes, so [length buf] turns are enough. *)
Fixpoint split_go (fuel : nat) (buf : list byte) : list (list byte) * SplitEnd :=
  if (length buf <? 4)%nat then ([], NeedMore buf)
  else
    let len_u32 := from_be (slice buf 0 4) in
    if bad_length len_u32 then ([], BadLength len_u32)
    else
      let len := Z.to_nat len_u32 in
      if (length buf <? 4 + len)%nat then ([], NeedMore buf)
      else
        match fuel with
        | O => ([], NeedMore buf)
        | S f =>
            let packet := slice buf 4 len in
            let '(packets, e) := split_go f (drop (4 + len) buf) in
            (packet :: packets, e)
        end.

Definition split_packets (buf : list byte) : list (list byte) * SplitEnd :=
  split_go (length buf) buf.

(** Feeding a sequence of chunks to the loop, keeping the tail in between. *)
Fixpoint feed (buf : list byte) (chunks : list (list byte)) :
    list (list byte) * SplitEnd :=
  match chunks with
  | [] => ([], NeedMore buf)
  | c :: cs =>
      let '(ps, e) := split_packets (buf ++ c) in
      match e with
      | NeedMore rest => let '(qs, e') := feed rest cs in (ps ++ qs, e')
      | BadLength l => (ps, BadLength l)
      end
  end.

(** A packet body that the receiver accepts. *)
Definition framed (body : list byte) : list byte := be_bytes 4 (vec_len body) ++ body.
Definition body_ok (body : list byte) : Prop := 0 < vec_len body ≤ MAX_SFTP_PACKET_SIZE.

(** ** Laws *)

Lemma bad_length_false l : bad_length l = false ↔ l ≤ MAX_SFTP_PACKET_SIZE ∧ l ≠ 0.
Proof. unfold bad_length. rewrite orb_false_iff, Z.ltb_ge, Z.eqb_neq. done. Qed.

Lemma split_go_fuel f g buf :
  (length buf ≤ f)%nat → (length buf ≤ g)%nat → split_go f buf = split_go g buf.
Proof.
  revert g buf. induction f as [|f IH]; intros g buf Hf Hg.
  - destruct buf; [|simpl in Hf; lia]. by destruct g.
  - destruct g as [|g]; [destruct buf; [done|simpl in Hg; lia]|]. cbn [split_go].
    destruct (Nat.ltb_spec (length buf) 4); [done|].
    destruct (bad_length _); [done|].
    destruct (Nat.ltb_spec (length buf) (4 + Z.to_nat (from_be (slice buf 0 4)))); [done|].
    by rewrite (IH g) by (rewrite length_drop; lia).
Qed.

(** One turn of the loop. *)
Lemma split_packets_unfold buf :
  split_packets buf =
    if (length buf <? 4)%nat then ([], NeedMore buf)
    else
      let l := from_be (slice buf 0 4) in
      if bad_length l then ([], BadLength l)
      else if (length buf <? 4 + Z.to_nat l)%nat then ([], NeedMore buf)
      else
        let '(packets, e) := split_packets (drop (4 + Z.to_nat l) buf) in
        (slice buf 4 (Z.to_nat l) :: packets, e).
Proof.
  unfold split_packets at 1. destruct buf as [|b buf]; [done|].
  set (B := b :: buf). change (length B) with (S (length buf)) at 1. cbn [split_go].
  destruct (Nat.ltb_spec (length B) 4); [done|]. destruct (bad_length _); [done|].
  destruct (Nat.ltb_spec (length B) (4 + Z.to_nat (from_be (slice B 0 4)))); [done|].
  unfold split_packets. rewrite (split_go_fuel _ (length (drop (4 + Z.to_nat
    (from_be (slice B 0 4))) B))); [done| |lia].
  rewrite length_drop. subst B. simpl. lia.
Qed.

Lemma slice_app_l l1 l2 pos n :
  (pos + n ≤ length l1)%nat → slice (l1 ++ l2) pos n = slice l1 pos n.
Proof.
  intros. unfold slice. rewrite drop_app_le by lia. rewrite take_app_le; [done|].
  rewrite length_drop. lia.
Qed.

(** The packets cut from a stream do not depend on where it was interrupted. *)
Lemma split_packets_app b1 b2 :
  split_packets (b1 ++ b2) =
    let '(ps, e) := split_packets b1 in
    match e with
    | NeedMore rest => let '(qs, e') := split_packets (rest ++ b2) in (ps ++ qs, e')
    | BadLength l => (ps, BadLength l)
    end.
Proof.
  remember (length b1) as n eqn:Hn. revert b1 Hn.
  induction n as [n IH] using lt_wf_ind; intros b1 Hn.
  rewrite (split_packets_unfold b1).
  destruct (Nat.ltb_spec (length b1) 4) as [H4|H4].
  { simpl. by destruct (split_packets _). }
  cbv zeta. destruct (bad_length _) eqn:Hb.
  { rewrite split_packets_unfold, (proj2 (Nat.ltb_ge _ _)) by (rewrite length_app; lia).
    cbv zeta. rewrite slice_app_l by lia. by rewrite Hb. }
  destruct (Nat.ltb_spec (length b1) (4 + Z.to_nat (from_be (slice b1 0 4)))) as [Hl|Hl].
  { simpl. by destruct (split_packets _). }
  rewrite (split_packets_unfold (b1 ++ b2)).
  rewrite (proj2 (Nat.ltb_ge _ 4)) by (rewrite length_app; lia). cbv zeta.
  rewrite slice_app_l, Hb by lia.
  rewrite (proj2 (Nat.ltb_ge _ _)) by (rewrite length_app; lia).
  rewrite drop_app_le, slice_app_l by lia.
  rewrite (IH (length (drop (4 + Z.to_nat (from_be (slice b1 0 4))) b1)));
    [|rewrite length_drop; lia|done].
  destruct (split_packets (drop _ b1)) as [ps [rest|l]]; [|done].
  by destruct (split_packets (rest ++ b2)).
Qed.

Lemma split_packets_nil : split_packets [] = ([], NeedMore []).
Proof. done. Qed.

(** What the loop leaves in the buffer is not cuttable any further. *)
Lemma split_packets_rest buf ps rest :
  split_packets buf = (ps, NeedMore rest) → split_packets rest = ([], NeedMore rest).
Proof.
  intros H. pose proof (split_packets_app buf []) as E.
  rewrite app_nil_r, H, app_nil_r in E. destruct (split_packets rest) as [qs e].
  injection E as E1 E2. rewrite <-E2.
  by rewrite (app_inv_head ps [] qs) by by rewrite app_nil_r.
Qed.

Lemma feed_concat buf chunks :
  split_packets buf = ([], NeedMore buf) →
  feed buf chunks = split_packets (buf ++ concat chunks).
Proof.
  revert buf. induction chunks as [|c cs IH]; intros buf Hb; cbn [feed concat].
  - by rewrite app_nil_r.
  - rewrite app_assoc, (split_packets_app (buf ++ c)).
    destruct (split_packets (buf ++ c)) as [ps [rest|l]] eqn:E; [|done].
    by rewrite IH by by eapply split_packets_rest.
Qed.

Lemma slice_head enc rest n : length enc = n → slice (enc ++ rest) 0 n = enc.
Proof. apply (slice_app []). Qed.

Lemma split_packets_framed body rest :
  body_ok body →
  split_packets (framed body ++ rest) =
    let '(ps, e) := split_packets rest in (body :: ps, e).
Proof.
  intros [H0 H1].
  assert (Hu : is_u32 (vec_len body)).
  { unfold fits, MAX_SFTP_PACKET_SIZE in *. lia. }
  assert (Hlen : length (be_bytes 4 (vec_len body)) = 4%nat) by apply length_be_bytes.
  rewrite split_packets_unfold. unfold framed. rewrite <-app_assoc.
  rewrite (proj2 (Nat.ltb_ge _ 4)) by (rewrite length_app, Hlen; lia). cbv zeta.
  rewrite slice_head by done.
  rewrite from_be_be_bytes, Z.mod_small by exact Hu.
  rewrite (proj2 (bad_length_false _)) by lia.
  rewrite (proj2 (Nat.ltb_ge _ _)) by (rewrite !length_app, Hlen; unfold vec_len; lia).
  replace (Z.to_nat (vec_len body)) with (length body) by (unfold vec_len; lia).
  replace (4 + length body)%nat with (length (be_bytes 4 (vec_len body) ++ body))
    by (rewrite length_app, Hlen; done).
  rewrite app_assoc, drop_app_length, <-app_assoc.
  replace 4%nat with (length (be_bytes 4 (vec_len body))) at 2. by rewrite slice_app.
Qed.

Lemma split_packets_frames bodies :
  Forall body_ok bodies →
  split_packets (concat (map framed bodies)) = (bodies, NeedMore []).
Proof.
  induction 1 as [|b bs Hb Hbs IH]; [done|]. cbn [map concat].
  by rewrite split_packets_framed, IH.
Qed.

Lemma frame_framed t payload :
  vec_len payload < MAX_SFTP_PACKET_SIZE → frame t payload = framed (z2b t :: payload).
Proof.
  intros H. pose proof (vec_len_nonneg payload). rewrite frame_eq. unfold framed.
  replace (vec_len (z2b t :: payload)) with (1 + vec_len payload)
    by (unfold vec_len; simpl; lia).
  unfold MAX_SFTP_PACKET_SIZE in H.
  rewrite (wrap_small 32 (vec_len payload)), wrap_small by (unfold fits; lia).
  done.
Qed.
