(* ===== verification/SftpTypes.v ===== *)
(** * SFTP domain types ([russh-extra/src/sftp/types.rs])

    Metadata, directory entries, open modes, and the conversions between the
    public metadata and the packet attributes. *)
From S2P Require Import Prelude RustStr Channel CoreError SftpPacket SftpWire.

(** ** Metadata *)

Record SftpMetadata := {
  m_size : option Z;
  m_uid : option Z;
  m_gid : option Z;
  m_permissions : option Z;
  m_accessed : option Z;
  m_modified : option Z;
}.

#[export] Instance SftpMetadata_eq_dec : EqDecision SftpMetadata.
Proof. solve_decision. Defined.

Definition SftpMetadata_new (size uid gid permissions accessed modified : option Z) :
    SftpMetadata :=
  {| m_size := size; m_uid := uid; m_gid := gid; m_permissions := permissions;
     m_accessed := accessed; m_modified := modified |}.

Definition SftpMetadata_default : SftpMetadata := SftpMetadata_new None None None None None None.

(** [v as u64] of a [u32] is [v]. *)
Definition SftpMetadata_from_packet (attrs : SftpFileAttrs) : SftpMetadata :=
  {| m_size := size attrs; m_uid := uid attrs; m_gid := gid attrs;
     m_permissions := permissions attrs; m_accessed := atime attrs;
     m_modified := mtime attrs |}.

Definition set_flag (a : SftpFileAttrs) (mask : Z) : SftpFileAttrs :=
  {| flags := Z.lor (flags a) mask; size := size a; uid := uid a; gid := gid a;
     permissions := permissions a; atime := atime a; mtime := mtime a |}.

Definition set_size (a : SftpFileAttrs) (v : Z) : SftpFileAttrs :=
  {| flags := flags a; size := Some v; uid := uid a; gid := gid a;
     permissions := permissions a; atime := atime a; mtime := mtime a |}.

Definition set_ids (a : SftpFileAttrs) (u g : Z) : SftpFileAttrs :=
  {| flags := flags a; size := size a; uid := Some u; gid := Some g;
     permissions := permissions a; atime := atime a; mtime := mtime a |}.

Definition set_permissions (a : SftpFileAttrs) (v : Z) : SftpFileAttrs :=
  {| flags := flags a; size := size a; uid := uid a; gid := gid a;
     permissions := Some v; atime := atime a; mtime := mtime a |}.

Definition set_times (a : SftpFileAttrs) (t u : Z) : SftpFileAttrs :=
  {| flags := flags a; size := size a; uid := uid a; gid := gid a;
     permissions := permissions a; atime := Some t; mtime := Some u |}.

Definition is_some {A} (o : option A) : bool := match o with Some _ => true | None => false end.

Definition SftpMetadata_to_packet (m : SftpMetadata) : SftpFileAttrs :=
  let attrs := SftpFileAttrs_default in
  let attrs :=
    match m_size m with
    | Some size => set_size (set_flag attrs SSH_FILEXFER_ATTR_SIZE) size
    | None => attrs
    end in
  let attrs :=
    if is_some (m_uid m) || is_some (m_gid m) then
      set_ids (set_flag attrs SSH_FILEXFER_ATTR_UIDGID)
        (default 0 (m_uid m)) (default 0 (m_gid m))
    else attrs in
  let attrs :=
    match m_permissions m with
    | Some perm => set_permissions (set_flag attrs SSH_FILEXFER_ATTR_PERMISSIONS) perm
    | None => attrs
    end in
  match m_accessed m with
  | Some atime =>
      set_times (set_flag attrs SSH_FILEXFER_ATTR_ACMODTIME)
        (as_u32 atime) (default 0 (as_u32 <$> m_modified m))
  | None =>
      match m_modified m with
      | Some mtime =>
          set_times (set_flag attrs SSH_FILEXFER_ATTR_ACMODTIME) 0 (as_u32 mtime)
      | None => attrs
      end
  end.

Definition SftpMetadata_with_size (m : SftpMetadata) (v : Z) : SftpMetadata :=
  {| m_size := Some v; m_uid := m_uid m; m_gid := m_gid m;
     m_permissions := m_permissions m; m_accessed := m_accessed m;
     m_modified := m_modified m |}.

Definition SftpMetadata_with_permissions (m : SftpMetadata) (v : Z) : SftpMetadata :=
  {| m_size := m_size m; m_uid := m_uid m; m_gid := m_gid m;
     m_permissions := Some v; m_accessed := m_accessed m;
     m_modified := m_modified m |}.

Definition SftpMetadata_with_uid_gid (m : SftpMetadata) (u g : Z) : SftpMetadata :=
  {| m_size := m_size m; m_uid := Some u; m_gid := Some g;
     m_permissions := m_permissions m; m_accessed := m_accessed m;
     m_modified := m_modified m |}.

Definition SftpMetadata_with_accessed (m : SftpMetadata) (v : Z) : SftpMetadata :=
  {| m_size := m_size m; m_uid := m_uid m; m_gid := m_gid m;
     m_permissions := m_permissions m; m_accessed := Some v;
     m_modified := m_modified m |}.

Definition SftpMetadata_with_modified (m : SftpMetadata) (v : Z) : SftpMetadata :=
  {| m_size := m_size m; m_uid := m_uid m; m_gid := m_gid m;
     m_permissions := m_permissions m; m_accessed := m_accessed m;
     m_modified := Some v |}.

(** [{perm:o}]. *)
Fixpoint oct_go (fuel : nat) (n : Z) (acc : string) : string :=
  match fuel with
  | O => acc
  | S f =>
      let acc' := String (digit (n mod 8)) acc in
      if n <? 8 then acc' else oct_go f (n / 8) acc'
  end.

Definition oct (n : Z) : string := oct_go (S (Z.to_nat (Z.log2 n))) n "".

Definition field_display (name : string) (show : Z → string) (o : option Z) : string :=
  match o with Some v => name +:+ "=" +:+ show v +:+ ", " | None => "" end.

Definition SftpMetadata_display (m : SftpMetadata) : string :=
  "SftpMetadata { "
  +:+ field_display "size" dec (m_size m)
  +:+ field_display "perm" oct (m_permissions m)
  +:+ field_display "uid" dec (m_uid m)
  +:+ field_display "gid" dec (m_gid m)
  +:+ "}".

(** ** Directory entries *)

Record SftpDirEntry := {
  de_filename : string;
  de_longname : string;
  de_metadata : SftpMetadata;
}.

Definition SftpDirEntry_from_packet (filename longname : string) (attrs : SftpFileAttrs) :
    SftpDirEntry :=
  {| de_filename := filename; de_longname := longname;
     de_metadata := SftpMetadata_from_packet attrs |}.

Definition SftpDirEntry_new (filename longname : string) (metadata : SftpMetadata) :
    SftpDirEntry :=
  {| de_filename := filename; de_longname := longname; de_metadata := metadata |}.

Definition SftpDirEntry_to_name_entry (e : SftpDirEntry) : SftpNameEntry :=
  {| ne_filename := de_filename e; ne_longname := de_longname e;
     ne_attrs := SftpMetadata_to_packet (de_metadata e) |}.

(** ** Open modes *)

Definition SftpOpenMode : Type := Z.
Definition OpenMode_READ : SftpOpenMode := 0x00000001.
Definition OpenMode_WRITE : SftpOpenMode := 0x00000002.
Definition OpenMode_APPEND : SftpOpenMode := 0x00000004.
Definition OpenMode_CREATE : SftpOpenMode := 0x00000008.
Definition OpenMode_TRUNCATE : SftpOpenMode := 0x00000010.
Definition OpenMode_EXCLUSIVE : SftpOpenMode := 0x00000020.
Definition OpenMode_bits (m : SftpOpenMode) : Z := m.
Definition OpenMode_bitor (a b : SftpOpenMode) : SftpOpenMode := Z.lor a b.

(** ** What a metadata value becomes on the wire *)

(** The Rust types of the fields. *)
Definition metadata_typed (m : SftpMetadata) : Prop :=
  opt_fits 64 (m_size m) ∧ opt_fits 32 (m_uid m) ∧ opt_fits 32 (m_gid m) ∧
  opt_fits 32 (m_permissions m).

(** Owner and group travel together, and so do the two times, cut to 32 bits;
    the missing half of a pair is sent as zero. *)
Definition pair_wire (f : Z → Z) (o other : option Z) : option Z :=
  if is_some o || is_some other then Some (default 0 (f <$> o)) else None.

Definition metadata_wire (m : SftpMetadata) : SftpMetadata :=
  {| m_size := m_size m;
     m_uid := pair_wire id (m_uid m) (m_gid m);
     m_gid := pair_wire id (m_gid m) (m_uid m);
     m_permissions := m_permissions m;
     m_accessed := pair_wire as_u32 (m_accessed m) (m_modified m);
     m_modified := pair_wire as_u32 (m_modified m) (m_accessed m) |}.

(** The metadata values that survive unchanged. *)
Definition metadata_paired (m : SftpMetadata) : Prop :=
  is_some (m_uid m) = is_some (m_gid m) ∧
  is_some (m_accessed m) = is_some (m_modified m) ∧
  opt_fits 32 (m_accessed m) ∧ opt_fits 32 (m_modified m).

Lemma opt_fits_wrap o : opt_fits 32 (as_u32 <$> o).
Proof. destruct o; unfold opt_fits; cbn; [by apply fits_wrap|done]. Qed.

Lemma default_wrap_fits o : fits 32 (default 0 (as_u32 <$> o)).
Proof. apply opt_fits_wrap. Qed.

Lemma to_packet_plain m : metadata_typed m → attrs_plain (SftpMetadata_to_packet m).
Proof.
  intros (Hs & Hu & Hg & Hp). unfold attrs_plain, attrs_typed, SftpMetadata_to_packet.
  destruct m as [[sz|] [u|] [g|] [p|] [a|] [t|]]; unfold opt_fits in *; cbn in *;
    repeat split; try done; try apply Hs; try apply Hu; try apply Hg; try apply Hp;
    apply fits_wrap; done.
Qed.

(** The record put in a packet, read back, is [metadata_wire]. *)
Lemma from_to_packet m :
  SftpMetadata_from_packet (attrs_wire (SftpMetadata_to_packet m)) = metadata_wire m.
Proof. by destruct m as [[sz|] [u|] [g|] [p|] [a|] [t|]]. Qed.

Lemma pair_wire_id f o other :
  is_some o = is_some other → (∀ v, o = Some v → f v = v) → pair_wire f o other = o.
Proof.
  destruct o as [v|], other; try done. unfold pair_wire. cbn. intros _ H.
  by rewrite H.
Qed.

Lemma metadata_wire_id m : metadata_paired m → metadata_wire m = m.
Proof.
  intros (Hi & Ht & Ha & Hm). destruct m as [sz u g p a t]. cbn in *.
  unfold metadata_wire; cbn. f_equal; apply pair_wire_id; try done.
  - intros v ->. by apply wrap_small.
  - intros v ->. by apply wrap_small.
Qed.

Lemma metadata_wire_idem m : metadata_wire (metadata_wire m) = metadata_wire m.
Proof.
  unfold metadata_wire; cbn.
  f_equal; unfold pair_wire; destruct (m_uid m), (m_gid m), (m_accessed m), (m_modified m);
    cbn; unfold wrap; by rewrite ?Z.mod_mod by done.
Qed.
