(* ===== verification/SftpServer.v ===== *)
(** * SFTP server runtime ([russh-extra/src/sftp/server.rs])

    [SftpServerHandler] is the trait an application implements: a class of
    operations over the application's own state [S].  [SftpServerRuntime] is the
    per-connection state; [dispatch_packet] decodes one packet, calls the
    handler and encodes its answer; [handle_data] reassembles packets from a
    channel's byte stream and answers them in order.  Sending on the SSH session
    is russh's: [session_data] with its outcome is a parameter. *)
From S2P Require Import Prelude RustStr Channel CoreError SftpPacket SftpWire SftpFraming.
From S2P Require Import SftpTypes.

(** ** The handler trait *)

Class SftpServerHandler (S : Type) := {
  h_init : Z → gmap string string → S → Result Z * S;
  h_open : Z → string → Z → SftpMetadata → S → Result string * S;
  h_close : Z → string → S → Result unit * S;
  h_read : Z → string → Z → Z → S → Result (list byte) * S;
  h_write : Z → string → Z → list byte → S → Result unit * S;
  h_remove : Z → string → S → Result unit * S;
  h_rename : Z → string → string → S → Result unit * S;
  h_mkdir : Z → string → SftpMetadata → S → Result unit * S;
  h_rmdir : Z → string → S → Result unit * S;
  h_opendir : Z → string → S → Result string * S;
  h_readdir : Z → string → S → Result (list SftpDirEntry) * S;
  h_stat : Z → string → S → Result SftpMetadata * S;
  h_lstat : Z → string → S → Result SftpMetadata * S;
  h_fstat : Z → string → S → Result SftpMetadata * S;
  h_setstat : Z → string → SftpMetadata → S → Result unit * S;
  h_fsetstat : Z → string → SftpMetadata → S → Result unit * S;
  h_realpath : Z → string → S → Result (list SftpDirEntry) * S;
  h_readlink : Z → string → S → Result (list SftpDirEntry) * S;
  h_symlink : Z → string → string → S → Result unit * S;
}.

Definition not_implemented {A} (op : string) : Result A :=
  Err (Error_sftp Unsupported (op +:+ " not implemented")).

(** The trait's default methods. *)
Definition default_handler {S : Type} : SftpServerHandler S := {|
  h_init := λ _version _extensions s, (Ok 3, s);
  h_open := λ _id _filename _pflags _attrs s, (not_implemented "open", s);
  h_close := λ _id _handle s, (Ok (), s);
  h_read := λ _id _handle _offset _len s, (not_implemented "read", s);
  h_write := λ _id _handle _offset _data s, (not_implemented "write", s);
  h_remove := λ _id _filename s, (not_implemented "remove", s);
  h_rename := λ _id _oldpath _newpath s, (not_implemented "rename", s);
  h_mkdir := λ _id _path _attrs s, (not_implemented "mkdir", s);
  h_rmdir := λ _id _path s, (not_implemented "rmdir", s);
  h_opendir := λ _id _path s, (not_implemented "opendir", s);
  h_readdir := λ _id _handle s, (not_implemented "readdir", s);
  h_stat := λ _id _path s, (not_implemented "stat", s);
  h_lstat := λ _id _path s, (not_implemented "lstat", s);
  h_fstat := λ _id _handle s, (not_implemented "fstat", s);
  h_setstat := λ _id _path _attrs s, (not_implemented "setstat", s);
  h_fsetstat := λ _id _handle _attrs s, (not_implemented "fsetstat", s);
  h_realpath := λ _id _path s, (not_implemented "realpath", s);
  h_readlink := λ _id _path s, (not_implemented "readlink", s);
  h_symlink := λ _id _linkpath _targetpath s, (not_implemented "symlink", s);
|}.

(** ** Errors as status responses *)

Section Server.
Context `{!StrDebug}.

Definition sftp_default_status (kind : SftpErrorKind) : Z * string :=
  match kind with
  | NoSuchFile => (SSH_FX_NO_SUCH_FILE, "no such file")
  | PermissionDenied => (SSH_FX_PERMISSION_DENIED, "permission denied")
  | Unsupported => (SSH_FX_OP_UNSUPPORTED, "unsupported operation")
  | Protocol => (SSH_FX_BAD_MESSAGE, "protocol error")
  | UnsupportedVersion => (SSH_FX_FAILURE, "unsupported version")
  | ChannelIo => (SSH_FX_FAILURE, "channel I/O error")
  | RemoteStatus => (SSH_FX_FAILURE, "internal error")
  | UnexpectedResponse => (SSH_FX_FAILURE, "internal error")
  end.

Definition sftp_status_from_error (error : Error) : Z * string :=
  match error with
  | ESftp sftp_err =>
      let '(code, default_msg) := sftp_default_status (err_kind sftp_err) in
      let msg := err_message sftp_err in
      let message := if String.eqb msg "" then default_msg else msg in
      (code, message)
  | _ => (SSH_FX_FAILURE, Error_display error)
  end.

Definition sftp_error_status (id : Z) (error : Error) : list byte :=
  let '(code, message) := sftp_status_from_error error in
  encode_status_response id code message.

(** ** Per-connection state *)

Record SftpServerRuntime := {
  buffers : gmap Z (list byte);
  channels : gset Z;
  negotiated : bool;
  version : Z;
}.

Definition SftpServerRuntime_new : SftpServerRuntime :=
  {| buffers := ∅; channels := ∅; negotiated := false; version := 3 |}.

Definition with_buffers (rt : SftpServerRuntime) (b : gmap Z (list byte)) (c : gset Z) :
    SftpServerRuntime :=
  {| buffers := b; channels := c; negotiated := negotiated rt; version := version rt |}.

Definition register_channel (channel : Z) (rt : SftpServerRuntime) : SftpServerRuntime :=
  with_buffers rt (<[channel := []]> (buffers rt)) ({[channel]} ∪ channels rt).

Definition is_sftp_channel (channel : Z) (rt : SftpServerRuntime) : bool :=
  bool_decide (channel ∈ channels rt).

Definition handle_channel_close (channel : Z) (rt : SftpServerRuntime) : SftpServerRuntime :=
  with_buffers rt (delete channel (buffers rt)) (channels rt ∖ {[channel]}).

(** ** Per-packet handlers *)

Context {S : Type} `{!SftpServerHandler S}.

(** A packet handler: reads the payload, may change the handler's state, and
    returns the response bytes or an error. *)
Definition reply : Type := Result (list byte) * S.

(** [let x = decode(payload)?; rest]. *)
Definition decoded {A} (r : Result A) (s : S) (k : A → reply) : reply :=
  match r with Ok a => k a | Err e => (Err e, s) end.

Definition ok_status (id : Z) (r : Result unit * S) : reply :=
  match r with
  | (Ok _, s) => (Ok (encode_status_response id SSH_FX_OK "OK"), s)
  | (Err e, s) => (Ok (sftp_error_status id e), s)
  end.

Definition handle_reply (id : Z) (r : Result string * S) : reply :=
  match r with
  | (Ok handle, s) => (Ok (encode_handle_response id handle), s)
  | (Err e, s) => (Ok (sftp_error_status id e), s)
  end.

Definition attrs_reply (id : Z) (r : Result SftpMetadata * S) : reply :=
  match r with
  | (Ok attrs, s) => (Ok (encode_attrs_response id (SftpMetadata_to_packet attrs)), s)
  | (Err e, s) => (Ok (sftp_error_status id e), s)
  end.

Definition name_reply (id : Z) (r : Result (list SftpDirEntry) * S) : reply :=
  match r with
  | (Ok entries, s) =>
      (Ok (encode_name_response id (map SftpDirEntry_to_name_entry entries)), s)
  | (Err e, s) => (Ok (sftp_error_status id e), s)
  end.

Definition handle_init (payload : list byte) (rt : SftpServerRuntime) (s : S) :
    Result (list byte) * (SftpServerRuntime * S) :=
  match decode_init_request payload with
  | Err e => (Err e, (rt, s))
  | Ok (v, extensions) =>
      if v <? 3 then (Ok (encode_version_response 3 ∅), (rt, s))
      else
        match h_init v extensions s with
        | (Err e, s') => (Err e, (rt, s'))
        | (Ok n, s') =>
            let rt' := {| buffers := buffers rt; channels := channels rt;
                          negotiated := true; version := Z.max n 3 |} in
            (Ok (encode_version_response (version rt') ∅), (rt', s'))
        end
  end.

Definition handle_open (payload : list byte) (s : S) : reply :=
  decoded (decode_open_request payload) s (λ '(id, filename, pflags, attrs),
    let metadata := SftpMetadata_from_packet attrs in
    handle_reply id (h_open id filename pflags metadata s)).

Definition handle_close (payload : list byte) (s : S) : reply :=
  decoded (decode_close_request payload) s (λ '(id, handle),
    ok_status id (h_close id handle s)).

Definition handle_read (payload : list byte) (s : S) : reply :=
  decoded (decode_read_request payload) s (λ '(id, handle, offset, len),
    match h_read id handle offset len s with
    | (Ok data, s') =>
        match data with
        | [] => (Ok (encode_status_response id SSH_FX_EOF "End of file"), s')
        | _ => (Ok (encode_data_response id data), s')
        end
    | (Err e, s') => (Ok (sftp_error_status id e), s')
    end).

Definition handle_write (payload : list byte) (s : S) : reply :=
  decoded (decode_write_request payload) s (λ '(id, handle, offset, data),
    ok_status id (h_write id handle offset data s)).

Definition handle_remove (payload : list byte) (s : S) : reply :=
  decoded (decode_remove_request payload) s (λ '(id, filename),
    ok_status id (h_remove id filename s)).

Definition handle_rename (payload : list byte) (s : S) : reply :=
  decoded (decode_rename_request payload) s (λ '(id, oldpath, newpath),
    ok_status id (h_rename id oldpath newpath s)).

Definition handle_mkdir (payload : list byte) (s : S) : reply :=
  decoded (decode_mkdir_request payload) s (λ '(id, path, attrs),
    let metadata := SftpMetadata_from_packet attrs in
    ok_status id (h_mkdir id path metadata s)).

Definition handle_rmdir (payload : list byte) (s : S) : reply :=
  decoded (decode_rmdir_request payload) s (λ '(id, path),
    ok_status id (h_rmdir id path s)).

Definition handle_opendir (payload : list byte) (s : S) : reply :=
  decoded (decode_opendir_request payload) s (λ '(id, path),
    handle_reply id (h_opendir id path s)).

Definition handle_readdir (payload : list byte) (s : S) : reply :=
  decoded (decode_readdir_request payload) s (λ '(id, handle),
    match h_readdir id handle s with
    | (Ok entries, s') =>
        match entries with
        | [] => (Ok (encode_status_response id SSH_FX_EOF "End of directory"), s')
        | _ => (Ok (encode_name_response id (map SftpDirEntry_to_name_entry entries)), s')
        end
    | (Err e, s') => (Ok (sftp_error_status id e), s')
    end).

Definition handle_stat (payload : list byte) (s : S) : reply :=
  decoded (decode_stat_request payload) s (λ '(id, path),
    attrs_reply id (h_stat id path s)).

Definition handle_lstat (payload : list byte) (s : S) : reply :=
  decoded (decode_lstat_request payload) s (λ '(id, path),
    attrs_reply id (h_lstat id path s)).

Definition handle_fstat (payload : list byte) (s : S) : reply :=
  decoded (decode_fstat_request payload) s (λ '(id, handle),
    attrs_reply id (h_fstat id handle s)).

Definition handle_setstat (payload : list byte) (s : S) : reply :=
  decoded (decode_setstat_request payload) s (λ '(id, path, attrs),
    let metadata := SftpMetadata_from_packet attrs in
    ok_status id (h_setstat id path metadata s)).

Definition handle_fsetstat (payload : list byte) (s : S) : reply :=
  decoded (decode_fsetstat_request payload) s (λ '(id, handle, attrs),
    let metadata := SftpMetadata_from_packet attrs in
    ok_status id (h_fsetstat id handle metadata s)).

Definition handle_realpath (payload : list byte) (s : S) : reply :=
  decoded (decode_realpath_request payload) s (λ '(id, path),
    name_reply id (h_realpath id path s)).

Definition handle_readlink (payload : list byte) (s : S) : reply :=
  decoded (decode_readlink_request payload) s (λ '(id, path),
    name_reply id (h_readlink id path s)).

Definition handle_symlink (payload : list byte) (s : S) : reply :=
  decoded (decode_symlink_request payload) s (λ '(id, linkpath, targetpath),
    ok_status id (h_symlink id linkpath targetpath s)).

(** All handlers but [handle_init] leave the runtime alone. *)
Definition keep (rt : SftpServerRuntime) (r : reply) :
    Result (list byte) * (SftpServerRuntime * S) :=
  (fst r, (rt, snd r)).

Definition dispatch_packet (packet : list byte) (rt : SftpServerRuntime) (s : S) :
    Result (list byte) * (SftpServerRuntime * S) :=
  match packet with
  | [] => (Err (Error_sftp Protocol "empty sftp packet"), (rt, s))
  | t :: body =>
      let t := b2z t in
      if t =? FXP_INIT then handle_init body rt s
      else if t =? FXP_OPEN then keep rt (handle_open body s)
      else if t =? FXP_CLOSE then keep rt (handle_close body s)
      else if t =? FXP_READ then keep rt (handle_read body s)
      else if t =? FXP_WRITE then keep rt (handle_write body s)
      else if t =? FXP_REMOVE then keep rt (handle_remove body s)
      else if t =? FXP_RENAME then keep rt (handle_rename body s)
      else if t =? FXP_MKDIR then keep rt (handle_mkdir body s)
      else if t =? FXP_RMDIR then keep rt (handle_rmdir body s)
      else if t =? FXP_OPENDIR then keep rt (handle_opendir body s)
      else if t =? FXP_READDIR then keep rt (handle_readdir body s)
      else if t =? FXP_STAT then keep rt (handle_stat body s)
      else if t =? FXP_LSTAT then keep rt (handle_lstat body s)
      else if t =? FXP_FSTAT then keep rt (handle_fstat body s)
      else if t =? FXP_SETSTAT then keep rt (handle_setstat body s)
      else if t =? FXP_FSETSTAT then keep rt (handle_fsetstat body s)
      else if t =? FXP_REALPATH then keep rt (handle_realpath body s)
      else if t =? FXP_READLINK then keep rt (handle_readlink body s)
      else if t =? FXP_SYMLINK then keep rt (handle_symlink body s)
      else (Ok (encode_status_response 0 SSH_FX_OP_UNSUPPORTED "unsupported SFTP operation"),
            (rt, s))
  end.

(** ** Incoming data *)

Context {W : Type} (session_data : Z → list byte → W → bool * W).

(** The [for packet in packets] loop: a failed request is not answered; a failed
    write ends the loop with an error. *)
Fixpoint answer_packets (channel : Z) (packets : list (list byte))
    (rt : SftpServerRuntime) (s : S) (w : W) : Result unit * (SftpServerRuntime * S * W) :=
  match packets with
  | [] => (Ok (), (rt, s, w))
  | packet :: packets' =>
      let '(response, (rt, s)) := dispatch_packet packet rt s in
      match response with
      | Err _ => answer_packets channel packets' rt s w
      | Ok resp =>
          let '(sent, w) := session_data channel resp w in
          if sent then answer_packets channel packets' rt s w
          else (Err (Error_sftp ChannelIo "failed to write sftp response"), (rt, s, w))
      end
  end.

Definition handle_data (channel : Z) (data : list byte) (rt : SftpServerRuntime)
    (s : S) (w : W) : Result unit * (SftpServerRuntime * S * W) :=
  match buffers rt !! channel with
  | None => (Err (Error_sftp ChannelIo "sftp channel not registered"), (rt, s, w))
  | Some buf =>
      match split_packets (buf ++ data) with
      | (_, BadLength _) => (Ok (), (handle_channel_close channel rt, s, w))
      | (packets, NeedMore rest) =>
          let rt := with_buffers rt (<[channel := rest]> (buffers rt)) (channels rt) in
          answer_packets channel packets rt s w
      end
  end.
End Server.
