(* ===== verification/SftpClient.v ===== *)
(** * SFTP client ([russh-extra/src/sftp/client.rs], [sftp/mod.rs], the handles of
    [sftp/types.rs])

    Responses and their decoding, the [expect_*] adapters, one operation per
    public method, the file and directory handles with their [Drop], and the
    chunked whole-file transfers.  Sending a packet and awaiting its response is
    a parameter here ([send_and_await]): the tasks behind it are modelled in
    [SftpTasks], and [SftpLoopback] plugs the modelled server in. *)
From S2P Require Import Prelude RustStr Channel CoreError SftpPacket SftpWire SftpFraming.
From S2P Require Import SftpTypes.

(** ** Responses *)

Inductive SftpResponse :=
| RespStatus (code : Z) (msg : string)
| RespHandle (handle : string)
| RespData (data : list byte)
| RespName (entries : list (string * string * SftpFileAttrs))
| RespAttrs (attrs : SftpFileAttrs).

Definition fallback_pop_id (data : list byte) : Z :=
  if (4 <=? length data)%nat then from_be (slice data 0 4) else 0.

(** A decoded response, or the error to hand to the request it belongs to. *)
Definition decoded_response : Type := result (Z * Error) (Z * SftpResponse).

Definition decode_status_response (packet : list byte) : decoded_response :=
  let id := fallback_pop_id (drop 1 packet) in
  match decode_status (drop 1 packet) with
  | Ok (decoded_id, code, msg) => Ok (decoded_id, RespStatus code msg)
  | Err e => Err (id, e)
  end.

Definition decode_handle_response (packet : list byte) : decoded_response :=
  let id := fallback_pop_id (drop 1 packet) in
  match decode_handle (drop 1 packet) with
  | Ok (decoded_id, handle) => Ok (decoded_id, RespHandle handle)
  | Err e => Err (id, e)
  end.

Definition decode_data_response (packet : list byte) : decoded_response :=
  let id := fallback_pop_id (drop 1 packet) in
  match decode_data (drop 1 packet) with
  | Ok (decoded_id, data) => Ok (decoded_id, RespData data)
  | Err e => Err (id, e)
  end.

Definition entry_tuple (e : SftpNameEntry) : string * string * SftpFileAttrs :=
  (ne_filename e, ne_longname e, ne_attrs e).

Definition decode_name_response (packet : list byte) : decoded_response :=
  let id := fallback_pop_id (drop 1 packet) in
  match decode_name (drop 1 packet) with
  | Ok (decoded_id, entries) => Ok (decoded_id, RespName (map entry_tuple entries))
  | Err e => Err (id, e)
  end.

Definition decode_attrs_response (packet : list byte) : decoded_response :=
  let id := fallback_pop_id (drop 1 packet) in
  match decode_attrs (drop 1 packet) with
  | Ok (decoded_id, attrs) => Ok (decoded_id, RespAttrs attrs)
  | Err e => Err (id, e)
  end.

(** The first half of [dispatch_response]: what a packet means and which
    request it is for; [None] for an empty packet, which is ignored. *)
Definition response_of_packet (packet : list byte) : option decoded_response :=
  match packet with
  | [] => None
  | t :: _ =>
      let t := b2z t in
      Some (if t =? FXP_VERSION then
              Err (0, Error_sftp Protocol "unexpected FXP_VERSION after init")
            else if t =? FXP_STATUS then decode_status_response packet
            else if t =? FXP_HANDLE then decode_handle_response packet
            else if t =? FXP_DATA then decode_data_response packet
            else if t =? FXP_NAME then decode_name_response packet
            else if t =? FXP_ATTRS then decode_attrs_response packet
            else Err (0, Error_sftp Protocol ("unknown SFTP packet type: " +:+ dec t)))
  end.

(** The second half: the request to wake and what it is told. *)
Definition response_route (d : decoded_response) : Z * Result SftpResponse :=
  match d with
  | Ok (id, response) => (id, Ok response)
  | Err (id, error) => (id, Err error)
  end.

Section Client.
Context `{!StrDebug}.

(** ** Derived [Debug] of a response, for the error messages *)

Definition comma_list (l : list string) : string := "[" +:+ join ", " l +:+ "]".

Definition option_debug (o : option Z) : string :=
  match o with Some v => "Some(" +:+ dec v +:+ ")" | None => "None" end.

Definition SftpFileAttrs_debug (a : SftpFileAttrs) : string :=
  "SftpFileAttrs { flags: " +:+ dec (flags a)
  +:+ ", size: " +:+ option_debug (size a) +:+ ", uid: " +:+ option_debug (uid a)
  +:+ ", gid: " +:+ option_debug (gid a) +:+ ", permissions: " +:+ option_debug (permissions a)
  +:+ ", atime: " +:+ option_debug (atime a) +:+ ", mtime: " +:+ option_debug (mtime a)
  +:+ " }".

Definition SftpResponse_debug (r : SftpResponse) : string :=
  match r with
  | RespStatus code msg => "Status(" +:+ dec code +:+ ", " +:+ str_debug msg +:+ ")"
  | RespHandle h => "Handle(" +:+ str_debug h +:+ ")"
  | RespData d => "Data(" +:+ comma_list (map (λ b, dec (b2z b)) d) +:+ ")"
  | RespName es =>
      "Name(" +:+ comma_list (map (λ '(f, l, a),
        "(" +:+ str_debug f +:+ ", " +:+ str_debug l +:+ ", "
        +:+ SftpFileAttrs_debug a +:+ ")") es) +:+ ")"
  | RespAttrs a => "Attrs(" +:+ SftpFileAttrs_debug a +:+ ")"
  end.

Definition unexpected {A} (what : string) (other : SftpResponse) : Result A :=
  Err (Error_sftp Protocol ("expected " +:+ what +:+ ", got: " +:+ SftpResponse_debug other)).

(** ** Client state *)

(** [next_id] is the shared atomic counter, [spawned] the handles whose
    best-effort close was spawned by a [Drop], [world] what lies behind
    [send_and_await]. *)
Context {W : Type}.

Record Client := {
  next_id : Z;
  spawned : list string;
  world : W;
}.

Context (send_and_await : list byte → Z → W → Result SftpResponse * W).

(** Whether [tokio::runtime::Handle::try_current] succeeds. *)
Context (in_runtime : bool).

Definition cm (A : Type) : Type := Client → Result A * Client.

Definition cret {A} (r : Result A) : cm A := λ c, (r, c).

(** Sequencing with [?]. *)
Definition cbind {A B} (m : cm A) (k : A → cm B) : cm B := λ c,
  match m c with
  | (Ok a, c') => k a c'
  | (Err e, c') => (Err e, c')
  end.

Definition next_request_id (c : Client) : Z * Client :=
  (next_id c,
   {| next_id := wrap 32 (next_id c + 1); spawned := spawned c; world := world c |}).

Definition send (packet : list byte) (id : Z) : cm SftpResponse := λ c,
  let '(r, w) := send_and_await packet id (world c) in
  (r, {| next_id := next_id c; spawned := spawned c; world := w |}).

(** [let id = self.next_request_id(); let packet = encode(id); ...]. *)
Definition request {A} (encode : Z → list byte) (k : list byte → Z → cm A) : cm A := λ c,
  let '(id, c) := next_request_id c in k (encode id) id c.

(** ** Adapters *)

Definition handle_of_response (r : SftpResponse) : Result string :=
  match r with
  | RespHandle handle => Ok handle
  | RespStatus code msg =>
      let kind := sftp_error_kind_for_code code in
      Err (Error_sftp kind ("SFTP " +:+ status_code_name code +:+ " (code "
                            +:+ dec code +:+ "): " +:+ msg))
  | other => unexpected "handle" other
  end.

Definition expect_handle (packet : list byte) (id : Z) : cm string :=
  cbind (send packet id) (λ r, cret (handle_of_response r)).

Definition status_of_response (r : SftpResponse) : Result unit :=
  match r with
  | RespStatus code msg => check_status code msg
  | other => unexpected "status" other
  end.

Definition expect_status (packet : list byte) (id : Z) : cm unit :=
  cbind (send packet id) (λ r, cret (status_of_response r)).

Definition attrs_of_response (r : SftpResponse) : Result SftpMetadata :=
  match r with
  | RespAttrs attrs => Ok (SftpMetadata_from_packet attrs)
  | RespStatus code msg =>
      let kind := sftp_error_kind_for_code code in
      Err (Error_sftp kind ("expected attrs, got status " +:+ dec code +:+ ": " +:+ msg))
  | other => unexpected "attrs" other
  end.

Definition expect_attrs (packet : list byte) (id : Z) : cm SftpMetadata :=
  cbind (send packet id) (λ r, cret (attrs_of_response r)).

Definition name_of_response (r : SftpResponse) : Result string :=
  match r with
  | RespName entries =>
      match entries with
      | (filename, _, _) :: _ => Ok filename
      | [] => Err (Error_sftp Protocol "empty name response")
      end
  | RespStatus code msg =>
      let kind := sftp_error_kind_for_code code in
      Err (Error_sftp kind ("expected name, got status " +:+ dec code +:+ ": " +:+ msg))
  | other => unexpected "name" other
  end.

Definition expect_name_single (packet : list byte) (id : Z) : cm string :=
  cbind (send packet id) (λ r, cret (name_of_response r)).

(** ** Handles *)

Record SftpFile := { file_handle : string; file_closed : bool }.
Definition SftpFile_new (handle : string) : SftpFile :=
  {| file_handle := handle; file_closed := false |}.

Record SftpDir := {
  dir_handle : string;
  dir_closed : bool;
  pending_entries : list SftpDirEntry;
}.
Definition SftpDir_new (handle : string) : SftpDir :=
  {| dir_handle := handle; dir_closed := false; pending_entries := [] |}.

(** ** Runtime operations *)

Definition rt_open (filename : string) (pflags : Z) : cm SftpFile :=
  request (λ id, encode_open id filename pflags SftpFileAttrs_default) (λ packet id,
    cbind (expect_handle packet id) (λ handle, cret (Ok (SftpFile_new handle)))).

(** A status answer to a read: end of file is an empty buffer. *)
Definition eof_or_status {A} (code : Z) (msg : string) : Result (list A) :=
  if code =? SSH_FX_EOF then Ok [] else (λ _, []) <$> check_status code msg.

Definition data_of_response (r : SftpResponse) : Result (list byte) :=
  match r with
  | RespData data => Ok data
  | RespStatus code msg => eof_or_status code msg
  | other => unexpected "data" other
  end.

Definition rt_read (handle : string) (offset len : Z) : cm (list byte) :=
  request (λ id, encode_read id handle offset len) (λ packet id,
    cbind (send packet id) (λ r, cret (data_of_response r))).

Definition rt_write (handle : string) (offset : Z) (data : list byte) : cm unit :=
  request (λ id, encode_write id handle offset data) expect_status.

Definition rt_close (handle : string) : cm unit :=
  request (λ id, encode_close id handle) expect_status.

Definition rt_stat (path : string) : cm SftpMetadata :=
  request (λ id, encode_stat id path) expect_attrs.

Definition rt_lstat (path : string) : cm SftpMetadata :=
  request (λ id, encode_lstat id path) expect_attrs.

Definition rt_fstat (handle : string) : cm SftpMetadata :=
  request (λ id, encode_fstat id handle) expect_attrs.

Definition rt_opendir (path : string) : cm SftpDir :=
  request (λ id, encode_opendir id path) (λ packet id,
    cbind (expect_handle packet id) (λ handle, cret (Ok (SftpDir_new handle)))).

Definition entries_of_response (r : SftpResponse) : Result (list SftpDirEntry) :=
  match r with
  | RespName entries =>
      Ok (map (λ '(filename, longname, attrs),
                 SftpDirEntry_from_packet filename longname attrs) entries)
  | RespStatus code msg => eof_or_status code msg
  | other => unexpected "name or status" other
  end.

Definition rt_readdir_batch (handle : string) : cm (list SftpDirEntry) :=
  request (λ id, encode_readdir id handle) (λ packet id,
    cbind (send packet id) (λ r, cret (entries_of_response r))).

Definition rt_remove (filename : string) : cm unit :=
  request (λ id, encode_remove id filename) expect_status.

Definition rt_rename (oldpath newpath : string) : cm unit :=
  request (λ id, encode_rename id oldpath newpath) expect_status.

Definition rt_mkdir (path : string) : cm unit :=
  request (λ id, encode_mkdir id path SftpFileAttrs_default) expect_status.

Definition rt_rmdir (path : string) : cm unit :=
  request (λ id, encode_rmdir id path) expect_status.

Definition rt_realpath (path : string) : cm string :=
  request (λ id, encode_realpath id path) expect_name_single.

Definition rt_readlink (path : string) : cm string :=
  request (λ id, encode_readlink id path) expect_name_single.

Definition rt_symlink (linkpath targetpath : string) : cm unit :=
  request (λ id, encode_symlink id linkpath targetpath) expect_status.

Definition rt_setstat (path : string) (attrs : SftpFileAttrs) : cm unit :=
  request (λ id, encode_setstat id path attrs) expect_status.

Definition rt_fsetstat (handle : string) (attrs : SftpFileAttrs) : cm unit :=
  request (λ id, encode_fsetstat id handle attrs) expect_status.

(** ** [SftpFile] and [SftpDir] *)

(** [Drop]: an unclosed handle has its close spawned in the background. *)
Definition drop_handle (closed : bool) (handle : string) (c : Client) : Client :=
  if closed then c
  else if in_runtime then
    {| next_id := next_id c; spawned := spawned c ++ [handle]; world := world c |}
  else c.

Definition SftpFile_drop (f : SftpFile) : Client → Client :=
  drop_handle (file_closed f) (file_handle f).
Definition SftpDir_drop (d : SftpDir) : Client → Client :=
  drop_handle (dir_closed d) (dir_handle d).

(** Run [m], then drop the owned value. *)
Definition finally {A} (m : cm A) (dropped : Client → Client) : cm A := λ c,
  let '(r, c) := m c in (r, dropped c).

Definition SftpFile_read (f : SftpFile) (offset len : Z) : cm (list byte) :=
  rt_read (file_handle f) offset len.
Definition SftpFile_write (f : SftpFile) (offset : Z) (data : list byte) : cm unit :=
  rt_write (file_handle f) offset data.
Definition SftpFile_metadata (f : SftpFile) : cm SftpMetadata := rt_fstat (file_handle f).
Definition SftpFile_set_metadata (f : SftpFile) (attrs : SftpMetadata) : cm unit :=
  rt_fsetstat (file_handle f) (SftpMetadata_to_packet attrs).

(** [close(mut self)] marks the handle closed first, so the drop at the end of
    the call does nothing. *)
Definition SftpFile_close (f : SftpFile) : cm unit :=
  let f := {| file_handle := file_handle f; file_closed := true |} in
  finally (rt_close (file_handle f)) (SftpFile_drop f).

Definition SftpDir_close (d : SftpDir) : cm unit :=
  let d := {| dir_handle := dir_handle d; dir_closed := true;
              pending_entries := pending_entries d |} in
  finally (rt_close (dir_handle d)) (SftpDir_drop d).

(** [read(&mut self)]: the next buffered entry, else a fresh batch. *)
Definition SftpDir_read (d : SftpDir) (c : Client) :
    Result (option SftpDirEntry) * (SftpDir * Client) :=
  match pending_entries d with
  | entry :: rest =>
      (Ok (Some entry),
       ({| dir_handle := dir_handle d; dir_closed := dir_closed d;
           pending_entries := rest |}, c))
  | [] =>
      match rt_readdir_batch (dir_handle d) c with
      | (Err e, c') => (Err e, (d, c'))
      | (Ok [], c') => (Ok None, (d, c'))
      | (Ok (first :: rest), c') =>
          (Ok (Some first),
           ({| dir_handle := dir_handle d; dir_closed := dir_closed d;
               pending_entries := rest |}, c'))
      end
  end.

(** ** [SftpClient]: the public API *)

Definition SFTP_CHUNK_SIZE : Z := 32768.

Record SftpClient := { runtime_open : bool; session_id : Z }.

Definition SftpClient_from_session (session_id : Z) : SftpClient :=
  {| runtime_open := false; session_id := session_id |}.

(** [self.runtime()?]. *)
Definition with_runtime {A} (sc : SftpClient) (m : cm A) : cm A :=
  if runtime_open sc then m else cret (Err (Error_unsupported "SFTP client is not open")).

Definition SftpClient_open (sc : SftpClient) (filename : string) (mode : SftpOpenMode) :
    cm SftpFile :=
  with_runtime sc (rt_open filename (OpenMode_bits mode)).
Definition SftpClient_read (sc : SftpClient) (f : SftpFile) (offset len : Z) :
    cm (list byte) :=
  with_runtime sc (rt_read (file_handle f) offset len).
Definition SftpClient_write (sc : SftpClient) (f : SftpFile) (offset : Z)
    (data : list byte) : cm unit :=
  with_runtime sc (rt_write (file_handle f) offset data).

(** [close_file] takes the file by value: it is dropped when the call returns. *)
Definition SftpClient_close_file (sc : SftpClient) (f : SftpFile) : cm unit :=
  finally (with_runtime sc (rt_close (file_handle f))) (SftpFile_drop f).

Definition SftpClient_metadata (sc : SftpClient) (path : string) : cm SftpMetadata :=
  with_runtime sc (rt_stat path).
Definition SftpClient_symlink_metadata (sc : SftpClient) (path : string) : cm SftpMetadata :=
  with_runtime sc (rt_lstat path).
Definition SftpClient_opendir (sc : SftpClient) (path : string) : cm SftpDir :=
  with_runtime sc (rt_opendir path).
Definition SftpClient_readdir (sc : SftpClient) (d : SftpDir) (c : Client) :
    Result (option SftpDirEntry) * (SftpDir * Client) :=
  SftpDir_read d c.
Definition SftpClient_closedir (sc : SftpClient) (d : SftpDir) : cm unit :=
  finally (with_runtime sc (rt_close (dir_handle d))) (SftpDir_drop d).
Definition SftpClient_remove (sc : SftpClient) (filename : string) : cm unit :=
  with_runtime sc (rt_remove filename).
Definition SftpClient_rename (sc : SftpClient) (oldpath newpath : string) : cm unit :=
  with_runtime sc (rt_rename oldpath newpath).
Definition SftpClient_create_dir (sc : SftpClient) (path : string) : cm unit :=
  with_runtime sc (rt_mkdir path).
Definition SftpClient_remove_dir (sc : SftpClient) (path : string) : cm unit :=
  with_runtime sc (rt_rmdir path).
Definition SftpClient_canonicalize (sc : SftpClient) (path : string) : cm string :=
  with_runtime sc (rt_realpath path).
Definition SftpClient_symlink (sc : SftpClient) (linkpath targetpath : string) : cm unit :=
  with_runtime sc (rt_symlink linkpath targetpath).
Definition SftpClient_readlink (sc : SftpClient) (path : string) : cm string :=
  with_runtime sc (rt_readlink path).
Definition SftpClient_set_stat (sc : SftpClient) (path : string) (attrs : SftpMetadata) :
    cm unit :=
  with_runtime sc (rt_setstat path (SftpMetadata_to_packet attrs)).
Definition SftpClient_fset_stat (sc : SftpClient) (f : SftpFile) (attrs : SftpMetadata) :
    cm unit :=
  with_runtime sc (rt_fsetstat (file_handle f) (SftpMetadata_to_packet attrs)).

(** ** Whole-file transfers *)

(** [data.chunks(n)]. *)
Fixpoint chunks_go (fuel : nat) (n : nat) (data : list byte) : list (list byte) :=
  match fuel, data with
  | O, _ | _, [] => []
  | S f, _ => take n data :: chunks_go f n (drop n data)
  end.

Definition chunks (n : nat) (data : list byte) : list (list byte) :=
  chunks_go (length data) n data.

Fixpoint write_chunks (f : SftpFile) (offset : Z) (cs : list (list byte)) : cm unit :=
  match cs with
  | [] => cret (Ok ())
  | chunk :: cs' =>
      cbind (SftpFile_write f offset chunk) (λ _,
        write_chunks f (offset + vec_len chunk) cs')
  end.

(** An early return drops the open file; [file.close()] consumes it. *)
Definition SftpClient_write_all (sc : SftpClient) (path : string) (data : list byte) :
    cm unit :=
  cbind (SftpClient_open sc path
           (OpenMode_bitor (OpenMode_bitor OpenMode_WRITE OpenMode_CREATE) OpenMode_TRUNCATE))
    (λ file c,
       match write_chunks file 0 (chunks (Z.to_nat SFTP_CHUNK_SIZE) data) c with
       | (Err e, c') => (Err e, SftpFile_drop file c')
       | (Ok _, c') => SftpFile_close file c'
       end).

(** A call that can also panic, or (for the unbounded loop) exhaust the fuel. *)
Inductive outcome (A : Type) :=
| Returned (r : Result A)
| Panicked
| OutOfFuel.
Arguments Returned {A} r.
Arguments Panicked {A}.
Arguments OutOfFuel {A}.

Fixpoint read_loop (fuel : nat) (f : SftpFile) (offset : Z) (buf : list byte) (c : Client) :
    outcome (list byte) * Client :=
  match fuel with
  | O => (OutOfFuel, c)
  | S n =>
      match SftpFile_read f offset SFTP_CHUNK_SIZE c with
      | (Err e, c') => (Returned (Err e), c')
      | (Ok [], c') => (Returned (Ok buf), c')
      | (Ok chunk, c') => read_loop n f (offset + vec_len chunk) (buf ++ chunk) c'
      end
  end.

(** [Vec::with_capacity] panics beyond [isize::MAX] bytes. *)
Definition ISIZE_MAX : Z := 2 ^ 63 - 1.

Definition SftpClient_read_to_vec (fuel : nat) (sc : SftpClient) (path : string)
    (c : Client) : outcome (list byte) * Client :=
  match SftpClient_open sc path OpenMode_READ c with
  | (Err e, c) => (Returned (Err e), c)
  | (Ok file, c) =>
      match SftpFile_metadata file c with
      | (Err e, c) => (Returned (Err e), SftpFile_drop file c)
      | (Ok meta, c) =>
          if ISIZE_MAX <? default 0 (m_size meta) then (Panicked, SftpFile_drop file c)
          else
            match read_loop fuel file 0 [] c with
            | (Returned (Ok buf), c) =>
                let '(_, c) := SftpFile_close file c in (Returned (Ok buf), c)
            | (other, c) => (other, SftpFile_drop file c)
            end
      end
  end.
End Client.

Arguments Client : clear implicits.
Arguments Returned {A} r.
Arguments Panicked {A}.
Arguments OutOfFuel {A}.
