(* ===== verification/SftpLoopback.v ===== *)
(** * Client and server together

    The abstract service [serve] says, on requests and responses, what the
    server means to do; [dispatch_packet] refines it on bytes.  [loopback] wires
    the modelled client to the modelled server through framing and decoding on
    both sides, so that the theorems about client operations speak about the
    application's handler. *)
From S2P Require Import Prelude RustStr Channel CoreError SftpPacket SftpWire SftpFraming.
From S2P Require Import SftpTypes SftpServer SftpClient.

Section Loopback.
Context `{!StrDebug} {S : Type} `{!SftpServerHandler S}.

(** ** The abstract service *)

Definition status_of_error (e : Error) : SftpResponse :=
  let '(code, message) := sftp_status_from_error e in RespStatus code message.

Definition answer {A} (k : A → SftpResponse) (r : Result A * S) : SftpResponse * S :=
  match r with
  | (Ok a, s) => (k a, s)
  | (Err e, s) => (status_of_error e, s)
  end.

Definition ok_answer (_ : unit) : SftpResponse := RespStatus SSH_FX_OK "OK".
Definition data_answer (data : list byte) : SftpResponse :=
  match data with [] => RespStatus SSH_FX_EOF "End of file" | _ => RespData data end.
Definition name_answer (entries : list SftpDirEntry) : SftpResponse :=
  RespName (map (entry_tuple ∘ SftpDirEntry_to_name_entry) entries).
Definition dir_answer (entries : list SftpDirEntry) : SftpResponse :=
  match entries with
  | [] => RespStatus SSH_FX_EOF "End of directory"
  | _ => name_answer entries
  end.
Definition attrs_answer (m : SftpMetadata) : SftpResponse :=
  RespAttrs (SftpMetadata_to_packet m).

Definition serve (id : Z) (r : Request) (s : S) : SftpResponse * S :=
  match r with
  | ROpen f p a => answer RespHandle (h_open id f p (SftpMetadata_from_packet a) s)
  | RClose h => answer ok_answer (h_close id h s)
  | RRead h o n => answer data_answer (h_read id h o n s)
  | RWrite h o d => answer ok_answer (h_write id h o d s)
  | RRemove f => answer ok_answer (h_remove id f s)
  | RRename o n => answer ok_answer (h_rename id o n s)
  | RMkdir p a => answer ok_answer (h_mkdir id p (SftpMetadata_from_packet a) s)
  | RRmdir p => answer ok_answer (h_rmdir id p s)
  | ROpendir p => answer RespHandle (h_opendir id p s)
  | RReaddir h => answer dir_answer (h_readdir id h s)
  | RStat p => answer attrs_answer (h_stat id p s)
  | RLstat p => answer attrs_answer (h_lstat id p s)
  | RFstat h => answer attrs_answer (h_fstat id h s)
  | RSetstat p a => answer ok_answer (h_setstat id p (SftpMetadata_from_packet a) s)
  | RFsetstat h a => answer ok_answer (h_fsetstat id h (SftpMetadata_from_packet a) s)
  | RRealpath p => answer name_answer (h_realpath id p s)
  | RReadlink p => answer name_answer (h_readlink id p s)
  | RSymlink l t => answer ok_answer (h_symlink id l t s)
  end.

Definition tuple_entry (t : string * string * SftpFileAttrs) : SftpNameEntry :=
  let '(f, l, a) := t in {| ne_filename := f; ne_longname := l; ne_attrs := a |}.

(** The response packets, by kind. *)
Definition encode_response (id : Z) (r : SftpResponse) : list byte :=
  match r with
  | RespStatus code msg => encode_status_response id code msg
  | RespHandle h => encode_handle_response id h
  | RespData d => encode_data_response id d
  | RespName es => encode_name_response id (map tuple_entry es)
  | RespAttrs a => encode_attrs_response id a
  end.

(** ** The wire between them *)

(** One packet sent, cut from the stream by the receiver. *)
Definition deliver (bytes : list byte) : option (list byte) :=
  match split_packets bytes with
  | ([packet], NeedMore []) => Some packet
  | _ => None
  end.

(** A request for which no response comes back would wait for ever. *)
Definition no_reply : Error := Error_timeout OpSftp "no reply".

Definition loopback (packet : list byte) (id : Z) (w : SftpServerRuntime * S) :
    Result SftpResponse * (SftpServerRuntime * S) :=
  match deliver packet with
  | None => (Err no_reply, w)
  | Some p =>
      match dispatch_packet p (fst w) (snd w) with
      | (Err _, w') => (Err no_reply, w')
      | (Ok response, w') =>
          match deliver response ≫= response_of_packet with
          | None => (Err no_reply, w')
          | Some d =>
              let '(id', r) := response_route d in
              if id' =? id then (r, w') else (Err no_reply, w')
          end
      end
  end.

(** ** The server refines the service *)

Lemma tuple_entry_tuple e : tuple_entry (entry_tuple e) = e.
Proof. by destruct e. Qed.

Lemma map_tuple_entry l :
  map tuple_entry (map (entry_tuple ∘ SftpDirEntry_to_name_entry) l)
  = map SftpDirEntry_to_name_entry l.
Proof.
  induction l as [|e l IH]; [done|]. cbn [map]. rewrite IH.
  unfold compose. by rewrite tuple_entry_tuple.
Qed.

Lemma status_of_error_encode id e :
  encode_response id (status_of_error e) = sftp_error_status id e.
Proof.
  unfold status_of_error, sftp_error_status. by destruct (sftp_status_from_error e).
Qed.

(** Each reply builder is the encoding of its abstract answer. *)
Lemma ok_status_answer id r :
  ok_status id r = (Ok (encode_response id (fst (answer ok_answer r))), snd (answer ok_answer r)).
Proof. destruct r as [[[]|e] s]; cbn; by rewrite ?status_of_error_encode. Qed.

Lemma handle_reply_answer id r :
  handle_reply id r = (Ok (encode_response id (fst (answer RespHandle r))), snd (answer RespHandle r)).
Proof. destruct r as [[h|e] s]; cbn; by rewrite ?status_of_error_encode. Qed.

Lemma attrs_reply_answer id r :
  attrs_reply id r
  = (Ok (encode_response id (fst (answer attrs_answer r))), snd (answer attrs_answer r)).
Proof. destruct r as [[h|e] s]; cbn; by rewrite ?status_of_error_encode. Qed.

Lemma name_reply_answer id r :
  name_reply id r
  = (Ok (encode_response id (fst (answer name_answer r))), snd (answer name_answer r)).
Proof.
  destruct r as [[h|e] s]; cbn; [by rewrite map_tuple_entry|].
  by rewrite status_of_error_encode.
Qed.

Ltac packet_case :=
  match goal with
  | H : @mbind _ _ _ _ _ ?d = Ok _ |- _ =>
      let E := fresh "E" in
      destruct d as [v|e] eqn:E; cbn [mbind result_bind] in H; [|discriminate H];
      repeat match goal with v : (_ * _)%type |- _ => destruct v end;
      injection H as <- <-; unfold keep;
      unfold handle_open, handle_close, handle_read, handle_write, handle_remove,
        handle_rename, handle_mkdir, handle_rmdir, handle_opendir, handle_readdir,
        handle_stat, handle_lstat, handle_fstat, handle_setstat, handle_fsetstat,
        handle_realpath, handle_readlink, handle_symlink;
      rewrite E; cbn [decoded serve];
      rewrite ?ok_status_answer, ?handle_reply_answer, ?attrs_reply_answer,
        ?name_reply_answer; try reflexivity
  end.

Lemma dispatch_refines_serve packet id r rt s :
  decode_request packet = Ok (id, r) →
  dispatch_packet packet rt s
  = (Ok (encode_response id (fst (serve id r s))), (rt, snd (serve id r s))).
Proof.
  unfold decode_request. destruct packet as [|t body]; [done|].
  change (drop 1 (t :: body)) with body. cbn [decode_packet_type mbind result_bind]. unfold dispatch_packet. cbv zeta.
  destruct (Z.eqb_spec (b2z t) FXP_INIT) as [->|_]; [done|].
  unfold decode_body.
  repeat match goal with
  | |- (if ?b then _ else _) = Ok _ → _ => destruct b; [let Hd := fresh "Hd" in intros Hd; packet_case|]
  end; [| |done].
  - destruct (h_read _ _ _ _ _) as [[[|b d]|e] s']; cbn; by rewrite ?status_of_error_encode.
  - destruct (h_readdir _ _ _) as [[[|b d]|e] s']; cbn;
      by rewrite ?status_of_error_encode, ?map_tuple_entry, ?tuple_entry_tuple.
Qed.

(** ** The client reads the service's answers *)

(** The response packets' layout. *)
Definition response_type (r : SftpResponse) : Z :=
  match r with
  | RespStatus _ _ => FXP_STATUS | RespHandle _ => FXP_HANDLE | RespData _ => FXP_DATA
  | RespName _ => FXP_NAME | RespAttrs _ => FXP_ATTRS
  end.

Definition response_fields (r : SftpResponse) : list byte :=
  match r with
  | RespStatus code msg => be_bytes 4 code ++ enc_string msg ++ enc_string "en"
  | RespHandle h => enc_string h
  | RespData d => enc_bytes d
  | RespName es =>
      be_bytes 4 (as_u32 (Z.of_nat (length es))) ++ concat (map enc_entry (map tuple_entry es))
  | RespAttrs a => enc_attrs a
  end.

(** What the client is given: a name list may be cut short (see [names_kept]). *)
Definition response_wire (r : SftpResponse) : SftpResponse :=
  match r with
  | RespName es =>
      let l := map tuple_entry es in
      RespName (map (entry_tuple ∘ entry_wire) (take (names_kept l) l))
  | RespAttrs a => RespAttrs (attrs_wire a)
  | r => r
  end.

Definition response_ok (r : SftpResponse) : Prop :=
  match r with
  | RespStatus code msg => is_u32 code ∧ wire_str msg
  | RespHandle h => wire_str h
  | RespData d => wire_bytes d
  | RespName es => Z.of_nat (length es) < 2 ^ 32 ∧ Forall wire_entry (map tuple_entry es)
  | RespAttrs a => attrs_plain a
  end.

Lemma encode_response_frame id r :
  encode_response id r = frame (response_type r) (be_bytes 4 id ++ response_fields r).
Proof.
  destruct r; cbn [encode_response response_type response_fields].
  - unfold encode_status_response. autorewrite with wire. by rewrite <-!app_assoc.
  - unfold encode_handle_response. by autorewrite with wire.
  - unfold encode_data_response. by autorewrite with wire.
  - unfold encode_name_response. autorewrite with wire.
    by rewrite <-!app_assoc, length_map.
  - unfold encode_attrs_response. by autorewrite with wire.
Qed.

Lemma response_type_byte r : 0 ≤ response_type r < 256.
Proof. by destruct r. Qed.

Lemma response_of_packet_fields id r :
  is_u32 id → response_ok r →
  response_of_packet (z2b (response_type r) :: be_bytes 4 id ++ response_fields r)
  = Some (Ok (id, response_wire r)).
Proof.
  intros Hid Hr. unfold response_of_packet. cbv zeta.
  rewrite b2z_z2b, Z.mod_small by apply response_type_byte. f_equal.
  destruct r; cbn [response_type]; type_tests.
  - destruct Hr. unfold decode_status_response. change (drop 1 (?x :: ?l)) with l.
    cbn [response_fields]. by rewrite decode_status_fields.
  - unfold decode_handle_response. change (drop 1 (?x :: ?l)) with l.
    cbn [response_fields]. by rewrite decode_handle_fields.
  - unfold decode_data_response. change (drop 1 (?x :: ?l)) with l.
    cbn [response_fields]. by rewrite decode_data_fields.
  - destruct Hr as [Hn Hes]. unfold decode_name_response. change (drop 1 (?x :: ?l)) with l.
    cbn [response_fields]. rewrite <-(length_map tuple_entry entries) in Hn |- *.
    rewrite decode_name_fields by done. cbn [response_wire]. by rewrite map_map.
  - unfold decode_attrs_response. change (drop 1 (?x :: ?l)) with l.
    cbn [response_fields]. by rewrite decode_attrs_fields.
Qed.

(** ** Delivery *)

Definition fits_packet (fields : list byte) : Prop := vec_len fields + 5 ≤ MAX_SFTP_PACKET_SIZE.

Lemma deliver_frame t id fields :
  fits_packet fields →
  deliver (frame t (be_bytes 4 id ++ fields)) = Some (z2b t :: be_bytes 4 id ++ fields).
Proof.
  intros Hf. unfold deliver, fits_packet in *.
  assert (Hl : vec_len (be_bytes 4 id ++ fields) = 4 + vec_len fields).
  { unfold vec_len. rewrite length_app, length_be_bytes. lia. }
  rewrite frame_framed by lia.
  rewrite <-(app_nil_r (framed _)), split_packets_framed; [done|].
  unfold body_ok, vec_len in *. cbn [length]. lia.
Qed.

(** A well-formed request whose answer fits comes back as the service's answer,
    and the server's state is the service's. *)
Lemma loopback_serve id r rt s :
  is_u32 id → request_ok r → fits_packet (request_fields r) →
  response_ok (fst (serve id (request_wire r) s)) →
  fits_packet (response_fields (fst (serve id (request_wire r) s))) →
  loopback (encode_request id r) id (rt, s)
  = (Ok (response_wire (fst (serve id (request_wire r) s))),
     (rt, snd (serve id (request_wire r) s))).
Proof.
  intros Hid Hr Hf Ha Hfa. unfold loopback.
  rewrite encode_request_frame, deliver_frame by done. cbn [fst snd].
  assert (Hd : decode_request (z2b (request_type r) :: be_bytes 4 id ++ request_fields r)
               = Ok (id, request_wire r)).
  { rewrite <-drop4_frame, <-encode_request_frame. by apply decode_encode_request. }
  rewrite (dispatch_refines_serve _ _ _ _ _ Hd).
  rewrite encode_response_frame, deliver_frame by done. cbn [mbind option_bind].
  rewrite response_of_packet_fields by done. cbn [response_route].
  by rewrite Z.eqb_refl.
Qed.
End Loopback.
