(* ===== verification/SftpService.v ===== *)
(** * The server on a byte stream

    Theorems about [handle_data] over whole request streams: requests arrive
    intact however the stream is cut, they are answered in order with the
    abstract service's answers, the runtime invariant holds along every run. *)
From S2P Require Import Prelude RustStr Channel CoreError SftpPacket SftpWire SftpFraming.
From S2P Require Import SftpTypes SftpServer SftpClient SftpLoopback.

Definition request_fits (q : Z * Request) : Prop :=
  is_u32 (fst q) ∧ request_ok (snd q) ∧ fits_packet (request_fields (snd q)).

Definition stream_of (reqs : list (Z * Request)) : list byte :=
  concat (map (λ q, encode_request (fst q) (snd q)) reqs).

(** The bodies the receiver cuts out of [stream_of]. *)
Definition request_body (q : Z * Request) : list byte :=
  z2b (request_type (snd q)) :: be_bytes 4 (fst q) ++ request_fields (snd q).

Definition request_seen (q : Z * Request) : Z * Request := (fst q, request_wire (snd q)).

Lemma request_body_ok q : request_fits q → body_ok (request_body q).
Proof.
  intros (_ & _ & Hf). unfold fits_packet, body_ok, request_body, vec_len in *.
  cbn [length]. rewrite length_app, length_be_bytes. lia.
Qed.

Lemma encode_request_framed q :
  request_fits q → encode_request (fst q) (snd q) = framed (request_body q).
Proof.
  intros (_ & _ & Hf). rewrite encode_request_frame. apply frame_framed.
  unfold fits_packet, vec_len in *. rewrite length_app, length_be_bytes. lia.
Qed.

Lemma stream_of_framed reqs :
  Forall request_fits reqs → stream_of reqs = concat (map framed (map request_body reqs)).
Proof.
  unfold stream_of. induction 1 as [|q reqs Hq _ IH]; [done|]. cbn [map concat].
  by rewrite IH, encode_request_framed.
Qed.

Lemma decode_request_body q :
  request_fits q → decode_request (request_body q) = Ok (request_seen q).
Proof.
  intros (Hid & Hr & _). unfold request_body.
  rewrite <-drop4_frame, <-encode_request_frame. by apply decode_encode_request.
Qed.

Lemma split_stream reqs :
  Forall request_fits reqs →
  split_packets (stream_of reqs) = (map request_body reqs, NeedMore []).
Proof.
  intros H. rewrite stream_of_framed by done. apply split_packets_frames.
  rewrite Forall_map. eapply Forall_impl; [done|]. apply request_body_ok.
Qed.

(** C1.  A stream of client requests, cut into chunks in any way, is reassembled
    by the server into exactly as many packets, which decode in order to the
    requests that were sent, with their ids; no byte is left over.  (The requests are
    within the sizes of the wire format and of a packet.) *)
Theorem request_stream_roundtrip (reqs : list (Z * Request)) (cs : list (list byte)) :
  Forall request_fits reqs → concat cs = stream_of reqs →
  ∃ packets, feed [] cs = (packets, NeedMore []) ∧
             map decode_request packets = map (λ q, Ok (request_seen q)) reqs.
Proof.
  intros Hr Hc. exists (map request_body reqs). split.
  - rewrite feed_concat by done. cbn [app]. by rewrite Hc, split_stream.
  - rewrite map_map. clear Hc. induction Hr as [|q reqs Hq _ IH]; [done|]. cbn [map].
    by rewrite decode_request_body, IH.
Qed.

Definition demo_requests : list (Z * Request) :=
  [(10, ROpen "/a" 1 SftpFileAttrs_default); (11, RRead "h" 0 32768)].

Lemma demo_requests_fit : Forall request_fits demo_requests.
Proof. repeat constructor; vm_compute; try done; congruence. Defined.

Lemma request_stream_roundtrip_witness :
  ∃ packets,
    feed [] [take 3 (stream_of demo_requests); drop 3 (stream_of demo_requests)]
      = (packets, NeedMore []) ∧
    map decode_request packets = map (λ q, Ok (request_seen q)) demo_requests.
Proof.
  apply (request_stream_roundtrip demo_requests); [apply demo_requests_fit|].
  vm_compute. reflexivity.
Defined.

(** C39.  A request packet cut short anywhere after its type byte is refused with
    a protocol error: no decoder reads past the end or accepts a partial field. *)
Theorem truncated_request_refused (id : Z) (r : Request) (n : nat) :
  is_u32 id → request_ok r → (1 ≤ n < length (request_body (id, r)))%nat →
  ∃ m, decode_request (take n (request_body (id, r))) = Err (Error_sftp Protocol m).
Proof.
  intros Hid Hr [H1 Hn]. destruct n as [|n]; [lia|]. unfold request_body in *.
  cbn [fst snd] in *. cbn [take firstn]. unfold decode_request.
  cbn [decode_packet_type mbind result_bind]. change (drop 1 (?x :: ?l)) with l.
  rewrite b2z_z2b, Z.mod_small by apply request_type_byte.
  apply decode_request_cut; [done|done|]. cbn [length] in Hn. lia.
Qed.

Lemma truncated_request_refused_witness :
  ∃ m, decode_request (take 12 (request_body (10, RRead "h" 0 32768)))
       = Err (Error_sftp Protocol m).
Proof.
  apply (truncated_request_refused 10 (RRead "h" 0 32768) 12).
  - done.
  - by vm_compute.
  - vm_compute. lia.
Defined.

Section Service.
Context `{!StrDebug} {S : Type} `{!SftpServerHandler S}.

(** ** The abstract service over a sequence of requests *)

Fixpoint serve_all (reqs : list (Z * Request)) (s : S) : list (Z * SftpResponse) * S :=
  match reqs with
  | [] => ([], s)
  | (id, r) :: reqs' =>
      let '(a, s1) := serve id r s in
      let '(l, s2) := serve_all reqs' s1 in ((id, a) :: l, s2)
  end.

(** A session that records what is sent on each channel. *)
Definition log_data (channel : Z) (bytes : list byte) (w : list (Z * list byte)) :
    bool * list (Z * list byte) :=
  (true, w ++ [(channel, bytes)]).

(** Chunks arriving one after the other, until one is refused. *)
Fixpoint handle_chunks {W} (sd : Z → list byte → W → bool * W) (channel : Z)
    (cs : list (list byte)) (rt : SftpServerRuntime) (s : S) (w : W) :
    Result unit * (SftpServerRuntime * S * W) :=
  match cs with
  | [] => (Ok (), (rt, s, w))
  | c :: cs' =>
      match handle_data sd channel c rt s w with
      | (Ok _, (rt, s, w)) => handle_chunks sd channel cs' rt s w
      | other => other
      end
  end.

(** ** Reassembly buffers do not influence the answers *)

Definition same_negotiation (rt rt' : SftpServerRuntime) : Prop :=
  negotiated rt = negotiated rt' ∧ version rt = version rt'.

Lemma dispatch_with_buffers packet rt s b c :
  dispatch_packet packet (with_buffers rt b c) s =
    let '(r, (rt', s')) := dispatch_packet packet rt s in (r, (with_buffers rt' b c, s')).
Proof.
  unfold dispatch_packet. destruct packet as [|t body]; [done|]. cbv zeta.
  destruct (b2z t =? FXP_INIT).
  - unfold handle_init. destruct (decode_init_request body) as [[v ext]|e]; [|done].
    destruct (v <? 3); [done|]. by destruct (h_init v ext s) as [[n|e] s'].
  - unfold keep.
    repeat match goal with |- context [if ?b then _ else _] => destruct b; [done|] end.
    done.
Qed.

Lemma dispatch_keeps_buffers packet rt s r rt' s' :
  dispatch_packet packet rt s = (r, (rt', s')) →
  buffers rt' = buffers rt ∧ channels rt' = channels rt.
Proof.
  intros H1. pose proof (dispatch_with_buffers packet rt s (buffers rt) (channels rt)) as H2.
  replace (with_buffers rt (buffers rt) (channels rt)) with rt in H2 by by destruct rt.
  rewrite H1 in H2. injection H2 as H2. by rewrite H2.
Qed.

Context {W : Type} (sd : Z → list byte → W → bool * W).

Lemma answer_with_buffers ch ps rt s w b c :
  answer_packets sd ch ps (with_buffers rt b c) s w =
    let '(r, (rt', s', w')) := answer_packets sd ch ps rt s w in
    (r, (with_buffers rt' b c, s', w')).
Proof.
  revert rt s w. induction ps as [|p ps IH]; intros rt s w; [done|]. cbn [answer_packets].
  rewrite dispatch_with_buffers. destruct (dispatch_packet p rt s) as [[resp|e] [rt' s']].
  - destruct (sd ch resp w) as [[] w']; [apply IH|done].
  - apply IH.
Qed.

Lemma answer_keeps_buffers ch ps rt s w r rt' s' w' :
  answer_packets sd ch ps rt s w = (r, (rt', s', w')) →
  buffers rt' = buffers rt ∧ channels rt' = channels rt.
Proof.
  intros H1. pose proof (answer_with_buffers ch ps rt s w (buffers rt) (channels rt)) as H2.
  replace (with_buffers rt (buffers rt) (channels rt)) with rt in H2 by by destruct rt.
  rewrite H1 in H2. injection H2 as H2. by rewrite H2.
Qed.

Lemma answer_app ch ps qs rt s w :
  answer_packets sd ch (ps ++ qs) rt s w =
    match answer_packets sd ch ps rt s w with
    | (Ok _, (rt', s', w')) => answer_packets sd ch qs rt' s' w'
    | other => other
    end.
Proof.
  revert rt s w. induction ps as [|p ps IH]; intros rt s w; [done|]. cbn [app answer_packets].
  destruct (dispatch_packet p rt s) as [[resp|e] [rt' s']]; [|apply IH].
  destruct (sd ch resp w) as [[] w']; [apply IH|done].
Qed.

(** Sequencing two deliveries is one delivery of the joined bytes. *)
Lemma handle_data_app ch d1 d2 rt s w buf ps rest :
  buffers rt !! ch = Some buf →
  split_packets (buf ++ d1 ++ d2) = (ps, NeedMore rest) →
  handle_data sd ch (d1 ++ d2) rt s w =
    match handle_data sd ch d1 rt s w with
    | (Ok _, (rt', s', w')) => handle_data sd ch d2 rt' s' w'
    | (Err e, (rt', s', w')) =>
        (Err e, (with_buffers rt' (<[ch := rest]> (buffers rt')) (channels rt'), s', w'))
    end.
Proof.
  intros Hb Hs. unfold handle_data. rewrite Hb, Hs.
  rewrite app_assoc, split_packets_app in Hs.
  destruct (split_packets (buf ++ d1)) as [ps1 [r1|l]] eqn:E1; [|done].
  destruct (split_packets (r1 ++ d2)) as [ps2 e2] eqn:E2. injection Hs as <- ->.
  rewrite answer_app, (answer_with_buffers ch ps1), (answer_with_buffers ch ps1).
  destruct (answer_packets sd ch ps1 rt s w) as [[[]|e] [[rt' s'] w']] eqn:EA; cbn.
  - rewrite lookup_insert_eq, E2. rewrite !answer_with_buffers.
    destruct (answer_packets sd ch ps2 rt' s' w') as [r [[rt2 s2] w2]].
    unfold with_buffers; cbn. by rewrite insert_insert_eq.
  - unfold with_buffers; cbn. by rewrite insert_insert_eq.
Qed.
End Service.

(** ** Whole streams *)

Section Streams.
Context `{!StrDebug} {S : Type} `{!SftpServerHandler S}.

Definition sends_ok {W} (sd : Z → list byte → W → bool * W) : Prop :=
  ∀ ch b w, fst (sd ch b w) = true.

Lemma answer_sends_ok {W} (sd : Z → list byte → W → bool * W) ch ps rt s w :
  sends_ok sd → fst (answer_packets sd ch ps rt s w) = Ok ().
Proof.
  intros Hsd. revert rt s w. induction ps as [|p ps IH]; intros rt s w; [done|].
  cbn [answer_packets]. destruct (dispatch_packet p rt s) as [[resp|e] [rt' s']]; [|apply IH].
  pose proof (Hsd ch resp w) as Ho. destruct (sd ch resp w) as [b w']. cbn in Ho. subst b.
  apply IH.
Qed.

Lemma handle_data_sends_ok {W} (sd : Z → list byte → W → bool * W) ch d rt s w buf :
  sends_ok sd → buffers rt !! ch = Some buf → fst (handle_data sd ch d rt s w) = Ok ().
Proof.
  intros Hsd Hb. unfold handle_data. rewrite Hb.
  destruct (split_packets (buf ++ d)) as [ps [rest|l]]; [|done]. by apply answer_sends_ok.
Qed.

(** The buffer of a channel after a delivery. *)
Lemma handle_data_buffer {W} (sd : Z → list byte → W → bool * W) ch d rt s w buf ps rest r rt' s' w' :
  buffers rt !! ch = Some buf → split_packets (buf ++ d) = (ps, NeedMore rest) →
  handle_data sd ch d rt s w = (r, (rt', s', w')) → buffers rt' !! ch = Some rest.
Proof.
  intros Hb Hs. unfold handle_data. rewrite Hb, Hs. intros H1.
  apply answer_keeps_buffers in H1 as [-> _]. cbn. apply lookup_insert_eq.
Qed.

Lemma handle_data_nil {W} (sd : Z → list byte → W → bool * W) ch rt s w buf :
  buffers rt !! ch = Some buf → split_packets buf = ([], NeedMore buf) →
  handle_data sd ch [] rt s w = (Ok (), (rt, s, w)).
Proof.
  intros Hb Hs. unfold handle_data. rewrite Hb, app_nil_r, Hs. cbn.
  rewrite insert_id by done. by destruct rt.
Qed.

Lemma handle_chunks_concat {W} (sd : Z → list byte → W → bool * W) ch cs rt s w buf ps rest :
  sends_ok sd → buffers rt !! ch = Some buf → split_packets buf = ([], NeedMore buf) →
  split_packets (buf ++ concat cs) = (ps, NeedMore rest) →
  handle_chunks sd ch cs rt s w = handle_data sd ch (concat cs) rt s w.
Proof.
  intros Hsd. revert rt s w buf ps rest.
  induction cs as [|c cs IH]; intros rt s w buf ps rest Hb Hn Hs; cbn [handle_chunks concat].
  { symmetry. by eapply handle_data_nil. }
  etrans; [|symmetry; exact (handle_data_app sd ch c (concat cs) rt s w buf ps rest Hb Hs)].
  pose proof (handle_data_sends_ok sd ch c rt s w buf Hsd Hb) as Hok.
  destruct (handle_data sd ch c rt s w) as [r [[rt' s'] w']] eqn:E. cbn in Hok. subst r.
  cbn [concat] in Hs. rewrite app_assoc, split_packets_app in Hs.
  destruct (split_packets (buf ++ c)) as [ps1 [r1|l]] eqn:E1; [|done].
  destruct (split_packets (r1 ++ concat cs)) as [ps2 e2] eqn:E2. injection Hs as <- ->.
  apply (IH rt' s' w' r1 ps2 rest); [|exact (split_packets_rest _ _ _ E1)|exact E2].
  by eapply handle_data_buffer.
Qed.

Definition reply_log (channel : Z) (l : list (Z * SftpResponse)) : list (Z * list byte) :=
  map (λ q, (channel, encode_response (fst q) (snd q))) l.

Lemma answer_requests ch reqs rt s w :
  Forall request_fits reqs →
  answer_packets log_data ch (map request_body reqs) rt s w =
    let '(l, s') := serve_all (map request_seen reqs) s in
    (Ok (), (rt, s', w ++ reply_log ch l)).
Proof.
  intros Hf. revert rt s w. induction Hf as [|q reqs Hq _ IH]; intros rt s w; cbn [map].
  { cbn. by rewrite app_nil_r. }
  cbn [answer_packets]. rewrite (dispatch_refines_serve _ _ _ _ _ (decode_request_body q Hq)).
  cbn [log_data serve_all request_seen fst snd].
  destruct (serve (fst q) (request_wire (snd q)) s) as [a s1]. cbn [fst snd].
  rewrite IH. destruct (serve_all (map request_seen reqs) s1) as [l s2].
  cbn [reply_log map fst snd]. by rewrite <-app_assoc.
Qed.

(** C2.  The server refines the abstract service: whatever way the bytes of a
    request sequence are chunked, the handler is called once per request, in
    order, and the session is sent exactly the encoded answers in that order;
    the runtime is left as it was, ready for the next request. *)
Theorem server_refines_service (reqs : list (Z * Request)) (cs : list (list byte))
    (ch : Z) (rt : SftpServerRuntime) (s : S) (w : list (Z * list byte)) :
  Forall request_fits reqs → concat cs = stream_of reqs → buffers rt !! ch = Some [] →
  handle_chunks log_data ch cs rt s w =
    let '(l, s') := serve_all (map request_seen reqs) s in
    (Ok (), (rt, s', w ++ reply_log ch l)).
Proof.
  intros Hf Hc Hb. pose proof (split_stream reqs Hf) as Hs.
  erewrite handle_chunks_concat; [|done|exact Hb|done|cbn [app]; rewrite Hc; exact Hs].
  unfold handle_data. rewrite Hb. cbn [app]. rewrite Hc, Hs.
  rewrite insert_id by done. replace (with_buffers rt _ _) with rt by by destruct rt.
  by apply answer_requests.
Qed.

(** C24.  Chunking is irrelevant for every stream the framing accepts, negotiation
    packets and malformed requests included: two ways of cutting the same bytes
    leave the same runtime, handler state and session. *)
Theorem chunking_irrelevant {W} (sd : Z → list byte → W → bool * W)
    (cs1 cs2 : list (list byte)) (ch : Z) (rt : SftpServerRuntime) (s : S) (w : W)
    (ps : list (list byte)) (rest : list byte) :
  sends_ok sd → buffers rt !! ch = Some [] → concat cs1 = concat cs2 →
  split_packets (concat cs1) = (ps, NeedMore rest) →
  handle_chunks sd ch cs1 rt s w = handle_chunks sd ch cs2 rt s w.
Proof.
  intros Hsd Hb Heq Hs.
  rewrite (handle_chunks_concat sd ch cs1 rt s w [] ps rest Hsd Hb eq_refl Hs).
  rewrite Heq in Hs |- *. symmetry. by eapply handle_chunks_concat.
Qed.

(** A refused length field discards the complete requests that arrived in
    the same chunk before it: they are neither passed to the handler nor
    answered.  Had the chunk ended before the bad length, they would have been. *)
Theorem bad_length_discards_requests (reqs : list (Z * Request)) (ch : Z)
    (rt : SftpServerRuntime) (s : S) (w : list (Z * list byte)) :
  Forall request_fits reqs → buffers rt !! ch = Some [] →
  handle_chunks log_data ch [stream_of reqs ++ be_bytes 4 0] rt s w
    = (Ok (), (handle_channel_close ch rt, s, w)) ∧
  handle_chunks log_data ch [stream_of reqs; be_bytes 4 0] rt s w =
    let '(l, s') := serve_all (map request_seen reqs) s in
    (Ok (), (handle_channel_close ch rt, s', w ++ reply_log ch l)).
Proof.
  intros Hf Hb. pose proof (split_stream reqs Hf) as Hs. split; cbn [handle_chunks].
  - unfold handle_data. rewrite Hb. cbn [app]. rewrite split_packets_app, Hs. reflexivity.
  - unfold handle_data at 1. rewrite Hb. cbn [app]. rewrite Hs, insert_id by done.
    replace (with_buffers rt _ _) with rt by by destruct rt.
    rewrite answer_requests by done.
    destruct (serve_all (map request_seen reqs) s) as [l s'].
    unfold handle_data. by rewrite Hb.
Qed.

(** ** Runtime invariant *)

Definition rt_inv (rt : SftpServerRuntime) : Prop :=
  dom (buffers rt) = channels rt ∧ 3 ≤ version rt.

(** One call of the runtime's public methods, with any data and any session. *)
Inductive rt_step : SftpServerRuntime * S → SftpServerRuntime * S → Prop :=
| step_register rt s ch : rt_step (rt, s) (register_channel ch rt, s)
| step_close rt s ch : rt_step (rt, s) (handle_channel_close ch rt, s)
| step_data rt s W (sd : Z → list byte → W → bool * W) ch d w r rt' s' w' :
    handle_data sd ch d rt s w = (r, (rt', s', w')) → rt_step (rt, s) (rt', s').

Lemma dispatch_version packet rt s r rt' s' :
  3 ≤ version rt → dispatch_packet packet rt s = (r, (rt', s')) → 3 ≤ version rt'.
Proof.
  intros Hv. unfold dispatch_packet. destruct packet as [|t body]; [by intros [= _ <- _]|]. cbv zeta.
  destruct (b2z t =? FXP_INIT).
  - unfold handle_init. destruct (decode_init_request body) as [[v ext]|e]; [|by intros [= _ <- _]].
    destruct (v <? 3); [by intros [= _ <- _]|].
    destruct (h_init v ext s) as [[n|e] s1]; intros [= _ <- _]; [cbn; lia|done].
  - unfold keep.
    repeat match goal with |- context [if ?b then _ else _] => destruct b; [by intros [= _ <- _]|] end.
    by intros [= _ <- _].
Qed.

Lemma answer_version {W} (sd : Z → list byte → W → bool * W) ch ps rt s w r rt' s' w' :
  3 ≤ version rt → answer_packets sd ch ps rt s w = (r, (rt', s', w')) → 3 ≤ version rt'.
Proof.
  revert rt s w. induction ps as [|p ps IH]; intros rt s w Hv; cbn [answer_packets].
  { by intros [= _ <- _ _]. }
  destruct (dispatch_packet p rt s) as [resp [rt1 s1]] eqn:E.
  pose proof (dispatch_version _ _ _ _ _ _ Hv E).
  destruct resp as [resp|e]; [|by apply IH].
  destruct (sd ch resp w) as [[] w1]; [by apply IH|by intros [= _ <- _ _]].
Qed.

Lemma close_inv ch rt : rt_inv rt → rt_inv (handle_channel_close ch rt).
Proof. intros [Hd Hv]. split; [|done]. cbn. by rewrite dom_delete_L, Hd. Qed.

Lemma handle_data_inv {W} (sd : Z → list byte → W → bool * W) ch d rt s w r rt' s' w' :
  rt_inv rt → handle_data sd ch d rt s w = (r, (rt', s', w')) → rt_inv rt'.
Proof.
  intros Hinv. unfold handle_data. destruct (buffers rt !! ch) as [buf|] eqn:Hb; [|by intros [= _ <- _ _]].
  destruct (split_packets (buf ++ d)) as [ps [rest|l]].
  - intros H1. destruct Hinv as [Hd Hv]. split; [|by eapply answer_version in H1].
    apply answer_keeps_buffers in H1 as [-> ->]. cbn. rewrite dom_insert_L, Hd.
    apply elem_of_dom_2 in Hb. rewrite Hd in Hb. by apply subseteq_union_1_L, singleton_subseteq_l.
  - intros [= _ <- _ _]. by apply close_inv.
Qed.

(** C23.  In every reachable state of a connection the channels the runtime
    recognises are exactly those with a reassembly buffer, and the negotiated
    protocol version is at least three. *)
Theorem runtime_invariant (s0 : S) (st : SftpServerRuntime * S) :
  rtc rt_step (SftpServerRuntime_new, s0) st →
  ∀ ch, (is_sftp_channel ch (fst st) = true ↔ is_Some (buffers (fst st) !! ch)) ∧
        3 ≤ version (fst st).
Proof.
  intros Hr. assert (Hinv : rt_inv (fst st)).
  { revert Hr. apply (rtc_ind_r (λ st, rt_inv (fst st))); [by split|].
    intros st1 st2 _ Hstep Hi. destruct Hstep; cbn [fst] in *.
    - destruct Hi as [Hd Hv]. split; [|done]. cbn. by rewrite dom_insert_L, Hd.
    - by apply close_inv.
    - by eapply handle_data_inv. }
  destruct Hinv as [Hd Hv]. intros ch. split; [|done].
  unfold is_sftp_channel. rewrite bool_decide_eq_true, <-Hd. apply elem_of_dom.
Qed.
End Streams.

(** ** Concrete runs *)

Definition quote_debug (s : string) : string := String "034" (s +:+ String "034" "").

Section Witnesses.
#[local] Instance demo_debug : StrDebug := quote_debug.
#[local] Instance demo_handler : SftpServerHandler unit := default_handler.

Definition demo_rt : SftpServerRuntime := register_channel 7 SftpServerRuntime_new.
Definition demo_stream : list byte := stream_of demo_requests.

Lemma server_refines_service_witness :
  handle_chunks log_data 7 [take 3 demo_stream; drop 3 demo_stream] demo_rt () [] =
    let '(l, s') := serve_all (map request_seen demo_requests) () in
    (Ok (), (demo_rt, s', [] ++ reply_log 7 l)).
Proof.
  apply server_refines_service; [apply demo_requests_fit|by vm_compute|by vm_compute].
Defined.

Lemma chunking_irrelevant_witness :
  handle_chunks log_data 7 [take 3 demo_stream; drop 3 demo_stream] demo_rt () [] =
  handle_chunks log_data 7 [take 21 demo_stream; drop 21 demo_stream] demo_rt () [].
Proof.
  apply (chunking_irrelevant log_data _ _ 7 demo_rt () [] (map request_body demo_requests) []);
    [done|by vm_compute|by vm_compute|by vm_compute].
Defined.

Lemma bad_length_discards_requests_witness :
  handle_chunks log_data 7 [demo_stream ++ be_bytes 4 0] demo_rt () []
    = (Ok (), (handle_channel_close 7 demo_rt, (), [])) ∧
  handle_chunks log_data 7 [demo_stream; be_bytes 4 0] demo_rt () [] =
    let '(l, s') := serve_all (map request_seen demo_requests) () in
    (Ok (), (handle_channel_close 7 demo_rt, s', [] ++ reply_log 7 l)).
Proof. apply (bad_length_discards_requests demo_requests); [apply demo_requests_fit|by vm_compute]. Defined.

Lemma runtime_invariant_witness :
  (is_sftp_channel 7 demo_rt = true ↔ is_Some (buffers demo_rt !! 7)) ∧ 3 ≤ version demo_rt.
Proof. apply (runtime_invariant () (demo_rt, ())). eapply rtc_l; [apply step_register|constructor]. Defined.
End Witnesses.
