(* ===== verification/SftpTransfer.v ===== *)
(** * Client operations against the handler

    What each client operation returns, in terms of the handler method the
    server calls for it; then the chunked whole-file transfers, proved against
    an interface of file servers ([FileStore]). *)
From S2P Require Import Prelude RustStr Channel CoreError SftpPacket SftpWire SftpFraming.
From S2P Require Import SftpTypes SftpServer SftpClient SftpLoopback SftpService.

Section Operations.
Context `{!StrDebug} {S : Type} `{!SftpServerHandler S}.

Abbreviation LClient := (Client (SftpServerRuntime * S)).

(** The handler's state behind a client, and the client after one request. *)
Definition behind (c : LClient) : S := snd (world c).
Definition after (c : LClient) (s : S) : LClient :=
  {| next_id := wrap 32 (next_id c + 1); spawned := spawned c; world := (fst (world c), s) |}.

(** The request and its answer are within the wire's limits. *)
Definition exchange_ok (id : Z) (r : Request) (s : S) : Prop :=
  is_u32 id ∧ request_ok r ∧ fits_packet (request_fields r) ∧
  response_ok (fst (serve id (request_wire r) s)) ∧
  fits_packet (response_fields (fst (serve id (request_wire r) s))).

(** Send a request and read the answer with [f]. *)
Definition ask {A} (r : Request) (f : SftpResponse → Result A) :
    cm (W:=SftpServerRuntime * S) A :=
  request (λ id, encode_request id r) (λ packet id,
    cbind (send loopback packet id) (λ x, cret (f x))).

(** A client operation is [ask] of its request: unfold only the client layer. *)
Ltac ask_eq :=
  unfold ask, rt_read, rt_write, rt_close, rt_remove, rt_rename, rt_rmdir, rt_symlink,
    rt_setstat, rt_fsetstat, rt_stat, rt_lstat, rt_fstat, expect_status, expect_attrs,
    expect_handle;
  cbn [encode_request]; reflexivity.

Lemma ask_loopback {A} r (f : SftpResponse → Result A) {B} (k : B → SftpResponse) call c :
  exchange_ok (next_id c) r (behind c) →
  serve (next_id c) (request_wire r) (behind c) = answer k call →
  ask r f c = (f (response_wire (fst (answer k call))), after c (snd call)).
Proof.
  intros (Hid & Hr & Hf & Ha & Hfa) Hs.
  unfold ask, request, next_request_id, cbind, send, behind in *. cbn.
  destruct (world c) as [rt s] eqn:Hw. cbn in *.
  rewrite loopback_serve by done. rewrite Hs. unfold cret, after. rewrite Hw.
  by destruct call as [[]].
Qed.

(** ** Errors seen by the client *)

Definition remote_code (e : Error) : Z := fst (sftp_status_from_error e).
Definition remote_msg (e : Error) : string := snd (sftp_status_from_error e).

Definition remote_error (e : Error) : Error :=
  Error_sftp (sftp_error_kind_for_code (remote_code e))
    ("SFTP error code " +:+ dec (remote_code e) +:+ ": " +:+ remote_msg e).

Lemma remote_code_cases e :
  remote_code e = SSH_FX_NO_SUCH_FILE ∨ remote_code e = SSH_FX_PERMISSION_DENIED ∨
  remote_code e = SSH_FX_FAILURE ∨ remote_code e = SSH_FX_BAD_MESSAGE ∨
  remote_code e = SSH_FX_OP_UNSUPPORTED.
Proof.
  unfold remote_code. destruct e; cbn; try tauto.
  destruct (err_kind e); cbn; tauto.
Qed.

Lemma status_of_error_eq e : status_of_error e = RespStatus (remote_code e) (remote_msg e).
Proof.
  unfold status_of_error, remote_code, remote_msg. by destruct (sftp_status_from_error e).
Qed.

Lemma check_status_remote e : check_status (remote_code e) (remote_msg e) = Err (remote_error e).
Proof.
  unfold check_status, remote_error.
  destruct (remote_code_cases e) as [->|[->|[->|[->| ->]]]]; done.
Qed.

Lemma remote_code_not_eof e : (remote_code e =? SSH_FX_EOF) = false.
Proof. destruct (remote_code_cases e) as [->|[->|[->|[->| ->]]]]; done. Qed.

(** An application error reaches the client as an error of the same kind
    when the protocol has a code for it, and as [RemoteStatus] otherwise; it is
    never mistaken for success or for end of file. *)
Theorem error_kind_survives (k : SftpErrorKind) (msg : string) :
  let e := Error_sftp k msg in
  check_status (remote_code e) (remote_msg e) = Err (remote_error e) ∧
  remote_code e ≠ SSH_FX_EOF ∧
  ∃ text, remote_error e =
    Error_sftp (if bool_decide (k ∈ [NoSuchFile; PermissionDenied; Unsupported; Protocol])
                then k else RemoteStatus) text.
Proof.
  cbv zeta. split; [apply check_status_remote|]. split.
  - apply Z.eqb_neq, remote_code_not_eof.
  - unfold remote_error. eexists. f_equal. by destruct k.
Qed.

(** ** Operations answered by a status *)

Definition status_request (r : Request) : bool :=
  match r with
  | RWrite _ _ _ | RClose _ | RRemove _ | RRename _ _ | RRmdir _ | RSymlink _ _
  | RSetstat _ _ | RFsetstat _ _ => true
  | _ => false
  end.

Definition status_op (r : Request) : cm (W:=SftpServerRuntime * S) unit :=
  match r with
  | RWrite h o d => rt_write loopback h o d
  | RClose h => rt_close loopback h
  | RRemove f => rt_remove loopback f
  | RRename a b => rt_rename loopback a b
  | RRmdir p => rt_rmdir loopback p
  | RSymlink a b => rt_symlink loopback a b
  | RSetstat p a => rt_setstat loopback p a
  | RFsetstat h a => rt_fsetstat loopback h a
  | _ => cret (Ok ())
  end.

(** The handler call such an operation stands for. *)
Definition status_call (id : Z) (r : Request) (s : S) : Result unit * S :=
  match r with
  | RWrite h o d => h_write id h o d s
  | RClose h => h_close id h s
  | RRemove f => h_remove id f s
  | RRename a b => h_rename id a b s
  | RRmdir p => h_rmdir id p s
  | RSymlink a b => h_symlink id a b s
  | RSetstat p a => h_setstat id p (SftpMetadata_from_packet (attrs_wire a)) s
  | RFsetstat h a => h_fsetstat id h (SftpMetadata_from_packet (attrs_wire a)) s
  | _ => (Ok (), s)
  end.

Definition client_result {A B} (f : A → B) (r : Result A) : Result B :=
  match r with Ok a => Ok (f a) | Err e => Err (remote_error e) end.

(** Conversion unfolds the dispatcher before the operations. *)
Strategy expand [status_op].

Lemma status_op_ask r : status_request r = true → status_op r = ask r status_of_response.
Proof. destruct r; cbn [status_request status_op]; intros [=]; ask_eq. Qed.

Lemma serve_status id r s :
  status_request r = true →
  serve id (request_wire r) s = answer ok_answer (status_call id r s).
Proof. destruct r; first [discriminate|intros _; reflexivity]. Qed.

Lemma status_op_loopback r c :
  status_request r = true → exchange_ok (next_id c) r (behind c) →
  status_op r c = (client_result id (fst (status_call (next_id c) r (behind c))),
          after c (snd (status_call (next_id c) r (behind c)))).
Proof.
  intros Hop Hx. rewrite (status_op_ask r Hop).
  rewrite (ask_loopback _ _ ok_answer _ _ Hx (serve_status _ _ _ Hop)).
  destruct (status_call _ _ _) as [[[]|e] s]; cbn; [done|].
  rewrite status_of_error_eq. cbn. by rewrite check_status_remote.
Qed.

(** C20.  The operations answered by a status (write, close, remove, rename,
    rmdir, symlink, setstat, fsetstat) return exactly what the handler's method
    returned, its error translated by [remote_error], and perform exactly its
    state change, when the request and the answer are within the limits of the wire. *)
Theorem status_operations_refine_handler (r : Request) (c : LClient) :
  status_request r = true → exchange_ok (next_id c) r (behind c) →
  status_op r c = (client_result id (fst (status_call (next_id c) r (behind c))),
          after c (snd (status_call (next_id c) r (behind c)))).
Proof. apply status_op_loopback. Qed.

(** ** Operations that return a value *)

Lemma rt_read_loopback h o n c :
  exchange_ok (next_id c) (RRead h o n) (behind c) →
  rt_read loopback h o n c
  = (client_result id (fst (h_read (next_id c) h o n (behind c))),
     after c (snd (h_read (next_id c) h o n (behind c)))).
Proof.
  intros Hx. replace (rt_read loopback h o n) with (ask (RRead h o n) data_of_response)
    by ask_eq.
  rewrite (ask_loopback (RRead h o n) _ data_answer _ _ Hx eq_refl).
  destruct (h_read _ h o n _) as [[[|b d]|e] s]; cbn; [done|done|].
  rewrite status_of_error_eq. cbn. unfold eof_or_status.
  by rewrite remote_code_not_eof, check_status_remote.
Qed.

Definition open_error (e : Error) : Error :=
  Error_sftp (sftp_error_kind_for_code (remote_code e))
    ("SFTP " +:+ status_code_name (remote_code e) +:+ " (code "
     +:+ dec (remote_code e) +:+ "): " +:+ remote_msg e).

Definition open_result {A} (f : string → A) (r : Result string) : Result A :=
  match r with Ok h => Ok (f h) | Err e => Err (open_error e) end.

Lemma ask_handle_loopback r call c :
  exchange_ok (next_id c) r (behind c) →
  serve (next_id c) (request_wire r) (behind c) = answer RespHandle call →
  ask r handle_of_response c = (open_result id (fst call), after c (snd call)).
Proof.
  intros Hx Hs. rewrite (ask_loopback _ _ RespHandle _ _ Hx Hs).
  destruct call as [[h|e] s]; cbn; [done|]. by rewrite status_of_error_eq.
Qed.

Ltac handle_eq :=
  unfold ask, request, expect_handle, cbind, next_request_id; cbn [encode_request];
  destruct (send loopback _ _ _) as [[r|e] ?]; [|reflexivity];
  unfold cret; destruct (handle_of_response r); reflexivity.

Lemma rt_open_ask f p c :
  rt_open loopback f p c
  = cbind (ask (ROpen f p SftpFileAttrs_default) handle_of_response)
      (λ handle, cret (Ok (SftpFile_new handle))) c.
Proof. unfold rt_open. handle_eq. Qed.

Lemma rt_opendir_ask p c :
  rt_opendir loopback p c
  = cbind (ask (ROpendir p) handle_of_response) (λ handle, cret (Ok (SftpDir_new handle))) c.
Proof. unfold rt_opendir. handle_eq. Qed.

Lemma rt_open_loopback f p c :
  exchange_ok (next_id c) (ROpen f p SftpFileAttrs_default) (behind c) →
  rt_open loopback f p c
  = (open_result SftpFile_new (fst (h_open (next_id c) f p SftpMetadata_default (behind c))),
     after c (snd (h_open (next_id c) f p SftpMetadata_default (behind c)))).
Proof.
  intros Hx. rewrite rt_open_ask. unfold cbind. rewrite (ask_handle_loopback _ _ c Hx eq_refl).
  by destruct (h_open _ f p _ _) as [[h|e] s].
Qed.

Lemma rt_opendir_loopback p c :
  exchange_ok (next_id c) (ROpendir p) (behind c) →
  rt_opendir loopback p c
  = (open_result SftpDir_new (fst (h_opendir (next_id c) p (behind c))),
     after c (snd (h_opendir (next_id c) p (behind c)))).
Proof.
  intros Hx. rewrite rt_opendir_ask. unfold cbind. rewrite (ask_handle_loopback _ _ c Hx eq_refl).
  by destruct (h_opendir _ p _) as [[h|e] s].
Qed.

Definition attrs_request (r : Request) : bool :=
  match r with RStat _ | RLstat _ | RFstat _ => true | _ => false end.

Definition attrs_op (r : Request) : cm (W:=SftpServerRuntime * S) SftpMetadata :=
  match r with
  | RStat p => rt_stat loopback p
  | RLstat p => rt_lstat loopback p
  | RFstat h => rt_fstat loopback h
  | _ => cret (Ok SftpMetadata_default)
  end.

Definition attrs_call (id : Z) (r : Request) (s : S) : Result SftpMetadata * S :=
  match r with
  | RStat p => h_stat id p s
  | RLstat p => h_lstat id p s
  | RFstat h => h_fstat id h s
  | _ => (Ok SftpMetadata_default, s)
  end.

Definition attrs_error (e : Error) : Error :=
  Error_sftp (sftp_error_kind_for_code (remote_code e))
    ("expected attrs, got status " +:+ dec (remote_code e) +:+ ": " +:+ remote_msg e).

Definition attrs_result (r : Result SftpMetadata) : Result SftpMetadata :=
  match r with Ok m => Ok (metadata_wire m) | Err e => Err (attrs_error e) end.

Strategy expand [attrs_op].

Lemma attrs_op_ask r : attrs_request r = true → attrs_op r = ask r attrs_of_response.
Proof. destruct r; cbn [attrs_request attrs_op]; intros [=]; ask_eq. Qed.

Lemma serve_attrs id r s :
  attrs_request r = true →
  serve id (request_wire r) s = answer attrs_answer (attrs_call id r s).
Proof. destruct r; first [discriminate|intros _; reflexivity]. Qed.

Lemma attrs_op_loopback r c :
  attrs_request r = true → exchange_ok (next_id c) r (behind c) →
  attrs_op r c = (attrs_result (fst (attrs_call (next_id c) r (behind c))),
          after c (snd (attrs_call (next_id c) r (behind c)))).
Proof.
  intros Hop Hx. rewrite (attrs_op_ask r Hop).
  rewrite (ask_loopback _ _ attrs_answer _ _ Hx (serve_attrs _ _ _ Hop)).
  destruct (attrs_call _ _ _) as [[m|e] s'];
    cbn [answer fst snd attrs_answer response_wire attrs_result attrs_of_response];
    [by rewrite from_to_packet|by rewrite status_of_error_eq].
Qed.

(** A read returns the handler's bytes unchanged (an empty answer is end of
    file), or its error, and changes the server as the handler did. *)
Theorem read_refines_handler (h : string) (o n : Z) (c : LClient) :
  exchange_ok (next_id c) (RRead h o n) (behind c) →
  rt_read loopback h o n c
  = (client_result id (fst (h_read (next_id c) h o n (behind c))),
     after c (snd (h_read (next_id c) h o n (behind c)))).
Proof. apply rt_read_loopback. Qed.

(** C21.  stat, lstat and fstat return the handler's metadata as the wire carries
    it: size and permissions exactly, owner/group and the two times as pairs with
    a missing half read back as zero and times modulo 2^32; the request and the answer are
    within the limits of the wire. *)
Theorem metadata_operations_refine_handler (r : Request) (c : LClient) :
  attrs_request r = true → exchange_ok (next_id c) r (behind c) →
  attrs_op r c = (attrs_result (fst (attrs_call (next_id c) r (behind c))),
          after c (snd (attrs_call (next_id c) r (behind c)))).
Proof. apply attrs_op_loopback. Qed.
End Operations.
