(* ===== verification/SftpFiles.v ===== *)
(** * Whole-file transfers

    [FileStore] states what a file server promises through the handler
    interface; the chunked transfers of the client ([write_all],
    [read_to_vec]) are proved correct against it, and an in-memory server
    discharges it. *)
From S2P Require Import Prelude RustStr Channel CoreError SftpPacket SftpWire SftpFraming.
From S2P Require Import SftpTypes SftpServer SftpClient SftpLoopback SftpService.
From S2P Require Import SftpTransfer.

(** ** Interface *)

(** Paths and handles a transfer uses leave room for a chunk in a packet. *)
Definition short (s : string) : Prop := is_str s ∧ vec_len (as_bytes s) ≤ 4096.

Definition WRITE_ALL_MODE : Z :=
  OpenMode_bits (OpenMode_bitor (OpenMode_bitor OpenMode_WRITE OpenMode_CREATE) OpenMode_TRUNCATE).

(** [file_at s p] is the content of path [p]; [handle_at s h] the path an open
    handle stands for, [None] when [h] is not open.  A read may return fewer bytes
    than asked, but not none before the end of the file. *)
Class FileStore (S : Type) `{!SftpServerHandler S} := {
  file_at : S → string → option (list byte);
  handle_at : S → string → option string;
  open_write_law id p m s :
    short p →
    ∃ h s', h_open id p WRITE_ALL_MODE m s = (Ok h, s') ∧ short h ∧
      handle_at s' h = Some p ∧ (∀ k, k ≠ h → handle_at s' k = handle_at s k) ∧
      ∀ q, file_at s' q = if decide (q = p) then Some [] else file_at s q;
  open_read_law id p m s d :
    short p → file_at s p = Some d →
    ∃ h s', h_open id p (OpenMode_bits OpenMode_READ) m s = (Ok h, s') ∧ short h ∧
      handle_at s' h = Some p ∧ (∀ k, k ≠ h → handle_at s' k = handle_at s k) ∧
      ∀ q, file_at s' q = file_at s q;
  append_law id h p d d' s :
    handle_at s h = Some p → file_at s p = Some d →
    ∃ s', h_write id h (vec_len d) d' s = (Ok (), s') ∧ (∀ k, handle_at s' k = handle_at s k) ∧
      ∀ q, file_at s' q = if decide (q = p) then Some (d ++ d') else file_at s q;
  read_law id h p d o n s :
    handle_at s h = Some p → file_at s p = Some d → 0 ≤ o → 0 < n →
    ∃ d' s', h_read id h o n s = (Ok d', s') ∧
      d' `prefix_of` drop (Z.to_nat o) d ∧ vec_len d' ≤ n ∧
      (d' = [] → drop (Z.to_nat o) d = []) ∧
      (∀ k, handle_at s' k = handle_at s k) ∧ ∀ q, file_at s' q = file_at s q;
  fstat_law id h p d s :
    handle_at s h = Some p → file_at s p = Some d → vec_len d ≤ ISIZE_MAX →
    ∃ m s', h_fstat id h s = (Ok m, s') ∧ m_size m = Some (vec_len d) ∧ metadata_typed m ∧
      (∀ k, handle_at s' k = handle_at s k) ∧ ∀ q, file_at s' q = file_at s q;
  close_law id h p s :
    handle_at s h = Some p →
    ∃ s', h_close id h s = (Ok (), s') ∧
      (∀ k, handle_at s' k = if decide (k = h) then None else handle_at s k) ∧
      ∀ q, file_at s' q = file_at s q;
}.

(** ** One exchange *)

Lemma vec_len_app (a b : list byte) : vec_len (a ++ b) = vec_len a + vec_len b.
Proof. unfold vec_len. rewrite length_app. lia. Qed.

Lemma vec_len_be n z : vec_len (be_bytes n z) = Z.of_nat n.
Proof. unfold vec_len. by rewrite length_be_bytes. Qed.

Lemma vec_len_enc_bytes d : wire_bytes d → vec_len (enc_bytes d) = 4 + vec_len d.
Proof. intros Hd. by rewrite enc_bytes_eq, vec_len_app, vec_len_be. Qed.

Lemma vec_len_enc_attrs a : vec_len (enc_attrs a) ≤ 32.
Proof.
  rewrite enc_attrs_eq, !vec_len_app. unfold if_bytes.
  repeat match goal with |- context [if ?b then _ else _] => destruct b end;
    change (vec_len []) with 0; rewrite ?vec_len_be; lia.
Qed.

Lemma short_wire s : short s → wire_str s.
Proof. intros [? ?]. split; [done|]. unfold wire_bytes, MAX_SFTP_PACKET_SIZE. lia. Qed.

Lemma short_enc s : short s → vec_len (enc_string s) ≤ 4100.
Proof.
  intros Hs. pose proof (short_wire s Hs) as [_ Hw]. destruct Hs as [_ Hs].
  unfold enc_string, push_string. change (push_bytes [] ?x) with (enc_bytes x).
  rewrite vec_len_enc_bytes by done. lia.
Qed.

Lemma chunk_wire d : vec_len d ≤ SFTP_CHUNK_SIZE → wire_bytes d.
Proof. unfold wire_bytes, MAX_SFTP_PACKET_SIZE, SFTP_CHUNK_SIZE. lia. Qed.

(** A packet made of a short string and a bounded rest fits. *)
Lemma fits_short s rest :
  short s → vec_len rest ≤ 65536 → fits_packet (enc_string s ++ rest).
Proof.
  intros Hs%short_enc Hr. unfold fits_packet, MAX_SFTP_PACKET_SIZE. rewrite vec_len_app. lia.
Qed.

Strategy expand [status_op attrs_op].

Section Transfer.
Context `{!StrDebug} {S : Type} `{!SftpServerHandler S}.

Lemma exchange_intro id r s {B} (k : B → SftpResponse) call :
  is_u32 id → request_ok r → fits_packet (request_fields r) →
  serve id (request_wire r) s = answer k call →
  response_ok (fst (answer k call)) → fits_packet (response_fields (fst (answer k call))) →
  exchange_ok id r s.
Proof. intros ??? Hs ??. unfold exchange_ok. by rewrite Hs. Qed.

Lemma ok_answer_ok (s : S) :
  response_ok (fst (answer ok_answer (Ok (), s))) ∧
  fits_packet (response_fields (fst (answer ok_answer (Ok (), s)))).
Proof. by vm_compute. Qed.

Lemma handle_answer_ok h (s : S) :
  short h →
  response_ok (fst (answer RespHandle (Ok h, s))) ∧
  fits_packet (response_fields (fst (answer RespHandle (Ok h, s)))).
Proof.
  intros Hh. cbn [answer fst response_ok response_fields]. split; [by apply short_wire|].
  rewrite <-(app_nil_r (enc_string h)). by apply fits_short.
Qed.

Lemma attrs_answer_ok m (s : S) :
  metadata_typed m →
  response_ok (fst (answer attrs_answer (Ok m, s))) ∧
  fits_packet (response_fields (fst (answer attrs_answer (Ok m, s)))).
Proof.
  intros Hm. cbn [answer fst attrs_answer response_ok response_fields].
  split; [by apply to_packet_plain|].
  pose proof (vec_len_enc_attrs (SftpMetadata_to_packet m)).
  unfold fits_packet, MAX_SFTP_PACKET_SIZE. lia.
Qed.

Lemma data_answer_ok d (s : S) :
  vec_len d ≤ SFTP_CHUNK_SIZE →
  response_ok (fst (answer data_answer (Ok d, s))) ∧
  fits_packet (response_fields (fst (answer data_answer (Ok d, s)))).
Proof.
  intros Hd. destruct d as [|b d]; [by vm_compute|].
  cbn [answer fst data_answer response_ok response_fields]. split; [by apply chunk_wire|].
  unfold fits_packet. rewrite vec_len_enc_bytes by by apply chunk_wire.
  unfold MAX_SFTP_PACKET_SIZE, SFTP_CHUNK_SIZE in *. lia.
Qed.

(** The client after a call that left the handler in state [s']. *)
Lemma after_step c (s' : S) :
  behind (after c s') = s' ∧ spawned (after c s') = spawned c ∧ is_u32 (next_id (after c s')).
Proof. repeat split; by apply (fits_wrap 32). Qed.

Lemma open_step f p c h s' :
  short f → is_u32 p → is_u32 (next_id c) → short h →
  h_open (next_id c) f p SftpMetadata_default (behind c) = (Ok h, s') →
  rt_open loopback f p c = (Ok (SftpFile_new h), after c s').
Proof.
  intros Hf Hp Hid Hh Ho. destruct (handle_answer_ok h s' Hh).
  rewrite rt_open_loopback; [by rewrite Ho|].
  apply (exchange_intro _ _ _ RespHandle (Ok h, s')); try done.
  - split; [by apply short_wire|]. by split; [|vm_compute].
  - apply fits_short; [done|]. rewrite vec_len_app, vec_len_be.
    pose proof (vec_len_enc_attrs SftpFileAttrs_default). lia.
  - rewrite <-Ho. reflexivity.
Qed.

Lemma status_step r c s' :
  status_request r = true → is_u32 (next_id c) → request_ok r →
  fits_packet (request_fields r) → status_call (next_id c) r (behind c) = (Ok (), s') →
  status_op r c = (Ok (), after c s').
Proof.
  intros Hop Hid Hr Hf Hc. destruct (ok_answer_ok s').
  rewrite status_op_loopback; [by rewrite Hc|done|].
  apply (exchange_intro _ _ _ ok_answer (Ok (), s')); try done.
  by rewrite serve_status, Hc.
Qed.

Lemma close_step h c s' :
  short h → is_u32 (next_id c) →
  h_close (next_id c) h (behind c) = (Ok (), s') →
  rt_close loopback h c = (Ok (), after c s').
Proof.
  intros Hh Hid Hc. apply (status_step (RClose h)); try done; [by apply short_wire|].
  cbn [request_fields]. rewrite <-(app_nil_r (enc_string h)). by apply fits_short.
Qed.

Lemma write_step h o d c s' :
  short h → is_u64 o → vec_len d ≤ SFTP_CHUNK_SIZE → is_u32 (next_id c) →
  h_write (next_id c) h o d (behind c) = (Ok (), s') →
  rt_write loopback h o d c = (Ok (), after c s').
Proof.
  intros Hh Ho Hd Hid Hc. pose proof (chunk_wire d Hd).
  apply (status_step (RWrite h o d)); try done.
  - by split; [apply short_wire|].
  - apply fits_short; [done|].
    rewrite vec_len_app, vec_len_be, vec_len_enc_bytes by done. unfold SFTP_CHUNK_SIZE in Hd. lia.
Qed.

Lemma read_step h o c d s' :
  short h → is_u64 o → vec_len d ≤ SFTP_CHUNK_SIZE → is_u32 (next_id c) →
  h_read (next_id c) h o SFTP_CHUNK_SIZE (behind c) = (Ok d, s') →
  rt_read loopback h o SFTP_CHUNK_SIZE c = (Ok d, after c s').
Proof.
  intros Hh Ho Hd Hid Hc. destruct (data_answer_ok d s' Hd).
  rewrite rt_read_loopback; [by rewrite Hc|].
  apply (exchange_intro _ _ _ data_answer (Ok d, s')); try done.
  - by split; [apply short_wire|].
  - apply fits_short; [done|]. rewrite vec_len_app, !vec_len_be. lia.
  - rewrite <-Hc. reflexivity.
Qed.

Lemma fstat_step h c m s' :
  short h → is_u32 (next_id c) → metadata_typed m →
  h_fstat (next_id c) h (behind c) = (Ok m, s') →
  rt_fstat loopback h c = (Ok (metadata_wire m), after c s').
Proof.
  intros Hh Hid Hm Hc. destruct (attrs_answer_ok m s' Hm).
  etrans; [apply (attrs_op_loopback (RFstat h)); [done|]|].
  - apply (exchange_intro _ _ _ attrs_answer (Ok m, s')); try done; [by apply short_wire| |].
    + cbn [request_fields]. rewrite <-(app_nil_r (enc_string h)). by apply fits_short.
    + by rewrite <-Hc.
  - cbn [attrs_call]. by rewrite Hc.
Qed.
End Transfer.

(** ** Chunks *)

Lemma chunks_go_spec fuel n data :
  (0 < n)%nat → (length data ≤ fuel)%nat →
  concat (chunks_go fuel n data) = data ∧
  Forall (λ k, (length k ≤ n)%nat) (chunks_go fuel n data).
Proof.
  intros Hn. revert data. induction fuel as [|f IH]; intros data Hf.
  - destruct data; [done|cbn in Hf; lia].
  - destruct data as [|b data]; [done|]. set (l := b :: data) in *.
    destruct (IH (drop n l)) as [Hc Hl]; [rewrite length_drop; lia|].
    change (chunks_go (S f) n l) with (take n l :: chunks_go f n (drop n l)).
    split; [cbn [concat]; by rewrite Hc, take_drop|].
    constructor; [rewrite length_take; lia|done].
Qed.

Lemma chunks_spec data :
  concat (chunks (Z.to_nat SFTP_CHUNK_SIZE) data) = data ∧
  Forall (λ k, vec_len k ≤ SFTP_CHUNK_SIZE) (chunks (Z.to_nat SFTP_CHUNK_SIZE) data).
Proof.
  destruct (chunks_go_spec (length data) (Z.to_nat SFTP_CHUNK_SIZE) data) as [Hc Hl];
    [unfold SFTP_CHUNK_SIZE; lia|done|]. split; [done|].
  eapply Forall_impl; [done|]. intros k Hk. unfold vec_len.
  cbn beta in Hk. unfold SFTP_CHUNK_SIZE in *. lia.
Qed.

(** ** Transfers against the interface *)

Section Store.
Context `{!StrDebug} {S : Type} `{!SftpServerHandler S} `{!FileStore S}.

Definition updated (s : S) (p : string) (d : list byte) (s' : S) : Prop :=
  ∀ q, file_at s' q = if decide (q = p) then Some d else file_at s q.

Lemma updated_at s p d s' : updated s p d s' → file_at s' p = Some d.
Proof. intros H1. rewrite (H1 p). by case_decide. Qed.

Lemma updated_trans s p d s' d' s'' :
  updated s p d s' → updated s' p d' s'' → updated s p d' s''.
Proof. intros H1 H2 q. rewrite (H2 q), (H1 q). by case_decide. Qed.

Lemma updated_same s p d s' s'' :
  updated s p d s' → (∀ q, file_at s'' q = file_at s' q) → updated s p d s''.
Proof. intros H1 H2 q. by rewrite (H2 q), (H1 q). Qed.

Lemma same_updated s p d : file_at s p = Some d → updated s p d s.
Proof. intros Hd q. by case_decide; subst. Qed.

Definition same_handles (s s' : S) : Prop := ∀ k, handle_at s' k = handle_at s k.

(** Every handle open at the end was open at the start. *)
Definition none_left_open (s s' : S) : Prop :=
  ∀ k q, handle_at s' k = Some q → handle_at s k = Some q.

(** [h] is opened, used and closed. *)
Lemma closed_again h s s1 s2 s3 :
  (∀ k, k ≠ h → handle_at s1 k = handle_at s k) → same_handles s1 s2 →
  (∀ k, handle_at s3 k = if decide (k = h) then None else handle_at s2 k) → none_left_open s s3.
Proof. intros H1 H2 H3 k q. rewrite H3. case_decide as Hk; [done|]. by rewrite H2, H1. Qed.

(** A client whose handle [h] is open on [p]. *)
Definition open_on (h p : string) (c : Client (SftpServerRuntime * S)) : Prop :=
  short h ∧ is_u32 (next_id c) ∧ handle_at (behind c) h = Some p.

Lemma write_chunks_store h p cs c d :
  open_on h p c → file_at (behind c) p = Some d →
  Forall (λ k, vec_len k ≤ SFTP_CHUNK_SIZE) cs →
  vec_len d + vec_len (concat cs) < 2 ^ 64 →
  ∃ c', write_chunks loopback (SftpFile_new h) (vec_len d) cs c = (Ok (), c') ∧
    open_on h p c' ∧ spawned c' = spawned c ∧ same_handles (behind c) (behind c') ∧
    updated (behind c) p (d ++ concat cs) (behind c').
Proof.
  intros Ho Hd Hcs. revert c d Ho Hd.
  induction Hcs as [|k cs Hk Hcs IH]; intros c d Ho Hd Hlen.
  - exists c. rewrite app_nil_r. repeat split; try done; try apply Ho. by apply same_updated.
  - cbn [concat write_chunks] in *. rewrite vec_len_app in Hlen.
    pose proof (vec_len_nonneg d). pose proof (vec_len_nonneg k).
    pose proof (vec_len_nonneg (concat cs)). destruct Ho as (Hh & Hid & Hopen).
    destruct (append_law (next_id c) h p d k (behind c) Hopen Hd) as (s1 & Hw & Hs1 & Hu).
    unfold cbind, SftpFile_write. cbn [SftpFile_new file_handle].
    rewrite (write_step h (vec_len d) k c s1); try done; [|unfold fits; lia].
    destruct (after_step c s1) as (Hb & Hsp & Hid1).
    rewrite <-vec_len_app. destruct (IH (after c s1) (d ++ k)) as (c' & E & Ho' & Hs' & Hk' & Hu').
    + split; [done|]. split; [done|]. by rewrite Hb, Hs1.
    + by apply updated_at with (s := behind c).
    + rewrite vec_len_app. lia.
    + exists c'. rewrite E, Hs', <-app_assoc in *. rewrite Hb in Hu', Hk'.
      split; [done|]. split; [done|]. split; [done|].
      split; [|by eapply updated_trans]. intros k'. by rewrite Hk'.
Qed.

Lemma read_loop_store fuel h p d o c buf :
  open_on h p c → file_at (behind c) p = Some d → vec_len d ≤ ISIZE_MAX →
  0 ≤ o → (length d - Z.to_nat o < fuel)%nat → (Z.to_nat o ≤ length d)%nat →
  ∃ c', read_loop loopback fuel (SftpFile_new h) o buf c
        = (Returned (Ok (buf ++ drop (Z.to_nat o) d)), c') ∧
    open_on h p c' ∧ spawned c' = spawned c ∧ same_handles (behind c) (behind c') ∧
    ∀ q, file_at (behind c') q = file_at (behind c) q.
Proof.
  revert o c buf. induction fuel as [|fuel IH]; intros o c buf Ho Hd Hsz Hpos Hf Hle; [lia|].
  destruct Ho as (Hh & Hid & Hopen). cbn [read_loop].
  destruct (read_law (next_id c) h p d o SFTP_CHUNK_SIZE (behind c))
    as (d' & s1 & Hr & [rest Hp] & Hn & Hend & Hs1 & Hsame); [done..|].
  assert (Ho1 : handle_at s1 h = Some p) by by rewrite Hs1.
  unfold SftpFile_read. cbn [SftpFile_new file_handle].
  rewrite (read_step h o c d' s1); try done;
    [|unfold fits; unfold vec_len, ISIZE_MAX in Hsz; lia].
  destruct (after_step c s1) as (Hb & Hsp & Hid1).
  destruct d' as [|b d'].
  { exists (after c s1). rewrite (Hend eq_refl), app_nil_r.
    by split; [|split; [split|split; [|split]]]. }
  set (k := b :: d') in *.
  assert (Hk : length (drop (Z.to_nat o) d) = (length k + length rest)%nat)
    by (by rewrite Hp, length_app).
  rewrite length_drop in Hk.
  destruct (IH (o + vec_len k) (after c s1) (buf ++ k)) as (c' & E & Ho' & Hs' & Hk' & Hf').
  - by split.
  - by rewrite Hb, Hsame.
  - done.
  - unfold vec_len. lia.
  - unfold vec_len. rewrite Z2Nat.inj_add, Nat2Z.id by lia. unfold k in *. cbn in *. lia.
  - unfold vec_len. rewrite Z2Nat.inj_add, Nat2Z.id by lia. lia.
  - exists c'. rewrite E, Hs'. rewrite Hb in Hk', Hf'. split_and!; try done; try apply Ho'.
    + unfold vec_len. rewrite Z2Nat.inj_add, Nat2Z.id, <-drop_drop, Hp by lia.
      by rewrite drop_app_length, <-app_assoc.
    + intros k'. by rewrite Hk'.
    + intros q. by rewrite Hf'.
Qed.
Lemma write_all_store (b : bool) sc p data c :
  runtime_open sc = true → short p → is_u32 (next_id c) → vec_len data ≤ ISIZE_MAX →
  ∃ c', SftpClient_write_all loopback b sc p data c = (Ok (), c') ∧
    is_u32 (next_id c') ∧ spawned c' = spawned c ∧ updated (behind c) p data (behind c') ∧
    none_left_open (behind c) (behind c').
Proof.
  intros Hrt Hp Hid Hlen.
  destruct (open_write_law (next_id c) p SftpMetadata_default (behind c) Hp)
    as (h & s1 & Hopen & Hh & Ho1 & Hk1 & Hu1).
  destruct (after_step c s1) as (Hb & Hsp & Hid1). destruct (chunks_spec data) as [Hcat Hall].
  destruct (write_chunks_store h p (chunks (Z.to_nat SFTP_CHUNK_SIZE) data) (after c s1) [])
    as (c2 & E2 & (_ & Hid2 & Ho2) & Hsp2 & Hk2 & Hu2).
  { by split. }
  { by apply updated_at with (s := behind c). }
  { done. }
  { rewrite Hcat. unfold ISIZE_MAX in Hlen. change (vec_len []) with 0. lia. }
  rewrite Hcat in Hu2. change (vec_len []) with 0 in E2.
  destruct (close_law (next_id c2) h p (behind c2) Ho2) as (s3 & Hclose & Hk3 & Hf3).
  exists (after c2 s3). destruct (after_step c2 s3) as (Hb3 & Hsp3 & Hid3).
  unfold SftpClient_write_all, cbind, SftpClient_open, with_runtime. rewrite Hrt.
  rewrite (open_step p WRITE_ALL_MODE c h s1), E2 by done.
  unfold SftpFile_close, finally. cbn [file_handle SftpFile_new].
  rewrite (close_step h c2 s3) by done. split; [done|]. split; [done|].
  split; [by rewrite Hsp3, Hsp2|]. rewrite Hb3. rewrite Hb in Hu2, Hk2.
  split; [|by eapply closed_again].
  eapply updated_same; [|done]. by eapply updated_trans.
Qed.

Lemma read_to_vec_store (b : bool) fuel sc p data c :
  runtime_open sc = true → short p → is_u32 (next_id c) → vec_len data ≤ ISIZE_MAX →
  file_at (behind c) p = Some data → (length data < fuel)%nat →
  ∃ c', SftpClient_read_to_vec loopback b fuel sc p c = (Returned (Ok data), c') ∧
    spawned c' = spawned c ∧ none_left_open (behind c) (behind c') ∧
    ∀ q, file_at (behind c') q = file_at (behind c) q.
Proof.
  intros Hrt Hp Hid Hlen Hdata Hfuel.
  destruct (open_read_law (next_id c) p SftpMetadata_default (behind c) data Hp Hdata)
    as (h & s1 & Hopen & Hh & Ho1 & Hk1 & Hf1).
  destruct (after_step c s1) as (Hb1 & Hsp1 & Hid1).
  destruct (fstat_law (next_id (after c s1)) h p data s1)
    as (m & s2 & Hst & Hm & Hty & Hk2 & Hf2); [done|by rewrite Hf1|done|].
  assert (Ho2 : handle_at s2 h = Some p) by by rewrite Hk2.
  destruct (after_step (after c s1) s2) as (Hb2 & Hsp2 & Hid2).
  destruct (read_loop_store fuel h p data 0 (after (after c s1) s2) [])
    as (c3 & E3 & (_ & Hid3 & Ho3) & Hsp3 & Hk3 & Hf3);
    [by split|by rewrite Hb2, Hf2, Hf1|done|done|cbn; lia|cbn; lia|].
  destruct (close_law (next_id c3) h p (behind c3) Ho3) as (s4 & Hclose & Hk4 & Hf4).
  exists (after c3 s4). destruct (after_step c3 s4) as (Hb4 & Hsp4 & _).
  unfold SftpClient_read_to_vec, SftpClient_open, with_runtime. rewrite Hrt.
  rewrite (open_step p (OpenMode_bits OpenMode_READ) c h s1) by done.
  unfold SftpFile_metadata. cbn [file_handle SftpFile_new].
  rewrite (fstat_step h (after c s1) m s2) by (done || by rewrite Hb1).
  cbn [metadata_wire m_size]. rewrite Hm. cbn [default].
  rewrite (proj2 (Z.ltb_ge _ _)) by done. rewrite E3.
  unfold SftpFile_close, finally. cbn [file_handle SftpFile_new].
  rewrite (close_step h c3 s4) by done. split; [done|]. split; [congruence|].
  rewrite Hb4. rewrite Hb2 in Hk3, Hf3. split.
  - eapply (closed_again h _ s1); [done| |done]. intros k. by rewrite Hk3, Hk2.
  - intros q. by rewrite Hf4, Hf3, Hf2, Hf1.
Qed.

(** C5.  A file written with [write_all] and read back with [read_to_vec] is
    returned byte for byte, whatever the chunk boundaries and even if the server
    answers reads short, and no other file is touched; every handle the two opened is
    closed at the server when they return, and nothing is left to a background close.
    (The path is at most 4096 bytes long, the data fits in memory.) *)
Theorem write_all_read_to_vec (b : bool) (fuel : nat) (sc : SftpClient) (p : string)
    (data : list byte) (c : Client (SftpServerRuntime * S)) :
  runtime_open sc = true → short p → is_u32 (next_id c) → vec_len data ≤ ISIZE_MAX →
  (length data < fuel)%nat →
  ∃ c1 c2,
    SftpClient_write_all loopback b sc p data c = (Ok (), c1) ∧
    SftpClient_read_to_vec loopback b fuel sc p c1 = (Returned (Ok data), c2) ∧
    spawned c1 = spawned c ∧ spawned c2 = spawned c ∧
    (∀ h q, handle_at (behind c1) h = Some q → handle_at (behind c) h = Some q) ∧
    (∀ h q, handle_at (behind c2) h = Some q → handle_at (behind c) h = Some q) ∧
    ∀ q, file_at (behind c2) q = if decide (q = p) then Some data else file_at (behind c) q.
Proof.
  intros Hrt Hp Hid Hlen Hfuel.
  destruct (write_all_store b sc p data c) as (c1 & E1 & Hid1 & Hsp1 & Hu1 & Hn1); [done..|].
  destruct (read_to_vec_store b fuel sc p data c1) as (c2 & E2 & Hsp2 & Hn2 & Hf2); try done.
  { by apply updated_at in Hu1. }
  exists c1, c2. split_and!; try done; [congruence| |].
  - intros h q Hh. by apply Hn1, Hn2.
  - intros q. by rewrite Hf2, Hu1.
Qed.
End Store.
