(* ===== verification/SftpMemory.v ===== *)
(** * An in-memory file server

    A handler that keeps files in a map, shown to satisfy the [FileStore]
    interface, and concrete runs of the client against it. *)
From S2P Require Import Prelude RustStr Channel CoreError SftpPacket SftpWire SftpFraming.
From S2P Require Import SftpTypes SftpServer SftpClient SftpLoopback SftpService.
From S2P Require Import SftpTransfer SftpFiles.

Record Memory := {
  mem_files : gmap string (list byte);
  mem_open : gset string;
}.

Definition mem_no_file {A} : Result A := Err (Error_sftp NoSuchFile "").

Definition mem_has_flag (pflags flag : Z) : bool := negb (Z.land pflags flag =? 0).

(** The handle of a file is its path. *)
Definition mem_open_file (p : string) (pflags : Z) (s : Memory) : Result string * Memory :=
  match mem_files s !! p with
  | None =>
      if mem_has_flag pflags (OpenMode_bits OpenMode_CREATE) then
        (Ok p, {| mem_files := <[p := []]> (mem_files s); mem_open := {[p]} ∪ mem_open s |})
      else (mem_no_file, s)
  | Some d =>
      let d := if mem_has_flag pflags (OpenMode_bits OpenMode_TRUNCATE) then [] else d in
      (Ok p, {| mem_files := <[p := d]> (mem_files s); mem_open := {[p]} ∪ mem_open s |})
  end.

Definition mem_file {A} (h : string) (s : Memory) (k : list byte → Result A * Memory) :
    Result A * Memory :=
  if decide (h ∈ mem_open s) then
    match mem_files s !! h with Some d => k d | None => (mem_no_file, s) end
  else (mem_no_file, s).

(** Overwrite at an offset, padding a gap with zeros. *)
Definition splice (o : nat) (d' d : list byte) : list byte :=
  take o (d ++ replicate (o - length d) (z2b 0)) ++ d' ++ drop (o + length d') d.

Definition mem_handler : SftpServerHandler Memory := {|
  h_init := λ _ _ s, (Ok 3, s);
  h_open := λ _ p pflags _ s, mem_open_file p pflags s;
  h_close := λ _ h s,
    (Ok (), {| mem_files := mem_files s; mem_open := mem_open s ∖ {[h]} |});
  h_read := λ _ h o n s,
    mem_file h s (λ d, (Ok (take (Z.to_nat n) (drop (Z.to_nat o) d)), s));
  h_write := λ _ h o d' s,
    mem_file h s (λ d,
      (Ok (), {| mem_files := <[h := splice (Z.to_nat o) d' d]> (mem_files s);
                 mem_open := mem_open s |}));
  h_remove := λ _ p s,
    (Ok (), {| mem_files := delete p (mem_files s); mem_open := mem_open s |});
  h_rename := λ _ _ _ s, (not_implemented "rename", s);
  h_mkdir := λ _ _ _ s, (not_implemented "mkdir", s);
  h_rmdir := λ _ _ s, (not_implemented "rmdir", s);
  h_opendir := λ _ _ s, (not_implemented "opendir", s);
  h_readdir := λ _ _ s, (not_implemented "readdir", s);
  h_stat := λ _ p s,
    match mem_files s !! p with
    | Some d => (Ok (SftpMetadata_with_size SftpMetadata_default (vec_len d)), s)
    | None => (mem_no_file, s)
    end;
  h_lstat := λ _ _ s, (not_implemented "lstat", s);
  h_fstat := λ _ h s,
    mem_file h s (λ d, (Ok (SftpMetadata_with_size SftpMetadata_default (vec_len d)), s));
  h_setstat := λ _ _ _ s, (not_implemented "setstat", s);
  h_fsetstat := λ _ _ _ s, (not_implemented "fsetstat", s);
  h_realpath := λ _ _ s, (not_implemented "realpath", s);
  h_readlink := λ _ _ s, (not_implemented "readlink", s);
  h_symlink := λ _ _ _ s, (not_implemented "symlink", s);
|}.
#[export] Existing Instance mem_handler.

(** ** The interface holds *)

Definition mem_handle_at (s : Memory) (h : string) : option string :=
  if decide (h ∈ mem_open s) then Some h else None.

Lemma mem_handle_at_some s h p : mem_handle_at s h = Some p → h ∈ mem_open s ∧ p = h.
Proof. unfold mem_handle_at. case_decide; [|done]. by intros [= ->]. Qed.

Lemma mem_handle_at_open s h : h ∈ mem_open s → mem_handle_at s h = Some h.
Proof. unfold mem_handle_at. by case_decide. Qed.

Lemma mem_handle_at_other s files h k :
  k ≠ h →
  mem_handle_at {| mem_files := files; mem_open := {[h]} ∪ mem_open s |} k = mem_handle_at s k.
Proof. intros Hk. unfold mem_handle_at. cbn. repeat case_decide; set_solver. Qed.

Lemma mem_file_at {A} h s d (k : list byte → Result A * Memory) :
  h ∈ mem_open s → mem_files s !! h = Some d → mem_file h s k = k d.
Proof. intros Ho Hd. unfold mem_file. rewrite Hd. by case_decide. Qed.

Lemma splice_end d d' : splice (length d) d' d = d ++ d'.
Proof.
  unfold splice. rewrite Nat.sub_diag. cbn [replicate].
  rewrite app_nil_r, take_ge, drop_ge, app_nil_r by lia. done.
Qed.

Lemma lookup_insert_if (m : gmap string (list byte)) p d q :
  <[p := d]> m !! q = if decide (q = p) then Some d else m !! q.
Proof. case_decide; subst; [apply lookup_insert_eq|by apply lookup_insert_ne]. Qed.

#[export] Program Instance mem_store : FileStore Memory := {|
  file_at := λ s p, mem_files s !! p;
  handle_at := mem_handle_at;
|}.
Next Obligation.
  intros id p m s Hp. cbn [h_open mem_handler]. unfold mem_open_file.
  destruct (mem_files s !! p) as [d|]; eexists _, _; (split; [reflexivity|]);
    (split; [done|]); (split; [apply mem_handle_at_open; set_solver|]);
    (split; [intros k Hk; by apply mem_handle_at_other|]); intros q; apply lookup_insert_if.
Qed.
Next Obligation.
  intros id p m s d Hp Hd. cbn [h_open mem_handler]. unfold mem_open_file. cbn in Hd. rewrite Hd.
  eexists _, _. split; [reflexivity|]. split; [done|].
  split; [apply mem_handle_at_open; set_solver|].
  split; [intros k Hk; by apply mem_handle_at_other|]. intros q. cbn. rewrite lookup_insert_if. by case_decide; subst.
Qed.
Next Obligation.
  intros id h p d d' s [Ho ->]%mem_handle_at_some Hd. cbn [h_write mem_handler].
  rewrite (mem_file_at h s d) by done. eexists. split; [reflexivity|].
  split; [done|]. intros q. cbn. rewrite lookup_insert_if.
  unfold vec_len. by rewrite Nat2Z.id, splice_end.
Qed.
Next Obligation.
  intros id h p d o n s [Ho ->]%mem_handle_at_some Hd Hpos Hn. cbn [h_read mem_handler].
  rewrite (mem_file_at h s d) by done. eexists _, _. split; [reflexivity|].
  split; [apply prefix_take|]. split; [unfold vec_len; rewrite length_take; lia|].
  split; [|by split].
  intros Ht%(f_equal length). rewrite length_take in Ht. cbn in Ht.
  apply length_zero_iff_nil. lia.
Qed.
Next Obligation.
  intros id h p d s [Ho ->]%mem_handle_at_some Hd Hsz. cbn [h_fstat mem_handler].
  rewrite (mem_file_at h s d) by done. eexists _, _. split; [reflexivity|].
  split; [done|]. split; [|by split].
  split; [|done]. unfold opt_fits, fits, ISIZE_MAX in *. cbn.
  pose proof (vec_len_nonneg d). lia.
Qed.
Next Obligation.
  intros id h p s _. eexists. split; [reflexivity|]. split; [|done].
  intros k. unfold mem_handle_at. cbn. repeat case_decide; set_solver.
Qed.

(** ** Concrete runs *)

Section Runs.
#[local] Instance run_debug : StrDebug := quote_debug.

Definition run_bytes : list byte := as_bytes "hello, world".
Definition run_store : Memory :=
  {| mem_files := {[ "a.txt" := run_bytes ]}; mem_open := {[ "a.txt" ]} |}.
Definition run_client : Client (SftpServerRuntime * Memory) :=
  {| next_id := 2 ^ 32 - 1; spawned := []; world := (SftpServerRuntime_new, run_store) |}.
Definition run_sc : SftpClient := {| runtime_open := true; session_id := 1 |}.

Lemma run_exchange r :
  r ∈ [RWrite "a.txt" 12 (as_bytes "!"); RRead "a.txt" 7 5; RFstat "a.txt"] →
  exchange_ok (next_id run_client) r (behind run_client).
Proof.
  intros [->|[->|[->|[]%not_elem_of_nil]%elem_of_cons]%elem_of_cons]%elem_of_cons;
    vm_compute; repeat split; congruence.
Defined.

Lemma status_operations_refine_handler_witness :
  rt_write loopback "a.txt" 12 (as_bytes "!") run_client =
    (Ok (), after run_client {| mem_files := {[ "a.txt" := as_bytes "hello, world!" ]};
                                mem_open := {[ "a.txt" ]} |}).
Proof.
  etrans; [apply (status_operations_refine_handler (RWrite "a.txt" 12 (as_bytes "!")));
    [reflexivity|apply run_exchange; set_solver]|by vm_compute].
Defined.

Lemma read_refines_handler_witness :
  rt_read loopback "a.txt" 7 5 run_client = (Ok (as_bytes "world"), after run_client run_store).
Proof.
  etrans; [apply read_refines_handler; apply run_exchange; set_solver|by vm_compute].
Defined.

Lemma metadata_operations_refine_handler_witness :
  rt_fstat loopback "a.txt" run_client =
    (Ok (SftpMetadata_with_size SftpMetadata_default 12), after run_client run_store).
Proof.
  etrans; [apply (metadata_operations_refine_handler (RFstat "a.txt"));
    [reflexivity|apply run_exchange; set_solver]|by vm_compute].
Defined.

Lemma write_all_read_to_vec_witness :
  ∃ c1 c2,
    SftpClient_write_all loopback true run_sc "b" run_bytes run_client = (Ok (), c1) ∧
    SftpClient_read_to_vec loopback true 13 run_sc "b" c1 = (Returned (Ok run_bytes), c2) ∧
    spawned c2 = [] ∧ handle_at (behind c2) "b" = None ∧
    ∀ q, file_at (behind c2) q
         = if decide (q = "b") then Some run_bytes else file_at run_store q.
Proof.
  destruct (write_all_read_to_vec true 13 run_sc "b" run_bytes run_client)
    as (c1 & c2 & Hw & Hr & _ & Hs & _ & Hh & Hf);
    [done|by vm_compute|by vm_compute|by vm_compute|cbn; lia|].
  exists c1, c2. split_and!; [done|done|done| |done].
  destruct (handle_at (behind c2) "b") as [q|] eqn:E; [|done].
  apply Hh in E. by vm_compute in E.
Defined.
End Runs.
