(* ===== verification/SftpTasks.v ===== *)
(** * The client's runtime tasks ([russh-extra/src/sftp/client.rs])

    Version negotiation ([connect], [read_sftp_response]) and the concurrent
    machinery behind every request: the shared table of pending requests, the
    writer and reader tasks, the one-shot channels callers wait on.  Tasks
    interleave, so the machine is a step function on events; what holds of every
    interleaving is proved by induction on runs. *)
From S2P Require Import Prelude RustStr Channel CoreError SftpPacket SftpWire SftpFraming.
From S2P Require Import SftpTypes SftpServer SftpClient SftpLoopback SftpService.
From S2P Require Import SftpTransfer.

(** ** Negotiation *)

(** What [read_half.wait()] yields; the end of the list is [None]. *)
Inductive ChannelMsg :=
| MsgData (data : list byte)
| MsgClose
| MsgOther.

Fixpoint read_sftp_response_go (buf : list byte) (msgs : list ChannelMsg) :
    Result (option (list byte)) :=
  match msgs with
  | MsgData data :: msgs' =>
      let buf := buf ++ data in
      if (length buf <? 4)%nat then read_sftp_response_go buf msgs'
      else
        let len_u32 := from_be (slice buf 0 4) in
        if bad_length len_u32 then
          Err (Error_sftp Protocol "invalid SFTP packet length during negotiation")
        else
          let len := Z.to_nat len_u32 in
          if (length buf <? 4 + len)%nat then read_sftp_response_go buf msgs'
          else Ok (Some (slice buf 4 len))
  | MsgClose :: _ | [] => Ok None
  | MsgOther :: msgs' => read_sftp_response_go buf msgs'
  end.

Definition read_sftp_response (msgs : list ChannelMsg) : Result (option (list byte)) :=
  read_sftp_response_go [] msgs.

(** [connect] after the channel was obtained: the outcomes of the three channel
    operations ([channel_open_session], [request_subsystem], sending [FXP_INIT])
    and the messages that arrive are given; the result is the first request id. *)
Definition connect (opened subsystem sent : result BoxError unit) (msgs : list ChannelMsg) :
    Result Z :=
  _ ← map_err (Error_sftp_with_source ChannelIo "failed to open SFTP session channel") opened;
  _ ← map_err (Error_sftp_with_source ChannelIo "failed to request sftp subsystem") subsystem;
  _ ← map_err (Error_sftp_with_source ChannelIo "failed to send SFTP init") sent;
  version_response ← read_sftp_response msgs;
  payload ← ok_or (Error_sftp Protocol "channel closed before SFTP version")
    version_response;
  ptype ← decode_packet_type payload;
  if negb (ptype =? FXP_VERSION) then
    Err (Error_sftp Protocol ("expected FXP_VERSION, got packet type " +:+ dec ptype))
  else
    '(version, _extensions) ← decode_version (drop 1 payload);
    if version <? 3 then
      Err (Error_sftp UnsupportedVersion
             ("server SFTP version " +:+ dec version +:+ " is not supported"))
    else Ok 10.

(** ** Requests in flight *)

(** A one-shot channel, by the state of its sender: still in the table, used, or
    dropped without sending. *)
Inductive shot :=
| Open
| Sent (r : Result SftpResponse)
| Lost.

(** Where a call of [send_and_await] stands. *)
Inductive phase :=
| Registered
| Enqueued
| Finished (r : Result SftpResponse).

Record call := { c_id : Z; c_packet : list byte; c_phase : phase }.

(** The reader: waiting for a message, in the inner loop, or returned. *)
Inductive reader := Waiting | Cutting | Stopped.
#[export] Instance reader_eq_dec : EqDecision reader.
Proof. solve_decision. Defined.

(** The writer: serving its queue, past the loop with the reason it will give, with that
    reason set, with the table drained, or returned and its end of the queue dropped. *)
Inductive writer := Running | Closing (reason : string) | Reasoned (reason : string) | Drained | Ended.

Record Tasks := {
  t_pending : gmap Z nat;            (* request id -> sender *)
  t_shots : gmap nat shot;
  t_calls : gmap nat call;
  t_fresh : nat;
  t_queue : list (Z * list byte);    (* the bounded channel to the writer *)
  t_writer : writer;
  t_wire : list (list byte);         (* packets handed to the SSH channel *)
  t_reader : reader;
  t_buf : list byte;
  t_abort : option string;
}.

Definition Tasks_new : Tasks :=
  {| t_pending := ∅; t_shots := ∅; t_calls := ∅; t_fresh := 0; t_queue := [];
     t_writer := Running; t_wire := []; t_reader := Waiting; t_buf := []; t_abort := None |}.

Definition set_shots (p : gmap Z nat) (s : gmap nat shot) (st : Tasks) : Tasks :=
  {| t_pending := p; t_shots := s; t_calls := t_calls st; t_fresh := t_fresh st;
     t_queue := t_queue st; t_writer := t_writer st; t_wire := t_wire st;
     t_reader := t_reader st; t_buf := t_buf st; t_abort := t_abort st |}.

Definition set_calls (c : gmap nat call) (st : Tasks) : Tasks :=
  {| t_pending := t_pending st; t_shots := t_shots st; t_calls := c; t_fresh := t_fresh st;
     t_queue := t_queue st; t_writer := t_writer st; t_wire := t_wire st;
     t_reader := t_reader st; t_buf := t_buf st; t_abort := t_abort st |}.

Definition set_writer (q : list (Z * list byte)) (w : writer) (out : list (list byte))
    (st : Tasks) : Tasks :=
  {| t_pending := t_pending st; t_shots := t_shots st; t_calls := t_calls st;
     t_fresh := t_fresh st; t_queue := q; t_writer := w; t_wire := out;
     t_reader := t_reader st; t_buf := t_buf st; t_abort := t_abort st |}.

Definition set_reader (r : reader) (b : list byte) (st : Tasks) : Tasks :=
  {| t_pending := t_pending st; t_shots := t_shots st; t_calls := t_calls st;
     t_fresh := t_fresh st; t_queue := t_queue st; t_writer := t_writer st;
     t_wire := t_wire st; t_reader := r; t_buf := b; t_abort := t_abort st |}.

Definition set_abort (a : option string) (st : Tasks) : Tasks :=
  {| t_pending := t_pending st; t_shots := t_shots st; t_calls := t_calls st;
     t_fresh := t_fresh st; t_queue := t_queue st; t_writer := t_writer st;
     t_wire := t_wire st; t_reader := t_reader st; t_buf := t_buf st; t_abort := a |}.

(** [pending.lock().await.insert(id, tx)]: a sender replaced in the table is
    dropped. *)
Definition register (id : Z) (packet : list byte) (st : Tasks) : Tasks :=
  let k := t_fresh st in
  let shots := match t_pending st !! id with
               | Some old => <[old := Lost]> (t_shots st)
               | None => t_shots st
               end in
  {| t_pending := <[id := k]> (t_pending st); t_shots := <[k := Open]> shots;
     t_calls := <[k := {| c_id := id; c_packet := packet; c_phase := Registered |}]> (t_calls st);
     t_fresh := S k; t_queue := t_queue st; t_writer := t_writer st; t_wire := t_wire st;
     t_reader := t_reader st; t_buf := t_buf st; t_abort := t_abort st |}.

(** [if let Some(tx) = pending.remove(&id) { tx.send(result) }]. *)
Definition complete (id : Z) (r : Result SftpResponse) (st : Tasks) : Tasks :=
  match t_pending st !! id with
  | Some k => set_shots (delete id (t_pending st)) (<[k := Sent r]> (t_shots st)) st
  | None => st
  end.

Definition dispatch_response (packet : list byte) (st : Tasks) : Tasks :=
  match response_of_packet packet with
  | None => st
  | Some d => let '(id, r) := response_route d in complete id r st
  end.

(** [for (_, tx) in map.drain() { tx.send(Err(...)) }]. *)
Definition drain (e : Error) (st : Tasks) : Tasks :=
  set_shots ∅
    (map_imap (λ k s,
       Some (if bool_decide (k ∈ (map_to_list (t_pending st)).*2) then Sent (Err e) else s))
       (t_shots st)) st.

Definition WRITE_QUEUE : nat := 256.

Definition set_phase (k : nat) (c : call) (p : phase) (st : Tasks) : Tasks :=
  set_calls (<[k := {| c_id := c_id c; c_packet := c_packet c; c_phase := p |}]> (t_calls st)) st.

(** [self.write_tx.send((id, packet)).await?]: waits while the queue is full,
    fails once the writer is gone (leaving its table entry behind). *)
Definition enqueue (k : nat) (st : Tasks) : option Tasks :=
  match t_calls st !! k with
  | Some c =>
      match c_phase c with
      | Registered =>
          match t_writer st with
          | Ended =>
              Some (set_phase k c
                      (Finished (Err (Error_sftp ChannelIo "SFTP write task closed"))) st)
          | w =>
              if (length (t_queue st) <? WRITE_QUEUE)%nat then
                Some (set_phase k c Enqueued
                        (set_writer (t_queue st ++ [(c_id c, c_packet c)]) w (t_wire st) st))
              else None
          end
      | _ => None
      end
  | None => None
  end.

(** [match rx.await]. *)
Definition poll (k : nat) (st : Tasks) : option Tasks :=
  match t_calls st !! k, t_shots st !! k with
  | Some c, Some s =>
      match c_phase c, s with
      | Enqueued, Sent r => Some (set_phase k c (Finished r) st)
      | Enqueued, Lost =>
          let reason := default "SFTP request cancelled" (t_abort st) in
          Some (set_abort None
                  (set_phase k c (Finished (Err (Error_sftp ChannelIo reason))) st))
      | _, _ => None
      end
  | _, _ => None
  end.

(** [write_task] leaves its loop: with a write error, or because every sender of
    the queue is gone. *)
Definition write_break (write_error : option string) (st : Tasks) : Tasks :=
  set_writer (t_queue st) (Closing (default "SFTP channel closed" write_error)) (t_wire st) st.

(** The rest of [write_task]: set the reason, then drain the table, then return, which drops
    [write_rx] and what is queued in it.  Callers may run in between. *)
Definition write_reason (reason : string) (st : Tasks) : Tasks :=
  set_abort (Some reason) (set_writer (t_queue st) (Reasoned reason) (t_wire st) st).
Definition write_drain (reason : string) (st : Tasks) : Tasks :=
  drain (Error_sftp ChannelIo reason) (set_writer (t_queue st) Drained (t_wire st) st).
Definition write_end (st : Tasks) : Tasks := set_writer [] Ended (t_wire st) st.

(** One turn of the reader's inner loop. *)
Definition cut (st : Tasks) : Tasks :=
  let buf := t_buf st in
  if (length buf <? 4)%nat then set_reader Waiting buf st
  else
    let len_u32 := from_be (slice buf 0 4) in
    if bad_length len_u32 then
      let msg := "SFTP protocol error: invalid packet length " +:+ dec len_u32 in
      drain (Error_sftp Protocol msg) (set_abort (Some msg) (set_reader Stopped buf st))
    else
      let len := Z.to_nat len_u32 in
      if (length buf <? 4 + len)%nat then set_reader Waiting buf st
      else
        let packet := slice buf 4 len in
        dispatch_response packet (set_reader Cutting (drop (4 + len) buf) st).

Inductive event :=
| EvRegister (id : Z) (packet : list byte)
| EvEnqueue (k : nat)
| EvPoll (k : nat)
| EvWrite
| EvWriteFail (e : string)
| EvSendersGone
| EvWriteReason
| EvWriteDrain
| EvWriteEnd
| EvMsg (m : ChannelMsg)
| EvHangup
| EvCut.

(** [None]: the event cannot happen now. *)
Definition step (e : event) (st : Tasks) : option Tasks :=
  match e with
  | EvRegister id packet => Some (register id packet st)
  | EvEnqueue k => enqueue k st
  | EvPoll k => poll k st
  | EvWrite =>
      match t_writer st, t_queue st with
      | Running, (_, packet) :: q => Some (set_writer q Running (t_wire st ++ [packet]) st)
      | _, _ => None
      end
  | EvWriteFail e =>
      match t_writer st, t_queue st with
      | Running, _ :: q =>
          Some (write_break (Some ("SFTP write failed: " +:+ e))
                  (set_writer q Running (t_wire st) st))
      | _, _ => None
      end
  | EvSendersGone =>
      match t_writer st, t_queue st with
      | Running, [] => Some (write_break None st)
      | _, _ => None
      end
  | EvWriteReason =>
      match t_writer st with Closing reason => Some (write_reason reason st) | _ => None end
  | EvWriteDrain =>
      match t_writer st with Reasoned reason => Some (write_drain reason st) | _ => None end
  | EvWriteEnd => match t_writer st with Drained => Some (write_end st) | _ => None end
  | EvMsg m =>
      if decide (t_reader st = Waiting) then
        match m with
        | MsgData data => Some (set_reader Cutting (t_buf st ++ data) st)
        | MsgClose => Some (set_reader Stopped (t_buf st) st)
        | MsgOther => Some st
        end
      else None
  | EvHangup =>
      if decide (t_reader st = Waiting) then Some (set_reader Stopped (t_buf st) st) else None
  | EvCut => if decide (t_reader st = Cutting) then Some (cut st) else None
  end.

Fixpoint run_events (es : list event) (st : Tasks) : option Tasks :=
  match es with
  | [] => Some st
  | e :: es' => st' ← step e st; run_events es' st'
  end.

(** ** Invariant: who waits is in the table, under the id it sent *)

Record tasks_inv (st : Tasks) : Prop := {
  inv_pending id k :
    t_pending st !! id = Some k →
    t_shots st !! k = Some Open ∧ c_id <$> t_calls st !! k = Some id;
  inv_open k : t_shots st !! k = Some Open → ∃ id, t_pending st !! id = Some k;
  inv_fresh k s : t_shots st !! k = Some s → (k < t_fresh st)%nat;
}.

Lemma inv_ext st st' :
  t_pending st' = t_pending st → t_shots st' = t_shots st → t_fresh st' = t_fresh st →
  (∀ k, c_id <$> t_calls st' !! k = c_id <$> t_calls st !! k) →
  tasks_inv st → tasks_inv st'.
Proof.
  intros Hp Hs Hf Hc [I1 I2 I3]. split; rewrite ?Hp, ?Hs, ?Hf; [|done..].
  intros id k. rewrite Hc. apply I1.
Qed.

Lemma inv_inj st id id' k :
  tasks_inv st → t_pending st !! id = Some k → t_pending st !! id' = Some k → id = id'.
Proof. intros I [_ H1]%(inv_pending _ I) [_ H2]%(inv_pending _ I). congruence. Qed.

Lemma register_inv id packet st : tasks_inv st → tasks_inv (register id packet st).
Proof.
  intros I. set (k0 := t_fresh st).
  assert (Hnew : t_shots st !! k0 = None).
  { destruct (t_shots st !! k0) eqn:E; [|done]. apply (inv_fresh _ I) in E. unfold k0 in E. lia. }
  split; cbn; fold k0.
  - intros id' k. destruct (decide (id' = id)) as [->|Hid].
    { rewrite lookup_insert_eq. intros [= <-]. by rewrite !lookup_insert_eq. }
    rewrite lookup_insert_ne by done. intros Hk. destruct (inv_pending _ I _ _ Hk) as [H1 H2].
    assert (k ≠ k0) by congruence. rewrite !lookup_insert_ne by done. split; [|done].
    destruct (t_pending st !! id) as [old|] eqn:E; [|done].
    rewrite lookup_insert_ne; [done|]. intros ->. by apply Hid, (inv_inj st _ _ k).
  - intros k. destruct (decide (k = k0)) as [->|Hk].
    { intros _. exists id. apply lookup_insert_eq. }
    rewrite lookup_insert_ne by done. intros Ho.
    assert (H1 : t_shots st !! k = Some Open ∧ t_pending st !! id ≠ Some k).
    { destruct (t_pending st !! id) as [old|] eqn:E; [|done].
      apply lookup_insert_Some in Ho as [[_ ?]|[? ?]]; [done|]. split; congruence. }
    destruct H1 as [[id' H1]%(inv_open _ I) H2]. exists id'.
    rewrite lookup_insert_ne; [done|]. congruence.
  - intros k s. destruct (decide (k = k0)) as [->|Hk]; [lia|].
    rewrite lookup_insert_ne by done.
    destruct (t_pending st !! id) as [old|] eqn:E.
    + intros [[<- _]|[_ Hs]]%lookup_insert_Some.
      * destruct (inv_pending _ I _ _ E) as [?%(inv_fresh _ I) _]. unfold k0. lia.
      * apply (inv_fresh _ I) in Hs. unfold k0. lia.
    + intros Hs%(inv_fresh _ I). unfold k0. lia.
Qed.

Lemma complete_inv id r st : tasks_inv st → tasks_inv (complete id r st).
Proof.
  intros I. unfold complete. destruct (t_pending st !! id) as [k0|] eqn:E; [|done].
  split; cbn.
  - intros id' k [Hne Hk]%lookup_delete_Some. destruct (inv_pending _ I _ _ Hk) as [H1 H2].
    split; [|done]. rewrite lookup_insert_ne; [done|]. intros ->.
    by apply Hne, (inv_inj st _ _ k).
  - intros k [[_ ?]|[Hk Ho]]%lookup_insert_Some; [done|].
    apply (inv_open _ I) in Ho as [id' Hid]. exists id'. apply lookup_delete_Some.
    split; [congruence|done].
  - intros k s [[<- _]|[_ Hs]]%lookup_insert_Some; [|by apply (inv_fresh _ I) in Hs].
    destruct (inv_pending _ I _ _ E) as [?%(inv_fresh _ I) _]. done.
Qed.

Lemma dispatch_inv p st : tasks_inv st → tasks_inv (dispatch_response p st).
Proof.
  intros I. unfold dispatch_response. destruct (response_of_packet p) as [d|]; [|done].
  destruct (response_route d). by apply complete_inv.
Qed.

Lemma drain_shots e st k s :
  t_shots (drain e st) !! k = Some s →
  ∃ s0, t_shots st !! k = Some s0 ∧
    ((∃ id, t_pending st !! id = Some k) ∧ s = Sent (Err e) ∨
     (∀ id, t_pending st !! id ≠ Some k) ∧ s = s0).
Proof.
  cbn. rewrite map_lookup_imap. destruct (t_shots st !! k) as [s0|]; cbn; [|done].
  intros [= <-]. exists s0. split; [done|].
  case_bool_decide as H.
  - left. split; [|done]. apply list_elem_of_fmap in H as ([id k'] & -> & Hin).
    exists id. by apply elem_of_map_to_list in Hin.
  - right. split; [|done]. intros id Hid. apply H, list_elem_of_fmap. exists (id, k).
    split; [done|]. by apply elem_of_map_to_list.
Qed.

Lemma drain_closed e st k : tasks_inv st → t_shots (drain e st) !! k ≠ Some Open.
Proof.
  intros I H. apply drain_shots in H as (s0 & Hs & [[_ ?]|[Hn <-]]); [done|].
  apply (inv_open _ I) in Hs as [id Hid]. by apply (Hn id).
Qed.

Lemma drain_inv e st : tasks_inv st → tasks_inv (drain e st).
Proof.
  intros I. split.
  - cbn. intros id k. by rewrite lookup_empty.
  - intros k Ho. by apply drain_closed in Ho.
  - intros k s (s0 & Hs & _)%drain_shots. by apply (inv_fresh _ I) in Hs.
Qed.

Lemma set_phase_ids k c p st k' :
  t_calls st !! k = Some c →
  c_id <$> t_calls (set_phase k c p st) !! k' = c_id <$> t_calls st !! k'.
Proof.
  intros Hc. cbn. destruct (decide (k' = k)) as [->|Hk]; [by rewrite lookup_insert_eq, Hc|].
  by rewrite lookup_insert_ne.
Qed.

Lemma cut_inv st : tasks_inv st → tasks_inv (cut st).
Proof.
  intros I. unfold cut. cbv zeta.
  repeat match goal with |- context [if ?b then _ else _] => destruct b end.
  - by apply (inv_ext st).
  - apply drain_inv. by apply (inv_ext st).
  - by apply (inv_ext st).
  - apply dispatch_inv. by apply (inv_ext st).
Qed.

Lemma enqueue_inv k st st' : tasks_inv st → enqueue k st = Some st' → tasks_inv st'.
Proof.
  intros I. unfold enqueue. destruct (t_calls st !! k) as [c|] eqn:E; [|done].
  destruct (c_phase c); try done.
  destruct (t_writer st); try (destruct (_ <? _)%nat; [|done]); intros [= <-];
    apply (inv_ext st); try done; intros k'; by apply (set_phase_ids k c _ st).
Qed.

Lemma poll_inv k st st' : tasks_inv st → poll k st = Some st' → tasks_inv st'.
Proof.
  intros I. unfold poll. destruct (t_calls st !! k) as [c|] eqn:E; [|done].
  destruct (t_shots st !! k) as [s|]; [|done].
  destruct (c_phase c), s; try done; intros [= <-]; apply (inv_ext st); try done;
    intros k'; by apply (set_phase_ids k c _ st).
Qed.

Lemma step_inv e st st' : tasks_inv st → step e st = Some st' → tasks_inv st'.
Proof.
  intros I. destruct e as [id p|k|k| |e| | | | |m| |]; cbn [step].
  - intros [= <-]. by apply register_inv.
  - by apply enqueue_inv.
  - by apply poll_inv.
  - destruct (t_writer st), (t_queue st) as [|[]]; try done. intros [= <-]. by apply (inv_ext st).
  - destruct (t_writer st), (t_queue st) as [|[]]; try done. intros [= <-]. by apply (inv_ext st).
  - destruct (t_writer st), (t_queue st) as [|[]]; try done. intros [= <-]. by apply (inv_ext st).
  - destruct (t_writer st); try done. intros [= <-]. by apply (inv_ext st).
  - destruct (t_writer st); try done. intros [= <-]. apply drain_inv. by apply (inv_ext st).
  - destruct (t_writer st); try done. intros [= <-]. by apply (inv_ext st).
  - case_decide; [|done]. destruct m; intros [= <-]; by apply (inv_ext st).
  - case_decide; [|done]. intros [= <-]; by apply (inv_ext st).
  - case_decide; [|done]. intros [= <-]. by apply cut_inv.
Qed.

Lemma tasks_new_inv : tasks_inv Tasks_new.
Proof. split; cbn; [intros ??|intros ?|intros ??]; by rewrite lookup_empty. Qed.

Lemma run_inv es st st' : tasks_inv st → run_events es st = Some st' → tasks_inv st'.
Proof.
  revert st. induction es as [|e es IH]; intros st I; cbn [run_events].
  { by intros [= <-]. }
  destruct (step e st) as [st1|] eqn:E; [|done]. cbn. apply IH. by eapply step_inv.
Qed.

(** A state some interleaving of the tasks reaches. *)
Definition reachable (st : Tasks) : Prop := ∃ es, run_events es Tasks_new = Some st.

Lemma reachable_inv st : reachable st → tasks_inv st.
Proof. intros [es H]. eapply run_inv; [apply tasks_new_inv|done]. Qed.

(** ** Claims *)

(** C15.  In every interleaving of callers, writer and reader, a request still
    waiting for its answer is in the table of pending requests under exactly the
    id it sent, and no two waiting requests share an entry. *)
Theorem waiting_requests_are_registered (st : Tasks) :
  reachable st →
  ∀ k, t_shots st !! k = Some Open →
  ∃ id, t_pending st !! id = Some k ∧ c_id <$> t_calls st !! k = Some id ∧
        ∀ id', t_pending st !! id' = Some k → id' = id.
Proof.
  intros I%reachable_inv k [id Hid]%(inv_open _ I). exists id. split; [done|].
  split; [by apply (inv_pending _ I)|]. intros id' H'. by eapply inv_inj.
Qed.

(** Dispatching one packet answers the request it names and no other. *)
Lemma dispatch_routes p d id r k st :
  tasks_inv st → response_of_packet p = Some d → response_route d = (id, r) →
  t_pending st !! id = Some k →
  t_pending (dispatch_response p st) = delete id (t_pending st) ∧
  t_shots (dispatch_response p st) = <[k := Sent r]> (t_shots st).
Proof.
  intros I Hp Hr Hk. unfold dispatch_response. rewrite Hp, Hr. unfold complete. by rewrite Hk.
Qed.

Definition same_rest (st st' : Tasks) : Prop :=
  t_calls st' = t_calls st ∧ t_queue st' = t_queue st ∧ t_writer st' = t_writer st ∧
  t_wire st' = t_wire st ∧ t_abort st' = t_abort st.

Lemma cut_framed body rest st :
  body_ok body → t_buf st = framed body ++ rest →
  cut st = dispatch_response body (set_reader Cutting rest st).
Proof.
  intros Hb Hbuf. unfold cut. cbv zeta. rewrite Hbuf.
  assert (Hu : is_u32 (vec_len body)) by (destruct Hb; apply wire_bytes_u32; done).
  unfold framed. rewrite <-app_assoc.
  assert (Hl : length (be_bytes 4 (vec_len body)) = 4%nat) by apply length_be_bytes.
  rewrite (proj2 (Nat.ltb_ge _ _)) by (rewrite length_app, Hl; lia).
  rewrite slice_head, from_be_be_bytes by done. rewrite Z.mod_small by apply Hu.
  assert (Hbad : bad_length (vec_len body) = false) by (apply bad_length_false; destruct Hb; lia).
  rewrite Hbad. replace (Z.to_nat (vec_len body)) with (length body) by (unfold vec_len; lia).
  rewrite (proj2 (Nat.ltb_ge _ _)) by (rewrite !length_app, Hl; lia).
  f_equal.
  - rewrite <-Hl. by apply slice_app.
  - f_equal. rewrite app_assoc, drop_app_length'; [done|]. rewrite length_app, Hl. done.
Qed.

Definition reply_for (p : list byte) : option (Z * Result SftpResponse) :=
  response_route <$> response_of_packet p.

Lemma reply_dispatch p id r st :
  reply_for p = Some (id, r) → dispatch_response p st = complete id r st.
Proof.
  unfold reply_for, dispatch_response. destruct (response_of_packet p) as [d|]; [|done].
  cbn. intros [= E]. by rewrite E.
Qed.

Lemma cuts_replies bodies replies st :
  Forall body_ok bodies → map reply_for bodies = map Some replies →
  NoDup replies.*1 → t_reader st = Cutting → t_buf st = concat (map framed bodies) →
  tasks_inv st →
  ∃ st', run_events (replicate (S (length bodies)) EvCut) st = Some st' ∧
    t_reader st' = Waiting ∧ t_buf st' = [] ∧ tasks_inv st' ∧
    (∀ id r k, (id, r) ∈ replies → t_pending st !! id = Some k → t_shots st' !! k = Some (Sent r)) ∧
    (∀ id, id ∉ replies.*1 → t_pending st' !! id = t_pending st !! id) ∧
    (∀ k s, t_shots st !! k = Some s → s ≠ Open → t_shots st' !! k = Some s).
Proof.
  intros Hb. revert replies st.
  induction Hb as [|p ps Hp Hps IH]; intros [|[id r] rs] st Hm Hnd Hrd Hbuf I;
    cbn [map] in Hm; try discriminate Hm.
  - exists (set_reader Waiting (t_buf st) st). cbn. rewrite decide_True by done. cbn.
    unfold cut. rewrite Hbuf. cbn. split; [done|]. split; [done|]. split; [done|].
    split; [by apply (inv_ext st)|]. split; [|done]. intros ??? H. by apply elem_of_nil in H.
  - injection Hm as Hr Hm. apply NoDup_cons in Hnd as [Hnin Hnd]. cbn [map concat] in Hbuf.
    cbn [length replicate run_events step]. rewrite decide_True by done. cbn [mbind option_bind].
    rewrite (cut_framed p _ st Hp Hbuf), (reply_dispatch _ _ _ _ Hr).
    set (st1 := complete id r (set_reader Cutting (concat (map framed ps)) st)).
    assert (I1 : tasks_inv st1) by (apply complete_inv; by apply (inv_ext st)).
    destruct (IH rs st1 Hm Hnd) as (st' & Hrun & H1 & H2 & I' & H3 & H4 & H5); [| |done|].
    { unfold st1, complete. by destruct (t_pending _ !! id). }
    { unfold st1, complete. by destruct (t_pending _ !! id). }
    assert (Hpend : ∀ id', id' ≠ id → t_pending st1 !! id' = t_pending st !! id').
    { intros id' Hne. unfold st1, complete. cbn [set_reader t_pending].
      destruct (t_pending st !! id); [|done]. cbn. by rewrite lookup_delete_ne. }
    assert (Hsent : ∀ k, t_pending st !! id = Some k → t_shots st1 !! k = Some (Sent r)).
    { intros k Hk. unfold st1, complete. cbn [set_reader t_pending]. rewrite Hk. cbn.
      apply lookup_insert_eq. }
    exists st'. split; [exact Hrun|]. split; [done|]. split; [done|]. split; [done|].
    split; [|split].
    + intros id' r' k [[= -> ->]|Hin]%elem_of_cons Hk.
      * apply H5; [by apply Hsent|done].
      * eapply H3; [done|]. rewrite Hpend; [done|]. intros ->.
        apply Hnin. apply list_elem_of_fmap. by exists (id, r').
    + intros id' [Hne Hn]%not_elem_of_cons. rewrite H4 by done. by apply Hpend.
    + intros k s Hs Hne. apply H5; [|done]. unfold st1, complete. cbn [set_reader t_pending].
      destruct (t_pending st !! id) as [k0|] eqn:E; [|done]. cbn.
      rewrite lookup_insert_ne; [done|]. intros ->.
      by destruct (inv_pending _ I _ _ E) as [? _]; congruence.
Qed.

(** C14.  Pipelining: whatever order the responses arrive in, however many come in
    one read, each request registered under an id gets the response that carries
    that id, every other request keeps waiting, and the reader ends ready for the
    next read. *)
Theorem responses_in_any_order (bodies : list (list byte))
    (replies : list (Z * Result SftpResponse)) (data : list byte) (st : Tasks) :
  reachable st → t_reader st = Waiting →
  t_buf st ++ data = concat (map framed bodies) →
  Forall body_ok bodies → map reply_for bodies = map Some replies → NoDup replies.*1 →
  ∃ st',
    run_events (EvMsg (MsgData data) :: replicate (S (length bodies)) EvCut) st = Some st' ∧
    t_reader st' = Waiting ∧ t_buf st' = [] ∧
    (∀ id r k, (id, r) ∈ replies → t_pending st !! id = Some k →
       t_shots st' !! k = Some (Sent r)) ∧
    (∀ id, id ∉ replies.*1 → t_pending st' !! id = t_pending st !! id).
Proof.
  intros I%reachable_inv Hrd Hbuf Hb Hm Hnd.
  destruct (cuts_replies bodies replies (set_reader Cutting (t_buf st ++ data) st))
    as (st' & Hrun & H1 & H2 & _ & H3 & H4 & _); try done; [by apply (inv_ext st)|].
  exists st'. split; [|done]. cbn [run_events step]. by rewrite decide_True.
Qed.

(** C16.  When the writer fails (or every sender is gone) nobody who waits is left hanging:
    it sets the reason it gives, and when it then drains the table, whatever callers have
    done in between, every request waiting at that moment is told, with that reason, and
    the table is empty.  Neither step can be kept from happening. *)
Theorem writer_end_answers_everyone (st : Tasks) (reason : string) :
  reachable st →
  (t_writer st = Closing reason →
   ∃ st', step EvWriteReason st = Some st' ∧ t_writer st' = Reasoned reason ∧
     t_abort st' = Some reason ∧ t_pending st' = t_pending st ∧ t_shots st' = t_shots st) ∧
  (t_writer st = Reasoned reason →
   ∃ st', step EvWriteDrain st = Some st' ∧ t_pending st' = ∅ ∧ t_abort st' = t_abort st ∧
     ∀ k, t_shots st !! k = Some Open →
          t_shots st' !! k = Some (Sent (Err (Error_sftp ChannelIo reason)))).
Proof.
  intros I%reachable_inv. split; intros Hw; cbn [step]; rewrite Hw; eexists; (split; [done|]).
  { done. }
  split; [done|]. split; [done|]. intros k Hk.
  destruct (inv_open _ I _ Hk) as [id Hid]. cbn. rewrite map_lookup_imap, Hk. cbn.
  rewrite bool_decide_true; [done|]. apply list_elem_of_fmap. exists (id, k).
  split; [done|]. by apply elem_of_map_to_list.
Qed.

(** Events after which the writer is still serving its queue. *)
Definition writer_survives (e : event) : bool :=
  match e with EvWriteFail _ | EvSendersGone => false | _ => true end.
Definition registers (id : Z) (e : event) : bool :=
  match e with EvRegister id' _ => id' =? id | _ => false end.

Lemma stopped_step e st st' id k :
  t_reader st = Stopped → t_writer st = Running →
  t_pending st !! id = Some k → t_shots st !! k = Some Open → tasks_inv st →
  writer_survives e = true → registers id e = false → step e st = Some st' →
  t_reader st' = Stopped ∧ t_writer st' = Running ∧
  t_pending st' !! id = Some k ∧ t_shots st' !! k = Some Open.
Proof.
  intros Hr Hw Hp Hs I Hsurv Hreg.
  destruct e as [id' p|k'|k'| |e| | | | |m| |]; cbn [step writer_survives registers] in *;
    try done; try (by rewrite Hw).
  - intros [= <-]. pose proof (register_inv id' p st I) as I'. cbn.
    apply Z.eqb_neq in Hreg.
    assert (E : t_pending (register id' p st) !! id = Some k) by (by cbn; rewrite lookup_insert_ne).
    repeat split; [done|done|exact E|]. by apply (inv_pending _ I') in E as [E _].
  - unfold enqueue. destruct (t_calls st !! k') as [c|]; [|done]. rewrite Hw.
    destruct (c_phase c); try done. destruct (_ <? _)%nat; [|done]. by intros [= <-].
  - unfold poll. destruct (t_calls st !! k') as [c|], (t_shots st !! k') as [s|]; try done.
    destruct (c_phase c), s; try done; by intros [= <-].
  - rewrite Hw. destruct (t_queue st) as [|[]]; [done|]. by intros [= <-].
  - rewrite decide_False by congruence. done.
  - rewrite decide_False by congruence. done.
  - rewrite decide_False by congruence. done.
Qed.

(** Once the reader has returned (the server closed the channel, or sent a
    bad length), a request that is waiting stays waiting for as long as the writer
    keeps working: the reader does not drain the table when the channel closes,
    and nothing else answers it. *)
Theorem stopped_reader_strands_requests (es : list event) (st st' : Tasks) (id : Z) (k : nat) :
  reachable st → t_reader st = Stopped → t_writer st = Running →
  t_pending st !! id = Some k →
  forallb (λ e, writer_survives e && negb (registers id e)) es = true →
  run_events es st = Some st' →
  t_pending st' !! id = Some k ∧ t_shots st' !! k = Some Open.
Proof.
  intros I%reachable_inv Hr Hw Hp Hes Hrun.
  assert (Hs : t_shots st !! k = Some Open) by by apply (inv_pending _ I) in Hp as [? _].
  revert st I Hr Hw Hp Hs Hrun.
  induction es as [|e es IH]; intros st I Hr Hw Hp Hs; cbn [run_events].
  { by intros [= <-]. }
  destruct (step e st) as [st1|] eqn:E; [|done]. cbn [mbind option_bind forallb] in *.
  apply andb_true_iff in Hes as [[Hsv Hrg%negb_true_iff]%andb_true_iff Hes].
  destruct (stopped_step e st st1 id k) as (?&?&?&?); try done.
  apply IH; try done. by eapply step_inv.
Qed.

(** ** Concrete runs *)

(** Two requests in flight, then the writer or the reader gives up. *)
Definition two_requests : list event :=
  [EvRegister 10 (encode_stat 10 "a"); EvRegister 11 (encode_close 11 "h");
   EvEnqueue 1; EvEnqueue 0; EvWrite; EvWrite].
Definition run_from_new (es : list event) : Tasks := default Tasks_new (run_events es Tasks_new).

Definition in_flight : Tasks := run_from_new two_requests.
Definition write_failing : Tasks :=
  run_from_new (take 4 two_requests ++ [EvWriteFail "broken pipe"]).
Definition channel_closed : Tasks := run_from_new (two_requests ++ [EvMsg MsgClose]).

Lemma run_from_new_reachable es : is_Some (run_events es Tasks_new) → reachable (run_from_new es).
Proof. intros [st H]. exists es. unfold run_from_new. by rewrite H. Defined.

Lemma waiting_requests_are_registered_witness :
  t_shots in_flight !! 1%nat = Some Open ∧
  ∃ id, t_pending in_flight !! id = Some 1%nat ∧ c_id <$> t_calls in_flight !! 1%nat = Some id ∧
        ∀ id', t_pending in_flight !! id' = Some 1%nat → id' = id.
Proof.
  split; [by vm_compute|].
  apply waiting_requests_are_registered; [|by vm_compute].
  apply run_from_new_reachable. vm_compute. by eexists.
Defined.

(** The answers to the two requests, in the opposite order. *)
Definition two_bodies : list (list byte) :=
  [drop 4 (encode_status_response 11 0 "OK");
   drop 4 (encode_attrs_response 10 SftpFileAttrs_default)].
Definition two_replies : list (Z * Result SftpResponse) :=
  [(11, Ok (RespStatus 0 "OK")); (10, Ok (RespAttrs SftpFileAttrs_default))].

Lemma responses_in_any_order_witness :
  ∃ st',
    run_events (EvMsg (MsgData (concat (map framed two_bodies)))
                :: replicate (S (length two_bodies)) EvCut) in_flight = Some st' ∧
    t_reader st' = Waiting ∧ t_buf st' = [] ∧
    (∀ id r k, (id, r) ∈ two_replies → t_pending in_flight !! id = Some k →
       t_shots st' !! k = Some (Sent r)) ∧
    (∀ id, id ∉ two_replies.*1 → t_pending st' !! id = t_pending in_flight !! id).
Proof.
  apply (responses_in_any_order two_bodies two_replies (concat (map framed two_bodies)) in_flight).
  - apply run_from_new_reachable. vm_compute. by eexists.
  - by vm_compute.
  - by vm_compute.
  - by repeat constructor; vm_compute.
  - by vm_compute.
  - apply (bool_decide_unpack (NoDup two_replies.*1)). by vm_compute.
Defined.

(** The reason is set, then the table drained. *)
Definition reason_set : Tasks :=
  run_from_new (take 4 two_requests ++ [EvWriteFail "broken pipe"; EvWriteReason]).

Lemma writer_end_answers_everyone_witness :
  t_shots write_failing !! 0%nat = Some Open ∧
  t_abort (default Tasks_new (step EvWriteReason write_failing))
  = Some "SFTP write failed: broken pipe" ∧
  t_shots (default Tasks_new (step EvWriteDrain reason_set)) !! 0%nat
  = Some (Sent (Err (Error_sftp ChannelIo "SFTP write failed: broken pipe"))).
Proof.
  split; [by vm_compute|]. split.
  - destruct (writer_end_answers_everyone write_failing "SFTP write failed: broken pipe")
      as [H _]; [apply run_from_new_reachable; vm_compute; by eexists|].
    destruct H as (st' & -> & _ & Ha & _); [by vm_compute|done].
  - destruct (writer_end_answers_everyone reason_set "SFTP write failed: broken pipe")
      as [_ H]; [apply run_from_new_reachable; vm_compute; by eexists|].
    destruct H as (st' & -> & _ & _ & Hk); [by vm_compute|]. apply Hk. by vm_compute.
Defined.

(** A request that comes between the drain and the writer's return is accepted, thrown away
    with the queue, and never answered: it waits in the table with nobody to remove it. *)
Example request_after_drain_stranded :
  let st := run_from_new [EvRegister 10 []; EvEnqueue 0; EvWriteFail "broken pipe"; EvWriteReason;
                          EvWriteDrain; EvRegister 11 []; EvEnqueue 1; EvWriteEnd] in
  t_writer st = Ended ∧ t_queue st = [] ∧ t_wire st = [] ∧ t_shots st !! 1%nat = Some Open ∧
  c_phase <$> t_calls st !! 1%nat = Some Enqueued ∧ step (EvPoll 1) st = None.
Proof. by vm_compute. Qed.

(** Another request is sent, and written, after the server closed the channel. *)
Definition after_close : list event := [EvRegister 12 []; EvEnqueue 2; EvWrite].
Definition much_later : Tasks := default Tasks_new (run_events after_close channel_closed).

Lemma stopped_reader_strands_requests_witness :
  t_pending much_later !! 10 = Some 0%nat ∧ t_shots much_later !! 0%nat = Some Open.
Proof.
  apply (stopped_reader_strands_requests after_close channel_closed much_later 10 0);
    [|by vm_compute|by vm_compute|by vm_compute|by vm_compute|by vm_compute].
  apply run_from_new_reachable. vm_compute. by eexists.
Defined.
