(* ===== verification/SftpConnect.v ===== *)
(** * Version negotiation

    [connect] against the modelled server, and against a server that follows the
    draft standard's layout of [SSH_FXP_VERSION]. *)
From S2P Require Import Prelude RustStr Channel CoreError SftpPacket SftpWire SftpFraming.
From S2P Require Import SftpTypes SftpServer SftpClient SftpLoopback SftpService.
From S2P Require Import SftpTransfer SftpTasks.

Definition msg_bytes (m : ChannelMsg) : list byte :=
  match m with MsgData data => data | _ => [] end.

Lemma read_response_first buf msgs p ps e :
  Forall (λ m, m ≠ MsgClose) msgs → split_packets buf = ([], NeedMore buf) →
  split_packets (buf ++ concat (map msg_bytes msgs)) = (p :: ps, e) →
  read_sftp_response_go buf msgs = Ok (Some p).
Proof.
  intros Hm. revert buf. induction Hm as [|m msgs Hm _ IH]; intros buf Hb.
  { cbn. by rewrite app_nil_r, Hb. }
  destruct m as [d| |]; [|done|by apply IH]. cbn [map concat msg_bytes read_sftp_response_go].
  rewrite app_assoc, split_packets_app. cbv zeta.
  rewrite (split_packets_unfold (buf ++ d)). cbv zeta.
  destruct (Nat.ltb_spec (length (buf ++ d)) 4) as [H4|H4].
  { cbv beta iota. destruct (split_packets (_ ++ concat _)) as [qs e'] eqn:E. intros [= -> ->].
    apply IH; [|done].
    by rewrite split_packets_unfold, (proj2 (Nat.ltb_lt _ _)). }
  destruct (bad_length _) eqn:Ebad; [by intros|].
  destruct (Nat.ltb_spec (length (buf ++ d)) (4 + Z.to_nat (from_be (slice (buf ++ d) 0 4))))
    as [Hl|Hl].
  { cbv beta iota. destruct (split_packets (_ ++ concat _)) as [qs e'] eqn:E. intros [= -> ->].
    apply IH; [|done].
    rewrite split_packets_unfold, (proj2 (Nat.ltb_ge _ _)) by done. cbv zeta. rewrite Ebad.
    by rewrite (proj2 (Nat.ltb_lt _ _)). }
  destruct (split_packets (drop _ _)) as [qs [rest|l]]; [|by intros [= <- _ _]].
  destruct (split_packets (rest ++ _)). by intros [= <- _ _].
Qed.

Lemma read_response_frame msgs body :
  Forall (λ m, m ≠ MsgClose) msgs → body_ok body →
  concat (map msg_bytes msgs) = framed body → read_sftp_response msgs = Ok (Some body).
Proof.
  intros Hm Hb Hc. apply (read_response_first [] msgs body [] (NeedMore [])); [done|done|].
  rewrite app_nil_l, Hc, <-(app_nil_r (framed body)), split_packets_framed by done. done.
Qed.

(** [decode_version] reads the word after the version as a count of extensions. *)
Lemma decode_version_head v n tail :
  is_u32 v → is_u32 n →
  let payload := be_bytes 4 v ++ be_bytes 4 n ++ tail in
  decode_version payload =
    (λ x, (v, fst x)) <$>
      pop_extensions (Z.to_nat (Z.min (Z.min n (vec_len tail / 8)) 128)) ∅ payload 8%nat.
Proof.
  intros Hv Hn payload. unfold decode_version, run, payload.
  pose proof (parses_step pop_u32
    (λ version, count ← pop_u32; extensions ← here (λ data pos,
       pop_extensions (bounded_count count 8 128 data pos) ∅); mret (version, extensions))
    _ _ [] (be_bytes 4 n ++ tail) (parses_u32 v Hv)) as E1.
  cbn [app length] in E1. rewrite E1. clear E1.
  rewrite app_assoc.
  pose proof (parses_step pop_u32
    (λ count, extensions ← here (λ data pos,
       pop_extensions (bounded_count count 8 128 data pos) ∅); mret (v, extensions))
    _ _ (be_bytes 4 v) tail (parses_u32 n Hn)) as E2.
  rewrite <-app_assoc, E2. clear E2. rewrite length_app, !length_be_bytes.
  unfold mbind, parser_bind, here, bounded_count.
  replace (length (be_bytes 4 v ++ be_bytes 4 n ++ tail) - (4 + 4))%nat with (length tail)
    by (rewrite !length_app, !length_be_bytes; lia).
  change (4 + 4)%nat with 8%nat. unfold vec_len.
  by destruct (pop_extensions _ _ _ _) as [[]|].
Qed.

Lemma decode_version_none v : is_u32 v → decode_version (be_bytes 4 v ++ be_bytes 4 0) = Ok (v, ∅).
Proof.
  intros Hv. rewrite <-(app_nil_r (be_bytes 4 0)), decode_version_head by done. done.
Qed.

Section Negotiation.
Context `{!StrDebug} {S : Type} `{!SftpServerHandler S}.

(** What the server does with the client's [FXP_INIT], and answers. *)
Lemma init_dispatched n rt (s s' : S) :
  h_init 3 ∅ s = (Ok n, s') →
  dispatch_packet (drop 4 (encode_init 3)) rt s
  = (Ok (encode_version_response (Z.max n 3) ∅),
     ({| buffers := buffers rt; channels := channels rt; negotiated := true;
         version := Z.max n 3 |}, s')).
Proof.
  intros Hn.
  replace (drop 4 (encode_init 3)) with (z2b FXP_INIT :: be_bytes 4 3 ++ be_bytes 4 0)
    by (by vm_compute).
  unfold dispatch_packet. cbv zeta.
  replace (b2z (z2b FXP_INIT) =? FXP_INIT) with true by (by vm_compute).
  unfold handle_init, decode_init_request. rewrite decode_version_none by done.
  cbn [mbind result_bind]. replace (3 <? 3) with false by done. by rewrite Hn.
Qed.

Lemma init_answered n rt (s s' : S) :
  h_init 3 ∅ s = (Ok n, s') →
  deliver (encode_init 3) = Some (drop 4 (encode_init 3)) ∧
  fst (dispatch_packet (drop 4 (encode_init 3)) rt s)
  = Ok (encode_version_response (Z.max n 3) ∅).
Proof. intros Hn. split; [by vm_compute|]. by rewrite (init_dispatched n rt s s' Hn). Qed.

Lemma version_response_framed v :
  encode_version_response v ∅ = framed (z2b FXP_VERSION :: be_bytes 4 v ++ be_bytes 4 0).
Proof.
  unfold encode_version_response. rewrite map_to_list_empty. cbn [push_pairs].
  rewrite map_size_empty, !push_u32_app. apply frame_framed.
  unfold vec_len. rewrite !length_app, !length_be_bytes. done.
Qed.

(** The client accepts the version the server chose. *)
Lemma version_accepted n msgs :
  is_u32 n → Forall (λ m, m ≠ MsgClose) msgs →
  concat (map msg_bytes msgs) = encode_version_response (Z.max n 3) ∅ →
  connect (Ok ()) (Ok ()) (Ok ()) msgs = Ok 10.
Proof.
  intros Hu Hm Hc. rewrite version_response_framed in Hc.
  assert (Hv : is_u32 (Z.max n 3)) by (unfold fits in *; lia).
  set (body := z2b FXP_VERSION :: be_bytes 4 (Z.max n 3) ++ be_bytes 4 0) in *.
  assert (Hb : body_ok body).
  { unfold body_ok, body, vec_len. cbn [length]. rewrite length_app, !length_be_bytes. by vm_compute. }
  unfold connect. cbn [map_err mbind result_bind]. rewrite (read_response_frame msgs body Hm Hb Hc).
  cbn [mbind result_bind ok_or]. unfold body. cbn [decode_packet_type mbind result_bind].
  replace (b2z (z2b FXP_VERSION) =? FXP_VERSION) with true by (by vm_compute). cbn [negb].
  change (drop 1 (?x :: ?l)) with l. rewrite decode_version_none by done.
  cbn [mbind result_bind]. by rewrite (proj2 (Z.ltb_ge _ _)) by lia.
Qed.

(** Client and server agree on a version: the server's answer to the
    client's [FXP_INIT], however the channel cuts it up and whatever other
    messages come in between, makes [connect] succeed with the first request id. *)
Theorem connect_to_server (n : Z) (rt : SftpServerRuntime) (s s' : S) (response : list byte)
    (msgs : list ChannelMsg) :
  h_init 3 ∅ s = (Ok n, s') → is_u32 n →
  fst (dispatch_packet (drop 4 (encode_init 3)) rt s) = Ok response →
  Forall (λ m, m ≠ MsgClose) msgs → concat (map msg_bytes msgs) = response →
  connect (Ok ()) (Ok ()) (Ok ()) msgs = Ok 10.
Proof.
  intros Hn Hu Hd Hm Hc. destruct (init_answered n rt s s' Hn) as [_ E].
  rewrite E in Hd. injection Hd as <-. by apply (version_accepted n).
Qed.
End Negotiation.

(** ** The standard's layout *)

(** [SSH_FXP_VERSION] of the draft standard (version 3): the version, then the
    extension pairs to the end of the packet, with no count. *)
Definition standard_version (v : Z) (extensions : list (string * string)) : list byte :=
  be_bytes 4 v ++ concat (map (λ '(name, data), enc_string name ++ enc_string data) extensions).

(** The first four bytes of a name with a non-zero first byte, read as a length. *)
Lemma name_as_length a b c d l :
  0 < b2z a → MAX_SFTP_PACKET_SIZE < from_be (slice (a :: b :: c :: d :: l) 0 4).
Proof.
  intros Ha. change (slice (a :: b :: c :: d :: l) 0 4) with [a; b; c; d].
  rewrite !from_be_cons. cbn [length Z.of_nat].
  pose proof (b2z_range b). pose proof (b2z_range c). pose proof (b2z_range d).
  change (from_be []) with 0. unfold MAX_SFTP_PACKET_SIZE. lia.
Qed.

Lemma pop_string_overlong data pos :
  (pos + 4 ≤ length data)%nat → MAX_SFTP_PACKET_SIZE < from_be (slice data pos 4) →
  protocol_error (pop_string data pos).
Proof.
  intros Hl Hb. unfold pop_string, pop_bytes, pop_u32. rewrite check_bounds_ok by done.
  cbn [mbind result_bind]. rewrite (proj2 (Z.ltb_lt _ _)) by done. by eexists.
Qed.

(** A version reply laid out as the draft standard says is refused: one with
    no extensions always, and one with extensions whenever the first extension
    name has at least four bytes and does not begin with a zero byte (every name
    in use).  [decode_version] expects an extension count that the standard does
    not have. *)
Theorem standard_version_refused (v : Z) (extensions : list (string * string)) :
  is_u32 v →
  match extensions with
  | [] => True
  | (name, _) :: _ =>
      wire_str name ∧ ∃ a b c d l, as_bytes name = a :: b :: c :: d :: l ∧ 0 < b2z a
  end →
  protocol_error (decode_version (standard_version v extensions)).
Proof.
  intros Hv. unfold standard_version. destruct extensions as [|[name data] rest].
  { intros _. cbn [map concat]. unfold decode_version, run.
    rewrite (parses_step pop_u32 _ (be_bytes 4 v) v [] [] (parses_u32 v Hv)).
    unfold mbind at 1, parser_bind at 1. unfold pop_u32.
    destruct (check_bounds_err (be_bytes 4 v) (length (be_bytes 4 v)) 4) as [m E]; [lia|].
    cbn [app]. rewrite app_nil_r, E. by eexists. }
  intros ([Hs Hw] & a & b & c & d & l & Hn & Ha). cbn [map concat].
  unfold enc_string at 1, push_string. change (push_bytes [] ?x) with (enc_bytes x).
  rewrite enc_bytes_eq, Hn by done. rewrite Hn in Hw. rewrite <-!app_assoc.
  set (tail := (a :: b :: c :: d :: l) ++ _).
  assert (Htl : 8 ≤ vec_len tail).
  { unfold tail, vec_len. rewrite !length_app. unfold enc_string, push_string, push_bytes, push_u32.
    rewrite !length_app, length_be_bytes. cbn [length]. lia. }
  rewrite decode_version_head; [|done|by apply wire_bytes_u32].
  assert (Hk : 4 ≤ vec_len (a :: b :: c :: d :: l)) by (unfold vec_len; cbn [length]; lia).
  assert (1 ≤ vec_len tail / 8) by (apply Z.div_le_lower_bound; lia).
  destruct (Z.to_nat (Z.min (Z.min _ _) 128)) as [|n] eqn:En; [lia|]. cbn [pop_extensions].
  unfold mbind, parser_bind. set (payload := be_bytes 4 v ++ _).
  destruct (pop_string_overlong payload 8) as [m E].
  - unfold payload. rewrite !length_app, !length_be_bytes. unfold vec_len in Htl. lia.
  - unfold payload, slice. rewrite drop_app_ge, drop_app_ge by (rewrite ?length_be_bytes; lia).
    rewrite !length_be_bytes. by apply name_as_length.
  - rewrite E. by eexists.
Qed.

(** ** Concrete runs *)

Section Runs.
#[local] Instance connect_debug : StrDebug := quote_debug.
#[local] Instance connect_handler : SftpServerHandler unit := default_handler.

Lemma connect_to_server_witness :
  connect (Ok ()) (Ok ()) (Ok ())
    [MsgOther; MsgData (take 3 (encode_version_response 3 ∅)); MsgOther;
     MsgData (drop 3 (encode_version_response 3 ∅))] = Ok 10.
Proof.
  apply (connect_to_server 3 SftpServerRuntime_new () () (encode_version_response 3 ∅));
    [by vm_compute|by vm_compute|by vm_compute| |by vm_compute].
  repeat constructor; discriminate.
Defined.

Lemma standard_version_refused_witness :
  protocol_error (decode_version (standard_version 3 [("posix-rename@openssh.com", "1")])).
Proof.
  apply standard_version_refused; [by vm_compute|]. split; [by vm_compute|].
  do 5 eexists. split; [by vm_compute|by vm_compute].
Defined.
End Runs.
