(* ===== verification/SftpSim.v ===== *)
(** * The client over another wire

    Two wires that give the same successful answers give the client's operations the same
    successful results: a simulation between the states behind [send_and_await], carried
    through the operations of the whole-file transfers ([russh-extra/src/sftp/client.rs],
    [mod.rs]). *)
From S2P Require Import Prelude RustStr Channel CoreError SftpPacket SftpTypes SftpClient.

Section Sim.
Context `{!StrDebug} {W1 W2 : Type}.
Context (sa1 : list byte → Z → W1 → Result SftpResponse * W1)
        (sa2 : list byte → Z → W2 → Result SftpResponse * W2).
Context (R : W1 → W2 → Prop).

(** What the second wire promises about the first. *)
Class WireSim : Prop := wire_sim packet id w1 w2 a w1' :
  R w1 w2 → sa1 packet id w1 = (Ok a, w1') →
  ∃ w2', sa2 packet id w2 = (Ok a, w2') ∧ R w1' w2'.

Definition crel (c1 : Client W1) (c2 : Client W2) : Prop :=
  next_id c1 = next_id c2 ∧ spawned c1 = spawned c2 ∧ R (world c1) (world c2).

Definition sim {A} (m1 : cm (W := W1) A) (m2 : cm (W := W2) A) : Prop := ∀ c1 c2 a c1',
  crel c1 c2 → m1 c1 = (Ok a, c1') → ∃ c2', m2 c2 = (Ok a, c2') ∧ crel c1' c2'.

Lemma sim_cret {A} (r : Result A) : sim (cret r) (cret r).
Proof. intros c1 c2 a c1' Hc [= -> <-]. by exists c2. Qed.

Lemma sim_cbind {A B} (m1 : cm A) m2 (k1 : A → cm B) k2 :
  sim m1 m2 → (∀ a, sim (k1 a) (k2 a)) → sim (cbind m1 k1) (cbind m2 k2).
Proof.
  intros Hm Hk c1 c2 b c1' Hc. unfold cbind. destruct (m1 c1) as [[a|e] d1] eqn:E; [|done].
  destruct (Hm _ _ _ _ Hc E) as (d2 & -> & Hd). by apply Hk.
Qed.

Lemma sim_request {A} encode (k1 : list byte → Z → cm A) k2 :
  (∀ p id, sim (k1 p id) (k2 p id)) → sim (request encode k1) (request encode k2).
Proof.
  intros Hk c1 c2 a c1' (Hn & Hs & Hw). unfold request, next_request_id. rewrite Hn.
  apply Hk. by split_and!.
Qed.

Context {ws : WireSim}.

Lemma sim_send p id : sim (send sa1 p id) (send sa2 p id).
Proof.
  intros c1 c2 a c1' (Hn & Hs & Hw). unfold send.
  destruct (sa1 p id (world c1)) as [r w1'] eqn:E. intros [= -> <-].
  destruct (wire_sim _ _ _ _ _ _ Hw E) as (w2' & -> & Hw'). eexists. split; [done|].
  by split_and!.
Qed.

Lemma sim_ask {A} encode (f : SftpResponse → Result A) :
  sim (request encode (λ p id, cbind (send sa1 p id) (λ r, cret (f r))))
      (request encode (λ p id, cbind (send sa2 p id) (λ r, cret (f r)))).
Proof.
  apply sim_request. intros p id. apply sim_cbind; [apply sim_send|]. intros r. apply sim_cret.
Qed.

(** ** The operations of a transfer *)

Lemma sim_open path flags : sim (rt_open sa1 path flags) (rt_open sa2 path flags).
Proof.
  apply sim_request. intros p id. apply sim_cbind; [|intros h; apply sim_cret].
  apply sim_cbind; [apply sim_send|]. intros r. apply sim_cret.
Qed.
Lemma sim_read h o n : sim (rt_read sa1 h o n) (rt_read sa2 h o n).
Proof. apply sim_ask. Qed.
Lemma sim_write h o d : sim (rt_write sa1 h o d) (rt_write sa2 h o d).
Proof. apply sim_ask. Qed.
Lemma sim_close h : sim (rt_close sa1 h) (rt_close sa2 h).
Proof. apply sim_ask. Qed.
Lemma sim_fstat h : sim (rt_fstat sa1 h) (rt_fstat sa2 h).
Proof. apply sim_ask. Qed.

Lemma sim_file_close b f : sim (SftpFile_close sa1 b f) (SftpFile_close sa2 b f).
Proof.
  intros c1 c2 a c1' Hc. unfold SftpFile_close, finally. cbn [file_handle SftpFile_drop drop_handle file_closed].
  destruct (rt_close sa1 (file_handle f) c1) as [r d1] eqn:E. intros [= -> <-].
  destruct (sim_close _ _ _ _ _ Hc E) as (d2 & -> & Hd). by exists d2.
Qed.

Lemma sim_write_chunks f cs o : sim (write_chunks sa1 f o cs) (write_chunks sa2 f o cs).
Proof.
  revert o. induction cs as [|d cs IH]; intros o; [apply sim_cret|].
  apply sim_cbind; [apply sim_write|]. intros []. apply IH.
Qed.

Lemma sim_client_open sc path mode :
  sim (SftpClient_open sa1 sc path mode) (SftpClient_open sa2 sc path mode).
Proof.
  unfold SftpClient_open, with_runtime. destruct (runtime_open sc); [apply sim_open|apply sim_cret].
Qed.

Lemma sim_write_all b sc path data :
  sim (SftpClient_write_all sa1 b sc path data) (SftpClient_write_all sa2 b sc path data).
Proof.
  apply sim_cbind; [apply sim_client_open|]. intros f c1 c2 a c1' Hc.
  destruct (write_chunks sa1 f 0 _ c1) as [[[]|e] d1] eqn:E; [|done].
  destruct (sim_write_chunks _ _ _ _ _ _ _ Hc E) as (d2 & -> & Hd). by apply sim_file_close.
Qed.

Lemma sim_read_loop fuel f o buf c1 c2 data c1' :
  crel c1 c2 → read_loop sa1 fuel f o buf c1 = (Returned (Ok data), c1') →
  ∃ c2', read_loop sa2 fuel f o buf c2 = (Returned (Ok data), c2') ∧ crel c1' c2'.
Proof.
  revert o buf c1 c2. induction fuel as [|fuel IH]; intros o buf c1 c2 Hc; [done|].
  cbn [read_loop]. destruct (SftpFile_read sa1 f o SFTP_CHUNK_SIZE c1) as [[d|e] d1] eqn:E; [|done].
  destruct (sim_read _ _ _ _ _ _ _ Hc E) as (d2 & Hd2 & Hd).
  unfold SftpFile_read at 1. rewrite Hd2. destruct d as [|x d].
  - intros [= <- <-]. by exists d2.
  - by apply IH.
Qed.

(** The result only: closing the file afterwards may fail without being noticed. *)
Lemma sim_read_to_vec b fuel sc path c1 c2 data :
  crel c1 c2 → fst (SftpClient_read_to_vec sa1 b fuel sc path c1) = Returned (Ok data) →
  fst (SftpClient_read_to_vec sa2 b fuel sc path c2) = Returned (Ok data).
Proof.
  intros Hc. unfold SftpClient_read_to_vec.
  destruct (SftpClient_open sa1 sc path OpenMode_READ c1) as [[f|e] d1] eqn:E1; [|done].
  destruct (sim_client_open _ _ _ _ _ _ _ Hc E1) as (d2 & -> & Hd).
  destruct (SftpFile_metadata sa1 f d1) as [[m|e] e1] eqn:E2; [|done].
  destruct (sim_fstat _ _ _ _ _ Hd E2) as (e2 & He2 & He).
  unfold SftpFile_metadata at 1. rewrite He2.
  destruct (ISIZE_MAX <? _); [done|].
  destruct (read_loop sa1 fuel f 0 [] e1) as [[[buf|e]| |] f1] eqn:E3; try done.
  destruct (sim_read_loop _ _ _ _ _ _ _ _ He E3) as (f2 & -> & Hf).
  destruct (SftpFile_close sa1 b f f1), (SftpFile_close sa2 b f f2). done.
Qed.
End Sim.
