(* ===== verification/SftpEdges.v ===== *)
(** * Directory listings, names, and the client's corner cases

    What a listing and a path lookup return, entry by entry; and the corner
    cases the model brings out: replies with short names, metadata with half a
    pair, handles closed by value, and absurd sizes reported by the server. *)
From S2P Require Import Prelude RustStr Channel CoreError SftpPacket SftpWire SftpFraming.
From S2P Require Import SftpTypes SftpServer SftpClient SftpLoopback SftpService.
From S2P Require Import SftpTransfer.

Section Edges.
Context `{!StrDebug} {S : Type} `{!SftpServerHandler S}.

(** ** Listings *)

(** An entry as the client sees it, and how many of a list's entries it sees. *)
Definition entry_seen (e : SftpDirEntry) : SftpDirEntry :=
  SftpDirEntry_new (de_filename e) (de_longname e) (metadata_wire (de_metadata e)).
Definition entries_seen (l : list SftpDirEntry) : list SftpDirEntry :=
  map entry_seen (take (names_kept (map SftpDirEntry_to_name_entry l)) l).

Lemma name_answer_wire l :
  response_wire (name_answer l) =
    RespName (map (entry_tuple ∘ entry_wire ∘ SftpDirEntry_to_name_entry)
                (take (names_kept (map SftpDirEntry_to_name_entry l)) l)).
Proof.
  unfold name_answer. cbn [response_wire]. rewrite map_tuple_entry.
  by rewrite firstn_map, map_map.
Qed.

Lemma entries_of_name_answer l :
  entries_of_response (response_wire (name_answer l)) = Ok (entries_seen l).
Proof.
  rewrite name_answer_wire. cbn [entries_of_response]. f_equal. rewrite map_map.
  unfold entries_seen. apply map_ext. intros e. cbn. unfold SftpDirEntry_from_packet.
  by rewrite from_to_packet.
Qed.

Lemma rt_readdir_ask h : rt_readdir_batch loopback h = ask (RReaddir h) entries_of_response.
Proof. unfold rt_readdir_batch, ask. cbn [encode_request]. reflexivity. Qed.

Lemma readdir_loopback h c :
  exchange_ok (next_id c) (RReaddir h) (behind c) →
  rt_readdir_batch loopback h c
  = (client_result entries_seen (fst (h_readdir (next_id c) h (behind c))),
     after c (snd (h_readdir (next_id c) h (behind c)))).
Proof.
  intros Hx. rewrite rt_readdir_ask.
  rewrite (ask_loopback (RReaddir h) _ dir_answer _ _ Hx eq_refl).
  destruct (h_readdir _ h _) as [[l|e] s]; cbn [answer fst snd client_result].
  - f_equal. destruct l as [|x l]; [done|]. apply (entries_of_name_answer (x :: l)).
  - rewrite status_of_error_eq. cbn [response_wire entries_of_response]. unfold eof_or_status.
    by rewrite remote_code_not_eof, check_status_remote.
Qed.

(** C22.  A directory read returns the handler's entries in order, names exactly
    and metadata as the wire carries it; all of them whenever there are at most
    65536 and they take sixteen bytes each on average, otherwise a prefix; the request and
    the answer are within the limits of the wire. *)
Theorem readdir_refines_handler (h : string) (c : Client (SftpServerRuntime * S)) :
  exchange_ok (next_id c) (RReaddir h) (behind c) →
  rt_readdir_batch loopback h c
  = (client_result entries_seen (fst (h_readdir (next_id c) h (behind c))),
     after c (snd (h_readdir (next_id c) h (behind c)))) ∧
  ∀ l, fst (h_readdir (next_id c) h (behind c)) = Ok l →
       names_fit (map SftpDirEntry_to_name_entry l) → entries_seen l = map entry_seen l.
Proof.
  intros Hx. split; [by apply readdir_loopback|]. intros l _ Hfit.
  unfold entries_seen. rewrite names_kept_all by done. by rewrite length_map, firstn_all.
Qed.

(** ** Path lookups *)

Definition realpath_result (r : Result (list SftpDirEntry)) : Result string :=
  match r with
  | Ok l =>
      match entries_seen l with
      | e :: _ => Ok (de_filename e)
      | [] => Err (Error_sftp Protocol "empty name response")
      end
  | Err e =>
      Err (Error_sftp (sftp_error_kind_for_code (remote_code e))
        ("expected name, got status " +:+ dec (remote_code e) +:+ ": " +:+ remote_msg e))
  end.

Lemma name_of_name_answer l :
  name_of_response (response_wire (name_answer l)) = realpath_result (Ok l).
Proof.
  rewrite name_answer_wire. cbn [name_of_response realpath_result]. unfold entries_seen.
  by destruct (take _ l).
Qed.

Lemma rt_realpath_ask p : rt_realpath loopback p = ask (RRealpath p) name_of_response.
Proof. unfold rt_realpath, ask, expect_name_single. cbn [encode_request]. reflexivity. Qed.

Lemma realpath_loopback p c :
  exchange_ok (next_id c) (RRealpath p) (behind c) →
  rt_realpath loopback p c
  = (realpath_result (fst (h_realpath (next_id c) p (behind c))),
     after c (snd (h_realpath (next_id c) p (behind c)))).
Proof.
  intros Hx. rewrite rt_realpath_ask.
  rewrite (ask_loopback (RRealpath p) _ name_answer _ _ Hx eq_refl).
  destruct (h_realpath _ p _) as [[l|e] s]; cbn [answer fst snd].
  - f_equal. apply name_of_name_answer.
  - f_equal. by rewrite status_of_error_eq.
Qed.

(** The sixteen-byte rule loses real answers: a path lookup whose handler
    answers a single entry with a short name and no metadata (as for the root
    directory) fails on the client with "empty name response". *)
Theorem short_realpath_lost (p name longname : string) (s' : S)
    (c : Client (SftpServerRuntime * S)) :
  exchange_ok (next_id c) (RRealpath p) (behind c) →
  h_realpath (next_id c) p (behind c)
  = (Ok [SftpDirEntry_new name longname SftpMetadata_default], s') →
  wire_str name → wire_str longname →
  vec_len (as_bytes name) + vec_len (as_bytes longname) < 4 →
  fst (rt_realpath loopback p c) = Err (Error_sftp Protocol "empty name response").
Proof.
  intros Hx Hh [_ Hn] [_ Hl] Hlen. rewrite realpath_loopback, Hh by done.
  cbn [fst realpath_result]. unfold entries_seen.
  set (l := map SftpDirEntry_to_name_entry _). assert (Hk : names_kept l = 0%nat); [|by rewrite Hk].
  unfold names_kept, names_size, l, enc_entry, SftpDirEntry_to_name_entry. cbn [map concat].
  cbn [ne_filename ne_longname ne_attrs SftpDirEntry_new de_filename de_longname
    de_metadata].
  unfold enc_string, push_string. change (push_bytes [] ?x) with (enc_bytes x).
  rewrite !enc_bytes_eq by done.
  replace (enc_attrs (SftpMetadata_to_packet SftpMetadata_default)) with (be_bytes 4 0)
    by (by vm_compute).
  unfold vec_len in *. rewrite !length_app, !length_be_bytes. cbn [length].
  rewrite Z.div_small by lia. lia.
Qed.

(** ** Metadata updates *)

Lemma setstat_wire p m c :
  exchange_ok (next_id c) (RSetstat p (SftpMetadata_to_packet m)) (behind c) →
  rt_setstat loopback p (SftpMetadata_to_packet m) c
  = (client_result id (fst (h_setstat (next_id c) p (metadata_wire m) (behind c))),
     after c (snd (h_setstat (next_id c) p (metadata_wire m) (behind c)))).
Proof.
  intros Hx.
  pose proof (status_op_loopback (RSetstat p (SftpMetadata_to_packet m)) c eq_refl Hx) as E.
  cbn [status_op status_call] in E. by rewrite from_to_packet in E.
Qed.

(** [set_stat] hands the handler the caller's metadata unchanged when owner
    and group, and the two times, are given together (and the times fit 32 bits);
    given only one half of a pair, the handler is told to set the other half to
    zero, although the documentation says [None] fields are left unchanged. *)
Theorem set_stat_half_pairs (sc : SftpClient) (p : string) (m : SftpMetadata)
    (c : Client (SftpServerRuntime * S)) :
  runtime_open sc = true →
  exchange_ok (next_id c) (RSetstat p (SftpMetadata_to_packet m)) (behind c) →
  SftpClient_set_stat loopback sc p m c
  = (client_result id (fst (h_setstat (next_id c) p (metadata_wire m) (behind c))),
     after c (snd (h_setstat (next_id c) p (metadata_wire m) (behind c)))) ∧
  (metadata_paired m → metadata_wire m = m) ∧
  (∀ u, m_uid m = Some u → m_gid m = None → m_gid (metadata_wire m) = Some 0) ∧
  (∀ t, m_modified m = Some t → m_accessed m = None → m_accessed (metadata_wire m) = Some 0).
Proof.
  intros Hrt Hx. split; [|split; [apply metadata_wire_id|]].
  - unfold SftpClient_set_stat, with_runtime. rewrite Hrt. by apply setstat_wire.
  - by split; intros ? H1 H2; cbn; rewrite H1, H2.
Qed.
End Edges.

(** ** Closing by value, and sizes from the server *)

Section Closing.
Context `{!StrDebug} {W : Type} (send : list byte → Z → W → Result SftpResponse * W).

Lemma rt_close_spawned h c : spawned (snd (rt_close send h c)) = spawned c.
Proof.
  unfold rt_close, request, next_request_id, expect_status, cbind, SftpClient.send. cbn.
  destruct (send _ _ _) as [[r|e] w]; [|done]. unfold cret. by destruct (status_of_response r).
Qed.

(** [SftpFile::close] closes the handle once; [SftpClient::close_file] and
    [closedir] send the close and then, as the handle they own is dropped still
    marked open, spawn a second close of the same handle, whatever the server
    answers. *)
Theorem close_file_closes_twice (sc : SftpClient) (f : SftpFile) (d : SftpDir) (c : Client W) :
  file_closed f = false → dir_closed d = false →
  spawned (snd (SftpFile_close send true f c)) = spawned c ∧
  spawned (snd (SftpClient_close_file send true sc f c)) = spawned c ++ [file_handle f] ∧
  spawned (snd (SftpClient_closedir send true sc d c)) = spawned c ++ [dir_handle d].
Proof.
  intros Hf Hd. unfold SftpFile_close, SftpClient_close_file, SftpClient_closedir, finally,
    SftpFile_drop, SftpDir_drop. rewrite Hf, Hd. cbn [file_handle file_closed].
  pose proof (rt_close_spawned (file_handle f) c). pose proof (rt_close_spawned (dir_handle d) c).
  unfold with_runtime. destruct (runtime_open sc);
    destruct (rt_close send (file_handle f) c), (rt_close send (dir_handle d) c); cbn in *;
    by repeat split; congruence.
Qed.

(** [read_to_vec] trusts the size the server reports for its buffer: a size
    above [isize::MAX] aborts it with a panic, before any byte is read. *)
Theorem huge_size_panics (b : bool) (fuel : nat) (sc : SftpClient) (path : string)
    (c c1 c2 : Client W) (file : SftpFile) (meta : SftpMetadata) (n : Z) :
  SftpClient_open send sc path OpenMode_READ c = (Ok file, c1) →
  SftpFile_metadata send file c1 = (Ok meta, c2) → m_size meta = Some n → ISIZE_MAX < n →
  fst (SftpClient_read_to_vec send b fuel sc path c) = Panicked.
Proof.
  intros Ho Hm Hn Hlt. unfold SftpClient_read_to_vec. rewrite Ho, Hm, Hn. cbn [default].
  by rewrite (proj2 (Z.ltb_lt _ _)).
Qed.
End Closing.

(** ** Concrete runs *)

Section Runs.
#[local] Instance edge_debug : StrDebug := quote_debug.

(** A server with one directory, whose root is ["/"]. *)
#[local] Instance edge_handler : SftpServerHandler unit := {|
  h_init := @h_init unit default_handler; h_open := λ _ _ _ _ s, (Ok "h", s);
  h_close := @h_close unit default_handler; h_read := @h_read unit default_handler;
  h_write := @h_write unit default_handler; h_remove := @h_remove unit default_handler;
  h_rename := @h_rename unit default_handler; h_mkdir := @h_mkdir unit default_handler;
  h_rmdir := @h_rmdir unit default_handler; h_opendir := λ _ _ s, (Ok "d", s);
  h_readdir := λ _ _ s,
    (Ok [SftpDirEntry_new "notes.txt" "-rw-r--r-- notes.txt"
           (SftpMetadata_with_size SftpMetadata_default 12)], s);
  h_stat := @h_stat unit default_handler; h_lstat := @h_lstat unit default_handler;
  h_fstat := λ _ _ s, (Ok (SftpMetadata_with_size SftpMetadata_default (2 ^ 63)), s);
  h_setstat := λ _ _ _ s, (Ok (), s); h_fsetstat := @h_fsetstat unit default_handler;
  h_realpath := λ _ _ s, (Ok [SftpDirEntry_new "/" "/" SftpMetadata_default], s);
  h_readlink := @h_readlink unit default_handler;
  h_symlink := @h_symlink unit default_handler;
|}.

Definition edge_client : Client (SftpServerRuntime * unit) :=
  {| next_id := 10; spawned := []; world := (SftpServerRuntime_new, ()) |}.
Definition edge_sc : SftpClient := {| runtime_open := true; session_id := 1 |}.
Definition only_uid : SftpMetadata := SftpMetadata_new None (Some 7) None None None None.

Lemma edge_exchange r :
  r ∈ [RReaddir "d"; RRealpath "."] → exchange_ok (next_id edge_client) r (behind edge_client).
Proof.
  intros [->|[->|[]%not_elem_of_nil]%elem_of_cons]%elem_of_cons;
    (split; [by vm_compute|]); (split; [by vm_compute|]); (split; [by vm_compute|]);
    (split; [|by vm_compute]); (split; [by vm_compute|]);
    (constructor; [|constructor]); split; [by vm_compute|split; by vm_compute|
     by vm_compute|split; by vm_compute].
Defined.

Lemma edge_setstat :
  exchange_ok (next_id edge_client) (RSetstat "f" (SftpMetadata_to_packet only_uid))
    (behind edge_client).
Proof. vm_compute. repeat split; congruence. Defined.

Lemma readdir_refines_handler_witness :
  rt_readdir_batch loopback "d" edge_client
  = (Ok [SftpDirEntry_new "notes.txt" "-rw-r--r-- notes.txt"
           (SftpMetadata_with_size SftpMetadata_default 12)], after edge_client ()).
Proof.
  etrans; [apply readdir_refines_handler, edge_exchange; set_solver|by vm_compute].
Defined.

Lemma short_realpath_lost_witness :
  fst (rt_realpath loopback "." edge_client)
  = Err (Error_sftp Protocol "empty name response").
Proof.
  apply (short_realpath_lost "." "/" "/" () edge_client);
    [apply edge_exchange; set_solver|reflexivity|by vm_compute..].
Defined.

Lemma set_stat_half_pairs_witness :
  fst (SftpClient_set_stat loopback edge_sc "f" only_uid edge_client) = Ok () ∧
  m_gid (metadata_wire only_uid) = Some 0.
Proof.
  destruct (set_stat_half_pairs edge_sc "f" only_uid edge_client) as (E & _ & Hg & _);
    [reflexivity|apply edge_setstat|].
  rewrite E. split; [reflexivity|]. by apply (Hg 7).
Defined.

Lemma close_file_closes_twice_witness :
  spawned (snd (SftpClient_close_file loopback true edge_sc (SftpFile_new "h") edge_client))
  = ["h"].
Proof.
  destruct (close_file_closes_twice loopback edge_sc (SftpFile_new "h") (SftpDir_new "d")
              edge_client) as (_ & E & _); [reflexivity|reflexivity|].
  etrans; [exact E|reflexivity].
Defined.

Lemma huge_size_panics_witness :
  fst (SftpClient_read_to_vec loopback true 5 edge_sc "f" edge_client) = Panicked.
Proof.
  apply (huge_size_panics loopback true 5 edge_sc "f" edge_client
           (snd (SftpClient_open loopback edge_sc "f" OpenMode_READ edge_client))
           (snd (SftpFile_metadata loopback (SftpFile_new "h")
              (snd (SftpClient_open loopback edge_sc "f" OpenMode_READ edge_client))))
           (SftpFile_new "h") (SftpMetadata_with_size SftpMetadata_default (2 ^ 63)) (2 ^ 63));
    [by vm_compute..|reflexivity].
Defined.
End Runs.
