(* ===== verification/Endpoint.v ===== *)
(** * Endpoints, session ids and forwarding specs ([russh-extra-core/src/session.rs],
    [russh-extra-core/src/forward.rs]) *)
From S2P Require Import Prelude RustStr RustPath Channel CoreError.

(** ** [session.rs] *)

Definition DEFAULT_SSH_PORT : Z := 22.

Record Endpoint := { e_host : string; e_port : Z }.

#[export] Instance Endpoint_eq_dec : EqDecision Endpoint.
Proof. solve_decision. Defined.

Definition Endpoint_new (host : string) (port : Z) : Endpoint :=
  {| e_host := host; e_port := port |}.
Definition Endpoint_ssh (host : string) : Endpoint := Endpoint_new host DEFAULT_SSH_PORT.
Definition Endpoint_default : Endpoint := Endpoint_ssh "localhost".

Definition authority (e : Endpoint) : string :=
  if contains_char ":" (e_host e) then "[" +:+ e_host e +:+ "]:" +:+ dec (e_port e)
  else e_host e +:+ ":" +:+ dec (e_port e).
Definition Endpoint_display (e : Endpoint) : string := authority e.

Definition parse_port (value : string) : Result Z :=
  if String.eqb value "" then Err (Error_invalid_config "endpoint port cannot be empty")
  else ok_or (Error_invalid_config "endpoint port must be a valid u16") (parse_u16 value).

Definition Endpoint_from_str (value : string) : Result Endpoint :=
  if String.eqb value "" then Err (Error_invalid_config "endpoint host cannot be empty")
  else
    match strip_prefix "[" value with
    | Some rest =>
        match split_once "]" rest with
        | None => Err (Error_invalid_config "bracketed IPv6 endpoint must close with ']'")
        | Some (host, suffix) =>
            if String.eqb host "" then Err (Error_invalid_config "endpoint host cannot be empty")
            else
              match strip_prefix ":" suffix with
              | Some port => p ← parse_port port; Ok (Endpoint_new host p)
              | None =>
                  if String.eqb suffix "" then Ok (Endpoint_ssh host)
                  else Err (Error_invalid_config
                              "bracketed IPv6 endpoint must be '[host]' or '[host]:port'")
              end
        end
    | None =>
        let colon_count := count_char ":" value in
        if (Nat.eqb colon_count 0 || (1 <? colon_count)%nat)%bool then Ok (Endpoint_ssh value)
        else
          match rsplit_once ":" value with
          | None => Err (Error_invalid_config "endpoint port separator missing")
          | Some (host, port) =>
              if String.eqb host "" then
                Err (Error_invalid_config "endpoint host cannot be empty")
              else p ← parse_port port; Ok (Endpoint_new host p)
          end
    end.

(** [Endpoint::parse]. *)
Definition Endpoint_parse (value : string) : Result Endpoint := Endpoint_from_str value.

(** The process-wide counter behind [SessionId::next]. *)
Definition SessionId_next (counter : Z) : Z * Z := (counter, wrap 64 (counter + 1)).
Definition SessionId_display (id : Z) : string := dec id.

(** ** [forward.rs] *)

Inductive ForwardDirection := Local | Remote.

Record TcpEndpoint := { tcp_host : string; tcp_port : Z }.

Definition TcpEndpoint_new (host : string) (port : Z) : TcpEndpoint :=
  {| tcp_host := host; tcp_port := port |}.

Definition TcpEndpoint_display (e : TcpEndpoint) : string :=
  if contains_char ":" (tcp_host e) then "[" +:+ tcp_host e +:+ "]:" +:+ dec (tcp_port e)
  else tcp_host e +:+ ":" +:+ dec (tcp_port e).

Definition TcpEndpoint_from_str (s : string) : Result TcpEndpoint :=
  match strip_prefix "[" s with
  | Some rest =>
      '(host, port_str) ← ok_or (Error_invalid_config ("invalid TCP endpoint: " +:+ s))
                            (split_once "]:" rest);
      port ← ok_or (Error_invalid_config ("invalid TCP endpoint port: " +:+ s))
               (parse_u16 port_str);
      Ok (TcpEndpoint_new host port)
  | None =>
      '(host, port_str) ← ok_or (Error_invalid_config ("invalid TCP endpoint: " +:+ s))
                            (rsplit_once ":" s);
      port ← ok_or (Error_invalid_config ("invalid TCP endpoint port: " +:+ s))
               (parse_u16 port_str);
      Ok (TcpEndpoint_new host port)
  end.

Definition expand_tilde_path : option string → string → string := expand_tilde.

Record StreamLocalSpec := { sl_path : string }.
Definition StreamLocalSpec_new (home : option string) (path : string) : StreamLocalSpec :=
  {| sl_path := expand_tilde_path home path |}.
Definition StreamLocalSpec_from_str (home : option string) (s : string) : StreamLocalSpec :=
  StreamLocalSpec_new home s.
Definition StreamLocalSpec_display (s : StreamLocalSpec) : string := sl_path s.

Inductive ForwardSpec :=
| Tcp (direction : ForwardDirection) (bind target : TcpEndpoint)
| StreamLocal (direction : ForwardDirection) (bind target : StreamLocalSpec).

Definition local_tcp (bind target : TcpEndpoint) : ForwardSpec := Tcp Local bind target.
Definition remote_tcp (bind target : TcpEndpoint) : ForwardSpec := Tcp Remote bind target.
Definition local_streamlocal (bind target : StreamLocalSpec) : ForwardSpec :=
  StreamLocal Local bind target.
Definition remote_streamlocal (bind target : StreamLocalSpec) : ForwardSpec :=
  StreamLocal Remote bind target.

(** ** Printing and parsing *)

Lemma parse_port_dec p : is_u16 p → parse_port (dec p) = Ok p.
Proof.
  intros [Hp0 Hp1]. unfold parse_port. destruct (dec_cons p Hp0) as (c & s & d & E & _).
  rewrite E. cbn [String.eqb]. rewrite <-E. unfold parse_u16.
  rewrite parse_uint_dec; [done|]. change (2 ^ 16) with 65536 in Hp1. lia.
Qed.

Lemma dec_no_colon p : 0 ≤ p → count_char ":" (dec p) = 0%nat.
Proof. intros Hp. apply all_digits_no_char; [done|]. by apply all_digits_dec. Qed.

Lemma strip_prefix_char_none c s :
  match s with String d _ => Ascii.eqb c d = false | "" => True end →
  strip_prefix (String c "") s = None.
Proof. destruct s; [done|]. cbn. by intros ->. Qed.

Definition head_is (c : ascii) (s : string) : bool :=
  match s with String d _ => Ascii.eqb c d | "" => false end.

Lemma strip_prefix_head c s t :
  head_is c s = false → head_is c t = false ∨ s ≠ "" → strip_prefix (String c "") (s +:+ t) = None.
Proof.
  intros Hs Ht. apply strip_prefix_char_none. destruct s as [|d s]; [|done].
  destruct Ht as [Ht|]; [|done]. by destruct t.
Qed.

(** An endpoint printed as [host:port] (bracketed when the host has a colon)
    is parsed back to itself, for every host that is not empty, does not begin
    with a bracket and, if it has a colon, contains no closing bracket. *)
Theorem endpoint_roundtrip (e : Endpoint) :
  e_host e ≠ "" → is_u16 (e_port e) → head_is "[" (e_host e) = false →
  (contains_char ":" (e_host e) = true → count_char "]" (e_host e) = 0%nat) →
  Endpoint_parse (Endpoint_display e) = Ok e.
Proof.
  destruct e as [h p]. cbn [e_host e_port]. intros Hh Hp Hhd Hb.
  unfold Endpoint_parse, Endpoint_display, Endpoint_from_str, authority. cbn [e_host e_port].
  destruct (contains_char ":" h) eqn:Ec.
  - rewrite strip_prefix_app. cbn [String.append String.eqb].
    change (h +:+ String "]" ?x) with (h +:+ String "]" x).
    rewrite split_once_char by by apply Hb. rewrite (proj2 (String.eqb_neq h "")) by done.
    cbn [strip_prefix]. rewrite Ascii.eqb_refl, parse_port_dec by done. done.
  - apply contains_char_false in Ec. change (":" +:+ dec p) with (String ":" (dec p)).
    rewrite strip_prefix_head; [|done|by right].
    replace (String.eqb (h +:+ String ":" (dec p)) "") with false by by destruct h.
    rewrite count_char_app, Ec. cbn [count_char]. rewrite Ascii.eqb_refl, dec_no_colon by apply Hp.
    cbn [Nat.add Nat.eqb Nat.ltb Nat.leb orb].
    rewrite rsplit_once_char by (apply dec_no_colon, Hp).
    rewrite (proj2 (String.eqb_neq h "")), parse_port_dec by done. done.
Qed.

Lemma split_once_bracket h d :
  split_once "]:" h = None → split_once "]:" (h +:+ "]:" +:+ d) = Some (h, d).
Proof.
  remember ("]:" +:+ d) as t eqn:Et. induction h as [|c h IH]; [by subst|].
  cbn [String.append split_once].
  destruct (strip_prefix "]:" (String c h)) as [x|] eqn:E; [done|].
  destruct (split_once "]:" h) as [[]|] eqn:E'; [done|]. intros _.
  rewrite IH by done. cbn [strip_prefix] in *.
  destruct (Ascii.eqb "]" c); [|done]. destruct h as [|c' h]; [by subst|].
  cbn [String.append strip_prefix] in *. by destruct (Ascii.eqb ":" c').
Qed.

(** A forwarding endpoint is read back from its printed form, empty host
    included, for every host that does not begin with a bracket and, if it has a
    colon, does not contain the sequence that closes the brackets. *)
Theorem tcp_endpoint_roundtrip (e : TcpEndpoint) :
  is_u16 (tcp_port e) → head_is "[" (tcp_host e) = false →
  (contains_char ":" (tcp_host e) = true → split_once "]:" (tcp_host e) = None) →
  TcpEndpoint_from_str (TcpEndpoint_display e) = Ok e.
Proof.
  destruct e as [h p]. cbn [tcp_host tcp_port]. intros Hp Hhd Hb.
  assert (Hd : parse_u16 (dec p) = Some p).
  { destruct Hp as [Hp0 Hp1]. apply parse_uint_dec. change (2 ^ 16) with 65536 in Hp1. lia. }
  unfold TcpEndpoint_from_str, TcpEndpoint_display. cbn [tcp_host tcp_port].
  destruct (contains_char ":" h) eqn:Ec.
  - rewrite strip_prefix_app, split_once_bracket by by apply Hb.
    cbn [ok_or mbind result_bind]. by rewrite Hd.
  - apply contains_char_false in Ec. change (":" +:+ dec p) with (String ":" (dec p)).
    rewrite strip_prefix_head; [|done|by left].
    rewrite rsplit_once_char by (apply dec_no_colon, Hp).
    cbn [ok_or mbind result_bind]. by rewrite Hd.
Qed.

(** ** Session ids *)

Fixpoint session_ids (n : nat) (counter : Z) : list Z :=
  match n with
  | O => []
  | S n => let '(id, counter) := SessionId_next counter in id :: session_ids n counter
  end.

Lemma session_ids_at n c i :
  is_u64 c → (i < n)%nat → session_ids n c !! i = Some (wrap 64 (c + Z.of_nat i)).
Proof.
  revert c i. induction n as [|n IH]; intros c i Hc Hi; [lia|]. cbn [session_ids SessionId_next].
  destruct i as [|i].
  - cbn. by rewrite Z.add_0_r, wrap_small.
  - cbn [lookup list_lookup]. rewrite IH by (lia || by apply fits_wrap). f_equal.
    unfold wrap. rewrite Zplus_mod_idemp_l. f_equal. lia.
Qed.

Lemma length_session_ids n c : length (session_ids n c) = n.
Proof. revert c. induction n as [|n IH]; intros c; [done|]. cbn. by rewrite IH. Qed.

(** The ids handed out by the process-wide counter are pairwise distinct for
    as long as it has not gone once round its 64 bits. *)
Theorem session_ids_distinct (n : nat) (counter : Z) :
  is_u64 counter → Z.of_nat n ≤ 2 ^ 64 → NoDup (session_ids n counter).
Proof.
  intros Hc Hn. apply NoDup_alt. intros i j x Hi Hj.
  assert (Hi' := lookup_lt_Some _ _ _ Hi). assert (Hj' := lookup_lt_Some _ _ _ Hj).
  rewrite length_session_ids in Hi', Hj'.
  rewrite session_ids_at in Hi by done. rewrite session_ids_at in Hj by done.
  assert (E : wrap 64 (counter + Z.of_nat i) = wrap 64 (counter + Z.of_nat j)) by congruence.
  unfold wrap in E. zdm.
Qed.

(** ** Concrete values *)

Lemma endpoint_roundtrip_witness :
  Endpoint_parse "[fe80::1]:2222" = Ok (Endpoint_new "fe80::1" 2222).
Proof. apply (endpoint_roundtrip (Endpoint_new "fe80::1" 2222)); by vm_compute. Defined.

Lemma tcp_endpoint_roundtrip_witness :
  TcpEndpoint_from_str ":8080" = Ok (TcpEndpoint_new "" 8080).
Proof. apply (tcp_endpoint_roundtrip (TcpEndpoint_new "" 8080)); by vm_compute. Defined.

Lemma session_ids_distinct_witness : NoDup (session_ids 3 (2 ^ 64 - 1)).
Proof. apply session_ids_distinct; by vm_compute. Defined.
