(* ===== verification/Config.v ===== *)
(** * Credentials and configuration ([russh-extra-core/src/auth.rs],
    [russh-extra-core/src/config.rs]) *)
From S2P Require Import Prelude RustStr RustPath Channel CoreError Endpoint.

(** ** [auth.rs] *)

Record Username := { username_text : string }.
Definition Username_new (value : string) : Username := {| username_text := value |}.
Definition Username_display (u : Username) : string := username_text u.

Record Password := { password_text : string }.
Definition Password_new (value : string) : Password := {| password_text := value |}.
Definition expose_secret (p : Password) : string := password_text p.
Definition Password_debug (p : Password) : string := "Password(***)".

Inductive Identity :=
| Agent
| KeyFile (path : string) (passphrase : option Password)
| PrivateKey (data : list byte) (passphrase : option Password).

#[export] Instance Password_eq_dec : EqDecision Password.
Proof. solve_decision. Defined.
#[export] Instance Identity_eq_dec : EqDecision Identity.
Proof. solve_decision. Defined.

Record ClientKeyboardInteractivePrompt := { prompt : string; echo : bool }.
Record ClientKeyboardInteractiveInfo := {
  ki_name : string;
  ki_instructions : string;
  ki_prompts : list ClientKeyboardInteractivePrompt;
}.
Inductive KeyboardInteractiveReply :=
| Responses (responses : list string)
| AbortAuth.

(** A challenge handler, by what its future resolves to. *)
Definition KeyboardInteractiveHandler : Type :=
  ClientKeyboardInteractiveInfo → KeyboardInteractiveReply.

Inductive Credential :=
| CredPassword (password : Password)
| CredIdentity (identity : Identity)
| CredNone
| CredKeyboardInteractive (handler : KeyboardInteractiveHandler).

Definition Credential_password (password : Password) : Credential := CredPassword password.
Definition Credential_identity (identity : Identity) : Credential := CredIdentity identity.
Definition Credential_keyboard_interactive (handler : KeyboardInteractiveHandler) : Credential :=
  CredKeyboardInteractive handler.

Definition ClientKeyboardInteractiveInfo_new (name instructions : string)
    (prompts : list ClientKeyboardInteractivePrompt) : ClientKeyboardInteractiveInfo :=
  {| ki_name := name; ki_instructions := instructions; ki_prompts := prompts |}.
Definition ClientKeyboardInteractivePrompt_new (p : string) (e : bool) :
    ClientKeyboardInteractivePrompt := {| prompt := p; echo := e |}.

Definition Identity_agent : Identity := Agent.
Definition Identity_key_file (home : option string) (path : string) : Identity :=
  KeyFile (expand_tilde home path) None.
Definition Identity_load_openssh_pem (data : list byte) : Identity := PrivateKey data None.
Definition Identity_with_passphrase (i : Identity) (p : Password) : Identity :=
  match i with
  | Agent => Agent
  | KeyFile path _ => KeyFile path (Some p)
  | PrivateKey data _ => PrivateKey data (Some p)
  end.

(** [0o077]. *)
Definition MODE_OTHERS_ANY : Z := 63.

(** [mode] is the outcome of reading the file's metadata. *)
Definition validate_private_key_permissions (path : string) (mode : result string Z) :
    Result unit :=
  match mode with
  | Err source =>
      Err (Error_invalid_config
        ("cannot access private key file `" +:+ path +:+ "`: " +:+ source))
  | Ok mode =>
      if negb (Z.land mode MODE_OTHERS_ANY =? 0) then
        Err (Error_invalid_config
          ("private key file `" +:+ path +:+ "` must not be accessible by group or others"))
      else Ok ()
  end.

Record KeyOnDisk := { k_mode : result string Z; k_data : result IoError (list byte) }.

Definition Identity_load_openssh_file (home : option string) (fs : string → KeyOnDisk)
    (path : string) : Result Identity :=
  let path := expand_tilde home path in
  _ ← validate_private_key_permissions path (k_mode (fs path));
  data ← map_err EIo (k_data (fs path));
  Ok (PrivateKey data None).

Section Debug.
Context `{!StrDebug}.

Definition passphrase_debug (p : option Password) : string :=
  match p with Some p => "Some(" +:+ Password_debug p +:+ ")" | None => "None" end.

Definition Identity_debug (i : Identity) : string :=
  match i with
  | Agent => "Agent"
  | KeyFile path passphrase =>
      "KeyFile { path: " +:+ str_debug path +:+ ", passphrase: "
      +:+ passphrase_debug passphrase +:+ " }"
  | PrivateKey data passphrase =>
      "PrivateKey { data: <" +:+ dec (Z.of_nat (length data)) +:+ " bytes redacted>, passphrase: "
      +:+ passphrase_debug passphrase +:+ " }"
  end.

Definition Credential_debug (c : Credential) : string :=
  match c with
  | CredPassword _ => "Password(***)"
  | CredIdentity identity => Identity_debug identity
  | CredNone => "None"
  | CredKeyboardInteractive _ => "KeyboardInteractive"
  end.

(** Two credentials that differ at most in their secrets: same kind, same path,
    same key length, a passphrase in both or in neither. *)
Definition has_passphrase (p : option Password) : bool :=
  match p with Some _ => true | None => false end.

Definition same_but_secrets (a b : Credential) : bool :=
  match a, b with
  | CredPassword _, CredPassword _ => true
  | CredIdentity Agent, CredIdentity Agent => true
  | CredIdentity (KeyFile p x), CredIdentity (KeyFile q y) =>
      String.eqb p q && eqb (has_passphrase x) (has_passphrase y)
  | CredIdentity (PrivateKey d x), CredIdentity (PrivateKey d' y) =>
      Nat.eqb (length d) (length d') && eqb (has_passphrase x) (has_passphrase y)
  | CredNone, CredNone => true
  | CredKeyboardInteractive _, CredKeyboardInteractive _ => true
  | _, _ => false
  end.

Lemma passphrase_debug_redacts x y :
  has_passphrase x = has_passphrase y → passphrase_debug x = passphrase_debug y.
Proof. by destruct x, y. Qed.

(** Debug output never depends on a secret: credentials that differ only in
    the password, the passphrase or the private key's bytes print the same. *)
Theorem debug_redacts_secrets (a b : Credential) :
  same_but_secrets a b = true → Credential_debug a = Credential_debug b.
Proof.
  destruct a as [p|[|p x|d x]| |h], b as [q|[|q y|d' y]| |h']; cbn; try done.
  - intros [->%String.eqb_eq Hx%eqb_prop]%andb_prop. by rewrite (passphrase_debug_redacts x y).
  - intros [->%Nat.eqb_eq Hx%eqb_prop]%andb_prop. by rewrite (passphrase_debug_redacts x y).
Qed.
End Debug.

(** [PartialEq for Credential]. *)
Definition Credential_eq (a b : Credential) : bool :=
  match a, b with
  | CredPassword a, CredPassword b => bool_decide (a = b)
  | CredIdentity a, CredIdentity b => bool_decide (a = b)
  | CredNone, CredNone => true
  | CredKeyboardInteractive _, CredKeyboardInteractive _ => true
  | _, _ => false
  end.

#[export] Instance Credential_eq_equiv : Equivalence (λ a b, Credential_eq a b = true).
Proof.
  split.
  - intros []; cbn; rewrite ?bool_decide_eq_true; done.
  - intros [] []; cbn; rewrite ?bool_decide_eq_true; done.
  - intros [] [] []; cbn; rewrite ?bool_decide_eq_true; try done; congruence.
Qed.

(** ** [config.rs] *)

Inductive HostKeyFingerprintAlgorithm := Sha256.

Record HostKeyFingerprint := {
  fp_algorithm : HostKeyFingerprintAlgorithm;
  fp_value : string;
}.

Inductive HostKeyPolicy :=
| Strict
| InsecureAcceptAny
| PinnedSha256 (pins : list HostKeyFingerprint).

Definition HostKeyPolicy_default : HostKeyPolicy := Strict.

Definition is_ascii_whitespace (c : ascii) : bool :=
  Ascii.eqb c " " || Ascii.eqb c "009" || Ascii.eqb c "010" || Ascii.eqb c "012"
  || Ascii.eqb c "013".

Fixpoint any_char (f : ascii → bool) (s : string) : bool :=
  match s with "" => false | String c s' => f c || any_char f s' end.

Definition validate_sha256_fingerprint (value : string) : Result unit :=
  match strip_prefix "SHA256:" value with
  | None =>
      Err (Error_host_key HostKeyUnsupported "host-key fingerprint must start with SHA256:")
  | Some rest =>
      if String.eqb rest "" then
        Err (Error_host_key HostKeyUnavailable "host-key fingerprint must not be empty")
      else if any_char is_ascii_whitespace rest then
        Err (Error_host_key HostKeyRejected "host-key fingerprint must not contain whitespace")
      else Ok ()
  end.

Definition HostKeyFingerprint_sha256 (value : string) : Result HostKeyFingerprint :=
  _ ← validate_sha256_fingerprint value;
  Ok {| fp_algorithm := Sha256; fp_value := value |}.

Definition pinned_sha256 (fingerprint : string) : Result HostKeyPolicy :=
  fp ← HostKeyFingerprint_sha256 fingerprint; Ok (PinnedSha256 [fp]).

Definition accepts_any (p : HostKeyPolicy) : bool :=
  match p with InsecureAcceptAny => true | _ => false end.

(** Durations in nanoseconds. *)
Definition from_secs (s : Z) : Z := s * 1000000000.

Record Timeouts := { connect_timeout : Z; auth_timeout : Z; channel_open_timeout : Z }.
Definition Timeouts_default : Timeouts :=
  {| connect_timeout := from_secs 30; auth_timeout := from_secs 30;
     channel_open_timeout := from_secs 10 |}.
Definition Timeouts_new (connect auth channel_open : Z) : Timeouts :=
  {| connect_timeout := connect; auth_timeout := auth; channel_open_timeout := channel_open |}.

Record Keepalive := { ka_enabled : bool; ka_interval : Z; ka_max_missed : Z }.
Definition Keepalive_new (enabled : bool) (interval max_missed : Z) : Keepalive :=
  {| ka_enabled := enabled; ka_interval := interval; ka_max_missed := max_missed |}.
Definition Keepalive_default : Keepalive :=
  {| ka_enabled := true; ka_interval := from_secs 30; ka_max_missed := 3 |}.

Record ClientConfig := {
  cc_endpoint : Endpoint;
  cc_username : option Username;
  cc_credentials : list Credential;
  cc_timeouts : Timeouts;
  cc_keepalive : Keepalive;
  cc_host_key_policy : HostKeyPolicy;
}.

Definition ClientConfig_new (endpoint : Endpoint) : ClientConfig :=
  {| cc_endpoint := endpoint; cc_username := None; cc_credentials := [];
     cc_timeouts := Timeouts_default; cc_keepalive := Keepalive_default;
     cc_host_key_policy := HostKeyPolicy_default |}.
Definition ClientConfig_default : ClientConfig := ClientConfig_new Endpoint_default.

Definition set_endpoint (c : ClientConfig) (v : Endpoint) : ClientConfig :=
  {| cc_endpoint := v; cc_username := cc_username c; cc_credentials := cc_credentials c;
     cc_timeouts := cc_timeouts c; cc_keepalive := cc_keepalive c;
     cc_host_key_policy := cc_host_key_policy c |}.
Definition set_username (c : ClientConfig) (v : Username) : ClientConfig :=
  {| cc_endpoint := cc_endpoint c; cc_username := Some v; cc_credentials := cc_credentials c;
     cc_timeouts := cc_timeouts c; cc_keepalive := cc_keepalive c;
     cc_host_key_policy := cc_host_key_policy c |}.
Definition add_credential (c : ClientConfig) (v : Credential) : ClientConfig :=
  {| cc_endpoint := cc_endpoint c; cc_username := cc_username c;
     cc_credentials := cc_credentials c ++ [v];
     cc_timeouts := cc_timeouts c; cc_keepalive := cc_keepalive c;
     cc_host_key_policy := cc_host_key_policy c |}.
Definition use_agent (c : ClientConfig) : ClientConfig :=
  add_credential c (CredIdentity Identity_agent).
Definition set_timeouts (c : ClientConfig) (v : Timeouts) : ClientConfig :=
  {| cc_endpoint := cc_endpoint c; cc_username := cc_username c;
     cc_credentials := cc_credentials c; cc_timeouts := v; cc_keepalive := cc_keepalive c;
     cc_host_key_policy := cc_host_key_policy c |}.
Definition set_keepalive (c : ClientConfig) (v : Keepalive) : ClientConfig :=
  {| cc_endpoint := cc_endpoint c; cc_username := cc_username c;
     cc_credentials := cc_credentials c; cc_timeouts := cc_timeouts c; cc_keepalive := v;
     cc_host_key_policy := cc_host_key_policy c |}.
Definition set_host_key_policy (c : ClientConfig) (v : HostKeyPolicy) : ClientConfig :=
  {| cc_endpoint := cc_endpoint c; cc_username := cc_username c;
     cc_credentials := cc_credentials c; cc_timeouts := cc_timeouts c;
     cc_keepalive := cc_keepalive c; cc_host_key_policy := v |}.
Definition strict_host_key_checking (c : ClientConfig) : bool :=
  negb (accepts_any (cc_host_key_policy c)).
Definition set_strict_host_key_checking (c : ClientConfig) (enabled : bool) : ClientConfig :=
  set_host_key_policy c (if enabled then Strict else InsecureAcceptAny).

Record ServerConfig := { sc_listen : Endpoint; sc_server_id : string; sc_max_sessions : Z }.
Definition ServerConfig_new (listen : Endpoint) : ServerConfig :=
  {| sc_listen := listen; sc_server_id := "SSH-2.0-russh-extra"; sc_max_sessions := 1024 |}.
Definition ServerConfig_default : ServerConfig := ServerConfig_new (Endpoint_new "127.0.0.1" 0).
Definition set_listen (c : ServerConfig) (v : Endpoint) : ServerConfig :=
  {| sc_listen := v; sc_server_id := sc_server_id c; sc_max_sessions := sc_max_sessions c |}.
Definition set_server_id (c : ServerConfig) (v : string) : ServerConfig :=
  {| sc_listen := sc_listen c; sc_server_id := v; sc_max_sessions := sc_max_sessions c |}.
Definition set_max_sessions (c : ServerConfig) (v : Z) : ServerConfig :=
  {| sc_listen := sc_listen c; sc_server_id := sc_server_id c; sc_max_sessions := v |}.

(** ** Fingerprints and key files *)

Lemma sha256_ok value fp :
  HostKeyFingerprint_sha256 value = Ok fp ↔
    fp = {| fp_algorithm := Sha256; fp_value := value |} ∧
    ∃ rest, value = "SHA256:" +:+ rest ∧ rest ≠ "" ∧ any_char is_ascii_whitespace rest = false.
Proof.
  unfold HostKeyFingerprint_sha256, validate_sha256_fingerprint.
  destruct (strip_prefix "SHA256:" value) as [rest|] eqn:E; cbn [mbind result_bind].
  - apply strip_prefix_Some in E as ->. destruct (String.eqb_spec rest "") as [->|Hne].
    { cbn. split; [done|]. intros [_ (r & H & Hr & _)]. by destruct r. }
    destruct (any_char is_ascii_whitespace rest) eqn:Ew; cbn.
    + split; [done|]. intros [_ (r & H & _ & Hw)]. injection H as <-. congruence.
    + split; [intros [= <-]; split; [done|by exists rest]|]. by intros [-> _].
  - split; [done|]. intros [_ (r & -> & _)]. by rewrite strip_prefix_app in E.
Qed.

Lemma others_bits mode i :
  0 ≤ i < 6 → Z.testbit mode i = true → Z.land mode MODE_OTHERS_ANY ≠ 0.
Proof.
  intros Hi Hb H0. assert (H : Z.testbit (Z.land mode MODE_OTHERS_ANY) i = false)
    by (rewrite H0; apply Z.bits_0).
  rewrite Z.land_spec, Hb in H. change MODE_OTHERS_ANY with (Z.ones 6) in H.
  by rewrite Z.ones_spec_low in H.
Qed.

(** A private key file is loaded exactly when no permission bit is set for
    group or others and it can be read; its bytes are kept unchanged. *)
Theorem private_key_permissions (home : option string) (fs : string → KeyOnDisk) (path : string)
    (mode : Z) (data : list byte) :
  let file := fs (expand_tilde home path) in
  k_mode file = Ok mode → k_data file = Ok data →
  (Identity_load_openssh_file home fs path = Ok (PrivateKey data None) ↔
     Z.land mode MODE_OTHERS_ANY = 0) ∧
  (∀ i, 0 ≤ i < 6 → Z.testbit mode i = true →
     is_ok (Identity_load_openssh_file home fs path) = false).
Proof.
  cbv zeta. intros Hm Hd. unfold Identity_load_openssh_file, validate_private_key_permissions.
  rewrite Hm, Hd. split.
  - destruct (Z.eqb_spec (Z.land mode MODE_OTHERS_ANY) 0); cbn; by split.
  - intros i Hi Hb. by rewrite (proj2 (Z.eqb_neq _ _)) by by eapply others_bits.
Qed.

(** ** Concrete values *)

Section Runs.
#[local] Instance config_debug : StrDebug := λ s, s.

Lemma debug_redacts_secrets_witness :
  Credential_debug (CredIdentity (PrivateKey (as_bytes "abc") (Some (Password_new "x"))))
  = Credential_debug (CredIdentity (PrivateKey (as_bytes "xyz") (Some (Password_new "hunter2")))).
Proof. apply debug_redacts_secrets. reflexivity. Defined.

(** Mode 0640. *)
Definition config_fs (_ : string) : KeyOnDisk :=
  {| k_mode := Ok 416; k_data := Ok (as_bytes "key") |}.

Lemma private_key_permissions_witness :
  is_ok (Identity_load_openssh_file (Some "/root") config_fs "~/.ssh/id") = false.
Proof.
  destruct (private_key_permissions (Some "/root") config_fs "~/.ssh/id" 416 (as_bytes "key")
              eq_refl eq_refl) as [_ H].
  apply (H 5); [lia|reflexivity].
Defined.
End Runs.
