(* ===== verification/KnownHosts.v ===== *)
(** * Known hosts ([russh-extra/src/known_hosts.rs])

    Parsing of [known_hosts] lines, the in-memory store with its lookup and
    update, and the printer used to save it.  Base64 and the serialisation of
    public keys are third-party code and file access is the system's: they are
    parameters.  The lock around the store is not modelled: each method takes it
    once and runs alone, so a method is a function of the store. *)
From S2P Require Import Prelude RustStr RustWords RustPath Channel CoreError.

(** ** Entries *)

Record KnownHostsEntry := {
  hostname : string;
  port : Z;
  algorithm : string;
  key_blob : list byte;
  comment : option string;
  revoked : bool;
}.

#[export] Instance KnownHostsEntry_eq_dec : EqDecision KnownHostsEntry.
Proof. solve_decision. Defined.

Definition parse_revoked_marker (line : string) : bool * string :=
  match strip_prefix "@revoked " line with Some rest => (true, rest) | None => (false, line) end.

Definition parse_cert_authority_marker (line : string) : bool * string :=
  match strip_prefix "@cert-authority " line with
  | Some rest => (true, rest)
  | None => (false, line)
  end.

Definition parse_host_pattern (pattern : string) : list (string * Z) :=
  match strip_prefix "[" pattern with
  | Some inner =>
      match strip_suffix "]" inner with
      | Some before_close =>
          match ('(host, port_str) ← rsplit_once ":" before_close;
                 port ← parse_u16 port_str; Some (host, port)) with
          | Some hp => [hp]
          | None => [(before_close, 0)]
          end
      | None =>
          match ('(host, port_str) ← rsplit_once "]:" inner;
                 port ← parse_u16 port_str;
                 Some (default host (strip_suffix "]" host), port)) with
          | Some hp => [hp]
          | None => [(inner, 0)]
          end
      end
  | None => map (λ host, (host, 0)) (split_char "," pattern)
  end.

Inductive KnownHostStatus := Match | NotFound | Changed | Revoked.
#[export] Instance KnownHostStatus_eq_dec : EqDecision KnownHostStatus.
Proof. solve_decision. Defined.

Record KnownHostsParseWarning := {
  w_line : Z;
  w_content : string;
  w_reason : string;
}.

Record KnownHosts := {
  entries : list KnownHostsEntry;
  warnings : list KnownHostsParseWarning;
  source_paths : list string;
  hash_hostnames : bool;
}.

Definition KnownHosts_new : KnownHosts :=
  {| entries := []; warnings := []; source_paths := []; hash_hostnames := false |}.

Definition merge (self other : KnownHosts) : KnownHosts :=
  {| entries := entries self ++ entries other; warnings := warnings self ++ warnings other;
     source_paths := source_paths self ++ source_paths other;
     hash_hostnames := hash_hostnames self |}.

Definition set_hash_hostnames (hash : bool) (self : KnownHosts) : KnownHosts :=
  {| entries := entries self; warnings := warnings self; source_paths := source_paths self;
     hash_hostnames := hash |}.

Definition entry_count (self : KnownHosts) : Z := Z.of_nat (length (entries self)).

Definition host_matches (entry_host target_host : string) : bool :=
  eq_ignore_ascii_case entry_host target_host.

(** ** Permissions *)

(** [0o022] and [0o600]. *)
Definition MODE_OTHERS_WRITE : Z := 18.
Definition MODE_OWNER_ONLY : Z := 384.

Definition validate_known_hosts_permissions (path : string) (mode : result IoError Z) :
    Result unit :=
  match mode with
  | Err e => Err (EIo e)
  | Ok mode =>
      if negb (Z.land mode MODE_OTHERS_WRITE =? 0) then
        Err (Error_invalid_config
          ("known-hosts file `" +:+ path +:+ "` must not be writable by group or others"))
      else Ok ()
  end.

Section Store.
(** [base64] and [PublicKey] are outside this program. *)
Context (base64_decode_key : string → option (list byte))
        (base64_encode : list byte → Result string)
        {PublicKey : Type} (public_key_to_bytes : PublicKey → option (list byte)).

(** ** Parsing *)

Definition KnownHostsEntry_parse (line : string) : list KnownHostsEntry :=
  let trimmed := trim line in
  if String.eqb trimmed "" || starts_with "#" trimmed then []
  else
    let '(revoked, rest) := parse_revoked_marker trimmed in
    let '(_cert_authority, rest) := parse_cert_authority_marker rest in
    match split_whitespace rest with
    | p0 :: p1 :: p2 :: more =>
        let hosts := parse_host_pattern p0 in
        match base64_decode_key p2 with
        | None => []
        | Some key_blob =>
            let comment := match more with [] => None | _ => Some (join " " more) end in
            map (λ '(hostname, port),
              {| hostname := hostname; port := port; algorithm := p1; key_blob := key_blob;
                 comment := comment; revoked := revoked |}) hosts
        end
    | _ => []
    end.

(** One turn of the loop over the numbered lines. *)
Definition parse_line (index : Z) (line : string) :
    list KnownHostsEntry * list KnownHostsParseWarning :=
  let trimmed := trim line in
  let warn reason := [{| w_line := index + 1; w_content := trimmed; w_reason := reason |}] in
  if String.eqb trimmed "" || starts_with "#" trimmed then ([], [])
  else if starts_with "|" trimmed then
    ([], warn "hashed hostname entries are not yet supported")
  else if starts_with "@cert-authority " trimmed then
    ([], warn "cert-authority entries are not yet supported")
  else
    match KnownHostsEntry_parse trimmed with
    | [] => ([], warn "failed to parse known-hosts line")
    | parsed => (parsed, [])
    end.

Fixpoint parse_lines (index : Z) (ls : list string) :
    list KnownHostsEntry * list KnownHostsParseWarning :=
  match ls with
  | [] => ([], [])
  | line :: ls' =>
      let '(es, ws) := parse_line index line in
      let '(es', ws') := parse_lines (index + 1) ls' in
      (es ++ es', ws ++ ws')
  end.

Definition parse_known_hosts_content (content : string) :
    list KnownHostsEntry * list KnownHostsParseWarning :=
  parse_lines 0 (lines content).

Definition KnownHosts_parse (path content : string) : KnownHosts :=
  let '(es, ws) := parse_known_hosts_content content in
  {| entries := es; warnings := ws; source_paths := [path]; hash_hostnames := false |}.

(** ** Loading

    [fs path] is what the system answers for the file at [path]: its mode and
    its content (read only after the mode was accepted). *)
Record FileOnDisk := { f_mode : result IoError Z; f_content : result IoError string }.

Context (home : option string) (fs : string → FileOnDisk).

Definition load (path : string) : Result KnownHosts :=
  let path := expand_tilde home path in
  _ ← validate_known_hosts_permissions path (f_mode (fs path));
  content ← map_err EIo (f_content (fs path));
  Ok (KnownHosts_parse path content).

Fixpoint load_into (store : KnownHosts) (paths : list string) : Result KnownHosts :=
  match paths with
  | [] => Ok store
  | path :: paths' => contents ← load path; load_into (merge store contents) paths'
  end.

Definition load_files (paths : list string) : Result KnownHosts :=
  load_into KnownHosts_new paths.

(** ** Lookup *)

Fixpoint check_loop (es : list KnownHostsEntry) (host : string) (p : Z) (key_bytes : list byte)
    (saw_candidate_match saw_key_mismatch : bool) : KnownHostStatus :=
  match es with
  | [] => if saw_candidate_match then Match else if saw_key_mismatch then Changed else NotFound
  | e :: es' =>
      if negb (host_matches (hostname e) host) then
        check_loop es' host p key_bytes saw_candidate_match saw_key_mismatch
      else if negb (port e =? 0) && negb (port e =? p) then
        check_loop es' host p key_bytes saw_candidate_match saw_key_mismatch
      else if revoked e then Revoked
      else if bool_decide (key_blob e = key_bytes) then
        check_loop es' host p key_bytes true saw_key_mismatch
      else check_loop es' host p key_bytes saw_candidate_match true
  end.

Definition check (self : KnownHosts) (host : string) (p : Z) (public_key : PublicKey) :
    KnownHostStatus :=
  match public_key_to_bytes public_key with
  | None => NotFound
  | Some key_bytes => check_loop (entries self) host p key_bytes false false
  end.

(** ** Update *)

Definition kept (host : string) (p : Z) (e : KnownHostsEntry) : bool :=
  negb (host_matches (hostname e) host
        && ((port e =? p) || (port e =? 0) || (p =? 0) || (p =? 22))).

Definition add_entry (self : KnownHosts) (host : string) (p : Z) (public_key : PublicKey)
    (alg : string) : Result KnownHosts :=
  blob ← ok_or (Error_host_key HostKeyUnsupported
                  "failed to serialize public key for known-hosts entry")
           (public_key_to_bytes public_key);
  Ok {| entries := List.filter (kept host p) (entries self)
          ++ [{| hostname := host; port := p; algorithm := alg; key_blob := blob;
                 comment := None; revoked := false |}];
        warnings := warnings self; source_paths := source_paths self;
        hash_hostnames := hash_hostnames self |}.

(** ** Saving *)

Definition host_part (e : KnownHostsEntry) : string :=
  if negb (port e =? 0) && negb (port e =? 22) then
    "[" +:+ hostname e +:+ "]:" +:+ dec (port e)
  else hostname e.

Definition entry_line (e : KnownHostsEntry) : Result string :=
  let marker := if revoked e then "@revoked " else "" in
  let comment := match comment e with Some c => " " +:+ c | None => "" end in
  key_b64 ← base64_encode (key_blob e);
  Ok (marker +:+ host_part e +:+ " " +:+ algorithm e +:+ " " +:+ key_b64 +:+ comment
      +:+ String LF "").

(** [output] of [save]. *)
Fixpoint save_output (es : list KnownHostsEntry) : Result string :=
  match es with
  | [] => Ok ""
  | e :: es' => line ← entry_line e; rest ← save_output es'; Ok (line +:+ rest)
  end.

(** What [save] does to the disk: the path written, its content and its mode. *)
Definition save (self : KnownHosts) (path : string)
    (created written : result IoError unit) (chmod : result unit unit) :
    Result (string * string * Z) :=
  let path := expand_tilde home path in
  output ← save_output (entries self);
  _ ← map_err EIo created;
  _ ← map_err EIo written;
  _ ← map_err (λ _, Error_invalid_config
                 ("failed to set permissions on known-hosts file `" +:+ path +:+ "`")) chmod;
  Ok (path, output, MODE_OWNER_ONLY).
End Store.
