(* ===== verification/KnownHostsSpec.v ===== *)
(** * Known hosts: correctness

    Lookup against its declarative reading, update, files merged together, and
    the save/load round trip. *)
From S2P Require Import Prelude RustStr RustWords RustPath Channel CoreError KnownHosts.

(** ** Lookup *)

Section Lookup.
Context {PublicKey : Type} (public_key_to_bytes : PublicKey → option (list byte)).

(** The entries that speak about a host and port. *)
Definition applies (host : string) (p : Z) (e : KnownHostsEntry) : bool :=
  host_matches (hostname e) host && ((port e =? 0) || (port e =? p)).

(** The verdict, without the order of the entries. *)
Definition verdict (es : list KnownHostsEntry) (host : string) (p : Z) (key : list byte) :
    KnownHostStatus :=
  let l := List.filter (applies host p) es in
  if existsb revoked l then Revoked
  else if existsb (λ e, bool_decide (key_blob e = key)) l then Match
  else if bool_decide (l = []) then NotFound
  else Changed.

Lemma applies_guards host p e :
  applies host p e =
    negb (negb (host_matches (hostname e) host)) && negb (negb (port e =? 0) && negb (port e =? p)).
Proof.
  unfold applies. by destruct (host_matches _ _), (port e =? 0), (port e =? p).
Qed.

Lemma check_loop_verdict es host p key m n :
  check_loop es host p key m n =
    let l := List.filter (applies host p) es in
    if existsb revoked l then Revoked
    else if m || existsb (λ e, bool_decide (key_blob e = key)) l then Match
    else if n || negb (bool_decide (l = [])) then Changed
    else NotFound.
Proof.
  cbv zeta. revert m n. induction es as [|e es IH]; intros m n; cbn [check_loop List.filter].
  { by destruct m, n. }
  rewrite applies_guards. destruct (host_matches _ _); cbn [negb andb]; [|apply IH].
  destruct (_ && _); cbn [negb]; [apply IH|]. cbn [existsb].
  destruct (revoked e); [done|]. cbn [orb].
  destruct (bool_decide (key_blob e = key)); rewrite IH; cbn [orb]; [by rewrite orb_true_r|].
  destruct (existsb revoked _); [done|]. destruct (m || _); [done|].
  rewrite (bool_decide_false (e :: _ = [])) by done. by destruct n.
Qed.

Lemma check_verdict self host p k :
  check public_key_to_bytes self host p k =
    match public_key_to_bytes k with
    | Some key => verdict (entries self) host p key
    | None => NotFound
    end.
Proof.
  unfold check. destruct (public_key_to_bytes k) as [key|]; [|done].
  rewrite check_loop_verdict. unfold verdict. cbv zeta. cbn [orb].
  repeat (destruct (existsb _ _); [done|]). by destruct (bool_decide _).
Qed.

(** The verdict in words. *)
Lemma verdict_revoked es host p key :
  verdict es host p key = Revoked ↔ ∃ e, e ∈ es ∧ applies host p e = true ∧ revoked e = true.
Proof.
  unfold verdict. cbv zeta. destruct (existsb revoked _) eqn:E.
  - split; [|done]. intros _. apply existsb_exists in E as (e & Hin & Hr).
    apply filter_In in Hin as [Hin Ha]. exists e. by rewrite list_elem_of_In.
  - split; [destruct (existsb (λ e, bool_decide (key_blob e = key)) _), (bool_decide (List.filter (applies host p) es = [])); done|].
    intros (e & Hin%list_elem_of_In & Ha & Hr).
    assert (existsb revoked (List.filter (applies host p) es) = true); [|congruence].
    apply existsb_exists. exists e. by rewrite filter_In.
Qed.

Lemma verdict_match es host p key :
  verdict es host p key = Match ↔
    (∃ e, e ∈ es ∧ applies host p e = true ∧ key_blob e = key) ∧
    (∀ e, e ∈ es → applies host p e = true → revoked e = false).
Proof.
  assert (Hx : ∀ f, existsb f (List.filter (applies host p) es) = true ↔
                 ∃ e, e ∈ es ∧ applies host p e = true ∧ f e = true).
  { intros f. rewrite existsb_exists.
    split; intros (e & He); exists e; rewrite filter_In, ?list_elem_of_In in *; tauto. }
  unfold verdict. cbv zeta. destruct (existsb revoked _) eqn:E.
  - split; [done|]. intros [_ Hn]. apply Hx in E as (e & ? & ? & Hr). by rewrite Hn in Hr.
  - assert (Hn : ∀ e, e ∈ es → applies host p e = true → revoked e = false).
    { intros e ??. destruct (revoked e) eqn:Hr; [|done].
      rewrite (proj2 (Hx revoked)) in E; [done|]. by exists e. }
    destruct (existsb (λ e, bool_decide (key_blob e = key)) _) eqn:Em.
    + split; [|done]. intros _. split; [|done]. apply Hx in Em as (e & ? & ? & Hk).
      apply bool_decide_eq_true in Hk. by exists e.
    + split; [by case_bool_decide|]. intros [(e & ? & ? & Hk) _].
      rewrite (proj2 (Hx (λ e, bool_decide (key_blob e = key)))) in Em; [done|].
      exists e. by rewrite bool_decide_true.
Qed.

Lemma verdict_not_found es host p key :
  verdict es host p key = NotFound ↔ ∀ e, e ∈ es → applies host p e = false.
Proof.
  assert (Hnil : List.filter (applies host p) es = [] ↔ ∀ e, e ∈ es → applies host p e = false).
  { induction es as [|e es IH]; [by split; [intros _ e ?%elem_of_nil|]|]. cbn [List.filter].
    destruct (applies host p e) eqn:Ea.
    - split; [done|]. intros H. by rewrite H in Ea; [|left].
    - rewrite IH. split; [intros H x [->|?]%elem_of_cons; auto|]. intros H x ?. apply H. by right. }
  rewrite <-Hnil. unfold verdict. cbv zeta.
  destruct (List.filter (applies host p) es) as [|e l]; [done|].
  split; [|done]. repeat (destruct (existsb _ _); [done|]). by rewrite bool_decide_false.
Qed.

(** C25.  The verdict of a lookup does not depend on the order of the entries:
    [Revoked] exactly when some applicable entry is revoked, else [Match] exactly
    when some applicable entry has this key, else [NotFound] exactly when no entry
    applies (and [Changed] in the remaining case). *)
Theorem check_correct (self : KnownHosts) (host : string) (p : Z) (k : PublicKey)
    (key : list byte) :
  public_key_to_bytes k = Some key →
  let st := check public_key_to_bytes self host p k in
  (st = Revoked ↔
     ∃ e, e ∈ entries self ∧ applies host p e = true ∧ revoked e = true) ∧
  (st = Match ↔
     (∃ e, e ∈ entries self ∧ applies host p e = true ∧ key_blob e = key) ∧
     (∀ e, e ∈ entries self → applies host p e = true → revoked e = false)) ∧
  (st = NotFound ↔ ∀ e, e ∈ entries self → applies host p e = false).
Proof.
  intros Hk. cbv zeta. rewrite check_verdict, Hk.
  split; [apply verdict_revoked|]. split; [apply verdict_match|apply verdict_not_found].
Qed.

(** ** Update *)

Lemma verdict_ext es es' host p key :
  List.filter (applies host p) es = List.filter (applies host p) es' →
  verdict es host p key = verdict es' host p key.
Proof. unfold verdict. by intros ->. Qed.

Lemma filter_kept_none host p es :
  List.filter (applies host p) (List.filter (kept host p) es) = [].
Proof.
  induction es as [|e es IH]; [done|]. cbn [List.filter].
  destruct (kept host p e) eqn:Ek; [|done]. cbn [List.filter].
  replace (applies host p e) with false; [done|]. symmetry. unfold kept, applies in *.
  destruct (host_matches _ _); [|done]. cbn in *. by destruct (port e =? p), (port e =? 0).
Qed.

Lemma filter_kept_other host p host' q es :
  eq_ignore_ascii_case host host' = false →
  List.filter (applies host' q) (List.filter (kept host p) es) = List.filter (applies host' q) es.
Proof.
  intros Hne. induction es as [|e es IH]; [done|]. cbn [List.filter].
  destruct (kept host p e) eqn:Ek; cbn [List.filter]; [by rewrite IH|].
  replace (applies host' q e) with false; [done|]. symmetry. unfold kept, applies, host_matches in *.
  destruct (eq_ignore_ascii_case (hostname e) host) eqn:Eh; [|done].
  by rewrite (eq_ignore_ascii_case_trans _ _ host' Eh), Hne.
Qed.

Lemma add_entry_entries self host p k key alg self' :
  public_key_to_bytes k = Some key →
  add_entry public_key_to_bytes self host p k alg = Ok self' →
  entries self' = List.filter (kept host p) (entries self)
    ++ [{| hostname := host; port := p; algorithm := alg; key_blob := key;
           comment := None; revoked := false |}].
Proof. unfold add_entry. intros ->. cbn. by intros [= <-]. Qed.

(** A host's entries after its old ones were dropped and a new one added. *)
Lemma verdict_added_case es host host' p alg key key' :
  eq_ignore_ascii_case host host' = true →
  verdict (List.filter (kept host p) es
           ++ [{| hostname := host; port := p; algorithm := alg; key_blob := key;
                  comment := None; revoked := false |}]) host' p key'
  = if bool_decide (key' = key) then Match else Changed.
Proof.
  intros Hh. unfold verdict. rewrite List.filter_app.
  replace (List.filter (applies host' p) (List.filter _ _)) with (@nil KnownHostsEntry).
  - cbn [app List.filter]. unfold applies, host_matches. cbn [hostname port].
    rewrite Hh, Z.eqb_refl, orb_true_r. cbn. rewrite orb_false_r.
    rewrite (bool_decide_ext (key = key') (key' = key)) by done.
    by destruct (bool_decide _).
  - rewrite <-(filter_kept_none host p es). apply List.filter_ext. intros e.
    unfold applies, host_matches. by rewrite !(eq_ignore_ascii_case_sym (hostname e)),
      (eq_ignore_ascii_case_trans _ _ (hostname e) Hh).
Qed.

Lemma verdict_added es host p alg key key' :
  verdict (List.filter (kept host p) es
           ++ [{| hostname := host; port := p; algorithm := alg; key_blob := key;
                  comment := None; revoked := false |}]) host p key'
  = if bool_decide (key' = key) then Match else Changed.
Proof. apply verdict_added_case, eq_ignore_ascii_case_refl. Qed.

(** C26.  After [add_entry host port key], looking the host up (in any letter
    case) with that key is a [Match] and with any other key [Changed], whatever
    was stored before; other hosts are unaffected.  Entries marked revoked for
    the host are discarded with the rest. *)
Theorem add_entry_then_check (self self' : KnownHosts) (host : string) (p : Z) (k : PublicKey)
    (key : list byte) (alg : string) :
  public_key_to_bytes k = Some key →
  add_entry public_key_to_bytes self host p k alg = Ok self' →
  (∀ host' k' key', public_key_to_bytes k' = Some key' → eq_ignore_ascii_case host host' = true →
     check public_key_to_bytes self' host' p k'
     = if bool_decide (key' = key) then Match else Changed) ∧
  (∀ host' q k', eq_ignore_ascii_case host host' = false →
     check public_key_to_bytes self' host' q k' = check public_key_to_bytes self host' q k').
Proof.
  intros Hk Ha. pose proof (add_entry_entries _ _ _ _ _ _ _ Hk Ha) as He. split.
  - intros host' k' key' Hk' Hh. rewrite check_verdict, Hk', He. by apply verdict_added_case.
  - intros host' q k' Hh. rewrite !check_verdict. destruct (public_key_to_bytes k'); [|done].
    rewrite He. apply verdict_ext. rewrite List.filter_app, filter_kept_other by done.
    cbn [List.filter]. unfold applies at 2, host_matches. cbn [hostname]. rewrite Hh.
    cbn. by rewrite app_nil_r.
Qed.

(** Adding a host on the default port forgets every other port of that host:
    a key pinned for [[host]:2222] is gone, and the next connection there finds
    no entry at all (so a changed or revoked key on that port is taken for new). *)
Theorem add_default_port_forgets_other_ports (self self' : KnownHosts) (host : string)
    (k k' : PublicKey) (key : list byte) (alg : string) (q : Z) :
  public_key_to_bytes k = Some key →
  add_entry public_key_to_bytes self host 22 k alg = Ok self' → q ≠ 22 →
  check public_key_to_bytes self' host q k' = NotFound.
Proof.
  intros Hk Ha Hq. rewrite check_verdict. destruct (public_key_to_bytes k') as [key'|]; [|done].
  apply verdict_not_found. rewrite (add_entry_entries _ _ _ _ _ _ _ Hk Ha).
  intros e [Hin|Hin%list_elem_of_singleton]%elem_of_app.
  - apply list_elem_of_In, filter_In in Hin as [_ Hkept]. unfold kept, applies in *.
    destruct (host_matches _ _); [|done]. cbn in Hkept. by rewrite !orb_true_r in Hkept.
  - subst e. unfold applies. cbn [hostname port]. rewrite (proj2 (Z.eqb_neq 22 q)) by done. by rewrite andb_false_r.
Qed.
End Lookup.
