(* ===== verification/KnownHostsFiles.v ===== *)
(** * Known hosts: files

    Loading several files, what becomes of each line, and saving a store and
    loading it back. *)
From S2P Require Import Prelude RustStr RustWords RustPath Channel CoreError Base64 KnownHosts.
From S2P Require Import KnownHostsSpec.

Section Files.
Context (base64_decode_key : string → option (list byte))
        {PublicKey : Type} (public_key_to_bytes : PublicKey → option (list byte))
        (home : option string) (fs : string → FileOnDisk).

Abbreviation load := (load base64_decode_key home fs).
Abbreviation load_files := (load_files base64_decode_key home fs).
Abbreviation check := (check public_key_to_bytes).
Abbreviation parse_line := (parse_line base64_decode_key).
Abbreviation parse_known_hosts_content := (parse_known_hosts_content base64_decode_key).

(** ** Several files *)

Lemma load_into_entries store paths stores :
  Forall2 (λ path st, load path = Ok st) paths stores →
  ∃ st, load_into base64_decode_key home fs store paths = Ok st ∧
    entries st = entries store ++ concat (map entries stores).
Proof.
  intros H. revert store. induction H as [|path st paths stores Hp _ IH]; intros store.
  { exists store. cbn. by rewrite app_nil_r. }
  cbn [load_into]. rewrite Hp. cbn [mbind result_bind].
  destruct (IH (merge store st)) as (st' & E & He). exists st'. split; [done|].
  rewrite He. cbn. by rewrite app_assoc.
Qed.

Lemma load_into_error store paths stores path rest e :
  Forall2 (λ path st, load path = Ok st) paths stores → load path = Err e →
  load_into base64_decode_key home fs store (paths ++ path :: rest) = Err e.
Proof.
  intros H He. revert store. induction H as [|p st paths stores Hp _ IH]; intros store;
    cbn [app load_into].
  - by rewrite He.
  - rewrite Hp. cbn [mbind result_bind]. apply IH.
Qed.

(** Loading several files gives one store in which a host key is revoked
    exactly when some file revokes it, and otherwise matches exactly when it
    matches in some file; a file that cannot be loaded fails the whole load. *)
Theorem load_files_union (paths : list string) (stores : list KnownHosts) (key : list byte)
    (k : PublicKey) :
  Forall2 (λ path st, load path = Ok st) paths stores → public_key_to_bytes k = Some key →
  (∃ st, load_files paths = Ok st ∧
     ∀ host p,
       (check st host p k = Revoked ↔ ∃ s, s ∈ stores ∧ check s host p k = Revoked) ∧
       (check st host p k = Match ↔
          (∃ s, s ∈ stores ∧ check s host p k = Match) ∧
          ∀ s, s ∈ stores → check s host p k ≠ Revoked)) ∧
  (∀ path rest e, load path = Err e → load_files (paths ++ path :: rest) = Err e).
Proof.
  intros Hl Hk. split; [|intros; by eapply load_into_error].
  destruct (load_into_entries KnownHosts_new paths stores Hl) as (st & E & He).
  exists st. split; [done|]. intros host p. cbn in He.
  assert (Hin : ∀ e, e ∈ entries st ↔ ∃ s, s ∈ stores ∧ e ∈ entries s).
  { intros e. rewrite He, list_elem_of_In, in_concat. setoid_rewrite in_map_iff.
    setoid_rewrite list_elem_of_In. firstorder congruence. }
  setoid_rewrite (check_verdict public_key_to_bytes). rewrite Hk.
  setoid_rewrite verdict_revoked. setoid_rewrite verdict_match. setoid_rewrite Hin.
  split; [firstorder|]. split.
  - intros [(e & (s & Hs & He') & Ha & Hb) Hn]. split; [exists s; split; [done|]|].
    + split; [by exists e|]. intros e' ??. apply Hn; [by exists s|done].
    + intros s' Hs' (e' & ? & ? & Hr). rewrite Hn in Hr; [done|by exists s'|done].
  - intros [(s & Hs & (e & ? & ? & ?) & Hn) Hr]. split; [exists e; split; [by exists s|done]|].
    intros e' (s' & Hs' & He') Ha. destruct (revoked e') eqn:Er; [|done].
    by destruct (Hr s' Hs'); exists e'.
Qed.

(** ** Permissions *)

(** A file that others may write to is refused before it is read, whatever
    it contains. *)
Theorem writable_file_refused (path : string) (mode : Z) :
  f_mode (fs (expand_tilde home path)) = Ok mode →
  (Z.testbit mode 1 = true ∨ Z.testbit mode 4 = true) →
  load path = Err (Error_invalid_config
    ("known-hosts file `" +:+ expand_tilde home path
     +:+ "` must not be writable by group or others")).
Proof.
  intros Hm Hbit. unfold KnownHosts.load, validate_known_hosts_permissions. rewrite Hm.
  assert (Hne : Z.land mode MODE_OTHERS_WRITE ≠ 0).
  { intros H0. assert (Hb : ∀ i, 0 ≤ i → Z.testbit (Z.land mode MODE_OTHERS_WRITE) i = false)
      by (intros i Hi; by rewrite H0, Z.bits_0).
    destruct Hbit as [H1|H1];
      [specialize (Hb 1 ltac:(lia))|specialize (Hb 4 ltac:(lia))];
      rewrite Z.land_spec, H1 in Hb; by vm_compute in Hb. }
  by rewrite (proj2 (Z.eqb_neq _ _)).
Qed.

(** ** Every line is accounted for *)

Lemma parse_lines_at n ls i line :
  ls !! i = Some line →
  (∀ e, e ∈ fst (parse_line (n + Z.of_nat i) line) → e ∈ fst (parse_lines base64_decode_key n ls)) ∧
  (∀ w, w ∈ snd (parse_line (n + Z.of_nat i) line) → w ∈ snd (parse_lines base64_decode_key n ls)).
Proof.
  revert n i. induction ls as [|l ls IH]; intros n i; [done|]. cbn [parse_lines].
  destruct (parse_line n l) as [es ws] eqn:E1.
  destruct (parse_lines base64_decode_key (n + 1) ls) as [es' ws'] eqn:E2.
  destruct i as [|i].
  - intros [= ->]. replace (n + Z.of_nat 0) with n by lia. rewrite E1. cbn.
    split; intros x Hx; apply elem_of_app; by left.
  - intros Hi. destruct (IH (n + 1) i Hi) as [H1 H2]. rewrite E2 in H1, H2.
    replace (n + Z.of_nat (S i)) with (n + 1 + Z.of_nat i) by lia. cbn [fst snd] in *.
    split; intros x Hx; apply elem_of_app; right; auto.
Qed.

Lemma parse_line_outcome n line :
  trim line ≠ "" → starts_with "#" (trim line) = false →
  (∃ e, e ∈ fst (parse_line n line)) ∨
  (∃ reason, snd (parse_line n line)
             = [{| w_line := n + 1; w_content := trim line; w_reason := reason |}]).
Proof.
  intros Hne Hc. unfold KnownHosts.parse_line. cbv zeta.
  rewrite (proj2 (String.eqb_neq _ _)), Hc by done. cbn [orb].
  destruct (starts_with "|" _); [right; by eexists|].
  destruct (starts_with "@cert-authority " _); [right; by eexists|].
  destruct (KnownHostsEntry_parse _ _) as [|e l]; [right; by eexists|].
  left. exists e. by left.
Qed.

(** C29.  No line is dropped silently: each line that is neither blank nor a
    comment contributes at least one entry, or a warning that carries its line
    number and text. *)
Theorem every_line_accounted (content line : string) (i : nat) :
  lines content !! i = Some line → trim line ≠ "" → starts_with "#" (trim line) = false →
  (∃ e, e ∈ fst (parse_line (Z.of_nat i) line) ∧ e ∈ fst (parse_known_hosts_content content)) ∨
  (∃ w, w ∈ snd (parse_known_hosts_content content) ∧
        w_line w = Z.of_nat i + 1 ∧ w_content w = trim line).
Proof.
  intros Hi Hne Hc. unfold KnownHosts.parse_known_hosts_content.
  destruct (parse_lines_at 0 _ i line Hi) as [H1 H2]. rewrite Z.add_0_l in H1, H2.
  destruct (parse_line_outcome (Z.of_nat i) line Hne Hc) as [[e He]|[reason Hw]].
  - left. exists e. split; [done|]. by apply H1.
  - right. eexists. split; [apply H2; rewrite Hw; by left|done].
Qed.
End Files.

(** ** Saving and loading back *)

Section Saving.
Context (base64_decode_key : string → option (list byte))
        (base64_encode : list byte → Result string)
        {PublicKey : Type} (public_key_to_bytes : PublicKey → option (list byte)).

Abbreviation check := (check public_key_to_bytes).
Abbreviation parse_line := (parse_line base64_decode_key).
Abbreviation save_output := (save_output base64_encode).

(** What the store can hold that the file format can carry: host names, algorithm
    names and comments made of words, a host name that cannot be read as a
    marker, a comment or a pattern. *)
Definition host_head_ok (h : string) : bool :=
  match h with
  | "" => false
  | String c _ => negb (Ascii.eqb c "[" || Ascii.eqb c "#" || Ascii.eqb c "|" || Ascii.eqb c "@")
  end.

Definition bracketed (e : KnownHostsEntry) : bool := negb (port e =? 0) && negb (port e =? 22).

Definition comment_ok (c : option string) : Prop :=
  match c with
  | None => True
  | Some c => ∃ w ws, Forall word (w :: ws) ∧ c = join " " (w :: ws)
  end.

Definition entry_ok (e : KnownHostsEntry) : Prop :=
  word (hostname e) ∧ host_head_ok (hostname e) = true ∧ is_u16 (port e) ∧
  (if bracketed e then strip_suffix "]" (hostname e) = None
   else count_char "," (hostname e) = 0%nat) ∧
  word (algorithm e) ∧ key_blob e ≠ [] ∧ comment_ok (comment e).

(** The default port is written as no port, which reads back as any port. *)
Definition reloaded (e : KnownHostsEntry) : KnownHostsEntry :=
  {| hostname := hostname e; port := if port e =? 22 then 0 else port e;
     algorithm := algorithm e; key_blob := key_blob e; comment := comment e;
     revoked := revoked e |}.

(** Base64, as its documentation has it: decoding inverts encoding, and the text
    of a non-empty blob is a non-empty run of the alphabet's characters. *)
Context (base64_inverse : ∀ l s, base64_encode l = Ok s → base64_decode_key s = Some l)
        (base64_word : ∀ l s, l ≠ [] → base64_encode l = Ok s → word s).

Lemma bracketed_word h p :
  word h → 0 ≤ p → word ("[" +:+ h +:+ "]:" +:+ dec p).
Proof.
  intros [_ Hh] Hp. split; [done|]. cbn [String.append].
  apply take_word_plain; [by vm_compute|].
  apply (take_word_app_apart "]"); [by vm_compute|done|].
  apply take_word_plain; [by vm_compute|]. apply take_word_plain; [by vm_compute|].
  by apply take_word_digits, all_digits_dec.
Qed.

Lemma host_part_word e : entry_ok e → word (host_part e).
Proof.
  intros (Hh & _ & Hp & _). unfold host_part. destruct (_ && _); [|done].
  apply bracketed_word; [done|]. by destruct Hp.
Qed.

Lemma no_suffix_digit c s :
  all_digits s = true → s ≠ "" → digit_val c = None → strip_suffix (String c "") s = None.
Proof.
  intros Hd Hs Hc. destruct (strip_suffix (String c "") s) as [x|] eqn:E; [|done].
  apply strip_suffix_Some in E. exfalso.
  pose proof (all_digits_no_char c s Hc Hd) as H0. rewrite E, count_char_app in H0.
  cbn [count_char] in H0. rewrite Ascii.eqb_refl in H0. lia.
Qed.

Lemma dec_not_empty p : 0 ≤ p → dec p ≠ "".
Proof. intros Hp. destruct (dec_cons p Hp) as (c & s & d & -> & _). done. Qed.

Lemma parse_bracketed h p :
  strip_suffix "]" h = None → is_u16 p →
  parse_host_pattern ("[" +:+ h +:+ "]:" +:+ dec p) = [(h, p)].
Proof.
  intros Hh [Hp0 Hp1]. unfold parse_host_pattern. rewrite strip_prefix_app.
  pose proof (dec_not_empty p Hp0) as Hne. pose proof (all_digits_dec p Hp0) as Hd.
  rewrite <-str_app_assoc, strip_suffix_app; [|done|by apply no_suffix_digit|].
  - rewrite str_app_assoc, (rsplit_once_app _ h _ "" (dec p)).
    + cbn [mbind option_bind]. unfold parse_u16.
      rewrite parse_uint_dec by (change (2 ^ 16) with 65536 in Hp1; lia).
      cbn [mbind option_bind]. by rewrite str_app_nil_r, Hh.
    + cbn [String.append rsplit_once]. rewrite rsplit_once_none.
      * reflexivity.
      * by apply all_digits_no_char.
  - destruct (dec p); [done|]. cbn. lia.
Qed.

Lemma parse_host_part e :
  entry_ok e → parse_host_pattern (host_part e) = [(hostname e, port (reloaded e))].
Proof.
  intros (Hw & Hh & Hp & Hc & _). unfold host_part, reloaded, bracketed in *. cbn [port].
  destruct (Z.eqb_spec (port e) 0) as [->|H0]; cbn [negb andb] in *.
  2: destruct (Z.eqb_spec (port e) 22) as [E22|H22]; cbn [negb] in *; [|by apply parse_bracketed].
  all: unfold parse_host_pattern; destruct (hostname e) as [|c h]; [done|];
    cbn [host_head_ok] in Hh; cbn [strip_prefix]; destruct (Ascii.eqb_spec "[" c) as [<-|]; [done|];
    by rewrite split_char_none.
Qed.

(** The words of an entry's line. *)
Definition line_words (e : KnownHostsEntry) (b64 : string) (ws : list string) : list string :=
  (if revoked e then ["@revoked"] else []) ++ host_part e :: algorithm e :: b64 :: ws.

Lemma entry_line_words e line :
  entry_ok e → entry_line base64_encode e = Ok line →
  ∃ b64 ws, base64_encode (key_blob e) = Ok b64 ∧ Forall word (line_words e b64 ws) ∧
    line = join " " (line_words e b64 ws) +:+ String LF "" ∧
    comment e = match ws with [] => None | _ => Some (join " " ws) end.
Proof.
  intros He. unfold entry_line. destruct (base64_encode (key_blob e)) as [b64|] eqn:Eb; [|done].
  pose proof (host_part_word e He) as Hhp.
  destruct He as (_ & _ & _ & _ & Ha & Hk & Hc). pose proof (base64_word _ _ Hk Eb) as Hb.
  cbn [mbind result_bind]. intros [= <-].
  assert (Hm : word "@revoked") by by vm_compute.
  destruct (comment e) as [c|]; cbn [comment_ok] in Hc.
  - destruct Hc as (w & ws & Hws & ->). exists b64, (w :: ws). split; [done|].
    split; [unfold line_words; destruct (revoked e); cbn [app]; rewrite ?Forall_cons, ?Forall_nil in *; tauto|].
    split; [|done]. unfold line_words. destruct (revoked e); cbn [app];
      rewrite !join_cons; repeat rewrite ?str_app_assoc, ?str_cons_app; reflexivity.
  - exists b64, []. split; [done|].
    split; [unfold line_words; destruct (revoked e); cbn [app]; rewrite ?Forall_cons, ?Forall_nil in *; tauto|].
    split; [|done]. unfold line_words. destruct (revoked e); cbn [app];
      rewrite !join_cons; repeat rewrite ?str_app_assoc, ?str_cons_app; reflexivity.
Qed.

Lemma host_part_head e : entry_ok e → ∃ c s, host_part e = String c s ∧
  Ascii.eqb c "#" || Ascii.eqb c "|" || Ascii.eqb c "@" = false.
Proof.
  intros (_ & Hh & _). unfold host_part. destruct (_ && _); [by eexists _, _|].
  destruct (hostname e) as [|c h]; [done|]. exists c, h. split; [done|]. cbn in Hh.
  by destruct (Ascii.eqb c "["), (Ascii.eqb c "#"), (Ascii.eqb c "|"), (Ascii.eqb c "@").
Qed.

(** The part of a line after its markers. *)
Lemma marker_spec e b64 ws :
  entry_ok e →
  let rest := join " " (host_part e :: algorithm e :: b64 :: ws) in
  parse_revoked_marker (join " " (line_words e b64 ws)) = (revoked e, rest) ∧
  parse_cert_authority_marker rest = (false, rest).
Proof.
  intros He. destruct (host_part_head e He) as (c & s & E & Hc). cbv zeta.
  unfold parse_revoked_marker, parse_cert_authority_marker, line_words.
  assert (Hat : Ascii.eqb "@" c = false)
    by (rewrite Ascii.eqb_sym; by destruct (Ascii.eqb c "@"); [rewrite orb_true_r in Hc|]).
  assert (Hno : ∀ m, strip_prefix (String "@" m)
                       (join " " (host_part e :: algorithm e :: b64 :: ws)) = None).
  { intros m. rewrite join_cons, E. cbn [String.append strip_prefix]. by rewrite Hat. }
  rewrite !Hno. split; [|done]. destruct (revoked e); cbn [app]; [|by rewrite Hno].
  rewrite join_cons. set (rest := join " " _).
  change ("@revoked" +:+ String SPACE rest) with ("@revoked " +:+ rest).
  by rewrite strip_prefix_app.
Qed.

Lemma starts_with_char c s x : starts_with (String c "") (String s x) = Ascii.eqb c s.
Proof. unfold starts_with. cbn [strip_prefix]. by destruct (Ascii.eqb c s). Qed.

Lemma line_head e b64 ws :
  entry_ok e → ∃ c s, join " " (line_words e b64 ws) = String c s ∧
    Ascii.eqb "#" c = false ∧ Ascii.eqb "|" c = false ∧
    starts_with "@cert-authority " (String c s) = false.
Proof.
  intros He. destruct (host_part_head e He) as (c & s & E & Hc). unfold line_words.
  rewrite !(Ascii.eqb_sym c) in Hc. apply orb_false_iff in Hc as [[H1 H2]%orb_false_iff H3].
  destruct (revoked e); cbn [app]; rewrite join_cons.
  - eexists _, _. by split.
  - rewrite E. eexists _, _. split; [reflexivity|]. split; [done|]. split; [done|].
    unfold starts_with. cbn [strip_prefix String.append]. by rewrite H3.
Qed.

Lemma parse_entry_line e b64 ws n :
  entry_ok e → base64_encode (key_blob e) = Ok b64 → Forall word (line_words e b64 ws) →
  comment e = match ws with [] => None | _ => Some (join " " ws) end →
  parse_line n (join " " (line_words e b64 ws)) = ([reloaded e], []).
Proof.
  intros He Hb Hw Hc. destruct (line_head e b64 ws He) as (c & s & E & H1 & H2 & H3).
  destruct (marker_spec e b64 ws He) as [Hm1 Hm2].
  assert (Hws : split_whitespace (join " " (host_part e :: algorithm e :: b64 :: ws))
                = host_part e :: algorithm e :: b64 :: ws).
  { apply split_whitespace_join. unfold line_words in Hw. by apply Forall_app in Hw as [_ Hw]. }
  unfold KnownHosts.parse_line, KnownHostsEntry_parse. cbv zeta.
  rewrite !(trim_join _ Hw), E, !starts_with_char, H1, H2, H3. cbn [String.eqb orb].
  rewrite <-E, Hm1, Hm2, Hws, (base64_inverse _ _ Hb), (parse_host_part e He). cbn [map].
  unfold reloaded. by rewrite Hc.
Qed.

(** The saved text is the lines, each with its newline. *)
Lemma save_output_lines es out n :
  Forall entry_ok es → save_output es = Ok out →
  parse_lines base64_decode_key n (lines out) = (map reloaded es, []).
Proof.
  intros Hes Hout.
  assert (H : ∃ ls, out = foldr (λ l acc, l +:+ String LF acc) "" ls ∧
    Forall (λ l, count_char LF l = 0%nat ∧ strip_suffix CR l = None) ls ∧
    ∀ m, parse_lines base64_decode_key m ls = (map reloaded es, [])).
  { revert out Hout. induction Hes as [|e es He Hes IH]; intros out; cbn [KnownHosts.save_output].
    { intros [= <-]. by exists []. }
    destruct (entry_line base64_encode e) as [line|] eqn:El; [|done]. cbn [mbind result_bind].
    destruct (save_output es) as [rest|] eqn:Er; [|done]. cbn [mbind result_bind].
    intros [= <-]. destruct (IH rest eq_refl) as (ls & -> & Hls & Hp).
    destruct (entry_line_words e line He El) as (b64 & ws & Hb & Hw & -> & Hc).
    exists (join " " (line_words e b64 ws) :: ls). split; [|split].
    - cbn [foldr]. by rewrite str_app_assoc.
    - constructor; [|done]. split; [by apply join_no_LF|by apply join_no_CR].
    - intros m. cbn [parse_lines]. rewrite (parse_entry_line e b64 ws m He Hb Hw Hc), Hp. done. }
  destruct H as (ls & -> & Hls & Hp). by rewrite lines_concat.
Qed.

(** C27.  Saving a store and loading the file back gives the same entries, markers
    and comments included, with no warning; only an entry for port 22 comes back
    without its port, so that it then applies to every port.  (The entries have names and
    comments that a line can carry and keys that are not empty.) *)
Theorem save_load_roundtrip (self : KnownHosts) (out path : string) :
  Forall entry_ok (entries self) → save_output (entries self) = Ok out →
  entries (KnownHosts_parse base64_decode_key path out) = map reloaded (entries self) ∧
  warnings (KnownHosts_parse base64_decode_key path out) = [] ∧
  (Forall (λ e, port e ≠ 22) (entries self) →
   ∀ host p k, check (KnownHosts_parse base64_decode_key path out) host p k
               = check self host p k) ∧
  (∀ host k key, public_key_to_bytes k = Some key →
     entries self = [{| hostname := host; port := 22; algorithm := "ssh-ed25519";
                        key_blob := key; comment := None; revoked := false |}] →
     ∀ p, p ≠ 22 → check self host p k = NotFound ∧
                   check (KnownHosts_parse base64_decode_key path out) host p k = Match).
Proof.
  intros He Hs. unfold KnownHosts_parse, KnownHosts.parse_known_hosts_content.
  rewrite (save_output_lines _ _ 0 He Hs). cbn [entries warnings].
  split; [done|]. split; [done|]. split.
  - intros Hp host p k. rewrite !check_verdict. cbn [entries].
    replace (map reloaded (entries self)) with (entries self); [done|].
    symmetry. etrans; [|apply map_id]. apply map_ext_in. intros e Hin%list_elem_of_In.
    unfold reloaded. rewrite (proj2 (Z.eqb_neq _ _)); [by destruct e|].
    by apply (proj1 (Forall_forall _ _) Hp).
  - intros host k key Hk Hes p Hp. rewrite !check_verdict, Hk, Hes. cbn [entries].
    unfold verdict, applies, host_matches, reloaded. cbn [map List.filter hostname port].
    rewrite !eq_ignore_ascii_case_refl.
    rewrite (proj2 (Z.eqb_neq 22 p)) by done. cbn. rewrite !bool_decide_true by done. done.
Qed.
End Saving.

(** ** Patterns with several bracketed hosts *)

Lemma longer_no_match a b c : String.length a ≠ 0%nat → host_matches (a +:+ b +:+ c) b = false ∧
  (String.length c ≠ 0%nat → host_matches (b +:+ c) b = false).
Proof.
  unfold host_matches. intros Ha. split; [|intros Hc].
  - destruct (eq_ignore_ascii_case _ _) eqn:E; [|done].
    apply eq_ignore_ascii_case_length in E. rewrite !str_length_app in E. lia.
  - destruct (eq_ignore_ascii_case _ _) eqn:E; [|done].
    apply eq_ignore_ascii_case_length in E. rewrite !str_length_app in E. lia.
Qed.

(** A line for several hosts with ports, [[h1]:p1,[h2]:p2] (as OpenSSH writes
    and reads), is taken for a single host with a nonsensical name: the entry
    applies to neither host, so a key recorded, or revoked, by such a line is
    ignored without a warning. *)
Theorem bracketed_list_misread (h1 h2 : string) (p1 p2 : Z) :
  strip_suffix "]" h2 = None → h2 ≠ "" → is_u16 p2 →
  let name := h1 +:+ "]:" +:+ dec p1 +:+ ",[" +:+ h2 in
  parse_host_pattern ("[" +:+ h1 +:+ "]:" +:+ dec p1 +:+ ",[" +:+ h2 +:+ "]:" +:+ dec p2)
    = [(name, p2)] ∧
  host_matches name h1 = false ∧ host_matches name h2 = false.
Proof.
  intros Hs Hne Hp. cbv zeta.
  pose proof (parse_bracketed (h1 +:+ "]:" +:+ dec p1 +:+ ",[" +:+ h2) p2) as E.
  rewrite !str_app_assoc in E. split; [|split].
  - apply E; [|done]. rewrite <-!str_app_assoc. apply strip_suffix_app; [done|done|].
    destruct h2; [done|]. cbn. lia.
  - apply (longer_no_match "x" h1); [done|]. rewrite str_length_app. cbn. lia.
  - rewrite <-!str_app_assoc.
    pose proof (longer_no_match (((h1 +:+ "]:") +:+ dec p1) +:+ ",[") h2 "") as [H _].
    + rewrite !str_length_app. cbn. lia.
    + by rewrite str_app_nil_r in H.
Qed.

(** ** Concrete stores *)

Section Runs.
Definition demo_entry (h : string) (p : Z) (r : bool) : KnownHostsEntry :=
  {| hostname := h; port := p; algorithm := "ssh-ed25519"; key_blob := as_bytes "k";
     comment := Some "me work"; revoked := r |}.
Definition demo_store : KnownHosts :=
  {| entries := [demo_entry "a.example" 0 false; demo_entry "b.example" 2222 true];
     warnings := []; source_paths := []; hash_hostnames := false |}.
Definition demo_key (k : string) : option (list byte) := Some (as_bytes k).
Definition demo_text : string := "a.example ssh-ed25519 aw== me" +:+ String LF "|1|x y z".
Definition demo_fs (path : string) : FileOnDisk :=
  {| f_mode := Ok (if String.eqb path "bad" then 438 else 420); f_content := Ok demo_text |}.

Lemma check_correct_witness :
  check demo_key demo_store "B.Example" 2222 "k" = Revoked.
Proof.
  destruct (check_correct demo_key demo_store "B.Example" 2222 "k" (as_bytes "k") eq_refl)
    as [H _].
  apply H. exists (demo_entry "b.example" 2222 true). split; [right; left|by vm_compute].
Defined.

Lemma add_entry_then_check_witness :
  ∃ st, add_entry demo_key demo_store "b.example" 2222 "new" "ssh-rsa" = Ok st ∧
        check demo_key st "B.EXAMPLE" 2222 "new" = Match.
Proof.
  eexists. split; [reflexivity|].
  destruct (add_entry_then_check demo_key demo_store _ "b.example" 2222 "new" (as_bytes "new")
              "ssh-rsa" eq_refl eq_refl) as [H _].
  by rewrite (H "B.EXAMPLE" "new" (as_bytes "new")).
Defined.

Lemma add_default_port_forgets_other_ports_witness :
  check demo_key demo_store "b.example" 2222 "k" = Revoked ∧
  ∃ st, add_entry demo_key demo_store "b.example" 22 "new" "ssh-rsa" = Ok st ∧
        check demo_key st "b.example" 2222 "k" = NotFound.
Proof.
  split; [by vm_compute|]. eexists. split; [reflexivity|].
  by apply (add_default_port_forgets_other_ports demo_key demo_store _ "b.example" "new" "k"
              (as_bytes "new") "ssh-rsa").
Defined.

Lemma load_files_union_witness :
  ∃ st, load_files b64_decode None demo_fs ["x"; "y"] = Ok st ∧
        check demo_key st "a.example" 22 "k" = Match.
Proof.
  destruct (load_files_union b64_decode demo_key None demo_fs ["x"; "y"]
    [KnownHosts_parse b64_decode "x" demo_text; KnownHosts_parse b64_decode "y" demo_text]
    (as_bytes "k") "k") as [(st & E & H) _]; [by repeat constructor|reflexivity|].
  exists st. split; [exact E|]. apply H. split.
  - exists (KnownHosts_parse b64_decode "x" demo_text). split; [left|by vm_compute].
  - intros s [->|[->|[]%not_elem_of_nil]%elem_of_cons]%elem_of_cons; by vm_compute.
Defined.

Lemma writable_file_refused_witness :
  is_ok (load b64_decode None demo_fs "bad") = false.
Proof.
  rewrite (writable_file_refused b64_decode None demo_fs "bad" 438); [done|done|by left].
Defined.

Lemma every_line_accounted_witness :
  (∃ e, e ∈ fst (parse_line b64_decode 1 "|1|x y z") ∧
        e ∈ fst (parse_known_hosts_content b64_decode demo_text)) ∨
  (∃ w, w ∈ snd (parse_known_hosts_content b64_decode demo_text) ∧
        w_line w = 2 ∧ w_content w = "|1|x y z").
Proof.
  apply (every_line_accounted b64_decode demo_text "|1|x y z" 1); by vm_compute.
Defined.

Lemma demo_store_ok : Forall entry_ok (entries demo_store).
Proof.
  assert (Hc : comment_ok (Some "me work")).
  { exists "me", ["work"]. split; [|reflexivity]. apply (bool_decide_unpack _). by vm_compute. }
  repeat constructor; try exact Hc; by vm_compute.
Qed.

Lemma save_load_roundtrip_witness :
  ∃ out, save_output base64_standard (entries demo_store) = Ok out ∧
    entries (KnownHosts_parse b64_decode "f" out) = entries demo_store.
Proof.
  eexists. split; [reflexivity|].
  destruct (save_load_roundtrip b64_decode base64_standard demo_key base64_inverse base64_word
              demo_store _ "f" demo_store_ok eq_refl) as [H _]. exact H.
Defined.

Lemma bracketed_list_misread_witness :
  parse_host_pattern "[a]:22,[b]:2222" = [("a]:22,[b", 2222)].
Proof. apply (bracketed_list_misread "a" "b" 22 2222); by vm_compute. Defined.
End Runs.
