(* ===== verification/ClientErrors.v ===== *)
(** * Client: errors and host keys ([russh-extra/src/client.rs])

    How [russh] errors become this library's errors, and the decision on the
    server's host key.  [russh] is a third-party crate: its error enum appears
    through the variants the program matches on, its text and the public key's
    methods are parameters. *)
From S2P Require Import Prelude RustStr RustWords RustPath Channel CoreError Endpoint.
From S2P Require Import Config KnownHosts KnownHostsSpec.

(** The variants of [russh::Error] the program names; the others together. *)
Inductive RusshError :=
| UnknownKey
| KeyChanged (line : Z)
| WrongServerSig
| ConnectionTimeout
| Elapsed
| Disconnect
| HUP
| IO (source : string)
| KexInit | Kex | NoCommonAlgo | PacketAuth | Version | StrictKeyExchangeViolation
| NoAuthMethod | UnsupportedAuthMethod
| ChannelOpenFailure | RequestDenied | NotAuthenticated
| WrongChannel | Inconsistent | SendError
| OtherError (text : string).

(** [client::Config] as far as the program sets it. *)
Record RusshClientConfig := { keepalive_interval : option Z; keepalive_max : Z }.

Definition russh_client_config (config : ClientConfig) : RusshClientConfig :=
  let keepalive := cc_keepalive config in
  {| keepalive_interval := if ka_enabled keepalive then Some (ka_interval keepalive) else None;
     keepalive_max := ka_max_missed keepalive |}.

Section Errors.
(** The text of a [russh] error. *)
Context (russh_text : RusshError → string).

Definition map_connect_error (error : RusshError) : Error :=
  match error with
  | UnknownKey =>
      Error_host_key HostKeyUnknown "server host key is unknown to the configured policy"
  | KeyChanged line =>
      let reason := if line =? 0 then "server host key changed"
                    else "server host key changed from known-hosts line " +:+ dec line in
      Error_host_key HostKeyChanged reason
  | WrongServerSig => Error_host_key HostKeyRejected "server host key was rejected"
  | ConnectionTimeout | Elapsed => Error_timeout OpConnect "client connection timed out"
  | Disconnect | HUP => Error_disconnected OpConnect "server disconnected during connection"
  | IO source =>
      Error_transport_with_source TransportTcpConnect "TCP connection failed" source
  | KexInit | Kex | NoCommonAlgo | PacketAuth | Version | StrictKeyExchangeViolation =>
      Error_transport_with_source TransportNegotiation "SSH negotiation failed"
        (russh_text error)
  | _ => Error_ssh_with_source "russh client connection failed" (russh_text error)
  end.

Definition map_auth_error (error : RusshError) : Error :=
  match error with
  | NoAuthMethod =>
      Error_authentication_kind AuthUnavailable "server did not offer an authentication method"
  | UnsupportedAuthMethod =>
      Error_authentication_kind AuthUnsupportedMethod
        "server rejected the authentication method as unsupported"
  | ConnectionTimeout | Elapsed => Error_timeout OpAuthentication "authentication timed out"
  | Disconnect | HUP =>
      Error_disconnected OpAuthentication "server disconnected during authentication"
  | IO source =>
      Error_transport_with_source TransportIo "transport I/O failed during authentication" source
  | _ =>
      Error_authentication_with_source AuthRejected "authentication failed" (russh_text error)
  end.

Definition map_channel_open_error (error : RusshError) : Error :=
  match error with
  | ChannelOpenFailure =>
      Error_channel_with_source ChannelOpenFailed "server refused to open a session channel"
        (russh_text error)
  | RequestDenied =>
      Error_channel_with_source ChannelRequest "session channel open request was denied"
        (russh_text error)
  | NotAuthenticated =>
      Error_authentication_kind AuthUnavailable "session is not authenticated"
  | ConnectionTimeout | Elapsed => Error_timeout OpChannelOpen "session channel open timed out"
  | Disconnect | HUP =>
      Error_disconnected OpChannelOpen "server disconnected while opening a session channel"
  | IO source =>
      Error_transport_with_source TransportIo
        "transport I/O failed while opening a session channel" source
  | _ =>
      Error_channel_with_source ChannelOpenFailed "session channel open failed" (russh_text error)
  end.

Definition map_command_error (error : RusshError) : Error :=
  match error with
  | RequestDenied =>
      Error_channel_with_source ChannelRequest "remote command request was denied"
        (russh_text error)
  | WrongChannel | Inconsistent =>
      Error_channel_with_source ChannelProtocol "remote command channel entered an invalid state"
        (russh_text error)
  | SendError =>
      Error_channel_with_source ChannelWrite "failed to send command channel data"
        (russh_text error)
  | ConnectionTimeout | Elapsed => Error_timeout OpCommand "remote command timed out"
  | Disconnect | HUP =>
      Error_disconnected OpCommand "server disconnected during remote command"
  | IO source => Error_channel_with_source ChannelRead "command channel I/O failed" source
  | _ =>
      Error_channel_with_source ChannelProtocol "remote command failed" (russh_text error)
  end.
End Errors.

(** ** Host keys *)

(** The key families [public_key_algorithm] distinguishes. *)
Inductive KeyData := Ed25519 | Rsa | Dsa | SkEd25519 | OtherKeyData.

Section HostKey.
Context {PublicKey : Type} (public_key_to_bytes : PublicKey → option (list byte))
        (fingerprint_sha256 : PublicKey → string) (key_data : PublicKey → KeyData).

Definition public_key_algorithm (k : PublicKey) : string :=
  match key_data k with
  | Ed25519 => "ssh-ed25519"
  | Rsa => "ssh-rsa"
  | Dsa => "ssh-dss"
  | SkEd25519 => "sk-ssh-ed25519@openssh.com"
  | OtherKeyData => "ssh-unknown"
  end.

Definition host_key_policy_accepts (policy : HostKeyPolicy) (k : PublicKey) : bool :=
  match policy with
  | Strict => false
  | InsecureAcceptAny => true
  | PinnedSha256 fingerprints =>
      let actual := fingerprint_sha256 k in
      existsb (λ fingerprint, String.eqb (fp_value fingerprint) actual) fingerprints
  end.

(** The fields of [ClientHandler] the decision reads; the store is shared with the
    application and updated in place. *)
Record ClientHandler := {
  ch_policy : HostKeyPolicy;
  ch_known_hosts : option KnownHosts;
  ch_accept_new : bool;
  ch_endpoint : Endpoint;
}.

Definition with_known_hosts (h : ClientHandler) (kh : KnownHosts) : ClientHandler :=
  {| ch_policy := ch_policy h; ch_known_hosts := Some kh; ch_accept_new := ch_accept_new h;
     ch_endpoint := ch_endpoint h |}.

Definition check_server_key (h : ClientHandler) (k : PublicKey) :
    result RusshError bool * ClientHandler :=
  match ch_known_hosts h with
  | Some known_hosts =>
      let host := e_host (ch_endpoint h) in
      let port := e_port (ch_endpoint h) in
      match check public_key_to_bytes known_hosts host port k with
      | Match => (Ok true, h)
      | Revoked => (Err WrongServerSig, h)
      | Changed => (Err (KeyChanged 0), h)
      | NotFound =>
          if ch_accept_new h then
            match add_entry public_key_to_bytes known_hosts host port k
                    (public_key_algorithm k) with
            | Ok known_hosts => (Ok true, with_known_hosts h known_hosts)
            | Err _ => (Ok true, h)
            end
          else (Ok false, h)
      end
  | None => (Ok (host_key_policy_accepts (ch_policy h) k), h)
  end.

(** A handler for a later connection sees the store the earlier one left. *)
Fixpoint connections (h : ClientHandler) (ks : list PublicKey) :
    list (result RusshError bool) * ClientHandler :=
  match ks with
  | [] => ([], h)
  | k :: ks' =>
      let '(r, h) := check_server_key h k in
      let '(rs, h) := connections h ks' in (r :: rs, h)
  end.

(** Trust on first use: with an accept-new store and no entry for the
    endpoint, the first key offered is accepted and recorded; from then on that
    key is accepted and every other key is refused as changed, whatever is
    offered in between. *)
Theorem trust_on_first_use (h h' : ClientHandler) (kh : KnownHosts) (k : PublicKey)
    (key : list byte) :
  ch_known_hosts h = Some kh → ch_accept_new h = true → public_key_to_bytes k = Some key →
  check public_key_to_bytes kh (e_host (ch_endpoint h)) (e_port (ch_endpoint h)) k = NotFound →
  check_server_key h k = (Ok true, h') →
  ∀ ks, Forall (λ k', is_Some (public_key_to_bytes k')) ks →
    connections h' ks =
      (map (λ k', if bool_decide (public_key_to_bytes k' = Some key) then Ok true
                  else Err (KeyChanged 0)) ks, h').
Proof.
  intros Hkh Hnew Hk Hnf. unfold check_server_key. rewrite Hkh, Hnf, Hnew.
  destruct (add_entry _ kh _ _ k _) as [kh'|] eqn:Ha; [|by unfold add_entry in Ha; rewrite Hk in Ha].
  intros [= <-]. intros ks Hks.
  induction Hks as [|k' ks [key' Hk'] _ IH]; [done|]. cbn [connections map].
  unfold check_server_key at 1. cbn [with_known_hosts ch_known_hosts ch_endpoint].
  assert (E : check public_key_to_bytes kh' (e_host (ch_endpoint h)) (e_port (ch_endpoint h)) k'
              = if bool_decide (key' = key) then Match else Changed).
  { pose proof (add_entry_entries public_key_to_bytes _ _ _ _ _ _ _ Hk Ha) as He.
    rewrite check_verdict, Hk', He. apply verdict_added. }
  rewrite E, Hk'. case_bool_decide as Hb.
  - rewrite bool_decide_true by congruence. by rewrite IH.
  - rewrite bool_decide_false by congruence. by rewrite IH.
Qed.

Lemma check_server_key_accepts (h : ClientHandler) (k : PublicKey) :
  fst (check_server_key h k) = Ok true ↔
    match ch_known_hosts h with
    | Some kh =>
        let st := check public_key_to_bytes kh (e_host (ch_endpoint h)) (e_port (ch_endpoint h)) k in
        st = Match ∨ (st = NotFound ∧ ch_accept_new h = true)
    | None =>
        ch_policy h = InsecureAcceptAny ∨
        ∃ pins, ch_policy h = PinnedSha256 pins ∧
                ∃ fp, fp ∈ pins ∧ fp_value fp = fingerprint_sha256 k
    end.
Proof.
  unfold check_server_key. destruct (ch_known_hosts h) as [kh|]; cbv zeta.
  - destruct (check _ kh _ _ k).
    + cbn. tauto.
    + destruct (ch_accept_new h); [destruct (add_entry _ _ _ _ _ _)|]; cbn; firstorder congruence.
    + cbn. firstorder congruence.
    + cbn. firstorder congruence.
  - unfold host_key_policy_accepts. cbn [fst]. destruct (ch_policy h) as [| |pins].
    + firstorder congruence.
    + firstorder congruence.
    + split.
      * intros [= H%existsb_exists]. destruct H as (fp & Hin & E%String.eqb_eq). right.
        exists pins. split; [done|]. exists fp. by rewrite list_elem_of_In.
      * intros [?|(pins' & [= <-] & fp & Hin & Hv)]; [done|]. f_equal. apply existsb_exists.
        exists fp. by rewrite <-list_elem_of_In, String.eqb_eq.
Qed.

(** Exactly which host keys are accepted.  With a known-hosts store: those the
    store matches, and unknown ones under accept-new, never a changed or revoked
    one; the configured policy (pins included) is not consulted then.  Without a
    store: any key under the insecure policy, the pinned fingerprints under a
    pinned policy, none under the default. *)
Theorem accepted_host_keys (h : ClientHandler) (k : PublicKey) :
  fst (check_server_key h k) = Ok true ↔
    match ch_known_hosts h with
    | Some kh =>
        let st := check public_key_to_bytes kh (e_host (ch_endpoint h)) (e_port (ch_endpoint h)) k in
        st = Match ∨ (st = NotFound ∧ ch_accept_new h = true)
    | None =>
        ch_policy h = InsecureAcceptAny ∨
        ∃ pins, ch_policy h = PinnedSha256 pins ∧
                ∃ fp, fp ∈ pins ∧ fp_value fp = fingerprint_sha256 k
    end.
Proof. apply check_server_key_accepts. Qed.
End HostKey.

(** ** Concrete runs *)

Section Runs.
Definition run_key (k : string) : option (list byte) := Some (as_bytes k).
Definition run_handler : ClientHandler :=
  {| ch_policy := Strict; ch_known_hosts := Some KnownHosts_new; ch_accept_new := true;
     ch_endpoint := Endpoint_new "example.org" 2222 |}.

Definition run_first : ClientHandler :=
  snd (check_server_key run_key (λ k, k) (λ _, Rsa) run_handler "k1").

Lemma trust_on_first_use_witness :
  connections run_key (λ k, k) (λ _, Rsa) run_first ["k1"; "k2"; "K1"; "k1"]
  = ([Ok true; Err (KeyChanged 0); Err (KeyChanged 0); Ok true], run_first).
Proof.
  apply (trust_on_first_use run_key (λ k, k) (λ _, Rsa) run_handler run_first KnownHosts_new
           "k1" (as_bytes "k1")); try reflexivity.
  repeat constructor; by eexists.
Defined.
End Runs.
