(* ===== verification/ClientCommand.v ===== *)
(** * Client: remote commands ([russh-extra/src/client.rs])

    [Session::command]: the loop over channel messages that collects bounded
    output, sends standard input once, and reports the exit.  The channel is
    [russh]'s: the messages that arrive and the outcome of each operation on it
    are given, and what the program sends on it is recorded. *)
From S2P Require Import Prelude RustStr RustWords RustPath Channel CoreError Endpoint.
From S2P Require Import Config KnownHosts KnownHostsSpec ClientErrors.

(** ** Requests and results *)

Record RemoteCommand := { program : string; stdin : list byte; limits : CommandLimits }.

Definition RemoteCommand_new (p : string) : RemoteCommand :=
  {| program := p; stdin := []; limits := CommandLimits_default |}.
Definition with_stdin (c : RemoteCommand) (d : list byte) : RemoteCommand :=
  {| program := program c; stdin := d; limits := limits c |}.
Definition with_limits (c : RemoteCommand) (l : CommandLimits) : RemoteCommand :=
  {| program := program c; stdin := stdin c; limits := l |}.
Definition stdout_limit (c : RemoteCommand) (n : Z) : RemoteCommand :=
  with_limits c (CommandLimits_with_stdout (limits c) n).
Definition stderr_limit (c : RemoteCommand) (n : Z) : RemoteCommand :=
  with_limits c (CommandLimits_with_stderr (limits c) n).

Record CommandOutput := { co_exit : CommandExit; co_stdout : list byte; co_stderr : list byte }.

Definition CommandOutput_success (o : CommandOutput) : bool := CommandExit_success (co_exit o).
Definition check_success (o : CommandOutput) : Result CommandOutput :=
  if CommandExit_success (co_exit o) then Ok o else Err (Error_command_exit (co_exit o)).

(** [russh::Sig]. *)
Inductive Sig :=
| ABRT | ALRM | FPE | SIGHUP | ILL | INT | KILL | PIPE | QUIT | SEGV | TERM | USR1
| CustomSig (name : string).

Definition signal_to_name (signal : Sig) : string :=
  match signal with
  | ABRT => "ABRT" | ALRM => "ALRM" | FPE => "FPE" | SIGHUP => "HUP" | ILL => "ILL"
  | INT => "INT" | KILL => "KILL" | PIPE => "PIPE" | QUIT => "QUIT" | SEGV => "SEGV"
  | TERM => "TERM" | USR1 => "USR1" | CustomSig name => name
  end.

(** ** The loop *)

Inductive CommandMsg :=
| CSuccess
| CFailure
| CData (data : list byte)
| CExtendedData (data : list byte)
| CExitStatus (status : Z)
| CExitSignal (signal : Sig) (core_dumped : bool)
| CEof
| CClose
| COther.

(** What the program sends on the channel. *)
Inductive CommandAction := SendData (data : list byte) | SendEof | SendClose.

Definition USIZE_MAX : Z := 2 ^ 64 - 1.
Definition bytes_len (l : list byte) : Z := Z.of_nat (length l).

Definition append_limited (buffer data : list byte) (limit : Z) (stream_name : string) :
    Result (list byte) :=
  if limit <? Z.min USIZE_MAX (bytes_len buffer + bytes_len data) then
    Err (Error_channel_kind ChannelRead
      ("remote command " +:+ stream_name +:+ " exceeded configured " +:+ stream_name
       +:+ " limit of " +:+ dec limit +:+ " bytes"))
  else Ok (buffer ++ data).

Record CommandState := {
  cs_stdout : list byte;
  cs_stderr : list byte;
  cs_exit : CommandExit;
  cs_exit_observed : bool;
  cs_stdin_sent : bool;
  cs_exec_confirmed : bool;
  cs_channel_closed : bool;
}.

Definition CommandState_new : CommandState :=
  {| cs_stdout := []; cs_stderr := []; cs_exit := Missing; cs_exit_observed := false;
     cs_stdin_sent := false; cs_exec_confirmed := false; cs_channel_closed := false |}.

Definition set_output (out err : list byte) (st : CommandState) : CommandState :=
  {| cs_stdout := out; cs_stderr := err; cs_exit := cs_exit st;
     cs_exit_observed := cs_exit_observed st; cs_stdin_sent := cs_stdin_sent st;
     cs_exec_confirmed := cs_exec_confirmed st; cs_channel_closed := cs_channel_closed st |}.

Definition set_exit (e : CommandExit) (st : CommandState) : CommandState :=
  if cs_exit_observed st then st
  else {| cs_stdout := cs_stdout st; cs_stderr := cs_stderr st; cs_exit := e;
          cs_exit_observed := true; cs_stdin_sent := cs_stdin_sent st;
          cs_exec_confirmed := cs_exec_confirmed st; cs_channel_closed := cs_channel_closed st |}.

Definition confirm (stdin_sent : bool) (st : CommandState) : CommandState :=
  {| cs_stdout := cs_stdout st; cs_stderr := cs_stderr st; cs_exit := cs_exit st;
     cs_exit_observed := cs_exit_observed st; cs_stdin_sent := stdin_sent;
     cs_exec_confirmed := true; cs_channel_closed := cs_channel_closed st |}.

Definition closed (st : CommandState) : CommandState :=
  {| cs_stdout := cs_stdout st; cs_stderr := cs_stderr st; cs_exit := cs_exit st;
     cs_exit_observed := cs_exit_observed st; cs_stdin_sent := cs_stdin_sent st;
     cs_exec_confirmed := cs_exec_confirmed st; cs_channel_closed := true |}.

Section Command.
Context (russh_text : RusshError → string)
        (data_sent eof_sent : result RusshError unit)
        (command : RemoteCommand).

(** The [ChannelMsg::Success] arm: standard input, then end of file, once. *)
Definition on_success (st : CommandState) : Result CommandState * list CommandAction :=
  if cs_stdin_sent st then (Ok (confirm true st), [])
  else
    let '(r, log) := match stdin command with
                     | [] => (Ok (), [])
                     | d => (data_sent, [SendData d])
                     end in
    match r with
    | Err e => (Err (map_command_error russh_text e), log)
    | Ok _ =>
        match eof_sent with
        | Err e => (Err (map_command_error russh_text e), log ++ [SendEof])
        | Ok _ => (Ok (confirm true st), log ++ [SendEof])
        end
    end.

(** [if let Err(error) = append_limited(..) { channel.close(); return Err(error) }]. *)
Definition on_data (st : CommandState) (appended : Result (list byte))
    (k : list byte → CommandState) : Result CommandState * list CommandAction :=
  match appended with
  | Err e => (Err e, [SendClose])
  | Ok buf => (Ok (k buf), [])
  end.

Definition on_message (m : CommandMsg) (st : CommandState) :
    Result CommandState * list CommandAction :=
  match m with
  | CSuccess => on_success st
  | CFailure =>
      (Err (Error_channel_kind ChannelRequest "remote exec request was rejected"), [SendClose])
  | CData d =>
      on_data st (append_limited (cs_stdout st) d (limit_stdout (limits command)) "stdout")
        (λ buf, set_output buf (cs_stderr st) st)
  | CExtendedData d =>
      on_data st (append_limited (cs_stderr st) d (limit_stderr (limits command)) "stderr")
        (λ buf, set_output (cs_stdout st) buf st)
  | CExitStatus status => (Ok (set_exit (Status status) st), [])
  | CExitSignal signal core_dumped =>
      (Ok (set_exit (Signal (signal_to_name signal) core_dumped) st), [])
  | CEof | COther => (Ok st, [])
  | CClose => (Ok (closed st), [])
  end.

Fixpoint command_loop (msgs : list CommandMsg) (st : CommandState) :
    Result CommandState * list CommandAction :=
  match msgs with
  | [] => (Ok st, [])
  | m :: msgs' =>
      match on_message m st with
      | (Err e, log) => (Err e, log)
      | (Ok st', log) =>
          match m with
          | CClose => (Ok st', log)
          | _ => let '(r, log') := command_loop msgs' st' in (r, log ++ log')
          end
      end
  end.

(** [connected]: the session has a handle; [opened]: the channel open, [None] when
    it timed out; [is_closed]: the connection's state after the loop. *)
Definition Session_command (connected : bool) (opened : option (result RusshError unit))
    (exec : result RusshError unit) (msgs : list CommandMsg) (is_closed : bool) :
    Result CommandOutput * list CommandAction :=
  if negb connected then
    (Err (Error_unsupported "remote command execution requires a connected session"), [])
  else
    match opened with
    | None => (Err (Error_timeout OpChannelOpen "session channel open timed out"), [])
    | Some (Err e) => (Err (map_channel_open_error russh_text e), [])
    | Some (Ok _) =>
        match exec with
        | Err e => (Err (map_command_error russh_text e), [])
        | Ok _ =>
            match command_loop msgs CommandState_new with
            | (Err e, log) => (Err e, log)
            | (Ok st, log) =>
                if negb (cs_channel_closed st) && is_closed then
                  (Err (Error_disconnected OpCommand
                          "server disconnected during remote command"), log)
                else if negb (cs_exec_confirmed st) then
                  (Err (Error_channel_kind ChannelProtocol
                          "remote command channel closed before exec confirmation"), log)
                else
                  (Ok {| co_exit := cs_exit st; co_stdout := cs_stdout st;
                         co_stderr := cs_stderr st |}, log ++ [SendClose])
            end
        end
    end.
End Command.

(** ** What the messages say *)

Fixpoint before_close (msgs : list CommandMsg) : list CommandMsg :=
  match msgs with
  | [] | CClose :: _ => []
  | m :: msgs' => m :: before_close msgs'
  end.

Definition is_close (m : CommandMsg) : bool := match m with CClose => true | _ => false end.
Definition is_success (m : CommandMsg) : bool := match m with CSuccess => true | _ => false end.
Definition is_failure (m : CommandMsg) : bool := match m with CFailure => true | _ => false end.

Definition stdout_of (msgs : list CommandMsg) : list byte :=
  concat (map (λ m, match m with CData d => d | _ => [] end) msgs).
Definition stderr_of (msgs : list CommandMsg) : list byte :=
  concat (map (λ m, match m with CExtendedData d => d | _ => [] end) msgs).

Fixpoint exit_of (msgs : list CommandMsg) : CommandExit :=
  match msgs with
  | [] => Missing
  | CExitStatus status :: _ => Status status
  | CExitSignal signal core :: _ => Signal (signal_to_name signal) core
  | _ :: msgs' => exit_of msgs'
  end.

(** Confirmed, not refused, and closed in order. *)
Definition seen_whole (msgs : list CommandMsg) : Prop :=
  existsb is_success (before_close msgs) = true ∧ existsb is_failure (before_close msgs) = false ∧
  existsb is_close msgs = true.

Definition stdin_actions (command : RemoteCommand) : list CommandAction :=
  match stdin command with [] => [SendEof] | d => [SendData d; SendEof] end.

Lemma append_limited_ok buf d limit name buf' :
  append_limited buf d limit name = Ok buf' →
  buf' = buf ++ d ∧ Z.min USIZE_MAX (bytes_len buf') ≤ limit.
Proof.
  unfold append_limited. destruct (Z.ltb_spec limit (Z.min USIZE_MAX (bytes_len buf + bytes_len d)));
    [done|]. intros [= <-]. split; [done|]. unfold bytes_len in *. rewrite length_app. lia.
Qed.

Lemma append_limited_fits buf d limit name :
  bytes_len (buf ++ d) ≤ limit → append_limited buf d limit name = Ok (buf ++ d).
Proof.
  unfold append_limited, bytes_len. rewrite length_app. intros H.
  by rewrite (proj2 (Z.ltb_ge _ _)) by lia.
Qed.

Section Spec.
Context (russh_text : RusshError → string) (command : RemoteCommand).

Abbreviation loop := (command_loop russh_text (Ok ()) (Ok ()) command).

(** The loop's state, from what it has read. *)
Record loop_result (msgs : list CommandMsg) (st st' : CommandState) (log : list CommandAction) :
    Prop := {
  lr_stdout : cs_stdout st' = cs_stdout st ++ stdout_of (before_close msgs);
  lr_stderr : cs_stderr st' = cs_stderr st ++ stderr_of (before_close msgs);
  lr_exit : cs_exit st' = if cs_exit_observed st then cs_exit st
                          else match exit_of (before_close msgs) with
                               | Missing => cs_exit st
                               | e => e
                               end;
  lr_confirmed :
    cs_exec_confirmed st' = cs_exec_confirmed st || existsb is_success (before_close msgs);
  lr_closed : cs_channel_closed st' = cs_channel_closed st || existsb is_close msgs;
  lr_log : log = if cs_stdin_sent st || negb (existsb is_success (before_close msgs)) then []
                 else stdin_actions command;
  lr_no_failure : existsb is_failure (before_close msgs) = false;
  lr_out_bound : Z.min USIZE_MAX (bytes_len (cs_stdout st)) ≤ limit_stdout (limits command) →
    Z.min USIZE_MAX (bytes_len (cs_stdout st')) ≤ limit_stdout (limits command);
  lr_err_bound : Z.min USIZE_MAX (bytes_len (cs_stderr st)) ≤ limit_stderr (limits command) →
    Z.min USIZE_MAX (bytes_len (cs_stderr st')) ≤ limit_stderr (limits command);
}.

Lemma on_success_ok st :
  on_success russh_text (Ok ()) (Ok ()) command st
  = (Ok (confirm true st), if cs_stdin_sent st then [] else stdin_actions command).
Proof. unfold on_success, stdin_actions. destruct (cs_stdin_sent st); [done|]. by destruct (stdin command). Qed.

Lemma command_loop_result msgs st st' log :
  loop msgs st = (Ok st', log) → loop_result msgs st st' log.
Proof.
  revert st st' log. induction msgs as [|m msgs IH]; intros st st' log; cbn [command_loop].
  { intros [= <- <-]. split; cbn; rewrite ?app_nil_r, ?orb_false_r, ?orb_true_r; try done.
    by destruct (cs_exit_observed st). }
  destruct m as [| |d|d|status|sg core| | |]; cbn [on_message].
  - rewrite on_success_ok. destruct (loop msgs (confirm true st)) as [r log1] eqn:E.
    intros [= -> <-]. apply IH in E as [H1 H2 H3 H4 H5 H6 H7 H8 H9].
    split; cbn in *; rewrite ?orb_true_r; try done; subst log1.
    by rewrite app_nil_r, orb_false_r.
  - done.
  - unfold on_data. destruct (append_limited _ d _ _) as [buf|] eqn:Ea; [|done].
    apply append_limited_ok in Ea as [-> Hb].
    destruct (loop msgs _) as [r log1] eqn:E. intros [= -> <-].
    apply IH in E as [H1 H2 H3 H4 H5 H6 H7 H8 H9]. split; cbn in *; try done; [|by auto].
    by rewrite H1, <-app_assoc.
  - unfold on_data. destruct (append_limited _ d _ _) as [buf|] eqn:Ea; [|done].
    apply append_limited_ok in Ea as [-> Hb].
    destruct (loop msgs _) as [r log1] eqn:E. intros [= -> <-].
    apply IH in E as [H1 H2 H3 H4 H5 H6 H7 H8 H9]. split; cbn in *; try done; [|by auto].
    by rewrite H2, <-app_assoc.
  - destruct (loop msgs _) as [r log1] eqn:E. intros [= -> <-]. apply IH in E as [].
    unfold set_exit in *. destruct (cs_exit_observed st) eqn:Eo; split; cbn in *; try done;
      by rewrite Eo in *.
  - destruct (loop msgs _) as [r log1] eqn:E. intros [= -> <-]. apply IH in E as [].
    unfold set_exit in *. destruct (cs_exit_observed st) eqn:Eo; split; cbn in *; try done;
      by rewrite Eo in *.
  - destruct (loop msgs _) as [r log1] eqn:E. intros [= -> <-]. apply IH in E as [].
    by split.
  - intros [= <- <-]. split; cbn; rewrite ?app_nil_r, ?orb_false_r, ?orb_true_r; try done.
    by destruct (cs_exit_observed st).
  - destruct (loop msgs _) as [r log1] eqn:E. intros [= -> <-]. apply IH in E as [].
    by split.
Qed.

Lemma command_loop_returns msgs st :
  existsb is_failure (before_close msgs) = false →
  bytes_len (cs_stdout st ++ stdout_of (before_close msgs)) ≤ limit_stdout (limits command) →
  bytes_len (cs_stderr st ++ stderr_of (before_close msgs)) ≤ limit_stderr (limits command) →
  ∃ st' log, loop msgs st = (Ok st', log).
Proof.
  assert (Hpre : ∀ a b c : list byte, ∀ n, bytes_len (a ++ b ++ c) ≤ n → bytes_len (a ++ b) ≤ n).
  { intros a b c n. unfold bytes_len. rewrite !length_app. lia. }
  revert st. induction msgs as [|m msgs IH]; intros st Hf Ho He; [by eexists _, _|].
  cbn [command_loop].
  assert (Hgo : ∀ st1 log1, (∃ st' log, loop msgs st1 = (Ok st', log)) →
    ∃ st' log, (let '(r, log') := loop msgs st1 in (r, log1 ++ log')) = (Ok st', log)).
  { intros st1 log1 (st' & log & ->). by eexists _, _. }
  destruct m as [| |d|d|status|sg core| | |]; cbn [on_message before_close] in *;
    cbn [existsb is_failure orb] in Hf; try discriminate Hf.
  - rewrite on_success_ok. by apply Hgo, IH.
  - unfold on_data. rewrite append_limited_fits by (eapply Hpre; exact Ho).
    apply Hgo, IH; cbn; [done| |done]. by rewrite <-app_assoc.
  - unfold on_data. rewrite append_limited_fits by (eapply Hpre; exact He).
    apply Hgo, IH; cbn; [done|done|]. by rewrite <-app_assoc.
  - apply Hgo, IH; [done|..]; unfold set_exit; by destruct (cs_exit_observed st).
  - apply Hgo, IH; [done|..]; unfold set_exit; by destruct (cs_exit_observed st).
  - by apply Hgo, IH.
  - by eexists _, _.
  - by apply Hgo, IH.
Qed.

Definition output_of (msgs : list CommandMsg) : CommandOutput :=
  {| co_exit := exit_of (before_close msgs); co_stdout := stdout_of (before_close msgs);
     co_stderr := stderr_of (before_close msgs) |}.

Abbreviation run := (Session_command russh_text (Ok ()) (Ok ()) command true (Some (Ok ()))).

Lemma session_command_ok (msgs : list CommandMsg) (is_closed : bool) :
  let seen := before_close msgs in
  existsb is_success seen = true → existsb is_failure seen = false →
  bytes_len (stdout_of seen) ≤ limit_stdout (limits command) →
  bytes_len (stderr_of seen) ≤ limit_stderr (limits command) →
  existsb is_close msgs || negb is_closed = true →
  run (Ok ()) msgs is_closed = (Ok (output_of msgs), stdin_actions command ++ [SendClose]).
Proof.
  cbv zeta. intros Hs Hf Ho He Hc. unfold Session_command. cbn [negb].
  destruct (command_loop_returns msgs CommandState_new Hf Ho He) as (st & log & E).
  rewrite E. apply command_loop_result in E as [H1 H2 H3 H4 H5 H6 _ _ _]. cbn in *.
  rewrite H5, H4, Hs. cbn [negb].
  replace (negb (existsb is_close msgs) && is_closed) with false
    by by destruct (existsb is_close msgs), is_closed.
  rewrite H6, Hs. cbn. unfold output_of. rewrite H1, H2, H3. do 3 f_equal.
  by destruct (exit_of _).
Qed.

Lemma command_whole (msgs : list CommandMsg) (is_closed : bool) :
  seen_whole msgs →
  bytes_len (co_stdout (output_of msgs)) ≤ limit_stdout (limits command) →
  bytes_len (co_stderr (output_of msgs)) ≤ limit_stderr (limits command) →
  run (Ok ()) msgs is_closed = (Ok (output_of msgs), stdin_actions command ++ [SendClose]) ∧
  snd (loop msgs CommandState_new) = stdin_actions command.
Proof.
  intros (Hs & Hf & Hc) Ho He. split; [apply session_command_ok; by rewrite ?Hc|].
  destruct (command_loop_returns msgs CommandState_new Hf Ho He) as (st & log & E).
  rewrite E. apply command_loop_result in E as [_ _ _ _ _ H6 _ _ _]. by rewrite H6, Hs.
Qed.

(** A command whose exec request is confirmed, whose output stays within the
    limits and whose channel is closed in order (or the connection is still up)
    returns exactly the bytes received on each stream, in order, with the first
    exit reported; standard input and end of file are sent once, however often
    the server confirms. *)
Theorem command_collects (msgs : list CommandMsg) (is_closed : bool) :
  let seen := before_close msgs in
  existsb is_success seen = true → existsb is_failure seen = false →
  bytes_len (stdout_of seen) ≤ limit_stdout (limits command) →
  bytes_len (stderr_of seen) ≤ limit_stderr (limits command) →
  existsb is_close msgs || negb is_closed = true →
  run (Ok ()) msgs is_closed = (Ok (output_of msgs), stdin_actions command ++ [SendClose]).
Proof. apply session_command_ok. Qed.

(** C38.  Whenever a command returns output at all, the server had confirmed it and the
    channel was not cut off: the server closed it, or the connection is still up.  The
    output is then every byte received before the close, on each stream and in order, with
    the first exit reported; it is within the limits; and the standard input, then the end
    of file, was sent once, followed by the close. *)
Theorem command_output_complete (exec : result RusshError unit) (msgs : list CommandMsg)
    (is_closed : bool) (out : CommandOutput) (log : list CommandAction) :
  0 ≤ limit_stdout (limits command) < USIZE_MAX →
  0 ≤ limit_stderr (limits command) < USIZE_MAX →
  run exec msgs is_closed = (Ok out, log) →
  (existsb is_close msgs = true ∨ is_closed = false) ∧
  existsb is_success (before_close msgs) = true ∧ existsb is_failure (before_close msgs) = false ∧
  out = output_of msgs ∧
  bytes_len (co_stdout out) ≤ limit_stdout (limits command) ∧
  bytes_len (co_stderr out) ≤ limit_stderr (limits command) ∧
  log = stdin_actions command ++ [SendClose].
Proof.
  intros Hlo Hle. unfold Session_command. cbn [negb]. destruct exec; [|done].
  destruct (loop msgs CommandState_new) as [[st|] log1] eqn:E; [|done].
  apply command_loop_result in E as [H1 H2 H3 H4 H5 H6 H7 H8 H9].
  assert (H0 : Z.min USIZE_MAX (bytes_len []) = 0) by done.
  cbn [CommandState_new cs_stdout cs_stderr cs_exit cs_exit_observed cs_exec_confirmed
       cs_channel_closed cs_stdin_sent app orb] in *.
  rewrite H0 in H8, H9. rewrite H4, H5, H6.
  destruct (negb (existsb is_close msgs) && is_closed) eqn:Ec; [done|].
  destruct (existsb is_success (before_close msgs)) eqn:Es; [|done].
  intros [= <- <-]. cbn [co_stdout co_stderr].
  specialize (H8 ltac:(lia)). specialize (H9 ltac:(lia)). split_and!; [|done|done| |lia|lia|done].
  - destruct (existsb is_close msgs), is_closed; auto.
  - unfold output_of. rewrite H1, H2, H3. f_equal. by destruct (exit_of _).
Qed.
End Spec.

(** ** Concrete runs *)

Section Runs.
Definition run_command : RemoteCommand := stdout_limit (with_stdin (RemoteCommand_new "cat") (as_bytes "in")) 4.
Definition run_messages : list CommandMsg :=
  [CSuccess; CData (as_bytes "ab"); CSuccess; CExtendedData (as_bytes "e"); CExitStatus 3;
   CData (as_bytes "cd"); CExitStatus 0; CEof; CClose; CData (as_bytes "late")].

Lemma command_collects_witness :
  Session_command (λ _, "") (Ok ()) (Ok ()) run_command true (Some (Ok ())) (Ok ())
    run_messages true
  = (Ok {| co_exit := Status 3; co_stdout := as_bytes "abcd"; co_stderr := as_bytes "e" |},
     [SendData (as_bytes "in"); SendEof; SendClose]).
Proof.
  apply (command_collects (λ _, "") run_command run_messages true); by vm_compute.
Defined.

Lemma command_output_complete_witness :
  output_of run_messages
  = {| co_exit := Status 3; co_stdout := as_bytes "abcd"; co_stderr := as_bytes "e" |} ∧
  bytes_len (as_bytes "abcd") ≤ 4 ∧ existsb is_close run_messages = true.
Proof.
  destruct (command_output_complete (λ _, "") run_command (Ok ()) run_messages true
    {| co_exit := Status 3; co_stdout := as_bytes "abcd"; co_stderr := as_bytes "e" |}
    [SendData (as_bytes "in"); SendEof; SendClose]) as ([Hc|[=]] & _ & _ & E & H & _); [by vm_compute..|].
  split_and!; [done|exact H|exact Hc].
Defined.
End Runs.
