(* ===== verification/ClientAuth.v ===== *)
(** * Client: authentication ([russh-extra/src/client.rs])

    [authenticate_configured] and what it calls.  The connection's handle and the
    key functions are [russh]'s: they are parameters, the handle's operations as
    functions on the connection's state [W], each with the outcome of the timeout
    around it. *)
From S2P Require Import Prelude RustStr RustWords RustPath Channel CoreError Endpoint.
From S2P Require Import Config KnownHosts KnownHostsSpec ClientErrors.

Inductive AuthResult := AuthSuccess | AuthFailure (partial_success : bool).

(** [time::timeout(d, op).await]: [None] when the time is up. *)
Definition timed (A : Type) : Type := option (result RusshError A).

Inductive KeyboardInteractiveAuthResponse :=
| KiSuccess
| KiFailure (partial_success : bool)
| KiInfoRequest (name instructions : string) (prompts : list (string * bool)).

Section Auth.
Context (russh_text : RusshError → string).
Context {W PrivKey Cert PubKey : Type}.

(** The handle. *)
Context (authenticate_password : string → string → W → timed AuthResult * W)
        (authenticate_none : string → W → timed AuthResult * W)
        (authenticate_publickey : string → PrivKey → W → timed AuthResult * W)
        (authenticate_publickey_with :
           string → PubKey → W → option (result string AuthResult) * W)
        (authenticate_openssh_cert : string → PrivKey → Cert → W → timed AuthResult * W)
        (ki_start : string → W → result RusshError KeyboardInteractiveAuthResponse * W)
        (ki_respond :
           list string → W → result RusshError KeyboardInteractiveAuthResponse * W).

(** Keys, and the agent reached through [SSH_AUTH_SOCK]. *)
Context (load_secret_key : string → option string → result string PrivKey)
        (from_openssh : list byte → result string PrivKey)
        (is_encrypted : PrivKey → bool)
        (decrypt : PrivKey → string → result string PrivKey)
        (ssh_auth_sock : option string)
        (connect_agent : string → result string unit)
        (request_identities : result string (list PubKey)).

Record CertificateCredential := {
  cert_key : PrivKey;
  cert_cert : Cert;
  cert_passphrase : option Password;
}.

Definition auth_unavailable (message : string) (source : string) : Error :=
  Error_authentication_with_source AuthUnavailable message source.

(** [.await.map_err(|_| timeout)?.map_err(map_auth_error)]. *)
Definition awaited {A} (message : string) (r : timed A) : Result A :=
  match r with
  | None => Err (Error_timeout OpAuthentication message)
  | Some r => map_err (map_auth_error russh_text) r
  end.

Definition authenticate_with_key (username : string) (key : PrivKey) (w : W) :
    Result AuthResult * W :=
  let '(r, w) := authenticate_publickey username key w in
  (awaited "public key authentication timed out" r, w).

Fixpoint agent_loop (username : string) (identities : list PubKey)
    (last_result : option AuthResult) (w : W) : Result AuthResult * W :=
  match identities with
  | [] => (Ok (default (AuthFailure false) last_result), w)
  | k :: identities' =>
      match authenticate_publickey_with username k w with
      | (None, w) => (Err (Error_timeout OpAuthentication "agent authentication timed out"), w)
      | (Some (Err source), w) => (Err (auth_unavailable "agent authentication failed" source), w)
      | (Some (Ok AuthSuccess), w) => (Ok AuthSuccess, w)
      | (Some (Ok r), w) => agent_loop username identities' (Some r) w
      end
  end.

Definition try_agent_auth (username : string) (w : W) : Result AuthResult * W :=
  match ssh_auth_sock with
  | None =>
      (Err (Error_authentication_kind AuthUnavailable
              "SSH_AUTH_SOCK environment variable is not set"), w)
  | Some socket_path =>
      match connect_agent socket_path with
      | Err source =>
          (Err (auth_unavailable
                  ("failed to connect to SSH agent at `" +:+ socket_path +:+ "`") source), w)
      | Ok _ =>
          match request_identities with
          | Err source => (Err (auth_unavailable "failed to list SSH agent identities" source), w)
          | Ok [] =>
              (Err (Error_authentication_kind AuthUnavailable "SSH agent returned no identities"),
               w)
          | Ok identities => agent_loop username identities None w
          end
      end
  end.

(** Decrypt an encrypted key when a passphrase is at hand. *)
Definition unlock (key : PrivKey) (passphrase : option Password) (message : string) :
    Result PrivKey :=
  match passphrase with
  | Some p =>
      if is_encrypted key then map_err (auth_unavailable message) (decrypt key (expose_secret p))
      else Ok key
  | None => Ok key
  end.

Definition try_publickey_auth (username : string) (identity : Identity) (w : W) :
    Result AuthResult * W :=
  match identity with
  | KeyFile path passphrase =>
      match load_secret_key path (expose_secret <$> passphrase) with
      | Err source =>
          (Err (auth_unavailable ("failed to load private key from `" +:+ path +:+ "`") source), w)
      | Ok key => authenticate_with_key username key w
      end
  | PrivateKey data passphrase =>
      match from_openssh data with
      | Err source => (Err (auth_unavailable "failed to parse in-memory private key" source), w)
      | Ok key =>
          match unlock key passphrase "failed to decrypt in-memory private key" with
          | Err e => (Err e, w)
          | Ok key => authenticate_with_key username key w
          end
      end
  | Agent => try_agent_auth username w
  end.

(** The challenge loop; [rounds] is how many exchanges fit in the timeout around
    the whole call, [None] the time being up. *)
Fixpoint ki_loop (rounds : nat) (handler : KeyboardInteractiveHandler)
    (resp : result RusshError KeyboardInteractiveAuthResponse) (w : W) :
    option (Result unit) * W :=
  match resp with
  | Err e => (Some (Err (map_auth_error russh_text e)), w)
  | Ok KiSuccess => (Some (Ok ()), w)
  | Ok (KiFailure _) =>
      (Some (Err (Error_authentication_kind AuthRejected
                    "keyboard-interactive authentication rejected")), w)
  | Ok (KiInfoRequest name instructions prompts) =>
      match rounds with
      | O => (None, w)
      | S rounds =>
          let info := {| ki_name := name; ki_instructions := instructions;
                         ki_prompts := map (λ '(p, e), {| prompt := p; echo := e |}) prompts |} in
          match handler info with
          | Responses answers =>
              let '(resp, w) := ki_respond answers w in ki_loop rounds handler resp w
          | AbortAuth =>
              (Some (Err (Error_authentication_kind AuthRejected
                            "keyboard-interactive authentication aborted by handler")), w)
          end
      end
  end.

Definition run_keyboard_interactive (rounds : nat) (username : string)
    (handler : KeyboardInteractiveHandler) (w : W) : option (Result unit) * W :=
  let '(resp, w) := ki_start username w in ki_loop rounds handler resp w.

(** The errors after which the next credential is tried. *)
Definition recoverable (error : Error) : bool :=
  Error_is_timeout error ||
  match error with
  | EAuthentication e => match err_kind e with AuthRejected => true | _ => false end
  | _ => false
  end.

(** One credential's turn: it ends the authentication, or the loop goes on,
    noting a partial success. *)
Inductive attempt :=
| Finished (r : Result unit)
| NextCredential (partial : bool).

Definition of_auth_result (r : AuthResult) : attempt :=
  match r with
  | AuthSuccess => Finished (Ok ())
  | AuthFailure partial => NextCredential partial
  end.

Definition try_credential (rounds : nat) (username : string) (credential : Credential) (w : W) :
    attempt * W :=
  match credential with
  | CredPassword password =>
      let '(r, w) := authenticate_password username (expose_secret password) w in
      match awaited "password authentication timed out" r with
      | Err e => (Finished (Err e), w)
      | Ok r => (of_auth_result r, w)
      end
  | CredNone =>
      let '(r, w) := authenticate_none username w in
      match awaited "none authentication timed out" r with
      | Err e => (Finished (Err e), w)
      | Ok r => (of_auth_result r, w)
      end
  | CredIdentity identity =>
      let '(r, w) := try_publickey_auth username identity w in
      match r with
      | Ok r => (of_auth_result r, w)
      | Err error => (if recoverable error then NextCredential false else Finished (Err error), w)
      end
  | CredKeyboardInteractive handler =>
      let '(r, w) := run_keyboard_interactive rounds username handler w in
      match r with
      | Some (Ok _) => (Finished (Ok ()), w)
      | Some (Err error) =>
          (if recoverable error then NextCredential false else Finished (Err error), w)
      | None =>
          (Finished (Err (Error_timeout OpAuthentication
                            "keyboard-interactive authentication timed out")), w)
      end
  end.

Definition try_certificate (username : string) (c : CertificateCredential) (w : W) :
    attempt * W :=
  match unlock (cert_key c) (cert_passphrase c) "failed to decrypt certificate private key" with
  | Err e => (Finished (Err e), w)
  | Ok key =>
      let '(r, w) := authenticate_openssh_cert username key (cert_cert c) w in
      match awaited "certificate authentication timed out" r with
      | Err e => (Finished (Err e), w)
      | Ok r => (of_auth_result r, w)
      end
  end.

(** [for x in xs { .. }] with [saw_partial]: [inl] when the loop returned. *)
Fixpoint attempts {X} (turn : X → W → attempt * W) (xs : list X) (saw_partial : bool) (w : W) :
    (Result unit + bool) * W :=
  match xs with
  | [] => (inr saw_partial, w)
  | x :: xs' =>
      match turn x w with
      | (Finished r, w) => (inl r, w)
      | (NextCredential partial, w) => attempts turn xs' (saw_partial || partial) w
      end
  end.

Definition no_credential_left (saw_partial : bool) : Error :=
  if saw_partial then
    Error_authentication_kind AuthPartial
      "authentication partially succeeded but no configured credential completed it"
  else
    Error_authentication_kind AuthExhausted "all configured credentials were rejected".

(** The two loops and the verdict after them. *)
Definition try_all (rounds : nat) (username : string) (credentials : list Credential)
    (cert_credentials : list CertificateCredential) (w : W) : Result unit * W :=
  match attempts (try_credential rounds username) credentials false w with
  | (inl r, w) => (r, w)
  | (inr saw_partial, w) =>
      match attempts (try_certificate username) cert_credentials saw_partial w with
      | (inl r, w) => (r, w)
      | (inr saw_partial, w) => (Err (no_credential_left saw_partial), w)
      end
  end.

Definition authenticate_configured (rounds : nat) (config : ClientConfig)
    (cert_credentials : list CertificateCredential) (w : W) : Result unit * W :=
  match cc_username config with
  | None =>
      (Err (Error_authentication_kind AuthUnavailable
              "username is required for client authentication"), w)
  | Some u =>
      match cc_credentials config, cert_credentials with
      | [], [] =>
          (Err (Error_authentication_kind AuthUnavailable
                  "at least one credential is required for client authentication"), w)
      | credentials, _ => try_all rounds (username_text u) credentials cert_credentials w
      end
  end.

(** ** What authentication leaves alone *)

(** A property of the connection that every operation of the handle keeps is kept by the
    whole of it, whatever comes of it. *)
Section Kept.
Context (kept : W → Prop).

Definition keeps_it {A} (op : W → A * W) : Prop := ∀ w r w', op w = (r, w') → kept w → kept w'.

Context
  (Kpassword : ∀ u p, keeps_it (authenticate_password u p))
  (Knone : ∀ u, keeps_it (authenticate_none u))
  (Kpublickey : ∀ u k, keeps_it (authenticate_publickey u k))
  (Kagent : ∀ u k, keeps_it (authenticate_publickey_with u k))
  (Kcert : ∀ u k c, keeps_it (authenticate_openssh_cert u k c))
  (Kstart : ∀ u, keeps_it (ki_start u))
  (Krespond : ∀ a, keeps_it (ki_respond a)).

Lemma with_key_kept u k : keeps_it (authenticate_with_key u k).
Proof.
  intros w r w'. unfold authenticate_with_key.
  destruct (authenticate_publickey u k w) as [r1 w1] eqn:E. intros [= _ <-]. by eapply Kpublickey.
Qed.

Lemma agent_loop_kept u ks last : keeps_it (agent_loop u ks last).
Proof.
  revert last. induction ks as [|k ks IH]; intros last w r w'; cbn [agent_loop].
  { by intros [= _ <-]. }
  destruct (authenticate_publickey_with u k w) as [r1 w1] eqn:E. intros Hr Hw.
  apply Kagent in E; specialize (E Hw). destruct r1 as [[[]|]|]; try (by injection Hr as _ <-).
  by eapply IH.
Qed.

Lemma publickey_kept u i : keeps_it (try_publickey_auth u i).
Proof.
  intros w r w'. destruct i as [|path p|data p]; cbn [try_publickey_auth].
  - unfold try_agent_auth. destruct ssh_auth_sock; [|by intros [= _ <-]].
    destruct (connect_agent _); [|by intros [= _ <-]].
    destruct request_identities as [[|k ks]|]; [by intros [= _ <-]| |by intros [= _ <-]].
    apply agent_loop_kept.
  - destruct (load_secret_key _ _); [apply with_key_kept|by intros [= _ <-]].
  - destruct (from_openssh _) as [key|]; [|by intros [= _ <-]].
    destruct (unlock key _ _); [apply with_key_kept|by intros [= _ <-]].
Qed.

Lemma ki_loop_kept rounds handler resp : keeps_it (ki_loop rounds handler resp).
Proof.
  revert resp. induction rounds as [|n IH]; intros [[| |name ins ps]|] w r w'; cbn [ki_loop];
    try (by intros [= _ <-]).
  destruct (handler _) as [answers|]; [|by intros [= _ <-]].
  destruct (ki_respond answers w) as [resp w1] eqn:E. intros Hr Hw.
  eapply IH; [exact Hr|]. by eapply Krespond.
Qed.

Lemma credential_kept rounds u c : keeps_it (try_credential rounds u c).
Proof.
  intros w r w' Hr Hw. destruct c as [p|i| |handler]; cbn [try_credential] in Hr.
  - destruct (authenticate_password _ _ w) as [r1 w1] eqn:E. apply Kpassword in E; specialize (E Hw).
    destruct (awaited _ r1); by injection Hr as _ <-.
  - destruct (try_publickey_auth u i w) as [r1 w1] eqn:E. apply publickey_kept in E; specialize (E Hw).
    destruct r1; by injection Hr as _ <-.
  - destruct (authenticate_none _ w) as [r1 w1] eqn:E. apply Knone in E; specialize (E Hw).
    destruct (awaited _ r1); by injection Hr as _ <-.
  - unfold run_keyboard_interactive in Hr. destruct (ki_start u w) as [resp w1] eqn:E1.
    destruct (ki_loop rounds handler resp w1) as [r1 w2] eqn:E2.
    specialize (ki_loop_kept _ _ _ _ _ _ E2 (Kstart _ _ _ _ E1 Hw)) as Hw2.
    destruct r1 as [[]|]; by injection Hr as _ <-.
Qed.

Lemma certificate_kept u c : keeps_it (try_certificate u c).
Proof.
  intros w r w'. unfold try_certificate. destruct (unlock _ _ _); [|by intros [= _ <-]].
  destruct (authenticate_openssh_cert _ _ _ w) as [r1 w1] eqn:E. intros Hr Hw.
  apply Kcert in E; specialize (E Hw). destruct (awaited _ r1); by injection Hr as _ <-.
Qed.

Lemma attempts_kept {X} (turn : X → W → attempt * W) xs p :
  (∀ x, keeps_it (turn x)) → keeps_it (attempts turn xs p).
Proof.
  intros Ht. revert p. induction xs as [|x xs IH]; intros p w r w'; cbn [attempts].
  { by intros [= _ <-]. }
  destruct (turn x w) as [[r1|q] w1] eqn:E; intros Hr Hw; apply Ht in E; specialize (E Hw).
  - by injection Hr as _ <-.
  - by eapply IH.
Qed.

Lemma authenticate_configured_kept rounds config certs :
  keeps_it (authenticate_configured rounds config certs).
Proof.
  assert (Hall : ∀ u cs, keeps_it (try_all rounds u cs certs)).
  { intros u cs w r w'. unfold try_all.
    destruct (attempts (try_credential rounds u) cs false w) as [r1 w1] eqn:E1.
    intros Hr Hw. apply (attempts_kept _ _ _ (credential_kept rounds u)) in E1; specialize (E1 Hw).
    destruct r1 as [r1|p]; [by injection Hr as _ <-|].
    destruct (attempts (try_certificate u) certs p w1) as [r2 w2] eqn:E2.
    apply (attempts_kept _ _ _ (certificate_kept u)) in E2; specialize (E2 E1).
    destruct r2; by injection Hr as _ <-. }
  intros w r w'. unfold authenticate_configured.
  destruct (cc_username config) as [u|]; [|by intros [= _ <-]].
  destruct (cc_credentials config), certs; [by intros [= _ <-]|apply Hall..].
Qed.
End Kept.

(** ** Success means the server accepted *)

(** [accepted w]: in state [w] the server has accepted the user.  The handle's
    operations report success only then. *)
Context (accepted : W → Prop).

Definition honest {A} (ok : A → bool) (op : W → timed A * W) : Prop :=
  ∀ w a w', op w = (Some (Ok a), w') → ok a = true → accepted w'.

Definition is_auth_success (r : AuthResult) : bool :=
  match r with AuthSuccess => true | _ => false end.

Lemma awaited_ok {A} message (r : timed A) a : awaited message r = Ok a → r = Some (Ok a).
Proof. destruct r as [[x|e]|]; cbn; [by intros [= <-]|done|done]. Qed.

Lemma of_auth_result_ok r : of_auth_result r = Finished (Ok ()) → r = AuthSuccess.
Proof. by destruct r. Qed.

(** The key an identity proves itself with. *)
Definition identity_key (i : Identity) : option PrivKey :=
  match i with
  | KeyFile path passphrase =>
      match load_secret_key path (expose_secret <$> passphrase) with
      | Ok key => Some key
      | Err _ => None
      end
  | PrivateKey data passphrase =>
      match from_openssh data with
      | Ok key =>
          match unlock key passphrase "failed to decrypt in-memory private key" with
          | Ok key => Some key
          | Err _ => None
          end
      | Err _ => None
      end
  | Agent => None
  end.

Definition certificate_key (c : CertificateCredential) : option PrivKey :=
  match unlock (cert_key c) (cert_passphrase c) "failed to decrypt certificate private key" with
  | Ok key => Some key
  | Err _ => None
  end.

(** The answers a handler may give. *)
Definition may_answer (h : KeyboardInteractiveHandler) (answers : list string) : Prop :=
  ∃ info, h info = Responses answers.

(** A reply in a challenge: success only when the server accepted, another question only
    while the challenge [asked] goes on. *)
Definition challenge_reply (asked : W → Prop)
    (r : result RusshError KeyboardInteractiveAuthResponse) (w : W) : Prop :=
  match r with
  | Ok KiSuccess => accepted w
  | Ok (KiInfoRequest _ _ _) => asked w
  | _ => True
  end.

(** Only what is configured for user [u] is presented, so only the replies to it matter. *)
Section Configured.
Context (u : string) (credentials : list Credential) (certs : list CertificateCredential).
Context (asked : W → Prop).
Context
  (Hpassword : ∀ p, CredPassword p ∈ credentials →
     honest is_auth_success (authenticate_password u (expose_secret p)))
  (Hnone : CredNone ∈ credentials → honest is_auth_success (authenticate_none u))
  (Hpublickey : ∀ i k, CredIdentity i ∈ credentials → identity_key i = Some k →
     honest is_auth_success (authenticate_publickey u k))
  (Hagent : ∀ k ks w w', CredIdentity Agent ∈ credentials → request_identities = Ok ks → k ∈ ks →
     authenticate_publickey_with u k w = (Some (Ok AuthSuccess), w') → accepted w')
  (Hcert : ∀ c k, c ∈ certs → certificate_key c = Some k →
     honest is_auth_success (authenticate_openssh_cert u k (cert_cert c)))
  (Hstart : ∀ h w r w', CredKeyboardInteractive h ∈ credentials → ki_start u w = (r, w') →
     challenge_reply asked r w')
  (Hrespond : ∀ h a w r w', CredKeyboardInteractive h ∈ credentials → may_answer h a → asked w →
     ki_respond a w = (r, w') → challenge_reply asked r w').

Lemma agent_loop_accepted ks last w w' :
  (∀ k w w', k ∈ ks → authenticate_publickey_with u k w = (Some (Ok AuthSuccess), w') →
     accepted w') →
  last ≠ Some AuthSuccess → agent_loop u ks last w = (Ok AuthSuccess, w') → accepted w'.
Proof.
  revert last w. induction ks as [|k ks IH]; intros last w Hk Hl; cbn [agent_loop].
  { destruct last as [[]|]; cbn; intros [=]; done. }
  destruct (authenticate_publickey_with u k w) as [[[[]|]|] w1] eqn:E; try done.
  - intros [= <-]. by eapply (Hk k); [left|].
  - apply IH; [|done]. intros k' ? ? Hin. apply Hk. by right.
Qed.

Lemma with_key_accepted k w w' :
  honest is_auth_success (authenticate_publickey u k) →
  authenticate_with_key u k w = (Ok AuthSuccess, w') → accepted w'.
Proof.
  intros Hk. unfold authenticate_with_key.
  destruct (authenticate_publickey u k w) as [r w2] eqn:E. intros [= Hr <-].
  apply awaited_ok in Hr as ->. by eapply Hk.
Qed.

Lemma publickey_accepted i w w' :
  CredIdentity i ∈ credentials →
  try_publickey_auth u i w = (Ok AuthSuccess, w') → accepted w'.
Proof.
  intros Hi. pose proof (λ k, Hpublickey i k Hi) as Hk.
  destruct i as [|path p|data p]; cbn [try_publickey_auth identity_key] in *.
  - unfold try_agent_auth. destruct ssh_auth_sock; [|done]. destruct (connect_agent _); [|done].
    destruct request_identities as [[|k ks]|]; [done| |done]. apply agent_loop_accepted; [|done].
    intros k' ? ? Hin. by eapply Hagent.
  - destruct (load_secret_key _ _) as [k|]; [|done]. by apply with_key_accepted, Hk.
  - destruct (from_openssh _) as [key|]; [|done]. destruct (unlock key _ _) as [k|]; [|done].
    by apply with_key_accepted, Hk.
Qed.

Lemma ki_loop_accepted rounds handler resp w w' :
  CredKeyboardInteractive handler ∈ credentials →
  challenge_reply asked resp w →
  ki_loop rounds handler resp w = (Some (Ok ()), w') → accepted w'.
Proof.
  intros Hh. revert resp w. induction rounds as [|n IH]; intros resp w Hr;
    destruct resp as [[| |name ins ps]|]; cbn [ki_loop]; try done;
    try (intros [= <-]; by apply Hr).
  destruct (handler _) as [answers|] eqn:Ea; [|done].
  destruct (ki_respond answers w) as [resp w1] eqn:E. apply IH.
  eapply Hrespond; [exact Hh|by eexists|exact Hr|exact E].
Qed.

Lemma credential_accepted rounds c w w' :
  c ∈ credentials → try_credential rounds u c w = (Finished (Ok ()), w') → accepted w'.
Proof.
  intros Hc. destruct c as [p|i| |handler]; cbn [try_credential].
  - destruct (authenticate_password _ _ w) as [r w1] eqn:E.
    destruct (awaited _ r) as [a|] eqn:Ea; [|done]. apply awaited_ok in Ea as ->.
    intros [= Hr%of_auth_result_ok <-]. subst a. by eapply Hpassword.
  - destruct (try_publickey_auth u i w) as [[a|e] w1] eqn:E.
    + intros [= Hr%of_auth_result_ok <-]. subst a. by eapply publickey_accepted.
    + by destruct (recoverable e).
  - destruct (authenticate_none _ w) as [r w1] eqn:E.
    destruct (awaited _ r) as [a|] eqn:Ea; [|done]. apply awaited_ok in Ea as ->.
    intros [= Hr%of_auth_result_ok <-]. subst a. by eapply Hnone.
  - unfold run_keyboard_interactive. destruct (ki_start u w) as [resp w1] eqn:E.
    destruct (ki_loop rounds handler resp w1) as [[[[]|e]|] w2] eqn:El; try done.
    + intros [= <-]. eapply ki_loop_accepted; [exact Hc| |exact El]. by eapply Hstart.
    + by destruct (recoverable e).
Qed.

Lemma certificate_accepted c w w' :
  c ∈ certs → try_certificate u c w = (Finished (Ok ()), w') → accepted w'.
Proof.
  intros Hc. pose proof (λ k, Hcert c k Hc) as Hk. unfold try_certificate.
  unfold certificate_key in Hk. destruct (unlock _ _ _) as [key|]; [|done].
  destruct (authenticate_openssh_cert _ _ _ w) as [r w1] eqn:E.
  destruct (awaited _ r) as [a|] eqn:Ea; [|done]. apply awaited_ok in Ea as ->.
  intros [= Hr%of_auth_result_ok <-]. subst a. by eapply (Hk key).
Qed.

Lemma attempts_accepted {X} (turn : X → W → attempt * W) xs p w w' :
  (∀ x w w', x ∈ xs → turn x w = (Finished (Ok ()), w') → accepted w') →
  attempts turn xs p w = (inl (Ok ()), w') → accepted w'.
Proof.
  intros Ht. revert p w. induction xs as [|x xs IH]; intros p w; cbn [attempts]; [done|].
  destruct (turn x w) as [[r|q] w1] eqn:E.
  - intros [= -> <-]. by eapply Ht; [left|].
  - apply IH. intros ? ? ? Hin. apply Ht. by right.
Qed.

Lemma try_all_accepted rounds w w' :
  try_all rounds u credentials certs w = (Ok (), w') → accepted w'.
Proof.
  unfold try_all. destruct (attempts (try_credential _ _) _ _ w) as [[r|p] w1] eqn:E1.
  - intros [= -> <-]. eapply attempts_accepted; [|exact E1].
    intros x ? ? Hx. by apply credential_accepted.
  - destruct (attempts (try_certificate _) certs p w1) as [[r|q] w2] eqn:E2; [|done].
    intros [= -> <-]. eapply attempts_accepted; [|exact E2].
    intros x ? ? Hx. by apply certificate_accepted.
Qed.

Lemma configured_accepted rounds config w w' :
  cc_credentials config = credentials → (∀ v, cc_username config = Some v → username_text v = u) →
  authenticate_configured rounds config certs w = (Ok (), w') → accepted w'.
Proof.
  intros Hc Hu. unfold authenticate_configured. destruct (cc_username config) as [v|]; [|done].
  rewrite (Hu v eq_refl), Hc. pose proof (try_all_accepted rounds w w') as Ht.
  destruct credentials, certs; [done|exact Ht..].
Qed.
End Configured.

Context
  (Hpassword : ∀ u p, honest is_auth_success (authenticate_password u p))
  (Hnone : ∀ u, honest is_auth_success (authenticate_none u))
  (Hpublickey : ∀ u k, honest is_auth_success (authenticate_publickey u k))
  (Hcert : ∀ u k c, honest is_auth_success (authenticate_openssh_cert u k c))
  (Hagent : ∀ u k w w', authenticate_publickey_with u k w = (Some (Ok AuthSuccess), w') →
              accepted w')
  (Hstart : ∀ u w w', ki_start u w = (Ok KiSuccess, w') → accepted w')
  (Hrespond : ∀ a w w', ki_respond a w = (Ok KiSuccess, w') → accepted w').

Lemma authenticate_configured_accepted (rounds : nat) (config : ClientConfig)
    (certs : list CertificateCredential) (w w' : W) :
  authenticate_configured rounds config certs w = (Ok (), w') → accepted w'.
Proof.
  apply (configured_accepted (from_option username_text "" (cc_username config))
           (cc_credentials config) certs (λ _, True)); eauto.
  - intros h w0 [[]|] w1 _ E; try done. by eapply Hstart.
  - intros h a w0 [[]|] w1 _ _ _ E; try done. by eapply Hrespond.
  - by intros v ->.
Qed.

(** The client reports itself authenticated only if the server accepted it,
    whatever mix of credentials is configured and however the earlier ones
    failed. *)
Theorem authenticated_only_if_accepted (rounds : nat) (config : ClientConfig)
    (certs : list CertificateCredential) (w w' : W) :
  authenticate_configured rounds config certs w = (Ok (), w') → accepted w'.
Proof. apply authenticate_configured_accepted. Qed.
End Auth.

(** ** A concrete server *)

Section Runs.
(** It knows one password and asks one question; its state is whether it has
    accepted the user. *)
Definition srv_password (_ p : string) (w : bool) : timed AuthResult * bool :=
  if String.eqb p "secret" then (Some (Ok AuthSuccess), true)
  else (Some (Ok (AuthFailure false)), w).
Definition srv_refuse (w : bool) : timed AuthResult * bool := (Some (Ok (AuthFailure false)), w).
Definition srv_start (_ : string) (w : bool) :
    result RusshError KeyboardInteractiveAuthResponse * bool :=
  (Ok (KiInfoRequest "" "" [("code?", false)]), w).
Definition srv_respond (a : list string) (w : bool) :
    result RusshError KeyboardInteractiveAuthResponse * bool :=
  if bool_decide (a = ["42"]) then (Ok KiSuccess, true) else (Ok (KiFailure false), w).

Definition srv_config : ClientConfig :=
  add_credential (add_credential (add_credential
    (set_username (ClientConfig_new (Endpoint_ssh "h")) (Username_new "u"))
    (CredPassword (Password_new "wrong"))) CredNone)
    (CredKeyboardInteractive (λ _, Responses ["42"])).

Lemma authenticated_only_if_accepted_witness :
  ∃ w', authenticate_configured (λ _, "") srv_password (λ _, srv_refuse) (λ _ (_ : unit), srv_refuse)
      (λ _ (_ : unit) w, (Some (Ok (AuthFailure false)), w)) (λ _ _ (_ : unit), srv_refuse)
      srv_start srv_respond (λ _ _, Err "") (λ _, Err "") (λ _, false) (λ _ _, Err "") None
      (λ _, Err "") (Err "") 1 srv_config [] false = (Ok (), w') ∧ w' = true.
Proof.
  eexists. split; [reflexivity|].
  eapply (authenticated_only_if_accepted (λ _, "") srv_password (λ _, srv_refuse)
    (λ _ (_ : unit), srv_refuse) (λ _ (_ : unit) w, (Some (Ok (AuthFailure false)), w))
    (λ _ _ (_ : unit), srv_refuse) srv_start srv_respond (λ _ _, Err "") (λ _, Err "")
    (λ _, false) (λ _ _, Err "") None (λ _, Err "") (Err "") (λ w, w = true))
    with (rounds := 1%nat) (config := srv_config) (certs := []) (w := false);
    [..|reflexivity]; unfold honest.
  - intros u p w a w'. unfold srv_password. destruct (String.eqb p "secret"); by intros [= <- <-].
  - by intros u w a w' [= <- _].
  - by intros u k w a w' [= <- _].
  - by intros u k c w a w' [= <- _].
  - by intros u k w w' [=].
  - by intros u w w' [=].
  - intros a w w'. unfold srv_respond. case_bool_decide; by intros [= <-].
Defined.
End Runs.
