(* ===== verification/Shell.v ===== *)
(** * Shells and subsystems ([russh-extra/src/shell.rs])

    Terminal modes, X11 parameters, the builders, [Shell::open] and
    [Subsystem::open], and the handle they return.  The channel is [russh]'s: its
    state is the messages that will arrive on it, ended by the connection, and
    the requests made on it so far; the outcome of the [n]-th request is given.
    [into_async_io] is in [ShellIo.v]. *)
From S2P Require Import Prelude RustStr RustWords RustPath Channel CoreError Endpoint.
From S2P Require Import Config KnownHosts KnownHostsSpec ClientErrors ClientCommand.

(** ** Terminal modes *)

(** The variants of [russh::Pty] the program names; the others by their opcode. *)
Inductive RusshPty :=
| VINTR | VQUIT | VERASE | VKILL | VEOF | TTY_OP_ISPEED | TTY_OP_OSPEED
| ECHO | ECHOE | ECHOK | ECHONL | ICANON | ISIG | ICRNL | INLCR | IGNCR
| OPOST | ONLCR | OCRNL | ONLRET
| OtherPty (opcode : Z).

Section Modes.
(** [russh::Pty::from_u8]. *)
Context (Pty_from_u8 : Z → option RusshPty).

Definition terminal_mode_to_pty (mode : TerminalMode) : option (RusshPty * Z) :=
  match mode with
  | Interrupt => Some (VINTR, 0)
  | Quit => Some (VQUIT, 0)
  | Erase => Some (VERASE, 0)
  | Kill => Some (VKILL, 0)
  | EndOfFile => Some (VEOF, 0)
  | InputSpeed => Some (TTY_OP_ISPEED, 0)
  | OutputSpeed => Some (TTY_OP_OSPEED, 0)
  | Echo => Some (ECHO, 0)
  | EchoErase => Some (ECHOE, 0)
  | EchoKill => Some (ECHOK, 0)
  | EchoNl => Some (ECHONL, 0)
  | CanonicalInput => Some (ICANON, 0)
  | SigCheck => Some (ISIG, 0)
  | CrToNlInput => Some (ICRNL, 0)
  | NlToCrInput => Some (INLCR, 0)
  | IgnoreCrInput => Some (IGNCR, 0)
  | PostProcessOutput => Some (OPOST, 0)
  | NlToCrNlOutput => Some (ONLCR, 0)
  | CrToNlOutput => Some (OCRNL, 0)
  | NoCrOnNl => Some (ONLRET, 0)
  | Custom opcode => (λ pty, (pty, 0)) <$> Pty_from_u8 opcode
  end.

Definition build_terminal_modes (pty : Pty) : list (RusshPty * Z) :=
  omap (λ '(mode, value), (λ '(pty_opcode, _), (pty_opcode, value)) <$> terminal_mode_to_pty mode)
    (pty_modes pty).
End Modes.

(** ** X11 parameters *)

Record X11Params := {
  x11_single_connection : bool;
  x11_protocol : string;
  x11_cookie : string;
  x11_screen : Z;
}.

Definition hex_digit (z : Z) : ascii :=
  ascii_of_N (Z.to_N (if z <? 10 then 48 + z else 87 + z)).

(** [format!("{b:02x}")] of a byte. *)
Definition lower_hex2 (b : byte) : string :=
  String (hex_digit (b2z b / 16)) (String (hex_digit (b2z b mod 16)) "").

(** [cookie_bytes]: the sixteen bytes the random generator filled in. *)
Definition X11Params_new (cookie_bytes : list byte) (screen : Z) : X11Params :=
  {| x11_single_connection := false; x11_protocol := "MIT-MAGIC-COOKIE-1";
     x11_cookie := fold_left (λ s b, s +:+ lower_hex2 b) cookie_bytes "";
     x11_screen := screen |}.

Definition X11Params_with_cookie (protocol cookie : string) (screen : Z) : X11Params :=
  {| x11_single_connection := false; x11_protocol := protocol; x11_cookie := cookie;
     x11_screen := screen |}.

Definition X11Params_debug `{!StrDebug} (p : X11Params) : string :=
  "X11Params { single_connection: " +:+ bool_debug (x11_single_connection p)
  +:+ ", protocol: " +:+ str_debug (x11_protocol p)
  +:+ ", cookie: " +:+ str_debug "<redacted>"
  +:+ ", screen: " +:+ dec (x11_screen p) +:+ " }".

(** ** The channel *)

(** The requests the program makes on a channel. *)
Inductive ShellAction :=
| RequestPty (want_reply : bool) (term : string) (col_width row_height pix_width pix_height : Z)
    (modes : list (RusshPty * Z))
| SetEnv (want_reply : bool) (name value : string)
| RequestX11 (want_reply single_connection : bool) (protocol cookie : string) (screen : Z)
| AgentForward (want_reply : bool)
| RequestShell (want_reply : bool)
| RequestSubsystem (want_reply : bool) (name : string)
| ChData (data : list byte)
| ChEof
| ChWindowChange (col_width row_height pix_width pix_height : Z)
| ChSignal (sig : Sig)
| ChClose.

Record ChannelState := { inbox : list CommandMsg; requested : list ShellAction }.

(** A fallible computation on the channel. *)
Definition chan (E A : Type) : Type := ChannelState → result E A * ChannelState.

#[export] Instance chan_ret E : MRet (chan E) := λ A a c, (Ok a, c).
#[export] Instance chan_bind E : MBind (chan E) :=
  λ A B f m c, match m c with
               | (Ok a, c') => f a c'
               | (Err e, c') => (Err e, c')
               end.

Definition chan_fail {E A} (e : E) : chan E A := λ c, (Err e, c).
Definition chan_map_err {E F A} (f : E → F) (m : chan E A) : chan F A :=
  λ c, let '(r, c') := m c in (map_err f r, c').

(** [let _ = m.await]. *)
Definition chan_ignore {E F A} (m : chan E A) : chan F unit := λ c, (Ok (), snd (m c)).

(** [channel.wait()]: [None] when the connection has dropped the channel. *)
Definition channel_wait (c : ChannelState) : option CommandMsg * ChannelState :=
  match inbox c with
  | [] => (None, c)
  | m :: ms => (Some m, {| inbox := ms; requested := requested c |})
  end.

Definition wait {E} : chan E (option CommandMsg) :=
  λ c, let '(m, c') := channel_wait c in (Ok m, c').

(** ** Errors *)

Section Errors.
Context (russh_text : RusshError → string).

Definition map_shell_error (error : RusshError) : Error :=
  match error with
  | RequestDenied =>
      Error_channel_with_source ChannelRequest "channel request was denied" (russh_text error)
  | WrongChannel | Inconsistent =>
      Error_channel_with_source ChannelProtocol "channel entered an invalid state"
        (russh_text error)
  | SendError =>
      Error_channel_with_source ChannelWrite "failed to write channel data" (russh_text error)
  | ConnectionTimeout | Elapsed => Error_timeout OpShell "shell operation timed out"
  | Disconnect | HUP =>
      Error_disconnected OpShell "server disconnected during shell operation"
  | IO source => Error_channel_with_source ChannelRead "shell channel I/O failed" source
  | _ => Error_channel_with_source ChannelProtocol "shell operation failed" (russh_text error)
  end.
End Errors.

(** ** The builders *)

(** [Handle] is [russh]'s connection handle. *)
Record Shell (Handle : Type) := {
  sh_session_id : Z;
  sh_handle : option Handle;
  sh_pty : option Pty;
  sh_env : list (string * string);
  sh_timeouts : Timeouts;
  sh_x11_params : option X11Params;
  sh_want_agent_forward : bool;
}.
Arguments sh_session_id {Handle} _.
Arguments sh_handle {Handle} _.
Arguments sh_pty {Handle} _.
Arguments sh_env {Handle} _.
Arguments sh_timeouts {Handle} _.
Arguments sh_x11_params {Handle} _.
Arguments sh_want_agent_forward {Handle} _.

Record ShellBuilder (Handle : Type) := {
  sb_session_id : Z;
  sb_handle : option Handle;
  sb_pty : option Pty;
  sb_env : list (string * string);
  sb_timeouts : Timeouts;
  sb_x11_params : option X11Params;
  sb_want_agent_forward : bool;
}.
Arguments sb_session_id {Handle} _.
Arguments sb_handle {Handle} _.
Arguments sb_pty {Handle} _.
Arguments sb_env {Handle} _.
Arguments sb_timeouts {Handle} _.
Arguments sb_x11_params {Handle} _.
Arguments sb_want_agent_forward {Handle} _.

Record SubsystemRequest (Handle : Type) := {
  ss_session_id : Z;
  ss_handle : option Handle;
  ss_name : string;
  ss_timeouts : Timeouts;
  ss_x11_params : option X11Params;
  ss_want_agent_forward : bool;
}.
Arguments ss_session_id {Handle} _.
Arguments ss_handle {Handle} _.
Arguments ss_name {Handle} _.
Arguments ss_timeouts {Handle} _.
Arguments ss_x11_params {Handle} _.
Arguments ss_want_agent_forward {Handle} _.

Record SubsystemBuilder (Handle : Type) := {
  ssb_session_id : Z;
  ssb_handle : option Handle;
  ssb_name : string;
  ssb_timeouts : Timeouts;
  ssb_x11_params : option X11Params;
  ssb_want_agent_forward : bool;
}.
Arguments ssb_session_id {Handle} _.
Arguments ssb_handle {Handle} _.
Arguments ssb_name {Handle} _.
Arguments ssb_timeouts {Handle} _.
Arguments ssb_x11_params {Handle} _.
Arguments ssb_want_agent_forward {Handle} _.

Section Builders.
Context {Handle : Type}.

Definition ShellBuilder_from_session (session_id : Z) (handle : option Handle)
    (timeouts : Timeouts) : ShellBuilder Handle :=
  {| sb_session_id := session_id; sb_handle := handle; sb_pty := None; sb_env := [];
     sb_timeouts := timeouts; sb_x11_params := None; sb_want_agent_forward := false |}.

Definition ShellBuilder_pty (self : ShellBuilder Handle) (pty : Pty) : ShellBuilder Handle :=
  {| sb_session_id := sb_session_id self; sb_handle := sb_handle self; sb_pty := Some pty;
     sb_env := sb_env self; sb_timeouts := sb_timeouts self;
     sb_x11_params := sb_x11_params self; sb_want_agent_forward := sb_want_agent_forward self |}.

Definition ShellBuilder_env (self : ShellBuilder Handle) (name value : string) :
    ShellBuilder Handle :=
  {| sb_session_id := sb_session_id self; sb_handle := sb_handle self; sb_pty := sb_pty self;
     sb_env := sb_env self ++ [(name, value)]; sb_timeouts := sb_timeouts self;
     sb_x11_params := sb_x11_params self; sb_want_agent_forward := sb_want_agent_forward self |}.

Definition ShellBuilder_x11_params (self : ShellBuilder Handle) (params : X11Params) :
    ShellBuilder Handle :=
  {| sb_session_id := sb_session_id self; sb_handle := sb_handle self; sb_pty := sb_pty self;
     sb_env := sb_env self; sb_timeouts := sb_timeouts self; sb_x11_params := Some params;
     sb_want_agent_forward := sb_want_agent_forward self |}.

Definition ShellBuilder_x11 (cookie_bytes : list byte) (self : ShellBuilder Handle)
    (screen : Z) : ShellBuilder Handle :=
  ShellBuilder_x11_params self (X11Params_new cookie_bytes screen).

Definition ShellBuilder_x11_with_cookie (self : ShellBuilder Handle) (protocol cookie : string)
    (screen : Z) : ShellBuilder Handle :=
  ShellBuilder_x11_params self (X11Params_with_cookie protocol cookie screen).

Definition ShellBuilder_agent_forward (self : ShellBuilder Handle) : ShellBuilder Handle :=
  {| sb_session_id := sb_session_id self; sb_handle := sb_handle self; sb_pty := sb_pty self;
     sb_env := sb_env self; sb_timeouts := sb_timeouts self;
     sb_x11_params := sb_x11_params self; sb_want_agent_forward := true |}.

Definition ShellBuilder_build (self : ShellBuilder Handle) : Shell Handle :=
  {| sh_session_id := sb_session_id self; sh_handle := sb_handle self; sh_pty := sb_pty self;
     sh_env := sb_env self; sh_timeouts := sb_timeouts self;
     sh_x11_params := sb_x11_params self; sh_want_agent_forward := sb_want_agent_forward self |}.

Definition SubsystemBuilder_from_session (session_id : Z) (handle : option Handle)
    (name : string) (timeouts : Timeouts) : SubsystemBuilder Handle :=
  {| ssb_session_id := session_id; ssb_handle := handle; ssb_name := name;
     ssb_timeouts := timeouts; ssb_x11_params := None; ssb_want_agent_forward := false |}.

Definition SubsystemBuilder_x11_params (self : SubsystemBuilder Handle) (params : X11Params) :
    SubsystemBuilder Handle :=
  {| ssb_session_id := ssb_session_id self; ssb_handle := ssb_handle self;
     ssb_name := ssb_name self; ssb_timeouts := ssb_timeouts self;
     ssb_x11_params := Some params; ssb_want_agent_forward := ssb_want_agent_forward self |}.

Definition SubsystemBuilder_x11 (cookie_bytes : list byte) (self : SubsystemBuilder Handle)
    (screen : Z) : SubsystemBuilder Handle :=
  SubsystemBuilder_x11_params self (X11Params_new cookie_bytes screen).

Definition SubsystemBuilder_x11_with_cookie (self : SubsystemBuilder Handle)
    (protocol cookie : string) (screen : Z) : SubsystemBuilder Handle :=
  SubsystemBuilder_x11_params self (X11Params_with_cookie protocol cookie screen).

Definition SubsystemBuilder_agent_forward (self : SubsystemBuilder Handle) :
    SubsystemBuilder Handle :=
  {| ssb_session_id := ssb_session_id self; ssb_handle := ssb_handle self;
     ssb_name := ssb_name self; ssb_timeouts := ssb_timeouts self;
     ssb_x11_params := ssb_x11_params self; ssb_want_agent_forward := true |}.

Definition SubsystemBuilder_build (self : SubsystemBuilder Handle) : SubsystemRequest Handle :=
  {| ss_session_id := ssb_session_id self; ss_handle := ssb_handle self;
     ss_name := ssb_name self; ss_timeouts := ssb_timeouts self;
     ss_x11_params := ssb_x11_params self; ss_want_agent_forward := ssb_want_agent_forward self |}.
End Builders.

(** ** Opening *)

Record ShellHandle := {
  channel : ChannelState;
  stdout_buf : list byte;
  stderr_buf : list byte;
  exit : CommandExit;
  is_closed : bool;
}.

Section Open.
Context {Handle : Type} (russh_text : RusshError → string) (Pty_from_u8 : Z → option RusshPty)
        (outcome : nat → result RusshError unit)
        (channel_open_session : Handle → Timeouts → option (result RusshError ChannelState)).

(** A request on the channel, with its outcome. *)
Definition perform (a : ShellAction) : chan RusshError unit :=
  λ c, (outcome (length (requested c)),
        {| inbox := inbox c; requested := requested c ++ [a] |}).

Definition request (a : ShellAction) : chan Error unit :=
  chan_map_err (map_shell_error russh_text) (perform a).

(** [match channel.wait().await { Success => {}, Failure | None => .., _ => {} }]. *)
Definition await_confirmation (message : string) : chan Error unit :=
  reply ← wait;
  match reply with
  | Some CSuccess => mret ()
  | Some CFailure | None =>
      chan_ignore (perform ChClose) ≫= λ _, chan_fail (Error_channel_kind ChannelRequest message)
  | _ => mret ()
  end.

Definition handle_of (c : ChannelState) : ShellHandle :=
  {| channel := c; stdout_buf := []; stderr_buf := []; exit := Missing; is_closed := false |}.

(** [for (name, value) in &self.env]. *)
Fixpoint send_env (env : list (string * string)) : chan Error unit :=
  match env with
  | [] => mret ()
  | (name, value) :: env' =>
      chan_ignore (perform (SetEnv true name value)) ≫= λ _,
      _ ← wait; send_env env'
  end.

Definition request_pty (pty : Pty) (env : list (string * string)) : chan Error unit :=
  request (RequestPty true (pty_term pty) (pty_width_columns pty) (pty_height_rows pty)
             (pty_width_pixels pty) (pty_height_pixels pty)
             (build_terminal_modes Pty_from_u8 pty)) ≫= λ _,
  await_confirmation "PTY request was rejected by the server" ≫= λ _,
  send_env env.

Definition request_x11 (x11 : option X11Params) : chan Error unit :=
  match x11 with
  | Some p => request (RequestX11 false (x11_single_connection p) (x11_protocol p)
                         (x11_cookie p) (x11_screen p))
  | None => mret ()
  end.

Definition request_agent (want : bool) : chan Error unit :=
  if want then request (AgentForward false) else mret ().

(** What [Shell::open] does once the channel is open. *)
Definition shell_setup (self : Shell Handle) : chan Error unit :=
  match sh_pty self with
  | Some pty => request_pty pty (sh_env self)
  | None => mret ()
  end ≫= λ _,
  request_x11 (sh_x11_params self) ≫= λ _,
  request_agent (sh_want_agent_forward self) ≫= λ _,
  request (RequestShell true) ≫= λ _,
  await_confirmation "shell request was rejected by the server".

Definition subsystem_setup (self : SubsystemRequest Handle) : chan Error unit :=
  request_x11 (ss_x11_params self) ≫= λ _,
  request_agent (ss_want_agent_forward self) ≫= λ _,
  request (RequestSubsystem true (ss_name self)) ≫= λ _,
  await_confirmation ("subsystem '" +:+ ss_name self +:+ "' was rejected by the server").

(** The session channel of [handle], set up by [setup]; the channel is what is
    left of it when the open failed after it existed. *)
Definition open_channel (unconnected : string) (handle : option Handle) (timeouts : Timeouts)
    (setup : chan Error unit) : Result ShellHandle * option ChannelState :=
  match handle with
  | None => (Err (Error_unsupported unconnected), None)
  | Some h =>
      match channel_open_session h timeouts with
      | None => (Err (Error_timeout OpChannelOpen "session channel open timed out"), None)
      | Some (Err e) => (Err (map_channel_open_error russh_text e), None)
      | Some (Ok c) =>
          match setup c with
          | (Err e, c') => (Err e, Some c')
          | (Ok _, c') => (Ok (handle_of c'), Some c')
          end
      end
  end.

Definition Shell_open (self : Shell Handle) : Result ShellHandle * option ChannelState :=
  open_channel "shell requires a connected session" (sh_handle self) (sh_timeouts self)
    (shell_setup self).

Definition Subsystem_open (self : SubsystemRequest Handle) :
    Result ShellHandle * option ChannelState :=
  open_channel "subsystem requires a connected session" (ss_handle self) (ss_timeouts self)
    (subsystem_setup self).
End Open.

(** ** The handle *)

Definition set_channel (h : ShellHandle) (c : ChannelState) : ShellHandle :=
  {| channel := c; stdout_buf := stdout_buf h; stderr_buf := stderr_buf h; exit := exit h;
     is_closed := is_closed h |}.
Definition set_bufs (h : ShellHandle) (out err : list byte) : ShellHandle :=
  {| channel := channel h; stdout_buf := out; stderr_buf := err; exit := exit h;
     is_closed := is_closed h |}.
Definition set_handle_exit (h : ShellHandle) (e : CommandExit) : ShellHandle :=
  {| channel := channel h; stdout_buf := stdout_buf h; stderr_buf := stderr_buf h; exit := e;
     is_closed := is_closed h |}.
Definition set_is_closed (h : ShellHandle) : ShellHandle :=
  {| channel := channel h; stdout_buf := stdout_buf h; stderr_buf := stderr_buf h;
     exit := exit h; is_closed := true |}.

(** [if n < data.len() { buf.extend_from_slice(&data[n..]) }], [n] the bytes copied. *)
Definition keep_rest (cap : nat) (buf data : list byte) : list byte :=
  if (Nat.min (length data) cap <? length data)%nat then buf ++ drop cap data else buf.

(** The [loop] of [ShellHandle::read]: the bytes copied into the caller's buffer
    of [cap] bytes, and the handle. *)
Fixpoint handle_read_loop (cap : nat) (msgs : list CommandMsg) (h : ShellHandle) :
    list byte * ShellHandle :=
  let now ms := set_channel h {| inbox := ms; requested := requested (channel h) |} in
  match msgs with
  | [] => ([], set_is_closed (now []))
  | CData data :: ms =>
      (take cap data,
       set_bufs (now ms) (keep_rest cap (stdout_buf h) data) (stderr_buf h))
  | CExtendedData data :: ms =>
      (take cap data,
       set_bufs (now ms) (stdout_buf h) (keep_rest cap (stderr_buf h) data))
  | CExitStatus status :: ms => handle_read_loop cap ms (set_handle_exit (now ms) (Status status))
  | CExitSignal signal_name core_dumped :: ms =>
      handle_read_loop cap ms (set_handle_exit (now ms) (Signal (signal_to_name signal_name) core_dumped))
  | CClose :: ms => ([], set_is_closed (now ms))
  | _ :: ms => handle_read_loop cap ms (now ms)
  end.

(** [ShellHandle::read] never fails: the bytes put in a buffer of [cap] bytes. *)
Definition ShellHandle_read (cap : nat) (h : ShellHandle) : list byte * ShellHandle :=
  if Nat.eqb cap 0 then ([], h)
  else
    match stdout_buf h, stderr_buf h with
    | (_ :: _) as out, err => (take cap out, set_bufs h (drop cap out) err)
    | [], (_ :: _) as err => (take cap err, set_bufs h [] (drop cap err))
    | [], [] => if is_closed h then ([], h) else handle_read_loop cap (inbox (channel h)) h
    end.

Definition ShellHandle_exit (h : ShellHandle) : option CommandExit :=
  if decide (exit h = Missing) then None else Some (exit h).

Section Requests.
Context (russh_text : RusshError → string) (outcome : nat → result RusshError unit).

(** A request on the handle's channel. *)
Definition on_channel (a : ShellAction) (h : ShellHandle) : Result unit * ShellHandle :=
  let '(r, c) := request russh_text outcome a (channel h) in (r, set_channel h c).

Definition ShellHandle_write (data : list byte) (h : ShellHandle) : Result Z * ShellHandle :=
  let '(r, h') := on_channel (ChData data) h in
  (_ ← r; Ok (bytes_len data), h').

Definition ShellHandle_write_all (data : list byte) (h : ShellHandle) :
    Result unit * ShellHandle :=
  let '(r, h') := ShellHandle_write data h in (_ ← r; Ok (), h').

Definition ShellHandle_send_eof : ShellHandle → Result unit * ShellHandle := on_channel ChEof.

Definition ShellHandle_resize (cols rows : Z) : ShellHandle → Result unit * ShellHandle :=
  on_channel (ChWindowChange cols rows 0 0).

Definition ShellHandle_signal (sig : Sig) : ShellHandle → Result unit * ShellHandle :=
  on_channel (ChSignal sig).

Definition ShellHandle_close : ShellHandle → Result unit * ShellHandle := on_channel ChClose.
End Requests.

(** ** What reading delivers *)

(** The output carried by the messages before the channel closes, both streams
    interleaved as they arrive. *)
Definition chunks_of (msgs : list CommandMsg) : list (list byte) :=
  omap (λ m, match m with CData d | CExtendedData d => Some d | _ => None end)
    (before_close msgs).

#[local] Arguments chunks_of : simpl never.
#[local] Arguments before_close : simpl nomatch.

(** The last exit reported before the channel closes. *)
Fixpoint last_exit (msgs : list CommandMsg) (e : CommandExit) : CommandExit :=
  match msgs with
  | [] => e
  | CExitStatus status :: ms => last_exit ms (Status status)
  | CExitSignal signal core :: ms => last_exit ms (Signal (signal_to_name signal) core)
  | _ :: ms => last_exit ms e
  end.

(** At most one stream has bytes waiting. *)
Definition handle_wf (h : ShellHandle) : Prop := stdout_buf h = [] ∨ stderr_buf h = [].

(** The chunks of output reads have still to take from the channel. *)
Definition coming (h : ShellHandle) : list (list byte) :=
  if is_closed h then [] else chunks_of (inbox (channel h)).

(** The bytes reads on the handle have still to return, in order. *)
Definition unread (h : ShellHandle) : list byte :=
  stdout_buf h ++ stderr_buf h ++ concat (coming h).

(** The exit the handle will report in the end. *)
Definition final_exit (h : ShellHandle) : CommandExit :=
  if is_closed h then exit h else last_exit (before_close (inbox (channel h))) (exit h).

(** What is left to do: unread bytes, messages, and seeing the channel closed. *)
Definition read_measure (h : ShellHandle) : nat :=
  length (unread h) + (if is_closed h then 0 else S (length (inbox (channel h)))).

#[local] Arguments keep_rest : simpl never.

Lemma keep_rest_nil cap (d : list byte) : keep_rest cap [] d = drop cap d.
Proof.
  unfold keep_rest. destruct (Nat.ltb_spec (Nat.min (length d) cap) (length d)); [done|].
  symmetry. apply drop_ge. lia.
Qed.

(** One read: what it returns is a prefix of what is waiting, it never disturbs
    the reported exit, and it makes progress. *)
Record read_step (cap : nat) (h : ShellHandle) (bytes : list byte) (h' : ShellHandle) : Prop := {
  rs_prefix : unread h = bytes ++ unread h';
  rs_bound : (length bytes ≤ cap)%nat;
  rs_wf : handle_wf h';
  rs_exit : final_exit h' = final_exit h;
  rs_requested : requested (channel h') = requested (channel h);
  rs_progress : (read_measure h' < read_measure h)%nat ∨ (is_closed h = true ∧ unread h = [] ∧ h' = h);
  rs_end : bytes = [] → is_closed h' = true ∧ unread h' = [] ∨ [] ∈ coming h;
  rs_coming : coming h' ⊆ coming h;
}.

Lemma chunks_of_cons m msgs :
  m ≠ CClose →
  chunks_of (m :: msgs)
  = match m with CData d | CExtendedData d => [d] | _ => [] end ++ chunks_of msgs.
Proof. by destruct m. Qed.

Definition with_inbox (h : ShellHandle) (msgs : list CommandMsg) : ShellHandle :=
  set_channel h {| inbox := msgs; requested := requested (channel h) |}.

Lemma handle_read_loop_step cap msgs h :
  (0 < cap)%nat → stdout_buf h = [] → stderr_buf h = [] → is_closed h = false →
  let '(bytes, h') := handle_read_loop cap msgs h in read_step cap (with_inbox h msgs) bytes h'.
Proof.
  intros Hcap. revert h. induction msgs as [|m msgs IH]; intros [c out err ex cl]; cbn;
    intros -> -> ->.
  { split; cbn; try done; [lia|by left|left; lia|by left]. }
  assert (Hskip : ∀ ex', m ≠ CClose → chunks_of (m :: msgs) = chunks_of msgs →
    last_exit (before_close (m :: msgs)) ex = last_exit (before_close msgs) ex' →
    let '(bytes, h') := handle_read_loop cap msgs
       {| channel := {| inbox := msgs; requested := requested c |}; stdout_buf := [];
          stderr_buf := []; exit := ex'; is_closed := false |} in
    read_step cap {| channel := {| inbox := m :: msgs; requested := requested c |};
      stdout_buf := []; stderr_buf := []; exit := ex; is_closed := false |} bytes h').
  { intros ex' Hm Hc He. specialize (IH {| channel := {| inbox := msgs; requested := requested c |};
      stdout_buf := []; stderr_buf := []; exit := ex'; is_closed := false |} eq_refl eq_refl eq_refl).
    destruct (handle_read_loop _ _ _) as [bytes h']. destruct IH as [H1 H2 H3 H4 H5 H6 H7 H8].
    unfold unread, coming, final_exit, read_measure in *. cbn in *.
    split; unfold unread, coming, final_exit, read_measure; cbn; try done; try congruence.
    - left. destruct H6 as [|[]]; [|done]. rewrite Hc. lia.
    - by rewrite Hc.
    - by rewrite Hc. }
  destruct m as [| |d|d|status|sg core| | |]; cbn; try (by apply Hskip).
  - split; unfold unread, coming, final_exit, read_measure; cbn; rewrite ?keep_rest_nil, ?app_nil_r; try done;
      rewrite ?chunks_of_cons by done; cbn.
    + by rewrite app_assoc, take_drop.
    + rewrite length_take. lia.
    + by right.
    + left. rewrite !length_app, length_drop. lia.
    + intros Hd. right. apply elem_of_cons. left.
      destruct d; [done|]. by destruct cap; [lia|].
    + set_solver.
  - split; unfold unread, coming, final_exit, read_measure; cbn; rewrite ?keep_rest_nil; try done;
      rewrite ?chunks_of_cons by done; cbn.
    + by rewrite app_assoc, take_drop.
    + rewrite length_take. lia.
    + by left.
    + left. rewrite !length_app, length_drop. lia.
    + intros Hd. right. apply elem_of_cons. left.
      destruct d; [done|]. by destruct cap; [lia|].
    + set_solver.
  - split; cbn; try done; [lia|by left|left; cbn; lia|by left].
Qed.

Lemma read_step_ok cap h :
  (0 < cap)%nat → handle_wf h →
  let '(bytes, h') := ShellHandle_read cap h in read_step cap h bytes h'.
Proof.
  intros Hcap Hwf. unfold ShellHandle_read. rewrite (proj2 (Nat.eqb_neq cap 0)) by lia.
  destruct h as [c out err ex cl]; cbn [stdout_buf stderr_buf is_closed channel].
  destruct out as [|o out]; [destruct err as [|e err]|].
  - destruct cl.
    + split; cbn; try done; [lia|by right|by left].
    + pose proof (handle_read_loop_step cap (inbox c) {| channel := c; stdout_buf := [];
        stderr_buf := []; exit := ex; is_closed := false |} Hcap eq_refl eq_refl eq_refl) as H.
      destruct c as [ib rq]. exact H.
  - split; unfold unread, coming, final_exit, read_measure; cbn; try done.
    + by rewrite (app_assoc (take _ _)), take_drop.
    + rewrite length_take. lia.
    + by left.
    + left. rewrite !length_app, length_drop. cbn [length]. destruct cl; cbn; lia.
    + by destruct cap; [lia|].
  - destruct Hwf as [|Hwf]; [done|]. cbn in Hwf. subst err.
    split; unfold unread, coming, final_exit, read_measure; cbn; try done.
    + by rewrite (app_assoc (take _ _)), take_drop.
    + rewrite length_take. lia.
    + by right.
    + left. rewrite !length_app, length_drop. cbn [length]. destruct cl; cbn; lia.
    + by destruct cap; [lia|].
Qed.

(** Reads with buffers of the given sizes. *)
Fixpoint read_many (caps : list nat) (h : ShellHandle) : list (list byte) * ShellHandle :=
  match caps with
  | [] => ([], h)
  | cap :: caps' =>
      let '(bytes, h') := ShellHandle_read cap h in
      let '(rest, h'') := read_many caps' h' in (bytes :: rest, h'')
  end.

Lemma read_many_spec caps h :
  handle_wf h →
  let '(out, h') := read_many caps h in
  handle_wf h' ∧ Forall2 (λ bytes cap, (length bytes ≤ cap)%nat) out caps ∧
  unread h = concat out ++ unread h' ∧ final_exit h' = final_exit h.
Proof.
  revert h. induction caps as [|cap caps IH]; intros h Hwf; cbn [read_many]; [by split_and!|].
  assert (Hr : let '(bytes, h') := ShellHandle_read cap h in
    handle_wf h' ∧ (length bytes ≤ cap)%nat ∧ unread h = bytes ++ unread h' ∧
    final_exit h' = final_exit h).
  { destruct cap as [|cap]; [cbn; by split_and!|].
    pose proof (read_step_ok (S cap) h ltac:(lia) Hwf) as H.
    destruct (ShellHandle_read (S cap) h). destruct H. by split_and!. }
  destruct (ShellHandle_read cap h) as [bytes h1]. destruct Hr as (Hwf1 & Hl & Hu & He).
  specialize (IH h1 Hwf1). destruct (read_many caps h1) as [out h2].
  destruct IH as (Hwf2 & Hls & Hus & Hes). split_and!; [done|by constructor| |congruence].
  cbn. by rewrite Hu, Hus, app_assoc.
Qed.

(** C40.  Every sequence of reads on an opened handle, whatever the sizes of the buffers,
    keeps the handle well formed (at most one of its two buffers holds bytes), never
    returns more than the buffer holds, and never loses, repeats or reorders a byte:
    what the reads returned, followed by what the handle can still return, is the
    server's output. *)
Theorem shell_reads_invariant (caps : list nat) (c : ChannelState) :
  let '(out, h) := read_many caps (handle_of c) in
  handle_wf h ∧ Forall2 (λ bytes cap, (length bytes ≤ cap)%nat) out caps ∧
  concat (chunks_of (inbox c)) = concat out ++ unread h ∧
  (is_closed h = true → exit h = last_exit (before_close (inbox c)) Missing).
Proof.
  pose proof (read_many_spec caps (handle_of c) (or_introl eq_refl)) as H.
  destruct (read_many caps (handle_of c)) as [out h]. destruct H as (Hwf & Hl & Hu & He).
  split_and!; try done. intros Hc. unfold final_exit in He. by rewrite Hc in He.
Qed.

(** A caller that reads until a read returns nothing, [Ok(0)]. *)
Fixpoint read_until_empty (fuel cap : nat) (h : ShellHandle) :
    option (list byte * ShellHandle) :=
  match fuel with
  | O => None
  | S fuel' =>
      let '(bytes, h') := ShellHandle_read cap h in
      match bytes with
      | [] => Some ([], h')
      | _ => '(rest, h'') ← read_until_empty fuel' cap h'; Some (bytes ++ rest, h'')
      end
  end.

Lemma read_until_empty_all cap fuel h :
  (0 < cap)%nat → handle_wf h → [] ∉ coming h → (length (unread h) < fuel)%nat →
  ∃ h', read_until_empty fuel cap h = Some (unread h, h') ∧
    is_closed h' = true ∧ exit h' = final_exit h ∧ requested (channel h') = requested (channel h).
Proof.
  intros Hcap. revert h. induction fuel as [|fuel IH]; intros h Hwf Hne Hlen; [lia|].
  cbn [read_until_empty]. pose proof (read_step_ok cap h Hcap Hwf) as Hr.
  destruct (ShellHandle_read cap h) as [bytes h1]. destruct Hr as [H1 H2 H3 H4 H5 H6 H7 H8].
  destruct bytes as [|b bytes].
  - destruct (H7 eq_refl) as [[Hc Hu]|]; [|done]. exists h1. rewrite H1, Hu.
    split_and!; try done. rewrite <-H4. unfold final_exit. by rewrite Hc.
  - rewrite H1 in Hlen. rewrite length_app in Hlen. cbn in Hlen.
    destruct (IH h1) as (h2 & -> & Hc & He & Hq); [done|set_solver|lia|].
    exists h2. rewrite H1. split_and!; [done|done|congruence|congruence].
Qed.

(** Reading until a read returns nothing ends within one read more than there are
    bytes, whatever the size of the buffer, and collects both output streams
    completely and in the order they arrived; the channel is then closed and
    [exit] reports the last exit the server sent.  No data message may be empty. *)
Theorem shell_read_to_end (cap : nat) (c : ChannelState) :
  (0 < cap)%nat → [] ∉ chunks_of (inbox c) →
  ∃ h, read_until_empty (S (length (concat (chunks_of (inbox c))))) cap (handle_of c)
       = Some (concat (chunks_of (inbox c)), h) ∧
    is_closed h = true ∧ exit h = last_exit (before_close (inbox c)) Missing.
Proof.
  intros Hcap Hne.
  destruct (read_until_empty_all cap (S (length (concat (chunks_of (inbox c))))) (handle_of c))
    as (h & E & Hc & He & _); [done|by left|done|cbn; lia|].
  by exists h.
Qed.

(** ** What opening sends *)

Definition pty_requests (Pty_from_u8 : Z → option RusshPty) (pty : Pty)
    (env : list (string * string)) : list ShellAction :=
  RequestPty true (pty_term pty) (pty_width_columns pty) (pty_height_rows pty)
    (pty_width_pixels pty) (pty_height_pixels pty) (build_terminal_modes Pty_from_u8 pty)
  :: map (λ '(name, value), SetEnv true name value) env.

Definition forwarding_requests (x11 : option X11Params) (agent : bool) : list ShellAction :=
  match x11 with
  | Some p => [RequestX11 false (x11_single_connection p) (x11_protocol p) (x11_cookie p)
                 (x11_screen p)]
  | None => []
  end ++ (if agent then [AgentForward false] else []).

(** A missing reply and an explicit failure refuse a request; anything else is
    taken as acceptance. *)
Definition refused (reply : option CommandMsg) : bool :=
  match reply with None | Some CFailure => true | _ => false end.

Section OpenSpec.
Context {Handle : Type} (russh_text : RusshError → string) (Pty_from_u8 : Z → option RusshPty)
        (channel_open_session : Handle → Timeouts → option (result RusshError ChannelState)).

(** Every request can be sent. *)
Abbreviation sent := (λ _ : nat, Ok ()).

(** The channel after [l] has been requested and [n] replies read. *)
Definition after (l : list ShellAction) (n : nat) (c : ChannelState) : ChannelState :=
  {| inbox := drop n (inbox c); requested := requested c ++ l |}.

Lemma after_after l1 l2 n1 n2 c : after l2 n2 (after l1 n1 c) = after (l1 ++ l2) (n1 + n2) c.
Proof. unfold after; cbn. by rewrite drop_drop, <-app_assoc. Qed.

Lemma after_nil c : after [] 0 c = c.
Proof. unfold after. rewrite app_nil_r. by destruct c. Qed.

Lemma wait_after {E} c : @wait E c = (Ok (inbox c !! 0%nat), after [] 1 c).
Proof. unfold wait, channel_wait, after. rewrite app_nil_r. by destruct c as [[|m ms] rq]. Qed.

Lemma perform_sent a c : perform sent a c = (Ok (), after [a] 0 c).
Proof. done. Qed.

Lemma request_sent a c : request russh_text sent a c = (Ok (), after [a] 0 c).
Proof. done. Qed.

Lemma await_confirmation_spec message c :
  await_confirmation sent message c
  = if refused (inbox c !! 0%nat)
    then (Err (Error_channel_kind ChannelRequest message), after [ChClose] 1 c)
    else (Ok (), after [] 1 c).
Proof.
  unfold await_confirmation, mbind, chan_bind. rewrite wait_after.
  destruct (inbox c !! 0%nat) as [[]|]; try done;
    unfold chan_ignore; rewrite perform_sent; cbn [snd];
    by rewrite after_after.
Qed.

Lemma send_env_spec env c :
  send_env sent env c
  = (Ok (), after (map (λ '(name, value), SetEnv true name value) env) (length env) c).
Proof.
  revert c. induction env as [|[name value] env IH]; intros c; [by rewrite after_nil|].
  cbn [send_env]. unfold mbind, chan_bind, chan_ignore. rewrite perform_sent; cbn [snd].
  rewrite wait_after, IH, !after_after. done.
Qed.

Lemma request_pty_spec pty env c :
  request_pty russh_text Pty_from_u8 sent pty env c
  = if refused (inbox c !! 0%nat)
    then (Err (Error_channel_kind ChannelRequest "PTY request was rejected by the server"),
          after (pty_requests Pty_from_u8 pty [] ++ [ChClose]) 1 c)
    else (Ok (), after (pty_requests Pty_from_u8 pty env) (S (length env)) c).
Proof.
  unfold request_pty, mbind, chan_bind. rewrite request_sent. cbv iota.
  rewrite await_confirmation_spec.
  replace (inbox (after _ 0 c)) with (inbox c) by done.
  destruct (refused (inbox c !! 0%nat)); [by rewrite after_after|].
  rewrite send_env_spec, !after_after. done.
Qed.

Lemma forwarding_spec {A} x11 agent (k : chan Error A) c :
  (request_x11 russh_text sent x11 ≫= λ _, request_agent russh_text sent agent ≫= λ _, k) c
  = k (after (forwarding_requests x11 agent) 0 c).
Proof.
  unfold mbind, chan_bind, request_x11, request_agent, forwarding_requests.
  destruct x11, agent; rewrite ?request_sent; cbv iota; rewrite ?request_sent; cbv iota;
    rewrite ?after_after, ?app_nil_r; cbn; by rewrite ?after_nil.
Qed.

(** The last request of a setup, after [l] with [n] replies read. *)
Definition final_request (a : ShellAction) (message : string) (l : list ShellAction) (n : nat)
    (c : ChannelState) : Result ShellHandle * option ChannelState :=
  let l := l ++ [a] in
  if refused (inbox c !! n)
  then (Err (Error_channel_kind ChannelRequest message), Some (after (l ++ [ChClose]) (S n) c))
  else (Ok (handle_of (after l (S n) c)), Some (after l (S n) c)).

Lemma final_request_spec a message l n c :
  match (request russh_text sent a ≫= λ _, await_confirmation sent message) (after l n c) with
  | (Err e, c') => (Err e, Some c')
  | (Ok _, c') => (Ok (handle_of c'), Some c')
  end = final_request a message l n c.
Proof.
  unfold mbind, chan_bind, final_request. rewrite request_sent. cbv iota.
  rewrite await_confirmation_spec, after_after.
  replace (inbox (after _ _ c) !! 0%nat) with (inbox c !! n)
    by (cbn; rewrite lookup_drop; f_equal; lia).
  rewrite Nat.add_0_r. destruct (refused _); rewrite after_after, ?app_nil_r, Nat.add_1_r; done.
Qed.

(** [Shell::open] on an open channel whose requests can be sent, for every sequence
    of replies: the PTY request first, then the environment one variable at a
    time, then X11 and agent forwarding, then the shell.  A refused PTY or shell
    request closes the channel and is the error; refused variables are ignored. *)
Definition shell_open_result (self : Shell Handle) (c : ChannelState) :
    Result ShellHandle * option ChannelState :=
  let fwd := forwarding_requests (sh_x11_params self) (sh_want_agent_forward self) in
  let last := final_request (RequestShell true) "shell request was rejected by the server" in
  match sh_pty self with
  | None => last fwd 0%nat c
  | Some pty =>
      if refused (inbox c !! 0%nat)
      then (Err (Error_channel_kind ChannelRequest "PTY request was rejected by the server"),
            Some (after (pty_requests Pty_from_u8 pty [] ++ [ChClose]) 1 c))
      else last (pty_requests Pty_from_u8 pty (sh_env self) ++ fwd) (S (length (sh_env self))) c
  end.

Lemma shell_open_eq (self : Shell Handle) (h : Handle) (c : ChannelState) :
  sh_handle self = Some h → channel_open_session h (sh_timeouts self) = Some (Ok c) →
  Shell_open russh_text Pty_from_u8 sent channel_open_session self = shell_open_result self c.
Proof.
  intros Hh Ho. unfold Shell_open, open_channel, shell_setup, shell_open_result. rewrite Hh, Ho.
  destruct (sh_pty self) as [pty|].
  - unfold mbind at 1, chan_bind at 1. rewrite request_pty_spec.
    destruct (refused (inbox c !! 0%nat)); [done|]. cbv iota.
    rewrite forwarding_spec, after_after, Nat.add_0_r. apply final_request_spec.
  - unfold mbind at 1, chan_bind at 1. cbn [mret chan_ret].
    rewrite forwarding_spec. apply final_request_spec.
Qed.

Lemma subsystem_open_eq (self : SubsystemRequest Handle) (h : Handle) (c : ChannelState) :
  ss_handle self = Some h → channel_open_session h (ss_timeouts self) = Some (Ok c) →
  Subsystem_open russh_text sent channel_open_session self
  = final_request (RequestSubsystem true (ss_name self))
      ("subsystem '" +:+ ss_name self +:+ "' was rejected by the server")
      (forwarding_requests (ss_x11_params self) (ss_want_agent_forward self)) 0%nat c.
Proof.
  intros Hh Ho. unfold Subsystem_open, open_channel, subsystem_setup. rewrite Hh, Ho.
  rewrite forwarding_spec. apply final_request_spec.
Qed.

(** The requests of an accepted open, and the replies it reads before the one to
    the shell request itself. *)
Definition shell_requests (self : Shell Handle) : list ShellAction :=
  match sh_pty self with
  | None => []
  | Some pty => pty_requests Pty_from_u8 pty (sh_env self)
  end ++ forwarding_requests (sh_x11_params self) (sh_want_agent_forward self)
  ++ [RequestShell true].

Definition setup_replies (self : Shell Handle) : nat :=
  match sh_pty self with None => 0 | Some _ => S (length (sh_env self)) end.

(** An accepted open: the requests are sent, one reply is read for each that asks for one. *)
Lemma shell_open_accepted (self : Shell Handle) (h : Handle) (c : ChannelState) :
  sh_handle self = Some h → channel_open_session h (sh_timeouts self) = Some (Ok c) →
  (is_Some (sh_pty self) → refused (inbox c !! 0%nat) = false) →
  refused (inbox c !! setup_replies self) = false →
  let c' := after (shell_requests self) (S (setup_replies self)) c in
  Shell_open russh_text Pty_from_u8 sent channel_open_session self = (Ok (handle_of c'), Some c').
Proof.
  cbv zeta. intros Hh Ho Hpty Hshell.
  rewrite (shell_open_eq self h c) by done. unfold shell_open_result, shell_requests.
  unfold setup_replies in *. destruct (sh_pty self) as [pty|].
  - rewrite (Hpty ltac:(done)). unfold final_request. by rewrite Hshell, <-app_assoc.
  - unfold final_request. by rewrite Hshell.
Qed.


(** The environment of a shell without a PTY is never sent: opening behaves as if no
    variable had been set. *)
Theorem shell_env_needs_pty (outcome : nat → result RusshError unit) (self : Shell Handle) :
  sh_pty self = None →
  Shell_open russh_text Pty_from_u8 outcome channel_open_session self
  = Shell_open russh_text Pty_from_u8 outcome channel_open_session
      {| sh_session_id := sh_session_id self; sh_handle := sh_handle self; sh_pty := None;
         sh_env := []; sh_timeouts := sh_timeouts self; sh_x11_params := sh_x11_params self;
         sh_want_agent_forward := sh_want_agent_forward self |}.
Proof. intros Hp. unfold Shell_open, shell_setup. cbn. by rewrite Hp. Qed.
End OpenSpec.

(** ** Terminal modes and cookies *)

(** Every mode except a custom opcode [russh] does not know is sent, with its value
    and in order. *)
Lemma terminal_modes_kept (from_u8 : Z → option RusshPty) (pty : Pty) :
  (∀ opcode v, (Custom opcode, v) ∈ pty_modes pty → is_Some (from_u8 opcode)) →
  (build_terminal_modes from_u8 pty).*2 = (pty_modes pty).*2.
Proof.
  unfold build_terminal_modes. generalize (pty_modes pty). intros l.
  induction l as [|[m v] l IH]; intros Hk; [done|].
  assert (Hm : is_Some (terminal_mode_to_pty from_u8 m)).
  { destruct m; try (by eexists). cbn. destruct (Hk opcode v) as [p ->]; [by left|by eexists]. }
  destruct Hm as [[p w] Hm]. cbn. rewrite Hm. cbn. f_equal. apply IH. intros o w' Ho.
  apply (Hk o w'). by right.
Qed.

Lemma hex_digit_inj x y : 0 ≤ x < 16 → 0 ≤ y < 16 → hex_digit x = hex_digit y → x = y.
Proof.
  unfold hex_digit. intros Hx Hy H%(f_equal N_of_ascii).
  destruct (Z.ltb_spec x 10), (Z.ltb_spec y 10); rewrite !N_ascii_embedding in H; lia.
Qed.

Lemma cookie_acc l s :
  fold_left (λ s b, s +:+ lower_hex2 b) l s
  = s +:+ fold_left (λ s b, s +:+ lower_hex2 b) l "".
Proof.
  revert s. induction l as [|b l IH]; intros s; cbn [fold_left].
  - induction s; cbn; congruence.
  - rewrite IH, (IH ("" +:+ _)). cbn [String.append].
    by rewrite str_app_assoc.
Qed.

(** The cookie determines the random bytes: no two of them give the same cookie. *)
Lemma cookie_injective l l' screen :
  x11_cookie (X11Params_new l screen) = x11_cookie (X11Params_new l' screen) → l = l'.
Proof.
  cbn. revert l'. induction l as [|b l IH]; intros [|b' l']; cbn [fold_left];
    rewrite ?(cookie_acc _ ("" +:+ _)); cbn; intros H; try done.
  injection H as H1 H2 H3. pose proof (b2z_range b). pose proof (b2z_range b').
  apply hex_digit_inj in H1, H2; try (split; [apply Z.div_pos; lia|apply Z.div_lt_upper_bound; lia]);
    try (apply Z.mod_pos_bound; lia).
  f_equal; [|by apply IH]. apply b2z_inj. zdm.
Qed.

(** ** Concrete runs *)

Section Runs.
Definition run_shell : Shell unit :=
  ShellBuilder_build (ShellBuilder_agent_forward (ShellBuilder_env
    (ShellBuilder_pty (ShellBuilder_from_session 7 (Some ()) Timeouts_default)
      (Pty_with_mode Pty_default Echo 1)) "LANG" "C")).

Definition run_channel : ChannelState :=
  {| inbox := [CSuccess; CFailure; CSuccess; CData (as_bytes "$ "); CExtendedData (as_bytes "oops");
               CExitStatus 1; CData (as_bytes "bye"); CExitStatus 0; CEof; CClose;
               CData (as_bytes "late")];
     requested := [] |}.

Abbreviation open_run := (Shell_open (λ _, "") (λ _, None) (λ _, Ok ()) (λ _ _, Some (Ok run_channel))).


Lemma shell_read_to_end_witness :
  ∃ h, read_until_empty 10 2 (handle_of run_channel) = Some (as_bytes "$ oopsbye", h) ∧
    is_closed h = true ∧ exit h = Status 0.
Proof.
  apply (shell_read_to_end 2 run_channel); [lia|]. apply (bool_decide_unpack _). by vm_compute.
Defined.

(** An empty data message is indistinguishable from the end of the output: the
    caller stops although the channel is open and more is coming. *)
Example empty_data_looks_like_end :
  let c := {| inbox := [CData []; CData (as_bytes "more"); CClose]; requested := [] |} in
  let '(bytes, h) := ShellHandle_read 16 (handle_of c) in
  bytes = [] ∧ is_closed h = false ∧ unread h = as_bytes "more".
Proof. by vm_compute. Qed.

(** Output that arrives before the reply to the shell request is taken for the
    reply: the request counts as accepted, the output is lost, and the real reply
    is skipped by the first read, even when it is a refusal. *)
Example output_taken_for_reply :
  let c := {| inbox := [CData (as_bytes "motd"); CFailure; CClose]; requested := [] |} in
  fst (Shell_open (λ _, "") (λ _, None) (λ _, Ok ()) (λ _ _, Some (Ok c))
         (ShellBuilder_build (ShellBuilder_from_session 7 (Some ()) Timeouts_default)))
  = Ok (handle_of {| inbox := [CFailure; CClose]; requested := [RequestShell true] |}).
Proof. by vm_compute. Qed.

Lemma shell_env_needs_pty_witness :
  let b := ShellBuilder_from_session 7 (Some ()) Timeouts_default in
  open_run (ShellBuilder_build (ShellBuilder_env b "LANG" "C")) = open_run (ShellBuilder_build b).
Proof.
  exact (shell_env_needs_pty (λ _, "") (λ _, None) (λ _ _, Some (Ok run_channel)) (λ _, Ok ())
    (ShellBuilder_build (ShellBuilder_env (ShellBuilder_from_session 7 (Some ()) Timeouts_default)
       "LANG" "C")) eq_refl).
Defined.
End Runs.
