(* ===== verification/ShellIo.v ===== *)
(** * Shells as byte streams ([russh-extra/src/shell.rs])

    [ShellHandle::into_async_io]: the [AsyncRead]/[AsyncWrite] wrapper and the task
    that bridges it to the channel, joined by two unbounded queues.  The two run
    concurrently; a schedule is the order in which their steps happen, and every
    theorem holds for every schedule.  A queue's [send] fails when its receiver is
    gone, and [recv] returns [None] when it is empty and its sender is gone. *)
From S2P Require Import Prelude RustStr RustWords RustPath Channel CoreError Endpoint.
From S2P Require Import Config KnownHosts KnownHostsSpec ClientErrors ClientCommand Shell.

Inductive ShellCmd :=
| CmdWrite (data : list byte)
| CmdEof
| CmdResize (cols rows : Z)
| CmdSignal (sig : Sig).

Inductive Poll (A : Type) := Ready (a : A) | Pending.
Arguments Ready {A} a.
Arguments Pending {A}.

Record ShellAsyncIo := { read_buf : list byte; read_pos : nat; eof_sent : bool }.

(** [run_channel_bridge]'s variables. *)
Record Bridge := {
  br_channel : ChannelState;
  br_exit : CommandExit;
  br_cmd_closed : bool;
  br_done : bool;
}.

(** The wrapper ([None] once dropped), the queues [read_tx] to [read_rx] and [cmd_tx]
    to [cmd_rx], and the task. *)
Record IoState := {
  io : option ShellAsyncIo;
  read_queue : list (list byte);
  cmd_queue : list ShellCmd;
  bridge : Bridge;
}.

Definition into_async_io (h : ShellHandle) : IoState :=
  {| io := Some {| read_buf := []; read_pos := 0; eof_sent := false |};
     read_queue := []; cmd_queue := [];
     bridge := {| br_channel := channel h; br_exit := Missing; br_cmd_closed := false;
                  br_done := false |} |}.

(** ** The wrapper *)

(** [cmd_tx.send]: fails once the task has ended. *)
Definition cmd_send (cmd : ShellCmd) (s : IoState) : bool * IoState :=
  if br_done (bridge s) then (false, s)
  else (true, {| io := io s; read_queue := read_queue s; cmd_queue := cmd_queue s ++ [cmd];
                 bridge := bridge s |}).

Definition ShellAsyncIo_resize (cols rows : Z) (s : IoState) : IoState :=
  snd (cmd_send (CmdResize cols rows) s).

Definition ShellAsyncIo_signal (sig : Sig) (s : IoState) : IoState :=
  snd (cmd_send (CmdSignal sig) s).

(** The bytes put in a buffer with room for [cap]. *)
Definition ShellAsyncIo_poll_read (w : ShellAsyncIo) (cap : nat) (s : IoState) :
    Poll (list byte) * IoState :=
  let wrapper w' q := {| io := Some w'; read_queue := q; cmd_queue := cmd_queue s;
                         bridge := bridge s |} in
  if (read_pos w <? length (read_buf w))%nat then
    let remaining := drop (read_pos w) (read_buf w) in
    let n := Nat.min (length remaining) cap in
    (Ready (take n remaining),
     wrapper {| read_buf := read_buf w; read_pos := read_pos w + n; eof_sent := eof_sent w |}
       (read_queue s))
  else
    match read_queue s with
    | data :: q =>
        let n := Nat.min (length data) cap in
        (Ready (take n data),
         wrapper (if (n <? length data)%nat
                  then {| read_buf := data; read_pos := n; eof_sent := eof_sent w |} else w) q)
    | [] => if br_done (bridge s) then (Ready [], s) else (Pending, s)
    end.

Definition ShellAsyncIo_poll_write (buf : list byte) (s : IoState) :
    Poll (result string Z) * IoState :=
  match buf with
  | [] => (Ready (Ok 0), s)
  | _ =>
      match cmd_send (CmdWrite buf) s with
      | (false, s') => (Ready (Err "shell channel closed"), s')
      | (true, s') => (Ready (Ok (bytes_len buf)), s')
      end
  end.

Definition ShellAsyncIo_poll_flush : Poll (result string unit) := Ready (Ok ()).

Definition ShellAsyncIo_poll_shutdown (w : ShellAsyncIo) (s : IoState) :
    Poll (result string unit) * IoState :=
  if eof_sent w then (Ready (Ok ()), s)
  else
    let '(_, s') := cmd_send CmdEof s in
    (Ready (Ok ()),
     {| io := Some {| read_buf := read_buf w; read_pos := read_pos w; eof_sent := true |};
        read_queue := read_queue s'; cmd_queue := cmd_queue s'; bridge := bridge s' |}).

(** ** The task *)

Definition action_of (cmd : ShellCmd) : ShellAction :=
  match cmd with
  | CmdWrite data => ChData data
  | CmdEof => ChEof
  | CmdResize cols rows => ChWindowChange cols rows 0 0
  | CmdSignal sig => ChSignal sig
  end.

Definition set_bridge (s : IoState) (b : Bridge) : IoState :=
  {| io := io s; read_queue := read_queue s; cmd_queue := cmd_queue s; bridge := b |}.

(** [break]: the task's ends of the queues are dropped, and with [cmd_rx] what is
    queued in it. *)
Definition bridge_break (b : Bridge) (s : IoState) : IoState :=
  {| io := io s; read_queue := read_queue s; cmd_queue := [];
     bridge := {| br_channel := br_channel b; br_exit := br_exit b;
                  br_cmd_closed := br_cmd_closed b; br_done := true |} |}.

Definition bridge_exit (e : CommandExit) (b : Bridge) : Bridge :=
  {| br_channel := br_channel b; br_exit := e; br_cmd_closed := br_cmd_closed b;
     br_done := br_done b |}.

(** [read_tx.send]: fails once the wrapper has been dropped. *)
Definition read_send (data : list byte) (s : IoState) : bool * IoState :=
  match io s with
  | None => (false, s)
  | Some _ => (true, {| io := io s; read_queue := read_queue s ++ [data];
                        cmd_queue := cmd_queue s; bridge := bridge s |})
  end.

(** The [channel.wait()] branch: of [select!] while commands may still come, and of
    the loop that only drains the channel once they cannot. *)
Definition bridge_message (s : IoState) : IoState :=
  let '(msg, c) := channel_wait (br_channel (bridge s)) in
  let b := {| br_channel := c; br_exit := br_exit (bridge s);
              br_cmd_closed := br_cmd_closed (bridge s); br_done := br_done (bridge s) |} in
  let s := set_bridge s b in
  match msg with
  | Some (CData data) =>
      match read_send data s with
      | (true, s') => s'
      | (false, s') => if br_cmd_closed b then s' else bridge_break b s'
      end
  | Some (CExtendedData data) => snd (read_send data s)
  | Some (CExitStatus status) => set_bridge s (bridge_exit (Status status) b)
  | Some (CExitSignal signal core) =>
      set_bridge s (bridge_exit (Signal (signal_to_name signal) core) b)
  | Some CClose | None => bridge_break b s
  | Some _ => s
  end.

(** The [cmd_rx.recv()] branch of [select!]; it is not polled once [cmd_closed], and
    does not fire while the queue is empty and the wrapper alive. *)
Definition bridge_command (s : IoState) : IoState :=
  let b := bridge s in
  if br_cmd_closed b then s
  else
    match cmd_queue s, io s with
    | cmd :: q, _ =>
        {| io := io s; read_queue := read_queue s; cmd_queue := q;
           bridge := {| br_channel := {| inbox := inbox (br_channel b);
                          requested := requested (br_channel b) ++ [action_of cmd] |};
                        br_exit := br_exit b; br_cmd_closed := false; br_done := br_done b |} |}
    | [], None =>
        set_bridge s {| br_channel := br_channel b; br_exit := br_exit b; br_cmd_closed := true;
                        br_done := br_done b |}
    | [], Some _ => s
    end.

(** ** Schedules *)

Inductive IoOp :=
| OpRead (cap : nat)
| OpWrite (buf : list byte)
| OpShutdown
| OpResize (cols rows : Z)
| OpSignal (sig : Sig)
| OpDrop
| OpMessage
| OpCommand.

(** What a step shows the user of the wrapper: the bytes a read returned. *)
Definition io_step (op : IoOp) (s : IoState) : list byte * IoState :=
  match io s, op with
  | Some w, OpRead cap =>
      match ShellAsyncIo_poll_read w cap s with
      | (Ready bytes, s') => (bytes, s')
      | (Pending, s') => ([], s')
      end
  | Some _, OpWrite buf => ([], snd (ShellAsyncIo_poll_write buf s))
  | Some w, OpShutdown => ([], snd (ShellAsyncIo_poll_shutdown w s))
  | Some _, OpResize cols rows => ([], ShellAsyncIo_resize cols rows s)
  | Some _, OpSignal sig => ([], ShellAsyncIo_signal sig s)
  | Some _, OpDrop =>
      ([], {| io := None; read_queue := []; cmd_queue := cmd_queue s; bridge := bridge s |})
  | _, OpMessage => ([], if br_done (bridge s) then s else bridge_message s)
  | _, OpCommand => ([], if br_done (bridge s) then s else bridge_command s)
  | None, _ => ([], s)
  end.

Fixpoint io_run (ops : list IoOp) (s : IoState) : list byte * IoState :=
  match ops with
  | [] => ([], s)
  | op :: ops' =>
      let '(bytes, s') := io_step op s in
      let '(rest, s'') := io_run ops' s' in (bytes ++ rest, s'')
  end.

(** ** The byte stream to the user *)

(** What the wrapper can still return. *)
Definition to_read (s : IoState) : list byte :=
  match io s with
  | None => []
  | Some w =>
      drop (read_pos w) (read_buf w) ++ concat (read_queue s)
      ++ (if br_done (bridge s) then [] else concat (chunks_of (inbox (br_channel (bridge s)))))
  end.

Lemma cmd_send_spec cmd s :
  cmd_send cmd s
  = (negb (br_done (bridge s)),
     {| io := io s; read_queue := read_queue s;
        cmd_queue := cmd_queue s ++ (if br_done (bridge s) then [] else [cmd]);
        bridge := bridge s |}).
Proof.
  unfold cmd_send. destruct (br_done (bridge s)); [|done]. rewrite app_nil_r. by destruct s.
Qed.

(** The commands a step hands to the task. *)
Definition accepted (op : IoOp) (s : IoState) : list ShellCmd :=
  if br_done (bridge s) then []
  else
    match io s, op with
    | Some _, OpWrite ((_ :: _) as buf) => [CmdWrite buf]
    | Some w, OpShutdown => if eof_sent w then [] else [CmdEof]
    | Some _, OpResize cols rows => [CmdResize cols rows]
    | Some _, OpSignal sig => [CmdSignal sig]
    | _, _ => []
    end.

Fixpoint run_accepted (ops : list IoOp) (s : IoState) : list ShellCmd :=
  match ops with
  | [] => []
  | op :: ops' => accepted op s ++ run_accepted ops' (snd (io_step op s))
  end.

(** The requests on the channel, those made and those still queued. *)
Definition outgoing (s : IoState) : list ShellAction :=
  requested (br_channel (bridge s)) ++ map action_of (cmd_queue s).

#[local] Arguments chunks_of : simpl never.
#[local] Arguments before_close : simpl nomatch.

Lemma poll_read_stream w cap s :
  io s = Some w →
  let '(r, s') := ShellAsyncIo_poll_read w cap s in
  to_read s = match r with Ready bytes => bytes | Pending => [] end ++ to_read s' ∧
  outgoing s' = outgoing s ∧ bridge s' = bridge s ∧ is_Some (io s').
Proof.
  intros Hio. assert (Hs : is_Some (io s)) by by eexists.
  unfold ShellAsyncIo_poll_read, to_read. rewrite Hio.
  destruct (Nat.ltb_spec (read_pos w) (length (read_buf w))) as [Hp|Hp]; cbn [io read_queue bridge].
  - split; [|done]. cbn [read_pos read_buf]. rewrite <-drop_drop, (app_assoc (take _ _)).
    by rewrite take_drop.
  - rewrite (drop_ge (read_buf w)) by lia. destruct (read_queue s) as [|data q] eqn:Eq.
    + destruct (br_done (bridge s)) eqn:Ed; rewrite Hio, Ed, Eq, (drop_ge (read_buf w)) by lia; done.
    + split; [|done]. cbn [io read_queue bridge concat app]. rewrite <-app_assoc.
      destruct (Nat.ltb_spec (Nat.min (length data) cap) (length data)) as [Hn|Hn]; cbn [read_pos read_buf].
      * by rewrite (app_assoc (take _ _)), take_drop.
      * rewrite (drop_ge (read_buf w)), take_ge by lia. done.
Qed.

Lemma wait_chunks c :
  let '(msg, c') := channel_wait c in
  requested c' = requested c ∧
  concat (chunks_of (inbox c))
  = match msg with
    | Some (CData d) | Some (CExtendedData d) => d ++ concat (chunks_of (inbox c'))
    | Some CClose | None => []
    | _ => concat (chunks_of (inbox c'))
    end.
Proof.
  unfold channel_wait. destruct c as [[|m ms] rq]; [done|]. cbn. split; [done|].
  destruct m; try done; by rewrite chunks_of_cons.
Qed.

Lemma bridge_message_stream s w :
  io s = Some w → br_done (bridge s) = false →
  to_read (bridge_message s) = to_read s ∧ io (bridge_message s) = Some w.
Proof.
  intros Hio Hd. unfold bridge_message. pose proof (wait_chunks (br_channel (bridge s))) as Hw.
  destruct (channel_wait (br_channel (bridge s))) as [msg c]. destruct Hw as [_ Hw].
  unfold to_read. rewrite Hio, Hd, Hw.
  destruct msg as [[| |d|d|status|sg core| | |]|]; unfold read_send; cbn;
    rewrite ?Hio; cbn; rewrite ?Hio; cbn; rewrite ?Hd; try done;
    by rewrite concat_app; cbn; rewrite app_nil_r, <-!app_assoc.
Qed.

(** What a step does to the requests: they grow by the accepted commands; the end of
    the task discards what is still queued. *)
Lemma bridge_message_outgoing s :
  br_done (bridge s) = false →
  requested (br_channel (bridge (bridge_message s))) = requested (br_channel (bridge s)) ∧
  cmd_queue (bridge_message s)
  = if br_done (bridge (bridge_message s)) then [] else cmd_queue s.
Proof.
  intros Hd. unfold bridge_message. pose proof (wait_chunks (br_channel (bridge s))) as Hw.
  destruct (channel_wait (br_channel (bridge s))) as [msg c]. destruct Hw as [Hw _].
  rewrite <-Hw.
  destruct msg as [[| |d|d|status|sg core| | |]|]; unfold read_send; cbn;
    destruct (io s); cbn; try destruct (br_cmd_closed _); cbn; by rewrite ?Hd.
Qed.

(** One step of a schedule. *)
Record step_spec (op : IoOp) (s : IoState) (bytes : list byte) (s' : IoState) : Prop := {
  sp_read : if io s' is Some _ then to_read s = bytes ++ to_read s' else bytes = [];
  sp_dead : io s = None → io s' = None;
  sp_out : br_done (bridge s') = false →
    outgoing s' = outgoing s ++ map action_of (accepted op s);
  sp_done : br_done (bridge s) = true → br_done (bridge s') = true ∧
    br_channel (bridge s') = br_channel (bridge s);
  sp_prefix : requested (br_channel (bridge s')) `prefix_of`
    outgoing s ++ map action_of (accepted op s);
}.

(** A step that keeps the bridge and queues what it accepted. *)
Lemma step_spec_user op s bytes s' cmds :
  bridge s' = bridge s → cmd_queue s' = cmd_queue s ++ cmds → accepted op s = cmds →
  (if io s' is Some _ then to_read s = bytes ++ to_read s' else bytes = []) →
  (io s = None → io s' = None) → step_spec op s bytes s'.
Proof.
  intros Hb Hq Ha Hr Hd. unfold outgoing.
  assert (Ho : outgoing s' = outgoing s ++ map action_of (accepted op s)).
  { unfold outgoing. by rewrite Hb, Hq, Ha, map_app, app_assoc. }
  split; try done.
  - by rewrite Hb.
  - rewrite <-Ho. unfold outgoing. by eexists.
Qed.

Lemma cmd_step_spec op s cmd :
  is_Some (io s) → accepted op s = (if br_done (bridge s) then [] else [cmd]) →
  step_spec op s [] (snd (cmd_send cmd s)).
Proof.
  intros [w Hio] Ha. rewrite cmd_send_spec. cbn [snd].
  eapply step_spec_user; [done|done|done| |]; unfold to_read; cbn; by rewrite Hio.
Qed.

Lemma bridge_message_dead s : io (bridge_message s) = io s.
Proof.
  unfold bridge_message. destruct (channel_wait _) as [msg c].
  destruct msg as [[| |d|d|status|sg core| | |]|]; unfold read_send; cbn;
    destruct (io s) eqn:E; cbn; try destruct (br_cmd_closed _); cbn; done.
Qed.

Lemma message_step_spec op s :
  br_done (bridge s) = false → accepted op s = [] → step_spec op s [] (bridge_message s).
Proof.
  intros Hd Ha. destruct (bridge_message_outgoing s Hd) as [Hq Hc]. split.
  - rewrite bridge_message_dead. destruct (io s) as [w|] eqn:Hio; [|done].
    symmetry. by destruct (bridge_message_stream s w).
  - by rewrite bridge_message_dead.
  - intros Hd'. unfold outgoing. by rewrite Hq, Hc, Hd', Ha, app_nil_r.
  - congruence.
  - rewrite Hq, Ha, app_nil_r. unfold outgoing. by eexists.
Qed.

Lemma command_step_spec op s :
  br_done (bridge s) = false → accepted op s = [] → step_spec op s [] (bridge_command s).
Proof.
  intros Hd Ha. unfold bridge_command. destruct (br_cmd_closed (bridge s)).
  { eapply (step_spec_user _ _ _ _ []); rewrite ?app_nil_r; try done. by destruct (io s). }
  destruct (cmd_queue s) as [|cmd q] eqn:Eq; [destruct (io s) as [w|] eqn:Hio|].
  - eapply (step_spec_user _ _ _ _ []); rewrite ?app_nil_r; try done. by rewrite Hio.
  - split; cbn; rewrite ?Hio, ?Ha, ?app_nil_r; try done. by eexists.
  - split; cbn; rewrite ?Ha, ?app_nil_r; unfold outgoing; cbn; rewrite ?Eq; cbn; try done.
    + unfold to_read. cbn. by destruct (io s).
    + by rewrite <-app_assoc.
    + congruence.
    + exists (map action_of q). by rewrite <-app_assoc.
Qed.

Lemma io_step_spec op s : let '(bytes, s') := io_step op s in step_spec op s bytes s'.
Proof.
  assert (Hnop : accepted op s = [] → step_spec op s [] s).
  { intros Ha. eapply (step_spec_user _ _ _ _ []); rewrite ?app_nil_r; try done. by destruct (io s). }
  assert (Hbr : ∀ op', op' = OpMessage ∨ op' = OpCommand → accepted op' s = []).
  { intros op' [-> | ->]; unfold accepted; by destruct (br_done (bridge s)), (io s). }
  destruct op as [cap|buf| |cols rows|sig| | |].
  7: { replace (io_step OpMessage s) with (@nil byte, if br_done (bridge s) then s else bridge_message s)
         by (unfold io_step; by destruct (io s)).
       destruct (br_done (bridge s)) eqn:Hd; [apply Hnop|apply message_step_spec; [done|]]; auto. }
  7: { replace (io_step OpCommand s) with (@nil byte, if br_done (bridge s) then s else bridge_command s)
         by (unfold io_step; by destruct (io s)).
       destruct (br_done (bridge s)) eqn:Hd; [apply Hnop|apply command_step_spec; [done|]]; auto. }
  all: unfold io_step; destruct (io s) as [w|] eqn:Hio;
    [|apply Hnop; unfold accepted; rewrite Hio; by destruct (br_done (bridge s))].
  - pose proof (poll_read_stream w cap s Hio) as H.
    destruct (ShellAsyncIo_poll_read w cap s) as [r s'] eqn:E. destruct H as (Hr & Ho & Hb & [w' Hw']).
    assert (Ha : accepted (OpRead cap) s = []) by (unfold accepted; rewrite Hio; by destruct (br_done _)).
    assert (Hs : step_spec (OpRead cap) s
      match r with Ready bytes => bytes | Pending => [] end s').
    { split; rewrite ?Ha, ?app_nil_r; try done.
      - by rewrite Hw'.
      - by rewrite Hio.
      - by rewrite Hb.
      - rewrite Hb. unfold outgoing. by eexists. }
    by destruct r.
  - unfold ShellAsyncIo_poll_write. destruct buf as [|b buf].
    { apply Hnop. unfold accepted. rewrite Hio. by destruct (br_done _). }
    destruct (cmd_send _ s) as [[] s'] eqn:E; cbn [snd];
      (replace s' with (snd (cmd_send (CmdWrite (b :: buf)) s)) by by rewrite E);
      apply cmd_step_spec; unfold accepted; rewrite Hio; done.
  - unfold ShellAsyncIo_poll_shutdown. destruct (eof_sent w) eqn:Ee.
    { apply Hnop. unfold accepted. rewrite Hio, Ee. by destruct (br_done _). }
    rewrite cmd_send_spec. cbn. eapply step_spec_user; cbn; try done.
    + unfold accepted. rewrite Hio, Ee. done.
    + unfold to_read. by rewrite Hio.
    + by rewrite Hio.
  - apply cmd_step_spec; unfold accepted; rewrite Hio; done.
  - apply cmd_step_spec; unfold accepted; rewrite Hio; done.
  - eapply (step_spec_user _ _ _ _ []); cbn; rewrite ?app_nil_r; try done.
    unfold accepted. rewrite Hio. by destruct (br_done _).
Qed.

(** ** Every schedule *)

Lemma io_run_spec ops s :
  let '(bytes, s') := io_run ops s in
  (if io s' is Some _ then to_read s = bytes ++ to_read s' else bytes `prefix_of` to_read s) ∧
  (br_done (bridge s') = false →
   outgoing s' = outgoing s ++ map action_of (run_accepted ops s)) ∧
  requested (br_channel (bridge s')) `prefix_of`
    outgoing s ++ map action_of (run_accepted ops s) ∧
  (br_done (bridge s) = true → br_done (bridge s') = true ∧
    br_channel (bridge s') = br_channel (bridge s)) ∧
  (io s = None → io s' = None).
Proof.
  revert s. induction ops as [|op ops IH]; intros s; cbn [io_run run_accepted].
  { split_and!; try done; rewrite ?app_nil_r; try done.
    - destruct (io s); [done|apply prefix_nil].
    - by eexists. }
  pose proof (io_step_spec op s) as Hs. destruct (io_step op s) as [b1 s1]. cbn [snd].
  destruct Hs as [S1 S2 S3 S4 S5].
  specialize (IH s1). destruct (io_run ops s1) as [b2 s2].
  destruct IH as (R1 & R2 & R3 & R4 & R5). split_and!.
  - destruct (io s1) as [w1|] eqn:E1.
    + destruct (io s2); rewrite S1; [by rewrite R1, app_assoc|].
      by apply prefix_app.
    + rewrite (R5 eq_refl) in *. subst b1. unfold to_read in R1. rewrite E1 in R1.
      apply prefix_nil_inv in R1. subst b2. apply prefix_nil.
  - intros Hd. assert (Hd1 : br_done (bridge s1) = false).
    { destruct (br_done (bridge s1)); [|done]. destruct R4 as [R4 _]; [done|congruence]. }
    rewrite R2, S3 by done. by rewrite map_app, app_assoc.
  - rewrite map_app, app_assoc. destruct (br_done (bridge s1)) eqn:Hd1.
    + destruct R4 as [_ ->]; [done|]. by apply prefix_app_r.
    + rewrite S3 in R3 by done. done.
  - intros Hd. destruct (S4 Hd) as [Hd1 E1]. destruct (R4 Hd1) as [Hd2 E2].
    split; congruence.
  - auto.
Qed.

(** C13.  The wrapper is a faithful pair of streams under every schedule.  What its reads
    return, followed by what they can still return, is always exactly the output
    the server sends, both streams in order, with nothing lost or repeated; and
    the requests made on the channel are the writes, end of file, resizes and
    signals in the order they were issued: all of them so far or still queued
    while the task runs, a prefix of them after it has ended. *)
Theorem io_streams (ops : list IoOp) (h : ShellHandle) :
  let output := concat (chunks_of (inbox (channel h))) in
  let '(bytes, s) := io_run ops (into_async_io h) in
  let issued := requested (channel h) ++ map action_of (run_accepted ops (into_async_io h)) in
  (if io s is Some _ then output = bytes ++ to_read s else bytes `prefix_of` output) ∧
  (br_done (bridge s) = false → outgoing s = issued) ∧
  requested (br_channel (bridge s)) `prefix_of` issued.
Proof.
  cbv zeta. pose proof (io_run_spec ops (into_async_io h)) as H.
  destruct (io_run ops (into_async_io h)) as [bytes s].
  replace (outgoing (into_async_io h)) with (requested (channel h)) in H
    by (symmetry; apply app_nil_r).
  by destruct H as (H1 & H2 & H3 & _).
Qed.

(** ** The task ends *)

(** A step of the task: a message (or the end of the channel), or a command when one
    is queued or the wrapper is gone. *)
Inductive bridge_step (s : IoState) : IoState → Prop :=
| step_message : br_done (bridge s) = false → bridge_step s (bridge_message s)
| step_command : br_done (bridge s) = false → br_cmd_closed (bridge s) = false →
    cmd_queue s ≠ [] ∨ io s = None → bridge_step s (bridge_command s).

Definition bridge_measure (s : IoState) : nat :=
  if br_done (bridge s) then 0
  else S (length (inbox (br_channel (bridge s)))) + length (cmd_queue s)
       + (if br_cmd_closed (bridge s) then 0 else 1).

Lemma bridge_step_decreases s s' :
  bridge_step s s' → (bridge_measure s' < bridge_measure s)%nat.
Proof.
  destruct 1 as [Hd|Hd Hc Hq]; unfold bridge_measure; rewrite Hd.
  - unfold bridge_message, channel_wait. destruct (br_channel (bridge s)) as [[|m ms] rq]; cbn; [lia|].
    destruct m as [| |d|d|status|sg core| | |]; unfold read_send; cbn; rewrite ?Hd; try lia;
      destruct (io s); cbn; rewrite ?Hd; try lia; destruct (br_cmd_closed (bridge s)) eqn:Hc; cbn;
      rewrite ?Hd, ?Hc; lia.
  - unfold bridge_command. rewrite Hc. destruct (cmd_queue s) as [|cmd q] eqn:Eq.
    + destruct Hq as [|Hq]; [done|]. rewrite Hq. cbn. rewrite Hd. cbn. rewrite Eq. cbn. lia.
    + cbn. rewrite Hd. cbn. lia.
Qed.

(** The exit the task will have stored at its end. *)
Definition exit_at_end (s : IoState) : CommandExit :=
  if br_done (bridge s) then br_exit (bridge s)
  else last_exit (before_close (inbox (br_channel (bridge s)))) (br_exit (bridge s)).

Lemma bridge_step_keeps s s' w :
  io s = Some w → bridge_step s s' →
  io s' = Some w ∧ to_read s' = to_read s ∧ exit_at_end s' = exit_at_end s.
Proof.
  intros Hio. destruct 1 as [Hd|Hd Hc Hq].
  - destruct (bridge_message_stream s w Hio Hd) as [Hr Hw]. split_and!; [done|done|].
    unfold exit_at_end. rewrite Hd. unfold bridge_message, channel_wait.
    destruct (br_channel (bridge s)) as [[|m ms] rq]; [done|].
    destruct m as [| |d|d|status|sg core| | |]; unfold read_send; cbn; rewrite ?Hio; cbn; by rewrite ?Hd.
  - unfold bridge_command. rewrite Hc. destruct (cmd_queue s) as [|cmd q] eqn:Eq.
    + rewrite Hio. done.
    + unfold to_read, exit_at_end. cbn. rewrite Hio, Hd. done.
Qed.

(** While the wrapper lives, the task stops only at the end of the channel: it has taken a
    close, or every message there is. *)
Lemma bridge_step_taken s s' w :
  io s = Some w → bridge_step s s' →
  ∃ taken, inbox (br_channel (bridge s)) = taken ++ inbox (br_channel (bridge s')) ∧
    (br_done (bridge s') = true →
     inbox (br_channel (bridge s')) = [] ∨ last taken = Some CClose).
Proof.
  intros Hio. destruct 1 as [Hd|Hd Hc Hq].
  - unfold bridge_message, channel_wait.
    destruct (br_channel (bridge s)) as [[|m ms] rq]; [exists []; split; [done|by left]|].
    exists [m]. destruct m as [| |d|d|status|sg core| | |]; unfold read_send; cbn; rewrite ?Hio; cbn;
      (split; [done|]); rewrite ?Hd; try done. by right.
  - exists []. unfold bridge_command. rewrite Hc. destruct (cmd_queue s) as [|cmd q].
    + rewrite Hio. split; [done|]. congruence.
    + cbn. split; [done|]. congruence.
Qed.

Lemma bridge_steps_taken s s' w n :
  io s = Some w → nsteps bridge_step n s s' → br_done (bridge s) = false →
  ∃ taken, inbox (br_channel (bridge s)) = taken ++ inbox (br_channel (bridge s')) ∧
    (br_done (bridge s') = true →
     inbox (br_channel (bridge s')) = [] ∨ last taken = Some CClose).
Proof.
  intros Hio Hn. revert Hio. induction Hn as [s|n s1 s2 s3 H1 H2 IH]; intros Hio Hd.
  { exists []. split; [done|]. congruence. }
  destruct (bridge_step_keeps s1 s2 w Hio H1) as (Hw & _).
  destruct (bridge_step_taken s1 s2 w Hio H1) as (t1 & E1 & Hend).
  destruct (br_done (bridge s2)) eqn:Hd2.
  - inversion H2 as [|n' a s2' b Hs]; subst; [exists t1; auto|].
    exfalso. destruct Hs; congruence.
  - destruct (IH Hw eq_refl) as (t2 & E2 & Hend2). exists (t1 ++ t2).
    split; [by rewrite E1, E2, app_assoc|]. intros H3. destruct (Hend2 H3) as [|Hl]; [by left|right].
    rewrite last_app. by rewrite Hl.
Qed.


(** ** What the conversion loses *)

(** Output that [read] had already taken from the channel and kept is not carried over:
    handles that differ only in their buffers and exit convert to the same wrapper. *)
Lemma into_async_io_forgets (h h' : ShellHandle) :
  channel h = channel h' → into_async_io h = into_async_io h'.
Proof. unfold into_async_io. by intros ->. Qed.

(** The bytes a handle has buffered are lost by the conversion: whatever the
    schedule, the bytes read from the wrapper are a prefix of what was still on the
    channel, although the handle had promised its buffer first. *)
Theorem into_async_io_loses_buffer (ops : list IoOp) (h : ShellHandle) :
  is_closed h = false → stderr_buf h = [] →
  unread h = stdout_buf h ++ concat (chunks_of (inbox (channel h))) ∧
  fst (io_run ops (into_async_io h)) `prefix_of` concat (chunks_of (inbox (channel h))).
Proof.
  intros Hc He. split.
  - unfold unread, coming. by rewrite Hc, He.
  - pose proof (io_run_spec ops (into_async_io h)) as H.
    destruct (io_run ops (into_async_io h)) as [bytes s]. destruct H as (H & _). cbn [fst].
    destruct (io s); [|done]. by eexists.
Qed.

(** ** Concrete runs *)

Section Runs.
Definition io_channel : ChannelState :=
  {| inbox := [CData (as_bytes "abc"); CExtendedData (as_bytes "de"); CExitStatus 4; CClose];
     requested := [RequestShell true] |}.

Definition io_ops : list IoOp :=
  [OpMessage; OpWrite (as_bytes "ls"); OpRead 2; OpCommand; OpResize 100 40; OpMessage; OpShutdown;
   OpRead 9; OpCommand; OpMessage; OpMessage; OpRead 9; OpRead 9].

Example io_run_example :
  let '(bytes, s) := io_run io_ops (into_async_io (handle_of io_channel)) in
  bytes = as_bytes "abcde" ∧ br_done (bridge s) = true ∧ br_exit (bridge s) = Status 4 ∧
  requested (br_channel (bridge s)) = [RequestShell true; ChData (as_bytes "ls"); ChWindowChange 100 40 0 0].
Proof. by vm_compute. Qed.


Lemma into_async_io_loses_buffer_witness :
  let h := snd (ShellHandle_read 1 (handle_of io_channel)) in
  unread h = as_bytes "bcde" ∧
  fst (io_run io_ops (into_async_io h)) `prefix_of` as_bytes "de".
Proof.
  exact (into_async_io_loses_buffer io_ops (snd (ShellHandle_read 1 (handle_of io_channel)))
           eq_refl eq_refl).
Defined.
End Runs.
