(* ===== verification/TunnelStream.v ===== *)
(** * Tunnel streams ([russh-extra/src/tunnel.rs])

    [TunnelStream], its [AsyncRead]/[AsyncWrite] sides and the task that bridges it
    to the channel ([run_tunnel_stream_bridge]), with the copy loops that join a
    channel to a socket.  As for shells, a schedule is the order in which the
    steps of the stream's user and of the task happen. *)
From S2P Require Import Prelude RustStr RustWords RustPath Channel CoreError Endpoint.
From S2P Require Import Config KnownHosts KnownHostsSpec ClientErrors ClientCommand Shell.
From S2P Require Import ShellIo.

Inductive TunnelCmd :=
| TWrite (data : list byte)
| TEof
| TClose.

Record TunnelStream := { ts_read_buf : list byte; ts_read_pos : nat; ts_closed : bool }.

(** The stream ([None] once dropped), the queues between it and the task, the task's
    channel, and whether the task has ended. *)
Record StreamState := {
  stream : option TunnelStream;
  ts_read_queue : list (list byte);
  ts_cmd_queue : list TunnelCmd;
  ts_channel : ChannelState;
  ts_done : bool;
}.

(** The stream an opened channel is wrapped in. *)
Definition tunnel_stream (c : ChannelState) : StreamState :=
  {| stream := Some {| ts_read_buf := []; ts_read_pos := 0; ts_closed := false |};
     ts_read_queue := []; ts_cmd_queue := []; ts_channel := c; ts_done := false |}.

(** ** The stream *)

(** [cmd_tx.send]. *)
Definition ts_send (cmd : TunnelCmd) (s : StreamState) : bool * StreamState :=
  if ts_done s then (false, s)
  else (true, {| stream := stream s; ts_read_queue := ts_read_queue s;
                 ts_cmd_queue := ts_cmd_queue s ++ [cmd]; ts_channel := ts_channel s;
                 ts_done := false |}).

Definition tunnel_closed : Error := Error_channel_kind ChannelClose "tunnel channel closed".

Definition TunnelStream_write (data : list byte) (s : StreamState) : Result Z * StreamState :=
  let '(ok, s') := ts_send (TWrite data) s in
  (if ok then Ok (bytes_len data) else Err tunnel_closed, s').

Definition TunnelStream_write_all (data : list byte) (s : StreamState) :
    Result unit * StreamState :=
  let '(r, s') := TunnelStream_write data s in (_ ← r; Ok (), s').

Definition TunnelStream_send_eof (s : StreamState) : Result unit * StreamState :=
  let '(ok, s') := ts_send TEof s in (if ok then Ok () else Err tunnel_closed, s').

(** Dropping the stream drops [read_rx], with what is queued in it, and [cmd_tx]. *)
Definition TunnelStream_drop (s : StreamState) : StreamState :=
  {| stream := None; ts_read_queue := []; ts_cmd_queue := ts_cmd_queue s;
     ts_channel := ts_channel s; ts_done := ts_done s |}.

(** [close] consumes the stream: the command is queued and the stream dropped. *)
Definition TunnelStream_close (s : StreamState) : Result unit * StreamState :=
  (Ok (), TunnelStream_drop (snd (ts_send TClose s))).

Definition with_stream (s : StreamState) (t : TunnelStream) (q : list (list byte)) : StreamState :=
  {| stream := Some t; ts_read_queue := q; ts_cmd_queue := ts_cmd_queue s;
     ts_channel := ts_channel s; ts_done := ts_done s |}.

Definition TunnelStream_poll_read (t : TunnelStream) (cap : nat) (s : StreamState) :
    Poll (list byte) * StreamState :=
  if (ts_read_pos t <? length (ts_read_buf t))%nat then
    let remaining := drop (ts_read_pos t) (ts_read_buf t) in
    let n := Nat.min (length remaining) cap in
    (Ready (take n remaining),
     with_stream s {| ts_read_buf := ts_read_buf t; ts_read_pos := ts_read_pos t + n;
                      ts_closed := ts_closed t |} (ts_read_queue s))
  else if ts_closed t then (Ready [], s)
  else
    match ts_read_queue s with
    | data :: q =>
        let n := Nat.min (length data) cap in
        (Ready (take n data),
         with_stream s (if (n <? length data)%nat
                        then {| ts_read_buf := data; ts_read_pos := n; ts_closed := ts_closed t |}
                        else t) q)
    | [] =>
        if ts_done s then
          (Ready [], with_stream s {| ts_read_buf := ts_read_buf t; ts_read_pos := ts_read_pos t;
                                      ts_closed := true |} [])
        else (Pending, s)
    end.

Definition TunnelStream_poll_write (buf : list byte) (s : StreamState) :
    Poll (result string Z) * StreamState :=
  match buf with
  | [] => (Ready (Ok 0), s)
  | _ =>
      match ts_send (TWrite buf) s with
      | (false, s') => (Ready (Err "tunnel channel closed"), s')
      | (true, s') => (Ready (Ok (bytes_len buf)), s')
      end
  end.

Definition TunnelStream_poll_flush : Poll (result string unit) := Ready (Ok ()).

Definition TunnelStream_poll_shutdown (s : StreamState) : Poll (result string unit) * StreamState :=
  (Ready (Ok ()), snd (ts_send TEof s)).

(** ** The task *)

Definition set_ts_channel (s : StreamState) (c : ChannelState) : StreamState :=
  {| stream := stream s; ts_read_queue := ts_read_queue s; ts_cmd_queue := ts_cmd_queue s;
     ts_channel := c; ts_done := ts_done s |}.

(** [break]: the task's ends of the queues are dropped. *)
Definition ts_break (s : StreamState) : StreamState :=
  {| stream := stream s; ts_read_queue := ts_read_queue s; ts_cmd_queue := [];
     ts_channel := ts_channel s; ts_done := true |}.

Definition ts_request (a : ShellAction) (s : StreamState) : StreamState :=
  set_ts_channel s {| inbox := inbox (ts_channel s); requested := requested (ts_channel s) ++ [a] |}.

(** The [channel.wait()] branch of [run_tunnel_stream_bridge]. *)
Definition tunnel_message (s : StreamState) : StreamState :=
  let '(msg, c) := channel_wait (ts_channel s) in
  let s := set_ts_channel s c in
  match msg with
  | Some (CData data) =>
      match stream s with
      | None => ts_break s
      | Some _ =>
          {| stream := stream s; ts_read_queue := ts_read_queue s ++ [data];
             ts_cmd_queue := ts_cmd_queue s; ts_channel := ts_channel s; ts_done := ts_done s |}
      end
  | Some CClose | None => ts_break s
  | Some _ => s
  end.

(** The [cmd_rx.recv()] branch; it does not fire while the queue is empty and the
    stream alive. *)
Definition tunnel_command (s : StreamState) : StreamState :=
  let popped q := {| stream := stream s; ts_read_queue := ts_read_queue s; ts_cmd_queue := q;
                     ts_channel := ts_channel s; ts_done := ts_done s |} in
  match ts_cmd_queue s, stream s with
  | TWrite data :: q, _ => ts_request (ChData data) (popped q)
  | TEof :: q, _ => ts_request ChEof (popped q)
  | TClose :: q, _ => ts_break (ts_request ChClose (popped q))
  | [], None => ts_break (ts_request ChClose s)
  | [], Some _ => s
  end.

(** ** Schedules *)

Inductive StreamOp :=
| SRead (cap : nat)
| SPollWrite (buf : list byte)
| SWrite (data : list byte)
| SShutdown
| SSendEof
| SClose
| SDrop
| SMessage
| SCommand.

Definition stream_step (op : StreamOp) (s : StreamState) : list byte * StreamState :=
  match stream s, op with
  | _, SMessage => ([], if ts_done s then s else tunnel_message s)
  | _, SCommand => ([], if ts_done s then s else tunnel_command s)
  | None, _ => ([], s)
  | Some t, SRead cap =>
      match TunnelStream_poll_read t cap s with
      | (Ready bytes, s') => (bytes, s')
      | (Pending, s') => ([], s')
      end
  | Some _, SPollWrite buf => ([], snd (TunnelStream_poll_write buf s))
  | Some _, SWrite data => ([], snd (TunnelStream_write data s))
  | Some _, SShutdown => ([], snd (TunnelStream_poll_shutdown s))
  | Some _, SSendEof => ([], snd (TunnelStream_send_eof s))
  | Some _, SClose => ([], snd (TunnelStream_close s))
  | Some _, SDrop => ([], TunnelStream_drop s)
  end.

Fixpoint stream_run (ops : list StreamOp) (s : StreamState) : list byte * StreamState :=
  match ops with
  | [] => ([], s)
  | op :: ops' =>
      let '(bytes, s') := stream_step op s in
      let '(rest, s'') := stream_run ops' s' in (bytes ++ rest, s'')
  end.

(** ** The two directions *)

(** The data carried by the messages before the channel closes. *)
Definition data_of (msgs : list CommandMsg) : list byte := stdout_of (before_close msgs).

Definition ts_to_read (s : StreamState) : list byte :=
  match stream s with
  | None => []
  | Some t =>
      drop (ts_read_pos t) (ts_read_buf t) ++ concat (ts_read_queue s)
      ++ (if ts_done s then [] else data_of (inbox (ts_channel s)))
  end.

(** A stream that has seen the end has nothing left, and a live one has not been
    closed. *)
Definition ts_wf (s : StreamState) : Prop :=
  match stream s with
  | Some t =>
      (ts_closed t = true → ts_done s = true ∧ ts_to_read s = []) ∧ TClose ∉ ts_cmd_queue s
  | None => True
  end.

Definition tunnel_action (cmd : TunnelCmd) : ShellAction :=
  match cmd with TWrite data => ChData data | TEof => ChEof | TClose => ChClose end.

(** The commands a step hands to the task. *)
Definition ts_accepted (op : StreamOp) (s : StreamState) : list TunnelCmd :=
  if ts_done s then []
  else
    match stream s, op with
    | Some _, SPollWrite ((_ :: _) as buf) | Some _, SWrite buf => [TWrite buf]
    | Some _, SShutdown | Some _, SSendEof => [TEof]
    | Some _, SClose => [TClose]
    | _, _ => []
    end.

Fixpoint ts_run_accepted (ops : list StreamOp) (s : StreamState) : list TunnelCmd :=
  match ops with
  | [] => []
  | op :: ops' => ts_accepted op s ++ ts_run_accepted ops' (snd (stream_step op s))
  end.

Definition ts_outgoing (s : StreamState) : list ShellAction :=
  requested (ts_channel s) ++ map tunnel_action (ts_cmd_queue s).

#[local] Arguments before_close : simpl nomatch.

(** One step of a schedule. *)
Record ts_step_spec (op : StreamOp) (s : StreamState) (bytes : list byte) (s' : StreamState) :
    Prop := {
  tsp_read : if stream s' is Some _ then ts_to_read s = bytes ++ ts_to_read s' else bytes = [];
  tsp_dead : stream s = None → stream s' = None;
  tsp_out : ts_done s' = false →
    ts_outgoing s' = ts_outgoing s ++ map tunnel_action (ts_accepted op s);
  tsp_done : ts_done s = true → ts_done s' = true ∧ ts_channel s' = ts_channel s;
  tsp_prefix : requested (ts_channel s') `prefix_of`
    ts_outgoing s ++ map tunnel_action (ts_accepted op s) ++ [ChClose];
  tsp_wf : ts_wf s → ts_wf s';
}.

(** A step of the user: the channel and the task's state stay, accepted commands are queued. *)
Lemma ts_user_spec op s bytes s' :
  ts_channel s' = ts_channel s → ts_done s' = ts_done s →
  ts_cmd_queue s' = ts_cmd_queue s ++ ts_accepted op s →
  (if stream s' is Some _ then ts_to_read s = bytes ++ ts_to_read s' else bytes = []) →
  (stream s = None → stream s' = None) → (ts_wf s → ts_wf s') → ts_step_spec op s bytes s'.
Proof.
  intros Hc Hd Hq Hr Hn Hw.
  assert (Ho : ts_outgoing s' = ts_outgoing s ++ map tunnel_action (ts_accepted op s)).
  { unfold ts_outgoing. by rewrite Hc, Hq, map_app, app_assoc. }
  split; try done.
  - by rewrite Hc, Hd.
  - rewrite (app_assoc (ts_outgoing s)), <-Ho. unfold ts_outgoing. rewrite <-app_assoc. by eexists.
Qed.

(** Sending a command other than [Close], and nothing else. *)
Lemma ts_send_spec op s cmd :
  is_Some (stream s) → cmd ≠ TClose → ts_accepted op s = (if ts_done s then [] else [cmd]) →
  ts_step_spec op s [] (snd (ts_send cmd s)).
Proof.
  intros [t Ht] Hcmd Ha. unfold ts_send. destruct (ts_done s) eqn:Hd; cbn [snd].
  - apply ts_user_spec; rewrite ?Ha, ?app_nil_r; try done. by rewrite Ht.
  - apply ts_user_spec; cbn; rewrite ?Ha; try done.
    + unfold ts_to_read. cbn. by rewrite Ht, Hd.
    + unfold ts_wf, ts_to_read. cbn. rewrite Ht, Hd. intros [Hc Hq]. split; [done|]. set_solver.
Qed.

Lemma ts_idle_spec op s : ts_accepted op s = [] → ts_step_spec op s [] s.
Proof. intros Ha. apply ts_user_spec; rewrite ?Ha, ?app_nil_r; try done. by destruct (stream s). Qed.

Lemma ts_poll_read_spec t cap s :
  stream s = Some t →
  let '(r, s') := TunnelStream_poll_read t cap s in
  ts_step_spec (SRead cap) s match r with Ready bytes => bytes | Pending => [] end s'.
Proof.
  intros Ht.
  assert (Ha : ts_accepted (SRead cap) s = []) by (unfold ts_accepted; rewrite Ht; by destruct (ts_done s)).
  assert (Hgo : ∀ t' q bytes,
    ts_to_read s = bytes ++ ts_to_read (with_stream s t' q) →
    (ts_closed t' = true → ts_closed t = true ∨ ts_done s = true ∧ ts_to_read (with_stream s t' q) = []) →
    ts_step_spec (SRead cap) s bytes (with_stream s t' q)).
  { intros t' q bytes Hr Hw. apply ts_user_spec; rewrite ?Ha, ?app_nil_r; try done.
    - by rewrite Ht.
    - unfold ts_wf. rewrite Ht. cbn [stream with_stream ts_done ts_cmd_queue].
      intros [Hwf Hq]. split; [|done]. intros Hc. destruct (Hw Hc) as [Hc'|]; [|done]. destruct (Hwf Hc') as [Hd Hnil]. split; [done|].
      rewrite Hnil in Hr. symmetry in Hr. apply app_eq_nil in Hr as [_ Hr]. exact Hr. }
  unfold TunnelStream_poll_read.
  destruct (Nat.ltb_spec (ts_read_pos t) (length (ts_read_buf t))) as [Hp|Hp].
  { apply Hgo; [|by left]. unfold ts_to_read, with_stream. rewrite Ht. cbn.
    by rewrite <-drop_drop, (app_assoc (take _ _)), take_drop. }
  destruct (ts_closed t) eqn:Hc; [by apply ts_idle_spec|].
  destruct (ts_read_queue s) as [|data q] eqn:Eq.
  - destruct (ts_done s) eqn:Hd; [|by apply ts_idle_spec]. apply Hgo.
    + unfold ts_to_read, with_stream. rewrite Ht, Eq. cbn. done.
    + right. split; [done|]. unfold ts_to_read, with_stream. cbn. rewrite Hd, drop_ge by lia. done.
  - apply Hgo.
    + unfold ts_to_read, with_stream. rewrite Ht, Eq.
      cbn [stream ts_read_queue ts_done ts_channel concat].
      rewrite (drop_ge (ts_read_buf t)), <-app_assoc by lia.
      destruct (Nat.ltb_spec (Nat.min (length data) cap) (length data)) as [En|En];
        cbn [ts_read_pos ts_read_buf].
      * by rewrite (app_assoc (take _ _)), take_drop.
      * by rewrite (drop_ge (ts_read_buf t)), take_ge by lia.
    + destruct (_ <? _)%nat; cbn; [|rewrite Hc]; done.
Qed.

Lemma tunnel_message_spec op s :
  ts_done s = false → ts_accepted op s = [] → ts_step_spec op s [] (tunnel_message s).
Proof.
  intros Hd Ha. unfold tunnel_message, channel_wait.
  assert (Hb : ∀ c, requested c = requested (ts_channel s) →
    (is_Some (stream s) → data_of (inbox (ts_channel s)) = []) →
    ts_step_spec op s [] (ts_break (set_ts_channel s c))).
  { intros c Hq Hn. split; cbn; try done; try congruence.
    - unfold ts_to_read. cbn. destruct (stream s); [|done]. rewrite Hd, Hn by done. done.
    - rewrite Ha, Hq. unfold ts_outgoing. rewrite <-app_assoc. by eexists.
    - unfold ts_wf, ts_to_read. cbn. destruct (stream s) as [t|]; [|done].
      intros [Hw Hq']. split; [|set_solver]. intros Hc. destruct (Hw Hc). congruence. }
  destruct (ts_channel s) as [[|m ms] rq] eqn:Ec; cbn [inbox requested].
  { by apply Hb. }
  assert (Hk : ∀ q, (is_Some (stream s) →
      data_of (m :: ms) = concat q ++ data_of ms) →
    ts_step_spec op s [] {| stream := stream s; ts_read_queue := ts_read_queue s ++ q;
      ts_cmd_queue := ts_cmd_queue s; ts_channel := {| inbox := ms; requested := rq |};
      ts_done := ts_done s |}).
  { intros q Hq. split; cbn; rewrite ?Ha; try done; try congruence.
    - unfold ts_to_read. cbn. destruct (stream s); [|done]. rewrite Hd, Ec. cbn.
      rewrite Hq, concat_app, <-!app_assoc by done. done.
    - intros _. unfold ts_outgoing. cbn. by rewrite Ec, app_nil_r.
    - unfold ts_outgoing. cbn. rewrite Ec, <-app_assoc. by eexists.
    - unfold ts_wf. cbn. destruct (stream s) as [t|]; [|done].
      intros [Hw Hq']. split; [|done]. intros Hc. destruct (Hw Hc). congruence. }
  assert (Hs : set_ts_channel s {| inbox := ms; requested := rq |}
    = {| stream := stream s; ts_read_queue := ts_read_queue s ++ [];
      ts_cmd_queue := ts_cmd_queue s; ts_channel := {| inbox := ms; requested := rq |};
      ts_done := ts_done s |}).
  { unfold set_ts_channel. by rewrite app_nil_r. }
  destruct m as [| |d|d|status|sg core| | |]; try (rewrite Hs; by apply Hk); [|by apply Hb].
  cbn [stream set_ts_channel]. destruct (stream s) as [t|] eqn:Ht.
  - apply Hk. intros _. cbn. by rewrite app_nil_r.
  - by apply Hb; [|intros []].
Qed.

Lemma tunnel_command_spec op s :
  ts_wf s → ts_done s = false → ts_accepted op s = [] →
  ts_step_spec op s [] (tunnel_command s).
Proof.
  intros Hwf Hd Ha. unfold tunnel_command.
  assert (Hw : ∀ c q cmd, ts_cmd_queue s = cmd :: q →
    ts_wf {| stream := stream s; ts_read_queue := ts_read_queue s; ts_cmd_queue := q;
             ts_channel := c; ts_done := false |}).
  { intros c q cmd Eq. unfold ts_wf in *. cbn. destruct (stream s) as [t|]; [|done].
    rewrite Eq in Hwf. destruct Hwf as [Hc Hq]. split; [|set_solver].
    intros Hc'. destruct (Hc Hc'). congruence. }
  assert (Hr : ∀ c q, inbox c = inbox (ts_channel s) →
    if stream s is Some _ then ts_to_read s = ts_to_read {| stream := stream s;
      ts_read_queue := ts_read_queue s; ts_cmd_queue := q; ts_channel := c; ts_done := false |}
    else @nil byte = []).
  { intros c q Hc. unfold ts_to_read. cbn. destruct (stream s); [|done]. by rewrite Hd, Hc. }
  assert (Hpre : ∀ cmd q, ts_cmd_queue s = cmd :: q →
    requested (ts_channel s) ++ [tunnel_action cmd] `prefix_of` ts_outgoing s ++ [ChClose]).
  { intros cmd q Eq. unfold ts_outgoing. rewrite Eq. cbn.
    exists (map tunnel_action q ++ [ChClose]). by rewrite <-!app_assoc. }
  assert (Hsend : ∀ cmd q, ts_cmd_queue s = cmd :: q →
    ts_step_spec op s [] (ts_request (tunnel_action cmd) {| stream := stream s;
      ts_read_queue := ts_read_queue s; ts_cmd_queue := q; ts_channel := ts_channel s;
      ts_done := ts_done s |})).
  { intros cmd q Eq. rewrite Hd. split; cbn; rewrite ?Ha, ?app_nil_r; try done.
    - by apply Hr.
    - intros _. unfold ts_outgoing. cbn. by rewrite Eq, <-app_assoc.
    - congruence.
    - by eapply Hpre.
    - intros _. by eapply Hw. }
  destruct (ts_cmd_queue s) as [|[data| |] q] eqn:Eq.
  - destruct (stream s) eqn:Ht; [by apply ts_idle_spec|]. split; cbn; try done; try congruence.
    + by rewrite Ht.
    + rewrite Ha. unfold ts_outgoing. rewrite Eq. cbn. by rewrite app_nil_r.
    + unfold ts_wf. cbn. by rewrite Ht.
  - by apply (Hsend (TWrite data) q).
  - by apply (Hsend TEof q).
  - assert (Ht : stream s = None).
    { unfold ts_wf in Hwf. destruct (stream s); [|done]. rewrite Eq in Hwf. set_solver. }
    split; cbn; rewrite ?Ha, ?Ht; try done; try congruence.
    + by eapply (Hpre TClose).
Qed.

Lemma stream_step_spec op s :
  ts_wf s → let '(bytes, s') := stream_step op s in ts_step_spec op s bytes s'.
Proof.
  intros Hwf.
  assert (Hbr : ∀ op', op' = SMessage ∨ op' = SCommand → ts_accepted op' s = []).
  { intros op' [-> | ->]; unfold ts_accepted; by destruct (ts_done s), (stream s). }
  assert (Hdead : stream s = None → ts_accepted op s = []).
  { intros Ht. unfold ts_accepted. rewrite Ht. by destruct (ts_done s). }
  destruct (stream s) as [t|] eqn:Ht; destruct op as [cap|buf|data| | | | | |];
    unfold stream_step; rewrite Ht;
    try (apply ts_idle_spec; by apply Hdead);
    try (destruct (ts_done s) eqn:Hd;
         [apply ts_idle_spec, Hbr; by auto
         |(apply tunnel_message_spec || apply tunnel_command_spec); by auto]).
  - pose proof (ts_poll_read_spec t cap s Ht) as H. by destruct (TunnelStream_poll_read t cap s) as [[]].
  - unfold TunnelStream_poll_write. destruct buf as [|b buf].
    { cbn [snd]. apply ts_idle_spec. unfold ts_accepted. by destruct (ts_done s), (stream s). }
    pose proof (ts_send_spec (SPollWrite (b :: buf)) s (TWrite (b :: buf))) as H.
    unfold ts_accepted in H. rewrite Ht in H.
    destruct (ts_send _ s) as [[]]; by apply H.
  - pose proof (ts_send_spec (SWrite data) s (TWrite data)) as H.
    unfold ts_accepted in H. rewrite Ht in H. unfold TunnelStream_write.
    destruct (ts_send _ s) as [[]]; by apply H.
  - apply ts_send_spec; [by eexists|done|]. unfold ts_accepted. by rewrite Ht.
  - pose proof (ts_send_spec SSendEof s TEof) as H.
    unfold ts_accepted in H. rewrite Ht in H. unfold TunnelStream_send_eof.
    destruct (ts_send _ s) as [[]]; by apply H.
  - apply ts_user_spec; cbn; unfold ts_send, ts_accepted; rewrite ?Ht; destruct (ts_done s) eqn:Hd;
      cbn; rewrite ?app_nil_r; done.
  - apply ts_user_spec; cbn; unfold ts_accepted; rewrite ?Ht; destruct (ts_done s) eqn:Hd;
      cbn; rewrite ?app_nil_r; done.
Qed.

(** ** Every schedule *)

Lemma ts_accepted_done ops s : ts_done s = true → ts_wf s → ts_run_accepted ops s = [].
Proof.
  revert s. induction ops as [|op ops IH]; intros s Hd Hw; [done|]. cbn [ts_run_accepted].
  pose proof (stream_step_spec op s Hw) as H. destruct (stream_step op s) as [b s1].
  destruct (tsp_done _ _ _ _ H Hd) as [Hd1 _].
  cbn [snd]. rewrite IH by (done || by eapply tsp_wf). unfold ts_accepted. by rewrite Hd.
Qed.

Lemma stream_run_spec ops s :
  ts_wf s →
  let '(bytes, s') := stream_run ops s in
  (if stream s' is Some _ then ts_to_read s = bytes ++ ts_to_read s'
   else bytes `prefix_of` ts_to_read s) ∧
  (ts_done s' = false →
   ts_outgoing s' = ts_outgoing s ++ map tunnel_action (ts_run_accepted ops s)) ∧
  (requested (ts_channel s') `prefix_of`
    ts_outgoing s ++ map tunnel_action (ts_run_accepted ops s) ++ [ChClose]) ∧
  (ts_done s = true → ts_done s' = true ∧ ts_channel s' = ts_channel s) ∧
  (stream s = None → stream s' = None) ∧ ts_wf s'.
Proof.
  revert s. induction ops as [|op ops IH]; intros s Hw; cbn [stream_run ts_run_accepted].
  { split_and!; try done; rewrite ?app_nil_r; try done.
    - destruct (stream s); [done|apply prefix_nil].
    - unfold ts_outgoing. rewrite <-app_assoc. by eexists. }
  pose proof (stream_step_spec op s Hw) as Hs. destruct (stream_step op s) as [b1 s1]. cbn [snd].
  destruct Hs as [S1 S2 S3 S4 S5 S6]. specialize (S6 Hw).
  specialize (IH s1 S6). destruct (stream_run ops s1) as [b2 s2] eqn:E2.
  destruct IH as (R1 & R2 & R3 & R4 & R5 & R6). split_and!; try done.
  - destruct (stream s1) as [t1|] eqn:E1.
    + destruct (stream s2); rewrite S1; [by rewrite R1, app_assoc|]. by apply prefix_app.
    + rewrite (R5 eq_refl) in *. subst b1. unfold ts_to_read in R1. rewrite E1 in R1.
      apply prefix_nil_inv in R1. subst b2. apply prefix_nil.
  - intros Hd. assert (Hd1 : ts_done s1 = false).
    { destruct (ts_done s1); [|done]. destruct R4 as [R4 _]; [done|congruence]. }
    rewrite R2, S3 by done. by rewrite map_app, app_assoc.
  - destruct (ts_done s1) eqn:Hd1.
    + destruct R4 as [_ ->]; [done|]. by rewrite ts_accepted_done, app_nil_r.
    + rewrite S3 in R3 by done. by rewrite map_app, <-app_assoc, (app_assoc (ts_outgoing s)).
  - intros Hd. destruct (S4 Hd) as [Hd1 E1]. destruct (R4 Hd1) as [Hd2 E3].
    split; congruence.
  - auto.
Qed.

(** A close is the last thing requested. *)
Definition closes_last (acts : list ShellAction) : Prop :=
  ∀ before after, acts = before ++ ChClose :: after → after = [].

(** A step requests nothing, or one thing while the task runs; a close ends the task. *)
Lemma stream_step_requests op s :
  let s' := snd (stream_step op s) in
  (requested (ts_channel s') = requested (ts_channel s) ∧ (ts_done s = true → ts_done s' = true)) ∨
  ∃ a, ts_done s = false ∧ requested (ts_channel s') = requested (ts_channel s) ++ [a] ∧
       (a = ChClose → ts_done s' = true).
Proof.
  cbv zeta. unfold stream_step, TunnelStream_poll_write, TunnelStream_write, TunnelStream_send_eof,
    TunnelStream_poll_shutdown, TunnelStream_close, TunnelStream_poll_read, ts_send.
  destruct (stream s) as [t|] eqn:Ht, op as [cap|[|b buf]|data| | | | | |]; try (by left);
    try (by left; destruct (ts_done s) eqn:Hd; cbn; rewrite ?Hd).
  - left. destruct (_ <? _)%nat; [done|]. destruct (ts_closed t); [done|].
    destruct (ts_read_queue s); [|done]. destruct (ts_done s) eqn:Hd; cbn; by rewrite ?Hd.
  - left. destruct (ts_done s) eqn:Hd; [done|]. split; [|done].
    unfold tunnel_message, channel_wait. destruct (ts_channel s) as [[|[] ms] rq]; cbn; rewrite ?Ht; done.
  - destruct (ts_done s) eqn:Hd; [by left|]. unfold tunnel_command.
    destruct (ts_cmd_queue s) as [|[] q]; rewrite ?Ht; cbn; rewrite ?Hd;
      [by left|right; eexists; split; [done|]; by split..].
  - left. destruct (ts_done s) eqn:Hd; [done|]. split; [|done].
    unfold tunnel_message, channel_wait. destruct (ts_channel s) as [[|[] ms] rq]; cbn; rewrite ?Ht; done.
  - destruct (ts_done s) eqn:Hd; [by left|]. right. unfold tunnel_command.
    destruct (ts_cmd_queue s) as [|[] q]; rewrite ?Ht; cbn; eexists; (split; [done|]); by split.
Qed.

Lemma stream_run_closes ops s acts :
  closes_last acts → (ts_done s = false → ChClose ∉ acts) →
  ∃ more, requested (ts_channel (snd (stream_run ops s))) = requested (ts_channel s) ++ more ∧
          closes_last (acts ++ more).
Proof.
  revert s acts. induction ops as [|op ops IH]; intros s acts Hl Hd; cbn [stream_run].
  { exists []. by rewrite !app_nil_r. }
  pose proof (stream_step_requests op s) as Hs. destruct (stream_step op s) as [b1 s1].
  cbn [snd] in Hs. specialize (IH s1). destruct (stream_run ops s1) as [b2 s2]. cbn [snd] in *.
  destruct Hs as [[<- Hmono]|(a & Hn & E & Hend)].
  - apply IH; [done|]. intros H1. apply Hd. destruct (ts_done s); [|done].
    by rewrite Hmono in H1.
  - specialize (Hd Hn). destruct (IH (acts ++ [a])) as (more & Em & Hm).
    + intros l r Hlr. destruct (decide (r = [])) as [|Hr]; [done|exfalso].
      destruct (exists_last Hr) as (r' & x & ->). rewrite app_comm_cons, app_assoc in Hlr.
      apply app_inj_tail in Hlr as [-> _]. set_solver.
    + intros H1. rewrite not_elem_of_app. split; [done|].
      intros Ha%list_elem_of_singleton. by rewrite Hend in H1.
    + exists (a :: more). rewrite Em, E, <-app_assoc. split; [done|]. by rewrite <-app_assoc in Hm.
Qed.


(** ** The task ends *)

Inductive tunnel_step (s : StreamState) : StreamState → Prop :=
| tstep_message : ts_done s = false → tunnel_step s (tunnel_message s)
| tstep_command : ts_done s = false → ts_cmd_queue s ≠ [] ∨ stream s = None →
    tunnel_step s (tunnel_command s).

Definition tunnel_measure (s : StreamState) : nat :=
  if ts_done s then 0 else S (length (inbox (ts_channel s)) + length (ts_cmd_queue s)).

Lemma tunnel_step_decreases s s' :
  tunnel_step s s' → (tunnel_measure s' < tunnel_measure s)%nat.
Proof.
  destruct 1 as [Hd|Hd Hq]; unfold tunnel_measure; rewrite Hd.
  - unfold tunnel_message, channel_wait. destruct (ts_channel s) as [[|m ms] rq]; cbn; [lia|].
    destruct m as [| |d|d|status|sg core| | |]; cbn; rewrite ?Hd; try lia;
      destruct (stream s); cbn; rewrite ?Hd; lia.
  - unfold tunnel_command. destruct (ts_cmd_queue s) as [|[data| |] q] eqn:Eq; cbn; rewrite ?Hd; try lia.
    destruct Hq as [|Hq]; [done|]. rewrite Hq. cbn. lia.
Qed.

(** The bridge task of a tunnel stream ends after at most one step more than there are
    messages and commands, in whatever order it takes them, and it is never stuck
    before. *)
Lemma tunnel_bridge_terminates (s s' : StreamState) (n : nat) :
  nsteps tunnel_step n s s' →
  (n ≤ S (length (inbox (ts_channel s)) + length (ts_cmd_queue s)))%nat ∧
  (nf tunnel_step s' → ts_done s' = true).
Proof.
  intros Hn. apply (nsteps_measure _ tunnel_measure) in Hn; [|apply tunnel_step_decreases].
  split.
  - unfold tunnel_measure in Hn. destruct (ts_done s); lia.
  - intros Hnf. destruct (ts_done s') eqn:Hd; [done|]. destruct Hnf. eexists. by apply tstep_message.
Qed.

(** ** Direct channels *)

(** Paths are valid UTF-8: [display] and [to_string_lossy] are the path itself. *)

Record DirectTcpBuilder (Handle : Type) := {
  dt_session_id : Z;
  dt_handle : option Handle;
  dt_target : TcpEndpoint;
  dt_timeouts : Timeouts;
}.
Arguments dt_session_id {Handle} _.
Arguments dt_handle {Handle} _.
Arguments dt_target {Handle} _.
Arguments dt_timeouts {Handle} _.

Record DirectStreamLocalBuilder (Handle : Type) := {
  ds_session_id : Z;
  ds_handle : option Handle;
  ds_socket_path : string;
  ds_timeouts : Timeouts;
}.
Arguments ds_session_id {Handle} _.
Arguments ds_handle {Handle} _.
Arguments ds_socket_path {Handle} _.
Arguments ds_timeouts {Handle} _.

(** [format!("{}:{}", e.host(), e.port())]. *)
Definition host_port (e : TcpEndpoint) : string := tcp_host e +:+ ":" +:+ dec (tcp_port e).

Section Direct.
Context {Handle : Type} (russh_text : RusshError → string).

Definition DirectTcpBuilder_from_session (session_id : Z) (handle : option Handle)
    (target : TcpEndpoint) (timeouts : Timeouts) : DirectTcpBuilder Handle :=
  {| dt_session_id := session_id; dt_handle := handle; dt_target := target;
     dt_timeouts := timeouts |}.

Definition DirectStreamLocalBuilder_from_session (session_id : Z) (handle : option Handle)
    (socket_path : string) (timeouts : Timeouts) : DirectStreamLocalBuilder Handle :=
  {| ds_session_id := session_id; ds_handle := handle; ds_socket_path := socket_path;
     ds_timeouts := timeouts |}.

(** [channel_open_direct_tcpip(host, port, originator, originator_port)] under the
    timeout: [None] when it elapsed. *)
Definition DirectTcpBuilder_open
    (channel_open_direct_tcpip :
       Handle → string → Z → string → Z → Timeouts → option (result RusshError ChannelState))
    (self : DirectTcpBuilder Handle) : Result StreamState :=
  match dt_handle self with
  | None => Err (Error_unsupported "direct TCP requires a connected session")
  | Some handle =>
      match channel_open_direct_tcpip handle (tcp_host (dt_target self))
              (tcp_port (dt_target self)) "127.0.0.1" 0 (dt_timeouts self) with
      | None =>
          Err (Error_timeout OpChannelOpen
                 ("direct-tcpip channel open timed out for " +:+ host_port (dt_target self)))
      | Some (Err e) =>
          Err (Error_forwarding_with_source FwdChannelOpen (russh_text e)
                 ("failed to open direct-tcpip channel to " +:+ host_port (dt_target self)))
      | Some (Ok channel) => Ok (tunnel_stream channel)
      end
  end.

Definition DirectStreamLocalBuilder_open
    (channel_open_direct_streamlocal :
       Handle → string → Timeouts → option (result RusshError ChannelState))
    (self : DirectStreamLocalBuilder Handle) : Result StreamState :=
  match ds_handle self with
  | None => Err (Error_unsupported "direct streamlocal requires a connected session")
  | Some handle =>
      match channel_open_direct_streamlocal handle (ds_socket_path self) (ds_timeouts self) with
      | None =>
          Err (Error_timeout OpChannelOpen
                 ("direct-streamlocal channel open timed out for " +:+ ds_socket_path self))
      | Some (Err e) =>
          Err (Error_forwarding_with_source FwdChannelOpen (russh_text e)
                 ("failed to open direct-streamlocal channel to " +:+ ds_socket_path self))
      | Some (Ok channel) => Ok (tunnel_stream channel)
      end
  end.
End Direct.

(** ** Copying between a channel and a socket *)

Inductive SocketOp := SockWrite (data : list byte) | SockShutdown.

(** [tokio::io::copy]: chunk after chunk until the source ends or the [n]-th write
    fails. *)
Fixpoint copy_chunks (writes : nat) (chunks : list (list byte)) : list (list byte) :=
  match chunks, writes with
  | [], _ | _, O => []
  | chunk :: chunks', S n => chunk :: copy_chunks n chunks'
  end.

(** The two directions of [copy_bidirectional] are independent: what each side is
    sent, given the chunks that arrive on the other and the number of writes that
    succeed.  The TCP socket is shut down and the channel sent end of file
    whether or not the copy succeeded. *)
Definition copy_bidirectional (from_channel from_tcp : list (list byte))
    (tcp_writes channel_writes : nat) : list SocketOp * list ShellAction :=
  (map SockWrite (copy_chunks tcp_writes from_channel) ++ [SockShutdown],
   map ChData (copy_chunks channel_writes from_tcp) ++ [ChEof]).

(** [copy_bidirectional_unix]: dropping the owned write half shuts the socket down. *)
Definition copy_bidirectional_unix (from_channel from_unix : list (list byte))
    (unix_writes channel_writes : nat) : list SocketOp * list ShellAction :=
  (map SockWrite (copy_chunks unix_writes from_channel) ++ [SockShutdown],
   map ChData (copy_chunks channel_writes from_unix) ++ [ChEof]).

(** Outcome of connecting within the 30 seconds allowed. *)
Inductive ConnectResult := Connected | ConnectFailed | ConnectTimedOut.

Definition copy_bidirectional_with_addr (connect : string → ConnectResult) (addr : string)
    (from_channel from_tcp : list (list byte)) (tcp_writes channel_writes : nat) :
    list SocketOp * list ShellAction :=
  match connect addr with
  | Connected => copy_bidirectional from_channel from_tcp tcp_writes channel_writes
  | ConnectFailed | ConnectTimedOut => ([], [ChClose])
  end.

Definition copy_bidirectional_with_unix_path (connect : string → ConnectResult) (path : string)
    (from_channel from_unix : list (list byte)) (unix_writes channel_writes : nat) :
    list SocketOp * list ShellAction :=
  match connect path with
  | Connected => copy_bidirectional_unix from_channel from_unix unix_writes channel_writes
  | ConnectFailed | ConnectTimedOut => ([], [ChClose])
  end.

Lemma copy_chunks_all n chunks : (length chunks ≤ n)%nat → copy_chunks n chunks = chunks.
Proof.
  revert n. induction chunks as [|c cs IH]; intros [|n] H; cbn in *; try done; [lia|].
  rewrite IH by lia. done.
Qed.

(** The bytes a socket and a channel are sent. *)
Definition socket_bytes (ops : list SocketOp) : list byte :=
  concat (map (λ o, match o with SockWrite d => d | SockShutdown => [] end) ops).
Definition channel_bytes (ops : list ShellAction) : list byte :=
  concat (map (λ o, match o with ChData d => d | _ => [] end) ops).

(** When no write fails, each side receives exactly the bytes of the other, then one
    end of stream. *)
Lemma copy_bidirectional_complete from_channel from_tcp n m :
  (length from_channel ≤ n)%nat → (length from_tcp ≤ m)%nat →
  let '(sock, chan) := copy_bidirectional from_channel from_tcp n m in
  socket_bytes sock = concat from_channel ∧ last sock = Some SockShutdown ∧
  channel_bytes chan = concat from_tcp ∧ last chan = Some ChEof.
Proof.
  intros H1 H2. unfold copy_bidirectional. rewrite !copy_chunks_all by done.
  rewrite !last_snoc. unfold socket_bytes, channel_bytes.
  rewrite !map_app, !concat_app, !map_map, !map_id. cbn. by rewrite !app_nil_r.
Qed.

(** ** Concrete runs *)

Section Runs.
Definition ts_run_channel : ChannelState :=
  {| inbox := [CData (as_bytes "abc"); CExtendedData (as_bytes "lost"); CData (as_bytes "de"); CEof;
               CClose]; requested := [] |}.

Example tunnel_run_example :
  let '(bytes, s) := stream_run
    [SMessage; SRead 2; SWrite (as_bytes "hi"); SMessage; SMessage; SRead 9; SCommand; SShutdown;
     SCommand; SRead 9; SMessage; SMessage; SRead 9]
    (tunnel_stream ts_run_channel) in
  bytes = as_bytes "abcde" ∧ requested (ts_channel s) = [ChData (as_bytes "hi"); ChEof] ∧
  (ts_closed <$> stream s) = Some true.
Proof. by vm_compute. Qed.

(** [close] gives up the stream, and with it the receiver the task checks when data
    arrives: if data is there first, the task stops, and writes that were accepted
    are never sent, nor is the close. *)
Theorem close_can_lose_writes :
  let ops := [SWrite (as_bytes "last words"); SClose; SMessage; SCommand; SCommand] in
  let s0 := tunnel_stream ts_run_channel in
  ts_run_accepted ops s0 = [TWrite (as_bytes "last words"); TClose] ∧
  ts_done (snd (stream_run ops s0)) = true ∧
  requested (ts_channel (snd (stream_run ops s0))) = [].
Proof. by vm_compute. Qed.
End Runs.
