(* ===== verification/Tunnel.v ===== *)
(** * Port forwarding ([russh-extra/src/tunnel.rs], the forwarding callbacks of
    [russh-extra/src/client.rs])

    The tunnel builder, local and remote forwarding over TCP and Unix sockets, the
    registries that route forwarded channels, and the tasks that undo a forward.
    Binding a listener, accepting on it and the replies to global requests are the
    operating system's and the server's: they are given.  The registries, the
    global requests made and the spawned tasks are the state. *)
From S2P Require Import Prelude RustStr RustWords RustPath Channel CoreError Endpoint.
From S2P Require Import Config KnownHosts KnownHostsSpec ClientErrors ClientCommand Shell.
From S2P Require Import TunnelStream.

Inductive GlobalRequest :=
| TcpipForward (host : string) (port : Z)
| CancelTcpipForward (host : string) (port : Z)
| StreamlocalForward (path : string)
| CancelStreamlocalForward (path : string).

(** What a tunnel's task does once it is told to close: stop the accept loop, or
    undo the forward at the server. *)
Inductive TunnelTask :=
| AcceptLoop
| AcceptLoopUnix (path : string)
| CancelTcp (host : string) (port : Z)
| CancelStreamLocal (path : string).

(** A spawned task that has work to do: the cleanup after a refused request, a
    tunnel's task that has been signalled, and one that has left the registry and
    has its request to make. *)
Inductive Task :=
| Cleanup (port : Z)
| CleanupStreamLocal (path : string)
| Signalled (task : TunnelTask)
| Unregistered (task : TunnelTask).

Record Forwards := {
  remote_forwards : gmap Z TcpEndpoint;
  remote_streamlocal_forwards : gmap string string;
  global_requests : list GlobalRequest;
  tasks : list Task;
  next_session_id : Z;
}.

Definition set_tcp (f : Forwards) (m : gmap Z TcpEndpoint) : Forwards :=
  {| remote_forwards := m; remote_streamlocal_forwards := remote_streamlocal_forwards f;
     global_requests := global_requests f; tasks := tasks f; next_session_id := next_session_id f |}.
Definition set_unix (f : Forwards) (m : gmap string string) : Forwards :=
  {| remote_forwards := remote_forwards f; remote_streamlocal_forwards := m;
     global_requests := global_requests f; tasks := tasks f; next_session_id := next_session_id f |}.
Definition log_global (f : Forwards) (r : GlobalRequest) : Forwards :=
  {| remote_forwards := remote_forwards f;
     remote_streamlocal_forwards := remote_streamlocal_forwards f;
     global_requests := global_requests f ++ [r]; tasks := tasks f;
     next_session_id := next_session_id f |}.
Definition set_tasks (f : Forwards) (l : list Task) : Forwards :=
  {| remote_forwards := remote_forwards f;
     remote_streamlocal_forwards := remote_streamlocal_forwards f;
     global_requests := global_requests f; tasks := l; next_session_id := next_session_id f |}.
Definition take_session_id (f : Forwards) : Z * Forwards :=
  let '(id, next) := SessionId_next (next_session_id f) in
  (id, {| remote_forwards := remote_forwards f;
          remote_streamlocal_forwards := remote_streamlocal_forwards f;
          global_requests := global_requests f; tasks := tasks f; next_session_id := next |}).

(** ** Tunnels *)

Record SocketAddr := { sa_ip : string; sa_port : Z }.

Inductive TunnelBindPoint :=
| BoundTcp (addr : SocketAddr)
| BoundStreamLocal (path : string).

(** [close_tx] and [task] of a live tunnel are present together. *)
Record Tunnel := {
  t_session_id : Z;
  t_spec : ForwardSpec;
  t_bound : TunnelBindPoint;
  t_task : TunnelTask;
}.

Definition bound_addr (t : Tunnel) : option SocketAddr :=
  match t_bound t with BoundTcp addr => Some addr | BoundStreamLocal _ => None end.
Definition bound_path (t : Tunnel) : option string :=
  match t_bound t with BoundTcp _ => None | BoundStreamLocal path => Some path end.

(** ** Local forwarding *)

Section Start.
(** [SocketAddr]'s [FromStr], and what binding a listener yields: the bound address,
    or an error of [bind] or of [local_addr]. *)
Context (parse_socket_addr : string → option SocketAddr).

Definition start_local_forward (bind_tcp : string → result string (result string SocketAddr))
    (bind target : TcpEndpoint) (f : Forwards) : Result Tunnel * Forwards :=
  let bind_addr := host_port bind in
  match bind_tcp bind_addr with
  | Err e =>
      (Err (Error_forwarding_with_source FwdBind e
              ("failed to bind local listener at " +:+ bind_addr)), f)
  | Ok (Err e) =>
      (Err (Error_forwarding_with_source FwdListen e "failed to get local listener address"), f)
  | Ok (Ok bound) =>
      let '(id, f') := take_session_id f in
      (Ok {| t_session_id := id; t_spec := Tcp Local bind target; t_bound := BoundTcp bound;
             t_task := AcceptLoop |}, f')
  end.

(** The path the listener reports, if it has one, else the path asked for. *)
Definition start_local_streamlocal_forward (bind_unix : string → result string (option string))
    (bind target : StreamLocalSpec) (f : Forwards) : Result Tunnel * Forwards :=
  let bind_path := sl_path bind in
  match bind_unix bind_path with
  | Err e =>
      (Err (Error_forwarding FwdBind
              ("failed to bind local Unix listener at " +:+ bind_path +:+ ": " +:+ e)), f)
  | Ok reported =>
      let '(id, f') := take_session_id f in
      (Ok {| t_session_id := id; t_spec := StreamLocal Local bind target;
             t_bound := BoundStreamLocal (default bind_path reported);
             t_task := AcceptLoopUnix bind_path |}, f')
  end.

(** ** Remote forwarding *)

(** [u16::try_from(port).unwrap_or(0)]. *)
Definition port_u16 (port : Z) : Z := if port <? 2 ^ 16 then port else 0.

(** [start_remote_forward] up to its first wait for the server: the port is registered. *)
Definition register_remote_forward (bind target : TcpEndpoint) (f : Forwards) : Result Forwards :=
  match remote_forwards f !! tcp_port bind with
  | Some existing =>
      Err (Error_forwarding FwdBind
             ("remote port " +:+ dec (tcp_port bind)
              +:+ " is already registered for forwarding to " +:+ host_port existing))
  | None => Ok (set_tcp f (<[tcp_port bind := target]> (remote_forwards f)))
  end.

(** The rest, which holds the session's handle from the request to its answer.
    [reply]: the answer to [tcpip_forward], [None] when it timed out. *)
Definition request_remote_forward (reply : option (result RusshError Z))
    (bind target : TcpEndpoint) (f : Forwards) : Result Tunnel * Forwards :=
  let remote_port := tcp_port bind in
  let remote_host := tcp_host bind in
  let f := log_global f (TcpipForward remote_host remote_port) in
  match reply with
  | None =>
      (Err (Error_timeout OpForwarding
              "timed out waiting for remote tcpip-forward response"), f)
  | Some (Err e) =>
      (Err (Error_forwarding FwdGlobalRequest
              (match e with
               | RequestDenied => "remote tcpip-forward request denied for "
               | _ => "failed to request remote tcpip-forward for "
               end +:+ remote_host +:+ ":" +:+ dec remote_port)),
       set_tasks f (tasks f ++ [Cleanup (tcp_port bind)]))
  | Some (Ok allocated_port) =>
      let allocated_port_u16 := port_u16 allocated_port in
      let bound := default {| sa_ip := "0.0.0.0"; sa_port := allocated_port_u16 |}
                     (parse_socket_addr (remote_host +:+ ":" +:+ dec allocated_port_u16)) in
      let '(id, f) := take_session_id f in
      (Ok {| t_session_id := id;
             t_spec := Tcp Remote (TcpEndpoint_new remote_host (wrap 16 allocated_port)) target;
             t_bound := BoundTcp bound;
             t_task := CancelTcp remote_host allocated_port |}, f)
  end.

Definition start_remote_forward (reply : option (result RusshError Z))
    (bind target : TcpEndpoint) (f : Forwards) : Result Tunnel * Forwards :=
  match register_remote_forward bind target f with
  | Err e => (Err e, f)
  | Ok f => request_remote_forward reply bind target f
  end.

Definition start_remote_streamlocal_forward (reply : option (result RusshError unit))
    (bind target : StreamLocalSpec) (f : Forwards) : Result Tunnel * Forwards :=
  let socket_path := sl_path bind in
  match remote_streamlocal_forwards f !! socket_path with
  | Some _ =>
      (Err (Error_forwarding FwdBind
              ("remote streamlocal path " +:+ socket_path
               +:+ " is already registered for forwarding")), f)
  | None =>
      let f := set_unix f (<[socket_path := sl_path target]> (remote_streamlocal_forwards f)) in
      let f := log_global f (StreamlocalForward socket_path) in
      match reply with
      | None =>
          (Err (Error_timeout OpForwarding
                  "timed out waiting for remote streamlocal-forward response"), f)
      | Some (Err e) =>
          (Err (Error_forwarding FwdGlobalRequest
                  (match e with
                   | RequestDenied => "remote streamlocal-forward request denied for "
                   | _ => "failed to request remote streamlocal-forward for "
                   end +:+ socket_path)),
           set_tasks f (tasks f ++ [CleanupStreamLocal socket_path]))
      | Some (Ok _) =>
          let '(id, f) := take_session_id f in
          (Ok {| t_session_id := id; t_spec := StreamLocal Remote bind target;
                 t_bound := BoundStreamLocal socket_path;
                 t_task := CancelStreamLocal socket_path |}, f)
      end
  end.

(** ** The builder *)

Record TunnelBuilder (Handle : Type) := {
  tb_session_id : Z;
  tb_handle : option Handle;
  tb_spec : ForwardSpec;
  tb_timeouts : Timeouts;
}.
Arguments tb_session_id {Handle} _.
Arguments tb_handle {Handle} _.
Arguments tb_spec {Handle} _.
Arguments tb_timeouts {Handle} _.

(** The registries are the session's: [from_session] is always given them. *)
Definition TunnelBuilder_from_session {Handle} (session_id : Z) (handle : option Handle)
    (spec : ForwardSpec) (timeouts : Timeouts) : TunnelBuilder Handle :=
  {| tb_session_id := session_id; tb_handle := handle; tb_spec := spec; tb_timeouts := timeouts |}.

Definition TunnelBuilder_start {Handle}
    (bind_tcp : string → result string (result string SocketAddr))
    (bind_unix : string → result string (option string))
    (tcpip_forward : Handle → string → Z → Timeouts → option (result RusshError Z))
    (streamlocal_forward : Handle → string → Timeouts → option (result RusshError unit))
    (self : TunnelBuilder Handle) (f : Forwards) : Result Tunnel * Forwards :=
  match tb_handle self with
  | None => (Err (Error_unsupported "port forwarding requires a connected session"), f)
  | Some handle =>
      match tb_spec self with
      | Tcp Local bind target => start_local_forward bind_tcp bind target f
      | Tcp Remote bind target =>
          start_remote_forward
            (tcpip_forward handle (tcp_host bind) (tcp_port bind) (tb_timeouts self))
            bind target f
      | StreamLocal Local bind target => start_local_streamlocal_forward bind_unix bind target f
      | StreamLocal Remote bind target =>
          start_remote_streamlocal_forward
            (streamlocal_forward handle (sl_path bind) (tb_timeouts self)) bind target f
      end
  end.
End Start.

(** ** Ending a tunnel *)

(** Telling the task to close: what [close], [abort] and [Drop] all do first. *)
Definition Tunnel_signal (t : Tunnel) (f : Forwards) : Forwards :=
  set_tasks f (tasks f ++ [Signalled (t_task t)]).

Definition Tunnel_abort (t : Tunnel) (f : Forwards) : Forwards := Tunnel_signal t f.
Definition Tunnel_drop (t : Tunnel) (f : Forwards) : Forwards := Tunnel_signal t f.

(** The first part of a signalled task: it leaves the registry. *)
Definition task_unregister (task : TunnelTask) (f : Forwards) : Forwards :=
  match task with
  | AcceptLoop | AcceptLoopUnix _ => f
  | CancelTcp _ port => set_tcp f (delete (port_u16 port) (remote_forwards f))
  | CancelStreamLocal path => set_unix f (delete path (remote_streamlocal_forwards f))
  end.

(** The second: it asks the server to cancel; a failure is only logged. *)
Definition task_request (task : TunnelTask) (f : Forwards) : Forwards :=
  match task with
  | AcceptLoop | AcceptLoopUnix _ => f
  | CancelTcp host port => log_global f (CancelTcpipForward host port)
  | CancelStreamLocal path => log_global f (CancelStreamlocalForward path)
  end.

(** [Tunnel::close]: signals the task and waits for it to finish. *)
Definition Tunnel_close (t : Tunnel) (f : Forwards) : Result unit * Forwards :=
  (Ok (), task_request (t_task t) (task_unregister (t_task t) f)).

(** The next part of the [i]-th spawned task.  The two parts take different locks:
    anything can happen in between. *)
Definition run_task (i : nat) (f : Forwards) : Forwards :=
  let rest := take i (tasks f) ++ drop (S i) (tasks f) in
  match tasks f !! i with
  | None => f
  | Some (Cleanup port) => set_tasks (set_tcp f (delete port (remote_forwards f))) rest
  | Some (CleanupStreamLocal path) =>
      set_tasks (set_unix f (delete path (remote_streamlocal_forwards f))) rest
  | Some (Signalled task) => set_tasks (task_unregister task f) (rest ++ [Unregistered task])
  | Some (Unregistered task) => set_tasks (task_request task f) rest
  end.

(** ** Accepting *)

Inductive AcceptEvent (Stream : Type) :=
| CloseSignal
| Accepted (stream : Stream)
| AcceptError.
Arguments CloseSignal {Stream}.
Arguments Accepted {Stream} stream.
Arguments AcceptError {Stream}.

(** [run_local_accept_loop]: the connections it forwards, and whether it has stopped. *)
Fixpoint run_local_accept_loop {Stream} (events : list (AcceptEvent Stream)) :
    list Stream * bool :=
  match events with
  | [] => ([], false)
  | CloseSignal :: _ => ([], true)
  | Accepted s :: events' =>
      let '(spawned, stopped) := run_local_accept_loop events' in (s :: spawned, stopped)
  | AcceptError :: events' => run_local_accept_loop events'
  end.

(** [run_local_streamlocal_accept_loop]: and the socket file it removes when it stops. *)
Definition run_local_streamlocal_accept_loop {Stream} (bind_path : string)
    (events : list (AcceptEvent Stream)) : list Stream * option string :=
  let '(spawned, stopped) := run_local_accept_loop events in
  (spawned, if stopped then Some bind_path else None).

(** A connection's fate: the channel request made for it, and the copy unless the
    channel could not be opened. *)
Record Forwarded := {
  fw_host : string;
  fw_port : Z;
  fw_originator : string;
  fw_originator_port : Z;
  fw_copied : bool;
}.

Definition forward_direct_tcpip_connection (channel_open : string → Z → bool)
    (target : TcpEndpoint) : Forwarded :=
  {| fw_host := tcp_host target; fw_port := tcp_port target; fw_originator := "127.0.0.1";
     fw_originator_port := 0; fw_copied := channel_open (tcp_host target) (tcp_port target) |}.

(** The path asked for, and whether the connection is copied. *)
Definition forward_direct_streamlocal_connection (channel_open : string → bool)
    (target_path : string) : string * bool := (target_path, channel_open target_path).

(** ** Channels the server opens *)

(** What becomes of the channel: closed, or copied to or from an address or socket. *)
Inductive ServerChannel :=
| CopyTcp (addr : string)
| CopyUnix (path : string)
| CloseChannel.

Definition server_channel_open_forwarded_tcpip (connected_port : Z) (f : Forwards) :
    ServerChannel :=
  match remote_forwards f !! port_u16 connected_port with
  | Some target => CopyTcp (host_port target)
  | None => CloseChannel
  end.

Definition server_channel_open_forwarded_streamlocal (socket_path : string) (f : Forwards) :
    ServerChannel :=
  match remote_streamlocal_forwards f !! socket_path with
  | Some target_path => CopyUnix target_path
  | None => CloseChannel
  end.

Definition server_channel_open_direct_tcpip : ServerChannel := CloseChannel.

(** [forward_x11_channel]: a path that starts with [/] is a Unix socket, anything else
    an address; [connect] says whether the connection succeeds. *)
Definition forward_x11_channel (connect : ServerChannel → bool) (display_path : string) :
    ServerChannel :=
  let dest := if starts_with "/" display_path then CopyUnix display_path
              else CopyTcp display_path in
  if connect dest then dest else CloseChannel.

Definition server_channel_open_x11 (connect : ServerChannel → bool)
    (x11_display : option string) : ServerChannel :=
  match x11_display with
  | Some display_path => forward_x11_channel connect display_path
  | None => CloseChannel
  end.

(** [ssh_auth_sock]: the environment variable [SSH_AUTH_SOCK]. *)
Definition server_channel_open_agent_forward (connect : ServerChannel → bool)
    (ssh_auth_sock : option string) : ServerChannel :=
  match ssh_auth_sock with
  | Some socket_path =>
      if connect (CopyUnix socket_path) then CopyUnix socket_path else CloseChannel
  | None => CloseChannel
  end.

(** ** Schedules of remote TCP forwards *)

(** The session's forwards, the calls of [start_remote_forward] that wait for the server's
    answer, and the tunnels its user holds. *)
Record ForwardSession := {
  forwards : Forwards;
  starting : list (TcpEndpoint * TcpEndpoint);
  tunnels : list Tunnel;
}.

Inductive ForwardOp :=
| FStart (bind target : TcpEndpoint)
| FReply (i : nat) (reply : option (result RusshError Z))
| FEnd (i : nat)
| FRun (i : nat).

Definition remove_at {X} (i : nat) (l : list X) : list X := take i l ++ drop (S i) l.

Definition forward_step (parse : string → option SocketAddr) (op : ForwardOp) (s : ForwardSession) :
    ForwardSession :=
  match op with
  | FStart bind target =>
      match register_remote_forward bind target (forwards s) with
      | Ok f => {| forwards := f; starting := starting s ++ [(bind, target)]; tunnels := tunnels s |}
      | Err _ => s
      end
  | FReply i reply =>
      match starting s !! i with
      | Some (bind, target) =>
          let '(r, f) := request_remote_forward parse reply bind target (forwards s) in
          {| forwards := f; starting := remove_at i (starting s);
             tunnels := tunnels s ++ match r with Ok t => [t] | Err _ => [] end |}
      | None => s
      end
  | FEnd i =>
      match tunnels s !! i with
      | Some t => {| forwards := Tunnel_signal t (forwards s); starting := starting s;
                     tunnels := remove_at i (tunnels s) |}
      | None => s
      end
  | FRun i =>
      {| forwards := run_task i (forwards s); starting := starting s; tunnels := tunnels s |}
  end.

Definition forward_run (parse : string → option SocketAddr) (ops : list ForwardOp) (s : ForwardSession) :
    ForwardSession := fold_left (λ s op, forward_step parse op s) ops s.

Definition ForwardSession_new (id : Z) : ForwardSession :=
  {| forwards := {| remote_forwards := ∅; remote_streamlocal_forwards := ∅; global_requests := [];
                    tasks := []; next_session_id := id |}; starting := []; tunnels := [] |}.

(** ** The registry follows the tunnels *)

(** The registry keys a task will give back. *)
Definition owner_ports (task : TunnelTask) : list Z :=
  match task with CancelTcp _ port => [port_u16 port] | _ => [] end.
Definition task_ports (task : Task) : list Z :=
  match task with
  | Cleanup port => [port]
  | Signalled task => owner_ports task
  | CleanupStreamLocal _ | Unregistered _ => []
  end.
Definition t_target (t : Tunnel) : option TcpEndpoint :=
  match t_spec t with Tcp _ _ target => Some target | StreamLocal _ _ _ => None end.

(** The ports in use, by open tunnels and by calls that are waiting, with their targets; and
    all the ports somebody will give back. *)
Definition tunnel_claims (t : Tunnel) : list (Z * option TcpEndpoint) :=
  map (λ p, (p, t_target t)) (owner_ports (t_task t)).
Definition starting_claim (x : TcpEndpoint * TcpEndpoint) : Z * option TcpEndpoint :=
  (tcp_port (fst x), Some (snd x)).
Definition claims (s : ForwardSession) : list (Z * option TcpEndpoint) :=
  concat (map tunnel_claims (tunnels s)) ++ map starting_claim (starting s).
Definition owners (s : ForwardSession) : list Z :=
  (claims s).*1 ++ concat (map task_ports (tasks (forwards s))).

(** Every registered port has exactly one owner, an open tunnel, a waiting call or a task
    that will remove it, and a port in use leads to its user's target. *)
Record forwards_wf (s : ForwardSession) : Prop := {
  fw_nodup : NoDup (owners s);
  fw_keys : ∀ p, is_Some (remote_forwards (forwards s) !! p) ↔ p ∈ owners s;
  fw_routes : ∀ p target, (p, target) ∈ claims s → remote_forwards (forwards s) !! p = target;
  fw_ports : Forall (λ x, 0 ≤ tcp_port (fst x) < 2 ^ 16) (starting s);
}.

(** The server answers a request for a port with that port, or refuses it. *)
Definition answers_port (s : ForwardSession) (op : ForwardOp) : Prop :=
  match op with
  | FStart bind _ => 0 ≤ tcp_port bind < 2 ^ 16
  | FReply i reply =>
      match starting s !! i, reply with
      | None, _ | Some _, Some (Err _) => True
      | Some (bind, _), Some (Ok port) => port = tcp_port bind
      | Some _, None => False
      end
  | _ => True
  end.
Fixpoint answers_ports (parse : string → option SocketAddr) (ops : list ForwardOp)
    (s : ForwardSession) : Prop :=
  match ops with
  | [] => True
  | op :: ops => answers_port s op ∧ answers_ports parse ops (forward_step parse op s)
  end.

Lemma port_u16_small p : p < 2 ^ 16 → port_u16 p = p.
Proof. intros H. unfold port_u16. by rewrite (proj2 (Z.ltb_lt _ _)). Qed.

(** The state after the key [p] has been given back. *)
Lemma forwards_wf_delete s s' p :
  forwards_wf s → owners s ≡ₚ p :: owners s' →
  tunnels s' = tunnels s → starting s' = starting s →
  remote_forwards (forwards s') = delete p (remote_forwards (forwards s)) → forwards_wf s'.
Proof.
  intros [Hn Hk Hr Hp] Ho Ht Hs Hf. rewrite Ho in Hn. apply NoDup_cons in Hn as [Hp' Hn].
  assert (Hc : claims s' = claims s) by (unfold claims; by rewrite Ht, Hs).
  split; [done| | |by rewrite Hs].
  - intros q. rewrite Hf. destruct (decide (p = q)) as [->|Hne].
    + rewrite lookup_delete_eq. split; [intros []; done|done].
    + rewrite lookup_delete_ne by done. rewrite Hk, Ho, elem_of_cons. naive_solver.
  - intros q t Hin. rewrite Hf, lookup_delete_ne; [apply Hr; by rewrite <-Hc|].
    intros ->. apply Hp', elem_of_app. left. by apply (list_elem_of_fmap_2 fst) in Hin.
Qed.

(** The state after ports changed hands. *)
Lemma forwards_wf_same s s' :
  forwards_wf s → owners s ≡ₚ owners s' → claims s' ⊆ claims s → starting s' ⊆ starting s →
  remote_forwards (forwards s') = remote_forwards (forwards s) → forwards_wf s'.
Proof.
  intros [Hn Hk Hr Hp] Ho Hc Hs Hf. split.
  - by rewrite <-Ho.
  - intros p. by rewrite Hf, Hk, Ho.
  - intros p t Hin. rewrite Hf. by apply Hr, Hc.
  - rewrite Forall_forall in *. auto.
Qed.

Lemma take_drop_perm {A} (l : list A) i x :
  l !! i = Some x → l ≡ₚ x :: remove_at i l.
Proof.
  intros H. unfold remove_at. rewrite <-(take_drop_middle l i x H) at 1. by rewrite Permutation_middle.
Qed.

Lemma remove_at_subseteq {A} (l : list A) i : remove_at i l ⊆ l.
Proof.
  intros x. rewrite <-(take_drop i l) at 2. unfold remove_at. rewrite !elem_of_app.
  intros [Hx|Hx]; [by left|right]. rewrite <-Nat.add_1_r, <-drop_drop in Hx.
  rewrite <-(take_drop 1 (drop i l)). apply elem_of_app. by right.
Qed.

Lemma concat_map_perm {A B} (g : A → list B) l l' :
  l ≡ₚ l' → concat (map g l) ≡ₚ concat (map g l').
Proof.
  induction 1; cbn; [done|by apply Permutation_app_head| |by etrans].
  rewrite !app_assoc. by rewrite (Permutation_app_comm (g y)).
Qed.

Lemma forward_start_wf parse bind target s :
  answers_port s (FStart bind target) → forwards_wf s →
  forwards_wf (forward_step parse (FStart bind target) s).
Proof.
  intros Hport Hwf. cbn [forward_step]. unfold register_remote_forward.
  destruct (remote_forwards (forwards s) !! tcp_port bind) as [e|] eqn:Hreg; [done|].
  pose proof Hwf as [Hn Hk Hr Hp]. set (s' := {| forwards := _ |}).
  assert (Hc : claims s' = claims s ++ [(tcp_port bind, Some target)]).
  { unfold claims. cbn. by rewrite map_app, app_assoc. }
  assert (Ho : owners s' ≡ₚ tcp_port bind :: owners s).
  { unfold owners. rewrite Hc, fmap_app, <-app_assoc. cbn. by rewrite <-Permutation_middle. }
  assert (Hfresh : tcp_port bind ∉ owners s).
  { intros Hin. apply Hk in Hin as [? Hin]. congruence. }
  split.
  - rewrite Ho. by apply NoDup_cons.
  - intros p. rewrite Ho, elem_of_cons, <-Hk. cbn.
    destruct (decide (p = tcp_port bind)) as [->|]; [rewrite lookup_insert_eq; naive_solver|].
    rewrite lookup_insert_ne by done. naive_solver.
  - intros p t. rewrite Hc. intros [Hin|[= -> ->]%list_elem_of_singleton]%elem_of_app; cbn.
    + rewrite lookup_insert_ne; [by apply Hr|]. intros <-. apply Hfresh, elem_of_app. left.
      by apply (list_elem_of_fmap_2 fst) in Hin.
    + apply lookup_insert_eq.
  - cbn. apply Forall_app. split; [done|]. by constructor.
Qed.

(** A waiting call's port passes to its tunnel, or to the task that gives it back. *)
Lemma forward_reply_wf parse i reply s :
  answers_port s (FReply i reply) → forwards_wf s →
  forwards_wf (forward_step parse (FReply i reply) s).
Proof.
  intros Ha Hwf. cbn [forward_step answers_port] in *.
  destruct (starting s !! i) as [[bind target]|] eqn:Hi; [|done].
  pose proof (take_drop_perm _ _ _ Hi) as Hperm.
  assert (Hport : 0 ≤ tcp_port bind < 2 ^ 16).
  { pose proof (fw_ports _ Hwf) as Hp. rewrite Forall_forall in Hp.
    apply (Hp (bind, target)). by eapply list_elem_of_lookup_2. }
  assert (Hold : claims s ≡ₚ (tcp_port bind, Some target)
    :: concat (map tunnel_claims (tunnels s)) ++ map starting_claim (remove_at i (starting s))).
  { unfold claims. rewrite (Permutation_map starting_claim Hperm). cbn.
    by rewrite <-Permutation_middle. }
  assert (Hstart : remove_at i (starting s) ⊆ starting s) by apply remove_at_subseteq.
  destruct reply as [[port|e]|]; [subst port| |done];
    cbn [request_remote_forward take_session_id SessionId_next].
  - match goal with |- forwards_wf ?x => set (s' := x) end.
    assert (Hnew : claims s' ≡ₚ claims s).
    { rewrite Hold. unfold claims, s'. cbn [tunnels starting]. rewrite map_app, concat_app.
      cbn [map concat tunnel_claims t_task owner_ports t_target t_spec].
      rewrite port_u16_small by lia. rewrite app_nil_r, <-app_assoc. symmetry.
      apply Permutation_middle. }
    apply (forwards_wf_same s); [done| |by rewrite Hnew|done|done].
    unfold owners. by rewrite Hnew.
  - match goal with |- forwards_wf ?x => set (s' := x) end.
    assert (Hnew : claims s ≡ₚ (tcp_port bind, Some target) :: claims s').
    { rewrite Hold. unfold claims, s'. cbn [tunnels starting]. by rewrite app_nil_r. }
    apply (forwards_wf_same s); [done| |rewrite Hnew; set_solver|done|done].
    assert (Ht : tasks (forwards s') = tasks (forwards s) ++ [Cleanup (tcp_port bind)]) by done.
    unfold owners. rewrite Hnew, Ht, (map_app task_ports), concat_app. cbn [map concat task_ports].
    rewrite app_nil_r, app_assoc, fmap_cons. by rewrite <-Permutation_cons_append.
Qed.

Lemma tunnel_claims_ports t : (tunnel_claims t).*1 = owner_ports (t_task t).
Proof. unfold tunnel_claims. by destruct (t_task t). Qed.

Lemma forward_end_wf parse i s : forwards_wf s → forwards_wf (forward_step parse (FEnd i) s).
Proof.
  intros Hwf. cbn [forward_step]. destruct (tunnels s !! i) as [t|] eqn:Ht; [|done].
  pose proof (concat_map_perm tunnel_claims _ _ (take_drop_perm _ _ _ Ht)) as Hperm.
  apply (forwards_wf_same s); try done.
  - unfold owners, claims. cbn. rewrite (map_app task_ports), concat_app. cbn.
    rewrite app_nil_r, Hperm. cbn. rewrite <-app_assoc, !fmap_app, tunnel_claims_ports.
    rewrite <-!app_assoc. rewrite (Permutation_app_comm (owner_ports (t_task t))).
    by rewrite <-!app_assoc.
  - unfold claims. cbn. rewrite Hperm. cbn. set_solver.
Qed.

Lemma forward_run_task_wf parse i s : forwards_wf s → forwards_wf (forward_step parse (FRun i) s).
Proof.
  intros Hwf. cbn [forward_step]. unfold run_task.
  destruct (tasks (forwards s) !! i) as [task|] eqn:Ht; [|by destruct s].
  pose proof (concat_map_perm task_ports _ _ (take_drop_perm _ _ _ Ht)) as Hperm. cbn in Hperm.
  unfold remove_at in Hperm.
  set (rest := take i (tasks (forwards s)) ++ drop (S i) (tasks (forwards s))) in *.
  assert (Ho : ∀ f', concat (map task_ports (tasks f')) ≡ₚ concat (map task_ports rest) →
    owners s ≡ₚ task_ports task
      ++ owners {| forwards := f'; starting := starting s; tunnels := tunnels s |}).
  { intros f' Hf'. unfold owners, claims. cbn. rewrite Hf', Hperm.
    rewrite !app_assoc. by rewrite (Permutation_app_comm (task_ports task)). }
  assert (Hu : ∀ t, concat (map task_ports (rest ++ [Unregistered t])) = concat (map task_ports rest)).
  { intros t. rewrite map_app, concat_app. cbn. by rewrite app_nil_r. }
  destruct task as [port|path|[|p|host port|path]|[]]; cbn [task_unregister task_request].
  1: apply (forwards_wf_delete s _ port); try done; by apply Ho.
  4: apply (forwards_wf_delete s _ (port_u16 port)); try done; apply Ho; cbn; by rewrite Hu.
  all: apply (forwards_wf_same s); try done; apply Ho; cbn; by rewrite ?Hu.
Qed.

Lemma forward_step_wf parse op s :
  answers_port s op → forwards_wf s → forwards_wf (forward_step parse op s).
Proof.
  destruct op; [apply forward_start_wf|apply forward_reply_wf|intros _; apply forward_end_wf
               |intros _; apply forward_run_task_wf].
Qed.

Lemma forward_run_wf parse ops s :
  answers_ports parse ops s → forwards_wf s → forwards_wf (forward_run parse ops s).
Proof.
  unfold forward_run. revert s. induction ops as [|op ops IH]; intros s; [done|].
  intros [Hop Hops] Hs. cbn [fold_left]. by apply IH, forward_step_wf.
Qed.

Lemma forwards_wf_new id : forwards_wf (ForwardSession_new id).
Proof.
  split; cbn; [apply NoDup_nil_2| |by intros p t ?%elem_of_nil|constructor].
  intros p. rewrite lookup_empty. split; [intros []; done|by intros ?%elem_of_nil].
Qed.

(** C17.  Routing of remote forwards.  For every schedule of starting forwards, the server's
    answers to them, ending tunnels and running tasks, with a server that answers a port
    with that port or a refusal: a channel forwarded for an open tunnel's port is copied to
    that tunnel's own target, and already while its request waits for the answer to the
    target of that request; no port belongs to two tunnels or waiting requests; and nothing
    stays registered once the requests are answered, the tunnels ended and their tasks
    run. *)
Theorem remote_forward_routing (parse : string → option SocketAddr) (ops : list ForwardOp)
    (id : Z) :
  answers_ports parse ops (ForwardSession_new id) →
  let s := forward_run parse ops (ForwardSession_new id) in
  (∀ t host port, t ∈ tunnels s → t_task t = CancelTcp host port →
     ∃ target, t_target t = Some target ∧
       server_channel_open_forwarded_tcpip port (forwards s) = CopyTcp (host_port target)) ∧
  (∀ bind target, (bind, target) ∈ starting s →
     server_channel_open_forwarded_tcpip (tcp_port bind) (forwards s) = CopyTcp (host_port target)) ∧
  NoDup (concat (map (owner_ports ∘ t_task) (tunnels s)) ++ map (tcp_port ∘ fst) (starting s)) ∧
  (tunnels s = [] → starting s = [] → tasks (forwards s) = [] → remote_forwards (forwards s) = ∅).
Proof.
  cbv zeta. intros Hops.
  pose proof (forward_run_wf parse ops _ Hops (forwards_wf_new id)) as [Hn Hk Hr Hp].
  set (s := forward_run parse ops (ForwardSession_new id)) in *. split_and!.
  - intros t host port Ht Htask.
    assert (Hc : (port_u16 port, t_target t) ∈ claims s).
    { apply elem_of_app. left. apply list_elem_of_In, in_concat. exists (tunnel_claims t).
      split; [apply in_map, list_elem_of_In; done|]. unfold tunnel_claims. rewrite Htask. by left. }
    assert (Hown : port_u16 port ∈ owners s)
      by (apply elem_of_app; left; by apply (list_elem_of_fmap_2 fst) in Hc).
    apply Hk in Hown as [target Hreg]. exists target. unfold server_channel_open_forwarded_tcpip.
    rewrite Hreg. rewrite (Hr _ _ Hc) in Hreg. done.
  - intros bind target Hin. rewrite Forall_forall in Hp. pose proof (Hp _ Hin) as Hport. cbn in Hport.
    assert (Hc : (tcp_port bind, Some target) ∈ claims s).
    { apply elem_of_app. right. by apply (list_elem_of_fmap_2 starting_claim) in Hin. }
    unfold server_channel_open_forwarded_tcpip. by rewrite port_u16_small, (Hr _ _ Hc) by lia.
  - unfold owners in Hn. apply NoDup_app in Hn as [Hn _].
    replace (concat _ ++ _) with (claims s).*1; [done|]. unfold claims. rewrite fmap_app.
    f_equal; [|by rewrite <-list_fmap_compose].
    induction (tunnels s) as [|t l IH]; [done|]. cbn. by rewrite fmap_app, tunnel_claims_ports, IH.
  - intros Ht Hs Htasks. apply map_empty. intros p. apply eq_None_not_Some. rewrite Hk.
    unfold owners, claims. rewrite Ht, Hs, Htasks. by intros ?%elem_of_nil.
Qed.

(** A remote forward and its close undo each other: the port is requested and
    cancelled at the server, and the registry is what it was before. *)
Lemma remote_forward_close parse bind target f :
  0 ≤ tcp_port bind < 2 ^ 16 → remote_forwards f !! tcp_port bind = None →
  ∃ t f', start_remote_forward parse (Some (Ok (tcp_port bind))) bind target f = (Ok t, f') ∧
    remote_forwards (snd (Tunnel_close t f')) = remote_forwards f ∧
    global_requests (snd (Tunnel_close t f'))
    = global_requests f ++ [TcpipForward (tcp_host bind) (tcp_port bind);
                            CancelTcpipForward (tcp_host bind) (tcp_port bind)].
Proof.
  intros Hp Hreg. unfold start_remote_forward, register_remote_forward. rewrite Hreg. cbn. eexists _, _.
  split; [done|]. cbn. rewrite port_u16_small by lia. split.
  - by apply delete_insert_id.
  - by rewrite <-app_assoc.
Qed.

(** Ending a tunnel and running its task to the end is closing it. *)
Lemma signal_then_run t f :
  run_task (length (tasks f)) (run_task (length (tasks f)) (Tunnel_signal t f))
  = snd (Tunnel_close t f).
Proof.
  unfold Tunnel_signal, run_task. cbn [tasks set_tasks].
  rewrite list_lookup_middle by done.
  rewrite take_app_length, drop_ge, app_nil_r by (rewrite length_app; cbn; lia).
  assert (Hs : ∀ f' l, tasks (set_tasks f' l) = l) by done. rewrite Hs.
  rewrite list_lookup_middle by done.
  rewrite take_app_length, drop_ge, app_nil_r by (rewrite length_app; cbn; lia).
  unfold Tunnel_close. by destruct f, (t_task t).
Qed.

(** ** When the registry does not follow *)

(** A forward with port 0, for which the server chooses the port: the target is
    registered under port 0, so a channel for the port the server chose is closed;
    and closing the tunnel removes the chosen port, so the registration stays and a
    second forward with port 0 is refused. *)
Theorem ephemeral_forward_unreachable (parse : string → option SocketAddr) (host : string)
    (target : TcpEndpoint) (port : Z) (f : Forwards) :
  0 < port < 2 ^ 16 → remote_forwards f !! 0 = None → remote_forwards f !! port = None →
  let bind := TcpEndpoint_new host 0 in
  ∃ t f', start_remote_forward parse (Some (Ok port)) bind target f = (Ok t, f') ∧
    server_channel_open_forwarded_tcpip port f' = CloseChannel ∧
    remote_forwards (snd (Tunnel_close t f')) = <[0 := target]> (remote_forwards f) ∧
    ∀ reply target', is_ok (fst (start_remote_forward parse reply bind target'
                                   (snd (Tunnel_close t f')))) = false.
Proof.
  cbv zeta. intros Hp H0 Hport. unfold start_remote_forward at 1, register_remote_forward at 1. cbn [tcp_port TcpEndpoint_new].
  rewrite H0. eexists _, _. split; [done|].
  unfold server_channel_open_forwarded_tcpip. cbn. rewrite port_u16_small by lia.
  rewrite lookup_insert_ne, Hport by lia.
  assert (E : delete port (<[0:=target]> (remote_forwards f)) = <[0:=target]> (remote_forwards f)).
  { apply delete_id. by rewrite lookup_insert_ne by lia. }
  split_and!; [done|done|]. intros reply target'. unfold start_remote_forward, register_remote_forward. cbn.
  by rewrite E, lookup_insert_eq.
Qed.

(** A request that times out stays registered: no task will remove it, channels for
    the port are still copied to the target, and the port cannot be forwarded again. *)
Theorem timed_out_forward_stays (parse : string → option SocketAddr) (bind target : TcpEndpoint)
    (f : Forwards) :
  remote_forwards f !! tcp_port bind = None → 0 ≤ tcp_port bind < 2 ^ 16 →
  let '(r, f') := start_remote_forward parse None bind target f in
  is_ok r = false ∧ tasks f' = tasks f ∧
  server_channel_open_forwarded_tcpip (tcp_port bind) f' = CopyTcp (host_port target) ∧
  ∀ reply target', is_ok (fst (start_remote_forward parse reply bind target' f')) = false.
Proof.
  intros Hreg Hp. unfold start_remote_forward at 1, register_remote_forward at 1. rewrite Hreg. cbn.
  unfold server_channel_open_forwarded_tcpip. cbn. rewrite port_u16_small, lookup_insert_eq by lia.
  split_and!; try done. intros reply target'. unfold start_remote_forward, register_remote_forward. cbn.
  by rewrite lookup_insert_eq.
Qed.

(** The same for a socket path. *)
Lemma streamlocal_forward_close bind target f :
  remote_streamlocal_forwards f !! sl_path bind = None →
  ∃ t f', start_remote_streamlocal_forward (Some (Ok ())) bind target f = (Ok t, f') ∧
    server_channel_open_forwarded_streamlocal (sl_path bind) f' = CopyUnix (sl_path target) ∧
    remote_streamlocal_forwards (snd (Tunnel_close t f')) = remote_streamlocal_forwards f ∧
    global_requests (snd (Tunnel_close t f'))
    = global_requests f ++ [StreamlocalForward (sl_path bind);
                            CancelStreamlocalForward (sl_path bind)].
Proof.
  intros Hreg. unfold start_remote_streamlocal_forward. rewrite Hreg. cbn. eexists _, _.
  split; [done|]. unfold server_channel_open_forwarded_streamlocal. cbn. rewrite lookup_insert_eq.
  split_and!; [done|by apply delete_insert_id|by rewrite <-app_assoc].
Qed.

(** Every connection accepted before the close signal is forwarded, none after it;
    failed accepts are skipped. *)
Lemma accept_loop_spec {Stream} (before after : list (AcceptEvent Stream)) :
  CloseSignal ∉ before →
  run_local_accept_loop (before ++ CloseSignal :: after)
  = (omap (λ e, match e with Accepted s => Some s | _ => None end) before, true).
Proof.
  induction before as [|e before IH]; intros Hn; [done|]. apply not_elem_of_cons in Hn as [He Hn].
  destruct e; [done| |]; cbn; by rewrite IH.
Qed.

(** ** Concrete runs *)

Section Runs.
(** The first request is still waiting when a second one for its port is refused and a third,
    for another port, is registered; that one is denied. *)
Definition run_ops : list ForwardOp :=
  [FStart (TcpEndpoint_new "0.0.0.0" 8080) (TcpEndpoint_new "localhost" 80);
   FStart (TcpEndpoint_new "0.0.0.0" 8080) (TcpEndpoint_new "localhost" 81);
   FStart (TcpEndpoint_new "0.0.0.0" 9090) (TcpEndpoint_new "localhost" 90);
   FReply 1 (Some (Err RequestDenied)); FReply 0 (Some (Ok 8080));
   FRun 0; FEnd 0; FRun 0;
   FStart (TcpEndpoint_new "0.0.0.0" 8080) (TcpEndpoint_new "localhost" 82);
   FReply 0 (Some (Ok 8080))].

Abbreviation run_session := (forward_run (λ _, None) run_ops (ForwardSession_new 1)).

Lemma remote_forward_routing_witness :
  ∃ t target, tunnels run_session = [t] ∧ t_target t = Some target ∧
    server_channel_open_forwarded_tcpip 8080 (forwards run_session) = CopyTcp (host_port target).
Proof.
  assert (Ha : answers_ports (λ _, None) run_ops (ForwardSession_new 1))
    by (vm_compute; by repeat split).
  destruct (remote_forward_routing (λ _, None) run_ops 1 Ha) as (H & _).
  destruct (tunnels run_session) as [|t [|]] eqn:E; [by vm_compute in E| |by vm_compute in E].
  destruct (H t "0.0.0.0" 8080) as (target & Ht & Hc); [by left| |by exists t, target].
  vm_compute in E. by injection E as <-.
Defined.

Lemma ephemeral_forward_unreachable_witness :
  ∃ t f', start_remote_forward (λ _, None) (Some (Ok 40000)) (TcpEndpoint_new "0.0.0.0" 0)
            (TcpEndpoint_new "localhost" 80) (forwards (ForwardSession_new 1)) = (Ok t, f') ∧
    server_channel_open_forwarded_tcpip 40000 f' = CloseChannel.
Proof.
  destruct (ephemeral_forward_unreachable (λ _, None) "0.0.0.0" (TcpEndpoint_new "localhost" 80) 40000
    (forwards (ForwardSession_new 1))) as (t & f' & H1 & H2 & _); [lia|done|done|].
  by exists t, f'.
Defined.

Lemma timed_out_forward_stays_witness :
  let '(r, f') := start_remote_forward (λ _, None) None (TcpEndpoint_new "0.0.0.0" 8080)
            (TcpEndpoint_new "localhost" 80) (forwards (ForwardSession_new 1)) in
  is_ok r = false ∧ tasks f' = [] ∧
  server_channel_open_forwarded_tcpip 8080 f' = CopyTcp "localhost:80".
Proof.
  destruct (timed_out_forward_stays (λ _, None) (TcpEndpoint_new "0.0.0.0" 8080)
    (TcpEndpoint_new "localhost" 80) (forwards (ForwardSession_new 1))) as (H1 & H2 & H3 & _);
    [done|cbn; lia|]. exact (conj H1 (conj H2 H3)).
Defined.
End Runs.
