(* ===== verification/Client.v ===== *)
(** * Client: builder, connection and sessions ([russh-extra/src/client.rs])

    [ClientBuilder], [Client::connect], certificate credentials and [Session].  The
    handshake is [russh]'s: it is a parameter, given the handler it consults about
    the server's key.  [Arc]s are locations: the registries of remote forwards are
    the client's, and every session of the client gets the same ones. *)
From S2P Require Import Prelude RustStr RustWords RustPath Channel CoreError Endpoint.
From S2P Require Import Config KnownHosts KnownHostsSpec ClientErrors ClientCommand ClientAuth.
From S2P Require Import Shell TunnelStream Tunnel.

(** ** Certificate credentials *)

Section Certificates.
Context {PrivKey Cert : Type} (home : option string)
        (file_mode : string → result IoError Z)
        (load_secret_key : string → option string → result string PrivKey)
        (load_openssh_certificate : string → result string Cert)
        (from_openssh : list byte → result string PrivKey)
        (from_utf8 : list byte → option string)
        (cert_from_openssh : string → result string Cert).

Definition CertificateCredential_from_openssh_files (key_path cert_path : string) :
    Result (CertificateCredential (PrivKey := PrivKey) (Cert := Cert)) :=
  let key_path := expand_tilde_path home key_path in
  let cert_path := expand_tilde_path home cert_path in
  match file_mode key_path with
  | Err e => Err (EIo e)
  | Ok mode =>
      if negb (Z.land mode MODE_OTHERS_ANY =? 0) then
        Err (Error_invalid_config
               ("private key file `" +:+ key_path
                +:+ "` must not be accessible by group or others"))
      else
        key ← map_err (auth_unavailable ("failed to load private key from `" +:+ key_path +:+ "`"))
                (load_secret_key key_path None);
        cert ← map_err
                 (auth_unavailable ("failed to load certificate from `" +:+ cert_path +:+ "`"))
                 (load_openssh_certificate cert_path);
        Ok {| cert_key := key; cert_cert := cert; cert_passphrase := None |}
  end.

Definition CertificateCredential_from_openssh_data (key_data cert_data : list byte) :
    Result (CertificateCredential (PrivKey := PrivKey) (Cert := Cert)) :=
  key ← map_err (auth_unavailable "failed to parse in-memory private key") (from_openssh key_data);
  cert_str ← ok_or (Error_authentication_kind AuthUnavailable "certificate data is not valid UTF-8")
               (from_utf8 cert_data);
  cert ← map_err (auth_unavailable "failed to parse in-memory certificate")
           (cert_from_openssh cert_str);
  Ok {| cert_key := key; cert_cert := cert; cert_passphrase := None |}.

Definition CertificateCredential_with_passphrase
    (c : CertificateCredential (PrivKey := PrivKey) (Cert := Cert)) (passphrase : Password) :
    CertificateCredential (PrivKey := PrivKey) (Cert := Cert) :=
  {| cert_key := cert_key c; cert_cert := cert_cert c; cert_passphrase := Some passphrase |}.

Definition CertificateCredential_debug `{!StrDebug}
    (c : CertificateCredential (PrivKey := PrivKey) (Cert := Cert)) : string :=
  "CertificateCredential { key: " +:+ str_debug "***" +:+ ", cert: " +:+ str_debug "***"
  +:+ ", has_passphrase: " +:+ bool_debug (has_passphrase (cert_passphrase c)) +:+ " }".
End Certificates.

(** ** The builder *)

(** The location of a client's two registries. *)
Definition Registry : Type := Z.

Record Client (PrivKey Cert : Type) := {
  c_config : ClientConfig;
  c_known_hosts : option KnownHosts;
  c_known_hosts_accept_new : bool;
  c_remote_forwards : Registry;
  c_cert_credentials : list (CertificateCredential (PrivKey := PrivKey) (Cert := Cert));
  c_x11_display : option string;
}.
Arguments c_config {PrivKey Cert} _.
Arguments c_known_hosts {PrivKey Cert} _.
Arguments c_known_hosts_accept_new {PrivKey Cert} _.
Arguments c_remote_forwards {PrivKey Cert} _.
Arguments c_cert_credentials {PrivKey Cert} _.
Arguments c_x11_display {PrivKey Cert} _.

(** [ClientBuilder] has [Client]'s fields. *)
Record ClientBuilder (PrivKey Cert : Type) := { cb_client : Client PrivKey Cert }.
Arguments cb_client {PrivKey Cert} _.

Section Builder.
Context {PrivKey Cert : Type}.
Abbreviation builder := (ClientBuilder PrivKey Cert).

Definition Client_new (registry : Registry) (endpoint : Endpoint) : Client PrivKey Cert :=
  {| c_config := ClientConfig_new endpoint; c_known_hosts := None;
     c_known_hosts_accept_new := false; c_remote_forwards := registry;
     c_cert_credentials := []; c_x11_display := None |}.

Definition ClientBuilder_default (registry : Registry) : builder :=
  {| cb_client :=
       {| c_config := ClientConfig_default; c_known_hosts := None;
          c_known_hosts_accept_new := false; c_remote_forwards := registry;
          c_cert_credentials := []; c_x11_display := None |} |}.

Definition Client_builder (registry : Registry) : builder := ClientBuilder_default registry.

(** [self.config.f(..); self]. *)
Definition map_config (g : ClientConfig → ClientConfig) (self : builder) : builder :=
  let c := cb_client self in
  {| cb_client :=
       {| c_config := g (c_config c); c_known_hosts := c_known_hosts c;
          c_known_hosts_accept_new := c_known_hosts_accept_new c;
          c_remote_forwards := c_remote_forwards c;
          c_cert_credentials := c_cert_credentials c; c_x11_display := c_x11_display c |} |}.

Definition set_known_hosts (kh : KnownHosts) (accept_new : bool) (self : builder) : builder :=
  let c := cb_client self in
  {| cb_client :=
       {| c_config := c_config c; c_known_hosts := Some kh;
          c_known_hosts_accept_new := accept_new; c_remote_forwards := c_remote_forwards c;
          c_cert_credentials := c_cert_credentials c; c_x11_display := c_x11_display c |} |}.

Definition builder_endpoint (self : builder) (v : Endpoint) : builder :=
  map_config (λ c, set_endpoint c v) self.
Definition builder_username (self : builder) (v : Username) : builder :=
  map_config (λ c, set_username c v) self.
Definition builder_password (self : builder) (v : Password) : builder :=
  map_config (λ c, add_credential c (CredPassword v)) self.
Definition builder_identity (self : builder) (v : Identity) : builder :=
  map_config (λ c, add_credential c (CredIdentity v)) self.
Definition builder_agent (self : builder) : builder := map_config use_agent self.
Definition builder_keyboard_interactive (self : builder) (v : KeyboardInteractiveHandler) :
    builder := map_config (λ c, add_credential c (CredKeyboardInteractive v)) self.
Definition builder_strict_host_key_checking (self : builder) (enabled : bool) : builder :=
  map_config (λ c, set_strict_host_key_checking c enabled) self.
Definition accept_any_host_key (self : builder) : builder :=
  map_config (λ c, set_host_key_policy c InsecureAcceptAny) self.
Definition builder_host_key_policy (self : builder) (v : HostKeyPolicy) : builder :=
  map_config (λ c, set_host_key_policy c v) self.
Definition builder_timeouts (self : builder) (v : Timeouts) : builder :=
  map_config (λ c, set_timeouts c v) self.
Definition builder_keepalive (self : builder) (v : Keepalive) : builder :=
  map_config (λ c, set_keepalive c v) self.
Definition try_pinned_host_key_sha256 (self : builder) (fingerprint : string) : Result builder :=
  policy ← pinned_sha256 fingerprint; Ok (map_config (λ c, set_host_key_policy c policy) self).
Definition builder_known_hosts (self : builder) (kh : KnownHosts) : builder :=
  set_known_hosts kh false self.
Definition builder_known_hosts_accept_new (self : builder) (kh : KnownHosts) : builder :=
  set_known_hosts kh true self.

Definition builder_certificate (self : builder)
    (cert : CertificateCredential (PrivKey := PrivKey) (Cert := Cert)) : builder :=
  let c := cb_client self in
  {| cb_client :=
       {| c_config := c_config c; c_known_hosts := c_known_hosts c;
          c_known_hosts_accept_new := c_known_hosts_accept_new c;
          c_remote_forwards := c_remote_forwards c;
          c_cert_credentials := c_cert_credentials c ++ [cert];
          c_x11_display := c_x11_display c |} |}.

Definition builder_x11_display (self : builder) (display : string) : builder :=
  let c := cb_client self in
  {| cb_client :=
       {| c_config := c_config c; c_known_hosts := c_known_hosts c;
          c_known_hosts_accept_new := c_known_hosts_accept_new c;
          c_remote_forwards := c_remote_forwards c;
          c_cert_credentials := c_cert_credentials c; c_x11_display := Some display |} |}.

Definition ClientBuilder_build (self : builder) : Client PrivKey Cert := cb_client self.
End Builder.

(** ** Sessions *)

Record Session (Handle : Type) := {
  s_id : Z;
  s_endpoint : Endpoint;
  s_timeouts : Timeouts;
  s_handle : option Handle;
  s_remote_forwards : Registry;
  s_auth_banner : option string;
}.
Arguments s_id {Handle} _.
Arguments s_endpoint {Handle} _.
Arguments s_timeouts {Handle} _.
Arguments s_handle {Handle} _.
Arguments s_remote_forwards {Handle} _.
Arguments s_auth_banner {Handle} _.

Section Sessions.
Context {Handle : Type} (russh_text : RusshError → string).
Implicit Types self : Session Handle.

Definition Session_russh_handle self : Result Handle :=
  ok_or (Error_unsupported "raw russh handle is unavailable for this session") (s_handle self).

Definition Session_shell self : ShellBuilder Handle :=
  ShellBuilder_from_session (s_id self) (s_handle self) (s_timeouts self).

Definition Session_subsystem self (name : string) : SubsystemBuilder Handle :=
  SubsystemBuilder_from_session (s_id self) (s_handle self) name (s_timeouts self).

Definition Session_tunnel self (spec : ForwardSpec) : TunnelBuilder Handle :=
  TunnelBuilder_from_session (s_id self) (s_handle self) spec (s_timeouts self).

Definition Session_direct_tcp self (target : TcpEndpoint) : DirectTcpBuilder Handle :=
  DirectTcpBuilder_from_session (s_id self) (s_handle self) target (s_timeouts self).

Definition Session_direct_streamlocal self (socket_path : string) :
    DirectStreamLocalBuilder Handle :=
  DirectStreamLocalBuilder_from_session (s_id self) (s_handle self) socket_path (s_timeouts self).

(** [Session::sftp]: [connect_sftp] is the SFTP client's connection. *)
Definition Session_sftp {A} (connect_sftp : Z → Handle → Result A) self : Result A :=
  h ← ok_or (Error_unsupported "SFTP requires a connected session") (s_handle self);
  connect_sftp (s_id self) h.

Definition Session_is_connected self : bool :=
  match s_handle self with Some _ => true | None => false end.

(** [disconnect]: [sent] is the outcome of the handle's disconnect message. *)
Definition Session_disconnect (sent : Handle → result RusshError unit) self : Result unit :=
  match s_handle self with
  | None => Ok ()
  | Some h => map_err (λ e, Error_ssh_with_source "session disconnect failed" (russh_text e)) (sent h)
  end.
End Sessions.

(** The handler's [auth_banner] callback: the latest banner is kept. *)
Definition handler_auth_banner (banner : string) (text : option string) : option string :=
  Some banner.

(** ** Connecting *)

Section Connect.
Context (russh_text : RusshError → string).
Context {W PrivKey Cert PubKey PublicKey : Type}.

(** The server's key: its bytes, its fingerprint and its kind. *)
Context (public_key_to_bytes : PublicKey → option (list byte))
        (fingerprint_sha256 : PublicKey → string) (key_data : PublicKey → KeyData).

(** [client::connect] under the timeout: the connection, and the handler, whose
    known-hosts store the client shares. *)
Context (client_connect :
           RusshClientConfig → string → Z → Z → ClientHandler → timed W * ClientHandler).

(** The handle's authentication methods, keys and agent, as in [ClientAuth.v]. *)
Context (authenticate_password : string → string → W → timed AuthResult * W)
        (authenticate_none : string → W → timed AuthResult * W)
        (authenticate_publickey : string → PrivKey → W → timed AuthResult * W)
        (authenticate_publickey_with :
           string → PubKey → W → option (result string AuthResult) * W)
        (authenticate_openssh_cert : string → PrivKey → Cert → W → timed AuthResult * W)
        (ki_start : string → W → result RusshError KeyboardInteractiveAuthResponse * W)
        (ki_respond :
           list string → W → result RusshError KeyboardInteractiveAuthResponse * W)
        (load_secret_key : string → option string → result string PrivKey)
        (from_openssh : list byte → result string PrivKey)
        (is_encrypted : PrivKey → bool)
        (decrypt : PrivKey → string → result string PrivKey)
        (ssh_auth_sock : option string)
        (connect_agent : string → result string unit)
        (request_identities : result string (list PubKey))
        (rounds : nat).

(** The banners received on a connection so far, in order. *)
Context (banners : W → list string).

Definition ClientHandler_new (policy : HostKeyPolicy) (known_hosts : option KnownHosts)
    (accept_new : bool) (endpoint : Endpoint) : ClientHandler :=
  {| ch_policy := policy; ch_known_hosts := known_hosts; ch_accept_new := accept_new;
     ch_endpoint := endpoint |}.

Definition handler_of_client (self : Client PrivKey Cert) : ClientHandler :=
  ClientHandler_new (cc_host_key_policy (c_config self)) (c_known_hosts self)
    (c_known_hosts_accept_new self) (cc_endpoint (c_config self)).

(** The client after the handler [h] has used its store. *)
Definition with_store (self : Client PrivKey Cert) (h : ClientHandler) : Client PrivKey Cert :=
  {| c_config := c_config self; c_known_hosts := ch_known_hosts h;
     c_known_hosts_accept_new := c_known_hosts_accept_new self;
     c_remote_forwards := c_remote_forwards self;
     c_cert_credentials := c_cert_credentials self; c_x11_display := c_x11_display self |}.

Definition Client_connect (self : Client PrivKey Cert) (counter : Z) :
    Result (Session W) * Client PrivKey Cert * Z :=
  let endpoint := cc_endpoint (c_config self) in
  let '(connected, h) :=
    client_connect (russh_client_config (c_config self)) (e_host endpoint) (e_port endpoint)
      (connect_timeout (cc_timeouts (c_config self))) (handler_of_client self) in
  let self' := with_store self h in
  match connected with
  | None => (Err (Error_timeout OpConnect "client connection timed out"), self', counter)
  | Some (Err e) => (Err (map_connect_error russh_text e), self', counter)
  | Some (Ok w) =>
      match authenticate_configured russh_text authenticate_password authenticate_none
              authenticate_publickey authenticate_publickey_with authenticate_openssh_cert
              ki_start ki_respond load_secret_key from_openssh is_encrypted decrypt ssh_auth_sock
              connect_agent request_identities rounds (c_config self) (c_cert_credentials self) w with
      | (Err e, _) => (Err e, self', counter)
      | (Ok _, w') =>
          let '(id, counter') := SessionId_next counter in
          (Ok {| s_id := id; s_endpoint := endpoint; s_timeouts := cc_timeouts (c_config self);
                 s_handle := Some w'; s_remote_forwards := c_remote_forwards self;
                 s_auth_banner := fold_left (λ text b, handler_auth_banner b text) (banners w') None |},
           self', counter')
      end
  end.

(** ** A session means both sides were verified *)

(** The keys this client accepts from a server. *)
Definition host_key_ok (self : Client PrivKey Cert) (k : PublicKey) : Prop :=
  match c_known_hosts self with
  | Some kh =>
      let st := check public_key_to_bytes kh (e_host (cc_endpoint (c_config self)))
                  (e_port (cc_endpoint (c_config self))) k in
      st = Match ∨ (st = NotFound ∧ c_known_hosts_accept_new self = true)
  | None =>
      cc_host_key_policy (c_config self) = InsecureAcceptAny ∨
      ∃ pins, cc_host_key_policy (c_config self) = PinnedSha256 pins ∧
              ∃ fp, fp ∈ pins ∧ fp_value fp = fingerprint_sha256 k
  end.

(** [russh] completes a handshake only with a server whose key the handler accepted,
    and reports a successful authentication only when the server has accepted the
    user. *)
Context (server_key : W → PublicKey) (accepted : W → Prop).
Context
  (Hconnect : ∀ cfg host port t h w h', client_connect cfg host port t h = (Some (Ok w), h') →
     check_server_key public_key_to_bytes fingerprint_sha256 key_data h (server_key w)
     = (Ok true, h'))
  (Hpassword : ∀ u p, honest accepted is_auth_success (authenticate_password u p))
  (Hnone : ∀ u, honest accepted is_auth_success (authenticate_none u))
  (Hpublickey : ∀ u k, honest accepted is_auth_success (authenticate_publickey u k))
  (Hcert : ∀ u k c, honest accepted is_auth_success (authenticate_openssh_cert u k c))
  (Hagent : ∀ u k w w', authenticate_publickey_with u k w = (Some (Ok AuthSuccess), w') →
     accepted w')
  (Hstart : ∀ u w w', ki_start u w = (Ok KiSuccess, w') → accepted w')
  (Hrespond : ∀ a w w', ki_respond a w = (Ok KiSuccess, w') → accepted w').

(** The connections to the configured endpoint that the handler let stand. *)
Definition stands (self : Client PrivKey Cert) (w : W) : Prop :=
  ∃ h', client_connect (russh_client_config (c_config self)) (e_host (cc_endpoint (c_config self)))
          (e_port (cc_endpoint (c_config self))) (connect_timeout (cc_timeouts (c_config self)))
          (handler_of_client self) = (Some (Ok w), h').

Lemma stands_host_key self w : stands self w → host_key_ok self (server_key w).
Proof.
  intros [h E]. apply Hconnect in E.
  assert (Ea := proj1 (check_server_key_accepts public_key_to_bytes fingerprint_sha256 key_data
    (handler_of_client self) (server_key w))). rewrite E in Ea. by apply Ea.
Qed.

Lemma connect_stands self counter s self' counter' :
  Client_connect self counter = (Ok s, self', counter') →
  ∃ w w', stands self w ∧ s_handle s = Some w' ∧
    authenticate_configured russh_text authenticate_password authenticate_none
      authenticate_publickey authenticate_publickey_with authenticate_openssh_cert
      ki_start ki_respond load_secret_key from_openssh is_encrypted decrypt ssh_auth_sock
      connect_agent request_identities rounds (c_config self) (c_cert_credentials self) w
    = (Ok (), w') ∧
    s_endpoint s = cc_endpoint (c_config self) ∧
    s_remote_forwards s = c_remote_forwards self ∧ s_id s = counter.
Proof.
  unfold Client_connect, stands.
  destruct (client_connect _ _ _ _ _) as [[[w|e]|] h] eqn:E; try done.
  destruct (authenticate_configured _ _ _ _ _ _ _ _ _ _ _ _ _ _ _ _ _ _ w) as [[[]|e] w'] eqn:Ea; [|done].
  intros [= <- _ _]. exists w, w'. split_and!; try done. by exists h.
Qed.

(** An authentication request does not change whose connection it is. *)
Definition same_server {B} (op : W → B * W) : Prop :=
  ∀ w r w', op w = (r, w') → server_key w' = server_key w.
Context
  (Spassword : ∀ u p, same_server (authenticate_password u p))
  (Snone : ∀ u, same_server (authenticate_none u))
  (Spublickey : ∀ u k, same_server (authenticate_publickey u k))
  (Sagent : ∀ u k, same_server (authenticate_publickey_with u k))
  (Scert : ∀ u k c, same_server (authenticate_openssh_cert u k c))
  (Sstart : ∀ u, same_server (ki_start u))
  (Srespond : ∀ a, same_server (ki_respond a)).

(** C6.  [Client::connect] returns a session only if the server at the other end of the
    session's own connection, which was made to the configured endpoint, proved a key
    this client accepts (one its known-hosts store matches, or has no entry for under
    accept-new; without a store, a pinned one or any under the insecure policy) and
    that server accepted the user; the session is for the configured endpoint, and
    shares the client's registries. *)
Theorem connected_means_verified (self : Client PrivKey Cert) (counter : Z) (s : Session W)
    (self' : Client PrivKey Cert) (counter' : Z) :
  Client_connect self counter = (Ok s, self', counter') →
  (∃ w0 w, stands self w0 ∧ s_handle s = Some w ∧ server_key w = server_key w0 ∧
     host_key_ok self (server_key w) ∧ accepted w) ∧
  s_endpoint s = cc_endpoint (c_config self) ∧
  s_remote_forwards s = c_remote_forwards self ∧ s_id s = counter.
Proof.
  intros (w & w' & Hst & Hs & Ea & Hrest)%connect_stands. split; [|done].
  assert (Hk : server_key w' = server_key w).
  { apply (authenticate_configured_kept russh_text _ _ _ _ _ _ _ _ _ _ _ _ _ _
      (λ v, server_key v = server_key w)) in Ea; [by apply Ea|..];
      unfold keeps_it; intros * Hop <-; [by eapply Spassword|by eapply Snone|
      by eapply Spublickey|by eapply Sagent|by eapply Scert|by eapply Sstart|by eapply Srespond]. }
  exists w, w'. split_and!; [done|done|done|rewrite Hk; by apply stands_host_key|].
  revert Ea. by apply authenticate_configured_accepted.
Qed.

(** A chain of builder calls. *)
Inductive BuilderOp :=
| BEndpoint (v : Endpoint)
| BUsername (v : Username)
| BPassword (v : Password)
| BIdentity (v : Identity)
| BAgent
| BKeyboardInteractive (v : KeyboardInteractiveHandler)
| BStrictHostKeyChecking (enabled : bool)
| BAcceptAnyHostKey
| BHostKeyPolicy (v : HostKeyPolicy)
| BTimeouts (v : Timeouts)
| BKeepalive (v : Keepalive)
| BKnownHosts (kh : KnownHosts)
| BKnownHostsAcceptNew (kh : KnownHosts)
| BCertificate (c : CertificateCredential (PrivKey := PrivKey) (Cert := Cert))
| BX11Display (display : string).

Definition builder_call (b : ClientBuilder PrivKey Cert) (op : BuilderOp) :
    ClientBuilder PrivKey Cert :=
  match op with
  | BEndpoint v => builder_endpoint b v
  | BUsername v => builder_username b v
  | BPassword v => builder_password b v
  | BIdentity v => builder_identity b v
  | BAgent => builder_agent b
  | BKeyboardInteractive v => builder_keyboard_interactive b v
  | BStrictHostKeyChecking enabled => builder_strict_host_key_checking b enabled
  | BAcceptAnyHostKey => accept_any_host_key b
  | BHostKeyPolicy v => builder_host_key_policy b v
  | BTimeouts v => builder_timeouts b v
  | BKeepalive v => builder_keepalive b v
  | BKnownHosts kh => builder_known_hosts b kh
  | BKnownHostsAcceptNew kh => builder_known_hosts_accept_new b kh
  | BCertificate c => builder_certificate b c
  | BX11Display display => builder_x11_display b display
  end.

(** The calls that can make a client accept a key. *)
Definition trusts (op : BuilderOp) : bool :=
  match op with
  | BStrictHostKeyChecking enabled => negb enabled
  | BHostKeyPolicy Strict => false
  | BAcceptAnyHostKey | BHostKeyPolicy _ | BKnownHosts _ | BKnownHostsAcceptNew _ => true
  | _ => false
  end.

Lemma untrusting_builder ops b :
  forallb (negb ∘ trusts) ops = true →
  c_known_hosts (cb_client b) = None → cc_host_key_policy (c_config (cb_client b)) = Strict →
  let c := cb_client (fold_left builder_call ops b) in
  c_known_hosts c = None ∧ cc_host_key_policy (c_config c) = Strict.
Proof.
  revert b. induction ops as [|op ops IH]; intros b Ho Hk Hp; [done|].
  cbn in Ho. apply andb_prop in Ho as [Hop Ho]. cbn [fold_left].
  apply IH; [done| |]; destruct op as [| | | | | |[]| |[]| | | | | |]; done.
Qed.

(** C30.  Secure by default: a client whose builder was never told which host keys to trust
    connects to no server, whatever else was configured. *)
Theorem secure_by_default (registry : Registry) (ops : list BuilderOp) (counter : Z) :
  forallb (negb ∘ trusts) ops = true →
  let c := ClientBuilder_build (fold_left builder_call ops (Client_builder registry)) in
  is_ok (fst (fst (Client_connect c counter))) = false.
Proof.
  cbv zeta. intros Ho. unfold ClientBuilder_build.
  destruct (untrusting_builder ops (Client_builder registry) Ho eq_refl eq_refl) as [Hk Hp].
  set (c := cb_client _) in *.
  destruct (Client_connect c counter) as [[[s|e] c'] n] eqn:E; [|done].
  apply connect_stands in E as (w & _ & E & _). apply stands_host_key in E.
  unfold host_key_ok in E. rewrite Hk, Hp in E.
  by destruct E as [|(? & ? & _)].
Qed.
End Connect.

(** ** A concrete server *)

Section Runs.
(** A server with the key ["k1"] that knows one password; its state is whether it has
    accepted the user. *)
Definition srv_connect (_ : RusshClientConfig) (_ : string) (_ _ : Z) (h : ClientHandler) :
    timed bool * ClientHandler :=
  match check_server_key run_key (λ k, k) (λ _, Rsa) h "k1" with
  | (Ok true, h') => (Some (Ok false), h')
  | (Ok false, h') => (Some (Err UnknownKey), h')
  | (Err e, h') => (Some (Err e), h')
  end.

Abbreviation connect_run := (Client_connect (λ _, "") srv_connect srv_password (λ _, srv_refuse)
  (λ _ (_ : unit), srv_refuse) (λ _ (_ : unit) w, (Some (Ok (AuthFailure false)), w))
  (λ _ _ (_ : unit), srv_refuse) srv_start srv_respond (λ _ _, Err "") (λ _, Err "")
  (λ _, false) (λ _ _, Err "") None (λ _, Err "") (Err "") 1 (λ _, ["hello"])).

Definition run_builder (ops : list (BuilderOp (PrivKey := unit) (Cert := unit))) :
    Client unit unit :=
  ClientBuilder_build (fold_left builder_call
    ([BEndpoint (Endpoint_new "example.org" 2222); BUsername (Username_new "u");
      BPassword (Password_new "secret")] ++ ops) (Client_builder 0)).

Lemma srv_connect_checks cfg host port t h w h' :
  srv_connect cfg host port t h = (Some (Ok w), h') →
  check_server_key run_key (λ k, k) (λ _, Rsa) h "k1" = (Ok true, h').
Proof.
  unfold srv_connect. destruct (check_server_key _ _ _ h "k1") as [[[]|] h1]; by intros [= _ <-].
Qed.

Lemma srv_password_honest u p : honest (λ w, w = true) is_auth_success (srv_password u p).
Proof.
  intros w a w'. unfold srv_password. destruct (String.eqb p "secret"); by intros [= <- <-].
Qed.

Lemma srv_refuse_honest : honest (λ w, w = true) is_auth_success srv_refuse.
Proof. by intros w a w' [= <- _]. Qed.

Lemma srv_respond_honest a w w' : srv_respond a w = (Ok KiSuccess, w') → w' = true.
Proof. unfold srv_respond. case_bool_decide; by intros [= <-]. Qed.

Lemma connected_means_verified_witness :
  ∃ s c', connect_run (run_builder [BKnownHostsAcceptNew KnownHosts_new]) 7 = (Ok s, c', 8) ∧
    s_handle s = Some true ∧ s_endpoint s = Endpoint_new "example.org" 2222 ∧
    host_key_ok run_key (λ k, k) (run_builder [BKnownHostsAcceptNew KnownHosts_new]) "k1".
Proof.
  destruct (connect_run (run_builder [BKnownHostsAcceptNew KnownHosts_new]) 7)
    as [[[s|e] c'] n] eqn:E; [|by vm_compute in E].
  pose proof E as E1.
  apply (connected_means_verified (λ _, "") run_key (λ k, k) (λ _, Rsa) srv_connect srv_password
    (λ _, srv_refuse) (λ _ (_ : unit), srv_refuse)
    (λ _ (_ : unit) w, (Some (Ok (AuthFailure false)), w)) (λ _ _ (_ : unit), srv_refuse) srv_start
    srv_respond (λ _ _, Err "") (λ _, Err "") (λ _, false) (λ _ _, Err "") None (λ _, Err "")
    (Err "") 1 (λ _, ["hello"]) (λ _, "k1") (λ w, w = true))
    in E as ((w0 & w & _ & Hw & _ & Hk & ->) & He & _); try (by intros).
  - exists s, c'. vm_compute in E1. injection E1 as _ _ <-. by split_and!.
  - exact srv_connect_checks.
  - exact srv_password_honest.
  - intros _. exact srv_refuse_honest.
  - intros _ _. exact srv_refuse_honest.
  - intros _ _ _. exact srv_refuse_honest.
  - exact srv_respond_honest.
Defined.

Lemma secure_by_default_witness :
  is_ok (fst (fst (connect_run (run_builder [BX11Display "/tmp/.X11-unix/X0"]) 7))) = false.
Proof.
  apply (secure_by_default (λ _, "") run_key (λ k, k) (λ _, Rsa) srv_connect srv_password
    (λ _, srv_refuse) (λ _ (_ : unit), srv_refuse)
    (λ _ (_ : unit) w, (Some (Ok (AuthFailure false)), w)) (λ _ _ (_ : unit), srv_refuse) srv_start
    srv_respond (λ _ _, Err "") (λ _, Err "") (λ _, false) (λ _ _, Err "") None (λ _, Err "")
    (Err "") 1 (λ _, ["hello"]) (λ _, "k1") srv_connect_checks 0
    ([BEndpoint (Endpoint_new "example.org" 2222); BUsername (Username_new "u");
      BPassword (Password_new "secret")] ++ [BX11Display "/tmp/.X11-unix/X0"]) 7).
  by vm_compute.
Defined.
End Runs.
