(* ===== verification/ServerTypes.v ===== *)
(** * Server: contexts, callbacks, builder ([russh-extra/src/server.rs])

    The data the SSH server hands to its application (contexts, decisions,
    responses), the table of application callbacks, the [ServerHandler] trait
    and the builder that fills the table from it, host keys, and the two cells
    the whole server shares: the shutdown request and the first session error.

    An application callback is a function of its context and of the application
    state [A], by what its future resolves to.  Every context also carries a
    [ServerHandle]; being a reference to the one shutdown cell of the server it
    is reached through [A].  Keys and certificates are [russh]'s types. *)
From S2P Require Import Prelude RustStr RustPath Channel CoreError Endpoint Config.
From S2P Require Import SftpPacket SftpTypes SftpServer ClientErrors.

(** ** Contexts *)

Definition SessionId : Type := Z.

Record SessionContext := { sx_id : SessionId; sx_username : option Username }.
Definition SessionContext_new (id : SessionId) : SessionContext :=
  {| sx_id := id; sx_username := None |}.
Definition SessionContext_with_username (c : SessionContext) (u : Username) : SessionContext :=
  {| sx_id := sx_id c; sx_username := Some u |}.

Record AuthContext := {
  ax_session_id : SessionId;
  ax_username : Username;
  ax_peer_addr : option string;
}.

Record AuthDecision := { accepted : bool }.
Definition AuthDecision_accept : AuthDecision := {| accepted := true |}.
Definition AuthDecision_reject : AuthDecision := {| accepted := false |}.
Definition AuthDecision_default : AuthDecision := {| accepted := false |}.

Record KeyboardInteractivePromptItem := { item_prompt : string; item_echo : bool }.
Record KeyboardInteractivePrompt := {
  block_name : string;
  block_instruction : string;
  block_prompts : list KeyboardInteractivePromptItem;
}.
Definition KeyboardInteractivePromptItem_new (prompt : string) (echo : bool) :
    KeyboardInteractivePromptItem := {| item_prompt := prompt; item_echo := echo |}.
Definition KeyboardInteractivePrompt_new (name instruction : string)
    (prompts : list KeyboardInteractivePromptItem) : KeyboardInteractivePrompt :=
  {| block_name := name; block_instruction := instruction; block_prompts := prompts |}.
Inductive KeyboardInteractiveResponse :=
| KiAccept
| KiReject
| KiFurtherAction (prompt : KeyboardInteractivePrompt).
Record KeyboardInteractiveContext := {
  kx_session : AuthContext;
  kx_submethods : string;
  kx_responses : list (list byte);
}.

Record ExecCommand := { command_bytes : list byte }.
Definition ExecCommand_as_str (c : ExecCommand) : option string :=
  if utf8_valid (command_bytes c) then Some (of_bytes (command_bytes c)) else None.

Record ExecContext := {
  ex_session_id : SessionId;
  ex_username : Username;
  ex_peer_addr : option string;
  ex_channel_id : Z;
  ex_command : ExecCommand;
  ex_env : gmap string string;
}.

Record ExecResponse := {
  er_accepted : bool;
  er_stdout : list byte;
  er_stderr : list byte;
  er_exit : CommandExit;
}.
Definition ExecResponse_success : ExecResponse :=
  {| er_accepted := true; er_stdout := []; er_stderr := []; er_exit := Status 0 |}.
Definition ExecResponse_reject : ExecResponse :=
  {| er_accepted := false; er_stdout := []; er_stderr := []; er_exit := Missing |}.
Definition ExecResponse_stdout (r : ExecResponse) (d : list byte) : ExecResponse :=
  {| er_accepted := er_accepted r; er_stdout := d; er_stderr := er_stderr r;
     er_exit := er_exit r |}.
Definition ExecResponse_stderr (r : ExecResponse) (d : list byte) : ExecResponse :=
  {| er_accepted := er_accepted r; er_stdout := er_stdout r; er_stderr := d;
     er_exit := er_exit r |}.
Definition ExecResponse_exit (r : ExecResponse) (e : CommandExit) : ExecResponse :=
  {| er_accepted := er_accepted r; er_stdout := er_stdout r; er_stderr := er_stderr r;
     er_exit := e |}.
Definition ExecResponse_exit_status (r : ExecResponse) (status : Z) : ExecResponse :=
  ExecResponse_exit r (Status status).

Inductive StreamingExecCmd :=
| SxStdout (data : list byte)
| SxStderr (data : list byte)
| SxExited (exit : CommandExit).

(** The context of a streaming handler; [sc_stdin] names the queue its
    [stdin_rx] reads, whose sending side is in the connection's [stdin_txs]. *)
Record StreamingExecContext := {
  sc_session_id : SessionId;
  sc_username : Username;
  sc_peer_addr : option string;
  sc_channel_id : Z;
  sc_command : ExecCommand;
  sc_env : gmap string string;
  sc_stdin : nat;
}.

(** How the task of a streaming handler ends. *)
Inductive HandlerEnd := Returned (r : Result unit) | Panicked.

(** One run of a streaming handler: the commands it sends, and its end. *)
Record StreamRun := { run_cmds : list StreamingExecCmd; run_end : HandlerEnd }.

Record ShellContext := { sh_session : SessionContext; sh_channel : Z }.
Record PtyParams := {
  pp_term : string;
  pp_col_width : Z; pp_row_height : Z; pp_pix_width : Z; pp_pix_height : Z;
  pp_modes : list (Z * Z);
}.
Record PtyContext := { px_session : SessionContext; px_channel : Z }.
Record SubsystemContext := { ss_session : SessionContext; ss_channel : Z; ss_name : string }.
Record EnvRequest := { env_name : string; env_value : string }.
Record WindowChange := {
  wc_col_width : Z; wc_row_height : Z; wc_pix_width : Z; wc_pix_height : Z;
}.

Record TcpipForwardContext := {
  tf_session_id : SessionId; tf_username : Username; tf_address : string; tf_port : Z;
}.
Record StreamLocalForwardContext := {
  lf_session_id : SessionId; lf_username : Username; lf_socket_path : string;
}.
Record DirectTcpipContext := {
  dt_session_id : SessionId; dt_username : Username;
  dt_host_to_connect : string; dt_port_to_connect : Z;
  dt_originator_address : string; dt_originator_port : Z;
}.
Record ForwardedTcpipContext := {
  ft_session_id : SessionId; ft_username : Username;
  ft_connected_address : string; ft_connected_port : Z;
  ft_originator_address : string; ft_originator_port : Z;
}.
Record DirectStreamLocalContext := {
  dl_session_id : SessionId; dl_username : Username; dl_socket_path : string;
}.
Record X11RequestContext := {
  xr_session_id : SessionId; xr_username : Username; xr_channel : Z;
  xr_single_connection : bool; xr_auth_protocol : string; xr_auth_cookie : string;
  xr_screen_number : Z;
}.
Record X11ChannelContext := {
  xc_session_id : SessionId; xc_username : Username;
  xc_originator_address : string; xc_originator_port : Z;
}.
Record AgentRequestContext := { ag_session_id : SessionId; ag_channel : Z }.
