(* ===== verification/ServerBuild.v ===== *)
(** * Server: callbacks, builder and shared cells ([russh-extra/src/server.rs])

    The table of application callbacks ([Callbacks], the callback fields of
    [ServerBuilder] and [ServerRuntime] in five groups), the [ServerHandler]
    trait with its default methods, [ServerBuilder], host keys, and the state all
    connections share. *)
From S2P Require Import Prelude RustStr RustPath Channel CoreError Endpoint Config.
From S2P Require Import SftpPacket SftpTypes SftpServer ClientErrors ServerTypes.

Section Server.
(** The application's state; [russh]'s key and certificate types. *)
Context {A PubKey Cert PrivKey : Type}.

(** An application callback, by what its future resolves to. *)
Definition callback (X R : Type) : Type := X → A → Result R * A.

(** A streaming handler, by the commands it sends given the standard input it
    reads. *)
Definition StreamingExecCallback : Type :=
  StreamingExecContext → list (list byte) → StreamRun.

Record AuthCalls := {
  password_auth : option (callback (AuthContext * Password) AuthDecision);
  public_key_auth : option (callback (AuthContext * PubKey) AuthDecision);
  keyboard_interactive_auth :
    option (callback KeyboardInteractiveContext KeyboardInteractiveResponse);
  cert_auth : option (callback (AuthContext * Cert) AuthDecision);
  auth_banner : option (callback unit (option string));
}.
Record ExecCalls := {
  exec_routes : gmap string (callback ExecContext ExecResponse);
  fallback_exec : option (callback ExecContext ExecResponse);
  exec_routes_streaming : gmap string StreamingExecCallback;
  fallback_streaming_exec : option StreamingExecCallback;
}.
Record ChannelCalls := {
  shell_handler : option (callback ShellContext unit);
  pty_handler : option (callback (PtyContext * PtyParams) unit);
  subsystem_handler : option (callback SubsystemContext unit);
  env_handler : option (callback (ShellContext * EnvRequest) unit);
  window_change_handler : option (callback (ShellContext * WindowChange) unit);
  x11_request_handler : option (callback X11RequestContext bool);
  x11_channel_handler : option (callback X11ChannelContext bool);
  agent_request_handler : option (callback AgentRequestContext bool);
  sftp_handler : option (SftpServerHandler A);
}.
Record ForwardCalls := {
  tcpip_forward_handler : option (callback TcpipForwardContext bool);
  cancel_tcpip_forward_handler : option (callback TcpipForwardContext bool);
  direct_tcpip_handler : option (callback DirectTcpipContext bool);
  forwarded_tcpip_handler : option (callback ForwardedTcpipContext bool);
  streamlocal_forward_handler : option (callback StreamLocalForwardContext bool);
  cancel_streamlocal_forward_handler : option (callback StreamLocalForwardContext bool);
  direct_streamlocal_handler : option (callback DirectStreamLocalContext bool);
}.
Record HookCalls := {
  on_connect : option (callback SessionContext unit);
  on_disconnect : option (callback SessionId unit);
  on_auth_success : option (callback SessionContext unit);
}.
Record Callbacks := {
  c_auth : AuthCalls;
  c_exec : ExecCalls;
  c_channel : ChannelCalls;
  c_forward : ForwardCalls;
  c_hooks : HookCalls;
}.

Definition Callbacks_none : Callbacks := {|
  c_auth := {| password_auth := None; public_key_auth := None;
               keyboard_interactive_auth := None; cert_auth := None; auth_banner := None |};
  c_exec := {| exec_routes := ∅; fallback_exec := None; exec_routes_streaming := ∅;
               fallback_streaming_exec := None |};
  c_channel := {| shell_handler := None; pty_handler := None; subsystem_handler := None;
                  env_handler := None; window_change_handler := None;
                  x11_request_handler := None; x11_channel_handler := None;
                  agent_request_handler := None; sftp_handler := None |};
  c_forward := {| tcpip_forward_handler := None; cancel_tcpip_forward_handler := None;
                  direct_tcpip_handler := None; forwarded_tcpip_handler := None;
                  streamlocal_forward_handler := None;
                  cancel_streamlocal_forward_handler := None;
                  direct_streamlocal_handler := None |};
  c_hooks := {| on_connect := None; on_disconnect := None; on_auth_success := None |};
|}.

(** ** The [ServerHandler] trait *)

Class ServerHandler := {
  sh_on_connect : callback SessionContext unit;
  sh_on_auth_success : callback SessionContext unit;
  sh_on_disconnect : callback SessionId unit;
  sh_auth_password : callback (AuthContext * Password) AuthDecision;
  sh_auth_publickey : callback (AuthContext * PubKey) AuthDecision;
  sh_auth_keyboard_interactive :
    callback KeyboardInteractiveContext KeyboardInteractiveResponse;
  sh_exec : callback ExecContext ExecResponse;
  sh_streaming_exec : StreamingExecCallback;
  sh_shell : callback ShellContext unit;
  sh_pty : callback (PtyContext * PtyParams) unit;
  sh_subsystem : callback SubsystemContext unit;
  sh_env : callback (ShellContext * EnvRequest) unit;
  sh_window_change : callback (ShellContext * WindowChange) unit;
  sh_tcpip_forward : callback TcpipForwardContext bool;
  sh_cancel_tcpip_forward : callback TcpipForwardContext bool;
  sh_channel_open_direct_tcpip : callback DirectTcpipContext bool;
  sh_channel_open_forwarded_tcpip : callback ForwardedTcpipContext bool;
  sh_streamlocal_forward : callback StreamLocalForwardContext bool;
  sh_cancel_streamlocal_forward : callback StreamLocalForwardContext bool;
  sh_channel_open_direct_streamlocal : callback DirectStreamLocalContext bool;
  sh_auth_openssh_certificate : callback (AuthContext * Cert) AuthDecision;
  sh_x11_request : callback X11RequestContext bool;
  sh_channel_open_x11 : callback X11ChannelContext bool;
  sh_agent_request : callback AgentRequestContext bool;
  sh_authentication_banner : callback unit (option string);
}.

(** A default method: its answer, whatever the request. *)
Definition always {X R} (r : Result R) : callback X R := λ _ a, (r, a).

Definition not_supported (what : string) : Result unit :=
  Err (Error_channel_kind ChannelRequest (what +:+ " not supported")).

(** The trait's default methods. *)
Definition ServerHandler_default : ServerHandler := {|
  sh_on_connect := always (Ok ());
  sh_on_auth_success := always (Ok ());
  sh_on_disconnect := always (Ok ());
  sh_auth_password := always (Ok AuthDecision_reject);
  sh_auth_publickey := always (Ok AuthDecision_reject);
  sh_auth_keyboard_interactive := always (Ok KiReject);
  sh_exec := always (Ok ExecResponse_reject);
  sh_streaming_exec := λ _ _, {| run_cmds := []; run_end := Returned (Ok ()) |};
  sh_shell := always (not_supported "shell");
  sh_pty := always (not_supported "PTY");
  sh_subsystem := always (not_supported "subsystem");
  sh_env := always (Ok ());
  sh_window_change := always (Ok ());
  sh_tcpip_forward := always (Ok false);
  sh_cancel_tcpip_forward := always (Ok false);
  sh_channel_open_direct_tcpip := always (Ok false);
  sh_channel_open_forwarded_tcpip := always (Ok false);
  sh_streamlocal_forward := always (Ok false);
  sh_cancel_streamlocal_forward := always (Ok false);
  sh_channel_open_direct_streamlocal := always (Ok false);
  sh_auth_openssh_certificate := always (Ok AuthDecision_reject);
  sh_x11_request := always (Ok false);
  sh_channel_open_x11 := always (Ok false);
  sh_agent_request := always (Ok false);
  sh_authentication_banner := always (Ok None);
|}.

(** ** Host keys *)

(** What the program uses of the key library: [PrivateKey::read_openssh_file],
    [from_openssh], [is_encrypted] and [decrypt], errors by their text. *)
Context (read_openssh_file : string → result string PrivKey)
        (parse_key : list byte → result string PrivKey)
        (is_encrypted : PrivKey → bool)
        (decrypt : PrivKey → string → result string PrivKey).

Record HostKeyFile := { hk_mode : result IoError Z; hk_data : result IoError (list byte) }.
Context (fs : string → HostKeyFile).

Record ServerHostKey := { private_key : PrivKey }.
Definition ServerHostKey_from_private_key (k : PrivKey) : ServerHostKey := {| private_key := k |}.

Definition validate_host_key_permissions (path : string) : Result unit :=
  match hk_mode (fs path) with
  | Err e => Err (EIo e)
  | Ok mode =>
      if negb (Z.land mode MODE_OTHERS_ANY =? 0) then
        Err (Error_invalid_config
          ("host key file `" +:+ path +:+ "` must not be accessible by group or others"))
      else Ok ()
  end.

Definition from_loaded_private_key (k : PrivKey) : Result ServerHostKey :=
  if is_encrypted k then
    Err (Error_invalid_config "server host key is encrypted and requires a passphrase")
  else Ok {| private_key := k |}.

Definition from_openssh_file (path : string) : Result ServerHostKey :=
  _ ← validate_host_key_permissions path;
  k ← map_err (Error_ssh_with_source "failed to read server host key") (read_openssh_file path);
  from_loaded_private_key k.

Definition from_openssh_pem (pem : list byte) : Result ServerHostKey :=
  k ← map_err (Error_ssh_with_source "failed to parse server host key") (parse_key pem);
  from_loaded_private_key k.

Definition from_openssh_pem_with_passphrase (pem : list byte) (passphrase : Password) :
    Result ServerHostKey :=
  k ← map_err (Error_ssh_with_source "failed to parse server host key") (parse_key pem);
  k ← (if is_encrypted k
       then map_err (Error_ssh_with_source "failed to decrypt server host key")
              (decrypt k (expose_secret passphrase))
       else Ok k);
  from_loaded_private_key k.

Definition from_openssh_file_with_passphrase (path : string) (passphrase : Password) :
    Result ServerHostKey :=
  _ ← validate_host_key_permissions path;
  pem ← map_err EIo (hk_data (fs path));
  from_openssh_pem_with_passphrase pem passphrase.

Inductive ServerHostKeySource := Loaded (k : ServerHostKey) | OpenSshFile (path : string).

Definition source_load (s : ServerHostKeySource) : Result PrivKey :=
  match s with
  | Loaded k => Ok (private_key k)
  | OpenSshFile path => k ← from_openssh_file path; Ok (private_key k)
  end.

(** [.map(load).collect::<Result<Vec<_>>>()]: the first error stops. *)
Fixpoint load_keys (l : list ServerHostKeySource) : Result (list PrivKey) :=
  match l with
  | [] => Ok []
  | s :: l' => k ← source_load s; ks ← load_keys l'; Ok (k :: ks)
  end.

(** ** The builder *)

Record ServerBuilder := {
  b_config : ServerConfig;
  b_host_keys : list ServerHostKeySource;
  b_shutdown_grace : Z;
  b_calls : Callbacks;
}.

Record ServerRuntime := {
  r_config : ServerConfig;
  r_host_keys : list PrivKey;
  r_shutdown_grace : Z;
  r_calls : Callbacks;
}.

Definition ServerBuilder_default : ServerBuilder :=
  {| b_config := ServerConfig_default; b_host_keys := []; b_shutdown_grace := from_secs 30;
     b_calls := Callbacks_none |}.
Definition Server_builder : ServerBuilder := ServerBuilder_default.

Definition with_config (b : ServerBuilder) (c : ServerConfig) : ServerBuilder :=
  {| b_config := c; b_host_keys := b_host_keys b; b_shutdown_grace := b_shutdown_grace b;
     b_calls := b_calls b |}.
Definition with_calls (b : ServerBuilder) (c : Callbacks) : ServerBuilder :=
  {| b_config := b_config b; b_host_keys := b_host_keys b;
     b_shutdown_grace := b_shutdown_grace b; b_calls := c |}.

Definition builder_listen (b : ServerBuilder) (e : Endpoint) : ServerBuilder :=
  with_config b (set_listen (b_config b) e).
Definition builder_server_id (b : ServerBuilder) (id : string) : ServerBuilder :=
  with_config b (set_server_id (b_config b) id).
Definition builder_max_sessions (b : ServerBuilder) (n : Z) : ServerBuilder :=
  with_config b (set_max_sessions (b_config b) n).
Definition builder_shutdown_grace (b : ServerBuilder) (d : Z) : ServerBuilder :=
  {| b_config := b_config b; b_host_keys := b_host_keys b; b_shutdown_grace := d;
     b_calls := b_calls b |}.

Definition add_key (b : ServerBuilder) (s : ServerHostKeySource) : ServerBuilder :=
  {| b_config := b_config b; b_host_keys := b_host_keys b ++ [s];
     b_shutdown_grace := b_shutdown_grace b; b_calls := b_calls b |}.
Definition builder_host_key (b : ServerBuilder) (k : ServerHostKey) : ServerBuilder :=
  add_key b (Loaded k).
Definition builder_host_key_file (b : ServerBuilder) (path : string) : ServerBuilder :=
  add_key b (OpenSshFile path).

Definition with_exec (b : ServerBuilder) (e : ExecCalls) : ServerBuilder :=
  let c := b_calls b in
  with_calls b {| c_auth := c_auth c; c_exec := e; c_channel := c_channel c;
                  c_forward := c_forward c; c_hooks := c_hooks c |}.

Definition builder_exec (b : ServerBuilder) (command : string)
    (h : callback ExecContext ExecResponse) : ServerBuilder :=
  let e := c_exec (b_calls b) in
  with_exec b {| exec_routes := <[command := h]> (exec_routes e);
                 fallback_exec := fallback_exec e;
                 exec_routes_streaming := exec_routes_streaming e;
                 fallback_streaming_exec := fallback_streaming_exec e |}.

Definition builder_streaming_exec (b : ServerBuilder) (command : string)
    (h : StreamingExecCallback) : ServerBuilder :=
  let e := c_exec (b_calls b) in
  with_exec b {| exec_routes := exec_routes e; fallback_exec := fallback_exec e;
                 exec_routes_streaming := <[command := h]> (exec_routes_streaming e);
                 fallback_streaming_exec := fallback_streaming_exec e |}.

(** The callback setters, one group at a time. *)
Definition with_auth (b : ServerBuilder) (x : AuthCalls) : ServerBuilder :=
  let c := b_calls b in
  with_calls b {| c_auth := x; c_exec := c_exec c; c_channel := c_channel c;
                  c_forward := c_forward c; c_hooks := c_hooks c |}.

Definition with_channel (b : ServerBuilder) (x : ChannelCalls) : ServerBuilder :=
  let c := b_calls b in
  with_calls b {| c_auth := c_auth c; c_exec := c_exec c; c_channel := x;
                  c_forward := c_forward c; c_hooks := c_hooks c |}.

Definition with_forward (b : ServerBuilder) (x : ForwardCalls) : ServerBuilder :=
  let c := b_calls b in
  with_calls b {| c_auth := c_auth c; c_exec := c_exec c; c_channel := c_channel c;
                  c_forward := x; c_hooks := c_hooks c |}.

Definition with_hooks (b : ServerBuilder) (x : HookCalls) : ServerBuilder :=
  let c := b_calls b in
  with_calls b {| c_auth := c_auth c; c_exec := c_exec c; c_channel := c_channel c;
                  c_forward := c_forward c; c_hooks := x |}.

Definition builder_password_auth (b : ServerBuilder)
    (f : callback (AuthContext * Password) AuthDecision) : ServerBuilder :=
  let x := c_auth (b_calls b) in
  with_auth b
    {| password_auth := Some f; public_key_auth := public_key_auth x;
       keyboard_interactive_auth := keyboard_interactive_auth x;
       cert_auth := cert_auth x; auth_banner := auth_banner x |}.

Definition builder_public_key_auth (b : ServerBuilder)
    (f : callback (AuthContext * PubKey) AuthDecision) : ServerBuilder :=
  let x := c_auth (b_calls b) in
  with_auth b
    {| password_auth := password_auth x; public_key_auth := Some f;
       keyboard_interactive_auth := keyboard_interactive_auth x;
       cert_auth := cert_auth x; auth_banner := auth_banner x |}.

Definition builder_keyboard_interactive_auth (b : ServerBuilder)
    (f : callback KeyboardInteractiveContext KeyboardInteractiveResponse) : ServerBuilder :=
  let x := c_auth (b_calls b) in
  with_auth b
    {| password_auth := password_auth x; public_key_auth := public_key_auth x;
       keyboard_interactive_auth := Some f; cert_auth := cert_auth x;
       auth_banner := auth_banner x |}.

Definition builder_certificate_auth (b : ServerBuilder)
    (f : callback (AuthContext * Cert) AuthDecision) : ServerBuilder :=
  let x := c_auth (b_calls b) in
  with_auth b
    {| password_auth := password_auth x; public_key_auth := public_key_auth x;
       keyboard_interactive_auth := keyboard_interactive_auth x;
       cert_auth := Some f; auth_banner := auth_banner x |}.

Definition builder_banner (b : ServerBuilder)
    (f : callback unit (option string)) : ServerBuilder :=
  let x := c_auth (b_calls b) in
  with_auth b
    {| password_auth := password_auth x; public_key_auth := public_key_auth x;
       keyboard_interactive_auth := keyboard_interactive_auth x;
       cert_auth := cert_auth x; auth_banner := Some f |}.

Definition builder_shell_handler (b : ServerBuilder)
    (f : callback ShellContext unit) : ServerBuilder :=
  let x := c_channel (b_calls b) in
  with_channel b
    {| shell_handler := Some f; pty_handler := pty_handler x;
       subsystem_handler := subsystem_handler x; env_handler := env_handler x;
       window_change_handler := window_change_handler x;
       x11_request_handler := x11_request_handler x;
       x11_channel_handler := x11_channel_handler x;
       agent_request_handler := agent_request_handler x;
       sftp_handler := sftp_handler x |}.

Definition builder_pty_handler (b : ServerBuilder)
    (f : callback (PtyContext * PtyParams) unit) : ServerBuilder :=
  let x := c_channel (b_calls b) in
  with_channel b
    {| shell_handler := shell_handler x; pty_handler := Some f;
       subsystem_handler := subsystem_handler x; env_handler := env_handler x;
       window_change_handler := window_change_handler x;
       x11_request_handler := x11_request_handler x;
       x11_channel_handler := x11_channel_handler x;
       agent_request_handler := agent_request_handler x;
       sftp_handler := sftp_handler x |}.

Definition builder_subsystem_handler (b : ServerBuilder)
    (f : callback SubsystemContext unit) : ServerBuilder :=
  let x := c_channel (b_calls b) in
  with_channel b
    {| shell_handler := shell_handler x; pty_handler := pty_handler x;
       subsystem_handler := Some f; env_handler := env_handler x;
       window_change_handler := window_change_handler x;
       x11_request_handler := x11_request_handler x;
       x11_channel_handler := x11_channel_handler x;
       agent_request_handler := agent_request_handler x;
       sftp_handler := sftp_handler x |}.

Definition builder_env_handler (b : ServerBuilder)
    (f : callback (ShellContext * EnvRequest) unit) : ServerBuilder :=
  let x := c_channel (b_calls b) in
  with_channel b
    {| shell_handler := shell_handler x; pty_handler := pty_handler x;
       subsystem_handler := subsystem_handler x; env_handler := Some f;
       window_change_handler := window_change_handler x;
       x11_request_handler := x11_request_handler x;
       x11_channel_handler := x11_channel_handler x;
       agent_request_handler := agent_request_handler x;
       sftp_handler := sftp_handler x |}.

Definition builder_window_change_handler (b : ServerBuilder)
    (f : callback (ShellContext * WindowChange) unit) : ServerBuilder :=
  let x := c_channel (b_calls b) in
  with_channel b
    {| shell_handler := shell_handler x; pty_handler := pty_handler x;
       subsystem_handler := subsystem_handler x; env_handler := env_handler x;
       window_change_handler := Some f;
       x11_request_handler := x11_request_handler x;
       x11_channel_handler := x11_channel_handler x;
       agent_request_handler := agent_request_handler x;
       sftp_handler := sftp_handler x |}.

Definition builder_x11_request_handler (b : ServerBuilder)
    (f : callback X11RequestContext bool) : ServerBuilder :=
  let x := c_channel (b_calls b) in
  with_channel b
    {| shell_handler := shell_handler x; pty_handler := pty_handler x;
       subsystem_handler := subsystem_handler x; env_handler := env_handler x;
       window_change_handler := window_change_handler x;
       x11_request_handler := Some f; x11_channel_handler := x11_channel_handler x;
       agent_request_handler := agent_request_handler x;
       sftp_handler := sftp_handler x |}.

Definition builder_x11_channel_handler (b : ServerBuilder)
    (f : callback X11ChannelContext bool) : ServerBuilder :=
  let x := c_channel (b_calls b) in
  with_channel b
    {| shell_handler := shell_handler x; pty_handler := pty_handler x;
       subsystem_handler := subsystem_handler x; env_handler := env_handler x;
       window_change_handler := window_change_handler x;
       x11_request_handler := x11_request_handler x; x11_channel_handler := Some f;
       agent_request_handler := agent_request_handler x;
       sftp_handler := sftp_handler x |}.

Definition builder_agent_request_handler (b : ServerBuilder)
    (f : callback AgentRequestContext bool) : ServerBuilder :=
  let x := c_channel (b_calls b) in
  with_channel b
    {| shell_handler := shell_handler x; pty_handler := pty_handler x;
       subsystem_handler := subsystem_handler x; env_handler := env_handler x;
       window_change_handler := window_change_handler x;
       x11_request_handler := x11_request_handler x;
       x11_channel_handler := x11_channel_handler x;
       agent_request_handler := Some f; sftp_handler := sftp_handler x |}.

Definition builder_sftp_handler (b : ServerBuilder)
    (f : SftpServerHandler A) : ServerBuilder :=
  let x := c_channel (b_calls b) in
  with_channel b
    {| shell_handler := shell_handler x; pty_handler := pty_handler x;
       subsystem_handler := subsystem_handler x; env_handler := env_handler x;
       window_change_handler := window_change_handler x;
       x11_request_handler := x11_request_handler x;
       x11_channel_handler := x11_channel_handler x;
       agent_request_handler := agent_request_handler x; sftp_handler := Some f |}.

Definition builder_tcpip_forward_handler (b : ServerBuilder)
    (f : callback TcpipForwardContext bool) : ServerBuilder :=
  let x := c_forward (b_calls b) in
  with_forward b
    {| tcpip_forward_handler := Some f;
       cancel_tcpip_forward_handler := cancel_tcpip_forward_handler x;
       direct_tcpip_handler := direct_tcpip_handler x;
       forwarded_tcpip_handler := forwarded_tcpip_handler x;
       streamlocal_forward_handler := streamlocal_forward_handler x;
       cancel_streamlocal_forward_handler := cancel_streamlocal_forward_handler x;
       direct_streamlocal_handler := direct_streamlocal_handler x |}.

Definition builder_cancel_tcpip_forward_handler (b : ServerBuilder)
    (f : callback TcpipForwardContext bool) : ServerBuilder :=
  let x := c_forward (b_calls b) in
  with_forward b
    {| tcpip_forward_handler := tcpip_forward_handler x;
       cancel_tcpip_forward_handler := Some f;
       direct_tcpip_handler := direct_tcpip_handler x;
       forwarded_tcpip_handler := forwarded_tcpip_handler x;
       streamlocal_forward_handler := streamlocal_forward_handler x;
       cancel_streamlocal_forward_handler := cancel_streamlocal_forward_handler x;
       direct_streamlocal_handler := direct_streamlocal_handler x |}.

Definition builder_direct_tcpip_handler (b : ServerBuilder)
    (f : callback DirectTcpipContext bool) : ServerBuilder :=
  let x := c_forward (b_calls b) in
  with_forward b
    {| tcpip_forward_handler := tcpip_forward_handler x;
       cancel_tcpip_forward_handler := cancel_tcpip_forward_handler x;
       direct_tcpip_handler := Some f;
       forwarded_tcpip_handler := forwarded_tcpip_handler x;
       streamlocal_forward_handler := streamlocal_forward_handler x;
       cancel_streamlocal_forward_handler := cancel_streamlocal_forward_handler x;
       direct_streamlocal_handler := direct_streamlocal_handler x |}.

Definition builder_forwarded_tcpip_handler (b : ServerBuilder)
    (f : callback ForwardedTcpipContext bool) : ServerBuilder :=
  let x := c_forward (b_calls b) in
  with_forward b
    {| tcpip_forward_handler := tcpip_forward_handler x;
       cancel_tcpip_forward_handler := cancel_tcpip_forward_handler x;
       direct_tcpip_handler := direct_tcpip_handler x;
       forwarded_tcpip_handler := Some f;
       streamlocal_forward_handler := streamlocal_forward_handler x;
       cancel_streamlocal_forward_handler := cancel_streamlocal_forward_handler x;
       direct_streamlocal_handler := direct_streamlocal_handler x |}.

Definition builder_streamlocal_forward_handler (b : ServerBuilder)
    (f : callback StreamLocalForwardContext bool) : ServerBuilder :=
  let x := c_forward (b_calls b) in
  with_forward b
    {| tcpip_forward_handler := tcpip_forward_handler x;
       cancel_tcpip_forward_handler := cancel_tcpip_forward_handler x;
       direct_tcpip_handler := direct_tcpip_handler x;
       forwarded_tcpip_handler := forwarded_tcpip_handler x;
       streamlocal_forward_handler := Some f;
       cancel_streamlocal_forward_handler := cancel_streamlocal_forward_handler x;
       direct_streamlocal_handler := direct_streamlocal_handler x |}.

Definition builder_cancel_streamlocal_forward_handler (b : ServerBuilder)
    (f : callback StreamLocalForwardContext bool) : ServerBuilder :=
  let x := c_forward (b_calls b) in
  with_forward b
    {| tcpip_forward_handler := tcpip_forward_handler x;
       cancel_tcpip_forward_handler := cancel_tcpip_forward_handler x;
       direct_tcpip_handler := direct_tcpip_handler x;
       forwarded_tcpip_handler := forwarded_tcpip_handler x;
       streamlocal_forward_handler := streamlocal_forward_handler x;
       cancel_streamlocal_forward_handler := Some f;
       direct_streamlocal_handler := direct_streamlocal_handler x |}.

Definition builder_direct_streamlocal_handler (b : ServerBuilder)
    (f : callback DirectStreamLocalContext bool) : ServerBuilder :=
  let x := c_forward (b_calls b) in
  with_forward b
    {| tcpip_forward_handler := tcpip_forward_handler x;
       cancel_tcpip_forward_handler := cancel_tcpip_forward_handler x;
       direct_tcpip_handler := direct_tcpip_handler x;
       forwarded_tcpip_handler := forwarded_tcpip_handler x;
       streamlocal_forward_handler := streamlocal_forward_handler x;
       cancel_streamlocal_forward_handler := cancel_streamlocal_forward_handler x;
       direct_streamlocal_handler := Some f |}.

Definition builder_on_connect (b : ServerBuilder)
    (f : callback SessionContext unit) : ServerBuilder :=
  let x := c_hooks (b_calls b) in
  with_hooks b
    {| on_connect := Some f; on_disconnect := on_disconnect x;
       on_auth_success := on_auth_success x |}.

Definition builder_on_disconnect (b : ServerBuilder)
    (f : callback SessionId unit) : ServerBuilder :=
  let x := c_hooks (b_calls b) in
  with_hooks b
    {| on_connect := on_connect x; on_disconnect := Some f;
       on_auth_success := on_auth_success x |}.

Definition builder_on_auth_success (b : ServerBuilder)
    (f : callback SessionContext unit) : ServerBuilder :=
  let x := c_hooks (b_calls b) in
  with_hooks b
    {| on_connect := on_connect x; on_disconnect := on_disconnect x;
       on_auth_success := Some f |}.

(** [ServerBuilder::handler]: every method of the trait becomes a callback; the
    routes and the SFTP handler stay. *)
Definition builder_handler (b : ServerBuilder) (h : ServerHandler) : ServerBuilder :=
  let c := b_calls b in
  with_calls b {|
    c_auth := {| password_auth := Some sh_auth_password;
                 public_key_auth := Some sh_auth_publickey;
                 keyboard_interactive_auth := Some sh_auth_keyboard_interactive;
                 cert_auth := Some sh_auth_openssh_certificate;
                 auth_banner := Some sh_authentication_banner |};
    c_exec := {| exec_routes := exec_routes (c_exec c);
                 fallback_exec := Some sh_exec;
                 exec_routes_streaming := exec_routes_streaming (c_exec c);
                 fallback_streaming_exec := Some sh_streaming_exec |};
    c_channel := {| shell_handler := Some sh_shell; pty_handler := Some sh_pty;
                    subsystem_handler := Some sh_subsystem; env_handler := Some sh_env;
                    window_change_handler := Some sh_window_change;
                    x11_request_handler := Some sh_x11_request;
                    x11_channel_handler := Some sh_channel_open_x11;
                    agent_request_handler := Some sh_agent_request;
                    sftp_handler := sftp_handler (c_channel c) |};
    c_forward := {| tcpip_forward_handler := Some sh_tcpip_forward;
                    cancel_tcpip_forward_handler := Some sh_cancel_tcpip_forward;
                    direct_tcpip_handler := Some sh_channel_open_direct_tcpip;
                    forwarded_tcpip_handler := Some sh_channel_open_forwarded_tcpip;
                    streamlocal_forward_handler := Some sh_streamlocal_forward;
                    cancel_streamlocal_forward_handler := Some sh_cancel_streamlocal_forward;
                    direct_streamlocal_handler := Some sh_channel_open_direct_streamlocal |};
    c_hooks := {| on_connect := Some sh_on_connect; on_disconnect := Some sh_on_disconnect;
                  on_auth_success := Some sh_on_auth_success |};
  |}.

Definition build (b : ServerBuilder) : Result ServerRuntime :=
  if sc_max_sessions (b_config b) =? 0 then
    Err (Error_invalid_config "server max_sessions must be greater than zero")
  else
    host_keys ← load_keys (b_host_keys b);
    match host_keys with
    | [] => Err (Error_invalid_config "server requires at least one host key")
    | _ => Ok {| r_config := b_config b; r_host_keys := host_keys;
                 r_shutdown_grace := b_shutdown_grace b; r_calls := b_calls b |}
    end.

(** ** [russh]'s configuration *)

Inductive MethodKind := MethodPassword | MethodPublicKey | MethodKeyboardInteractive.

(** [server::Config], as far as the program sets it. *)
Record RusshServerConfig := {
  rc_server_id : string;
  rc_methods : list MethodKind;
  rc_keys : list PrivKey;
  rc_max_auth_attempts : Z;
  rc_inactivity_timeout : option Z;
}.

Definition when_some {X Y} (o : option X) (y : Y) : list Y :=
  match o with Some _ => [y] | None => [] end.

Definition russh_config (r : ServerRuntime) : RusshServerConfig :=
  let auth := c_auth (r_calls r) in
  {| rc_server_id := sc_server_id (r_config r);
     rc_methods := when_some (password_auth auth) MethodPassword
                   ++ when_some (public_key_auth auth) MethodPublicKey
                   ++ when_some (keyboard_interactive_auth auth) MethodKeyboardInteractive;
     rc_keys := r_host_keys r;
     rc_max_auth_attempts := 10;
     rc_inactivity_timeout := Some (r_shutdown_grace r) |}.
End Server.
Arguments callback A X R : clear implicits.
Arguments AuthCalls A PubKey Cert : clear implicits.
Arguments ExecCalls A : clear implicits.
Arguments ChannelCalls A : clear implicits.
Arguments ForwardCalls A : clear implicits.
Arguments HookCalls A : clear implicits.
Arguments Callbacks A PubKey Cert : clear implicits.
Arguments ServerHandler A PubKey Cert : clear implicits.
Arguments ServerHostKey PrivKey : clear implicits.
Arguments ServerHostKeySource PrivKey : clear implicits.
Arguments ServerBuilder A PubKey Cert PrivKey : clear implicits.
Arguments ServerRuntime A PubKey Cert PrivKey : clear implicits.
Arguments RusshServerConfig PrivKey : clear implicits.

(** ** Cells shared by all connections *)

(** [ServerHandle]: the value of the shutdown channel. *)
Definition shutdown (reason : string) (current : option string) : option string :=
  match current with Some _ => current | None => Some reason end.
Definition is_shutdown_requested (current : option string) : bool :=
  match current with Some _ => true | None => false end.

(** [last_error]. *)
Definition record_error (error : Error) (last_error : option Error) : option Error :=
  match last_error with None => Some error | Some _ => last_error end.
Definition take_error (last_error : option Error) : option Error * option Error :=
  (last_error, None).

Inductive ServerRuntimeError := ErrRussh (e : RusshError) | ErrHighLevel (e : Error).

Section Errors.
Context (russh_text : RusshError → string).

Definition map_server_error (error : RusshError) : Error :=
  match error with
  | NotAuthenticated =>
      Error_authentication_kind AuthUnavailable
        "server request was received before authentication"
  | UnsupportedAuthMethod =>
      Error_authentication_kind AuthUnsupportedMethod
        "server received an unsupported authentication method"
  | Disconnect | HUP => Error_disconnected OpServer "client disconnected from server"
  | IO source =>
      Error_transport_with_source TransportIo "server transport I/O failed" source
  | KexInit | Kex | NoCommonAlgo | PacketAuth | Version | StrictKeyExchangeViolation =>
      Error_transport_with_source TransportNegotiation "server SSH negotiation failed"
        (russh_text error)
  | WrongChannel | Inconsistent =>
      Error_channel_with_source ChannelProtocol "server channel entered an invalid state"
        (russh_text error)
  | SendError =>
      Error_channel_with_source ChannelWrite "server failed to send channel data"
        (russh_text error)
  | _ => Error_ssh_with_source "russh server session failed" (russh_text error)
  end.

Definition handle_session_error (error : ServerRuntimeError) (last_error : option Error) :
    option Error :=
  match error with
  | ErrRussh (Disconnect | HUP) => last_error
  | ErrRussh e => record_error (map_server_error e) last_error
  | ErrHighLevel e => record_error e last_error
  end.

(** The end of [Server::run_inner]: the accept loop's result, then the first
    session error recorded while it ran. *)
Definition run_result (running : result IoError unit) (last_error : option Error) :
    Result unit :=
  match running with
  | Err e => Err (EIo e)
  | Ok _ => match fst (take_error last_error) with Some e => Err e | None => Ok () end
  end.
End Errors.
