(* ===== verification/ServerHandler.v ===== *)
(** * Server: one connection ([russh-extra/src/server.rs])

    [HighLevelRusshHandler], the [russh] handler of one connection: every
    callback [russh] makes on it is one definition, in a state and error monad
    over the handler's fields, the application state and the SSH session.
    Sending on the session is [russh]'s: [session_op], with its outcome, is a
    parameter.  Tasks the handler spawns are recorded with what they run;
    [stream_ops] is what the task of a streaming exec sends. *)
From S2P Require Import Prelude RustStr Channel CoreError Endpoint Config SftpPacket.
From S2P Require Import SftpWire SftpFraming SftpTypes SftpServer ClientErrors.
From S2P Require Import ClientCommand ServerTypes ServerBuild.

(** What the program sends through [server::Session] or its handle. *)
Inductive SessionOp :=
| OpSuccess (channel : Z)
| OpFailure (channel : Z)
| OpData (channel : Z) (data : list byte)
| OpExtendedData (channel : Z) (code : Z) (data : list byte)
| OpExitStatus (channel : Z) (status : Z)
| OpExitSignal (channel : Z) (signal : Sig) (core_dumped : bool) (message lang : string)
| OpEof (channel : Z)
| OpClose (channel : Z).

(** [server::Auth]. *)
Inductive Auth :=
| Accept
| Reject
| Partial (name instructions : string) (prompts : list (string * bool)).

(** The fields of [HighLevelRusshHandler] next to its runtime.  A value of
    [stdin_txs] is the sending side of the queue of that number. *)
Record Handler := {
  hd_session_id : SessionId;
  hd_peer_addr : option string;
  hd_username : option Username;
  hd_open_sessions : Z;
  hd_disconnect_notified : bool;
  hd_stdin_txs : gmap Z nat;
  hd_env_vars : gmap Z (gmap string string);
  hd_sftp : option SftpServerRuntime;
}.

Definition set_user (u : Username) (h : Handler) : Handler :=
  {| hd_session_id := hd_session_id h; hd_peer_addr := hd_peer_addr h; hd_username := Some u;
     hd_open_sessions := hd_open_sessions h;
     hd_disconnect_notified := hd_disconnect_notified h; hd_stdin_txs := hd_stdin_txs h;
     hd_env_vars := hd_env_vars h; hd_sftp := hd_sftp h |}.
Definition set_open_sessions (n : Z) (h : Handler) : Handler :=
  {| hd_session_id := hd_session_id h; hd_peer_addr := hd_peer_addr h;
     hd_username := hd_username h; hd_open_sessions := n;
     hd_disconnect_notified := hd_disconnect_notified h; hd_stdin_txs := hd_stdin_txs h;
     hd_env_vars := hd_env_vars h; hd_sftp := hd_sftp h |}.
Definition set_notified (h : Handler) : Handler :=
  {| hd_session_id := hd_session_id h; hd_peer_addr := hd_peer_addr h;
     hd_username := hd_username h; hd_open_sessions := hd_open_sessions h;
     hd_disconnect_notified := true; hd_stdin_txs := hd_stdin_txs h;
     hd_env_vars := hd_env_vars h; hd_sftp := hd_sftp h |}.
Definition set_stdin_txs (m : gmap Z nat) (h : Handler) : Handler :=
  {| hd_session_id := hd_session_id h; hd_peer_addr := hd_peer_addr h;
     hd_username := hd_username h; hd_open_sessions := hd_open_sessions h;
     hd_disconnect_notified := hd_disconnect_notified h; hd_stdin_txs := m;
     hd_env_vars := hd_env_vars h; hd_sftp := hd_sftp h |}.
Definition set_env_vars (m : gmap Z (gmap string string)) (h : Handler) : Handler :=
  {| hd_session_id := hd_session_id h; hd_peer_addr := hd_peer_addr h;
     hd_username := hd_username h; hd_open_sessions := hd_open_sessions h;
     hd_disconnect_notified := hd_disconnect_notified h; hd_stdin_txs := hd_stdin_txs h;
     hd_env_vars := m; hd_sftp := hd_sftp h |}.
Definition set_sftp (s : option SftpServerRuntime) (h : Handler) : Handler :=
  {| hd_session_id := hd_session_id h; hd_peer_addr := hd_peer_addr h;
     hd_username := hd_username h; hd_open_sessions := hd_open_sessions h;
     hd_disconnect_notified := hd_disconnect_notified h; hd_stdin_txs := hd_stdin_txs h;
     hd_env_vars := hd_env_vars h; hd_sftp := s |}.

(** Tasks handed to [tokio::spawn]. *)
Inductive Spawned :=
| SpConnect (ctx : SessionContext)
| SpAuthSuccess (ctx : SessionContext)
| SpDisconnect (id : SessionId)
| SpStream (channel : Z) (ctx : StreamingExecContext) (handler : StreamingExecCallback).

(** ** The task of a streaming exec *)

Definition exit_ops (channel : Z) (exit : CommandExit) : list SessionOp :=
  match exit with
  | Status status => [OpExitStatus channel status]
  | Signal signal core_dumped =>
      [OpExitSignal channel (CustomSig signal) core_dumped "" ""]
  | Missing => []
  end.

(** The [while let Some(cmd) = cmd_rx.recv().await] loop: what is sent, and
    [exit_sent] after it. *)
Fixpoint pump (channel : Z) (cmds : list StreamingExecCmd) (exit_sent : bool) :
    list SessionOp * bool :=
  match cmds with
  | [] => ([], exit_sent)
  | SxStdout data :: cmds' =>
      let '(ops, e) := pump channel cmds' exit_sent in
      ((if exit_sent then [] else [OpData channel data]) ++ ops, e)
  | SxStderr data :: cmds' =>
      let '(ops, e) := pump channel cmds' exit_sent in
      ((if exit_sent then [] else [OpExtendedData channel 1 data]) ++ ops, e)
  | SxExited exit_info :: cmds' =>
      if exit_sent then pump channel cmds' exit_sent
      else (exit_ops channel exit_info, true)
  end.

(** [(handler_err || handler_panicked)]. *)
Definition handler_failed (e : HandlerEnd) : bool :=
  match e with Returned (Ok _) => false | _ => true end.

Definition stream_ops (channel : Z) (run : StreamRun) : list SessionOp :=
  let '(ops, exit_sent) := pump channel (run_cmds run) false in
  ops
  ++ (if exit_sent then []
      else [OpExitStatus channel (if handler_failed (run_end run) then 1 else 0)])
  ++ [OpEof channel; OpClose channel].

(** ** State and errors *)

Section Connection.
Context {A PubKey Cert PrivKey W : Type} `{!StrDebug}.
Context (runtime : ServerRuntime A PubKey Cert PrivKey)
        (session_op : SessionOp → W → result RusshError unit * W).

Record Conn := {
  cn_handler : Handler;
  cn_app : A;
  cn_net : W;
  cn_spawned : list Spawned;
  cn_stdin : gmap nat (list (list byte));
  cn_fresh : nat;
}.

Definition srv (X : Type) : Type := Conn → result ServerRuntimeError X * Conn.

#[local] Instance srv_ret : MRet srv := λ X x c, (Ok x, c).
#[local] Instance srv_bind : MBind srv :=
  λ X Y k m c, match m c with (Ok x, c') => k x c' | (Err e, c') => (Err e, c') end.

Definition throw {X} (e : ServerRuntimeError) : srv X := λ c, (Err e, c).

Definition handler_of : srv Handler := λ c, (Ok (cn_handler c), c).

Definition modify (f : Handler → Handler) : srv unit := λ c,
  (Ok (), {| cn_handler := f (cn_handler c); cn_app := cn_app c; cn_net := cn_net c;
             cn_spawned := cn_spawned c; cn_stdin := cn_stdin c; cn_fresh := cn_fresh c |}).

(** A call of the application; its error is a value here. *)
Definition call_app {X R} (f : callback A X R) (x : X) : srv (Result R) := λ c,
  let '(r, a) := f x (cn_app c) in
  (Ok r, {| cn_handler := cn_handler c; cn_app := a; cn_net := cn_net c;
            cn_spawned := cn_spawned c; cn_stdin := cn_stdin c; cn_fresh := cn_fresh c |}).

(** [session.op(..)?]. *)
Definition op (o : SessionOp) : srv unit := λ c,
  let '(r, w) := session_op o (cn_net c) in
  (map_err ErrRussh r,
   {| cn_handler := cn_handler c; cn_app := cn_app c; cn_net := w;
      cn_spawned := cn_spawned c; cn_stdin := cn_stdin c; cn_fresh := cn_fresh c |}).

(** [let _ = op(..).await]. *)
Definition op_ignored (o : SessionOp) : srv unit := λ c, (Ok (), snd (op o c)).

Definition spawn (s : Spawned) : srv unit := λ c,
  (Ok (), {| cn_handler := cn_handler c; cn_app := cn_app c; cn_net := cn_net c;
             cn_spawned := cn_spawned c ++ [s]; cn_stdin := cn_stdin c;
             cn_fresh := cn_fresh c |}).

(** [mpsc::unbounded_channel()] for standard input. *)
Definition new_queue : srv nat := λ c,
  (Ok (cn_fresh c),
   {| cn_handler := cn_handler c; cn_app := cn_app c; cn_net := cn_net c;
      cn_spawned := cn_spawned c; cn_stdin := <[cn_fresh c := []]> (cn_stdin c);
      cn_fresh := S (cn_fresh c) |}).

(** [tx.send(data)]. *)
Definition queue_send (k : nat) (data : list byte) : srv unit := λ c,
  (Ok (), {| cn_handler := cn_handler c; cn_app := cn_app c; cn_net := cn_net c;
             cn_spawned := cn_spawned c;
             cn_stdin := <[k := default [] (cn_stdin c !! k) ++ [data]]> (cn_stdin c);
             cn_fresh := cn_fresh c |}).

(** ** Contexts *)

Definition calls : Callbacks A PubKey Cert := r_calls runtime.

Definition auth_context (user : string) (h : Handler) : AuthContext :=
  {| ax_session_id := hd_session_id h; ax_username := Username_new user;
     ax_peer_addr := hd_peer_addr h |}.

Definition session_context (h : Handler) : SessionContext :=
  {| sx_id := hd_session_id h; sx_username := hd_username h |}.

Definition before_auth : Error :=
  Error_authentication_kind AuthUnavailable "exec request received before authentication".

Definition env_of (channel : Z) (h : Handler) : gmap string string :=
  default ∅ (hd_env_vars h !! channel).

Definition exec_context (channel : Z) (command : list byte) (h : Handler) :
    Result ExecContext :=
  username ← ok_or before_auth (hd_username h);
  Ok {| ex_session_id := hd_session_id h; ex_username := username;
        ex_peer_addr := hd_peer_addr h; ex_channel_id := channel;
        ex_command := {| command_bytes := command |}; ex_env := env_of channel h |}.

(** ** Connection start and end *)

(** [HighLevelRusshServer::new_client]; [session_id] comes from [SessionId::next]. *)
Definition new_client (session_id : SessionId) (peer_addr : option string) (a : A) (w : W) :
    Conn :=
  {| cn_handler := {| hd_session_id := session_id; hd_peer_addr := peer_addr;
                      hd_username := None; hd_open_sessions := 0;
                      hd_disconnect_notified := false; hd_stdin_txs := ∅;
                      hd_env_vars := ∅; hd_sftp := None |};
     cn_app := a; cn_net := w;
     cn_spawned := match on_connect (c_hooks calls) with
                   | Some _ => [SpConnect (SessionContext_new session_id)]
                   | None => []
                   end;
     cn_stdin := ∅; cn_fresh := 0 |}.

(** [impl Drop]: [disconnect_notified] is shared by the handler's clones. *)
Definition drop_handler : srv unit :=
  h ← handler_of;
  if hd_disconnect_notified h then mret ()
  else
    modify set_notified;;
    match on_disconnect (c_hooks calls) with
    | Some _ => spawn (SpDisconnect (hd_session_id h))
    | None => mret ()
    end.

(** ** Authentication *)

Definition fire_auth_success : srv unit :=
  match on_auth_success (c_hooks calls) with
  | Some _ => h ← handler_of; spawn (SpAuthSuccess (session_context h))
  | None => mret ()
  end.

Definition accept_user (user : string) : srv Auth :=
  modify (set_user (Username_new user));;
  fire_auth_success;;
  mret Accept.

(** [handler(..).await.map_err(ServerRuntimeError::HighLevel)?]. *)
Definition call_or_fail {X R} (f : callback A X R) (x : X) : srv R :=
  r ← call_app f x;
  match r with Ok v => mret v | Err e => throw (ErrHighLevel e) end.

Definition auth_none (user : string) : srv Auth := mret Reject.

(** The three methods decided by an [AuthDecision]. *)
Definition auth_decided {X} (handler : option (callback A (AuthContext * X) AuthDecision))
    (user : string) (proof : X) : srv Auth :=
  match handler with
  | None => mret Reject
  | Some f =>
      h ← handler_of;
      decision ← call_or_fail f (auth_context user h, proof);
      if accepted decision then accept_user user else mret Reject
  end.

Definition auth_password (user password : string) : srv Auth :=
  auth_decided (password_auth (c_auth calls)) user (Password_new password).

Definition auth_publickey_offered (user : string) (k : PubKey) : srv Auth := mret Accept.

Definition auth_publickey (user : string) (k : PubKey) : srv Auth :=
  auth_decided (public_key_auth (c_auth calls)) user k.

Definition auth_openssh_certificate (user : string) (certificate : Cert) : srv Auth :=
  auth_decided (cert_auth (c_auth calls)) user certificate.

Definition auth_keyboard_interactive (user submethods : string)
    (response : option (list (list byte))) : srv Auth :=
  match keyboard_interactive_auth (c_auth calls) with
  | None => mret Reject
  | Some f =>
      h ← handler_of;
      decision ← call_or_fail f {| kx_session := auth_context user h;
                                   kx_submethods := submethods;
                                   kx_responses := default [] response |};
      match decision with
      | KiAccept => accept_user user
      | KiReject => mret Reject
      | KiFurtherAction p =>
          mret (Partial (block_name p) (block_instruction p)
                  (map (λ i, (item_prompt i, item_echo i)) (block_prompts p)))
      end
  end.

Definition authentication_banner : srv (option string) :=
  match auth_banner (c_auth calls) with
  | None => mret None
  | Some f => call_or_fail f ()
  end.

(** ** Channels *)

Definition channel_open_session : srv bool :=
  h ← handler_of;
  if negb (bool_decide (is_Some (hd_username h)))
     || (sc_max_sessions (r_config runtime) <=? hd_open_sessions h)
  then mret false
  else modify (set_open_sessions (hd_open_sessions h + 1));; mret true.

Definition channel_close (channel : Z) : srv unit :=
  modify (λ h, set_open_sessions (Z.max 0 (hd_open_sessions h - 1)) h);;
  modify (λ h, set_stdin_txs (delete channel (hd_stdin_txs h)) h);;
  modify (λ h, set_env_vars (delete channel (hd_env_vars h)) h);;
  modify (λ h, set_sftp (handle_channel_close channel <$> hd_sftp h) h).

Definition channel_eof (channel : Z) : srv unit :=
  modify (λ h, set_stdin_txs (delete channel (hd_stdin_txs h)) h).

(** [session.data(channel, resp)], as the SFTP runtime calls it. *)
Definition sftp_session_data (channel : Z) (d : list byte) (w : W) : bool * W :=
  let '(r, w) := session_op (OpData channel d) w in (is_ok r, w).

Definition sftp_data (handler : SftpServerHandler A) (rt : SftpServerRuntime) (channel : Z)
    (data : list byte) : srv unit := λ c,
  let '(r, (rt, a, w)) := handle_data sftp_session_data channel data rt (cn_app c) (cn_net c) in
  (map_err ErrHighLevel r,
   {| cn_handler := set_sftp (Some rt) (cn_handler c); cn_app := a; cn_net := w;
      cn_spawned := cn_spawned c; cn_stdin := cn_stdin c; cn_fresh := cn_fresh c |}).

(** The SFTP runtime keeps the handler it was created with, the server's. *)
Definition data (channel : Z) (d : list byte) : srv unit :=
  h ← handler_of;
  match hd_sftp h, sftp_handler (c_channel calls) with
  | Some rt, Some f =>
      if is_sftp_channel channel rt then sftp_data f rt channel d
      else match hd_stdin_txs h !! channel with
           | Some k => queue_send k d
           | None => mret ()
           end
  | _, _ => match hd_stdin_txs h !! channel with
            | Some k => queue_send k d
            | None => mret ()
            end
  end.

(** ** Exec *)

Definition send_exec_response (channel : Z) (response : ExecResponse) : srv unit :=
  op (OpSuccess channel);;
  (match er_stdout response with [] => mret () | d => op (OpData channel d) end);;
  (match er_stderr response with [] => mret () | d => op (OpExtendedData channel 1 d) end);;
  (match er_exit response with
   | Status status => op (OpExitStatus channel status)
   | Signal signal core_dumped =>
       op (OpExitSignal channel (CustomSig signal) core_dumped "" "")
   | Missing => mret ()
   end);;
  op (OpEof channel);;
  op (OpClose channel).

Definition run_streaming_exec (channel : Z) (command : list byte) (username : Username)
    (handler : StreamingExecCallback) : srv unit :=
  k ← new_queue;
  modify (λ h, set_stdin_txs (<[channel := k]> (hd_stdin_txs h)) h);;
  h ← handler_of;
  op (OpSuccess channel);;
  spawn (SpStream channel
    {| sc_session_id := hd_session_id h; sc_username := username;
       sc_peer_addr := hd_peer_addr h; sc_channel_id := channel;
       sc_command := {| command_bytes := command |}; sc_env := env_of channel h;
       sc_stdin := k |} handler).

(** [get(cmd).or(fallback)]. *)
Definition route {F} (routes : gmap string F) (fallback : option F) (command : option string) :
    option F :=
  match command ≫= (λ cmd, routes !! cmd) with
  | Some f => Some f
  | None => fallback
  end.

Definition exec_request (channel : Z) (d : list byte) : srv unit :=
  h ← handler_of;
  match hd_username h with
  | None => throw (ErrHighLevel before_auth)
  | Some username =>
      let command_str := if utf8_valid d then Some (of_bytes d) else None in
      match route (exec_routes_streaming (c_exec calls))
              (fallback_streaming_exec (c_exec calls)) command_str with
      | Some handler => run_streaming_exec channel d username handler
      | None =>
          match exec_context channel d h with
          | Err e => throw (ErrHighLevel e)
          | Ok ctx =>
              match route (exec_routes (c_exec calls)) (fallback_exec (c_exec calls))
                      (ExecCommand_as_str (ex_command ctx)) with
              | None => op (OpFailure channel)
              | Some handler =>
                  r ← call_app handler ctx;
                  match r with
                  | Err error => op (OpFailure channel);; throw (ErrHighLevel error)
                  | Ok response =>
                      if er_accepted response then send_exec_response channel response
                      else op (OpFailure channel)
                  end
              end
          end
      end
  end.

(** ** Other channel requests *)

(** Success when the callback accepts, failure when it does not (its error is
    logged only) or when there is none. *)
Definition answered {X} (channel : Z) (handler : option (callback A X unit)) (x : X) : srv unit :=
  match handler with
  | None => op (OpFailure channel)
  | Some f =>
      r ← call_app f x;
      match r with Ok _ => op (OpSuccess channel) | Err _ => op (OpFailure channel) end
  end.

Definition shell_request (channel : Z) : srv unit :=
  h ← handler_of;
  answered channel (shell_handler (c_channel calls))
    {| sh_session := session_context h; sh_channel := channel |}.

(** [modes]: each mode by its opcode. *)
Definition pty_request (channel : Z) (term : string) (col_width row_height pix_width pix_height : Z)
    (modes : list (Z * Z)) : srv unit :=
  h ← handler_of;
  answered channel (pty_handler (c_channel calls))
    ({| px_session := session_context h; px_channel := channel |},
     {| pp_term := term; pp_col_width := col_width; pp_row_height := row_height;
        pp_pix_width := pix_width; pp_pix_height := pix_height; pp_modes := modes |}).

Definition store_env (channel : Z) (name value : string) : srv unit :=
  modify (λ h, set_env_vars
    (<[channel := <[name := value]> (env_of channel h)]> (hd_env_vars h)) h).

Definition env_request (channel : Z) (name value : string) : srv unit :=
  h ← handler_of;
  match env_handler (c_channel calls) with
  | None => store_env channel name value;; op (OpSuccess channel)
  | Some f =>
      r ← call_app f ({| sh_session := session_context h; sh_channel := channel |},
                      {| env_name := name; env_value := value |});
      match r with
      | Ok _ => store_env channel name value;; op (OpSuccess channel)
      | Err _ => op (OpFailure channel)
      end
  end.

Definition subsystem_request (channel : Z) (name : string) : srv unit :=
  h ← handler_of;
  let other :=
    answered channel (subsystem_handler (c_channel calls))
      {| ss_session := session_context h; ss_channel := channel; ss_name := name |} in
  match sftp_handler (c_channel calls) with
  | Some _ =>
      if String.eqb name "sftp" then
        modify (set_sftp (Some (register_channel channel SftpServerRuntime_new)));;
        op (OpSuccess channel)
      else other
  | None => other
  end.

Definition window_change_request (channel : Z) (col_width row_height pix_width pix_height : Z) :
    srv unit :=
  h ← handler_of;
  (match window_change_handler (c_channel calls) with
   | Some f =>
       _ ← call_app f ({| sh_session := session_context h; sh_channel := channel |},
                       {| wc_col_width := col_width; wc_row_height := row_height;
                          wc_pix_width := pix_width; wc_pix_height := pix_height |});
       mret ()
   | None => mret ()
   end);;
  op (OpSuccess channel).

Definition agent_request (channel : Z) : srv bool :=
  match agent_request_handler (c_channel calls) with
  | None => op (OpFailure channel);; mret false
  | Some f =>
      h ← handler_of;
      r ← call_app f {| ag_session_id := hd_session_id h; ag_channel := channel |};
      match r with
      | Ok true => op (OpSuccess channel);; mret true
      | Ok false => op (OpFailure channel);; mret false
      | Err e => op (OpFailure channel);; throw (ErrHighLevel e)
      end
  end.

Definition x11_request (channel : Z) (single_connection : bool) (protocol cookie : string)
    (screen : Z) : srv unit :=
  h ← handler_of;
  match x11_request_handler (c_channel calls), hd_username h with
  | Some f, Some username =>
      r ← call_app f {| xr_session_id := hd_session_id h; xr_username := username;
                        xr_channel := channel; xr_single_connection := single_connection;
                        xr_auth_protocol := protocol; xr_auth_cookie := cookie;
                        xr_screen_number := screen |};
      match r with
      | Ok true => op (OpSuccess channel)
      | Ok false => op (OpFailure channel)
      | Err e => op (OpFailure channel);; throw (ErrHighLevel e)
      end
  | _, _ => op (OpFailure channel)
  end.

(** ** Forwarding *)

(** A global request: refused without a callback or before authentication. *)
Definition global_request {X} (handler : option (callback A X bool))
    (x : Handler → Username → X) : srv bool :=
  h ← handler_of;
  match handler, hd_username h with
  | Some f, Some username => call_or_fail f (x h username)
  | _, _ => mret false
  end.

(** A channel opened by the client for a forwarded stream: closed again unless
    the callback accepts it. *)
Definition forwarded_channel {X} (channel : Z) (handler : option (callback A X bool))
    (x : Handler → Username → X) : srv bool :=
  h ← handler_of;
  match handler, hd_username h with
  | Some f, Some username =>
      r ← call_app f (x h username);
      match r with
      | Ok true => mret true
      | Ok false => op_ignored (OpClose channel);; mret false
      | Err e => op_ignored (OpClose channel);; throw (ErrHighLevel e)
      end
  | _, _ => op_ignored (OpClose channel);; mret false
  end.

Definition tcpip_context (address : string) (port : Z) (h : Handler) (u : Username) :
    TcpipForwardContext :=
  {| tf_session_id := hd_session_id h; tf_username := u; tf_address := address;
     tf_port := port |}.
Definition streamlocal_context (path : string) (h : Handler) (u : Username) :
    StreamLocalForwardContext :=
  {| lf_session_id := hd_session_id h; lf_username := u; lf_socket_path := path |}.

Definition tcpip_forward (address : string) (port : Z) : srv bool :=
  global_request (tcpip_forward_handler (c_forward calls)) (tcpip_context address port).
Definition cancel_tcpip_forward (address : string) (port : Z) : srv bool :=
  global_request (cancel_tcpip_forward_handler (c_forward calls)) (tcpip_context address port).
Definition streamlocal_forward (path : string) : srv bool :=
  global_request (streamlocal_forward_handler (c_forward calls)) (streamlocal_context path).
Definition cancel_streamlocal_forward (path : string) : srv bool :=
  global_request (cancel_streamlocal_forward_handler (c_forward calls))
    (streamlocal_context path).

Definition channel_open_direct_tcpip (channel : Z) (host : string) (port : Z)
    (originator : string) (originator_port : Z) : srv bool :=
  forwarded_channel channel (direct_tcpip_handler (c_forward calls)) (λ h u,
    {| dt_session_id := hd_session_id h; dt_username := u; dt_host_to_connect := host;
       dt_port_to_connect := port; dt_originator_address := originator;
       dt_originator_port := originator_port |}).
Definition channel_open_forwarded_tcpip (channel : Z) (address : string) (port : Z)
    (originator : string) (originator_port : Z) : srv bool :=
  forwarded_channel channel (forwarded_tcpip_handler (c_forward calls)) (λ h u,
    {| ft_session_id := hd_session_id h; ft_username := u; ft_connected_address := address;
       ft_connected_port := port; ft_originator_address := originator;
       ft_originator_port := originator_port |}).
Definition channel_open_direct_streamlocal (channel : Z) (path : string) : srv bool :=
  forwarded_channel channel (direct_streamlocal_handler (c_forward calls)) (λ h u,
    {| dl_session_id := hd_session_id h; dl_username := u; dl_socket_path := path |}).
Definition channel_open_x11 (channel : Z) (originator : string) (originator_port : Z) :
    srv bool :=
  forwarded_channel channel (x11_channel_handler (c_channel calls)) (λ h u,
    {| xc_session_id := hd_session_id h; xc_username := u;
       xc_originator_address := originator; xc_originator_port := originator_port |}).

(** The last steps of a streaming exec's task, which run between requests: its
    sender is removed from the shared table, then the channel is ended. *)
Definition stream_end (channel : Z) : srv unit :=
  modify (λ h, set_stdin_txs (delete channel (hd_stdin_txs h)) h);;
  op_ignored (OpEof channel);;
  op_ignored (OpClose channel).

(** ** Everything [russh] can call, and the end of a streaming task *)

Inductive ConnRequest :=
| RqAuthNone (user : string)
| RqAuthPassword (user password : string)
| RqAuthPublickeyOffered (user : string) (k : PubKey)
| RqAuthPublickey (user : string) (k : PubKey)
| RqAuthCertificate (user : string) (c : Cert)
| RqAuthKeyboardInteractive (user submethods : string) (response : option (list (list byte)))
| RqBanner
| RqOpenSession (channel : Z)
| RqClose (channel : Z)
| RqEof (channel : Z)
| RqData (channel : Z) (d : list byte)
| RqExec (channel : Z) (d : list byte)
| RqShell (channel : Z)
| RqPty (channel : Z) (term : string) (cols rows pix_w pix_h : Z) (modes : list (Z * Z))
| RqEnv (channel : Z) (name value : string)
| RqSubsystem (channel : Z) (name : string)
| RqWindowChange (channel : Z) (cols rows pix_w pix_h : Z)
| RqAgent (channel : Z)
| RqX11 (channel : Z) (single : bool) (protocol cookie : string) (screen : Z)
| RqTcpipForward (address : string) (port : Z)
| RqCancelTcpipForward (address : string) (port : Z)
| RqStreamlocalForward (path : string)
| RqCancelStreamlocalForward (path : string)
| RqOpenDirectTcpip (channel : Z) (host : string) (port : Z) (originator : string) (oport : Z)
| RqOpenForwardedTcpip (channel : Z) (address : string) (port : Z) (originator : string)
    (oport : Z)
| RqOpenDirectStreamlocal (channel : Z) (path : string)
| RqOpenX11 (channel : Z) (originator : string) (oport : Z)
| RqStreamEnd (channel : Z).

Inductive Answer :=
| Done
| AnsAuth (a : Auth)
| AnsBool (b : bool)
| AnsBanner (b : option string).

Definition as_answer {X} (f : X → Answer) (m : srv X) : srv Answer := x ← m; mret (f x).
Abbreviation done_by := (as_answer (λ _ : unit, Done)).

Definition handle (q : ConnRequest) : srv Answer :=
  match q with
  | RqAuthNone u => as_answer AnsAuth (auth_none u)
  | RqAuthPassword u p => as_answer AnsAuth (auth_password u p)
  | RqAuthPublickeyOffered u k => as_answer AnsAuth (auth_publickey_offered u k)
  | RqAuthPublickey u k => as_answer AnsAuth (auth_publickey u k)
  | RqAuthCertificate u k => as_answer AnsAuth (auth_openssh_certificate u k)
  | RqAuthKeyboardInteractive u s r => as_answer AnsAuth (auth_keyboard_interactive u s r)
  | RqBanner => as_answer AnsBanner authentication_banner
  | RqOpenSession _ => as_answer AnsBool channel_open_session
  | RqClose ch => done_by (channel_close ch)
  | RqEof ch => done_by (channel_eof ch)
  | RqData ch d => done_by (data ch d)
  | RqExec ch d => done_by (exec_request ch d)
  | RqShell ch => done_by (shell_request ch)
  | RqPty ch t c r pw ph m => done_by (pty_request ch t c r pw ph m)
  | RqEnv ch n v => done_by (env_request ch n v)
  | RqSubsystem ch n => done_by (subsystem_request ch n)
  | RqWindowChange ch c r pw ph => done_by (window_change_request ch c r pw ph)
  | RqAgent ch => as_answer AnsBool (agent_request ch)
  | RqX11 ch s p k n => done_by (x11_request ch s p k n)
  | RqTcpipForward a p => as_answer AnsBool (tcpip_forward a p)
  | RqCancelTcpipForward a p => as_answer AnsBool (cancel_tcpip_forward a p)
  | RqStreamlocalForward p => as_answer AnsBool (streamlocal_forward p)
  | RqCancelStreamlocalForward p => as_answer AnsBool (cancel_streamlocal_forward p)
  | RqOpenDirectTcpip ch h p o op => as_answer AnsBool (channel_open_direct_tcpip ch h p o op)
  | RqOpenForwardedTcpip ch a p o op =>
      as_answer AnsBool (channel_open_forwarded_tcpip ch a p o op)
  | RqOpenDirectStreamlocal ch p => as_answer AnsBool (channel_open_direct_streamlocal ch p)
  | RqOpenX11 ch o op => as_answer AnsBool (channel_open_x11 ch o op)
  | RqStreamEnd ch => done_by (stream_end ch)
  end.

(** A connection: requests in order, each with its answer; an error ends it. *)
Fixpoint serve_requests (qs : list ConnRequest) (c : Conn) :
    list (ConnRequest * Answer) * option ServerRuntimeError * Conn :=
  match qs with
  | [] => ([], None, c)
  | q :: qs' =>
      match handle q c with
      | (Err e, c') => ([], Some e, c')
      | (Ok a, c') =>
          let '(log, e, c'') := serve_requests qs' c' in ((q, a) :: log, e, c'')
      end
  end.
End Connection.
Arguments Conn A W : clear implicits.
Arguments ConnRequest PubKey Cert : clear implicits.
