(* ===== verification/ServerSessions.v ===== *)
(** * Server: who is logged in, and how many sessions are open

    Invariants of a connection over any sequence of requests: the user name
    comes from an accepted authentication only, session channels are bounded and
    exist only after it.  What falls outside the contract is stated as it is:
    closing a forwarded channel frees a session slot, a second SFTP channel
    disconnects the first, and a [ServerHandler] never gets an exec request. *)
From S2P Require Import Prelude RustStr Channel CoreError Endpoint Config SftpPacket.
From S2P Require Import SftpWire SftpFraming SftpTypes SftpServer ClientErrors.
From S2P Require Import ClientCommand ServerTypes ServerBuild ServerHandler.

(** ** What a step leaves alone *)

(** A view of a connection that depends on the handler's fields and the input
    queues only: not on the application, the network or the spawned tasks. *)
Class Quiet {A W T} (view : Conn A W → T) := quiet_view : ∀ c c',
  cn_handler c = cn_handler c' → cn_stdin c = cn_stdin c' → cn_fresh c = cn_fresh c' →
  view c = view c'.

Section Frames.
Context {A W T : Type} (view : Conn A W → T).

Abbreviation srv := (@srv A W).

Definition keeps {X} (m : srv X) : Prop := ∀ c, view (snd (m c)) = view c.

Lemma keeps_ret {X} (x : X) : keeps (srv_ret X x).
Proof. by intros c. Qed.

Lemma keeps_throw {X} e : keeps (throw (X := X) e).
Proof. by intros c. Qed.

Lemma keeps_bind {X Y} (m : srv X) (k : X → srv Y) :
  keeps m → (∀ x, keeps (k x)) → keeps (srv_bind X Y k m).
Proof.
  intros Hm Hk c. unfold srv_bind. specialize (Hm c). destruct (m c) as [[x|e] c'] eqn:E.
  - cbn in Hm. by rewrite Hk.
  - done.
Qed.

Lemma keeps_handler_of : keeps handler_of.
Proof. by intros c. Qed.

Context `{!Quiet view}.

Lemma keeps_call_app {X R} (f : callback A X R) x : keeps (call_app f x).
Proof. intros c. unfold call_app. destruct (f x (cn_app c)). by apply quiet_view. Qed.

Lemma keeps_op session_op o : keeps (op session_op o).
Proof. intros c. unfold op. destruct (session_op o (cn_net c)). by apply quiet_view. Qed.

Lemma keeps_op_ignored session_op o : keeps (op_ignored session_op o).
Proof. intros c. apply keeps_op. Qed.

Lemma keeps_spawn s : keeps (spawn s).
Proof. intros c. by apply quiet_view. Qed.
End Frames.

Create HintDb keeps.
#[export] Hint Resolve keeps_ret keeps_throw keeps_handler_of keeps_call_app keeps_op
  keeps_op_ignored keeps_spawn : keeps.

(** Walks the program text: binds, matches, then the primitive's lemma. *)
Ltac keeps :=
  repeat lazymatch goal with
  | |- ∀ _, _ => intros ?
  | |- keeps _ (srv_bind _ _ _ _) => apply keeps_bind
  | |- keeps _ (mbind _ _) => apply keeps_bind
  | |- keeps _ (mret _) => apply keeps_ret
  | |- keeps _ (modify _) => by intros [[] ? ? ? ? ?]
  | |- keeps _ (match ?x with _ => _ end) => destruct x
  | |- keeps _ _ => solve [auto with keeps typeclass_instances]
  end.

(** ** The login view *)

Definition login {A W} (c : Conn A W) : option Username * Z :=
  (hd_username (cn_handler c), hd_open_sessions (cn_handler c)).

#[export] Instance login_quiet {A W} : Quiet (@login A W).
Proof. intros c c' H _ _. unfold login. by rewrite H. Qed.

Lemma keeps_new_queue {A W} : keeps (@login A W) new_queue.
Proof. by intros c. Qed.

Lemma keeps_queue_send {A W} k d : keeps (@login A W) (queue_send k d).
Proof. by intros c. Qed.

Lemma keeps_sftp_data {A W} `{!StrDebug} session_op f rt ch d :
  keeps (@login A W) (sftp_data session_op f rt ch d).
Proof.
  intros c. unfold sftp_data. by destruct (handle_data _ _ _ _ _ _) as [r [[rt' a] w]].
Qed.

#[export] Hint Resolve keeps_new_queue keeps_queue_send keeps_sftp_data : keeps.

Section Sessions.
Context {A PubKey Cert PrivKey W : Type} `{!StrDebug}.
Context (runtime : ServerRuntime A PubKey Cert PrivKey)
        (session_op : SessionOp → W → result RusshError unit * W).

Abbreviation Conn := (Conn A W).
Abbreviation handle := (handle runtime session_op).
Abbreviation serve := (serve_requests runtime session_op).
Abbreviation max_sessions := (sc_max_sessions (r_config runtime)).

(** The requests that are not about the login or the number of sessions. *)
Definition neutral (q : ConnRequest PubKey Cert) : bool :=
  match q with
  | RqAuthPassword _ _ | RqAuthPublickey _ _ | RqAuthCertificate _ _
  | RqAuthKeyboardInteractive _ _ _ | RqOpenSession _ | RqClose _ => false
  | _ => true
  end.

Lemma neutral_keeps q : neutral q = true → keeps login (handle q).
Proof.
  destruct q; try discriminate 1; intros _; cbn [ServerHandler.handle]; unfold as_answer;
    unfold auth_none, auth_publickey_offered, authentication_banner, channel_eof, data,
      exec_request, run_streaming_exec, send_exec_response, shell_request, pty_request,
      env_request, store_env, subsystem_request, window_change_request, agent_request,
      x11_request, tcpip_forward, cancel_tcpip_forward, streamlocal_forward,
      cancel_streamlocal_forward, channel_open_direct_tcpip, channel_open_forwarded_tcpip,
      channel_open_direct_streamlocal, channel_open_x11, global_request, forwarded_channel,
      answered, call_or_fail, stream_end; keeps.
Qed.

(** ** Logging in *)

(** The application decided for [u]: the configured callback, called with a
    context that names [u] and with what the client presented, accepted. *)
Definition granted_by {X} (handler : option (callback A (AuthContext * X) AuthDecision))
    (u : string) (x : X) : Prop :=
  ∃ f ctx a d a', handler = Some f ∧ ax_username ctx = Username_new u ∧
    f (ctx, x) a = (Ok d, a') ∧ accepted d = true.

Definition granted (q : ConnRequest PubKey Cert) (u : string) : Prop :=
  let auth := c_auth (r_calls runtime) in
  match q with
  | RqAuthPassword u' p => u' = u ∧ granted_by (password_auth auth) u (Password_new p)
  | RqAuthPublickey u' k => u' = u ∧ granted_by (public_key_auth auth) u k
  | RqAuthCertificate u' k => u' = u ∧ granted_by (cert_auth auth) u k
  | RqAuthKeyboardInteractive u' sub resp =>
      u' = u ∧ ∃ f ctx a a', keyboard_interactive_auth auth = Some f ∧
        ax_username (kx_session ctx) = Username_new u ∧ kx_submethods ctx = sub ∧
        kx_responses ctx = default [] resp ∧ f ctx a = (Ok KiAccept, a')
  | _ => False
  end.

Lemma accept_user_effect u (c : Conn) :
  fst (accept_user runtime u c) = Ok Accept ∧
  login (snd (accept_user runtime u c)) = (Some (Username_new u), snd (login c)).
Proof.
  unfold accept_user, fire_auth_success, calls.
  by destruct (on_auth_success (c_hooks (r_calls runtime))).
Qed.

(** What an authentication request does: log [u] in with the application's
    consent, or change nothing. *)
Definition auth_step (m : @srv A W Auth) (u : string) (ok : Prop) : Prop := ∀ c : Conn,
  (fst (m c) = Ok Accept ∧ login (snd (m c)) = (Some (Username_new u), snd (login c)) ∧ ok) ∨
  (fst (m c) ≠ Ok Accept ∧ login (snd (m c)) = login c).

Lemma auth_decided_step {X} (handler : option (callback A (AuthContext * X) AuthDecision)) u x :
  auth_step (auth_decided runtime handler u x) u (granted_by handler u x).
Proof.
  intros c. unfold auth_decided. destruct handler as [f|]; [|by right].
  unfold mbind, srv_bind, handler_of, call_or_fail, call_app, mbind, srv_bind, mret, srv_ret.
  cbv beta iota.
  destruct (f (auth_context u (cn_handler c), x) (cn_app c)) as [[d|e] a'] eqn:E; [|by right].
  cbv beta iota. destruct (accepted d) eqn:Ed; [|by right].
  left. match goal with |- context [accept_user runtime u ?c'] =>
    destruct (accept_user_effect u c') as [-> ->] end.
  split; [done|]. split; [done|]. by exists f, (auth_context u (cn_handler c)), (cn_app c), d, a'.
Qed.

Lemma auth_ki_step u sub resp :
  auth_step (auth_keyboard_interactive runtime u sub resp) u
    (granted (RqAuthKeyboardInteractive u sub resp) u).
Proof.
  intros c. unfold auth_keyboard_interactive, granted, calls.
  destruct (keyboard_interactive_auth _) as [f|] eqn:Ef; [|by right].
  unfold mbind, srv_bind, handler_of, call_or_fail, call_app, mbind, srv_bind, mret, srv_ret.
  cbv beta iota.
  match goal with |- context [f ?x (cn_app c)] =>
    destruct (f x (cn_app c)) as [[d|e] a'] eqn:E; [|by right] end.
  cbv beta iota. destruct d; [|by right|by right].
  left. match goal with |- context [accept_user runtime u ?c'] =>
    destruct (accept_user_effect u c') as [-> ->] end.
  split; [done|]. split; [done|]. split; [done|].
  by exists f, {| kx_session := auth_context u (cn_handler c); kx_submethods := sub;
                  kx_responses := default [] resp |}, (cn_app c), a'.
Qed.

(** The user a request names, for the requests that can log in. *)
Definition login_user (q : ConnRequest PubKey Cert) : option string :=
  match q with
  | RqAuthPassword u _ | RqAuthPublickey u _ | RqAuthCertificate u _
  | RqAuthKeyboardInteractive u _ _ => Some u
  | _ => None
  end.

Lemma login_step q u (c : Conn) :
  login_user q = Some u →
  (fst (handle q c) = Ok (AnsAuth Accept) ∧
   login (snd (handle q c)) = (Some (Username_new u), snd (login c)) ∧ granted q u) ∨
  (fst (handle q c) ≠ Ok (AnsAuth Accept) ∧ login (snd (handle q c)) = login c).
Proof.
  assert (Hgo : ∀ (m : @srv A W Auth) ok, auth_step m u ok →
    (fst (as_answer AnsAuth m c) = Ok (AnsAuth Accept) ∧
     login (snd (as_answer AnsAuth m c)) = (Some (Username_new u), snd (login c)) ∧ ok) ∨
    (fst (as_answer AnsAuth m c) ≠ Ok (AnsAuth Accept) ∧
     login (snd (as_answer AnsAuth m c)) = login c)).
  { intros m ok Hm. unfold as_answer, mbind, srv_bind.
    destruct (Hm c) as [(H1 & H2 & H3)|(H1 & H2)]; destruct (m c) as [[a|e] c']; cbn in *.
    - injection H1 as ->. by left.
    - discriminate H1.
    - right. split; [congruence|done].
    - by right. }
  destruct q; intros [= <-]; cbn [ServerHandler.handle].
  - destruct (Hgo (auth_password runtime user password) _ (auth_decided_step _ _ _))
      as [(? & ? & ?)|]; [by left|by right].
  - destruct (Hgo (auth_publickey runtime user k) _ (auth_decided_step _ _ _))
      as [(? & ? & ?)|]; [by left|by right].
  - destruct (Hgo (auth_openssh_certificate runtime user c0) _ (auth_decided_step _ _ _))
      as [(? & ? & ?)|]; [by left|by right].
  - apply Hgo, auth_ki_step.
Qed.

(** Logged in as the last user the application accepted. *)
Fixpoint last_login (log : list (ConnRequest PubKey Cert * Answer)) (u : option Username) :
    option Username :=
  match log with
  | [] => u
  | (q, a) :: log' =>
      last_login log'
        match login_user q, a with
        | Some user, AnsAuth Accept => Some (Username_new user)
        | _, _ => u
        end
  end.

Lemma session_step q c :
  login_user q = None → fst (login (snd (handle q c))) = fst (login c).
Proof.
  intros Hq. destruct (neutral q) eqn:En; [by rewrite neutral_keeps|].
  destruct q; try discriminate; cbn [ServerHandler.handle]; [|done].
  unfold as_answer, channel_open_session, mbind, srv_bind, handler_of, mret, srv_ret.
  by destruct (_ || _).
Qed.

Lemma serve_login qs c log e c' :
  serve qs c = (log, e, c') →
  hd_username (cn_handler c') = last_login log (hd_username (cn_handler c)) ∧
  ∀ q u, (q, AnsAuth Accept) ∈ log → login_user q = Some u → granted q u.
Proof.
  revert c log e c'. induction qs as [|q qs IH]; intros c log e c'; cbn [serve_requests].
  { intros [= <- <- <-]. split; [done|]. by intros q u ?%elem_of_nil. }
  assert (Hu : ∀ u, login_user q = Some u → _) by (intros u Hu; exact (login_step q u c Hu)).
  pose proof (session_step q c) as Hn. unfold login in Hu, Hn.
  destruct (handle q c) as [[a|er] c1]; cbn [fst snd] in *.
  - destruct (serve qs c1) as [[log1 e1] c2] eqn:E. intros [= <- <- <-].
    apply IH in E as [-> Hlog]. cbn [last_login]. split.
    + f_equal. destruct (login_user q) as [u|] eqn:Eu; [|by apply Hn].
      destruct (Hu u eq_refl) as [([= ->] & [= ->] & _)|[Ha [= Hc _]]]; [done|].
      rewrite Hc. by destruct a as [|[]| |].
    + intros q' u [[= -> <-]|Hin]%elem_of_cons Hq'; [|by eapply Hlog].
      by destruct (Hu u Hq') as [(_ & _ & ?)|[? _]].
  - intros [= <- <- <-]. cbn [last_login]. split; [|by intros q' u ?%elem_of_nil].
    destruct (login_user q) as [u|] eqn:Eu; [|by apply Hn].
    by destruct (Hu u eq_refl) as [([=] & _)|[_ [= -> _]]].
Qed.

Lemma last_login_from log u0 u :
  last_login log u0 = Some u →
  u0 = Some u ∨ ∃ q user, (q, AnsAuth Accept) ∈ log ∧ login_user q = Some user ∧
    u = Username_new user.
Proof.
  revert u0. induction log as [|[q a] log IH]; intros u0; cbn [last_login]; [by left|].
  intros [H1|(q' & user & Hin & ?)]%IH; [|right; exists q', user; split; [by right|done]].
  destruct (login_user q) as [user|] eqn:Eq; [|by left].
  destruct a as [|[]| |]; try by left. injection H1 as <-. right. exists q, user. by split; [left|].
Qed.

(** ** Session channels *)

(** The session channels open after the requests of [log]. *)
Fixpoint live (log : list (ConnRequest PubKey Cert * Answer)) (s : gset Z) : gset Z :=
  match log with
  | [] => s
  | (RqOpenSession ch, AnsBool true) :: log' => live log' ({[ch]} ∪ s)
  | (RqClose ch, _) :: log' => live log' (s ∖ {[ch]})
  | _ :: log' => live log' s
  end.

(** Every session is opened on a new channel and only session channels are
    closed. *)
Fixpoint sessions_only (log : list (ConnRequest PubKey Cert * Answer)) (s : gset Z) : Prop :=
  match log with
  | [] => True
  | (RqOpenSession ch, AnsBool true) :: log' => (ch ∉ s) ∧ sessions_only log' ({[ch]} ∪ s)
  | (RqClose ch, _) :: log' => ch ∈ s ∧ sessions_only log' (s ∖ {[ch]})
  | _ :: log' => sessions_only log' s
  end.

Definition counted (c : Conn) (s : gset Z) : Prop :=
  hd_open_sessions (cn_handler c) = Z.of_nat (base.size s) ∧
  hd_open_sessions (cn_handler c) ≤ max_sessions ∧
  (hd_username (cn_handler c) = None → s = ∅).

Lemma open_session_step ch c :
  let ok := bool_decide (is_Some (hd_username (cn_handler c)))
            && (hd_open_sessions (cn_handler c) <? max_sessions) in
  fst (handle (RqOpenSession ch) c) = Ok (AnsBool ok) ∧
  login (snd (handle (RqOpenSession ch) c))
  = (hd_username (cn_handler c), hd_open_sessions (cn_handler c) + (if ok then 1 else 0)).
Proof.
  cbv zeta. cbn [ServerHandler.handle].
  unfold as_answer, channel_open_session, mbind, srv_bind, handler_of, mret, srv_ret, login.
  rewrite Z.ltb_antisym. destruct (bool_decide _); cbn [negb orb andb]; [|by rewrite Z.add_0_r].
  destruct (_ <=? _); cbn [negb]; [by rewrite Z.add_0_r|done].
Qed.

Lemma channel_close_step ch c :
  fst (handle (RqClose ch) c) = Ok Done ∧
  login (snd (handle (RqClose ch) c))
  = (hd_username (cn_handler c), Z.max 0 (hd_open_sessions (cn_handler c) - 1)).
Proof. done. Qed.

(** The step of [live] and [sessions_only] for one answered request. *)
Lemma counted_step q a c c1 s :
  0 ≤ max_sessions → handle q c = (Ok a, c1) → counted c s → sessions_only [(q, a)] s →
  counted c1 (live [(q, a)] s).
Proof.
  intros Hm E (Hn & Hle & Hu) Hs. unfold counted.
  assert (Hlog : ∀ u n, login c1 = (u, n) →
    hd_username (cn_handler c1) = u ∧ hd_open_sessions (cn_handler c1) = n).
  { unfold login. by intros u n [= -> ->]. }
  destruct (neutral q) eqn:En.
  { pose proof (neutral_keeps q En c) as Ek.
    rewrite E in Ek. cbn [snd] in Ek. destruct (Hlog _ _ Ek) as [-> ->].
    replace (live [(q, a)] s) with s by (destruct q; try done; discriminate). done. }
  destruct (login_user q) as [u|] eqn:Eu.
  { replace (live [(q, a)] s) with s by (destruct q; done).
    destruct (login_step q u c Eu) as [(_ & El & _)|[_ El]]; rewrite E in El; cbn in El;
      destruct (Hlog _ _ El) as [-> ->]; done. }
  destruct q; try discriminate.
  - destruct (open_session_step channel c) as [Ea El]. rewrite E in Ea, El. cbn in Ea.
    destruct (Hlog _ _ El) as [-> ->]. injection Ea as ->.
    destruct (bool_decide_reflect (is_Some (hd_username (cn_handler c)))) as [[u Hu']|?];
      cbn [andb live]; [|by rewrite Z.add_0_r].
    destruct (Z.ltb_spec (hd_open_sessions (cn_handler c)) max_sessions);
      [|by rewrite Z.add_0_r].
    cbn in Hs. destruct Hs as [Hnot _].
    rewrite size_union by set_solver. rewrite size_singleton. split; [lia|]. split; [lia|congruence].
  - destruct (channel_close_step channel c) as [Ea El]. rewrite E in Ea, El.
    destruct (Hlog _ _ El) as [-> ->]. injection Ea as ->.
    cbn [live]. destruct Hs as [Hin _].
    assert (Hsz : base.size s = S (base.size (s ∖ {[channel]}))).
    { rewrite (union_difference_L {[channel]} s) at 1 by set_solver.
      rewrite size_union by set_solver. by rewrite size_singleton. }
    split; [lia|]. split; [lia|]. intros Hnone. rewrite Hu by done. set_solver.
Qed.

Lemma live_cons q a log s : live ((q, a) :: log) s = live log (live [(q, a)] s).
Proof. by destruct q, a as [| |[]|]. Qed.

Lemma sessions_only_cons q a log s :
  sessions_only ((q, a) :: log) s →
  sessions_only [(q, a)] s ∧ sessions_only log (live [(q, a)] s).
Proof. destruct q, a as [| |[]|]; cbn; tauto. Qed.

Lemma error_keeps q c e c1 : handle q c = (Err e, c1) → login c1 = login c.
Proof.
  intros E. destruct (neutral q) eqn:En.
  { pose proof (neutral_keeps q En c) as Ek. by rewrite E in Ek. }
  destruct (login_user q) as [u|] eqn:Eu.
  { destruct (login_step q u c Eu) as [(Ha & _)|[_ El]]; [by rewrite E in Ha|].
    by rewrite E in El. }
  destruct q; try discriminate.
  destruct (open_session_step channel c) as [Ea _]. by rewrite E in Ea.
Qed.

Lemma serve_counted qs c s log e c' :
  0 ≤ max_sessions → counted c s → serve qs c = (log, e, c') → sessions_only log s →
  counted c' (live log s).
Proof.
  intros Hm. revert c s log. induction qs as [|q qs IH]; intros c s log Hc; cbn [serve_requests].
  { by intros [= <- <- <-] _. }
  destruct (handle q c) as [[a|er] c1] eqn:E.
  - destruct (serve qs c1) as [[log1 e1] c2] eqn:Es. intros [= <- <- <-] Hs.
    apply sessions_only_cons in Hs as [H1 H2]. rewrite live_cons.
    eapply IH; [|done|done]. by eapply counted_step.
  - intros [= <- <- <-] _. apply error_keeps in E. unfold login in E. unfold counted. cbn [live].
    by injection E as -> ->.
Qed.

(** ** Claims *)

(** C32.  On every connection, whatever the requests, a user is logged in only
    through an authentication request the server answered with acceptance, and
    that only when the application's callback for that method, given a context
    naming the same user and what the client presented, accepted it. *)
Theorem login_only_if_granted (qs : list (ConnRequest PubKey Cert)) (id : Z)
    (peer : option string) (a : A) (w : W) log e c' u :
  serve qs (new_client runtime id peer a w) = (log, e, c') →
  hd_username (cn_handler c') = Some u →
  ∃ q user, (q, AnsAuth Accept) ∈ log ∧ login_user q = Some user ∧ u = Username_new user ∧
    granted q user.
Proof.
  intros [Hu Hg]%serve_login Hsome. rewrite Hu in Hsome.
  apply last_login_from in Hsome as [[=]|(q & user & Hin & Hq & ->)]. exists q, user. eauto.
Qed.

(** C34.  As long as sessions are opened on new channels and only session channels
    are closed, the handler's counter is the number of open sessions: there are
    never more than [max_sessions], and none before a user is logged in. *)
Theorem session_limit (qs : list (ConnRequest PubKey Cert)) (id : Z) (peer : option string)
    (a : A) (w : W) log e c' :
  0 ≤ max_sessions →
  serve qs (new_client runtime id peer a w) = (log, e, c') → sessions_only log ∅ →
  hd_open_sessions (cn_handler c') = Z.of_nat (base.size (live log ∅)) ∧
  Z.of_nat (base.size (live log ∅)) ≤ max_sessions ∧
  (hd_username (cn_handler c') = None → live log ∅ = ∅).
Proof.
  intros Hm E Hs. assert (H0 : counted (new_client runtime id peer a w) ∅)
    by (split; [by rewrite size_empty|done]).
  destruct (serve_counted _ _ _ _ _ _ Hm H0 E Hs) as (H1 & H2 & H3). by rewrite <-H1.
Qed.

(** The counter does not know which channels are sessions: at the limit a
    further session is refused, but once the client has opened and closed a
    forwarded channel the same request is accepted, with every session still
    open. *)
Theorem forwarded_close_frees_session (c : Conn) (u : Username) (s1 s2 ch port oport : Z)
    (host originator : string) f a' :
  hd_username (cn_handler c) = Some u →
  hd_open_sessions (cn_handler c) = max_sessions → 1 ≤ max_sessions →
  direct_tcpip_handler (c_forward (r_calls runtime)) = Some f →
  (∀ ctx, f ctx (cn_app c) = (Ok true, a')) →
  (serve [RqOpenSession s1; RqOpenDirectTcpip ch host port originator oport; RqClose ch;
          RqOpenSession s2] c).1.1
  = [(RqOpenSession s1, AnsBool false);
     (RqOpenDirectTcpip ch host port originator oport, AnsBool true);
     (RqClose ch, Done); (RqOpenSession s2, AnsBool true)].
Proof.
  intros Hu Hn Hm Hf Hok. cbn [serve_requests ServerHandler.handle].
  unfold as_answer, channel_open_session, channel_open_direct_tcpip, forwarded_channel,
    channel_close, call_app, modify, mbind, srv_bind, handler_of, mret, srv_ret, calls.
  rewrite Hu, Hf, Hn, bool_decide_true, Z.leb_refl by done. cbn [negb orb].
  rewrite Hu, Hok. cbn. rewrite Hu, Hn, bool_decide_true by done. cbn [negb orb].
  rewrite (proj2 (Z.leb_gt _ _)) by lia. done.
Qed.

(** Only one channel of a connection can speak SFTP: a second [sftp]
    subsystem request is accepted and takes the first channel's place, whose
    further data is accepted and dropped, unanswered. *)
Theorem second_sftp_silences_first (c c1 c2 : Conn) (ch1 ch2 : Z) (d : list byte) handler :
  ch1 ≠ ch2 → sftp_handler (c_channel (r_calls runtime)) = Some handler →
  hd_stdin_txs (cn_handler c) !! ch1 = None →
  handle (RqSubsystem ch1 "sftp") c = (Ok Done, c1) →
  handle (RqSubsystem ch2 "sftp") c1 = (Ok Done, c2) →
  handle (RqData ch1 d) c2 = (Ok Done, c2).
Proof.
  intros Hne Hf Ht. cbn [ServerHandler.handle].
  unfold as_answer, subsystem_request, data, modify, op, mbind, srv_bind, handler_of, mret,
    srv_ret, calls.
  rewrite Hf. cbn. destruct (session_op (OpSuccess ch1) _) as [[|] w1]; [|done].
  intros [= <-]. cbn. destruct (session_op (OpSuccess ch2) _) as [[|] w2]; [|done].
  intros [= <-]. cbn. rewrite Ht. unfold is_sftp_channel. cbn.
  rewrite bool_decide_false by set_solver. done.
Qed.
End Sessions.
