(* ===== verification/ServerExec.v ===== *)
(** * Server: exec, end to end

    The session messages an exec request leads to, carried to the client's
    [Session::command]: the buffered and the streaming routes deliver exactly
    what the application produced, and standard input reaches the streaming
    handler in order.  The SSH connection in between is a list of session
    operations; [russh] turns a signal's name into a [Sig] on the client. *)
From S2P Require Import Prelude RustStr Channel CoreError Endpoint Config SftpPacket.
From S2P Require Import SftpWire SftpFraming SftpTypes SftpServer ClientErrors.
From S2P Require Import ClientCommand ServerTypes ServerBuild ServerHandler ServerSessions.

(** A session whose sends succeed, as the list of what was sent. *)
Definition log_op (o : SessionOp) (w : list SessionOp) : result RusshError unit * list SessionOp :=
  (Ok (), w ++ [o]).

Definition op_channel (o : SessionOp) : Z :=
  match o with
  | OpSuccess ch | OpFailure ch | OpData ch _ | OpExtendedData ch _ _ | OpExitStatus ch _
  | OpExitSignal ch _ _ _ _ | OpEof ch | OpClose ch => ch
  end.

Section Wire.
Context (parse_sig : string → Sig).

(** What the client's channel reads for one operation of the server. *)
Definition received (o : SessionOp) : CommandMsg :=
  match o with
  | OpSuccess _ => CSuccess
  | OpFailure _ => CFailure
  | OpData _ d => CData d
  | OpExtendedData _ _ d => CExtendedData d
  | OpExitStatus _ status => CExitStatus status
  | OpExitSignal _ sg core _ _ => CExitSignal (parse_sig (signal_to_name sg)) core
  | OpEof _ => CEof
  | OpClose _ => CClose
  end.

Definition on_channel (ch : Z) (w : list SessionOp) : list CommandMsg :=
  map received (List.filter (λ o, op_channel o =? ch) w).

Lemma on_channel_app ch v w : on_channel ch (v ++ w) = on_channel ch v ++ on_channel ch w.
Proof. unfold on_channel. by rewrite List.filter_app, map_app. Qed.

Lemma on_channel_all ch w :
  Forall (λ o, op_channel o = ch) w → on_channel ch w = map received w.
Proof.
  unfold on_channel. induction 1 as [|o w Ho Hw IH]; [done|]. cbn.
  rewrite Ho, Z.eqb_refl. cbn. by rewrite IH.
Qed.
End Wire.

(** ** What a run of a streaming handler means *)

(** The commands before the first exit. *)
Fixpoint before_exit (cmds : list StreamingExecCmd) : list StreamingExecCmd :=
  match cmds with
  | [] | SxExited _ :: _ => []
  | x :: cmds' => x :: before_exit cmds'
  end.

Fixpoint first_exit (cmds : list StreamingExecCmd) : option CommandExit :=
  match cmds with
  | [] => None
  | SxExited e :: _ => Some e
  | _ :: cmds' => first_exit cmds'
  end.

Definition run_output (run : StreamRun) : CommandOutput :=
  let cmds := before_exit (run_cmds run) in
  {| co_exit := default (Status (if handler_failed (run_end run) then 1 else 0))
                  (first_exit (run_cmds run));
     co_stdout := concat (map (λ x, match x with SxStdout d => d | _ => [] end) cmds);
     co_stderr := concat (map (λ x, match x with SxStderr d => d | _ => [] end) cmds) |}.

Definition cmd_op (ch : Z) (x : StreamingExecCmd) : list SessionOp :=
  match x with
  | SxStdout d => [OpData ch d]
  | SxStderr d => [OpExtendedData ch 1 d]
  | SxExited e => exit_ops ch e
  end.

Lemma pump_spec ch cmds :
  pump ch cmds false
  = (concat (map (cmd_op ch) (before_exit cmds))
     ++ from_option (exit_ops ch) [] (first_exit cmds),
     bool_decide (is_Some (first_exit cmds))).
Proof.
  induction cmds as [|[d|d|e] cmds IH]; cbn [pump before_exit first_exit]; [done| | |done].
  - rewrite IH. by cbn.
  - rewrite IH. by cbn.
Qed.

(** What the task sends is the run's output: each chunk, one exit, the end. *)
Lemma stream_ops_spec ch run :
  stream_ops ch run
  = concat (map (cmd_op ch) (before_exit (run_cmds run)))
    ++ exit_ops ch (co_exit (run_output run)) ++ [OpEof ch; OpClose ch].
Proof.
  unfold stream_ops. rewrite pump_spec, <-app_assoc. f_equal. cbn [run_output co_exit].
  by destruct (first_exit (run_cmds run)).
Qed.

(** ** The client's side *)

Definition out_bytes (cmds : list StreamingExecCmd) : list byte :=
  concat (map (λ x, match x with SxStdout d => d | _ => [] end) cmds).
Definition err_bytes (cmds : list StreamingExecCmd) : list byte :=
  concat (map (λ x, match x with SxStderr d => d | _ => [] end) cmds).

Lemma before_close_app l rest :
  existsb is_close l = false → before_close (l ++ CClose :: rest) = l.
Proof.
  induction l as [|m l IH]; [done|]. cbn. destruct m; cbn; try discriminate;
    intros Hl; by rewrite IH.
Qed.

Section Received.
Context (parse_sig : string → Sig)
        (parse_sig_name : ∀ n, signal_to_name (parse_sig n) = n)
        (russh_text : RusshError → string) (command : RemoteCommand) (ch : Z).

Abbreviation recv := (map (received parse_sig)).

(** The messages of output chunks: neither the end nor a refusal. *)
Lemma recv_cmds cmds :
  first_exit cmds = None →
  let l := recv (concat (map (cmd_op ch) cmds)) in
  existsb is_close l = false ∧ existsb is_failure l = false ∧
  stdout_of l = out_bytes cmds ∧ stderr_of l = err_bytes cmds ∧
  (∀ l', exit_of (l ++ l') = exit_of l').
Proof.
  cbv zeta. induction cmds as [|[d|d|e] cmds IH]; cbn [first_exit]; [done| | |done];
    intros Hx; destruct (IH Hx) as (H1 & H2 & H3 & H4 & H5);
    unfold stdout_of, stderr_of, out_bytes, err_bytes in *; cbn; by rewrite H1, H2, H3, H4.
Qed.

Lemma recv_exit e :
  let l := recv (exit_ops ch e) in
  existsb is_close l = false ∧ existsb is_failure l = false ∧
  stdout_of l = [] ∧ stderr_of l = [] ∧ exit_of (l ++ [CEof]) = e.
Proof. destruct e as [|sg core|]; cbn; rewrite ?parse_sig_name; done. Qed.

Definition exec_ops (cmds : list StreamingExecCmd) (e : CommandExit) : list SessionOp :=
  OpSuccess ch :: concat (map (cmd_op ch) cmds) ++ exit_ops ch e ++ [OpEof ch; OpClose ch].

Lemma recv_exec_ops cmds e rest :
  recv (exec_ops cmds e) ++ rest
  = (CSuccess :: recv (concat (map (cmd_op ch) cmds)) ++ recv (exit_ops ch e) ++ [CEof])
    ++ CClose :: rest.
Proof.
  unfold exec_ops. cbn [map received]. rewrite !map_app. cbn [map received].
  rewrite <-!app_comm_cons.
  by rewrite <-!app_assoc.
Qed.

(** What the client has seen when the server sent chunks, an exit and the end. *)
Lemma seen_exec_ops cmds e rest :
  first_exit cmds = None →
  let msgs := recv (exec_ops cmds e) ++ rest in
  seen_whole msgs ∧
  output_of msgs
  = {| co_exit := e; co_stdout := out_bytes cmds; co_stderr := err_bytes cmds |}.
Proof.
  intros Hx. destruct (recv_cmds cmds Hx) as (C1 & C2 & C3 & C4 & C5).
  destruct (recv_exit e) as (X1 & X2 & X3 & X4 & X5).
  cbv zeta. rewrite recv_exec_ops.
  set (l := recv (concat (map (cmd_op ch) cmds))) in *.
  set (x := recv (exit_ops ch e)) in *. unfold seen_whole, output_of.
  assert (Hc : before_close ((CSuccess :: l ++ x ++ [CEof]) ++ CClose :: rest)
               = CSuccess :: l ++ x ++ [CEof]).
  { apply before_close_app. cbn. by rewrite !existsb_app, C1, X1. }
  rewrite Hc. split_and!; [done|cbn; by rewrite !existsb_app, C2, X2| |].
  - rewrite existsb_app. cbn. by rewrite orb_true_r.
  - f_equal.
    + cbn. by rewrite C5, X5.
    + unfold stdout_of in *. cbn. rewrite !map_app, !concat_app, C3, X3. cbn. by rewrite app_nil_r.
    + unfold stderr_of in *. cbn. rewrite !map_app, !concat_app, C4, X4. cbn. by rewrite app_nil_r.
Qed.

(** What the client then returns. *)
Lemma client_receives cmds e rest is_closed :
  first_exit cmds = None →
  bytes_len (out_bytes cmds) ≤ limit_stdout (limits command) →
  bytes_len (err_bytes cmds) ≤ limit_stderr (limits command) →
  Session_command russh_text (Ok ()) (Ok ()) command true (Some (Ok ())) (Ok ())
    (recv (exec_ops cmds e) ++ rest) is_closed
  = (Ok {| co_exit := e; co_stdout := out_bytes cmds; co_stderr := err_bytes cmds |},
     stdin_actions command ++ [SendClose]).
Proof.
  intros Hx Ho He. destruct (seen_exec_ops cmds e rest Hx) as [Hw Hout].
  rewrite <-Hout. apply command_whole; [done|by rewrite Hout..].
Qed.
End Received.

(** ** The server's side *)

(** A buffered response as the chunks it is sent in. *)
Definition response_cmds (r : ExecResponse) : list StreamingExecCmd :=
  (match er_stdout r with [] => [] | d => [SxStdout d] end)
  ++ match er_stderr r with [] => [] | d => [SxStderr d] end.

Lemma response_cmds_spec r :
  first_exit (response_cmds r) = None ∧ out_bytes (response_cmds r) = er_stdout r ∧
  err_bytes (response_cmds r) = er_stderr r.
Proof.
  unfold response_cmds, out_bytes, err_bytes.
  destruct (er_stdout r), (er_stderr r); cbn; rewrite ?app_nil_r; done.
Qed.

Lemma before_exit_none cmds : first_exit (before_exit cmds) = None.
Proof. by induction cmds as [|[d|d|e] cmds IH]. Qed.

Lemma cmds_on_channel ch cmds : Forall (λ o, op_channel o = ch) (concat (map (cmd_op ch) cmds)).
Proof.
  induction cmds as [|x cmds IH]; [constructor|]. cbn. apply Forall_app. split; [|done].
  destruct x as [d|d|[]]; cbn; by repeat constructor.
Qed.

Lemma exec_ops_on_channel ch cmds e : Forall (λ o, op_channel o = ch) (exec_ops ch cmds e).
Proof.
  constructor; [done|]. apply Forall_app. split; [apply cmds_on_channel|].
  apply Forall_app. split; [|by repeat constructor]. destruct e; cbn; by repeat constructor.
Qed.

Section Exec.
Context {A PubKey Cert PrivKey : Type} `{!StrDebug}.
Context (runtime : ServerRuntime A PubKey Cert PrivKey).
Context (parse_sig : string → Sig)
        (parse_sig_name : ∀ n, signal_to_name (parse_sig n) = n)
        (russh_text : RusshError → string) (command : RemoteCommand).

Abbreviation Conn := (Conn A (list SessionOp)).
Abbreviation exec_request := (exec_request runtime log_op).
Abbreviation exec_calls := (c_exec (r_calls runtime)).
Abbreviation text d := (if utf8_valid d then Some (of_bytes d) else None).
Abbreviation client msgs is_closed :=
  (Session_command russh_text (Ok ()) (Ok ()) command true (Some (Ok ())) (Ok ()) msgs is_closed).

Lemma send_exec_response_log ch r (c : Conn) :
  fst (send_exec_response log_op ch r c) = Ok () ∧
  cn_net (snd (send_exec_response log_op ch r c))
  = cn_net c ++ exec_ops ch (response_cmds r) (er_exit r).
Proof.
  unfold send_exec_response, op, log_op, mbind, srv_bind, mret, srv_ret, exec_ops, response_cmds.
  destruct (er_stdout r), (er_stderr r), (er_exit r); cbn; by rewrite <-?app_assoc.
Qed.

(** A command answered by a buffered route comes back complete: the client's
    [command] returns the exit, standard output and standard error of the
    application's response, when they are within its limits. *)
Theorem exec_roundtrip (c : Conn) (ch : Z) (d : list byte) (ctx : ExecContext) f r a' rest
    is_closed :
  route (exec_routes_streaming exec_calls) (fallback_streaming_exec exec_calls) (text d) = None →
  route (exec_routes exec_calls) (fallback_exec exec_calls) (text d) = Some f →
  exec_context ch d (cn_handler c) = Ok ctx →
  f ctx (cn_app c) = (Ok r, a') → er_accepted r = true →
  bytes_len (er_stdout r) ≤ limit_stdout (limits command) →
  bytes_len (er_stderr r) ≤ limit_stderr (limits command) →
  ∃ c' sent, exec_request ch d c = (Ok (), c') ∧ cn_net c' = cn_net c ++ sent ∧
    client (on_channel parse_sig ch sent ++ rest) is_closed
    = (Ok {| co_exit := er_exit r; co_stdout := er_stdout r; co_stderr := er_stderr r |},
       stdin_actions command ++ [SendClose]).
Proof.
  intros Hs Hb Hctx Hf Hr Ho He.
  assert (Hu : ∃ u, hd_username (cn_handler c) = Some u)
    by (unfold exec_context in Hctx; destruct (hd_username _); [by eexists|done]).
  destruct Hu as [u Hu].
  assert (Hcmd : ExecCommand_as_str (ex_command ctx) = text d).
  { unfold exec_context in Hctx. rewrite Hu in Hctx. by injection Hctx as <-. }
  unfold ServerHandler.exec_request, call_app, mbind, srv_bind, handler_of, calls.
  rewrite Hu, Hs, Hctx, Hcmd, Hb, Hf, Hr.
  match goal with |- context [send_exec_response log_op ch r ?c1] =>
    destruct (send_exec_response_log ch r c1) as [E1 E2];
    destruct (send_exec_response log_op ch r c1) as [res c2] end.
  cbn in E1, E2. subst res. destruct (response_cmds_spec r) as (R1 & R2 & R3).
  exists c2, (exec_ops ch (response_cmds r) (er_exit r)). split; [done|]. split; [done|].
  rewrite on_channel_all by apply exec_ops_on_channel.
  by rewrite client_receives, R2, R3 by (rewrite ?R2, ?R3; done).
Qed.

(** What the exec request of a streaming command does. *)
Lemma streaming_exec_effect (c : Conn) ch d u f :
  route (exec_routes_streaming exec_calls) (fallback_streaming_exec exec_calls) (text d) = Some f →
  hd_username (cn_handler c) = Some u →
  ∃ c' ctx, exec_request ch d c = (Ok (), c') ∧ cn_app c' = cn_app c ∧
    cn_spawned c' = cn_spawned c ++ [SpStream ch ctx f] ∧ cn_net c' = cn_net c ++ [OpSuccess ch] ∧
    sc_username ctx = u ∧ sc_command ctx = {| command_bytes := d |} ∧
    sc_env ctx = env_of ch (cn_handler c).
Proof.
  intros Hs Hu. unfold ServerHandler.exec_request, run_streaming_exec, new_queue, modify, op,
    log_op, spawn, mbind, srv_bind, handler_of, calls. rewrite Hu, Hs. cbn.
  by eexists _, _.
Qed.

(** What the client makes of the task's messages. *)
Lemma client_streaming ch run rest is_closed :
  bytes_len (co_stdout (run_output run)) ≤ limit_stdout (limits command) →
  bytes_len (co_stderr (run_output run)) ≤ limit_stderr (limits command) →
  client (on_channel parse_sig ch ([OpSuccess ch] ++ stream_ops ch run) ++ rest) is_closed
  = (Ok (run_output run), stdin_actions command ++ [SendClose]).
Proof.
  intros Ho He.
  assert (Hsent : [OpSuccess ch] ++ stream_ops ch run
                  = exec_ops ch (before_exit (run_cmds run)) (co_exit (run_output run)))
    by by rewrite stream_ops_spec.
  rewrite Hsent, on_channel_all by apply exec_ops_on_channel.
  apply client_receives; [done|apply before_exit_none|done|done].
Qed.

(** A command answered by a streaming route: the handler is started once with
    the command, the user and the environment of its channel, and the client
    returns every byte it wrote before its exit, in order, with the exit it set,
    or status 0 or 1 as it returned or failed. *)
Theorem streaming_exec_roundtrip (c : Conn) (ch : Z) (d : list byte) (u : Username) f input rest
    is_closed :
  route (exec_routes_streaming exec_calls) (fallback_streaming_exec exec_calls) (text d) = Some f →
  hd_username (cn_handler c) = Some u →
  ∃ c' ctx, exec_request ch d c = (Ok (), c') ∧
    cn_spawned c' = cn_spawned c ++ [SpStream ch ctx f] ∧
    sc_username ctx = u ∧ sc_command ctx = {| command_bytes := d |} ∧
    sc_env ctx = env_of ch (cn_handler c) ∧
    ∃ sent, cn_net c' = cn_net c ++ sent ∧
      let run := f ctx input in
      bytes_len (co_stdout (run_output run)) ≤ limit_stdout (limits command) →
      bytes_len (co_stderr (run_output run)) ≤ limit_stderr (limits command) →
      client (on_channel parse_sig ch (sent ++ stream_ops ch run) ++ rest) is_closed
      = (Ok (run_output run), stdin_actions command ++ [SendClose]).
Proof.
  intros Hs Hu.
  destruct (streaming_exec_effect c ch d u f Hs Hu) as (c' & ctx & H1 & _ & H2 & H3 & H4 & H5 & H6).
  exists c', ctx. do 5 (split; [done|]). exists [OpSuccess ch]. split; [done|].
  intros run. by apply client_streaming.
Qed.

(** [ServerBuilder::handler] installs a streaming fallback, and the streaming
    fallback is tried before every buffered route: with a handler that leaves
    [streaming_exec] at its default, every command without a streaming route
    succeeds with no output and status 0.  Neither the handler's [exec] nor a
    route registered with [ServerBuilder::exec] is consulted (the application
    state is unchanged), whatever they are. *)
Theorem handler_hides_exec read_key is_encrypted fs (b : ServerBuilder A PubKey Cert PrivKey)
    (h : ServerHandler A PubKey Cert) (c : Conn) (ch : Z) (d : list byte) (u : Username) input
    rest is_closed :
  build read_key is_encrypted fs (builder_handler b h) = Ok runtime →
  sh_streaming_exec (ServerHandler := h)
  = sh_streaming_exec (ServerHandler := ServerHandler_default (A := A) (PubKey := PubKey)
                                          (Cert := Cert)) →
  (text d ≫= λ cmd, exec_routes_streaming (c_exec (b_calls b)) !! cmd) = None →
  hd_username (cn_handler c) = Some u →
  0 ≤ limit_stdout (limits command) → 0 ≤ limit_stderr (limits command) →
  ∃ c' ctx f sent, exec_request ch d c = (Ok (), c') ∧ cn_app c' = cn_app c ∧
    cn_spawned c' = cn_spawned c ++ [SpStream ch ctx f] ∧ cn_net c' = cn_net c ++ sent ∧
    client (on_channel parse_sig ch (sent ++ stream_ops ch (f ctx input)) ++ rest) is_closed
    = (Ok {| co_exit := Status 0; co_stdout := []; co_stderr := [] |},
       stdin_actions command ++ [SendClose]).
Proof.
  intros Hb Hh Hd Hu Ho He.
  assert (Hc : exec_calls = c_exec (b_calls (builder_handler b h))).
  { unfold build in Hb. destruct (_ =? 0); [done|]. destruct (load_keys _ _ _ _) as [ks|]; [|done].
    cbn in Hb. destruct ks; [done|]. by injection Hb as <-. }
  assert (Hr : route (exec_routes_streaming exec_calls) (fallback_streaming_exec exec_calls)
                 (text d) = Some (sh_streaming_exec (ServerHandler := h))).
  { rewrite Hc. unfold route. cbn. by rewrite Hd. }
  destruct (streaming_exec_effect c ch d u _ Hr Hu) as (c' & ctx & H1 & H2 & H3 & H4 & _).
  exists c', ctx, (sh_streaming_exec (ServerHandler := h)), [OpSuccess ch].
  do 4 (split; [done|]). rewrite Hh. by apply client_streaming.
Qed.
End Exec.
