(* ===== verification/ServerInput.v ===== *)
(** * Server: standard input of a streaming command

    The data a client sends on a channel reaches the handler of the command
    running there, in order, until the client ends it; no other channel feeds
    that handler, whatever else happens on the connection. *)
From S2P Require Import Prelude RustStr Channel CoreError Endpoint Config SftpPacket.
From S2P Require Import SftpWire SftpFraming SftpTypes SftpServer SftpLoopback SftpService.
From S2P Require Import ClientErrors ClientCommand ServerTypes ServerBuild ServerHandler.
From S2P Require Import ServerSessions ServerExec.

(** The senders by channel, the queues, the next queue, the SFTP channels. *)
Record Input := {
  in_txs : gmap Z nat;
  in_queues : gmap nat (list (list byte));
  in_fresh : nat;
  in_sftp : gset Z;
}.

Definition input {A W} (c : Conn A W) : Input :=
  {| in_txs := hd_stdin_txs (cn_handler c); in_queues := cn_stdin c; in_fresh := cn_fresh c;
     in_sftp := from_option channels ∅ (hd_sftp (cn_handler c)) |}.

#[export] Instance input_quiet {A W} : Quiet (@input A W).
Proof. intros c c' H1 H2 H3. unfold input. by rewrite H1, H2, H3. Qed.

(** Queue [k] is fed by channel [ch] and by no other, and holds [q]. *)
Definition feeds (ch : Z) (k : nat) (q : list (list byte)) (i : Input) : Prop :=
  in_txs i !! ch = Some k ∧ (∀ ch', in_txs i !! ch' = Some k → ch' = ch) ∧
  (k < in_fresh i)%nat ∧ in_queues i !! k = Some q ∧ ch ∉ in_sftp i.

(** Queue [k] has lost its sender, and holds [q]. *)
Definition sealed (k : nat) (q : list (list byte)) (i : Input) : Prop :=
  (∀ ch, in_txs i !! ch ≠ Some k) ∧ (k < in_fresh i)%nat ∧ in_queues i !! k = Some q.

(** No sender for a queue that was not made yet. *)
Definition input_wf (i : Input) : Prop := ∀ ch k, in_txs i !! ch = Some k → (k < in_fresh i)%nat.

(** Reads the handler's fields: [let h = self]. *)
Ltac at_handler :=
  match goal with
  | |- context [mbind ?k handler_of ?c] =>
      change (mbind k handler_of c) with (k (cn_handler c) c); cbv beta
  end.

Section Stdin.
Context {A PubKey Cert PrivKey W : Type} `{!StrDebug}.
Context (runtime : ServerRuntime A PubKey Cert PrivKey)
        (session_op : SessionOp → W → result RusshError unit * W).

Abbreviation Conn := (Conn A W).
Abbreviation handle := (handle runtime session_op).
Abbreviation serve := (serve_requests runtime session_op).

Lemma as_answer_state {X} (f : X → Answer) (m : @srv A W X) c :
  snd (as_answer f m c) = snd (m c).
Proof. unfold as_answer, mbind, srv_bind. by destruct (m c) as [[]]. Qed.

(** The requests that touch neither senders, queues nor SFTP channels. *)
Definition input_neutral (q : ConnRequest PubKey Cert) : bool :=
  match q with
  | RqClose _ | RqEof _ | RqData _ _ | RqExec _ _ | RqSubsystem _ _ | RqStreamEnd _ => false
  | _ => true
  end.

Lemma input_neutral_keeps q : input_neutral q = true → keeps input (handle q).
Proof.
  destruct q; try discriminate 1; intros _; cbn [ServerHandler.handle]; unfold as_answer;
    unfold auth_none, auth_publickey_offered, auth_password, auth_publickey,
      auth_openssh_certificate, auth_keyboard_interactive, auth_decided, accept_user,
      fire_auth_success, authentication_banner, channel_open_session,
      shell_request, pty_request, env_request, store_env, window_change_request,
      agent_request, x11_request, tcpip_forward, cancel_tcpip_forward, streamlocal_forward,
      cancel_streamlocal_forward, channel_open_direct_tcpip, channel_open_forwarded_tcpip,
      channel_open_direct_streamlocal, channel_open_x11, global_request, forwarded_channel,
      answered, call_or_fail; keeps.
Qed.

(** What each of the others does to the input state. *)

Lemma input_close ch c :
  input (snd (handle (RqClose ch) c))
  = {| in_txs := delete ch (in_txs (input c)); in_queues := in_queues (input c);
       in_fresh := in_fresh (input c); in_sftp := in_sftp (input c) ∖ {[ch]} |}.
Proof.
  unfold input. cbn [ServerHandler.handle].
  unfold as_answer, channel_close, modify, mbind, srv_bind, mret, srv_ret. cbn. f_equal.
  destruct (hd_sftp (cn_handler c)); cbn; set_solver.
Qed.

Lemma input_eof ch c :
  input (snd (handle (RqEof ch) c))
  = {| in_txs := delete ch (in_txs (input c)); in_queues := in_queues (input c);
       in_fresh := in_fresh (input c); in_sftp := in_sftp (input c) |}.
Proof. done. Qed.

Lemma input_stream_end ch c :
  input (snd (handle (RqStreamEnd ch) c)) = input (snd (handle (RqEof ch) c)).
Proof.
  cbn [ServerHandler.handle]. rewrite !as_answer_state.
  unfold stream_end, op_ignored, op, modify, mbind, srv_bind. cbn.
  destruct (session_op (OpEof ch) _) as [? w]. cbn. by destruct (session_op (OpClose ch) w).
Qed.

Lemma handle_data_channels `{!SftpServerHandler A} rt ch d (a a' : A) w r rt' w' :
  handle_data (sftp_session_data session_op) ch d rt a w = (r, (rt', a', w')) →
  channels rt' ⊆ channels rt.
Proof.
  unfold handle_data. destruct (buffers rt !! ch) as [buf|]; [|by intros [= _ <- _ _]].
  destruct (split_packets _) as [ps [rest|]].
  - intros E. apply answer_keeps_buffers in E as [_ ->]. done.
  - intros [= _ <- _ _]. cbn. set_solver.
Qed.

(** Data either goes to the SFTP runtime, which can only lose channels, or to the
    queue of the channel's sender. *)
Lemma input_data ch d c :
  let i := input c in
  let i' := input (snd (handle (RqData ch d) c)) in
  in_txs i' = in_txs i ∧ in_fresh i' = in_fresh i ∧ in_sftp i' ⊆ in_sftp i ∧
  in_queues i' = match in_txs i !! ch with
                 | Some k => if bool_decide (ch ∈ in_sftp i ∧
                               is_Some (sftp_handler (c_channel (r_calls runtime))))
                             then in_queues i
                             else <[k := default [] (in_queues i !! k) ++ [d]]> (in_queues i)
                 | None => in_queues i
                 end.
Proof.
  cbv zeta. cbn [ServerHandler.handle].
  unfold as_answer, data, mbind, srv_bind, handler_of, calls, mret, srv_ret.
  destruct (hd_sftp (cn_handler c)) as [rt|] eqn:Er.
  - destruct (sftp_handler _) as [f|].
    + unfold is_sftp_channel. destruct (bool_decide_reflect (ch ∈ channels rt)) as [Hin|Hin].
      * unfold sftp_data.
        destruct (handle_data _ ch d rt _ _) as [r [[rt' a'] w']] eqn:E.
        apply handle_data_channels in E. unfold input.
        destruct r; cbn; rewrite Er; cbn; (split_and!; [done|done|done|]);
          destruct (hd_stdin_txs _ !! ch); try done; by rewrite bool_decide_true.
      * unfold input. cbn. destruct (hd_stdin_txs _ !! ch) eqn:Et; cbn; rewrite Er; cbn;
          [rewrite bool_decide_false by tauto|]; done.
    + unfold input. destruct (hd_stdin_txs _ !! ch) eqn:Et; cbn; rewrite Er, Et; cbn;
        [rewrite bool_decide_false by (intros [_ []]; done)|]; done.
  - unfold input. destruct (hd_stdin_txs _ !! ch) eqn:Et; cbn; rewrite Er, Et; cbn;
      [rewrite bool_decide_false by set_solver|]; done.
Qed.

Definition with_queue (ch : Z) (i : Input) : Input :=
  {| in_txs := <[ch := in_fresh i]> (in_txs i); in_queues := <[in_fresh i := []]> (in_queues i);
     in_fresh := S (in_fresh i); in_sftp := in_sftp i |}.

Lemma input_run_streaming ch d u f (c : Conn) :
  input (snd (run_streaming_exec session_op ch d u f c)) = with_queue ch (input c).
Proof.
  unfold run_streaming_exec, new_queue, modify, op, spawn, mbind, srv_bind, handler_of. cbn.
  by destruct (session_op (OpSuccess ch) _) as [[|] w].
Qed.

(** An exec request starts a streaming command with a queue of its own, or leaves
    the input state alone. *)
Lemma input_exec ch d c :
  let i' := input (snd (handle (RqExec ch d) c)) in
  i' = input c ∨ i' = with_queue ch (input c).
Proof.
  cbv zeta. cbn [ServerHandler.handle]. rewrite as_answer_state. unfold exec_request.
  at_handler.
  destruct (hd_username (cn_handler c)); [|by left].
  destruct (route _ _ _) as [f|]; [right; apply input_run_streaming|]. left.
  match goal with |- input (snd (?m c)) = _ => enough (keeps input m) by done end.
  destruct (exec_context _ _ _) as [ctx|]; [|apply keeps_throw].
  unfold send_exec_response. keeps.
Qed.

Lemma input_subsystem ch name c :
  let i := input c in
  let i' := input (snd (handle (RqSubsystem ch name) c)) in
  i' = i ∨ i' = {| in_txs := in_txs i; in_queues := in_queues i; in_fresh := in_fresh i;
                   in_sftp := {[ch]} |}.
Proof.
  cbv zeta. cbn [ServerHandler.handle]. rewrite as_answer_state.
  unfold subsystem_request. at_handler.
  destruct (sftp_handler _) as [f|]; [destruct (String.eqb name "sftp")|].
  - right. unfold mbind, srv_bind, modify, op, mret, srv_ret. cbn.
    destruct (session_op (OpSuccess ch) _) as [[|] w]; unfold input; cbn; f_equal; set_solver.
  - left. match goal with |- input (snd (?m c)) = _ => enough (keeps input m) by done end.
    unfold answered. keeps.
  - left. match goal with |- input (snd (?m c)) = _ => enough (keeps input m) by done end.
    unfold answered. keeps.
Qed.

(** ** One request *)

(** The request starts something new on the channel. *)
Definition starts (ch : Z) (q : ConnRequest PubKey Cert) : bool :=
  match q with RqExec ch' _ | RqSubsystem ch' _ => ch' =? ch | _ => false end.

(** The chunk a request adds to the channel's input; whether it ends the input. *)
Definition chunk (ch : Z) (q : ConnRequest PubKey Cert) : list (list byte) :=
  match q with RqData ch' d => if ch' =? ch then [d] else [] | _ => [] end.
Definition ends (ch : Z) (q : ConnRequest PubKey Cert) : bool :=
  match q with RqEof ch' | RqClose ch' | RqStreamEnd ch' => ch' =? ch | _ => false end.

Lemma feeds_delete ch ch' k q t qs f g g' :
  ch' ≠ ch → g' ⊆ g → feeds ch k q {| in_txs := t; in_queues := qs; in_fresh := f; in_sftp := g |} →
  feeds ch k q {| in_txs := delete ch' t; in_queues := qs; in_fresh := f; in_sftp := g' |}.
Proof.
  intros Hne Hg (H1 & H2 & H3 & H4 & H5). split_and!; cbn in *; [|..|set_solver]; try done.
  - by rewrite lookup_delete_ne.
  - intros ch1 [_ ?]%lookup_delete_Some. by apply H2.
Qed.

Lemma sealed_delete ch' k q t qs f g g' :
  sealed k q {| in_txs := t; in_queues := qs; in_fresh := f; in_sftp := g |} →
  sealed k q {| in_txs := delete ch' t; in_queues := qs; in_fresh := f; in_sftp := g' |}.
Proof.
  intros (H1 & H2 & H3). split_and!; cbn in *; try done.
  intros ch [_ ?]%lookup_delete_Some. by eapply H1.
Qed.

Lemma feeds_end ch k q t qs f g g' :
  feeds ch k q {| in_txs := t; in_queues := qs; in_fresh := f; in_sftp := g |} →
  sealed k q {| in_txs := delete ch t; in_queues := qs; in_fresh := f; in_sftp := g' |}.
Proof.
  intros (H1 & H2 & H3 & H4 & H5). split_and!; cbn in *; try done.
  intros ch1 [Hne ?]%lookup_delete_Some. by apply Hne, eq_sym, H2.
Qed.

Lemma feeds_with_queue ch ch' k q i :
  ch' ≠ ch → feeds ch k q i → feeds ch k q (with_queue ch' i).
Proof.
  intros Hne (H1 & H2 & H3 & H4 & H5). split_and!; cbn; try done; [..|lia|].
  - by rewrite lookup_insert_ne.
  - intros ch1 [[_ Hk]|[_ ?]]%lookup_insert_Some; [lia|]. by apply H2.
  - by rewrite lookup_insert_ne by lia.
Qed.

Lemma sealed_with_queue ch' k q i : sealed k q i → sealed k q (with_queue ch' i).
Proof.
  intros (H1 & H2 & H3). split_and!; cbn; [|lia|].
  - intros ch1 [[_ Hk]|[_ ?]]%lookup_insert_Some; [lia|]. by eapply H1.
  - by rewrite lookup_insert_ne by lia.
Qed.

Lemma feeds_data ch k q c ch' d :
  feeds ch k q (input c) →
  feeds ch k (q ++ chunk ch (RqData ch' d)) (input (snd (handle (RqData ch' d) c))).
Proof.
  intros (H1 & H2 & H3 & H4 & H5). destruct (input_data ch' d c) as (Et & Ef & Es & Eq).
  unfold feeds. rewrite Et, Ef, Eq. split_and!; try done; [|set_solver]. cbn [chunk].
  destruct (Z.eqb_spec ch' ch) as [->|Hne].
  - rewrite H1, bool_decide_false by tauto. rewrite lookup_insert_eq, H4. done.
  - rewrite app_nil_r. destruct (in_txs (input c) !! ch') as [k'|] eqn:Ek; [|done].
    destruct (bool_decide _); [done|]. rewrite lookup_insert_ne; [done|].
    intros ->. by apply Hne, H2.
Qed.

Lemma sealed_data k q c ch' d :
  sealed k q (input c) → sealed k q (input (snd (handle (RqData ch' d) c))).
Proof.
  intros (H1 & H2 & H3). destruct (input_data ch' d c) as (Et & Ef & Es & Eq).
  unfold sealed. rewrite Et, Ef, Eq. split_and!; try done.
  destruct (in_txs (input c) !! ch') as [k'|] eqn:Ek; [|done].
  destruct (bool_decide _); [done|]. rewrite lookup_insert_ne; [done|].
  intros ->. by eapply H1.
Qed.

Lemma sealed_step k q rq c :
  sealed k q (input c) → sealed k q (input (snd (handle rq c))).
Proof.
  intros H1. destruct (input_neutral rq) eqn:En; [by rewrite input_neutral_keeps|].
  destruct rq; try discriminate.
  - rewrite input_close. by eapply sealed_delete.
  - rewrite input_eof. by eapply sealed_delete.
  - by apply sealed_data.
  - destruct (input_exec channel d c) as [->| ->]; [done|by apply sealed_with_queue].
  - by destruct (input_subsystem channel name c) as [->| ->].
  - rewrite input_stream_end, input_eof. by eapply sealed_delete.
Qed.

Lemma feeds_step ch k q rq c :
  feeds ch k q (input c) → starts ch rq = false →
  let i' := input (snd (handle rq c)) in
  if ends ch rq then sealed k q i' else feeds ch k (q ++ chunk ch rq) i'.
Proof.
  intros H1 Hs. cbv zeta. destruct (input_neutral rq) eqn:En.
  { rewrite (input_neutral_keeps _ En).
    destruct rq; try discriminate; cbn [ends chunk]; by rewrite app_nil_r. }
  destruct rq as [| | | | | | | |ch'|ch'|ch' d|ch' d| | | |ch' name| | | | | | | | | | | |ch'];
    try discriminate; cbn [ends] in *.
  - rewrite input_close. destruct (Z.eqb_spec ch' ch) as [->|]; [by eapply feeds_end|].
    cbn [chunk]. rewrite app_nil_r. eapply feeds_delete; [done|..|exact H1]. set_solver.
  - rewrite input_eof. destruct (Z.eqb_spec ch' ch) as [->|]; [by eapply feeds_end|].
    cbn [chunk]. rewrite app_nil_r. by eapply feeds_delete; [..|exact H1].
  - by apply feeds_data.
  - cbn [chunk starts] in *. rewrite app_nil_r. apply Z.eqb_neq in Hs.
    destruct (input_exec ch' d c) as [->| ->]; [done|by apply feeds_with_queue].
  - cbn [chunk starts] in *. rewrite app_nil_r. apply Z.eqb_neq in Hs.
    destruct (input_subsystem ch' name c) as [->| ->]; [done|].
    destruct H1 as (? & ? & ? & ? & ?). split_and!; try done. cbn. set_solver.
  - rewrite input_stream_end, input_eof. destruct (Z.eqb_spec ch' ch) as [->|];
      [by eapply feeds_end|].
    cbn [chunk]. rewrite app_nil_r. by eapply feeds_delete; [..|exact H1].
Qed.

(** ** Whole connections *)

Fixpoint stdin_of (ch : Z) (log : list (ConnRequest PubKey Cert * Answer)) : list (list byte) :=
  match log with
  | [] => []
  | (q, _) :: log' => if ends ch q then [] else chunk ch q ++ stdin_of ch log'
  end.

Lemma data_accepted ch k q c d :
  feeds ch k q (input c) → fst (handle (RqData ch d) c) = Ok Done.
Proof.
  intros (H1 & _ & _ & _ & H5). cbn [ServerHandler.handle].
  unfold as_answer, data, mbind, srv_bind, handler_of, mret, srv_ret. cbn in H1, H5.
  rewrite H1. destruct (hd_sftp (cn_handler c)) as [rt|]; [|done].
  destruct (sftp_handler _); [|done]. unfold is_sftp_channel. by rewrite bool_decide_false.
Qed.

(** A request that ends the connection with an error adds nothing. *)
Lemma feeds_error ch k q rq c e c1 :
  feeds ch k q (input c) → starts ch rq = false → handle rq c = (Err e, c1) →
  feeds ch k q (input c1).
Proof.
  intros H1 Hs E. pose proof (feeds_step _ _ _ _ _ H1 Hs) as H2. cbv zeta in H2.
  rewrite E in H2. cbn [snd] in H2.
  assert (Hends : ends ch rq = false) by by destruct rq; try done; discriminate E.
  assert (Hchunk : chunk ch rq = []).
  { destruct rq; try done. cbn [chunk]. destruct (Z.eqb_spec channel ch) as [->|]; [|done].
    pose proof (data_accepted _ _ _ _ d H1) as Hd. by rewrite E in Hd. }
  by rewrite Hends, Hchunk, app_nil_r in H2.
Qed.

Lemma serve_sealed k q qs c log e c' :
  serve qs c = (log, e, c') → sealed k q (input c) → sealed k q (input c').
Proof.
  revert c log e. induction qs as [|rq qs IH]; intros c log e; cbn [serve_requests].
  { by intros [= <- <- <-]. }
  pose proof (sealed_step k q rq c) as Hs. destruct (handle rq c) as [[a|er] c1]; cbn [snd] in Hs.
  - destruct (serve qs c1) as [[log1 e1] c2] eqn:E. intros [= <- <- <-] H1. by eapply IH, Hs.
  - intros [= <- <- <-] H1. by apply Hs.
Qed.

Lemma serve_feeds ch k q qs c log e c' :
  serve qs c = (log, e, c') → Forall (λ rq, starts ch rq = false) qs →
  feeds ch k q (input c) → cn_stdin c' !! k = Some (q ++ stdin_of ch log).
Proof.
  revert c q log e. induction qs as [|rq qs IH]; intros c q log e; cbn [serve_requests].
  { intros [= <- <- <-] _ (_ & _ & _ & Hq & _). cbn. by rewrite app_nil_r. }
  intros E [Hs Hqs]%Forall_cons H1. destruct (handle rq c) as [[a|er] c1] eqn:Eh.
  - destruct (serve qs c1) as [[log1 e1] c2] eqn:Es. injection E as <- <- <-.
    pose proof (feeds_step _ _ _ _ _ H1 Hs) as H2. rewrite Eh in H2. cbn [snd stdin_of] in *.
    destruct (ends ch rq); [|by rewrite app_assoc; eapply IH].
    apply (serve_sealed _ _ _ _ _ _ _ Es) in H2 as (_ & _ & Hq). by rewrite app_nil_r.
  - injection E as <- <- <-. destruct (feeds_error _ _ _ _ _ _ _ H1 Hs Eh) as (_ & _ & _ & Hq & _).
    cbn. by rewrite app_nil_r.
Qed.

Lemma wf_step rq c : input_wf (input c) → input_wf (input (snd (handle rq c))).
Proof.
  intros Hwf. destruct (input_neutral rq) eqn:En; [by rewrite input_neutral_keeps|].
  destruct rq; try discriminate.
  - rewrite input_close. intros ch k. cbn. intros [_ ?]%lookup_delete_Some. by eapply Hwf.
  - rewrite input_eof. intros ch k. cbn. intros [_ ?]%lookup_delete_Some. by eapply Hwf.
  - destruct (input_data channel d c) as (Et & Ef & _). intros ch k. rewrite Et, Ef. apply Hwf.
  - destruct (input_exec channel d c) as [->| ->]; [done|].
    intros ch k. cbn. intros [[_ <-]|[_ Hk%Hwf]]%lookup_insert_Some; cbn in *; lia.
  - by destruct (input_subsystem channel name c) as [->| ->].
  - rewrite input_stream_end, input_eof. intros ch k. cbn. intros [_ ?]%lookup_delete_Some.
    by eapply Hwf.
Qed.

Lemma serve_wf qs c log e c' :
  serve qs c = (log, e, c') → input_wf (input c) → input_wf (input c').
Proof.
  revert c log e. induction qs as [|rq qs IH]; intros c log e; cbn [serve_requests].
  { by intros [= <- <- <-]. }
  pose proof (wf_step rq c) as Hs. destruct (handle rq c) as [[a|er] c1]; cbn [snd] in Hs.
  - destruct (serve qs c1) as [[log1 e1] c2] eqn:E. intros [= <- <- <-] H1. by eapply IH, Hs.
  - intros [= <- <- <-] H1. by apply Hs.
Qed.

Lemma feeds_new ch i :
  input_wf i → ch ∉ in_sftp i → feeds ch (in_fresh i) [] (with_queue ch i).
Proof.
  intros Hwf Hn. split_and!; cbn; [|..|lia| |done].
  - apply lookup_insert_eq.
  - intros ch' [[? _]|[_ ?%Hwf]]%lookup_insert_Some; [done|lia].
  - apply lookup_insert_eq.
Qed.

Lemma exec_started ch d c f c1 :
  route (exec_routes_streaming (c_exec (r_calls runtime)))
    (fallback_streaming_exec (c_exec (r_calls runtime)))
    (if utf8_valid d then Some (of_bytes d) else None) = Some f →
  handle (RqExec ch d) c = (Ok Done, c1) →
  input c1 = with_queue ch (input c) ∧
  ∃ ctx, cn_spawned c1 = cn_spawned c ++ [SpStream ch ctx f] ∧ sc_stdin ctx = cn_fresh c.
Proof.
  intros Hf. cbn [ServerHandler.handle].
  unfold as_answer, exec_request, run_streaming_exec, new_queue, modify, op, spawn, mbind,
    srv_bind, handler_of, mret, srv_ret, calls.
  destruct (hd_username (cn_handler c)); [|done]. rewrite Hf. cbn.
  destruct (session_op (OpSuccess ch) _) as [[|] w]; [|done]. intros [= <-].
  split; [done|]. by eexists.
Qed.

(** C35.  Standard input of a streaming command: from the moment its exec request is
    accepted, the queue its handler reads holds exactly the data the client sent
    on that channel, in order, up to the end the client signals (or the end of the
    handler's own task), through any other requests on the connection (other commands, SFTP, channels opening and
    closing) and whether or not the connection later fails. *)
Theorem stdin_reaches_handler (qs0 qs : list (ConnRequest PubKey Cert)) (id : Z)
    (peer : option string) (a : A) (w : W) log0 c0 (ch : Z) (d : list byte) f c1 log e c2 :
  serve qs0 (new_client runtime id peer a w) = (log0, None, c0) →
  ch ∉ in_sftp (input c0) →
  route (exec_routes_streaming (c_exec (r_calls runtime)))
    (fallback_streaming_exec (c_exec (r_calls runtime)))
    (if utf8_valid d then Some (of_bytes d) else None) = Some f →
  handle (RqExec ch d) c0 = (Ok Done, c1) →
  serve qs c1 = (log, e, c2) → Forall (λ q, starts ch q = false) qs →
  ∃ ctx, cn_spawned c1 = cn_spawned c0 ++ [SpStream ch ctx f] ∧
    cn_stdin c2 !! sc_stdin ctx = Some (stdin_of ch log).
Proof.
  intros E0 Hn Hf E1 E2 Hqs.
  assert (Hwf : input_wf (input c0)) by by eapply serve_wf; [exact E0|].
  destruct (exec_started _ _ _ _ _ Hf E1) as (Hi & ctx & Hsp & Hk).
  exists ctx. split; [done|]. rewrite Hk.
  apply (serve_feeds ch (cn_fresh c0) [] qs c1 log e c2); [done|done|].
  rewrite Hi. by apply feeds_new.
Qed.
End Stdin.
