(* ===== verification/ServerRuns.v ===== *)
(** * Server: concrete runs

    A small application (its state counts the exec calls it got), servers built
    from it, and the server's theorems at these inputs. *)
From S2P Require Import Prelude RustStr Channel CoreError Endpoint Config SftpPacket.
From S2P Require Import SftpWire SftpFraming SftpTypes SftpServer ClientErrors.
From S2P Require Import ClientCommand ServerTypes ServerBuild ServerHandler ServerSessions.
From S2P Require Import ServerExec ServerInput.

#[local] Instance app_debug : StrDebug := λ s, s.

Abbreviation AppBuilder := (ServerBuilder nat unit unit unit).
Abbreviation AppRuntime := (ServerRuntime nat unit unit unit).
Abbreviation AppConn := (Conn nat (list SessionOp)).

Definition app_password : callback nat (AuthContext * Password) AuthDecision := λ x a,
  (Ok (if String.eqb (expose_secret (snd x)) "secret" then AuthDecision_accept
       else AuthDecision_reject), a).

Definition app_exec : callback nat ExecContext ExecResponse := λ _ a,
  (Ok (ExecResponse_exit_status (ExecResponse_stdout ExecResponse_success (as_bytes "up")) 3), S a).

Definition app_tail : StreamingExecCallback := λ _ stdin,
  {| run_cmds := [SxStdout (concat stdin); SxStderr (as_bytes "!"); SxExited (Signal "TERM" false);
                  SxStdout (as_bytes "late")];
     run_end := Returned (Ok ()) |}.

Definition app_builder : AppBuilder :=
  builder_streaming_exec
    (builder_exec
       (builder_sftp_handler
          (builder_direct_tcpip_handler
             (builder_password_auth
                (builder_max_sessions
                   (builder_host_key ServerBuilder_default {| private_key := () |}) 1)
                app_password)
             (always (Ok true)))
          default_handler)
       "uptime" app_exec)
    "tail" app_tail.

(** The application as a [ServerHandler], with [exec] but not [streaming_exec]. *)
Definition app_handler : ServerHandler nat unit unit := {|
  sh_on_connect := always (Ok ());
  sh_on_auth_success := always (Ok ());
  sh_on_disconnect := always (Ok ());
  sh_auth_password := app_password;
  sh_auth_publickey := always (Ok AuthDecision_reject);
  sh_auth_keyboard_interactive := always (Ok KiReject);
  sh_exec := app_exec;
  sh_streaming_exec := sh_streaming_exec (ServerHandler := ServerHandler_default
                         (A := nat) (PubKey := unit) (Cert := unit));
  sh_shell := always (not_supported "shell");
  sh_pty := always (not_supported "PTY");
  sh_subsystem := always (not_supported "subsystem");
  sh_env := always (Ok ());
  sh_window_change := always (Ok ());
  sh_tcpip_forward := always (Ok false);
  sh_cancel_tcpip_forward := always (Ok false);
  sh_channel_open_direct_tcpip := always (Ok false);
  sh_channel_open_forwarded_tcpip := always (Ok false);
  sh_streamlocal_forward := always (Ok false);
  sh_cancel_streamlocal_forward := always (Ok false);
  sh_channel_open_direct_streamlocal := always (Ok false);
  sh_auth_openssh_certificate := always (Ok AuthDecision_reject);
  sh_x11_request := always (Ok false);
  sh_channel_open_x11 := always (Ok false);
  sh_agent_request := always (Ok false);
  sh_authentication_banner := always (Ok None);
|}.

Definition app_fs (_ : string) : HostKeyFile := {| hk_mode := Ok 384; hk_data := Ok [] |}.

Definition built (b : AppBuilder) : AppRuntime :=
  match build (λ _, Ok ()) (λ _, false) app_fs b with
  | Ok r => r
  | Err _ => {| r_config := ServerConfig_default; r_host_keys := []; r_shutdown_grace := 0;
                r_calls := Callbacks_none |}
  end.

Definition app_runtime : AppRuntime := built app_builder.
Definition handler_runtime : AppRuntime := built (builder_handler app_builder app_handler).

Definition start : AppConn := new_client app_runtime 7 None 0%nat [].
Definition login_requests : list (ConnRequest unit unit) :=
  [RqAuthPassword "eve" "guess"; RqAuthPublickeyOffered "eve" (); RqAuthPassword "bob" "secret";
   RqOpenSession 1].
Definition after {X Y Z} (x : X * Y * Z) : Z := snd x.
Definition logged_in : AppConn := after (serve_requests app_runtime log_op login_requests start).

Lemma login_only_if_granted_witness :
  hd_username (cn_handler logged_in) = Some (Username_new "bob") ∧
  ∃ q user, (q, AnsAuth Accept) ∈ (serve_requests app_runtime log_op login_requests start).1.1 ∧
    login_user q = Some user ∧ Username_new "bob" = Username_new user ∧
    granted app_runtime q user.
Proof.
  split; [by vm_compute|].
  apply (login_only_if_granted app_runtime log_op login_requests 7 None 0%nat [] _
           (serve_requests app_runtime log_op login_requests start).1.2 logged_in);
    [|by vm_compute].
  unfold logged_in, after. by destruct (serve_requests _ _ _ _) as [[]].
Defined.

Lemma session_limit_witness :
  hd_open_sessions (cn_handler logged_in) = 1 ∧
  Z.of_nat (base.size (live ((serve_requests app_runtime log_op login_requests start).1.1)
                         (∅ : gset Z))) ≤ 1.
Proof.
  split; [by vm_compute|].
  apply (session_limit app_runtime log_op login_requests 7 None 0%nat [] _
           (serve_requests app_runtime log_op login_requests start).1.2 logged_in);
    [by vm_compute| |].
  - unfold logged_in, after. by destruct (serve_requests _ _ _ _) as [[]].
  - split; [|done]. apply not_elem_of_empty.
Defined.

Lemma forwarded_close_frees_session_witness :
  (serve_requests app_runtime log_op
     [RqOpenSession 2; RqOpenDirectTcpip 3 "db" 5432 "127.0.0.1" 1; RqClose 3; RqOpenSession 4]
     logged_in).1.1
  = [(RqOpenSession 2, AnsBool false);
     (RqOpenDirectTcpip 3 "db" 5432 "127.0.0.1" 1, AnsBool true);
     (RqClose 3, Done); (RqOpenSession 4, AnsBool true)].
Proof.
  apply (forwarded_close_frees_session app_runtime log_op logged_in (Username_new "bob") 2 4 3 5432
           1 "db" "127.0.0.1" (always (Ok true)) 0%nat); try done; by vm_compute.
Defined.

Definition sftp_one : AppConn :=
  snd (handle app_runtime log_op (RqSubsystem 1 "sftp") logged_in).
Definition sftp_two : AppConn := snd (handle app_runtime log_op (RqSubsystem 2 "sftp") sftp_one).

Lemma second_sftp_silences_first_witness :
  handle app_runtime log_op (RqData 1 (encode_init 3)) sftp_two = (Ok Done, sftp_two).
Proof.
  apply (second_sftp_silences_first app_runtime log_op logged_in sftp_one sftp_two 1 2
           (encode_init 3) default_handler); [done|..]; by vm_compute.
Defined.

Definition app_command : RemoteCommand := RemoteCommand_new "uptime".

Lemma exec_roundtrip_witness :
  ∃ c' sent, exec_request app_runtime log_op 1 (as_bytes "uptime") logged_in = (Ok (), c') ∧
    cn_net c' = cn_net logged_in ++ sent ∧
    Session_command (λ _, "") (Ok ()) (Ok ()) app_command true (Some (Ok ())) (Ok ())
      (on_channel CustomSig 1 sent ++ []) true
    = (Ok {| co_exit := Status 3; co_stdout := as_bytes "up"; co_stderr := [] |},
       stdin_actions app_command ++ [SendClose]).
Proof.
  destruct (exec_context 1 (as_bytes "uptime") (cn_handler logged_in)) as [ctx|] eqn:E;
    [|by vm_compute in E].
  apply (exec_roundtrip app_runtime CustomSig (λ n, eq_refl) (λ _, "") app_command logged_in 1
           (as_bytes "uptime") ctx app_exec
           (ExecResponse_exit_status (ExecResponse_stdout ExecResponse_success (as_bytes "up")) 3)
           1%nat [] true); try exact E; by vm_compute.
Defined.

Lemma streaming_exec_roundtrip_witness :
  ∃ c' ctx, exec_request app_runtime log_op 1 (as_bytes "tail") logged_in = (Ok (), c') ∧
    cn_spawned c' = cn_spawned logged_in ++ [SpStream 1 ctx app_tail] ∧
    sc_username ctx = Username_new "bob" ∧
    sc_command ctx = {| command_bytes := as_bytes "tail" |} ∧
    sc_env ctx = env_of 1 (cn_handler logged_in) ∧
    ∃ sent, cn_net c' = cn_net logged_in ++ sent ∧
      let run := app_tail ctx [as_bytes "in"] in
      bytes_len (co_stdout (run_output run)) ≤ limit_stdout (limits app_command) →
      bytes_len (co_stderr (run_output run)) ≤ limit_stderr (limits app_command) →
      Session_command (λ _, "") (Ok ()) (Ok ()) app_command true (Some (Ok ())) (Ok ())
        (on_channel CustomSig 1 (sent ++ stream_ops 1 run) ++ []) true
      = (Ok (run_output run), stdin_actions app_command ++ [SendClose]).
Proof.
  apply (streaming_exec_roundtrip app_runtime CustomSig (λ n, eq_refl) (λ _, "") app_command
           logged_in 1 (as_bytes "tail") (Username_new "bob") app_tail [as_bytes "in"] [] true);
    by vm_compute.
Defined.

Lemma handler_hides_exec_witness :
  ∃ c' ctx f sent,
    exec_request handler_runtime log_op 1 (as_bytes "uptime") logged_in = (Ok (), c') ∧
    cn_app c' = cn_app logged_in ∧
    cn_spawned c' = cn_spawned logged_in ++ [SpStream 1 ctx f] ∧
    cn_net c' = cn_net logged_in ++ sent ∧
    Session_command (λ _, "") (Ok ()) (Ok ()) app_command true (Some (Ok ())) (Ok ())
      (on_channel CustomSig 1 (sent ++ stream_ops 1 (f ctx [])) ++ []) true
    = (Ok {| co_exit := Status 0; co_stdout := []; co_stderr := [] |},
       stdin_actions app_command ++ [SendClose]).
Proof.
  apply (handler_hides_exec handler_runtime CustomSig (λ n, eq_refl) (λ _, "") app_command
           (λ _, Ok ()) (λ _, false) app_fs app_builder app_handler logged_in 1
           (as_bytes "uptime") (Username_new "bob") [] [] true); try done; by vm_compute.
Defined.

Definition tail_running : AppConn :=
  snd (handle app_runtime log_op (RqExec 1 (as_bytes "tail")) logged_in).
Definition typing : list (ConnRequest unit unit) :=
  [RqData 1 (as_bytes "a"); RqOpenDirectTcpip 3 "db" 5432 "127.0.0.1" 1;
   RqData 3 (as_bytes "x"); RqData 1 (as_bytes "b"); RqEof 1; RqData 1 (as_bytes "c")].

Lemma stdin_reaches_handler_witness :
  ∃ ctx, cn_spawned tail_running = cn_spawned logged_in ++ [SpStream 1 ctx app_tail] ∧
    cn_stdin (after (serve_requests app_runtime log_op typing tail_running)) !! sc_stdin ctx
    = Some [as_bytes "a"; as_bytes "b"].
Proof.
  destruct (serve_requests app_runtime log_op typing tail_running) as [[log e] c2] eqn:E.
  assert (Hlog : [as_bytes "a"; as_bytes "b"] = stdin_of 1 log).
  { replace log with (serve_requests app_runtime log_op typing tail_running).1.1 by by rewrite E.
    by vm_compute. }
  rewrite Hlog.
  apply (stdin_reaches_handler app_runtime log_op login_requests typing 7 None 0%nat []
           (serve_requests app_runtime log_op login_requests start).1.1 logged_in 1
           (as_bytes "tail") app_tail tail_running log e c2); try exact E; try by vm_compute.
  by repeat constructor.
Defined.
