(* ===== verification/AuthServer.v ===== *)
(** * Logging in: the client's credentials against the server's callbacks

    [Client::connect] of [client.rs] against the connection handler of [server.rs].
    Between them is [russh], on both sides; what the two rely on is stated as interfaces:
    [AuthLink], that a client is told of a success only when the server's handler accepted
    that very request (requests and replies may be lost, connections may break), and
    [ReliableLink], that every request is served and the client hears the verdict.  Under the first, a session
    means that the server has the connection logged in as the configured user, with the
    application's consent to a credential that was configured; under the second, a
    credential the application always accepts is enough to connect. *)
From S2P Require Import Prelude RustStr Channel CoreError Endpoint Config ClientErrors.
From S2P Require Import ClientCommand ClientAuth Tunnel Client ServerTypes ServerBuild.
From S2P Require Import ServerHandler ServerSessions ServerExec ServerRuns.

Section Login.
Context {A PubKey Cert PrivKey N L : Type} `{!StrDebug}.
Context (runtime : ServerRuntime A PubKey Cert PrivKey).
Abbreviation Conn := (Conn A N).
Abbreviation srv := (@srv A N).

(** The client's handle and the connection's handler at the server; the user whose
    keyboard-interactive challenge is running there; the public half of a key. *)
Context (conn : L → Conn) (challenged : L → option string) (public_key : PrivKey → PubKey).

Context (authenticate_password : string → string → L → timed AuthResult * L)
        (authenticate_none : string → L → timed AuthResult * L)
        (authenticate_publickey : string → PrivKey → L → timed AuthResult * L)
        (authenticate_publickey_with :
           string → PubKey → L → option (result string AuthResult) * L)
        (authenticate_openssh_cert : string → PrivKey → Cert → L → timed AuthResult * L)
        (ki_start : string → L → result RusshError KeyboardInteractiveAuthResponse * L)
        (ki_respond :
           list string → L → result RusshError KeyboardInteractiveAuthResponse * L).

(** ** The interface *)

(** A request that the handler serves with [m]: it did not arrive, or the handler has
    served it; the client hears of a success only if the handler accepted. *)
Definition served (m : srv Auth) (w : L) (success : bool) (w' : L) : Prop :=
  (conn w' = conn w ∧ success = false) ∨
  (conn w' = snd (m (conn w)) ∧ (success = true → fst (m (conn w)) = Ok Accept)).

Definition told {E} (r : option (result E AuthResult)) : bool :=
  match r with Some (Ok AuthSuccess) => true | _ => false end.
Definition ki_told (r : result RusshError KeyboardInteractiveAuthResponse) : bool :=
  match r with Ok KiSuccess => true | _ => false end.
Definition ki_asks (r : result RusshError KeyboardInteractiveAuthResponse) : bool :=
  match r with Ok (KiInfoRequest _ _ _) => true | _ => false end.

Class AuthLink := {
  link_password u p w r w' :
    authenticate_password u p w = (r, w') → served (auth_password runtime u p) w (told r) w';
  link_none u w r w' :
    authenticate_none u w = (r, w') → served (auth_none u) w (told r) w';
  link_publickey u k w r w' :
    authenticate_publickey u k w = (r, w') →
    served (auth_publickey runtime u (public_key k)) w (told r) w';
  link_agent u k w r w' :
    authenticate_publickey_with u k w = (r, w') →
    served (auth_publickey runtime u k) w (told r) w';
  link_cert u k c w r w' :
    authenticate_openssh_cert u k c w = (r, w') →
    served (auth_openssh_certificate runtime u c) w (told r) w';
  link_start u w r w' :
    ki_start u w = (r, w') →
    served (auth_keyboard_interactive runtime u "" None) w (ki_told r) w' ∧
    (ki_asks r = true → challenged w' = Some u);
  (** The answers go to the challenge that is running. *)
  link_respond u a w r w' :
    challenged w = Some u → ki_respond a w = (r, w') →
    served (auth_keyboard_interactive runtime u "" (Some (map as_bytes a))) w (ki_told r) w' ∧
    (ki_asks r = true → challenged w' = Some u);
  (** Without one there is nothing to answer. *)
  link_unasked a w r w' :
    challenged w = None → ki_respond a w = (r, w') → conn w' = conn w ∧ ki_told r = false;
}.

(** ** What the client presents *)

Context (russh_text : RusshError → string)
        (load_secret_key : string → option string → result string PrivKey)
        (from_openssh : list byte → result string PrivKey)
        (is_encrypted : PrivKey → bool)
        (decrypt : PrivKey → string → result string PrivKey)
        (ssh_auth_sock : option string)
        (connect_agent : string → result string unit)
        (request_identities : result string (list PubKey))
        (rounds : nat).

Abbreviation identity_key := (identity_key load_secret_key from_openssh is_encrypted decrypt).
Abbreviation certificate_key := (certificate_key is_encrypted decrypt).

(** The authentication requests user [u] can make with these credentials: the passwords,
    the public halves of the keys, the agent's keys, the certificates, and, with a
    keyboard-interactive handler, the opening request and the answers it may give. *)
Definition presents (u : string) (credentials : list Credential)
    (certs : list (CertificateCredential (PrivKey := PrivKey) (Cert := Cert)))
    (q : ConnRequest PubKey Cert) : Prop :=
  match q with
  | RqAuthPassword u' p =>
      u' = u ∧ ∃ secret, CredPassword secret ∈ credentials ∧ p = expose_secret secret
  | RqAuthPublickey u' k =>
      u' = u ∧
      ((∃ i key, CredIdentity i ∈ credentials ∧ identity_key i = Some key ∧ k = public_key key) ∨
       (∃ ks, CredIdentity Agent ∈ credentials ∧ request_identities = Ok ks ∧ k ∈ ks))
  | RqAuthCertificate u' c =>
      u' = u ∧ ∃ cert, cert ∈ certs ∧ is_Some (certificate_key cert) ∧ c = cert_cert cert
  | RqAuthKeyboardInteractive u' sub resp =>
      u' = u ∧ sub = "" ∧ ∃ h, CredKeyboardInteractive h ∈ credentials ∧
        (resp = None ∨ ∃ answers, may_answer h answers ∧ resp = Some (map as_bytes answers))
  | _ => False
  end.

(** The server has the connection logged in as [u], and the application accepted one of
    the requests [u] can make. *)
Definition logged_in_with (u : string) (credentials : list Credential)
    (certs : list (CertificateCredential (PrivKey := PrivKey) (Cert := Cert))) (w : L) : Prop :=
  hd_username (cn_handler (conn w)) = Some (Username_new u) ∧
  ∃ q, presents u credentials certs q ∧ granted runtime q u.

(** A success the client was told of is a login, when the handler's method is one that
    logs in only with the application's consent. *)
Lemma served_login u credentials certs (m : srv Auth) q w w' :
  auth_step m u (granted runtime q u) → presents u credentials certs q →
  served m w true w' → logged_in_with u credentials certs w'.
Proof.
  intros Hm Hq [[_ [=]]|[Hc Ha]]. specialize (Ha eq_refl).
  destruct (Hm (conn w)) as [(_ & Hl & Hg)|(Hn & _)]; [|done].
  split; [|by exists q]. rewrite Hc. unfold login in Hl. by injection Hl.
Qed.

Lemma served_none u credentials certs w w' :
  served (auth_none u) w true w' → logged_in_with u credentials certs w'.
Proof. intros [[_ [=]]|[_ Ha]]. by specialize (Ha eq_refl). Qed.

Lemma told_success (r : AuthResult) :
  is_auth_success r = true → told (E := RusshError) (Some (Ok r)) = true.
Proof. by destruct r. Qed.

Lemma password_step u p :
  auth_step (auth_password (W := N) runtime u p) u (granted runtime (RqAuthPassword u p) u).
Proof.
  intros c. destruct (auth_decided_step runtime (password_auth (c_auth (calls runtime))) u
    (Password_new p) c) as [(? & ? & ?)|?]; [by left|by right].
Qed.

Lemma publickey_step u k :
  auth_step (auth_publickey (W := N) runtime u k) u (granted runtime (RqAuthPublickey u k) u).
Proof.
  intros c. destruct (auth_decided_step runtime (public_key_auth (c_auth (calls runtime))) u k c)
    as [(? & ? & ?)|?]; [by left|by right].
Qed.

Lemma certificate_step u k :
  auth_step (auth_openssh_certificate (W := N) runtime u k) u
    (granted runtime (RqAuthCertificate u k) u).
Proof.
  intros c. destruct (auth_decided_step runtime (cert_auth (c_auth (calls runtime))) u k c)
    as [(? & ? & ?)|?]; [by left|by right].
Qed.

(** ** A session is a login at the server *)

Context (client_connect :
           RusshClientConfig → string → Z → Z → ClientHandler → timed L * ClientHandler)
        (banners : L → list string).

Abbreviation authenticate :=
  (authenticate_configured russh_text authenticate_password authenticate_none
     authenticate_publickey authenticate_publickey_with authenticate_openssh_cert ki_start
     ki_respond load_secret_key from_openssh is_encrypted decrypt ssh_auth_sock connect_agent
     request_identities rounds).
Abbreviation connect :=
  (Client_connect russh_text client_connect authenticate_password authenticate_none
     authenticate_publickey authenticate_publickey_with authenticate_openssh_cert ki_start
     ki_respond load_secret_key from_openssh is_encrypted decrypt ssh_auth_sock connect_agent
     request_identities rounds banners).

Lemma authenticated_login (link : AuthLink) config certs w w' :
  authenticate config certs w = (Ok (), w') →
  ∃ u, cc_username config = Some u ∧
    logged_in_with (username_text u) (cc_credentials config) certs w'.
Proof.
  intros E. destruct (cc_username config) as [user|] eqn:Eu;
    [|unfold authenticate_configured in E; by rewrite Eu in E].
  exists user. split; [done|]. revert E. set (u := username_text user).
  set (creds := cc_credentials config).
  assert (Hgo : ∀ m q w r w', auth_step m u (granted runtime q u) → presents u creds certs q →
            served m w (told (E := RusshError) (Some (Ok r))) w' → is_auth_success r = true →
            logged_in_with u creds certs w').
  { intros m q w0 r w1 Hm Hq Hs Hr. rewrite told_success in Hs by done. by eapply served_login. }
  apply (configured_accepted russh_text _ _ _ _ _ _ _ _ _ _ _ _ _ _ (logged_in_with u creds certs)
           u creds certs (λ w, challenged w = Some u)); unfold honest, creds, u.
  - intros p Hp w0 a w1 E Ha. eapply (Hgo _ (RqAuthPassword u (expose_secret p)));
      [apply password_step|split; [done|by exists p]|by eapply link_password|done].
  - intros _ w0 a w1 E Ha. apply link_none in E. rewrite told_success in E by done.
    by eapply served_none.
  - intros i k Hi Hk w0 a w1 E Ha. eapply (Hgo _ (RqAuthPublickey u (public_key k)));
      [apply publickey_step|split; [done|left; by exists i, k]|by eapply link_publickey|done].
  - intros k ks w0 w1 Hi Hks Hk E. eapply (served_login _ _ _ _ (RqAuthPublickey u k));
      [apply publickey_step|split; [done|right; by exists ks]|]. by apply link_agent in E.
  - intros c k Hc Hk w0 a w1 E Ha. eapply (Hgo _ (RqAuthCertificate u (cert_cert c)));
      [apply certificate_step|split; [done|by exists c]|by eapply link_cert|done].
  - intros h w0 r w1 Hh [Hs Ha]%link_start. destruct r as [[]|]; try done; [|by apply Ha].
    eapply (served_login _ _ _ _ (RqAuthKeyboardInteractive u "" None));
      [apply auth_ki_step|split_and!; [done|done|exists h; by split; [|left]]|exact Hs].
  - intros h a w0 r w1 Hh Hm Hw E. apply (link_respond u) in E as [Hs Ha]; [|done].
    destruct r as [[]|]; try done; [|by apply Ha].
    eapply (served_login _ _ _ _ (RqAuthKeyboardInteractive u "" (Some (map as_bytes a))));
      [apply auth_ki_step|split_and!; [done|done|exists h; split; [done|right; by exists a]]|exact Hs].
  - done.
  - intros v Hv. congruence.
Qed.

(** C7.  A session of [Client::connect] is a login at the server: the handler of the connection
    has the configured user as its user, and the application's callback accepted a
    request that presents one of the configured credentials. *)
Theorem session_is_login (link : AuthLink) (self : Client PrivKey Cert) (counter : Z)
    (s : Session L) (self' : Client PrivKey Cert) (counter' : Z) :
  connect self counter = (Ok s, self', counter') →
  ∃ u w, cc_username (c_config self) = Some u ∧ s_handle s = Some w ∧
    hd_username (cn_handler (conn w)) = Some u ∧
    ∃ q, presents (username_text u) (cc_credentials (c_config self)) (c_cert_credentials self) q ∧
         granted runtime q (username_text u).
Proof.
  unfold Client_connect. destruct (client_connect _ _ _ _ _) as [[[w|e]|] h]; try done.
  destruct (authenticate _ _ w) as [[[]|e] w'] eqn:Ea; [|done].
  intros [= <- _ _]. apply (authenticated_login link) in Ea as (u & Hu & Hl & Hq).
  exists u, w'. split_and!; try done. by destruct u.
Qed.

(** ** A credential that is always accepted is enough *)

(** The handler's verdict reaches the client. *)
Definition heard (m : srv Auth) (w : L) (r : timed AuthResult) (w' : L) : Prop :=
  conn w' = snd (m (conn w)) ∧
  (fst (m (conn w)) = Ok Accept → r = Some (Ok AuthSuccess)) ∧
  (fst (m (conn w)) = Ok Reject → r = Some (Ok (AuthFailure false))).

Class ReliableLink := {
  reliable_password u p w r w' :
    authenticate_password u p w = (r, w') → heard (auth_password runtime u p) w r w';
  reliable_none u w r w' :
    authenticate_none u w = (r, w') → heard (auth_none u) w r w';
  reliable_publickey u k w r w' :
    authenticate_publickey u k w = (r, w') →
    heard (auth_publickey runtime u (public_key k)) w r w';
  reliable_cert u k c w r w' :
    authenticate_openssh_cert u k c w = (r, w') →
    heard (auth_openssh_certificate runtime u c) w r w';
}.

(** The callback never fails. *)
Definition total {X} (handler : option (callback A (AuthContext * X) AuthDecision)) : Prop :=
  ∀ f, handler = Some f → ∀ x a, is_ok (fst (f x a)) = true.
(** The application accepts [x] from [u], whatever its state. *)
Definition welcome {X} (handler : option (callback A (AuthContext * X) AuthDecision)) (u : string)
    (x : X) : Prop :=
  ∃ f, handler = Some f ∧ ∀ ctx a, ax_username ctx = Username_new u →
    ∃ d a', f (ctx, x) a = (Ok d, a') ∧ accepted d = true.

Abbreviation on_password := (password_auth (c_auth (calls runtime))).
Abbreviation on_key := (public_key_auth (c_auth (calls runtime))).
Abbreviation on_cert := (cert_auth (c_auth (calls runtime))).

Definition logged_in_as (u : string) (w : L) : Prop :=
  hd_username (cn_handler (conn w)) = Some (Username_new u).

(** A decided method accepts and logs in, or rejects. *)
Lemma decided_total {X} (handler : option (callback A (AuthContext * X) AuthDecision)) u x
    (c : Conn) :
  total handler →
  (fst (auth_decided runtime handler u x c) = Ok Accept ∧
   hd_username (cn_handler (snd (auth_decided runtime handler u x c))) = Some (Username_new u)) ∨
  fst (auth_decided runtime handler u x c) = Ok Reject.
Proof.
  intros Ht. unfold auth_decided. destruct handler as [f|]; [|by right].
  unfold mbind, srv_bind, handler_of, call_or_fail, call_app, mbind, srv_bind, mret, srv_ret.
  cbv beta iota. specialize (Ht f eq_refl (auth_context u (cn_handler c), x) (cn_app c)).
  destruct (f _ (cn_app c)) as [[d|e] a']; [|done]. cbv beta iota.
  destruct (accepted d); [left|by right].
  match goal with |- context [accept_user runtime u ?c'] =>
    destruct (accept_user_effect runtime u c') as [-> Hl] end.
  split; [done|]. unfold login in Hl. by injection Hl.
Qed.

Lemma decided_welcome {X} (handler : option (callback A (AuthContext * X) AuthDecision)) u x
    (c : Conn) :
  welcome handler u x → fst (auth_decided runtime handler u x c) = Ok Accept.
Proof.
  intros (f & -> & Hf). unfold auth_decided, mbind, srv_bind, handler_of, call_or_fail, call_app,
    mbind, srv_bind, mret, srv_ret. cbv beta iota.
  destruct (Hf (auth_context u (cn_handler c)) (cn_app c) eq_refl) as (d & a' & -> & Hd).
  cbv beta iota. rewrite Hd. apply (accept_user_effect runtime u).
Qed.

(** A turn of the loops: the user is in, or the next credential is tried; or the user is
    in for certain. *)
Definition goes_on {X} (u : string) (turn : X → L → attempt * L) (x : X) : Prop := ∀ w,
  (∃ w', turn x w = (Finished (Ok ()), w') ∧ logged_in_as u w') ∨
  (∃ p w', turn x w = (NextCredential p, w')).
Definition succeeds {X} (u : string) (turn : X → L → attempt * L) (x : X) : Prop := ∀ w,
  ∃ w', turn x w = (Finished (Ok ()), w') ∧ logged_in_as u w'.

Lemma attempts_go_on {X} u (turn : X → L → attempt * L) xs p w :
  Forall (goes_on u turn) xs →
  (∃ w', attempts turn xs p w = (inl (Ok ()), w') ∧ logged_in_as u w') ∨
  (∃ q w', attempts turn xs p w = (inr q, w')).
Proof.
  intros Hx. revert p w. induction Hx as [|x xs Hx _ IH]; intros p w; cbn [attempts].
  { right. by eexists _, _. }
  destruct (Hx w) as [(w' & -> & Hw)|(q & w' & ->)]; [left; by exists w'|apply IH].
Qed.

Lemma attempts_succeed {X} u (turn : X → L → attempt * L) pre x post p w :
  Forall (goes_on u turn) pre → succeeds u turn x →
  ∃ w', attempts turn (pre ++ x :: post) p w = (inl (Ok ()), w') ∧ logged_in_as u w'.
Proof.
  intros Hpre Hx. revert p w. induction Hpre as [|y pre Hy _ IH]; intros p w; cbn [attempts app].
  { destruct (Hx w) as (w' & -> & Hw). by exists w'. }
  destruct (Hy w) as [(w' & -> & Hw)|(q & w' & ->)]; [by exists w'|apply IH].
Qed.

Abbreviation try_cred :=
  (try_credential russh_text authenticate_password authenticate_none authenticate_publickey
     authenticate_publickey_with ki_start ki_respond load_secret_key from_openssh is_encrypted
     decrypt ssh_auth_sock connect_agent request_identities rounds).
Abbreviation try_cert :=
  (try_certificate russh_text authenticate_openssh_cert is_encrypted decrypt).

(** A heard request, as a turn. *)
Lemma heard_total {X} (handler : option (callback A (AuthContext * X) AuthDecision)) u x
    w r w' :
  total handler → heard (auth_decided runtime handler u x) w r w' →
  (r = Some (Ok AuthSuccess) ∧ logged_in_as u w') ∨ r = Some (Ok (AuthFailure false)).
Proof.
  intros Ht (Hc & Ha & Hr). unfold logged_in_as. rewrite Hc.
  destruct (decided_total handler u x (conn w) Ht) as [[H1 H2]|H1]; [left|right]; auto.
Qed.

Lemma heard_welcome {X} (handler : option (callback A (AuthContext * X) AuthDecision)) u x
    w r w' :
  welcome handler u x → heard (auth_decided runtime handler u x) w r w' →
  r = Some (Ok AuthSuccess) ∧ logged_in_as u w'.
Proof.
  intros Hw (Hc & Ha & _). pose proof (decided_welcome handler u x (conn w) Hw) as E.
  split; [by apply Ha|]. unfold logged_in_as. rewrite Hc.
  destruct (auth_decided_step runtime handler u x (conn w)) as [(_ & Hl & _)|[Hn _]]; [|done].
  unfold login in Hl. by injection Hl.
Qed.

(** Credentials that cannot end the loop with an error: no agent, no dialogue, and the
    key is at hand. *)
Definition usable (c : Credential) : Prop :=
  match c with
  | CredPassword _ | CredNone => True
  | CredIdentity i => is_Some (identity_key i)
  | CredKeyboardInteractive _ => False
  end.

Definition welcome_credential (u : string) (c : Credential) : Prop :=
  match c with
  | CredPassword p => welcome on_password u (Password_new (expose_secret p))
  | CredIdentity i => ∃ k, identity_key i = Some k ∧ welcome on_key u (public_key k)
  | _ => False
  end.

Lemma identity_turn u i k w :
  identity_key i = Some k →
  try_cred u (CredIdentity i) w =
    let '(r, w) := authenticate_publickey u k w in
    match awaited russh_text "public key authentication timed out" r with
    | Ok r => (of_auth_result r, w)
    | Err error => (if recoverable error then NextCredential false else Finished (Err error), w)
    end.
Proof.
  destruct i as [|path p|data p]; cbn [ClientAuth.identity_key try_credential try_publickey_auth];
    [done|..].
  - destruct (load_secret_key _ _) as [key|]; intros [= ->]. unfold authenticate_with_key.
    by destruct (authenticate_publickey u k w).
  - destruct (from_openssh _) as [key|]; [|done]. destruct (unlock _ _ key _ _) as [key'|];
      intros [= ->]. unfold authenticate_with_key. by destruct (authenticate_publickey u k w).
Qed.

Lemma usable_goes_on (link : ReliableLink) u c :
  total on_password → total on_key → usable c → goes_on u (try_cred u) c.
Proof.
  intros Hp Hk Hc w. destruct c as [p|i| |h]; [|destruct Hc as [k Hc]| |done].
  - cbn [try_credential]. destruct (authenticate_password _ _ w) as [r w'] eqn:E.
    apply reliable_password, (heard_total _ _ _ _ _ _ Hp) in E as [[-> Hl]| ->]; [left|right];
      cbn; eauto.
  - rewrite (identity_turn u i k w Hc). destruct (authenticate_publickey _ _ w) as [r w'] eqn:E.
    apply reliable_publickey, (heard_total _ _ _ _ _ _ Hk) in E as [[-> Hl]| ->]; [left|right];
      cbn; eauto.
  - cbn [try_credential]. destruct (authenticate_none _ w) as [r w'] eqn:E.
    apply reliable_none in E as (_ & _ & ->); [|done]. right. cbn. eauto.
Qed.

Lemma welcome_succeeds (link : ReliableLink) u c :
  welcome_credential u c → succeeds u (try_cred u) c.
Proof.
  intros Hc w. destruct c as [p|i| |h]; [|destruct Hc as (k & Hk & Hc)|done|done].
  - cbn [try_credential]. destruct (authenticate_password _ _ w) as [r w'] eqn:E.
    apply reliable_password, (heard_welcome _ _ _ _ _ _ Hc) in E as [-> Hl]. cbn; eauto.
  - rewrite (identity_turn u i k w Hk). destruct (authenticate_publickey _ _ w) as [r w'] eqn:E.
    apply reliable_publickey, (heard_welcome _ _ _ _ _ _ Hc) in E as [-> Hl]. cbn; eauto.
Qed.

Lemma certificate_turn u c k w :
  certificate_key c = Some k →
  try_cert u c w =
    let '(r, w) := authenticate_openssh_cert u k (cert_cert c) w in
    match awaited russh_text "certificate authentication timed out" r with
    | Err e => (Finished (Err e), w)
    | Ok r => (of_auth_result r, w)
    end.
Proof.
  unfold ClientAuth.certificate_key, try_certificate.
  destruct (unlock _ _ _ _ _) as [key|]; by intros [= ->].
Qed.

Lemma unlocked_goes_on (link : ReliableLink) u c :
  total on_cert → is_Some (certificate_key c) → goes_on u (try_cert u) c.
Proof.
  intros Ht [k Hk] w. rewrite (certificate_turn u c k w Hk).
  destruct (authenticate_openssh_cert _ _ _ w) as [r w'] eqn:E.
  apply reliable_cert, (heard_total _ _ _ _ _ _ Ht) in E as [[-> Hl]| ->]; [left|right]; cbn; eauto.
Qed.

Lemma welcome_cert_succeeds (link : ReliableLink) u c :
  is_Some (certificate_key c) → welcome on_cert u (cert_cert c) → succeeds u (try_cert u) c.
Proof.
  intros [k Hk] Hc w. rewrite (certificate_turn u c k w Hk).
  destruct (authenticate_openssh_cert _ _ _ w) as [r w'] eqn:E.
  apply reliable_cert, (heard_welcome _ _ _ _ _ _ Hc) in E as [-> Hl]. cbn; eauto.
Qed.

(** One of the credentials is welcome and those tried before it are usable; or all are
    usable and one of the certificates is. *)
Definition lets_in (u : string) (credentials : list Credential)
    (certs : list (CertificateCredential (PrivKey := PrivKey) (Cert := Cert))) : Prop :=
  (∃ pre c post, credentials = pre ++ c :: post ∧ Forall usable pre ∧ welcome_credential u c) ∨
  (Forall usable credentials ∧
   ∃ pre c post, certs = pre ++ c :: post ∧ Forall (λ c, is_Some (certificate_key c)) pre ∧
     is_Some (certificate_key c) ∧ welcome on_cert u (cert_cert c)).

Lemma lets_in_authenticates (link : ReliableLink) u config certs w :
  total on_password → total on_key → total on_cert →
  cc_username config = Some u → lets_in (username_text u) (cc_credentials config) certs →
  ∃ w', authenticate config certs w = (Ok (), w') ∧ logged_in_as (username_text u) w'.
Proof.
  intros Hp Hk Ht Hu Hin. unfold authenticate_configured. rewrite Hu.
  assert (Hall : ∃ w', try_all russh_text authenticate_password authenticate_none
    authenticate_publickey authenticate_publickey_with authenticate_openssh_cert ki_start ki_respond
    load_secret_key from_openssh is_encrypted decrypt ssh_auth_sock connect_agent
    request_identities rounds (username_text u) (cc_credentials config) certs w = (Ok (), w') ∧
    logged_in_as (username_text u) w').
  { unfold try_all.
    destruct Hin as [(pre & c & post & -> & Hpre & Hc)|(Hall & pre & c & post & -> & Hpre & Hkey & Hc)].
    - destruct (attempts_succeed (username_text u) (try_cred (username_text u)) pre c post false w)
        as (w' & -> & Hw); [|by apply welcome_succeeds|by exists w'].
      eapply Forall_impl; [exact Hpre|]. intros x. by apply usable_goes_on.
    - destruct (attempts_go_on (username_text u) (try_cred (username_text u))
        (cc_credentials config) false w) as [(w' & -> & Hw)|(q & w1 & ->)]; [|by exists w'|].
      { eapply Forall_impl; [exact Hall|]. intros x. by apply usable_goes_on. }
      destruct (attempts_succeed (username_text u) (try_cert (username_text u)) pre c post q w1)
        as (w' & -> & Hw); [|by apply welcome_cert_succeeds|by exists w'].
      eapply Forall_impl; [exact Hpre|]. intros x. by apply unlocked_goes_on. }
  destruct (cc_credentials config), certs; [|exact Hall..].
  destruct Hin as [(? & ? & ? & ?%app_cons_not_nil & _)|(_ & ? & ? & ? & ?%app_cons_not_nil & _)];
    done.
Qed.

End Login.

(** ** A concrete link *)

Section Runs.
#[local] Instance link_debug : StrDebug := λ s, s.

(** It carries every request to the handler and its verdict back; a handler's error ends
    the connection. *)
Record DemoLink {A} := { dl_conn : Conn A (list SessionOp); dl_challenged : option string }.
Arguments DemoLink A : clear implicits.

Section Wire.
Context {A : Type} (runtime : ServerRuntime A unit unit unit).
Abbreviation link_conn := (@dl_conn A).

Definition wire_send (m : @srv A (list SessionOp) Auth) (w : DemoLink A) :
    timed AuthResult * DemoLink A :=
  let '(r, c) := m (dl_conn w) in
  (Some match r with
        | Ok Accept => Ok AuthSuccess
        | Ok Reject => Ok (AuthFailure false)
        | _ => Err Disconnect
        end, {| dl_conn := c; dl_challenged := dl_challenged w |}).

Definition wire_challenge (u : string) (m : @srv A (list SessionOp) Auth) (w : DemoLink A) :
    result RusshError KeyboardInteractiveAuthResponse * DemoLink A :=
  let '(r, c) := m (dl_conn w) in
  (match r with
   | Ok Accept => Ok KiSuccess
   | Ok Reject => Ok (KiFailure false)
   | Ok (Partial name instructions prompts) => Ok (KiInfoRequest name instructions prompts)
   | Err _ => Err Disconnect
   end, {| dl_conn := c; dl_challenged := Some u |}).

Definition wire_password (u p : string) : DemoLink A → timed AuthResult * DemoLink A :=
  wire_send (auth_password runtime u p).
Definition wire_none (u : string) : DemoLink A → timed AuthResult * DemoLink A :=
  wire_send (auth_none u).
Definition wire_publickey (u : string) (k : unit) : DemoLink A → timed AuthResult * DemoLink A :=
  wire_send (auth_publickey runtime u k).
Definition wire_agent (u : string) (k : unit) (w : DemoLink A) :
    option (result string AuthResult) * DemoLink A :=
  (Some (Ok (AuthFailure false)), w).
Definition wire_cert (u : string) (_ c : unit) : DemoLink A → timed AuthResult * DemoLink A :=
  wire_send (auth_openssh_certificate runtime u c).
Definition wire_start (u : string) :
    DemoLink A → result RusshError KeyboardInteractiveAuthResponse * DemoLink A :=
  wire_challenge u (auth_keyboard_interactive runtime u "" None).
Definition wire_respond (a : list string) (w : DemoLink A) :
    result RusshError KeyboardInteractiveAuthResponse * DemoLink A :=
  match dl_challenged w with
  | None => (Err Disconnect, w)
  | Some u =>
      wire_challenge u (auth_keyboard_interactive runtime u "" (Some (map as_bytes a))) w
  end.
Definition wire_fresh (a : A) : DemoLink A :=
  {| dl_conn := new_client runtime 7 None a []; dl_challenged := None |}.
Definition wire_connect (a : A) (_ : RusshClientConfig) (_ : string) (_ _ : Z) (h : ClientHandler) :
    timed (DemoLink A) * ClientHandler := (Some (Ok (wire_fresh a)), h).

Lemma wire_send_heard m w r w' : wire_send m w = (r, w') → heard link_conn m w r w'.
Proof.
  unfold wire_send, heard. destruct (m (dl_conn w)) as [r0 c]. intros [= <- <-]. cbn.
  split; [done|]. split; by intros ->.
Qed.

Lemma wire_send_served m w r w' :
  wire_send m w = (r, w') → served link_conn m w (told r) w'.
Proof.
  unfold wire_send, served. destruct (m (dl_conn w)) as [[[]|e] c]; intros [= <- <-];
    right; by split.
Qed.

Lemma wire_challenge_served u m w r w' :
  wire_challenge u m w = (r, w') →
  served link_conn m w (ki_told r) w' ∧ (ki_asks r = true → dl_challenged w' = Some u).
Proof.
  unfold wire_challenge, served. destruct (m (dl_conn w)) as [[[]|e] c]; intros [= <- <-];
    (split; [right; by split|done]).
Qed.

Definition wire_link :
  AuthLink runtime link_conn dl_challenged (λ k, k) wire_password wire_none wire_publickey
    wire_agent wire_cert wire_start wire_respond.
Proof.
  constructor; intros *; try apply wire_send_served.
  - intros [= <- <-]. left. by split.
  - apply wire_challenge_served.
  - intros Hu. unfold wire_respond. rewrite Hu. apply wire_challenge_served.
  - intros Hu. unfold wire_respond. rewrite Hu. by intros [= <- <-].
Defined.

Definition wire_reliable :
  ReliableLink runtime link_conn (λ k, k) wire_password wire_none wire_publickey wire_cert.
Proof. constructor; intros *; apply wire_send_heard. Defined.
End Wire.

(** The application also asks a question. *)
Definition app_ki : callback nat KeyboardInteractiveContext KeyboardInteractiveResponse := λ x a,
  (Ok match kx_responses x with
      | [] => KiFurtherAction (KeyboardInteractivePrompt_new "code" ""
                [KeyboardInteractivePromptItem_new "code?" false])
      | [r] => if bool_decide (r = as_bytes "42") then KiAccept else KiReject
      | _ => KiReject
      end, a).
Definition ki_runtime : AppRuntime :=
  built (builder_keyboard_interactive_auth app_builder app_ki).

Definition demo_password := wire_password ki_runtime.
Definition demo_none := wire_none (A := nat).
Definition demo_publickey := wire_publickey ki_runtime.
Definition demo_agent := wire_agent (A := nat).
Definition demo_cert := wire_cert ki_runtime.
Definition demo_start := wire_start ki_runtime.
Definition demo_respond := wire_respond ki_runtime.
Definition demo_fresh := wire_fresh ki_runtime 0%nat.
Definition demo_connect := wire_connect ki_runtime 0%nat.

Definition demo_link :
  AuthLink ki_runtime dl_conn dl_challenged (λ k, k) demo_password demo_none demo_publickey
    demo_agent demo_cert demo_start demo_respond := wire_link ki_runtime.
Definition demo_reliable :
  ReliableLink ki_runtime dl_conn (λ k, k) demo_password demo_none demo_publickey demo_cert :=
  wire_reliable ki_runtime.

Abbreviation demo_client ops :=
  (ClientBuilder_build (fold_left builder_call ops (Client_builder (PrivKey := unit) (Cert := unit) 0))).
Abbreviation demo_run :=
  (Client_connect (λ _, "") demo_connect demo_password demo_none demo_publickey demo_agent
     demo_cert demo_start demo_respond (λ _ _, Err "") (λ _, Err "") (λ _, false) (λ _ _, Err "")
     None (λ _, Err "") (Err "") 1 (λ _, [])).

(** A wrong password, then the code. *)
Definition code_ops : list (BuilderOp (PrivKey := unit) (Cert := unit)) :=
  [BUsername (Username_new "bob"); BPassword (Password_new "guess");
   BKeyboardInteractive (λ _, Responses ["42"])].

Lemma session_is_login_witness :
  ∃ s w, fst (fst (demo_run (demo_client code_ops) 5)) = Ok s ∧ s_handle s = Some w ∧
    hd_username (cn_handler (dl_conn w)) = Some (Username_new "bob").
Proof.
  destruct (demo_run (demo_client code_ops) 5) as [[[s|e] c'] n] eqn:E; [|by vm_compute in E].
  apply (session_is_login ki_runtime dl_conn dl_challenged (λ k, k) demo_password demo_none
    demo_publickey demo_agent demo_cert demo_start demo_respond (λ _, "") (λ _ _, Err "")
    (λ _, Err "") (λ _, false) (λ _ _, Err "") None (λ _, Err "") (Err "") 1 demo_connect (λ _, [])
    demo_link) in E as (u & w & Hu & Hs & Hw & _).
  exists s, w. split_and!; [done|done|]. rewrite Hw. by vm_compute in Hu |- *.
Defined.

(** A wrong password, then the right one. *)
Definition password_ops : list (BuilderOp (PrivKey := unit) (Cert := unit)) :=
  [BUsername (Username_new "bob"); BPassword (Password_new "guess");
   BPassword (Password_new "secret")].

End Runs.
