(* ===== verification/Stack.v ===== *)
(** * A command over the whole stack

    [Session::command] of the client against the connection handler of the server: the
    session channel is opened and the exec request handled; what the client's loop then
    sends, its standard input and end of file, is given to the handler; the task of a
    streaming handler is run on what it reads once its input has ended; every message on
    the channel is given to the client's loop, and what else that sends to the handler.
    Data is carried in pieces, as [russh] cuts it to the size of its packets.
    [command_spec] says what this should come to in terms of the application's callbacks
    alone; the theorem is that it does. *)
From S2P Require Import Prelude RustStr Channel CoreError Endpoint Config SftpPacket.
From S2P Require Import SftpWire SftpFraming SftpTypes SftpServer ClientErrors.
From S2P Require Import ClientCommand ServerTypes ServerBuild ServerHandler ServerSessions.
From S2P Require Import ServerExec.

Section Stack.
Context {A PubKey Cert PrivKey : Type} `{!StrDebug}.
Context (runtime : ServerRuntime A PubKey Cert PrivKey).
Context (parse_sig : string → Sig) (russh_text : RusshError → string).

(** The pieces a write of data is carried in. *)
Context (packets : list byte → list (list byte)).

Abbreviation Conn := (Conn A (list SessionOp)).
Abbreviation srv := (@srv A (list SessionOp)).
Abbreviation exec_calls := (c_exec (r_calls runtime)).

(** ** The composition *)

(** What the client does on its channel, as requests to the server's handler. *)
Definition client_request (ch : Z) (c : Conn) (a : CommandAction) : Conn :=
  match a with
  | SendData d => fold_left (λ c p, snd (data runtime log_op ch p c)) (packets d) c
  | SendEof => snd (channel_eof ch c)
  | SendClose => snd (channel_close ch c)
  end.

Definition client_requests (ch : Z) (l : list CommandAction) (c : Conn) : Conn :=
  fold_left (client_request ch) l c.

(** What the handler sent on the channel, as the client's loop reads it. *)
Definition pieces (m : CommandMsg) : list CommandMsg :=
  match m with
  | CData d => map CData (packets d)
  | CExtendedData d => map CExtendedData (packets d)
  | m => [m]
  end.
Definition arriving (ch : Z) (w : list SessionOp) : list CommandMsg :=
  concat (map pieces (on_channel parse_sig ch w)).

(** What the handler sent and spawned since [c].  A streaming handler is a function of its
    whole input, so what its task sends is known once the input has ended: when the
    channel no longer feeds its queue. *)
Definition sent_since (c c' : Conn) : list SessionOp := drop (length (cn_net c)) (cn_net c').
Definition task_ops (c : Conn) (s : Spawned) : list SessionOp :=
  match s with
  | SpStream ch ctx f =>
      if bool_decide (hd_stdin_txs (cn_handler c) !! ch = Some (sc_stdin ctx)) then []
      else stream_ops ch (f ctx (default [] (cn_stdin c !! sc_stdin ctx)))
  | _ => []
  end.
Definition tasks_since (c c' : Conn) : list SessionOp :=
  concat (map (task_ops c') (drop (length (cn_spawned c)) (cn_spawned c'))).

Abbreviation client command opened msgs is_closed :=
  (Session_command russh_text (Ok ()) (Ok ()) command true opened (Ok ()) msgs is_closed).
Abbreviation loop command msgs :=
  (command_loop russh_text (Ok ()) (Ok ()) command msgs CommandState_new).

(** The handler's reply to the exec request arrives; what the client's loop does on it goes
    back; the rest of the output arrives, and what the client has yet to do goes back. *)
Definition stack_command (ch : Z) (command : RemoteCommand) (c : Conn) :
    Result CommandOutput * Conn :=
  match channel_open_session runtime c with
  | (Err _, c1) => (fst (client command (Some (Err Disconnect)) [] true), c1)
  | (Ok false, c1) => (fst (client command (Some (Err ChannelOpenFailure)) [] false), c1)
  | (Ok true, c1) =>
      let '(r, c2) := exec_request runtime log_op ch (as_bytes (program command)) c1 in
      let first := arriving ch (sent_since c1 c2) in
      match r with
      | Err _ => (fst (client command (Some (Ok ())) first true), c2)
      | Ok _ =>
          let acts := snd (loop command first) in
          let c3 := client_requests ch acts c2 in
          let rest := arriving ch (tasks_since c1 c3) in
          let '(r, log) := client command (Some (Ok ())) (first ++ rest) false in
          (r, client_requests ch (drop (length acts) log) c3)
      end
  end.

(** ** The specification *)

Definition rejected : Error :=
  Error_channel_kind ChannelRequest "remote exec request was rejected".

(** The pieces the standard input arrives in. *)
Definition stdin_chunks (command : RemoteCommand) : list (list byte) :=
  match stdin command with [] => [] | d => packets d end.

(** The contexts the callbacks are given. *)
Definition exec_ctx (ch : Z) (u : Username) (command : RemoteCommand) (h : Handler) :
    ExecContext :=
  {| ex_session_id := hd_session_id h; ex_username := u; ex_peer_addr := hd_peer_addr h;
     ex_channel_id := ch; ex_command := {| command_bytes := as_bytes (program command) |};
     ex_env := env_of ch h |}.
Definition stream_ctx (ch : Z) (u : Username) (command : RemoteCommand) (k : nat) (h : Handler) :
    StreamingExecContext :=
  {| sc_session_id := hd_session_id h; sc_username := u; sc_peer_addr := hd_peer_addr h;
     sc_channel_id := ch; sc_command := {| command_bytes := as_bytes (program command) |};
     sc_env := env_of ch h; sc_stdin := k |}.

(** The streaming routes come first, then the buffered ones; no route, a response that
    rejects and a callback that fails are refusals. *)
Definition command_spec (ch : Z) (u : Username) (command : RemoteCommand) (c : Conn) :
    Result CommandOutput * A :=
  match route (exec_routes_streaming exec_calls) (fallback_streaming_exec exec_calls)
          (Some (program command)) with
  | Some f =>
      (Ok (run_output (f (stream_ctx ch u command (cn_fresh c) (cn_handler c))
                         (stdin_chunks command))), cn_app c)
  | None =>
      match route (exec_routes exec_calls) (fallback_exec exec_calls) (Some (program command)) with
      | None => (Err rejected, cn_app c)
      | Some f =>
          let '(r, a) := f (exec_ctx ch u command (cn_handler c)) (cn_app c) in
          (match r with
           | Ok r => if er_accepted r
                     then Ok {| co_exit := er_exit r; co_stdout := er_stdout r;
                                co_stderr := er_stderr r |}
                     else Err rejected
           | Err _ => Err rejected
           end, a)
      end
  end.

(** The limits of the command hold for what it comes to. *)
Definition within_limits (command : RemoteCommand) (r : Result CommandOutput) : Prop :=
  match r with
  | Ok out => bytes_len (co_stdout out) ≤ limit_stdout (limits command) ∧
              bytes_len (co_stderr out) ≤ limit_stderr (limits command)
  | Err _ => True
  end.

(** ** The client's part *)

Lemma client_refused command ch is_closed :
  client command (Some (Ok ())) (arriving ch [OpFailure ch]) is_closed
  = (Err rejected, [SendClose]) ∧
  snd (loop command (arriving ch [OpFailure ch])) = [SendClose].
Proof. unfold arriving, on_channel. cbn. by rewrite Z.eqb_refl. Qed.

Lemma arriving_app ch v w : arriving ch (v ++ w) = arriving ch v ++ arriving ch w.
Proof. unfold arriving. by rewrite on_channel_app, map_app, concat_app. Qed.

(** Cutting data into pieces loses nothing of what the client makes of it. *)
Section Pieces.
Context (packets_concat : ∀ d, concat (packets d) = d).
Abbreviation cut l := (concat (map pieces l)).

(** A predicate that does not look at data. *)
Lemma existsb_cut (p : CommandMsg → bool) l :
  (∀ d, p (CData d) = false) → (∀ d, p (CExtendedData d) = false) →
  existsb p (cut l) = existsb p l.
Proof.
  intros H1 H2. assert (Hn : ∀ (f : list byte → CommandMsg) L, (∀ d, p (f d) = false) →
    existsb p (map f L) = false).
  { intros f L Hf. induction L as [|d L IH]; [done|]. cbn. by rewrite Hf. }
  induction l as [|m l IH]; [done|]. cbn [map concat existsb]. rewrite existsb_app, IH. f_equal.
  destruct m; cbn; rewrite ?orb_false_r; try done; by rewrite Hn, ?H1, ?H2.
Qed.

Lemma before_close_cut l : before_close (cut l) = cut (before_close l).
Proof.
  assert (Hd : ∀ (f : list byte → CommandMsg) L r, (∀ d r, before_close (f d :: r) = f d :: before_close r) →
    before_close (map f L ++ r) = map f L ++ before_close r).
  { intros f L r Hf. induction L as [|d L IH]; [done|]. cbn [map Datatypes.app]. by rewrite Hf, IH. }
  induction l as [|m l IH]; [done|]. cbn [map concat].
  destruct m; cbn [pieces before_close map concat Datatypes.app]; try (by rewrite IH); try done;
    by rewrite Hd, IH.
Qed.

Lemma stdout_cut l : stdout_of (cut l) = stdout_of l.
Proof.
  unfold stdout_of. induction l as [|m l IH]; [done|]. cbn [map concat].
  rewrite map_app, concat_app, IH. f_equal. destruct m as [| |d|d| | | | |]; cbn; try done.
  - rewrite map_map, map_id. apply packets_concat.
  - rewrite map_map. by induction (packets d).
Qed.

Lemma stderr_cut l : stderr_of (cut l) = stderr_of l.
Proof.
  unfold stderr_of. induction l as [|m l IH]; [done|]. cbn [map concat].
  rewrite map_app, concat_app, IH. f_equal. destruct m as [| |d|d| | | | |]; cbn; try done.
  - rewrite map_map. by induction (packets d).
  - rewrite map_map, map_id. apply packets_concat.
Qed.

Lemma exit_cut l : exit_of (cut l) = exit_of l.
Proof.
  assert (Hd : ∀ (f : list byte → CommandMsg) L r, (∀ d r, exit_of (f d :: r) = exit_of r) →
    exit_of (map f L ++ r) = exit_of r).
  { intros f L r Hf. induction L as [|d L IH]; [done|]. cbn [map Datatypes.app]. by rewrite Hf. }
  induction l as [|m l IH]; [done|]. cbn [map concat].
  destruct m; cbn [pieces exit_of Datatypes.app]; try (by rewrite IH); try done; by rewrite Hd.
Qed.

(** A command confirmed, answered and closed, as it arrives. *)
Lemma client_whole command msgs :
  seen_whole msgs → within_limits command (Ok (output_of msgs)) →
  client command (Some (Ok ())) (cut msgs) false
  = (Ok (output_of msgs), stdin_actions command ++ [SendClose]) ∧
  snd (loop command (cut msgs)) = stdin_actions command.
Proof.
  intros (H1 & H2 & H3) [Ho He].
  assert (Hout : output_of (cut msgs) = output_of msgs).
  { unfold output_of. by rewrite before_close_cut, exit_cut, stdout_cut, stderr_cut. }
  rewrite <-Hout. apply command_whole; rewrite ?Hout; try done.
  unfold seen_whole. by rewrite before_close_cut, !existsb_cut.
Qed.
End Pieces.

Lemma sent_since_app c c' l : cn_net c' = cn_net c ++ l → sent_since c c' = l.
Proof. unfold sent_since. intros ->. by rewrite drop_app_length. Qed.

(** ** The server's part *)

Definition with_handler (f : Handler → Handler) (c : Conn) : Conn :=
  {| cn_handler := f (cn_handler c); cn_app := cn_app c; cn_net := cn_net c;
     cn_spawned := cn_spawned c; cn_stdin := cn_stdin c; cn_fresh := cn_fresh c |}.

Lemma open_accepted c u :
  hd_username (cn_handler c) = Some u →
  hd_open_sessions (cn_handler c) < sc_max_sessions (r_config runtime) →
  channel_open_session runtime c
  = (Ok true, with_handler (set_open_sessions (hd_open_sessions (cn_handler c) + 1)) c).
Proof.
  intros Hu Hn. unfold channel_open_session, mbind, srv_bind, handler_of, modify, mret, srv_ret.
  rewrite Hu, bool_decide_true by by eexists. by rewrite (proj2 (Z.leb_gt _ _)).
Qed.

Abbreviation streaming_route command :=
  (route (exec_routes_streaming exec_calls) (fallback_streaming_exec exec_calls)
     (Some (program command))).
Abbreviation buffered_route command :=
  (route (exec_routes exec_calls) (fallback_exec exec_calls) (Some (program command))).

Lemma program_text command :
  is_str (program command) →
  (if utf8_valid (as_bytes (program command)) then Some (of_bytes (as_bytes (program command)))
   else None) = Some (program command).
Proof. intros Hs. unfold is_str in Hs. by rewrite Hs, of_as_bytes. Qed.

(** The state after the exec request of a streaming route. *)
Definition stream_started (ch : Z) (u : Username) (command : RemoteCommand) f (c : Conn) : Conn :=
  {| cn_handler := set_stdin_txs (<[ch := cn_fresh c]> (hd_stdin_txs (cn_handler c))) (cn_handler c);
     cn_app := cn_app c; cn_net := cn_net c ++ [OpSuccess ch];
     cn_spawned := cn_spawned c
                   ++ [SpStream ch (stream_ctx ch u command (cn_fresh c) (cn_handler c)) f];
     cn_stdin := <[cn_fresh c := []]> (cn_stdin c); cn_fresh := S (cn_fresh c) |}.

Lemma exec_streaming ch u command f c :
  is_str (program command) → hd_username (cn_handler c) = Some u →
  streaming_route command = Some f →
  exec_request runtime log_op ch (as_bytes (program command)) c
  = (Ok (), stream_started ch u command f c).
Proof.
  intros Hs Hu Hf. unfold exec_request, run_streaming_exec, new_queue, modify, op, log_op, spawn,
    mbind, srv_bind, handler_of, calls. rewrite Hu, program_text, Hf by done. done.
Qed.

Definition plain (ch : Z) (c : Conn) : Prop :=
  match hd_sftp (cn_handler c) with Some rt => is_sftp_channel ch rt = false | None => True end.

Lemma data_plain ch d c :
  plain ch c →
  data runtime log_op ch d c
  = match hd_stdin_txs (cn_handler c) !! ch with
    | Some k => queue_send k d c
    | None => (Ok (), c)
    end.
Proof.
  unfold plain, data, mbind, srv_bind, handler_of. intros Hs.
  destruct (hd_sftp (cn_handler c)) as [rt|]; [destruct (sftp_handler _); [rewrite Hs|]|];
    by destruct (hd_stdin_txs (cn_handler c) !! ch).
Qed.

(** Pieces go to the queue the channel feeds, in order; without one they are dropped. *)
Lemma pieces_queued ch k l c q :
  plain ch c → hd_stdin_txs (cn_handler c) !! ch = Some k → cn_stdin c !! k = Some q →
  let c' := fold_left (λ c p, snd (data runtime log_op ch p c)) l c in
  cn_stdin c' !! k = Some (q ++ l) ∧ cn_spawned c' = cn_spawned c ∧ cn_app c' = cn_app c ∧
  cn_handler c' = cn_handler c.
Proof.
  cbv zeta. revert c q. induction l as [|p l IH]; intros c q Hp Hk Hq; cbn [fold_left].
  { by rewrite app_nil_r. }
  set (c1 := snd (queue_send k p c)).
  assert (E : snd (data runtime log_op ch p c) = c1) by by rewrite data_plain, Hk.
  rewrite E. destruct (IH c1 (q ++ [p])) as (-> & -> & -> & ->); [done|done| |].
  - unfold c1, queue_send. cbn. rewrite Hq. apply lookup_insert_eq.
  - by rewrite <-app_assoc.
Qed.

Lemma pieces_dropped ch l c :
  plain ch c → hd_stdin_txs (cn_handler c) !! ch = None →
  fold_left (λ c p, snd (data runtime log_op ch p c)) l c = c.
Proof.
  intros Hp Hk. induction l as [|p l IH]; [done|]. cbn [fold_left]. by rewrite data_plain, Hk.
Qed.

(** The client's input arrives in the queue of the handler, and ends. *)
Lemma stdin_arrives ch u command f c :
  plain ch c →
  let c' := client_requests ch (stdin_actions command) (stream_started ch u command f c) in
  cn_stdin c' !! cn_fresh c = Some (stdin_chunks command) ∧
  hd_stdin_txs (cn_handler c') !! ch = None ∧
  cn_spawned c' = cn_spawned (stream_started ch u command f c) ∧ cn_app c' = cn_app c ∧
  login c' = login c.
Proof.
  intros Hs. cbv zeta. unfold client_requests, stdin_actions, stdin_chunks.
  set (c1 := stream_started ch u command f c).
  assert (Hgo : ∀ (c2 : Conn) l, cn_stdin c2 !! cn_fresh c = Some l → cn_spawned c2 = cn_spawned c1 →
    cn_app c2 = cn_app c1 → cn_handler c2 = cn_handler c1 →
    let c3 := snd (channel_eof ch c2) in
    cn_stdin c3 !! cn_fresh c = Some l ∧ hd_stdin_txs (cn_handler c3) !! ch = None ∧
    cn_spawned c3 = cn_spawned c1 ∧ cn_app c3 = cn_app c ∧ login c3 = login c).
  { intros c2 l H1 H2 H3 H4. unfold channel_eof, modify, login. cbn. rewrite H2, H3, H4.
    split_and!; try done. apply lookup_delete_eq. }
  assert (Hq : cn_stdin c1 !! cn_fresh c = Some []) by apply lookup_insert_eq.
  destruct (stdin command) as [|b l]; cbn [fold_left client_request]; [by apply Hgo|].
  destruct (pieces_queued ch (cn_fresh c) (packets (b :: l)) c1 [] Hs)
    as (H1 & H2 & H3 & H4); [apply lookup_insert_eq|done|]. by apply Hgo.
Qed.

Definition pushed (l : list SessionOp) (c : Conn) : Conn :=
  {| cn_handler := cn_handler c; cn_app := cn_app c; cn_net := cn_net c ++ l;
     cn_spawned := cn_spawned c; cn_stdin := cn_stdin c; cn_fresh := cn_fresh c |}.

Lemma send_exec_response_pushed ch r (c : Conn) :
  send_exec_response log_op ch r c
  = (Ok (), pushed (exec_ops ch (response_cmds r) (er_exit r)) c).
Proof.
  unfold send_exec_response, op, log_op, mbind, srv_bind, mret, srv_ret, exec_ops, response_cmds,
    pushed.
  destruct (er_stdout r), (er_stderr r), (er_exit r); cbn; by rewrite <-?app_assoc.
Qed.

(** The state after a buffered route was called. *)
Lemma exec_buffered ch u command f c r a' :
  is_str (program command) → hd_username (cn_handler c) = Some u →
  streaming_route command = None → buffered_route command = Some f →
  f (exec_ctx ch u command (cn_handler c)) (cn_app c) = (r, a') →
  ∃ c' l, exec_request runtime log_op ch (as_bytes (program command)) c
          = (match r with Err e => Err (ErrHighLevel e) | Ok _ => Ok () end, c') ∧
    cn_net c' = cn_net c ++ l ∧ cn_app c' = a' ∧ cn_handler c' = cn_handler c ∧
    cn_spawned c' = cn_spawned c ∧
    l = match r with
        | Ok r => if er_accepted r then exec_ops ch (response_cmds r) (er_exit r) else [OpFailure ch]
        | Err _ => [OpFailure ch]
        end.
Proof.
  intros Hs Hu H1 H2 Hf.
  unfold exec_request, exec_context, call_app, mbind, srv_bind, handler_of, calls.
  rewrite Hu, program_text, H1 by done. cbn [result_bind ok_or]. unfold ExecCommand_as_str.
  cbn [ex_command command_bytes]. rewrite program_text, H2 by done.
  fold (exec_ctx ch u command (cn_handler c)). rewrite Hf.
  destruct r as [r|e]; [destruct (er_accepted r) eqn:Er|].
  - rewrite send_exec_response_pushed. by eexists _, _.
  - unfold op, log_op. cbn. by eexists _, _.
  - unfold op, log_op, throw. cbn. by eexists _, _.
Qed.

Lemma exec_unrouted ch u command c :
  is_str (program command) → hd_username (cn_handler c) = Some u →
  streaming_route command = None → buffered_route command = None →
  ∃ c', exec_request runtime log_op ch (as_bytes (program command)) c = (Ok (), c') ∧
    cn_net c' = cn_net c ++ [OpFailure ch] ∧ cn_app c' = cn_app c ∧
    cn_handler c' = cn_handler c ∧ cn_spawned c' = cn_spawned c.
Proof.
  intros Hs Hu H1 H2.
  unfold exec_request, exec_context, call_app, mbind, srv_bind, handler_of, calls.
  rewrite Hu, program_text, H1 by done. cbn [result_bind ok_or]. unfold ExecCommand_as_str.
  cbn [ex_command command_bytes]. rewrite program_text, H2 by done.
  unfold op, log_op. cbn. by eexists.
Qed.

(** ** Together *)

(** What the client sees of the task of a streaming handler, and of a buffered response. *)
Lemma seen_streaming ch run :
  (∀ n, signal_to_name (parse_sig n) = n) →
  let msgs := on_channel parse_sig ch ([OpSuccess ch] ++ stream_ops ch run) in
  seen_whole msgs ∧ output_of msgs = run_output run.
Proof.
  intros Hsig. cbv zeta.
  assert (Hsent : [OpSuccess ch] ++ stream_ops ch run
                  = exec_ops ch (before_exit (run_cmds run)) (co_exit (run_output run)))
    by by rewrite stream_ops_spec.
  rewrite Hsent, on_channel_all, <-(app_nil_r (map _ _)) by apply exec_ops_on_channel.
  apply seen_exec_ops; [done|apply before_exit_none].
Qed.

Lemma seen_buffered ch r :
  (∀ n, signal_to_name (parse_sig n) = n) →
  let msgs := on_channel parse_sig ch (exec_ops ch (response_cmds r) (er_exit r)) in
  seen_whole msgs ∧
  output_of msgs = {| co_exit := er_exit r; co_stdout := er_stdout r; co_stderr := er_stderr r |}.
Proof.
  intros Hsig. cbv zeta. destruct (response_cmds_spec r) as (R1 & R2 & R3).
  rewrite <-R2, <-R3, on_channel_all, <-(app_nil_r (map _ _)) by apply exec_ops_on_channel.
  by apply seen_exec_ops.
Qed.

Lemma tasks_since_none c c' : cn_spawned c' = cn_spawned c → tasks_since c c' = [].
Proof. unfold tasks_since. intros ->. by rewrite drop_all. Qed.

(** Without a queue the client's actions change nothing but the end of the channel. *)
Lemma stdin_ignored ch command c :
  hd_stdin_txs (cn_handler c) !! ch = None → plain ch c →
  cn_spawned (client_requests ch (stdin_actions command) c) = cn_spawned c ∧
  cn_app (client_requests ch (stdin_actions command) c) = cn_app c ∧
  login (client_requests ch (stdin_actions command) c) = login c.
Proof.
  intros Hn Hs. unfold client_requests, stdin_actions.
  destruct (stdin command); cbn [fold_left client_request]; [done|].
  by rewrite (pieces_dropped ch _ c Hs Hn).
Qed.

Lemma closed_login ch c :
  1 ≤ hd_open_sessions (cn_handler c) →
  login (client_requests ch [SendClose] c)
  = (hd_username (cn_handler c), hd_open_sessions (cn_handler c) - 1) ∧
  cn_app (client_requests ch [SendClose] c) = cn_app c.
Proof.
  intros Hn. split; [|done].
  trans (hd_username (cn_handler c), Z.max 0 (hd_open_sessions (cn_handler c) - 1)); [done|].
  by rewrite Z.max_r by lia.
Qed.

Section Served.
Context (ch : Z) (command : RemoteCommand) (c : Conn) (u : Username).
Context (parse_sig_name : ∀ n, signal_to_name (parse_sig n) = n)
        (packets_concat : ∀ d, concat (packets d) = d)
        (Hstr : is_str (program command)) (Hu : hd_username (cn_handler c) = Some u)
        (Hroom : 0 ≤ hd_open_sessions (cn_handler c) < sc_max_sessions (r_config runtime))
        (Htx : hd_stdin_txs (cn_handler c) !! ch = None) (Hsftp : plain ch c).

(** The connection with the channel open. *)
Definition opened : Conn :=
  with_handler (set_open_sessions (hd_open_sessions (cn_handler c) + 1)) c.

Definition served (r : Result CommandOutput) (a : A) : Prop :=
  fst (stack_command ch command c) = r ∧ cn_app (snd (stack_command ch command c)) = a ∧
  (is_ok r = true → login (snd (stack_command ch command c)) = login c).

(** The last step: the state before the close, and what the client returns. *)
Lemma served_intro c2 c3 r first rest acts :
  exec_request runtime log_op ch (as_bytes (program command)) opened = (Ok (), c2) →
  arriving ch (sent_since opened c2) = first →
  snd (loop command first) = acts →
  client_requests ch acts c2 = c3 →
  arriving ch (tasks_since opened c3) = rest →
  login c3 = login opened →
  client command (Some (Ok ())) (first ++ rest) false = (r, acts ++ [SendClose]) →
  served r (cn_app c3).
Proof.
  intros He Hf Ha H3 Ht Hl Hr. unfold served, stack_command.
  rewrite (open_accepted c u Hu (proj2 Hroom)). fold opened. rewrite He, Hf, Ha, H3, Ht, Hr.
  rewrite drop_app_length. cbn [fst snd]. split; [done|]. split; [done|]. intros _.
  unfold login in Hl. injection Hl as H1 H2. cbn in H1, H2.
  destruct (closed_login ch c3 ltac:(lia)) as [-> _]. unfold login. f_equal; [congruence|lia].
Qed.

(** The state after the reply, and what the task sends. *)
Lemma served_streaming f :
  streaming_route command = Some f →
  let run := f (stream_ctx ch u command (cn_fresh c) (cn_handler c)) (stdin_chunks command) in
  within_limits command (Ok (run_output run)) → served (Ok (run_output run)) (cn_app c).
Proof.
  intros Hf run Hlim.
  destruct (stdin_arrives ch u command f opened Hsftp) as (H1 & Hend & H2 & H3 & H4).
  cbv zeta in *. set (c2 := stream_started ch u command f opened) in *.
  set (c3 := client_requests ch (stdin_actions command) c2) in *.
  replace (cn_app c) with (cn_app c3) by by rewrite H3.
  assert (Hone : arriving ch [OpSuccess ch] = [CSuccess])
    by (unfold arriving, on_channel; cbn; by rewrite Z.eqb_refl).
  assert (Htasks : tasks_since opened c3 = stream_ops ch run).
  { unfold tasks_since. rewrite H2. cbn [cn_spawned c2 stream_started].
    rewrite drop_app_length. cbn [map concat task_ops]. rewrite app_nil_r, Hend.
    change (sc_stdin _) with (cn_fresh opened). by rewrite H1. }
  destruct (seen_streaming ch run) as [Hw Hout]; [done|].
  rewrite <-Hout in Hlim |- *. destruct (client_whole packets_concat command _ Hw Hlim) as [Hc _].
  eapply (served_intro c2 c3 _ [CSuccess] _ (stdin_actions command)).
  - by apply exec_streaming.
  - by rewrite (sent_since_app opened c2 [OpSuccess ch] eq_refl).
  - cbn [command_loop on_message]. rewrite on_success_ok. cbn. apply app_nil_r.
  - done.
  - by rewrite Htasks.
  - done.
  - rewrite <-Hone, <-arriving_app. exact Hc.
Qed.

(** No streaming handler runs, and no input is taken. *)
Lemma served_directly c2 l r :
  exec_request runtime log_op ch (as_bytes (program command)) opened = (Ok (), c2) →
  cn_net c2 = cn_net opened ++ l → cn_handler c2 = cn_handler opened →
  cn_spawned c2 = cn_spawned opened →
  client command (Some (Ok ())) (arriving ch l) false
  = (Ok r, stdin_actions command ++ [SendClose]) →
  snd (loop command (arriving ch l)) = stdin_actions command →
  served (Ok r) (cn_app c2).
Proof.
  intros He Hnet Hh Hsp Hr Ha.
  destruct (stdin_ignored ch command c2) as (H1 & H2 & H3); [by rewrite Hh|unfold plain; by rewrite Hh|].
  rewrite <-H2.
  eapply (served_intro c2 _ _ (arriving ch l) [] (stdin_actions command));
    [done|by rewrite (sent_since_app _ _ l)|done|done|..].
  - rewrite tasks_since_none by congruence. done.
  - rewrite H3. unfold login. by rewrite Hh.
  - by rewrite app_nil_r.
Qed.

(** The exec request is refused, and the client closes the channel. *)
Lemma served_refused c2 :
  exec_request runtime log_op ch (as_bytes (program command)) opened = (Ok (), c2) →
  cn_net c2 = cn_net opened ++ [OpFailure ch] → cn_spawned c2 = cn_spawned opened →
  served (Err rejected) (cn_app c2).
Proof.
  intros He Hnet Hsp. destruct (client_refused command ch false) as [Hc Ha].
  unfold served, stack_command. rewrite (open_accepted c u Hu (proj2 Hroom)). fold opened.
  rewrite He, (sent_since_app _ _ _ Hnet), Ha.
  assert (Hn : tasks_since opened (client_requests ch [SendClose] c2) = [])
    by by apply tasks_since_none.
  rewrite Hn, app_nil_r, Hc. by split_and!.
Qed.

Lemma served_buffered f r a' :
  streaming_route command = None → buffered_route command = Some f →
  f (exec_ctx ch u command (cn_handler c)) (cn_app c) = (Ok r, a') →
  let result := if er_accepted r
                then Ok {| co_exit := er_exit r; co_stdout := er_stdout r; co_stderr := er_stderr r |}
                else Err rejected in
  within_limits command result → served result a'.
Proof.
  intros H1 H2 Hf result Hl.
  destruct (exec_buffered ch u command f opened (Ok r) a' Hstr Hu H1 H2 Hf)
    as (c2 & l & He & Hnet & Ha & Hh & Hsp & ->).
  rewrite <-Ha. unfold result in *. destruct (er_accepted r); [|by apply served_refused].
  destruct (seen_buffered ch r) as [Hw Hout]; [done|].
  rewrite <-Hout in Hl |- *. destruct (client_whole packets_concat command _ Hw Hl) as [Hc Hacts].
  by eapply served_directly.
Qed.

Lemma served_failing f e a' :
  streaming_route command = None → buffered_route command = Some f →
  f (exec_ctx ch u command (cn_handler c)) (cn_app c) = (Err e, a') →
  served (Err rejected) a'.
Proof.
  intros H1 H2 Hf.
  destruct (exec_buffered ch u command f opened (Err e) a' Hstr Hu H1 H2 Hf)
    as (c2 & l & He & Hnet & Ha & Hh & Hsp & ->).
  unfold served, stack_command. rewrite (open_accepted c u Hu (proj2 Hroom)). fold opened.
  destruct (client_refused command ch true) as [Hc _].
  rewrite He, (sent_since_app _ _ _ Hnet), Hc. by split_and!.
Qed.

Lemma served_unrouted :
  streaming_route command = None → buffered_route command = None →
  served (Err rejected) (cn_app c).
Proof.
  intros H1 H2. destruct (exec_unrouted ch u command opened Hstr Hu H1 H2)
    as (c2 & He & Hnet & Ha & Hh & Hsp).
  replace (cn_app c) with (cn_app c2) by by rewrite Ha. by apply served_refused.
Qed.

Lemma served_spec :
  within_limits command (fst (command_spec ch u command c)) →
  served (fst (command_spec ch u command c)) (snd (command_spec ch u command c)).
Proof.
  unfold command_spec. destruct (streaming_route command) as [f|] eqn:H1.
  { intros Hl. by apply served_streaming. }
  destruct (buffered_route command) as [f|] eqn:H2; [|intros _; by apply served_unrouted].
  destruct (f _ (cn_app c)) as [[r|e] a'] eqn:Hf; cbn [fst snd].
  - by apply (served_buffered f).
  - intros _. by eapply served_failing.
Qed.
End Served.

Lemma stdin_chunks_concat command :
  (∀ d, concat (packets d) = d) → concat (stdin_chunks command) = stdin command.
Proof. intros Hp. unfold stdin_chunks. destruct (stdin command) eqn:E; [done|]. by rewrite <-E, Hp, E. Qed.

(** C11.  A command given to a session does what the application's callbacks say: with a user
    logged in, room for a session channel, a fresh channel and output within the
    command's limits, the client's [command] returns the output and exit of the streaming
    handler, run on the pieces in which the input the client sends arrives, which together
    are exactly the command's standard input, and on its end; or of the buffered callback;
    or the refusal.  The application has made the steps of that callback and no other; and
    after a command that was run the connection is as it was, logged in and with the
    channel's place free again. *)
Theorem command_served (ch : Z) (command : RemoteCommand) (c : Conn) (u : Username) :
  (∀ n, signal_to_name (parse_sig n) = n) → (∀ d, concat (packets d) = d) →
  is_str (program command) →
  hd_username (cn_handler c) = Some u →
  0 ≤ hd_open_sessions (cn_handler c) < sc_max_sessions (r_config runtime) →
  hd_stdin_txs (cn_handler c) !! ch = None →
  match hd_sftp (cn_handler c) with Some rt => is_sftp_channel ch rt = false | None => True end →
  within_limits command (fst (command_spec ch u command c)) →
  let '(r, c') := stack_command ch command c in
  r = fst (command_spec ch u command c) ∧ cn_app c' = snd (command_spec ch u command c) ∧
  concat (stdin_chunks command) = stdin command ∧
  (is_ok r = true → login c' = login c).
Proof.
  intros Hsig Hpk Hstr Hu Hroom Htx Hsftp Hl.
  destruct (served_spec ch command c u Hsig Hpk Hstr Hu Hroom Htx Hsftp Hl) as (<- & <- & Hlog).
  pose proof (stdin_chunks_concat command Hpk). by destruct (stack_command ch command c).
Qed.
End Stack.

(** Packets of two bytes. *)
Fixpoint pairs (d : list byte) : list (list byte) :=
  match d with
  | [] => []
  | [a] => [[a]]
  | a :: b :: d' => [a; b] :: pairs d'
  end.
Lemma pairs_concat d : concat (pairs d) = d.
Proof.
  assert (H : concat (pairs d) = d ∧ ∀ a, concat (pairs (a :: d)) = a :: d); [|by destruct H].
  induction d as [|b d [IH1 IH2]]; [done|]. split; [done|]. intros a. cbn. by rewrite IH1.
Qed.
