(* ===== verification/SessionCommands.v ===== *)
(** * From connecting to a command's output

    [Client::connect] against a server of this library ([AuthServer]), then commands on the
    session it returns ([Stack]).  Logging in opens no channel, so a new session is ready
    for a command, and the client gets what the application's callbacks say. *)
From S2P Require Import Prelude RustStr Channel CoreError Endpoint Config SftpServer ClientErrors.
From S2P Require Import ClientCommand ClientAuth Tunnel Client ServerTypes ServerBuild.
From S2P Require Import ServerHandler ServerSessions ServerExec ServerRuns AuthServer Stack.

(** The part of a connection that is about its channels. *)
Definition channels_view {A W} (c : Conn A W) : Z * gmap Z nat * option SftpServerRuntime :=
  (hd_open_sessions (cn_handler c), hd_stdin_txs (cn_handler c), hd_sftp (cn_handler c)).

#[export] Instance channels_quiet {A W} : Quiet (@channels_view A W).
Proof. intros c c' H _ _. unfold channels_view. by rewrite H. Qed.

(** No channel has been opened. *)
Definition idle {A W} (c : Conn A W) : Prop := channels_view c = (0, ∅, None).

Section Session.
Context {A PubKey Cert PrivKey L : Type} `{!StrDebug}.
Context (runtime : ServerRuntime A PubKey Cert PrivKey).
Abbreviation Conn := (Conn A (list SessionOp)).
Context (conn : L → Conn) (challenged : L → option string) (public_key : PrivKey → PubKey).
Context (authenticate_password : string → string → L → timed AuthResult * L)
        (authenticate_none : string → L → timed AuthResult * L)
        (authenticate_publickey : string → PrivKey → L → timed AuthResult * L)
        (authenticate_publickey_with :
           string → PubKey → L → option (result string AuthResult) * L)
        (authenticate_openssh_cert : string → PrivKey → Cert → L → timed AuthResult * L)
        (ki_start : string → L → result RusshError KeyboardInteractiveAuthResponse * L)
        (ki_respond :
           list string → L → result RusshError KeyboardInteractiveAuthResponse * L).
Context (russh_text : RusshError → string) (parse_sig : string → Sig)
        (packets : list byte → list (list byte))
        (load_secret_key : string → option string → result string PrivKey)
        (from_openssh : list byte → result string PrivKey)
        (is_encrypted : PrivKey → bool)
        (decrypt : PrivKey → string → result string PrivKey)
        (ssh_auth_sock : option string)
        (connect_agent : string → result string unit)
        (request_identities : result string (list PubKey))
        (rounds : nat)
        (client_connect :
           RusshClientConfig → string → Z → Z → ClientHandler → timed L * ClientHandler)
        (banners : L → list string).

Abbreviation connect :=
  (Client_connect russh_text client_connect authenticate_password authenticate_none
     authenticate_publickey authenticate_publickey_with authenticate_openssh_cert ki_start
     ki_respond load_secret_key from_openssh is_encrypted decrypt ssh_auth_sock connect_agent
     request_identities rounds banners).
Abbreviation Link :=
  (AuthLink runtime conn challenged public_key authenticate_password authenticate_none
     authenticate_publickey authenticate_publickey_with authenticate_openssh_cert ki_start
     ki_respond).

(** ** Logging in opens no channel *)

Lemma decided_keeps_channels {X} (h : option (callback A (AuthContext * X) AuthDecision)) u x :
  keeps (@channels_view A (list SessionOp)) (auth_decided runtime h u x).
Proof.
  unfold auth_decided, accept_user, fire_auth_success, call_or_fail. keeps.
Qed.

Lemma ki_keeps_channels u sub r :
  keeps (@channels_view A (list SessionOp)) (auth_keyboard_interactive runtime u sub r).
Proof.
  unfold auth_keyboard_interactive, accept_user, fire_auth_success, call_or_fail. keeps.
Qed.

Lemma served_idle m w b w' :
  keeps channels_view m → AuthServer.served conn m w b w' → idle (conn w) → idle (conn w').
Proof.
  unfold idle. intros Hm [[-> _]|[-> _]] Hi; [done|]. by rewrite Hm.
Qed.

(** A property of the handle: no channel opened, whoever's challenge is running. *)
Lemma authentication_idle (link : Link) config certs w r w' :
  authenticate_configured russh_text authenticate_password authenticate_none
    authenticate_publickey authenticate_publickey_with authenticate_openssh_cert ki_start
    ki_respond load_secret_key from_openssh is_encrypted decrypt ssh_auth_sock connect_agent
    request_identities rounds config certs w = (r, w') →
  idle (conn w) → idle (conn w').
Proof.
  apply (authenticate_configured_kept russh_text _ _ _ _ _ _ _ _ _ _ _ _ _ _ (λ w, idle (conn w)));
    unfold keeps_it; intros *.
  - intros E. eapply served_idle; [|by eapply link_password]. apply decided_keeps_channels.
  - intros E. eapply served_idle; [|by eapply link_none]. by intros c.
  - intros E. eapply served_idle; [|by eapply link_publickey]. apply decided_keeps_channels.
  - intros E. eapply served_idle; [|by eapply link_agent]. apply decided_keeps_channels.
  - intros E. eapply served_idle; [|by eapply link_cert]. apply decided_keeps_channels.
  - intros E. eapply served_idle; [|by eapply link_start]. apply ki_keeps_channels.
  - intros E. destruct (challenged w0) as [u|] eqn:Ec.
    + eapply served_idle; [|by eapply link_respond]. apply ki_keeps_channels.
    + destruct (link_unasked runtime conn challenged public_key _ _ _ _ _ _ _ _ _ _ _ Ec E) as [-> _].
      done.
Qed.

(** ** Commands on a new session *)

(** A new session is logged in and has no channel. *)
Lemma connected_idle (link : Link) (self : Client PrivKey Cert) (counter : Z)
    (s : Session L) (self' : Client PrivKey Cert) (counter' : Z) :
  (∀ cfg host port t h w h', client_connect cfg host port t h = (Some (Ok w), h') →
     idle (conn w)) →
  connect self counter = (Ok s, self', counter') →
  ∃ u w, cc_username (c_config self) = Some u ∧ s_handle s = Some w ∧
    logged_in_with runtime conn public_key load_secret_key from_openssh is_encrypted decrypt
      request_identities (username_text u) (cc_credentials (c_config self))
      (c_cert_credentials self) w ∧
    hd_username (cn_handler (conn w)) = Some u ∧ idle (conn w).
Proof.
  intros Hfresh. unfold Client_connect.
  destruct (client_connect _ _ _ _ _) as [[[w|e]|] h] eqn:Ec; try done.
  destruct (authenticate_configured _ _ _ _ _ _ _ _ _ _ _ _ _ _ _ _ _ _ w)
    as [[[]|e] w'] eqn:Ea; [|done].
  intros [= <- _ _].
  pose proof (authentication_idle link _ _ _ _ _ Ea (Hfresh _ _ _ _ _ _ _ Ec)) as Hidle.
  apply (authenticated_login runtime conn challenged public_key _ _ _ _ _ _ _ _ _ _ _ _ _ _ _ _ link)
    in Ea as (u & Hu & Hl).
  exists u, w'. split_and!; [done|done|done| |done]. destruct u. exact (proj1 Hl).
Qed.

(** It is ready for commands. *)
Lemma connected_ready (link : Link) (self : Client PrivKey Cert) (counter : Z)
    (s : Session L) (self' : Client PrivKey Cert) (counter' : Z) :
  (∀ n, signal_to_name (parse_sig n) = n) → (∀ d, concat (packets d) = d) →
  (∀ cfg host port t h w h', client_connect cfg host port t h = (Some (Ok w), h') →
     idle (conn w)) →
  0 < sc_max_sessions (r_config runtime) →
  connect self counter = (Ok s, self', counter') →
  ∃ u w, cc_username (c_config self) = Some u ∧ s_handle s = Some w ∧
    logged_in_with runtime conn public_key load_secret_key from_openssh is_encrypted decrypt
      request_identities (username_text u) (cc_credentials (c_config self))
      (c_cert_credentials self) w ∧
    ∀ ch command, is_str (program command) →
      within_limits command (fst (command_spec runtime packets ch u command (conn w))) →
      fst (stack_command runtime parse_sig russh_text packets ch command (conn w))
      = fst (command_spec runtime packets ch u command (conn w)) ∧
      cn_app (snd (stack_command runtime parse_sig russh_text packets ch command (conn w)))
      = snd (command_spec runtime packets ch u command (conn w)).
Proof.
  intros Hsig Hpk Hfresh Hmax E.
  destruct (connected_idle link _ _ _ _ _ Hfresh E) as (u & w & Hu & Hs & Hl & Hl' & Hidle).
  exists u, w. split_and!; [done|done|done|]. intros ch command Hstr Hlim.
  unfold idle, channels_view in Hidle. injection Hidle as H1 H2 H3.
  destruct (served_spec runtime parse_sig russh_text packets ch command (conn w) u Hsig Hpk Hstr Hl')
    as (-> & -> & _); unfold plain; rewrite ?H1, ?H2, ?H3; done || lia.
Qed.

(** C10.  A session of [Client::connect] runs commands: against a server of this library that
    takes sessions, the connection is logged in as the configured user, and on a channel
    of its own any command given to the new session, its output within its limits, returns
    what the application's callback for it says, run for that user; a streaming callback is
    run on what the client sends it, which is the command's standard input, in the pieces
    it arrives in, up to its end. *)
Theorem session_runs_commands (link : Link) (self : Client PrivKey Cert) (counter : Z)
    (s : Session L) (self' : Client PrivKey Cert) (counter' : Z) :
  (∀ n, signal_to_name (parse_sig n) = n) → (∀ d, concat (packets d) = d) →
  (∀ cfg host port t h w h', client_connect cfg host port t h = (Some (Ok w), h') →
     idle (conn w)) →
  0 < sc_max_sessions (r_config runtime) →
  connect self counter = (Ok s, self', counter') →
  ∃ u w, cc_username (c_config self) = Some u ∧ s_handle s = Some w ∧
    hd_username (cn_handler (conn w)) = Some u ∧
    ∀ ch command, is_str (program command) →
      within_limits command (fst (command_spec runtime packets ch u command (conn w))) →
      fst (stack_command runtime parse_sig russh_text packets ch command (conn w))
      = fst (command_spec runtime packets ch u command (conn w)) ∧
      cn_app (snd (stack_command runtime parse_sig russh_text packets ch command (conn w)))
      = snd (command_spec runtime packets ch u command (conn w)) ∧
      concat (stdin_chunks packets command) = stdin command.
Proof.
  intros Hsig Hpk Hfresh Hmax E.
  destruct (connected_ready link self counter s self' counter' Hsig Hpk Hfresh Hmax E)
    as (u & w & Hu & Hs & [Hl _] & Hrun).
  exists u, w. split_and!; [done|done|by destruct u|]. intros ch command Hstr Hlim.
  destruct (Hrun ch command Hstr Hlim) as [-> ->]. split_and!; [done|done|].
  by apply stdin_chunks_concat.
Qed.
End Session.

(** ** Concrete runs *)

Section Runs.
#[local] Instance commands_debug : StrDebug := λ s, s.

Definition ready : AppConn := snd (auth_password app_runtime "bob" "secret" start).
Definition tail_command : RemoteCommand := with_stdin (RemoteCommand_new "tail") (as_bytes "abc").
Definition tail_output : CommandOutput :=
  {| co_exit := Signal "TERM" false; co_stdout := as_bytes "abc"; co_stderr := as_bytes "!" |}.

(** The input, which arrives in two packets, comes back, and the place of the channel is free again (this server takes one
    session per connection). *)
Lemma command_served_witness :
  fst (stack_command app_runtime CustomSig (λ _, "") pairs 4 tail_command ready) = Ok tail_output ∧
  login (snd (stack_command app_runtime CustomSig (λ _, "") pairs 4 tail_command ready))
  = (Some (Username_new "bob"), 0).
Proof.
  pose proof (command_served app_runtime CustomSig (λ _, "") pairs 4 tail_command ready
    (Username_new "bob")) as H.
  destruct (stack_command app_runtime CustomSig (λ _, "") pairs 4 tail_command ready) as [r c'].
  destruct H as (Hr & _ & _ & Hl);
    [done|exact pairs_concat|done|done|by vm_compute|done|exact I|by vm_compute|].
  assert (E : fst (command_spec app_runtime pairs 4 (Username_new "bob") tail_command ready)
              = Ok tail_output) by by vm_compute.
  rewrite E in Hr. subst r. split; [done|]. by apply Hl.
Defined.

Lemma demo_connect_idle cfg host port t h w h' :
  demo_connect cfg host port t h = (Some (Ok w), h') → idle (dl_conn w).
Proof. by intros [= <- _]. Qed.

(** Connecting with the code, then the two kinds of commands. *)
Lemma session_runs_commands_witness :
  ∃ s w, fst (fst (Client_connect (λ _, "") demo_connect demo_password demo_none demo_publickey
      demo_agent demo_cert demo_start demo_respond (λ _ _, Err "") (λ _, Err "") (λ _, false)
      (λ _ _, Err "") None (λ _, Err "") (Err "") 1 (λ _, [])
      (ClientBuilder_build (fold_left builder_call code_ops (Client_builder 0))) 5)) = Ok s ∧
    s_handle s = Some w ∧
    fst (stack_command ki_runtime CustomSig (λ _, "") pairs 4 tail_command (dl_conn w)) = Ok tail_output.
Proof.
  destruct (Client_connect (λ _, "") demo_connect demo_password demo_none demo_publickey
      demo_agent demo_cert demo_start demo_respond (λ _ _, Err "") (λ _, Err "") (λ _, false)
      (λ _ _, Err "") None (λ _, Err "") (Err "") 1 (λ _, [])
      (ClientBuilder_build (fold_left builder_call code_ops (Client_builder 0))) 5)
    as [[[s|e] c'] n] eqn:E; [|by vm_compute in E].
  pose proof E as E1.
  apply (session_runs_commands ki_runtime dl_conn dl_challenged (λ k, k) demo_password demo_none
    demo_publickey demo_agent demo_cert demo_start demo_respond (λ _, "") CustomSig pairs (λ _ _, Err "")
    (λ _, Err "") (λ _, false) (λ _ _, Err "") None (λ _, Err "") (Err "") 1 demo_connect (λ _, [])
    demo_link) in E as (u & w & Hu & Hs & Hw & Hrun);
    [|done|exact pairs_concat|exact demo_connect_idle|by vm_compute].
  exists s, w. split; [done|]. split; [done|].
  vm_compute in E1. injection E1 as <- _ _. injection Hs as <-. injection Hu as <-.
  destruct (Hrun 4 tail_command) as [-> _]; [done|by vm_compute|by vm_compute].
Defined.
End Runs.
