(* ===== verification/SessionFiles.v ===== *)
(** * Files over a session

    [Session::sftp] and the SFTP client's transfers against the connection handler of a
    server of this library: the channel is opened, the subsystem requested, the version
    negotiated, and every request goes through the handler's [data].  The wire this makes is
    shown to simulate [SftpLoopback.loopback], the server's dispatcher alone, so that what is
    proved of the client there holds over the connection, and with [AuthServer] from
    [Client::connect] on. *)
From S2P Require Import Prelude RustStr Channel CoreError Endpoint Config SftpPacket.
From S2P Require Import SftpWire SftpFraming SftpTypes SftpServer SftpClient SftpLoopback.
From S2P Require Import SftpService SftpTransfer SftpFiles SftpTasks SftpConnect SftpSim.
From S2P Require Import ClientErrors ClientCommand ClientAuth Client ServerTypes ServerBuild.
From S2P Require Import ServerHandler ServerSessions ServerExec ServerRuns AuthServer Stack.
From S2P Require Import SessionCommands SftpMemory.

Section Wire.
Context {A PubKey Cert PrivKey : Type} `{!StrDebug} {handler : SftpServerHandler A}.
Context (runtime : ServerRuntime A PubKey Cert PrivKey) (ch : Z).
Abbreviation Conn := (Conn A (list SessionOp)).

(** ** The composition *)

(** A request through the handler, and the response the client's reader is given. *)
Definition conn_exchange (packet : list byte) (id : Z) (c : Conn) : Result SftpResponse * Conn :=
  let '(r, c') := data runtime log_op ch packet c in
  match r, sent_since c c' with
  | Ok _, [OpData _ response] =>
      match deliver response ≫= response_of_packet with
      | None => (Err no_reply, c')
      | Some d =>
          let '(id', r) := response_route d in
          if id' =? id then (r, c') else (Err no_reply, c')
      end
  | _, _ => (Err no_reply, c')
  end.

(** What the client's reader sees of the handler's operations. *)
Definition sftp_message (o : SessionOp) : list SftpTasks.ChannelMsg :=
  if op_channel o =? ch then
    [match o with OpData _ d => MsgData d | OpClose _ => MsgClose | _ => MsgOther end]
  else [].

(** [SftpClientRuntime::connect] against the handler. *)
Definition stack_sftp (refused : BoxError) (c : Conn) : Result Z * Conn :=
  match channel_open_session runtime c with
  | (Ok true, c1) =>
      let c2 := snd (subsystem_request runtime log_op ch "sftp" c1) in
      let c3 := snd (data runtime log_op ch (encode_init 3) c2) in
      (SftpTasks.connect (Ok ()) (Ok ()) (Ok ()) (concat (map sftp_message (sent_since c1 c3))), c3)
  | (_, c1) => (SftpTasks.connect (Err refused) (Ok ()) (Ok ()) [], c1)
  end.

(** ** The handler's wire simulates the dispatcher's *)

(** The connection serves SFTP on [ch] with this runtime and application. *)
Definition sftp_link (w : SftpServerRuntime * A) (c : Conn) : Prop :=
  hd_sftp (cn_handler c) = Some (fst w) ∧ is_sftp_channel ch (fst w) = true ∧
  buffers (fst w) !! ch = Some [] ∧ cn_app c = snd w.

Context (Hsftp : sftp_handler (c_channel (r_calls runtime)) = Some handler).

Lemma data_is_sftp rt (c : Conn) d :
  hd_sftp (cn_handler c) = Some rt → is_sftp_channel ch rt = true →
  data runtime log_op ch d c = sftp_data log_op handler rt ch d c.
Proof.
  intros Hr Hc. unfold data, mbind, srv_bind, handler_of, calls. by rewrite Hr, Hsftp, Hc.
Qed.

(** One packet, answered. *)
Lemma packet_answered packet p rt (c : Conn) response rt' a' :
  deliver packet = Some p → sftp_link (rt, cn_app c) c →
  dispatch_packet p rt (cn_app c) = (Ok response, (rt', a')) →
  data runtime log_op ch packet c
  = (Ok (), {| cn_handler := set_sftp (Some rt') (cn_handler c); cn_app := a';
               cn_net := cn_net c ++ [OpData ch response]; cn_spawned := cn_spawned c;
               cn_stdin := cn_stdin c; cn_fresh := cn_fresh c |}) ∧
  is_sftp_channel ch rt' = true ∧ buffers rt' !! ch = Some [].
Proof.
  intros Hp (Hr & Hc & Hb & _) Hd. cbn [fst] in *.
  destruct (dispatch_keeps_buffers _ _ _ _ _ _ Hd) as [Hb' Hc'].
  split; [|split; [unfold is_sftp_channel in *; by rewrite Hc'|by rewrite Hb']].
  rewrite (data_is_sftp rt) by done. unfold sftp_data, handle_data. rewrite Hb, app_nil_l.
  unfold deliver in Hp.
  destruct (split_packets packet) as [[|p' [|]] [[|]|]]; try done. injection Hp as ->.
  cbv zeta. rewrite insert_id by done.
  replace (with_buffers rt (buffers rt) (channels rt)) with rt by by destruct rt.
  cbn [answer_packets]. rewrite Hd. done.
Qed.

Lemma conn_wire : WireSim (loopback (S := A)) conn_exchange sftp_link.
Proof.
  intros packet id [rt a] c r [rt1 a1] Hl. pose proof Hl as (Hr & Hc & Hb & Ha). cbn in Hr, Hc, Hb, Ha.
  unfold loopback. destruct (deliver packet) as [p|] eqn:Hp; [|done]. cbn [fst snd].
  destruct (dispatch_packet p rt a) as [[response|e] [rt' a']] eqn:Hd; [|done].
  rewrite <-Ha in Hd, Hl.
  destruct (packet_answered packet p rt c response rt' a' Hp Hl Hd) as (Hdata & Hc' & Hb').
  unfold conn_exchange. rewrite Hdata. rewrite (sent_since_app _ _ [OpData ch response]) by done.
  destruct (deliver response ≫= response_of_packet) as [d|]; [|done].
  destruct (response_route d) as [id' r']. destruct (id' =? id); [|done].
  intros [= -> <- <-]. eexists. split; [done|]. by split_and!.
Qed.

(** ** Opening *)

(** The application agrees to a version, and this does not touch its files. *)
Definition agrees `{!FileStore A} : Prop := ∀ a : A, ∃ n a',
  h_init 3 ∅ a = (Ok n, a') ∧ is_u32 n ∧ ∀ q, file_at a' q = file_at a q.

Lemma sftp_opened (refused : BoxError) (c : Conn) u n a' :
  hd_username (cn_handler c) = Some u →
  hd_open_sessions (cn_handler c) < sc_max_sessions (r_config runtime) →
  h_init 3 ∅ (cn_app c) = (Ok n, a') → is_u32 n →
  ∃ rt c', stack_sftp refused c = (Ok 10, c') ∧ sftp_link (rt, a') c' ∧
    hd_username (cn_handler c') = Some u.
Proof.
  intros Hu Hm Hi Hn. unfold stack_sftp. rewrite (open_accepted runtime c u Hu Hm).
  set (c1 := with_handler _ c).
  set (rt := register_channel ch SftpServerRuntime_new).
  assert (Hsub : subsystem_request runtime log_op ch "sftp" c1
    = (Ok (), pushed [OpSuccess ch] (with_handler (set_sftp (Some rt)) c1))).
  { unfold subsystem_request, mbind, srv_bind, handler_of, calls. by rewrite Hsftp. }
  rewrite Hsub. cbn [snd]. set (c2 := pushed _ _).
  destruct (init_answered n rt (cn_app c) a' Hi) as [Hp _].
  pose proof (init_dispatched n rt (cn_app c) a' Hi) as Hd. set (rt' := {| buffers := _ |}) in Hd.
  destruct (packet_answered (encode_init 3) (drop 4 (encode_init 3)) rt c2
    (encode_version_response (Z.max n 3) ∅) rt' a' Hp) as (Hdata & Hc & Hb); [|exact Hd|].
  { split_and!; cbn; [done|by apply bool_decide_true; set_solver|by rewrite lookup_insert_eq|done]. }
  rewrite Hdata. cbn [snd]. set (c3 := {| cn_handler := _ |}).
  assert (Hs : sent_since c1 c3 = [OpSuccess ch; OpData ch (encode_version_response (Z.max n 3) ∅)]).
  { apply sent_since_app. cbn. by rewrite <-app_assoc. }
  assert (Hmsg : concat (map sftp_message (sent_since c1 c3))
                 = [MsgOther; MsgData (encode_version_response (Z.max n 3) ∅)]).
  { rewrite Hs. unfold sftp_message. cbn -[encode_version_response]. by rewrite Z.eqb_refl. }
  rewrite Hmsg.
  exists rt', c3. split; [|by split_and!]. f_equal.
  apply (version_accepted n); [done|by repeat constructor|].
  cbn [map concat msg_bytes]. by rewrite app_nil_r.
Qed.

(** ** Files *)

(** What a client that has opened SFTP can do with the application's files. *)
Lemma files_over_connection `{!FileStore A} (sc : SftpClient) (rt : SftpServerRuntime) (c : Conn)
    (b : bool) (fuel : nat) (p : string) (d : list byte) (id : Z) :
  runtime_open sc = true → is_u32 id → sftp_link (rt, cn_app c) c →
  short p → vec_len d ≤ ISIZE_MAX → (length d < fuel)%nat →
  ∃ k,
    SftpClient_write_all conn_exchange b sc p d {| next_id := id; spawned := []; world := c |}
    = (Ok (), k) ∧
    fst (SftpClient_read_to_vec conn_exchange b fuel sc p k) = SftpClient.Returned (Ok d) ∧
    spawned k = [] ∧
    ∀ q, file_at (cn_app (world k)) q = if decide (q = p) then Some d else file_at (cn_app c) q.
Proof.
  intros Ho Hid Hl Hp Hd Hf.
  set (k1 := {| next_id := id; spawned := []; world := (rt, cn_app c) |}).
  set (k2 := {| next_id := id; spawned := []; world := c |}).
  assert (Hk : crel sftp_link k1 k2) by by split_and!.
  destruct (write_all_store b sc p d k1) as (k1' & Ew & Hid' & Hsp & Hu & _); [done..|].
  destruct (read_to_vec_store b fuel sc p d k1') as (k1'' & Er & _ & _); try done.
  { by apply updated_at in Hu. }
  destruct (sim_write_all _ _ _ (ws := conn_wire) b sc p d _ _ _ _ Hk Ew) as (k & Ek & Hrel).
  exists k. split; [done|]. split.
  { apply (sim_read_to_vec _ _ _ (ws := conn_wire) b fuel sc p _ _ d Hrel). by rewrite Er. }
  destruct Hrel as (_ & Hs & _ & _ & _ & Ha). split; [by rewrite <-Hs|].
  intros q. rewrite Ha. apply Hu.
Qed.
End Wire.

(** ** From connecting on *)

Section Session.
Context {A PubKey Cert PrivKey L : Type} `{!StrDebug} {handler : SftpServerHandler A}
        `{!FileStore A}.
Context (runtime : ServerRuntime A PubKey Cert PrivKey).
Context (conn : L → Conn A (list SessionOp)) (challenged : L → option string)
        (public_key : PrivKey → PubKey).
Context (authenticate_password : string → string → L → timed AuthResult * L)
        (authenticate_none : string → L → timed AuthResult * L)
        (authenticate_publickey : string → PrivKey → L → timed AuthResult * L)
        (authenticate_publickey_with :
           string → PubKey → L → option (result string AuthResult) * L)
        (authenticate_openssh_cert : string → PrivKey → Cert → L → timed AuthResult * L)
        (ki_start : string → L → result RusshError KeyboardInteractiveAuthResponse * L)
        (ki_respond :
           list string → L → result RusshError KeyboardInteractiveAuthResponse * L).
Context (russh_text : RusshError → string)
        (load_secret_key : string → option string → result string PrivKey)
        (from_openssh : list byte → result string PrivKey)
        (is_encrypted : PrivKey → bool)
        (decrypt : PrivKey → string → result string PrivKey)
        (ssh_auth_sock : option string)
        (connect_agent : string → result string unit)
        (request_identities : result string (list PubKey))
        (rounds : nat)
        (client_connect :
           RusshClientConfig → string → Z → Z → ClientHandler → timed L * ClientHandler)
        (banners : L → list string).

(** C9.  A session of [Client::connect] transfers files: against a server of this library that
    serves SFTP from a file store, opening SFTP on a new session succeeds, and a file written
    with [write_all] is in the store, alone of all files changed, and comes back byte for
    byte from [read_to_vec]; every byte went through the handler of the logged-in
    connection. *)
Theorem session_transfers_files
    (link : AuthLink runtime conn challenged public_key authenticate_password authenticate_none
       authenticate_publickey authenticate_publickey_with authenticate_openssh_cert ki_start
       ki_respond)
    (self : Client.Client PrivKey Cert) (counter : Z) (s : Session L)
    (self' : Client.Client PrivKey Cert) (counter' : Z) (ch : Z) (refused : BoxError) :
  sftp_handler (c_channel (r_calls runtime)) = Some handler → agrees →
  (∀ cfg host port t h w h', client_connect cfg host port t h = (Some (Ok w), h') →
     idle (conn w)) →
  0 < sc_max_sessions (r_config runtime) →
  Client_connect russh_text client_connect authenticate_password authenticate_none
     authenticate_publickey authenticate_publickey_with authenticate_openssh_cert ki_start
     ki_respond load_secret_key from_openssh is_encrypted decrypt ssh_auth_sock connect_agent
     request_identities rounds banners self counter = (Ok s, self', counter') →
  ∃ u w c, cc_username (c_config self) = Some u ∧ s_handle s = Some w ∧
    stack_sftp runtime ch refused (conn w) = (Ok 10, c) ∧
    hd_username (cn_handler c) = Some u ∧
    ∀ b fuel p d, short p → vec_len d ≤ ISIZE_MAX → (length d < fuel)%nat →
      let sc := {| runtime_open := true; session_id := s_id s |} in
      ∃ k,
        SftpClient_write_all (conn_exchange runtime ch) b sc p d
          {| next_id := 10; spawned := []; world := c |} = (Ok (), k) ∧
        fst (SftpClient_read_to_vec (conn_exchange runtime ch) b fuel sc p k)
        = SftpClient.Returned (Ok d) ∧
        spawned k = [] ∧
        ∀ q, file_at (cn_app (world k)) q
             = if decide (q = p) then Some d else file_at (cn_app (conn w)) q.
Proof.
  intros Hsftp Hagree Hidle Hmax E.
  destruct (connected_idle runtime conn challenged public_key _ _ _ _ _ _ _ _ _ _ _ _ _ _ _ _ _
    _ link _ _ _ _ _ Hidle E) as (u & w & Hu & Hs & _ & Hl & Hi).
  unfold idle, channels_view in Hi. injection Hi as H1 _ _.
  destruct (Hagree (cn_app (conn w))) as (n & a' & Hinit & Hn & Hfiles).
  destruct (sftp_opened runtime ch Hsftp refused (conn w) u n a')
    as (rt & c & Hopen & Hlink & Huser); [done|by rewrite H1|done|done|].
  exists u, w, c. split_and!; try done. intros b fuel p d Hp Hd Hf.
  assert (Ha : cn_app c = a') by apply Hlink. rewrite <-Ha in Hlink.
  destruct (files_over_connection runtime ch Hsftp {| runtime_open := true; session_id := s_id s |}
    rt c b fuel p d 10) as (k & Hw & Hr & Hsp & Hk); [done|done|done|done|done|done|].
  exists k. split_and!; [done|done|done|]. intros q. rewrite Hk. by rewrite Ha, Hfiles.
Qed.
End Session.

(** ** A concrete run *)

Section Runs.
#[local] Instance files_debug : StrDebug := λ s, s.

Definition memory_password : callback Memory (AuthContext * Password) AuthDecision := λ x a,
  (Ok (if String.eqb (expose_secret (snd x)) "secret" then AuthDecision_accept
       else AuthDecision_reject), a).
Definition memory_runtime : ServerRuntime Memory unit unit unit :=
  match build (λ _, Err "") (λ _, false) app_fs
          (builder_sftp_handler
             (builder_password_auth
                (builder_host_key Server_builder (ServerHostKey_from_private_key ()))
                memory_password) mem_handler) with
  | Ok r => r
  | Err _ => {| r_config := ServerConfig_default; r_host_keys := []; r_shutdown_grace := 0;
                r_calls := Callbacks_none |}
  end.
Definition empty_memory : Memory := {| mem_files := {[ "old" := as_bytes "x" ]}; mem_open := ∅ |}.

Abbreviation memory_run :=
  (Client_connect (λ _, "") (wire_connect memory_runtime empty_memory) (wire_password memory_runtime)
     (wire_none (A := Memory)) (wire_publickey memory_runtime) (wire_agent (A := Memory))
     (wire_cert memory_runtime) (wire_start memory_runtime) (wire_respond memory_runtime)
     (λ _ _, Err "") (λ _, Err "") (λ _, false) (λ _ _, Err "") None (λ _, Err "") (Err "") 1
     (λ _, []) (ClientBuilder_build (fold_left builder_call password_ops (Client_builder 0))) 5).

Lemma session_transfers_files_witness :
  ∃ s w c k, fst (fst memory_run) = Ok s ∧ s_handle s = Some w ∧
    stack_sftp memory_runtime 3 "refused" (dl_conn w) = (Ok 10, c) ∧
    fst (SftpClient_read_to_vec (conn_exchange memory_runtime 3) true 10
           {| runtime_open := true; session_id := s_id s |} "new" k)
    = SftpClient.Returned (Ok (as_bytes "hello")) ∧
    file_at (cn_app (world k)) "old" = Some (as_bytes "x").
Proof.
  destruct memory_run as [[[s|e] c'] n] eqn:E; [|by vm_compute in E]. pose proof E as E1.
  apply (session_transfers_files memory_runtime dl_conn dl_challenged (λ k, k) _ _ _ _ _ _ _ _ _ _ _
    _ _ _ _ _ _ _ (wire_link memory_runtime) _ _ _ _ _ 3 "refused")
    in E as (u & w & c & Hu & Hs & Hopen & _ & Hfiles).
  - destruct (Hfiles true 10%nat "new" (as_bytes "hello")) as (k & _ & Hr & _ & Hk);
      [by vm_compute|by vm_compute|by vm_compute; lia|].
    exists s, w, c, k. split_and!; [done|done|done|exact Hr|].
    rewrite Hk. vm_compute in E1. injection E1 as <- _ _. injection Hs as <-. by vm_compute.
  - done.
  - intros a. by exists 3, a.
  - by intros cfg host port t h w h' [= <- _].
  - by vm_compute.
Defined.
End Runs.
