(* ===== verification/ServerRun.v ===== *)
(** * Server: running and streaming handlers ([russh-extra/src/server.rs])

    [Server::run], [run_until] and [run_inner]: binding, the select between the
    accept loop, the shutdown cell and the caller's shutdown future, and the
    result.  The accept loop itself is [russh]'s: when it ends and with what is
    given.  Then the methods of [StreamingExecContext], through which a streaming
    handler reads its input and sends its commands. *)
From S2P Require Import Prelude RustStr Channel CoreError Endpoint Config SftpPacket.
From S2P Require Import SftpWire SftpFraming SftpTypes SftpServer ClientErrors.
From S2P Require Import ClientCommand ServerTypes ServerBuild ServerHandler.

(** ** Running *)

Inductive RunPhase :=
| Accepting
| Stopping
| Finished (r : Result unit).

(** The shutdown cell, whether the caller's future has resolved, the reasons given to
    the accept loop, and the recorded session error. *)
Record RunState := {
  run_cell : option string;
  run_resolved : bool;
  run_reasons : list string;
  run_error : option Error;
  run_phase : RunPhase;
}.

Inductive RunEvent :=
| HandleShutdown (reason : string)   (* a [ServerHandle] requests shutdown *)
| FutureResolves                     (* the caller's shutdown future *)
| SessionFails (e : ServerRuntimeError)
| PollCell                           (* [select!] looks at the shutdown cell *)
| PollFuture                         (* [select!] looks at the future *)
| AcceptEnds (r : result IoError unit).

Definition USER_SHUTDOWN : string := "russh-extra server shutdown requested".

Section Run.
Context (russh_text : RusshError → string).

Definition run_with (s : RunState) (reasons : list string) (phase : RunPhase) : RunState :=
  {| run_cell := run_cell s; run_resolved := run_resolved s; run_reasons := reasons;
     run_error := run_error s; run_phase := phase |}.

(** Once a shutdown branch is taken only the accept loop is awaited.  The runtime holds a
    sender of the shutdown cell, so the cell is not closed while the server runs. *)
Definition run_step (s : RunState) (e : RunEvent) : RunState :=
  match e with
  | HandleShutdown reason =>
      {| run_cell := shutdown reason (run_cell s); run_resolved := run_resolved s;
         run_reasons := run_reasons s; run_error := run_error s; run_phase := run_phase s |}
  | FutureResolves =>
      {| run_cell := run_cell s; run_resolved := true; run_reasons := run_reasons s;
         run_error := run_error s; run_phase := run_phase s |}
  | SessionFails err =>
      match run_phase s with
      | Finished _ => s
      | _ => {| run_cell := run_cell s; run_resolved := run_resolved s;
                run_reasons := run_reasons s;
                run_error := handle_session_error russh_text err (run_error s);
                run_phase := run_phase s |}
      end
  | PollCell =>
      match run_phase s, run_cell s with
      | Accepting, Some reason => run_with s (run_reasons s ++ [reason]) Stopping
      | _, _ => s
      end
  | PollFuture =>
      match run_phase s, run_resolved s with
      | Accepting, true => run_with s (run_reasons s ++ [USER_SHUTDOWN]) Stopping
      | _, _ => s
      end
  | AcceptEnds r =>
      match run_phase s with
      | Finished _ => s
      | _ => run_with s (run_reasons s) (Finished (run_result r (run_error s)))
      end
  end.

(** [run_inner]: [bound] is the result of binding the listener. *)
Definition run_inner (bound : result IoError unit) (cell : option string)
    (events : list RunEvent) : RunState :=
  let start phase := {| run_cell := cell; run_resolved := false; run_reasons := [];
                        run_error := None; run_phase := phase |} in
  match bound with
  | Err e => start (Finished (Err (EIo e)))
  | Ok _ => fold_left run_step events (start Accepting)
  end.

Definition Server_run_until : result IoError unit → option string → list RunEvent → RunState :=
  run_inner.

(** [run] never resolves its future. *)
Definition Server_run (bound : result IoError unit) (cell : option string)
    (events : list RunEvent) : RunState :=
  run_inner bound cell
    (List.filter (λ e, match e with FutureResolves => false | _ => true end) events).

(** ** What running returns *)

(** The errors a session event leaves: a client going away is none. *)
Definition session_error (e : RunEvent) : option Error :=
  match e with SessionFails err => handle_session_error russh_text err None | _ => None end.

Definition is_end (e : RunEvent) : bool := match e with AcceptEnds _ => true | _ => false end.

Lemma record_first e l :
  handle_session_error russh_text e l
  = match l with Some x => Some x | None => handle_session_error russh_text e None end.
Proof. destruct l; [|done]. destruct e as [[]|]; done. Qed.

Lemma run_before_end events s :
  existsb is_end events = false → (∀ r, run_phase s ≠ Finished r) →
  let s' := fold_left run_step events s in
  (∀ r, run_phase s' ≠ Finished r) ∧
  run_error s' = match run_error s with Some e => Some e | None => head (omap session_error events) end.
Proof.
  revert s. induction events as [|e events IH]; intros s He Hs; cbn in *.
  { split; [done|]. by destruct (run_error s). }
  apply orb_false_elim in He as [He1 He2].
  assert (Hs1 : ∀ r, run_phase (run_step s e) ≠ Finished r).
  { intros r. destruct e; cbn in *; repeat case_match; cbn; naive_solver congruence. }
  destruct (IH _ He2 Hs1) as [H1 H2]. split; [done|]. rewrite H2. clear IH H2 Hs1.
  destruct e as [reason| |err| | |r]; cbn in *; try done.
  - destruct (run_phase s) as [| |r]; [| |by destruct (Hs r)]; cbn; rewrite record_first;
      destruct (run_error s); try done; by destruct (handle_session_error russh_text err None).
  - by destruct (run_phase s), (run_cell s).
  - by destruct (run_phase s), (run_resolved s).
Qed.

Lemma finished_stays events s r :
  run_phase s = Finished r → run_phase (fold_left run_step events s) = Finished r.
Proof.
  revert s. induction events as [|e events IH]; intros s Hs; [done|]. cbn. apply IH.
  destruct e; cbn; rewrite ?Hs; done.
Qed.

(** C28.  A server that could bind runs until its accept loop ends, and then returns that
    loop's error, or else the first error of a session while it ran (clients that
    merely went away do not count), or else success; nothing that happens later
    changes it, and the reasons for shutdown do not matter. *)
Theorem run_returns_first_error (cell : option string) (before after : list RunEvent)
    (r : result IoError unit) :
  existsb is_end before = false →
  run_phase (run_inner (Ok ()) cell before) ≠ Finished (Ok ()) ∧
  run_phase (run_inner (Ok ()) cell (before ++ AcceptEnds r :: after))
  = Finished (match r with
              | Err e => Err (EIo e)
              | Ok _ => match head (omap session_error before) with
                        | Some e => Err e
                        | None => Ok ()
                        end
              end).
Proof.
  intros Hb. unfold run_inner. rewrite fold_left_app. cbn [fold_left].
  set (s0 := {| run_cell := cell |}).
  destruct (run_before_end before s0 Hb ltac:(done)) as [H1 H2]. split; [apply H1|].
  apply finished_stays. cbn [run_step]. set (s := fold_left run_step before s0) in *.
  destruct (run_phase s) as [| |r'] eqn:Ep; [| |by destruct (H1 r')]; cbn; rewrite H2; cbn;
    destruct r; try done; by destruct (head _).
Qed.

(** ** Shutdown *)

Definition call_reason (e : RunEvent) : option string :=
  match e with HandleShutdown reason => Some reason | _ => None end.

(** The reasons given to the accept loop, when the first request so far is [first] and
    the caller's future has resolved or not. *)
Definition reasons_wf (first : option string) (s : RunState) : Prop :=
  run_cell s = first ∧
  (run_reasons s = [] ∨
   (run_reasons s = [USER_SHUTDOWN] ∧ run_resolved s = true) ∨
   ∃ reason, first = Some reason ∧ run_reasons s = [reason]) ∧
  (run_phase s = Accepting → run_reasons s = []).

Lemma run_step_reasons first s e :
  reasons_wf first s →
  reasons_wf (match first with Some _ => first | None => call_reason e end) (run_step s e).
Proof.
  intros (Hc & Hr & Ha). unfold reasons_wf.
  destruct e as [reason| |err| | |r]; cbn; rewrite ?Hc; unfold shutdown;
    repeat case_match; cbn in *; try rewrite Ha by done; naive_solver congruence.
Qed.

Lemma run_reasons_wf events s first :
  reasons_wf first s →
  reasons_wf (match first with Some _ => first | None => head (omap call_reason events) end)
    (fold_left run_step events s).
Proof.
  revert s first. induction events as [|e events IH]; intros s first Hs; cbn.
  { by destruct first. }
  specialize (IH _ _ (run_step_reasons first s e Hs)).
  destruct first; [done|]. by destruct (call_reason e).
Qed.

Lemma run_resolved_only events s :
  run_resolved (fold_left run_step events s)
  = run_resolved s || existsb (λ e, match e with FutureResolves => true | _ => false end) events.
Proof.
  revert s. induction events as [|e events IH]; intros s; cbn; [by rewrite orb_false_r|].
  rewrite IH. destruct e; cbn; try done.
  - by rewrite orb_true_r.
  - by destruct (run_phase s).
  - by destruct (run_phase s), (run_cell s).
  - by destruct (run_phase s), (run_resolved s) eqn:E; cbn; rewrite ?E.
  - by destruct (run_phase s).
Qed.

(** The accept loop is told to stop at most once: with the reason of the first request
    through a handle, however many follow, or with the fixed text when the caller's
    future resolved. *)
Theorem shutdown_reason_once (events : list RunEvent) :
  let s := run_inner (Ok ()) None events in
  let first := head (omap call_reason events) in
  run_cell s = first ∧
  (run_reasons s = [] ∨
   (run_reasons s = [USER_SHUTDOWN] ∧ FutureResolves ∈ events) ∨
   ∃ reason, first = Some reason ∧ run_reasons s = [reason]).
Proof.
  cbn. set (s0 := {| run_cell := None |}).
  assert (H0 : reasons_wf None s0) by (split_and!; naive_solver).
  destruct (run_reasons_wf events s0 None H0) as (Hc & Hr & _). split; [done|].
  destruct Hr as [?|[[? Hf]|?]]; [by left| |by right; right]. right; left. split; [done|].
  rewrite run_resolved_only in Hf. cbn in Hf. apply existsb_exists in Hf as (e & He & ?).
  apply list_elem_of_In in He. by destruct e.
Qed.

(** Without the caller's future only a handle can stop the accept loop. *)
Lemma Server_run_stops_by_handle events :
  let s := Server_run (Ok ()) None events in
  run_reasons s = [] ∨ ∃ reason, run_cell s = Some reason ∧ run_reasons s = [reason].
Proof.
  cbn. unfold Server_run, run_inner. set (s0 := {| run_cell := None |}).
  set (l := List.filter _ events).
  assert (H0 : reasons_wf None s0) by (split_and!; naive_solver).
  destruct (run_reasons_wf l s0 None H0) as (Hc & Hr & _). rewrite Hc.
  destruct Hr as [?|[[? Hf]|?]]; [by left| |by right]. exfalso.
  rewrite run_resolved_only in Hf. cbn in Hf. apply existsb_exists in Hf as (e & He & Hx).
  apply filter_In in He as [_ He]. by destruct e.
Qed.
End Run.

(** A session fails after a shutdown was requested; the server still returns its error. *)
Lemma run_returns_first_error_witness :
  run_phase (run_inner (λ _, "text") (Ok ()) None
    ([HandleShutdown "stop"; PollCell; SessionFails (ErrRussh HUP);
      SessionFails (ErrHighLevel (Error_invalid_config "bad"))] ++ [AcceptEnds (Ok ())]))
  = Finished (Err (Error_invalid_config "bad")).
Proof.
  etrans; [apply (run_returns_first_error (λ _, "text") None
    [HandleShutdown "stop"; PollCell; SessionFails (ErrRussh HUP);
     SessionFails (ErrHighLevel (Error_invalid_config "bad"))] [] (Ok ())); reflexivity|reflexivity].
Defined.

(** ** Streaming handlers *)

(** The two ends of the queues a [StreamingExecContext] holds: the input still to be
    read, the commands sent, and whether the task that reads them is alive. *)
Record StreamIo := {
  sx_stdin : list (list byte);
  sx_sent : list StreamingExecCmd;
  sx_open : bool;
}.

(** [None] when the input is exhausted. *)
Definition read_stdin (s : StreamIo) : option (list byte) * StreamIo :=
  match sx_stdin s with
  | [] => (None, s)
  | d :: q => (Some d, {| sx_stdin := q; sx_sent := sx_sent s; sx_open := sx_open s |})
  end.

Definition stream_send (cmd : StreamingExecCmd) (s : StreamIo) : Result unit * StreamIo :=
  if sx_open s then
    (Ok (), {| sx_stdin := sx_stdin s; sx_sent := sx_sent s ++ [cmd]; sx_open := true |})
  else (Err (Error_channel_with_source ChannelClose "exec channel closed" "channel closed"), s).

Definition StreamingExecContext_stdout (data : list byte) : StreamIo → Result unit * StreamIo :=
  stream_send (SxStdout data).
Definition StreamingExecContext_stderr (data : list byte) : StreamIo → Result unit * StreamIo :=
  stream_send (SxStderr data).
Definition StreamingExecContext_exit_status (status : Z) : StreamIo → Result unit * StreamIo :=
  stream_send (SxExited (Status status)).
Definition StreamingExecContext_exit_signal (signal : string) : StreamIo → Result unit * StreamIo :=
  stream_send (SxExited (Signal signal false)).

Lemma pump_after_exit channel cmds e rest b :
  pump channel (cmds ++ SxExited e :: rest) b = pump channel (cmds ++ [SxExited e]) b
  ∨ b = true.
Proof.
  revert b. induction cmds as [|[d|d|e'] cmds IH]; intros b; cbn.
  - destruct b; [by right|by left].
  - destruct (IH b) as [->|]; auto.
  - destruct (IH b) as [->|]; auto.
  - destruct b; [by right|by left].
Qed.

(** Output written after the exit is accepted as long as the task has not read the exit,
    and is never sent. *)
Lemma output_after_exit_lost channel status data s :
  sx_open s = true →
  let '(_, s1) := StreamingExecContext_exit_status status s in
  let '(r, s2) := StreamingExecContext_stdout data s1 in
  r = Ok () ∧ pump channel (sx_sent s2) false = pump channel (sx_sent s1) false.
Proof.
  intros Ho. unfold StreamingExecContext_exit_status, StreamingExecContext_stdout, stream_send.
  rewrite Ho. cbn. split; [done|]. rewrite <-app_assoc.
  by destruct (pump_after_exit channel (sx_sent s) (Status status) [SxStdout data] false).
Qed.
