(* ===== verification/Programs.v ===== *)
(** * Programs: what an example prints and how it ends

    The monad of the [main] functions under [russh-extra/examples]: a state (the files, the
    registries of a session), the text written to the two output streams, and an outcome, in
    which [?] stops with the error and [unwrap] on a failure panics.  Environment variables
    are a function. *)
From S2P Require Import Prelude RustStr.

Definition NL : string := String "010" "".

(** A program panics, has not ended yet (it waits, or its loop was not given the fuel), or
    returns. *)
Inductive Outcome (E A : Type) := Panics | StillRunning | Returns (r : result E A).
Arguments Panics {E A}.
Arguments StillRunning {E A}.
Arguments Returns {E A} r.

Inductive Written := ToStdout (text : string) | ToStderr (text : string).

Definition prog (S E A : Type) : Type := S → Outcome E A * list Written * S.

Section Prog.
Context {S E : Type}.

#[export] Instance prog_ret : MRet (prog S E) := λ A a s, (Returns (Ok a), [], s).
#[export] Instance prog_bind : MBind (prog S E) := λ A B k m s,
  match m s with
  | (Returns (Ok a), out, s) => let '(r, out', s) := k a s in (r, out ++ out', s)
  | (Returns (Err e), out, s) => (Returns (Err e), out, s)
  | (Panics, out, s) => (Panics, out, s)
  | (StillRunning, out, s) => (StillRunning, out, s)
  end.

Definition lift {A} (r : result E A) : prog S E A := λ s, (Returns r, [], s).
Definition panic {A} : prog S E A := λ s, (Panics, [], s).
Definition still_running {A} : prog S E A := λ s, (StillRunning, [], s).
Definition unwrap {A} (o : option A) : prog S E A :=
  match o with Some a => mret a | None => panic end.

(** An operation on the state. *)
Definition on_state {A} (f : S → result E A * S) : prog S E A := λ s,
  let '(r, s) := f s in (Returns r, [], s).

Definition println (text : string) : prog S E unit :=
  λ s, (Returns (Ok ()), [ToStdout (text +:+ NL)], s).
Definition eprint (text : string) : prog S E unit :=
  λ s, (Returns (Ok ()), [ToStderr text], s).
Definition eprintln (text : string) : prog S E unit := eprint (text +:+ NL).

Fixpoint printlns (l : list string) : prog S E unit :=
  match l with
  | [] => mret ()
  | text :: l => println text;; printlns l
  end.

(** ** Laws *)

Lemma prog_bind_ok {A B} (m : prog S E A) (k : A → prog S E B) s a out s' :
  m s = (Returns (Ok a), out, s') →
  (m ≫= k) s = let '(r, out', s'') := k a s' in (r, out ++ out', s'').
Proof. intros Hm. unfold mbind, prog_bind. by rewrite Hm. Qed.

Lemma prog_lift_ok {A B} (a : A) (k : A → prog S E B) s : (lift (Ok a) ≫= k) s = k a s.
Proof. unfold lift, mbind, prog_bind. by destruct (k a s) as [[]]. Qed.

Lemma printlns_all l (k : prog S E unit) s :
  (printlns l;; k) s
  = let '(r, out, s') := k s in (r, map (λ t, ToStdout (t +:+ NL)) l ++ out, s').
Proof.
  assert (Hp : printlns l s = (Returns (Ok ()), map (λ t, ToStdout (t +:+ NL)) l, s)).
  { revert s. induction l as [|t l IH]; intros s; [done|].
    cbn [printlns]. unfold mbind, prog_bind. cbn. by rewrite IH. }
  by rewrite (prog_bind_ok _ _ _ _ _ _ Hp).
Qed.

(** A program that returned went through each of its steps. *)
Lemma prog_bind_returns {A B} (m : prog S E A) (k : A → prog S E B) s b out s' :
  (m ≫= k) s = (Returns (Ok b), out, s') →
  ∃ a out1 s1 out2, m s = (Returns (Ok a), out1, s1) ∧
    k a s1 = (Returns (Ok b), out2, s') ∧ out = out1 ++ out2.
Proof.
  unfold mbind, prog_bind. destruct (m s) as [[[| |[a|e]] out1] s1]; try done.
  destruct (k a s1) as [[r out2] s2] eqn:Ek. intros [= -> <- ->].
  by exists a, out1, s1, out2.
Qed.

Lemma prog_lift_returns {A B} (r : result E A) (k : A → prog S E B) s b out s' :
  (lift r ≫= k) s = (Returns (Ok b), out, s') →
  ∃ a, r = Ok a ∧ k a s = (Returns (Ok b), out, s').
Proof. destruct r as [a|e]; [|done]. rewrite prog_lift_ok. by exists a. Qed.

Lemma prog_println text (k : prog S E unit) s :
  (println text;; k) s
  = let '(r, out, s') := k s in (r, ToStdout (text +:+ NL) :: out, s').
Proof. done. Qed.

Lemma prog_state_returns {A B} (f : S → result E A * S) (k : A → prog S E B) s b out s' :
  (on_state f ≫= k) s = (Returns (Ok b), out, s') →
  ∃ a s1, f s = (Ok a, s1) ∧ k a s1 = (Returns (Ok b), out, s').
Proof.
  unfold on_state, mbind, prog_bind. destruct (f s) as [[a|e] s1]; [|done].
  destruct (k a s1) as [[r o] s2] eqn:Ek. intros [= -> <- ->]. by exists a, s1.
Qed.

(** A program that only looks. *)
Definition leaves_state {A} (m : prog S E A) : Prop := ∀ s, snd (m s) = s.

Lemma leaves_bind {A B} (m : prog S E A) (k : A → prog S E B) :
  leaves_state m → (∀ a, leaves_state (k a)) → leaves_state (m ≫= k).
Proof.
  intros Hm Hk s. unfold mbind, prog_bind. specialize (Hm s).
  destruct (m s) as [[[| |[a|e]] out] s1]; cbn in Hm; subst s1; try done.
  specialize (Hk a s). by destruct (k a s) as [[]].
Qed.
Lemma leaves_lift {A} (r : result E A) : leaves_state (lift r).
Proof. done. Qed.
Lemma leaves_println text : leaves_state (println text).
Proof. done. Qed.
End Prog.

#[export] Hint Resolve leaves_lift leaves_println : core.

(** ** Environment variables *)

Section Env.
Context (env : string → option string).

(** [env::var(name).unwrap_or_else(..)]. *)
Definition env_or (name fallback : string) : string := default fallback (env name).

(** [env::var(name).ok().and_then(|v| v.parse().ok()).unwrap_or(..)]. *)
Definition env_u16 (name : string) (fallback : Z) : Z :=
  default fallback (v ← env name; parse_u16 v).
End Env.
