(* ===== verification/ExampleServers.v ===== *)
(** * The example servers ([russh-extra/examples/server_*.rs])

    The four example programs that serve: the callbacks they register, the servers they
    build, and their [main] functions, by what they print and how they end.  Key
    generation, the environment, reading a key file, binding and the events of the accept
    loop are arguments.  The theorem runs a client of the library against
    [server_streaming_exec]. *)
From S2P Require Import Prelude RustStr RustPath Channel CoreError Endpoint Config ClientErrors.
From S2P Require Import ClientCommand ClientAuth Tunnel Client ServerTypes ServerBuild.
From S2P Require Import ServerHandler ServerSessions ServerExec ServerRun ServerRuns.
From S2P Require Import AuthServer Stack SessionCommands Programs.

Section Examples.
Context {PubKey Cert PrivKey : Type} `{!StrDebug}.
Abbreviation Builder := (ServerBuilder unit PubKey Cert PrivKey).
Abbreviation Runtime := (ServerRuntime unit PubKey Cert PrivKey).
Abbreviation app X R := (callback unit X R).

(** ** Callbacks *)

Definition admin_password_auth : app (AuthContext * Password) AuthDecision := λ '(ctx, password) a,
  (Ok (if String.eqb (username_text (ax_username ctx)) "admin"
          && String.eqb (expose_secret password) "secret"
       then AuthDecision_accept else AuthDecision_reject), a).

Definition whoami : app ExecContext ExecResponse := λ ctx a,
  (Ok (ExecResponse_exit_status
         (ExecResponse_stdout ExecResponse_success
            (as_bytes (Username_display (ex_username ctx) +:+ NL))) 0), a).

Definition fixed_output (text : string) : app ExecContext ExecResponse := λ _ a,
  (Ok (ExecResponse_exit_status
         (ExecResponse_stdout ExecResponse_success (as_bytes (text +:+ NL))) 0), a).

(** The handlers of [server_streaming_exec]; [unwrap] on a closed channel panics. *)
Definition unwrap_io (r : Result unit * StreamIo) (k : StreamIo → StreamRun) : StreamRun :=
  match r with
  | (Ok _, s) => k s
  | (Err _, s) => {| run_cmds := sx_sent s; run_end := Panicked |}
  end.
Definition handler_returns (s : StreamIo) : StreamRun :=
  {| run_cmds := sx_sent s; run_end := Returned (Ok ()) |}.
Definition stream_io (input : list (list byte)) : StreamIo :=
  {| sx_stdin := input; sx_sent := []; sx_open := true |}.

(** [while let Some(chunk) = ctx.read_stdin().await]: at most one turn per chunk. *)
Fixpoint echo_loop (chunks : nat) (k : StreamIo → StreamRun) (s : StreamIo) : StreamRun :=
  match read_stdin s, chunks with
  | (Some chunk, s), S n =>
      unwrap_io (StreamingExecContext_stderr
                   (as_bytes ("received " +:+ dec (bytes_len chunk) +:+ " bytes" +:+ NL)) s)
        (λ s, unwrap_io (StreamingExecContext_stdout chunk s) (echo_loop n k))
  | (_, s), _ => k s
  end.

Definition echo_me : StreamingExecCallback := λ _ input,
  echo_loop (length input)
    (λ s, unwrap_io (StreamingExecContext_exit_status 0 s) handler_returns) (stream_io input).

(** [for i in 1..=5]. *)
Fixpoint progress_steps (l : list Z) (k : StreamIo → StreamRun) (s : StreamIo) : StreamRun :=
  match l with
  | [] => k s
  | i :: l =>
      unwrap_io (StreamingExecContext_stdout (as_bytes ("step " +:+ dec i +:+ NL)) s)
        (progress_steps l k)
  end.
Definition progress : StreamingExecCallback := λ _ input,
  progress_steps [1; 2; 3; 4; 5]
    (λ s, unwrap_io (StreamingExecContext_exit_status 0 s) handler_returns) (stream_io input).

Definition fail_late : StreamingExecCallback := λ _ input,
  unwrap_io (StreamingExecContext_stdout (as_bytes ("doomed" +:+ NL)) (stream_io input))
    (λ s, unwrap_io (StreamingExecContext_exit_status 1 s) handler_returns).

(** ** Servers *)

Abbreviation key := ServerHostKey_from_private_key.

Definition server_exec_builder (host_key : PrivKey) : Builder :=
  builder_exec
    (builder_exec
       (builder_password_auth
          (builder_host_key
             (builder_listen Server_builder (Endpoint_new "127.0.0.1" 2222)) (key host_key))
          admin_password_auth)
       "whoami" whoami)
    "uptime" (fixed_output "up 3 days, 2 hours").

Definition server_password_builder (listen : SocketAddr) (host_key : PrivKey) : Builder :=
  builder_exec
    (builder_exec
       (builder_password_auth
          (builder_host_key
             (builder_listen Server_builder (Endpoint_new (sa_ip listen) (sa_port listen)))
             (key host_key))
          admin_password_auth)
       "whoami" whoami)
    "hostname" (fixed_output "localhost").

Definition server_streaming_exec_builder (host_key : PrivKey) : Builder :=
  builder_streaming_exec
    (builder_streaming_exec
       (builder_streaming_exec
          (builder_password_auth
             (builder_host_key
                (builder_listen Server_builder (Endpoint_new "127.0.0.1" 2222))
                (key host_key))
             admin_password_auth)
          "echo-me" echo_me)
       "progress" progress)
    "fail-late" fail_late.

(** Keys are compared by their fingerprint. *)
Context (fingerprint : PubKey → string).

Definition authorized_key_auth (authorized : PubKey) : app (AuthContext * PubKey) AuthDecision :=
  λ '(_, k) a,
  (Ok (if String.eqb (fingerprint k) (fingerprint authorized)
       then AuthDecision_accept else AuthDecision_reject), a).

Definition server_public_key_builder (listen : SocketAddr) (host_key : PrivKey)
    (authorized : PubKey) : Builder :=
  builder_exec
    (builder_public_key_auth
       (builder_host_key
          (builder_listen Server_builder (Endpoint_new (sa_ip listen) (sa_port listen)))
          (key host_key))
       (authorized_key_auth authorized))
    "whoami" whoami.

(** ** Programs *)

Context (read_openssh_file : string → result string PrivKey) (is_encrypted : PrivKey → bool)
        (fs : string → HostKeyFile) (russh_text : RusshError → string).
Context (random_key : result BoxError PrivKey) (parse_socket_addr : string → option SocketAddr)
        (env : string → option string).

Abbreviation build := (build read_openssh_file is_encrypted fs).

(** The result of running the server, if it has ended. *)
Definition served_until {E} (f : Error → E) (s : RunState) : prog unit E unit :=
  match run_phase s with
  | Finished r => lift (map_err f r)
  | _ => still_running
  end.

Definition EXAMPLE_TIMEOUT : string := "example server timeout".

(** The spawned task: after thirty seconds it asks for shutdown.  [after] is what happens
    then, if the time has come. *)
Definition with_timer (before : list RunEvent) (after : option (list RunEvent)) : list RunEvent :=
  before ++ match after with Some l => HandleShutdown EXAMPLE_TIMEOUT :: l | None => [] end.

Definition timed_server (builder : PrivKey → Builder) (banner : list string)
    (bound : result IoError unit) (before : list RunEvent) (after : option (list RunEvent)) :
    prog unit BoxError unit :=
  k ← lift random_key;
  _ ← lift (map_err Error_display (build (builder k)));
  printlns banner;;
  served_until Error_display (Server_run russh_text bound None (with_timer before after)).

Definition exec_banner : list string :=
  ["server listening on 127.0.0.1:2222"; "credentials: admin / secret";
   "try: ssh admin@127.0.0.1 -p 2222"].
Definition server_exec_main : result IoError unit → list RunEvent → option (list RunEvent) →
    prog unit BoxError unit := timed_server server_exec_builder exec_banner.

Definition streaming_banner : list string :=
  ["server listening on 127.0.0.1:2222"; "credentials: admin / secret";
   "try: ssh admin@127.0.0.1 -p 2222 echo-me  (echo stdin)";
   "try: ssh admin@127.0.0.1 -p 2222 progress  (5-step progress)";
   "try: ssh admin@127.0.0.1 -p 2222 fail-late (exit 1)"].
Definition server_streaming_exec_main : result IoError unit → list RunEvent →
    option (list RunEvent) → prog unit BoxError unit :=
  timed_server server_streaming_exec_builder streaming_banner.

Definition generated_key : Result PrivKey :=
  map_err (Error_transport_with_source TransportOther "generate host key") random_key.

(** Until Ctrl-C: the future of [run_until]. *)
Definition serve_until_ctrl_c (builder : SocketAddr → PrivKey → Builder)
    (listen : string) (banner : list string) (bound : result IoError unit)
    (events : list RunEvent) : prog unit Error unit :=
  k ← lift generated_key;
  addr ← unwrap (parse_socket_addr listen);
  _ ← lift (build (builder addr k));
  printlns banner;;
  served_until (λ e, e) (Server_run_until russh_text bound None events).

Definition server_password_main (bound : result IoError unit) (events : list RunEvent) :
    prog unit Error unit :=
  let listen := env_or env "LISTEN_ADDR" "127.0.0.1:2222" in
  serve_until_ctrl_c server_password_builder listen
    ["Server listening on " +:+ listen +:+ " (admin:secret)"] bound events.

(** The helper of [server_public_key], with an empty home when there is none. *)
Definition example_expand_tilde (home : option string) (path : string) : string :=
  match strip_prefix "~/" path with
  | Some stripped => path_join (default "" home) stripped
  | None => if String.eqb path "~" then default "" home else path
  end.

Context (read_to_string : string → result IoError string)
        (from_openssh : string → result BoxError PubKey).

Definition read_authorized_key (path : string) : Result PubKey :=
  data ← map_err (λ e, Error_transport_with_source TransportIo "read authorized key"
                         (io_message e))
           (read_to_string (example_expand_tilde (env "HOME") path));
  line ← ok_or (Error_invalid_config "authorized key file is empty") (head (lines data));
  map_err (Error_transport_with_source TransportOther "parse authorized key") (from_openssh line).

Definition server_public_key_main (bound : result IoError unit) (events : list RunEvent) :
    prog unit Error unit :=
  let listen := env_or env "LISTEN_ADDR" "127.0.0.1:2222" in
  let authorized_key_path := env_or env "AUTHORIZED_KEY_PATH" "~/.ssh/id_ed25519.pub" in
  authorized_key ← lift (read_authorized_key authorized_key_path);
  serve_until_ctrl_c (λ addr k, server_public_key_builder addr k authorized_key) listen
    ["Server listening on " +:+ listen; "Authorized key: " +:+ authorized_key_path]
    bound events.

(** ** What the handlers come to *)

Definition receipt (chunk : list byte) : list byte :=
  as_bytes ("received " +:+ dec (bytes_len chunk) +:+ " bytes" +:+ NL).

Definition echoed (chunk : list byte) : list StreamingExecCmd :=
  [SxStderr (receipt chunk); SxStdout chunk].

Definition sending (s : StreamIo) (input : list (list byte)) (cmds : list StreamingExecCmd) :
    StreamIo :=
  {| sx_stdin := input; sx_sent := sx_sent s ++ cmds; sx_open := true |}.

(** Every chunk is read, reported and sent back, in order. *)
Lemma echo_loop_spec n k s :
  sx_open s = true → (length (sx_stdin s) ≤ n)%nat →
  echo_loop n k s = k (sending s [] (concat (map echoed (sx_stdin s)))).
Proof.
  revert s. induction n as [|n IH]; intros [input sent []] Ho Hn; cbn in *; try done;
    (destruct input as [|d input]; cbn in *; [by unfold sending; cbn; rewrite app_nil_r|]); [lia|].
  unfold unwrap_io. cbn. rewrite IH by (cbn; lia). unfold sending. cbn.
  by rewrite <-!app_assoc.
Qed.

Lemma run_output_exits cmds e s :
  run_output (unwrap_io (StreamingExecContext_exit_status e (sending s [] cmds)) handler_returns)
  = run_output {| run_cmds := (sx_sent s ++ cmds) ++ [SxExited (Status e)];
                  run_end := Returned (Ok ()) |}.
Proof. done. Qed.

Lemma run_output_app cmds e :
  first_exit cmds = None →
  run_output {| run_cmds := cmds ++ [SxExited e]; run_end := Returned (Ok ()) |}
  = {| co_exit := e; co_stdout := out_bytes cmds; co_stderr := err_bytes cmds |}.
Proof.
  intros Hc. unfold run_output. cbn [run_cmds run_end].
  assert (Hx : before_exit (cmds ++ [SxExited e]) = cmds ∧
              first_exit (cmds ++ [SxExited e]) = Some e).
  { induction cmds as [|[] cmds IH]; cbn in *; [done|..|done];
      destruct (IH Hc) as [-> ->]; done. }
  destruct Hx as [-> ->]. done.
Qed.

Lemma echoed_exit input : first_exit (concat (map echoed input)) = None.
Proof. by induction input. Qed.
Lemma echoed_out input : out_bytes (concat (map echoed input)) = concat input.
Proof. induction input as [|d l IH]; [done|]. unfold out_bytes in *. cbn. by rewrite IH. Qed.
Lemma echoed_err input :
  err_bytes (concat (map echoed input)) = concat (map receipt input).
Proof. induction input as [|d l IH]; [done|]. unfold err_bytes in *. cbn. by rewrite IH. Qed.

Definition echo_output (input : list (list byte)) : CommandOutput :=
  {| co_exit := Status 0; co_stdout := concat input; co_stderr := concat (map receipt input) |}.

Lemma echo_me_output ctx input : run_output (echo_me ctx input) = echo_output input.
Proof.
  unfold echo_me. rewrite echo_loop_spec by (cbn; lia).
  rewrite run_output_exits, run_output_app by (cbn; apply echoed_exit).
  cbn [sx_stdin sx_sent stream_io Datatypes.app]. by rewrite echoed_out, echoed_err.
Qed.

Definition progress_output : CommandOutput :=
  {| co_exit := Status 0;
     co_stdout := concat (map (λ i, as_bytes ("step " +:+ i +:+ NL)) ["1"; "2"; "3"; "4"; "5"]);
     co_stderr := [] |}.
Lemma progress_runs ctx input : run_output (progress ctx input) = progress_output.
Proof. by vm_compute. Qed.

Definition fail_late_output : CommandOutput :=
  {| co_exit := Status 1; co_stdout := as_bytes ("doomed" +:+ NL); co_stderr := [] |}.
Lemma fail_late_runs ctx input : run_output (fail_late ctx input) = fail_late_output.
Proof. by vm_compute. Qed.

(** With a home it is the library's [expand_tilde]; without one it is not. *)
Lemma example_tilde_home home path :
  example_expand_tilde (Some home) path = expand_tilde (Some home) path.
Proof.
  unfold example_expand_tilde, expand_tilde, starts_with.
  destruct (String.eqb_spec path "~") as [->|Hn]; [done|].
  by destruct (strip_prefix "~/" path).
Qed.
Lemma expand_tilde_differs :
  example_expand_tilde None "~/.ssh/key.pub" = ".ssh/key.pub" ∧
  expand_tilde None "~/.ssh/key.pub" = "~/.ssh/key.pub".
Proof. by vm_compute. Qed.

(** ** What the servers come to *)

(** The examples that ask for a password. *)
Inductive PasswordExample := ServerExec | ServerPassword (listen : SocketAddr) | ServerStreamingExec.

Definition example_builder (e : PasswordExample) : PrivKey → Builder :=
  match e with
  | ServerExec => server_exec_builder
  | ServerPassword listen => server_password_builder listen
  | ServerStreamingExec => server_streaming_exec_builder
  end.

Definition says (text : string) : Result CommandOutput :=
  Ok {| co_exit := Status 0; co_stdout := as_bytes (text +:+ NL); co_stderr := [] |}.

(** What they answer their one user, when input arrives cut by [packets]. *)
Definition example_answer (packets : list byte → list (list byte)) (e : PasswordExample)
    (command : RemoteCommand) : Result CommandOutput :=
  let run := String.eqb (program command) in
  match e with
  | ServerExec =>
      if run "whoami" then says "admin" else
      if run "uptime" then says "up 3 days, 2 hours" else Err rejected
  | ServerPassword _ =>
      if run "whoami" then says "admin" else
      if run "hostname" then says "localhost" else Err rejected
  | ServerStreamingExec =>
      if run "echo-me" then 
        Ok {| co_exit := Status 0; co_stdout := stdin command;
              co_stderr := concat (map receipt (stdin_chunks packets command)) |} else
      if run "progress" then Ok progress_output else
      if run "fail-late" then Ok fail_late_output else Err rejected
  end.

Lemma example_builds e k :
  ∃ rt, build (example_builder e k) = Ok rt ∧ r_calls rt = b_calls (example_builder e k) ∧
    0 < sc_max_sessions (r_config rt).
Proof. destruct e; eexists; by split_and!. Qed.

(** The password is the only way in. *)
Lemma example_grants e k (rt : Runtime) q u :
  r_calls rt = b_calls (example_builder e k) → granted rt q u →
  q = RqAuthPassword "admin" "secret" ∧ u = "admin".
Proof.
  unfold granted. intros ->.
  assert (Ha : c_auth (b_calls (example_builder e k))
    = {| password_auth := Some admin_password_auth; public_key_auth := None;
         keyboard_interactive_auth := None; cert_auth := None; auth_banner := None |})
    by by destruct e.
  rewrite Ha. destruct q; try done; cbn; intros (-> & f & ctx & Hf);
    try first [by destruct Hf as (? & ? & ? & [=] & _)|by destruct Hf as (? & ? & [=] & _)].
  destruct Hf as (a & d & a' & [= <-] & Hu & [= <- _] & Hd). rewrite Hu in Hd. cbn in Hd.
  revert Hd. case (String.eqb_spec u "admin"), (String.eqb_spec password "secret"); cbn;
    by intros; subst.
Qed.

(** The routes. *)
Lemma example_answers packets e k (rt : Runtime) ch command (c : Conn unit (list SessionOp)) :
  (∀ d, concat (packets d) = d) → r_calls rt = b_calls (example_builder e k) →
  fst (command_spec rt packets ch (Username_new "admin") command c)
  = example_answer packets e command.
Proof.
  intros Hpk. unfold command_spec, route. intros ->. unfold example_answer.
  destruct e; cbn -[lookup insert String.eqb run_output]; rewrite ?lookup_insert, ?lookup_empty;
    repeat (case (String.eqb_spec _ _); [intros Hp; try rewrite !Hp|intros ?]);
    repeat (case_decide; [try congruence|]); try done.
  rewrite echo_me_output. unfold echo_output. by rewrite stdin_chunks_concat.
Qed.

(** Only the authorized key is let in by [server_public_key]. *)
Lemma public_key_grants listen k authorized (rt : Runtime) q u :
  r_calls rt = b_calls (server_public_key_builder listen k authorized) → granted rt q u →
  ∃ key, q = RqAuthPublickey u key ∧ fingerprint key = fingerprint authorized.
Proof.
  unfold granted. intros ->. destruct q; try done; cbn; intros (-> & f & ctx & Hf);
    try first [by destruct Hf as (? & ? & ? & [=] & _)|by destruct Hf as (? & ? & [=] & _)].
  destruct Hf as (a & d & a' & [= <-] & Hu & [= <- _] & Hd). eexists. split; [done|].
  revert Hd. by case (String.eqb_spec (fingerprint _) (fingerprint authorized)).
Qed.

(** Without a request and without the caller's future the accept loop is not told to stop. *)
Definition undisturbed (s : RunState) : Prop :=
  run_cell s = None ∧ run_resolved s = false ∧ run_reasons s = [] ∧ run_phase s = Accepting.

Lemma undisturbed_step ev s :
  match ev with HandleShutdown _ | FutureResolves | AcceptEnds _ => False | _ => True end →
  undisturbed s → undisturbed (run_step russh_text s ev).
Proof. destruct ev; cbn; intros Hev (Hc & Hr & Hl & Hp); rewrite ?Hc, ?Hr, ?Hp; by try destruct Hev. Qed.

Abbreviation can_resolve := (List.filter (λ e, match e with FutureResolves => false | _ => true end)).

Lemma undisturbed_run events s :
  existsb is_end events = false → omap call_reason events = [] → undisturbed s →
  undisturbed (fold_left (run_step russh_text) (can_resolve events) s).
Proof.
  revert s. induction events as [|ev events IH]; intros s He Hc Hs; [done|].
  destruct ev; cbn -[run_step] in *; try done; apply IH; try done; by apply undisturbed_step.
Qed.

Lemma session_errors_filtered events :
  omap (session_error russh_text) (can_resolve events) = omap (session_error russh_text) events ∧
  existsb is_end (can_resolve events) = existsb is_end events.
Proof. induction events as [|ev events [IH1 IH2]]; [done|]. destruct ev; cbn; by rewrite ?IH1, ?IH2. Qed.

(** After its thirty seconds a timed server that nobody else stopped is told to stop once,
    with the reason of the timer; its [main] returns what the accept loop ends with, or else
    the first error of a session. *)
Lemma timer_stops before r :
  existsb is_end before = false → omap call_reason before = [] →
  let s := Server_run russh_text (Ok ()) None (with_timer before (Some [PollCell; AcceptEnds r])) in
  run_reasons s = [EXAMPLE_TIMEOUT] ∧
  run_phase s = Finished (run_result r (head (omap (session_error russh_text) before))).
Proof.
  intros He Hc. cbv zeta. unfold Server_run, run_inner, with_timer.
  rewrite List.filter_app, fold_left_app. set (s0 := {| run_cell := None |}).
  pose proof (undisturbed_run before s0 He Hc ltac:(done)) as (H1 & H2 & H3 & H4).
  destruct (session_errors_filtered before) as [F1 F2].
  destruct (run_before_end russh_text (can_resolve before) s0) as [_ H5]; [by rewrite F2|done|].
  set (s := fold_left _ (can_resolve before) s0) in *. cbn in H5. rewrite F1 in H5.
  cbn. rewrite H1. cbn. rewrite H4. cbn. by rewrite H3, H5.
Qed.

(** The example ends with the accept loop after the timer; if it cannot bind, it has already
    said that it is listening. *)
Lemma timed_main k builder banner before r rt :
  random_key = Ok k → build (builder k) = Ok rt →
  existsb is_end before = false → omap call_reason before = [] →
  timed_server builder banner (Ok ()) before (Some [PollCell; AcceptEnds r]) ()
  = (Returns (map_err Error_display
                (run_result r (head (omap (session_error russh_text) before)))),
     map (λ t, ToStdout (t +:+ NL)) banner, ()).
Proof.
  intros Hk Hb He Hc. unfold timed_server. rewrite Hk, prog_lift_ok, Hb. cbn [map_err].
  rewrite prog_lift_ok, printlns_all. unfold served_until.
  destruct (timer_stops before r He Hc) as [_ ->]. cbn. by rewrite app_nil_r.
Qed.

Lemma timed_main_unbound k builder banner before after e rt :
  random_key = Ok k → build (builder k) = Ok rt →
  timed_server builder banner (Err e) before after ()
  = (Returns (Err (Error_display (EIo e))), map (λ t, ToStdout (t +:+ NL)) banner, ()).
Proof.
  intros Hk Hb. unfold timed_server. rewrite Hk, prog_lift_ok, Hb. cbn [map_err].
  rewrite prog_lift_ok, printlns_all. cbn. by rewrite app_nil_r.
Qed.
End Examples.

(** ** A client of the library and an example server *)

Section Session.
Context {PubKey Cert PrivKey L : Type} `{!StrDebug}.
Context (e : PasswordExample) (host_key : PrivKey) (runtime : ServerRuntime unit PubKey Cert PrivKey).
Abbreviation Conn := (Conn unit (list SessionOp)).
Context (read_openssh_file : string → result string PrivKey) (fs : string → HostKeyFile).
Context (conn : L → Conn) (challenged : L → option string) (public_key : PrivKey → PubKey).
Context (authenticate_password : string → string → L → timed AuthResult * L)
        (authenticate_none : string → L → timed AuthResult * L)
        (authenticate_publickey : string → PrivKey → L → timed AuthResult * L)
        (authenticate_publickey_with :
           string → PubKey → L → option (result string AuthResult) * L)
        (authenticate_openssh_cert : string → PrivKey → Cert → L → timed AuthResult * L)
        (ki_start : string → L → result RusshError KeyboardInteractiveAuthResponse * L)
        (ki_respond :
           list string → L → result RusshError KeyboardInteractiveAuthResponse * L).
Context (russh_text : RusshError → string) (parse_sig : string → Sig)
        (packets : list byte → list (list byte))
        (load_secret_key : string → option string → result string PrivKey)
        (from_openssh : list byte → result string PrivKey)
        (is_encrypted : PrivKey → bool)
        (decrypt : PrivKey → string → result string PrivKey)
        (ssh_auth_sock : option string)
        (connect_agent : string → result string unit)
        (request_identities : result string (list PubKey))
        (rounds : nat)
        (client_connect :
           RusshClientConfig → string → Z → Z → ClientHandler → timed L * ClientHandler)
        (banners : L → list string).

(** C36.  A client that got a session with one of these servers is [admin] and had the password;
    and any command given to it, with any input, whose output is within its limits, is
    answered as the example says: the input back, with a line on the error stream for each
    packet it arrived in, from [echo-me]; the five steps; exit status 1 after the output of
    [fail-late]; the fixed texts of the buffered commands; and a refusal of everything
    else. *)
Theorem example_session
    (link : AuthLink runtime conn challenged public_key authenticate_password authenticate_none
       authenticate_publickey authenticate_publickey_with authenticate_openssh_cert ki_start
       ki_respond)
    (self : Client PrivKey Cert) (counter : Z) (s : Session L) (self' : Client PrivKey Cert)
    (counter' : Z) :
  build read_openssh_file is_encrypted fs (example_builder e host_key) = Ok runtime →
  (∀ n, signal_to_name (parse_sig n) = n) → (∀ d, concat (packets d) = d) →
  (∀ cfg host port t h w h', client_connect cfg host port t h = (Some (Ok w), h') →
     idle (conn w)) →
  Client_connect russh_text client_connect authenticate_password authenticate_none
     authenticate_publickey authenticate_publickey_with authenticate_openssh_cert ki_start
     ki_respond load_secret_key from_openssh is_encrypted decrypt ssh_auth_sock connect_agent
     request_identities rounds banners self counter = (Ok s, self', counter') →
  cc_username (c_config self) = Some (Username_new "admin") ∧
  CredPassword (Password_new "secret") ∈ cc_credentials (c_config self) ∧
  ∃ w, s_handle s = Some w ∧
    ∀ ch command, is_str (program command) →
      within_limits command (example_answer packets e command) →
      fst (stack_command runtime parse_sig russh_text packets ch command (conn w))
      = example_answer packets e command.
Proof.
  intros Hb Hsig Hpk Hidle E.
  destruct (example_builds (PubKey := PubKey) (Cert := Cert) read_openssh_file is_encrypted fs e
    host_key) as (rt & Hb' & Hc & Hm).
  rewrite Hb in Hb'. injection Hb' as <-.
  destruct (connected_ready runtime conn challenged public_key _ _ _ _ _ _ _ _ _ _ _ _ _ _ _ _ _
    _ _ _ link _ _ _ _ _ Hsig Hpk Hidle Hm E) as (u & w & Hu & Hs & (_ & q & Hq & Hg) & Hrun).
  apply (example_grants e host_key) in Hg as [-> Hn]; [|done].
  destruct u as [u]. cbn in Hn. subst u. destruct Hq as (_ & [p] & Hp & Hp'). cbn in Hp'. subst p.
  split; [done|]. split; [done|]. exists w. split; [done|]. intros ch command Hstr Hlim.
  rewrite <-(example_answers packets e host_key runtime ch command (conn w)) in Hlim |- * by done.
  by apply Hrun.
Qed.
End Session.

(** ** Concrete runs *)

Section Runs.
#[local] Instance example_debug : StrDebug := λ s, s.

Abbreviation example_build := (build (λ _, Err "") (λ _, false) app_fs).
Definition example_runtime : ServerRuntime unit unit unit unit :=
  match example_build (example_builder ServerStreamingExec ()) with
  | Ok r => r
  | Err _ => {| r_config := ServerConfig_default; r_host_keys := []; r_shutdown_grace := 0;
                r_calls := Callbacks_none |}
  end.
Definition admin_ops : list (BuilderOp (PrivKey := unit) (Cert := unit)) :=
  [BUsername (Username_new "admin"); BPassword (Password_new "guess");
   BPassword (Password_new "secret")].
Definition echo_command : RemoteCommand := with_stdin (RemoteCommand_new "echo-me") (as_bytes "abc").

Abbreviation example_run :=
  (Client_connect (λ _, "") (wire_connect example_runtime ()) (wire_password example_runtime)
     (wire_none (A := unit)) (wire_publickey example_runtime) (wire_agent (A := unit))
     (wire_cert example_runtime) (wire_start example_runtime) (wire_respond example_runtime)
     (λ _ _, Err "") (λ _, Err "") (λ _, false) (λ _ _, Err "") None (λ _, Err "") (Err "") 1
     (λ _, []) (ClientBuilder_build (fold_left builder_call admin_ops (Client_builder 0))) 5).

(** A wrong password, the right one, then [echo-me], over packets of two bytes. *)
Lemma example_session_witness :
  ∃ s w, fst (fst example_run) = Ok s ∧ s_handle s = Some w ∧
    fst (stack_command example_runtime CustomSig (λ _, "") pairs 0 echo_command (dl_conn w))
    = Ok {| co_exit := Status 0; co_stdout := as_bytes "abc";
            co_stderr := as_bytes ("received 2 bytes" +:+ NL +:+ "received 1 bytes" +:+ NL) |}.
Proof.
  destruct example_run as [[[s|e] c'] n] eqn:E; [|by vm_compute in E].
  apply (example_session ServerStreamingExec () example_runtime (λ _, Err "") app_fs dl_conn
    dl_challenged (λ k, k) _ _ _ _ _ _ _ _ CustomSig pairs _ _ _ _ _ _ _ _ _ _
    (wire_link example_runtime)) in E as (_ & _ & w & Hs & Hrun); [|done|done|exact pairs_concat|].
  - exists s, w. split; [done|]. split; [done|].
    rewrite Hrun; [by vm_compute|by vm_compute|by vm_compute].
  - by intros cfg host port t h w h' [= <- _].
Defined.
End Runs.
