(* ===== verification/ShellServer.v ===== *)
(** * Shells, end to end

    The client's [Shell::open] and [Subsystem::open] against the connection handler of
    the server: the requests the client makes are served in order, the replies they
    leave are what the client reads.  Opening succeeds exactly when the server's
    callbacks accept; the callbacks see what the client configured. *)
From S2P Require Import Prelude RustStr Channel CoreError Endpoint Config SftpPacket.
From S2P Require Import SftpWire SftpFraming SftpTypes SftpServer ClientErrors.
From S2P Require Import ClientCommand Shell ServerTypes ServerBuild ServerHandler.
From S2P Require Import ServerSessions ServerExec ServerInput ServerRuns.

(** Whether the server is to reply; [russh] drops the reply otherwise. *)
Definition want_reply (a : ShellAction) : bool :=
  match a with
  | RequestPty w _ _ _ _ _ _ | SetEnv w _ _ | RequestX11 w _ _ _ _ | AgentForward w
  | RequestShell w | RequestSubsystem w _ => w
  | _ => false
  end.

Section Serve.
Context {A PubKey Cert PrivKey : Type} `{!StrDebug}.
Context (runtime : ServerRuntime A PubKey Cert PrivKey) (parse_sig : string → Sig)
        (opcode : RusshPty → Z) (ch : Z).

Abbreviation Conn := (Conn A (list SessionOp)).
Abbreviation calls := (c_channel (r_calls runtime)).

Definition mode_opcodes (modes : list (RusshPty * Z)) : list (Z * Z) :=
  map (λ '(mode, value), (opcode mode, value)) modes.

(** The callback [russh] makes for a request on the channel. *)
Definition serve_request (a : ShellAction) (c : Conn) : result ServerRuntimeError unit * Conn :=
  match a with
  | RequestPty _ term cols rows width height modes =>
      pty_request runtime log_op ch term cols rows width height (mode_opcodes modes) c
  | SetEnv _ name value => env_request runtime log_op ch name value c
  | RequestX11 _ single protocol cookie screen =>
      x11_request runtime log_op ch single protocol cookie screen c
  | AgentForward _ =>
      let '(r, c) := agent_request runtime log_op ch c in ((λ _, ()) <$> r, c)
  | RequestShell _ => shell_request runtime log_op ch c
  | RequestSubsystem _ name => subsystem_request runtime log_op ch name c
  | _ => (Ok (), c)
  end.

(** What the client reads of what was sent between [c] and [c']. *)
Definition replies (a : ShellAction) (c c' : Conn) : list CommandMsg :=
  if want_reply a
  then ServerExec.on_channel parse_sig ch (drop (length (cn_net c)) (cn_net c')) else [].

(** The requests in order, until an error ends the connection: the replies, whether it
    is still alive, and the server's state. *)
Fixpoint serve_all (l : list ShellAction) (c : Conn) : list CommandMsg * (bool * Conn) :=
  match l with
  | [] => ([], (true, c))
  | a :: l =>
      match serve_request a c with
      | (Err _, c') => (replies a c c', (false, c'))
      | (Ok _, c') => let '(ms, s) := serve_all l c' in (replies a c c' ++ ms, s)
      end
  end.

(** ** The server's verdicts *)

Definition accepts {X} (handler : option (callback A X unit)) (x : X) (a : A) : bool :=
  match handler with None => false | Some f => is_ok (fst (f x a)) end.

Definition pty_params (from_u8 : Z → option RusshPty) (pty : Pty) : PtyParams :=
  {| pp_term := pty_term pty; pp_col_width := pty_width_columns pty;
     pp_row_height := pty_height_rows pty; pp_pix_width := pty_width_pixels pty;
     pp_pix_height := pty_height_pixels pty;
     pp_modes := mode_opcodes (build_terminal_modes from_u8 pty) |}.

Definition pty_verdict from_u8 (pty : Pty) (c : Conn) : bool :=
  accepts (pty_handler calls)
    ({| px_session := session_context (cn_handler c); px_channel := ch |}, pty_params from_u8 pty)
    (cn_app c).
Definition shell_verdict (c : Conn) : bool :=
  accepts (shell_handler calls)
    {| sh_session := session_context (cn_handler c); sh_channel := ch |} (cn_app c).

Definition verdict_msg (b : bool) : CommandMsg := if b then CSuccess else CFailure.
Definition verdict_op (b : bool) : SessionOp := if b then OpSuccess ch else OpFailure ch.

Lemma replies_op a c c' b :
  cn_net c' = cn_net c ++ [verdict_op b] →
  replies a c c' = if want_reply a then [verdict_msg b] else [].
Proof.
  intros E. unfold replies. rewrite E, drop_app_length. destruct (want_reply a); [|done].
  rewrite on_channel_all by (destruct b; by repeat constructor). by destruct b.
Qed.

Lemma answered_log {X} (handler : option (callback A X unit)) x (c : Conn) :
  ∃ c', answered log_op ch handler x c = (Ok (), c') ∧
    cn_net c' = cn_net c ++ [verdict_op (accepts handler x (cn_app c))] ∧
    cn_handler c' = cn_handler c.
Proof.
  unfold answered, accepts, op, log_op, call_app, mbind, srv_bind.
  destruct handler as [f|]; [|by eexists]. destruct (f x (cn_app c)) as [[[]|e] a']; by eexists.
Qed.

Lemma env_log name value (c : Conn) :
  ∃ c' b, env_request runtime log_op ch name value c = (Ok (), c') ∧
    cn_net c' = cn_net c ++ [verdict_op b].
Proof.
  unfold env_request, store_env, modify, op, log_op, call_app, mbind, srv_bind, handler_of.
  destruct (env_handler _) as [f|]; [|by eexists _, true].
  destruct (f _ (cn_app c)) as [[[]|e] a']; cbn; [by eexists _, true|by eexists _, false].
Qed.

Lemma serve_all_app l1 l2 (c : Conn) :
  serve_all (l1 ++ l2) c =
    let '(ms, (alive, c')) := serve_all l1 c in
    if alive then let '(ms', s) := serve_all l2 c' in (ms ++ ms', s) else (ms, (false, c')).
Proof.
  revert c. induction l1 as [|a l1 IH]; intros c; cbn [app serve_all].
  { by destruct (serve_all l2 c). }
  destruct (serve_request a c) as [[[]|e] c1]; [|done]. rewrite IH.
  destruct (serve_all l1 c1) as [ms [[] c2]]; [|done].
  destruct (serve_all l2 c2). by rewrite <-app_assoc.
Qed.

Lemma serve_env env (c : Conn) :
  ∃ ms c', serve_all (map (λ '(name, value), SetEnv true name value) env) c = (ms, (true, c')) ∧
    length ms = length env.
Proof.
  revert c. induction env as [|[name value] env IH]; intros c; [by eexists _, _|].
  cbn [map serve_all]. cbn [serve_request].
  destruct (env_log name value c) as (c1 & b & E & Hn). rewrite E.
  rewrite (replies_op _ c c1 b Hn). destruct (IH c1) as (ms & c' & -> & Hl).
  eexists _, _. split; [done|]. cbn. by rewrite Hl.
Qed.

(** Forwarding requests are not answered; their callbacks may end the connection. *)
Lemma forwarding_quiet x11 agent (c : Conn) :
  fst (serve_all (forwarding_requests x11 agent) c) = [].
Proof.
  unfold forwarding_requests. destruct x11 as [p|], agent; cbn; unfold replies; cbn;
    repeat case_match; simplify_eq/=; done.
Qed.

Lemma serve_pty from_u8 pty (c : Conn) :
  ∃ c', serve_all (pty_requests from_u8 pty []) c
        = ([verdict_msg (pty_verdict from_u8 pty c)], (true, c')).
Proof.
  cbn [pty_requests map serve_all serve_request]. unfold pty_request, mbind, srv_bind, handler_of.
  destruct (answered_log (pty_handler calls)
    ({| px_session := session_context (cn_handler c); px_channel := ch |}, pty_params from_u8 pty) c)
    as (c' & E & Hn & _).
  unfold pty_params in E at 1. unfold ServerHandler.calls. rewrite E.
  rewrite (replies_op _ c c' _ Hn). by exists c'.
Qed.

Lemma serve_shell (c : Conn) :
  ∃ c', serve_all [RequestShell true] c = ([verdict_msg (shell_verdict c)], (true, c')).
Proof.
  cbn [serve_all serve_request]. unfold shell_request, mbind, srv_bind, handler_of.
  destruct (answered_log (shell_handler calls)
    {| sh_session := session_context (cn_handler c); sh_channel := ch |} c) as (c' & E & Hn & _).
  unfold ServerHandler.calls. rewrite E. rewrite (replies_op _ c c' _ Hn). by exists c'.
Qed.

(** ** Opening a shell *)

Section Open.
Context {Handle : Type} (russh_text : RusshError → string) (from_u8 : Z → option RusshPty).

(** What the client asks before the shell itself. *)
Definition before_shell (self : Shell Handle) : list ShellAction :=
  match Shell.sh_pty self with
  | None => []
  | Some pty => pty_requests from_u8 pty (Shell.sh_env self)
  end ++ forwarding_requests (sh_x11_params self) (sh_want_agent_forward self).

Definition pty_accepted (self : Shell Handle) (c : Conn) : bool :=
  match Shell.sh_pty self with None => true | Some pty => pty_verdict from_u8 pty c end.

(** The requests the client makes of this server: no more than the PTY when that is
    refused. *)
Definition asked (self : Shell Handle) (c : Conn) : list ShellAction :=
  match Shell.sh_pty self with
  | Some pty => if pty_verdict from_u8 pty c then shell_requests from_u8 self
                else pty_requests from_u8 pty []
  | None => shell_requests from_u8 self
  end.

Lemma shell_requests_split self :
  shell_requests from_u8 self = before_shell self ++ [RequestShell true].
Proof. unfold shell_requests, before_shell. by rewrite app_assoc. Qed.

(** The replies before the one to the shell request, when the connection survives. *)
Lemma serve_before_shell self (c c' : Conn) ms :
  serve_all (before_shell self) c = (ms, (true, c')) →
  length ms = setup_replies self ∧
  (∀ pty, Shell.sh_pty self = Some pty → ms !! 0%nat = Some (verdict_msg (pty_verdict from_u8 pty c))).
Proof.
  unfold before_shell, setup_replies. rewrite serve_all_app.
  destruct (Shell.sh_pty self) as [pty|].
  - change (pty_requests from_u8 pty (Shell.sh_env self))
      with (pty_requests from_u8 pty [] ++ map (λ '(name, value), SetEnv true name value) (Shell.sh_env self)).
    rewrite serve_all_app. destruct (serve_pty from_u8 pty c) as (c1 & ->).
    destruct (serve_env (Shell.sh_env self) c1) as (me & c2 & -> & Hl).
    pose proof (forwarding_quiet (sh_x11_params self) (sh_want_agent_forward self) c2) as Hq.
    destruct (serve_all (forwarding_requests _ _) c2) as [mf s]. cbn in Hq. subst mf.
    intros [= <- ->]. rewrite app_nil_r. split; [cbn; by rewrite Hl|].
    intros pty' [= <-]. done.
  - cbn [serve_all].
    pose proof (forwarding_quiet (sh_x11_params self) (sh_want_agent_forward self) c) as Hq.
    destruct (serve_all (forwarding_requests _ _) c) as [mf s]. cbn in Hq. subst mf.
    intros [= <- ->]. done.
Qed.

Lemma refused_verdict b : refused (Some (verdict_msg b)) = negb b.
Proof. by destruct b. Qed.

(** The last request of an open, given its reply. *)
Definition opened_as (b : bool) (l : list ShellAction) (later : list CommandMsg)
    (o : Result ShellHandle * option ChannelState) : Prop :=
  ∃ r chan, o = (r, Some chan) ∧ is_ok r = b ∧
    requested chan = l ++ (if b then [] else [ChClose]) ∧ Shell.inbox chan = later ∧
    (∀ opened, r = Ok opened → opened = handle_of chan).

Lemma final_request_opened a message l n inbox b later :
  inbox !! n = Some (verdict_msg b) → drop (S n) inbox = later →
  opened_as b (l ++ [a]) later
    (final_request a message l n {| Shell.inbox := inbox; requested := [] |}).
Proof.
  intros Hb Hl. unfold final_request. cbn [Shell.inbox]. rewrite Hb, refused_verdict.
  destruct b; cbn [negb]; eexists _, _; (split; [done|]); repeat split; cbn; try done.
  - by rewrite app_nil_r.
  - by intros opened [= <-].
Qed.

(** C37.  Opening a shell on a server of this library: the requests the client makes are served
    in order, and the open succeeds exactly when the PTY callback, if a PTY is asked for,
    and then the shell callback accept, the callbacks being given the client's terminal,
    size and modes.  The client reads exactly the replies to its requests: what the server
    sends later is left for the caller. *)
Theorem shell_open_served (self : Shell Handle) (h : Handle) (c c' : Conn) ms
    (later : list CommandMsg) :
  sh_handle self = Some h → serve_all (before_shell self) c = (ms, (true, c')) →
  let inbox := fst (serve_all (asked self c) c) ++ later in
  opened_as (pty_accepted self c && shell_verdict c') (asked self c) later
    (Shell_open russh_text from_u8 (λ _, Ok ())
      (λ _ _, Some (Ok {| Shell.inbox := inbox; requested := [] |})) self).
Proof.
  intros Hh Hs. destruct (serve_before_shell self c c' ms Hs) as [Hlen Hpty].
  destruct (serve_shell c') as (c2 & Hshell).
  assert (Hall : serve_all (shell_requests from_u8 self) c
                 = (ms ++ [verdict_msg (shell_verdict c')], (true, c2)))
    by by rewrite shell_requests_split, serve_all_app, Hs, Hshell.
  assert (Hlook : ∀ tail, ((ms ++ [verdict_msg (shell_verdict c')]) ++ tail) !! setup_replies self
                  = Some (verdict_msg (shell_verdict c'))).
  { intros tail. rewrite <-Hlen, lookup_app_l, lookup_app_r, Nat.sub_diag
      by (rewrite ?length_app; cbn; lia). done. }
  assert (Hdrop : drop (S (setup_replies self)) ((ms ++ [verdict_msg (shell_verdict c')]) ++ later)
                  = later).
  { replace (S (setup_replies self)) with (length (ms ++ [verdict_msg (shell_verdict c')]))
      by (rewrite length_app, Hlen; cbn; lia). apply drop_app_length. }
  cbv zeta. rewrite (shell_open_eq _ _ _ self h _ Hh eq_refl).
  unfold shell_open_result, asked, pty_accepted, setup_replies, shell_requests in *.
  destruct (Shell.sh_pty self) as [pty|].
  - destruct (pty_verdict from_u8 pty c) eqn:Ev.
    + rewrite Hall. cbn [fst Shell.inbox andb].
      rewrite lookup_app_l, lookup_app_l by (rewrite ?length_app; lia).
      rewrite (Hpty pty eq_refl), Ev. cbn [verdict_msg refused]. rewrite app_assoc.
      by apply final_request_opened.
    + destruct (serve_pty from_u8 pty c) as (c1 & Ep). rewrite Ep, Ev.
      cbn [fst Shell.inbox verdict_msg app lookup list_lookup refused andb].
      by eexists _, _.
  - rewrite Hall. cbn [fst andb app]. by apply final_request_opened.
Qed.

(** ** Opening a subsystem *)

(** The built-in SFTP server takes the name [sftp]; otherwise the callback decides. *)
Definition subsystem_verdict (name : string) (c : Conn) : bool :=
  if is_Some_dec (sftp_handler calls) then
    if String.eqb name "sftp" then true
    else accepts (subsystem_handler calls)
           {| ss_session := session_context (cn_handler c); ss_channel := ch; ss_name := name |}
           (cn_app c)
  else accepts (subsystem_handler calls)
         {| ss_session := session_context (cn_handler c); ss_channel := ch; ss_name := name |}
         (cn_app c).

Lemma serve_subsystem name (c : Conn) :
  ∃ c', serve_all [RequestSubsystem true name] c
        = ([verdict_msg (subsystem_verdict name c)], (true, c')).
Proof.
  cbn [serve_all serve_request].
  assert (∃ c', subsystem_request runtime log_op ch name c = (Ok (), c') ∧
            cn_net c' = cn_net c ++ [verdict_op (subsystem_verdict name c)]) as (c' & E & Hn).
  { unfold subsystem_request, subsystem_verdict, ServerHandler.calls, mbind, srv_bind, handler_of,
      modify, op.
    destruct (answered_log (subsystem_handler calls)
      {| ss_session := session_context (cn_handler c); ss_channel := ch; ss_name := name |} c)
      as (c1 & E & Hn & _).
    destruct (sftp_handler calls); [|by exists c1]. destruct (String.eqb name "sftp"); [by eexists|].
    by exists c1. }
  rewrite E, (replies_op _ c c' _ Hn). by exists c'.
Qed.

(** A subsystem opens exactly when the server accepts its name; a server with an SFTP
    handler always accepts [sftp]. *)
Lemma subsystem_open_served (self : SubsystemRequest Handle) h (c c' : Conn) ms later :
  let fwd := forwarding_requests (ss_x11_params self) (ss_want_agent_forward self) in
  let request := RequestSubsystem true (Shell.ss_name self) in
  ss_handle self = Some h → serve_all fwd c = (ms, (true, c')) →
  let inbox := fst (serve_all (fwd ++ [request]) c) ++ later in
  opened_as (subsystem_verdict (Shell.ss_name self) c') (fwd ++ [request]) later
    (Subsystem_open russh_text (λ _, Ok ())
      (λ _ _, Some (Ok {| Shell.inbox := inbox; requested := [] |})) self).
Proof.
  cbv zeta. intros Hh Hs. rewrite serve_all_app, Hs.
  pose proof (forwarding_quiet (ss_x11_params self) (ss_want_agent_forward self) c) as Hq.
  rewrite Hs in Hq. cbn in Hq. subst ms.
  destruct (serve_subsystem (Shell.ss_name self) c') as (c2 & ->).
  rewrite (subsystem_open_eq _ _ self h _ Hh eq_refl). by apply final_request_opened.
Qed.
End Open.
End Serve.

(** ** A concrete run *)

(** A server that accepts PTYs of one terminal type, and every shell. *)
Definition pty_app : callback nat (PtyContext * PtyParams) unit := λ x a,
  (if String.eqb (pp_term (snd x)) "xterm-256color" then Ok ()
   else Err (Error_unsupported "terminal"), S a).

Definition shell_runtime : AppRuntime :=
  built (builder_shell_handler (builder_pty_handler app_builder pty_app) (always (Ok ()))).

Definition shell_opcode (p : RusshPty) : Z := match p with ECHO => 53 | _ => 0 end.

Lemma shell_open_served_witness :
  opened_as true
    [RequestPty true "xterm-256color" 80 24 0 0 [(ECHO, 1)]; SetEnv true "LANG" "C";
     AgentForward false; RequestShell true] [CData (as_bytes "$ ")]
    (Shell_open (λ _, "") (λ _, None) (λ _, Ok ())
       (λ _ _, Some (Ok {| Shell.inbox := [CSuccess; CSuccess; CSuccess; CData (as_bytes "$ ")];
                           requested := [] |})) run_shell).
Proof.
  refine (shell_open_served shell_runtime CustomSig shell_opcode 1 (λ _, "") (λ _, None)
            run_shell tt logged_in
            (snd (snd (serve_all shell_runtime CustomSig shell_opcode 1
                         (before_shell (λ _, None) run_shell) logged_in)))
            [CSuccess; CSuccess] [CData (as_bytes "$ ")] _ _); by vm_compute.
Defined.
