(* ===== verification/SftpMock.v ===== *)
(** * The in-memory SFTP server of the tests ([russh-extra-test-support/src/sftp_mock.rs])

    [MockSftpServer] answers the client's packets from maps of files, attributes,
    directories and symbolic links.  Its readers index the payload without a check, so
    a handler may panic ([None]); what it sends goes through [session_op], which may
    fail.  [mock_serve] says on requests and responses what it does; the handlers
    refine it on bytes, and the client's operations are run against it. *)
From S2P Require Import Prelude RustStr Channel CoreError Endpoint Config SftpPacket.
From S2P Require Import SftpWire SftpFraming SftpTypes SftpServer SftpClient.
From S2P Require Import SftpLoopback ClientErrors ServerTypes ServerBuild ServerHandler.

(** ** State *)

Record MockSftpServer := {
  mk_files : gmap string (list byte);
  mk_file_attrs : gmap string (Z * Z);
  mk_dir_entries : gmap string (list string);
  mk_symlinks : gmap string string;
  mk_buffers : gmap Z (list byte);
  mk_next_handle : Z;
  mk_handles : gmap string (string * Z);
  mk_readdir_positions : gmap string nat;
}.

Definition MockSftpServer_new : MockSftpServer :=
  {| mk_files := ∅; mk_file_attrs := ∅; mk_dir_entries := ∅; mk_symlinks := ∅;
     mk_buffers := ∅; mk_next_handle := 1; mk_handles := ∅; mk_readdir_positions := ∅ |}.

Definition set_files (f : gmap string (list byte)) (a : gmap string (Z * Z))
    (m : MockSftpServer) : MockSftpServer :=
  {| mk_files := f; mk_file_attrs := a; mk_dir_entries := mk_dir_entries m;
     mk_symlinks := mk_symlinks m; mk_buffers := mk_buffers m;
     mk_next_handle := mk_next_handle m; mk_handles := mk_handles m;
     mk_readdir_positions := mk_readdir_positions m |}.
Definition set_buffer (ch : Z) (b : list byte) (m : MockSftpServer) : MockSftpServer :=
  {| mk_files := mk_files m; mk_file_attrs := mk_file_attrs m;
     mk_dir_entries := mk_dir_entries m; mk_symlinks := mk_symlinks m;
     mk_buffers := <[ch := b]> (mk_buffers m);
     mk_next_handle := mk_next_handle m; mk_handles := mk_handles m;
     mk_readdir_positions := mk_readdir_positions m |}.
Definition set_position (h : string) (n : nat) (m : MockSftpServer) : MockSftpServer :=
  {| mk_files := mk_files m; mk_file_attrs := mk_file_attrs m;
     mk_dir_entries := mk_dir_entries m; mk_symlinks := mk_symlinks m;
     mk_buffers := mk_buffers m;
     mk_next_handle := mk_next_handle m; mk_handles := mk_handles m;
     mk_readdir_positions := <[h := n]> (mk_readdir_positions m) |}.

Definition add_file (path : string) (data : list byte) (size perms : Z) (m : MockSftpServer) :
    MockSftpServer :=
  set_files (<[path := data]> (mk_files m)) (<[path := (size, perms)]> (mk_file_attrs m)) m.
Definition add_dir (path : string) (entries : list string) (m : MockSftpServer) :
    MockSftpServer :=
  {| mk_files := mk_files m; mk_file_attrs := mk_file_attrs m;
     mk_dir_entries := <[path := entries]> (mk_dir_entries m); mk_symlinks := mk_symlinks m;
     mk_buffers := mk_buffers m; mk_next_handle := mk_next_handle m;
     mk_handles := mk_handles m; mk_readdir_positions := mk_readdir_positions m |}.
Definition add_symlink (linkpath targetpath : string) (m : MockSftpServer) : MockSftpServer :=
  {| mk_files := mk_files m; mk_file_attrs := mk_file_attrs m;
     mk_dir_entries := mk_dir_entries m;
     mk_symlinks := <[linkpath := targetpath]> (mk_symlinks m);
     mk_buffers := mk_buffers m; mk_next_handle := mk_next_handle m;
     mk_handles := mk_handles m; mk_readdir_positions := mk_readdir_positions m |}.

(** The counter is a [u32] that wraps. *)
Definition alloc_handle (kind : Z) (data : string) (m : MockSftpServer) :
    string * MockSftpServer :=
  let handle := "h-" +:+ dec (mk_next_handle m) in
  (handle,
   {| mk_files := mk_files m; mk_file_attrs := mk_file_attrs m;
      mk_dir_entries := mk_dir_entries m; mk_symlinks := mk_symlinks m;
      mk_buffers := mk_buffers m; mk_next_handle := wrap 32 (mk_next_handle m + 1);
      mk_handles := <[handle := (data, kind)]> (mk_handles m);
      mk_readdir_positions := mk_readdir_positions m |}).

Definition resolve_handle (handle : string) (m : MockSftpServer) : option (string * Z) :=
  mk_handles m !! handle.

(** ** Wire helpers *)

Definition frame_sftp (ptype : Z) (payload : list byte) : list byte :=
  let len := wrap 32 (1 + as_u32 (vec_len payload)) in
  be_bytes 4 len ++ [z2b ptype] ++ payload.
Definition push_u32_sftp (buf : list byte) (v : Z) : list byte := buf ++ be_bytes 4 v.
Definition push_u64_sftp (buf : list byte) (v : Z) : list byte := buf ++ be_bytes 8 v.
Definition push_bytes_sftp (buf data : list byte) : list byte :=
  push_u32_sftp buf (as_u32 (vec_len data)) ++ data.
Definition push_string_sftp (buf : list byte) (s : string) : list byte :=
  push_bytes_sftp buf (as_bytes s).

(** A reader of the payload at a position; [None] when an index is out of range. *)
Definition mparser (A : Type) : Type := list byte → nat → option (A * nat).

#[export] Instance mparser_ret : MRet mparser := λ A a data pos, Some (a, pos).
#[export] Instance mparser_bind : MBind mparser :=
  λ A B f p data pos, match p data pos with Some (a, pos') => f a data pos' | None => None end.

Definition mrun {A} (p : mparser A) (payload : list byte) : option A := fst <$> p payload 0%nat.

Definition pop_n_sftp (n : nat) : mparser (list byte) := λ data pos,
  if (length data <? pos + n)%nat then None else Some (slice data pos n, (pos + n)%nat).
Definition pop_u32_sftp : mparser Z := b ← pop_n_sftp 4; mret (from_be b).
Definition pop_u64_sftp : mparser Z := b ← pop_n_sftp 8; mret (from_be b).
Definition pop_bytes_sftp : mparser (list byte) :=
  len ← pop_u32_sftp; pop_n_sftp (Z.to_nat len).
Definition pop_string_sftp : mparser string :=
  bytes ← pop_bytes_sftp; mret (if utf8_valid bytes then of_bytes bytes else "").

(** ** Handlers

    The permissions [0o644], [0o755] and [0o777] are written in base sixteen. *)

Section Mock.
Context {N : Type} (session_op : SessionOp → N → result RusshError unit * N).

(** A handler: [None] when it panics. *)
Definition mstep : Type :=
  MockSftpServer * N → option (result RusshError unit * (MockSftpServer * N)).

(** [session.data(channel, response)?; Ok(())], after the state has become [m]. *)
Definition mock_send (ch : Z) (response : list byte) (m : MockSftpServer) (n : N) :
    option (result RusshError unit * (MockSftpServer * N)) :=
  let '(r, n) := session_op (OpData ch response) n in Some (r, (m, n)).

Definition mock_status (id code : Z) (message : string) : list byte :=
  let response := push_u32_sftp [] id in
  let response := push_u32_sftp response code in
  let response := push_string_sftp response message in
  let response := push_string_sftp response "en" in
  frame_sftp 101 response.

Definition mock_handle_response (id : Z) (handle : string) : list byte :=
  let response := push_u32_sftp [] id in
  let response := push_string_sftp response handle in
  frame_sftp 102 response.

Definition mock_handle_init (ch : Z) (packet : list byte) : mstep := λ '(m, n),
  let payload := push_u32_sftp [] 3 in
  let payload := push_u32_sftp payload 0 in
  mock_send ch (frame_sftp 2 payload) m n.

Definition mock_handle_open (ch : Z) (packet : list byte) : mstep := λ '(m, n),
  '(id, filename) ← mrun (id ← pop_u32_sftp; filename ← pop_string_sftp;
                          _flags ← pop_u32_sftp; mret (id, filename)) (drop 1 packet);
  let '(handle, m) := alloc_handle 1 filename m in
  mock_send ch (mock_handle_response id handle) m n.

Definition mock_handle_close (ch : Z) (packet : list byte) : mstep := λ '(m, n),
  id ← mrun (id ← pop_u32_sftp; _handle ← pop_string_sftp; mret id) (drop 1 packet);
  mock_send ch (mock_status id 0 "OK") m n.

(** [&file_data[offset.min(len)..(offset + len).min(len)]]; the sum is checked. *)
Definition read_slice (file_data : list byte) (offset len : Z) : option (list byte) :=
  if 2 ^ 64 <=? offset + len then None
  else
    let size := vec_len file_data in
    let from := Z.to_nat (Z.min offset size) in
    let to := Z.to_nat (Z.min (offset + len) size) in
    Some (slice file_data from (to - from)).

Definition mock_handle_read (ch : Z) (packet : list byte) : mstep := λ '(m, n),
  '(id, handle, offset, len) ←
    mrun (id ← pop_u32_sftp; handle ← pop_string_sftp; offset ← pop_u64_sftp;
          len ← pop_u32_sftp; mret (id, handle, offset, len)) (drop 1 packet);
  match resolve_handle handle m with
  | Some (ref_data, _) =>
      let file_data := default [] (mk_files m !! ref_data) in
      data ← read_slice file_data offset len;
      let response := push_u32_sftp [] id in
      let response := push_bytes_sftp response data in
      mock_send ch (frame_sftp 103 response) m n
  | None => mock_send ch (mock_status id 1 "EOF") m n
  end.

(** The file after [data] is copied to [offset]: the sum is checked, and growing it past
    the largest allocation panics. *)
Definition write_slice (file : list byte) (offset : Z) (data : list byte) : option (list byte) :=
  let last := offset + vec_len data in
  if 2 ^ 64 <=? last then None
  else if (vec_len file <? last) && (ISIZE_MAX <? last) then None
  else
    let file := file ++ replicate (Z.to_nat last - length file) (z2b 0) in
    Some (take (Z.to_nat offset) file ++ data ++ drop (Z.to_nat last) file).

Definition write_file (handle : string) (offset : Z) (data : list byte) (m : MockSftpServer) :
    option MockSftpServer :=
  match resolve_handle handle m with
  | Some (ref_data, _) =>
      match mk_files m !! ref_data with
      | Some file =>
          file ← write_slice file offset data;
          let attrs :=
            match mk_file_attrs m !! ref_data with
            | Some (_, perms) => <[ref_data := (vec_len file, perms)]> (mk_file_attrs m)
            | None => mk_file_attrs m
            end in
          Some (set_files (<[ref_data := file]> (mk_files m)) attrs m)
      | None => Some m
      end
  | None => Some m
  end.

Definition mock_handle_write (ch : Z) (packet : list byte) : mstep := λ '(m, n),
  '(id, handle, offset, data) ←
    mrun (id ← pop_u32_sftp; handle ← pop_string_sftp; offset ← pop_u64_sftp;
          data ← pop_bytes_sftp; mret (id, handle, offset, data)) (drop 1 packet);
  m ← write_file handle offset data m;
  mock_send ch (mock_status id 0 "OK") m n.

Definition handle_attrs_response (ch : Z) (packet : list byte) : mstep := λ '(m, n),
  '(id, path) ← mrun (id ← pop_u32_sftp; path ← pop_string_sftp; mret (id, path)) (drop 1 packet);
  let '(size, perms) := default (4096, 0x1a4) (mk_file_attrs m !! path) in
  let response := push_u32_sftp [] id in
  let response := push_u32_sftp response (Z.lor 0x00000001 0x00000004) in
  let response := push_u64_sftp response size in
  let response := push_u32_sftp response perms in
  mock_send ch (frame_sftp 105 response) m n.

Definition mock_handle_stat (ch : Z) (packet : list byte) : mstep :=
  handle_attrs_response ch packet.
Definition mock_handle_lstat (ch : Z) (packet : list byte) : mstep :=
  handle_attrs_response ch packet.

Definition mock_handle_opendir (ch : Z) (packet : list byte) : mstep := λ '(m, n),
  '(id, path) ← mrun (id ← pop_u32_sftp; path ← pop_string_sftp; mret (id, path)) (drop 1 packet);
  let '(handle, m) := alloc_handle 2 path m in
  mock_send ch (mock_handle_response id handle) m n.

Definition mock_longname (entry : string) : string :=
  "-rw-r--r-- 1 user group 0 Jan 1 2024 " +:+ entry.

Definition mock_handle_readdir (ch : Z) (packet : list byte) : mstep := λ '(m, n),
  '(id, handle) ← mrun (id ← pop_u32_sftp; handle ← pop_string_sftp; mret (id, handle))
                    (drop 1 packet);
  match resolve_handle handle m with
  | Some (dir_path, _) =>
      let entries := default [] (mk_dir_entries m !! dir_path) in
      let pos := default 0%nat (mk_readdir_positions m !! handle) in
      match entries !! pos with
      | Some entry =>
          let m := set_position handle (pos + 1) m in
          let response := push_u32_sftp [] id in
          let response := push_u32_sftp response 1 in
          let response := push_string_sftp response entry in
          let response := push_string_sftp response (mock_longname entry) in
          let response := push_u32_sftp response (Z.lor 0x00000001 0x00000004) in
          let response := push_u64_sftp response 0 in
          let response := push_u32_sftp response 0x1a4 in
          mock_send ch (frame_sftp 104 response) m n
      | None => mock_send ch (mock_status id 1 "EOF") (set_position handle pos m) n
      end
  | None => mock_send ch (mock_status id 1 "EOF") m n
  end.

Definition simple_status (code : Z) (ch : Z) (packet : list byte) : mstep := λ '(m, n),
  id ← mrun pop_u32_sftp (drop 1 packet);
  mock_send ch (mock_status id code "OK") m n.

Definition mock_handle_remove : Z → list byte → mstep := simple_status 0.
Definition mock_handle_mkdir : Z → list byte → mstep := simple_status 0.
Definition mock_handle_rmdir : Z → list byte → mstep := simple_status 0.
Definition mock_handle_rename : Z → list byte → mstep := simple_status 0.
Definition mock_handle_symlink : Z → list byte → mstep := simple_status 0.

(** A name response with one entry named twice. *)
Definition mock_name_response (id : Z) (name : string) (perms : Z) : list byte :=
  let response := push_u32_sftp [] id in
  let response := push_u32_sftp response 1 in
  let response := push_string_sftp response name in
  let response := push_string_sftp response name in
  let response := push_u32_sftp response 0x00000004 in
  let response := push_u32_sftp response perms in
  frame_sftp 104 response.

Definition mock_handle_realpath (ch : Z) (packet : list byte) : mstep := λ '(m, n),
  '(id, path) ← mrun (id ← pop_u32_sftp; path ← pop_string_sftp; mret (id, path)) (drop 1 packet);
  mock_send ch (mock_name_response id path 0x1ed) m n.

Definition mock_handle_readlink (ch : Z) (packet : list byte) : mstep := λ '(m, n),
  '(id, path) ← mrun (id ← pop_u32_sftp; path ← pop_string_sftp; mret (id, path)) (drop 1 packet);
  let target := default "" (mk_symlinks m !! path) in
  mock_send ch (mock_name_response id target 0x1ff) m n.

Definition mock_handle_packet (ch : Z) (packet : list byte) : mstep := λ s,
  match packet with
  | [] => Some (Ok (), s)
  | t :: _ =>
      let t := b2z t in
      if t =? 1 then mock_handle_init ch packet s
      else if t =? 3 then mock_handle_open ch packet s
      else if t =? 4 then mock_handle_close ch packet s
      else if t =? 5 then mock_handle_read ch packet s
      else if t =? 6 then mock_handle_write ch packet s
      else if t =? 7 then mock_handle_lstat ch packet s
      else if t =? 11 then mock_handle_opendir ch packet s
      else if t =? 12 then mock_handle_readdir ch packet s
      else if t =? 13 then mock_handle_remove ch packet s
      else if t =? 14 then mock_handle_mkdir ch packet s
      else if t =? 15 then mock_handle_rmdir ch packet s
      else if t =? 16 then mock_handle_realpath ch packet s
      else if t =? 17 then mock_handle_stat ch packet s
      else if t =? 18 then mock_handle_rename ch packet s
      else if t =? 19 then mock_handle_readlink ch packet s
      else if t =? 20 then mock_handle_symlink ch packet s
      else Some (Ok (), s)
  end.

(** The loop of [feed]: a length field out of range clears the buffer.  Each turn removes
    at least five bytes, so the buffer's length bounds the turns. *)
Fixpoint feed_loop (fuel : nat) (ch : Z) : mstep := λ '(m, n),
  let buf := default [] (mk_buffers m !! ch) in
  if (length buf <? 4)%nat then Some (Ok (), (set_buffer ch buf m, n))
  else
    let packet_len := from_be (slice buf 0 4) in
    if (packet_len =? 0) || (256 * 1024 <? packet_len) then Some (Ok (), (set_buffer ch [] m, n))
    else
      let len := Z.to_nat packet_len in
      if (length buf <? 4 + len)%nat then Some (Ok (), (set_buffer ch buf m, n))
      else
        match fuel with
        | O => Some (Ok (), (m, n))
        | S f =>
            let packet := slice buf 4 len in
            let m := set_buffer ch (drop (4 + len) buf) m in
            match mock_handle_packet ch packet (m, n) with
            | Some (Ok _, s) => feed_loop f ch s
            | other => other
            end
        end.

Definition mock_feed (ch : Z) (data : list byte) : mstep := λ '(m, n),
  let buf := default [] (mk_buffers m !! ch) ++ data in
  feed_loop (length buf) ch (set_buffer ch buf m, n).
End Mock.

(** ** What it does, on requests and responses *)

Definition mock_attrs (size perms : Z) : SftpFileAttrs :=
  {| flags := 5; SftpPacket.size := Some size; uid := None; gid := None;
     permissions := Some perms; atime := None; mtime := None |}.
Definition mock_perms (perms : Z) : SftpFileAttrs :=
  {| flags := 4; SftpPacket.size := None; uid := None; gid := None;
     permissions := Some perms; atime := None; mtime := None |}.

Definition eof : SftpResponse := RespStatus SSH_FX_EOF "EOF".
Definition done_ok : SftpResponse := RespStatus SSH_FX_OK "OK".

(** [None] when the server panics; no response to a request it does not know. *)
Definition mock_serve (r : Request) (m : MockSftpServer) :
    option (option SftpResponse * MockSftpServer) :=
  match r with
  | ROpen f _ _ => let '(h, m) := alloc_handle 1 f m in Some (Some (RespHandle h), m)
  | ROpendir p => let '(h, m) := alloc_handle 2 p m in Some (Some (RespHandle h), m)
  | RRead h o n =>
      match resolve_handle h m with
      | Some (p, _) =>
          d ← read_slice (default [] (mk_files m !! p)) o n; Some (Some (RespData d), m)
      | None => Some (Some eof, m)
      end
  | RWrite h o d => m ← write_file h o d m; Some (Some done_ok, m)
  | RStat p | RLstat p =>
      let '(size, perms) := default (4096, 0x1a4) (mk_file_attrs m !! p) in
      Some (Some (RespAttrs (mock_attrs size perms)), m)
  | RReaddir h =>
      match resolve_handle h m with
      | Some (p, _) =>
          let entries := default [] (mk_dir_entries m !! p) in
          let pos := default 0%nat (mk_readdir_positions m !! h) in
          match entries !! pos with
          | Some e =>
              Some (Some (RespName [(e, mock_longname e, mock_attrs 0 0x1a4)]),
                    set_position h (pos + 1) m)
          | None => Some (Some eof, set_position h pos m)
          end
      | None => Some (Some eof, m)
      end
  | RRealpath p => Some (Some (RespName [(p, p, mock_perms 0x1ed)]), m)
  | RReadlink p =>
      let target := default "" (mk_symlinks m !! p) in
      Some (Some (RespName [(target, target, mock_perms 0x1ff)]), m)
  | RClose _ | RRemove _ | RRename _ _ | RMkdir _ _ | RRmdir _ | RSymlink _ _ =>
      Some (Some done_ok, m)
  | RFstat _ | RSetstat _ _ | RFsetstat _ _ => Some (None, m)
  end.

(** ** The readers agree with the checked ones *)

Definition agrees {A} (p : parser A) (q : mparser A) : Prop :=
  ∀ data pos v pos', p data pos = Ok (v, pos') → q data pos = Some (v, pos').
Definition covers {A B} (f : A → B) (p : parser A) (q : mparser B) : Prop :=
  ∀ data pos v pos', p data pos = Ok (v, pos') → ∃ pos'', q data pos = Some (f v, pos'').

Lemma covers_bind {A C D} (f : C → D) (p : parser A) (k : A → parser C) (q : mparser A)
    (k' : A → mparser D) :
  agrees p q → (∀ a, covers f (k a) (k' a)) → covers f (p ≫= k) (q ≫= k').
Proof.
  intros Hp Hk data pos v pos'. unfold mbind, parser_bind, mparser_bind, mbind, result_bind.
  destruct (p data pos) as [[a pos1]|e] eqn:E; [|done]. cbn.
  rewrite (Hp _ _ _ _ E). apply Hk.
Qed.

Lemma covers_last {A C} (f : C → A) (p : parser A) (k : A → parser C) (q : mparser A) :
  agrees p q → (∀ a, covers f (k a) (mret a)) → covers f (p ≫= k) q.
Proof.
  intros Hp Hk data pos v pos' H.
  destruct (covers_bind f p k q mret Hp Hk data pos v pos' H) as [pos'' E]. exists pos''.
  unfold mbind, mparser_bind in E. by destruct (q data pos) as [[]|].
Qed.

Lemma covers_ret {A B} (f : A → B) v w : f v = w → covers f (mret v) (mret w).
Proof. intros <- data pos v' pos' [= <- <-]. by exists pos. Qed.

Lemma covers_skip {A C D} (f : C → D) (p : parser A) (k : A → parser C) w :
  (∀ a, covers f (k a) (mret w)) → covers f (p ≫= k) (mret w).
Proof.
  intros Hk data pos v pos'. unfold mbind, parser_bind, mbind, result_bind.
  destruct (p data pos) as [[a pos1]|e]; [|done]. cbn. intros H.
  destruct (Hk a _ _ _ _ H) as [? E]. exists pos. by injection E as -> _.
Qed.

Lemma covers_run {A B} (f : A → B) p q payload v :
  covers f p q → run p payload = Ok v → mrun q payload = Some (f v).
Proof.
  intros Hc. unfold run, mrun. destruct (p payload 0%nat) as [[v' pos]|e] eqn:E; [|done].
  intros [= <-]. by destruct (Hc _ _ _ _ E) as [? ->].
Qed.

Lemma agrees_u32 : agrees pop_u32 pop_u32_sftp.
Proof.
  intros data pos v pos'. unfold pop_u32, pop_u32_sftp, pop_n_sftp, mbind, mparser_bind, check_bounds.
  by destruct (_ <? _)%nat; [|intros [= <- <-]].
Qed.
Lemma agrees_u64 : agrees pop_u64 pop_u64_sftp.
Proof.
  intros data pos v pos'. unfold pop_u64, pop_u64_sftp, pop_n_sftp, mbind, mparser_bind, check_bounds.
  by destruct (_ <? _)%nat; [|intros [= <- <-]].
Qed.
Lemma agrees_bytes : agrees pop_bytes pop_bytes_sftp.
Proof.
  intros data pos v pos'. unfold pop_bytes, pop_bytes_sftp, mbind, mparser_bind, result_bind.
  destruct (pop_u32 data pos) as [[len pos1]|e] eqn:E; [|done]. rewrite (agrees_u32 _ _ _ _ E).
  destruct (_ <? len); [done|]. unfold pop_n_sftp, check_bounds.
  by destruct (_ <? _)%nat; [|intros [= <- <-]].
Qed.
Lemma agrees_string : agrees pop_string pop_string_sftp.
Proof.
  intros data pos v pos'. unfold pop_string, pop_string_sftp, mbind, mparser_bind, result_bind.
  destruct (pop_bytes data pos) as [[b pos1]|e] eqn:E; [|done]. rewrite (agrees_bytes _ _ _ _ E).
  by destruct (utf8_valid b); [intros [= <- <-]|].
Qed.
Create HintDb mock.
Create Rewrite HintDb mock.
#[export] Hint Resolve agrees_u32 agrees_u64 agrees_bytes agrees_string : mock.

(** Follow the fields the mock reads, skip those it does not, and return. *)
Ltac mock_fields :=
  repeat first
    [ apply covers_ret; reflexivity
    | apply covers_bind; [solve [auto with mock]|intros ?]
    | apply covers_last; [solve [auto with mock]|intros ?]
    | apply covers_skip; intros ? ].

(** ** Its packets are the encoder's *)

Lemma frame_sftp_frame t payload : frame_sftp t payload = frame t payload.
Proof. by rewrite frame_eq. Qed.

Lemma mock_status_encode id code msg :
  mock_status id code msg = encode_response id (RespStatus code msg).
Proof. apply frame_sftp_frame. Qed.
Lemma mock_handle_encode id h : mock_handle_response id h = encode_response id (RespHandle h).
Proof. apply frame_sftp_frame. Qed.
Lemma mock_name_encode id name perms :
  mock_name_response id name perms = encode_response id (RespName [(name, name, mock_perms perms)]).
Proof. apply frame_sftp_frame. Qed.
#[export] Hint Rewrite frame_sftp_frame mock_status_encode mock_handle_encode mock_name_encode :
  mock.

Section Refines.
Context {N : Type} (session_op : SessionOp → N → result RusshError unit * N).

(** Send the response of [mock_serve], if there is one. *)
Definition mock_answer (ch id : Z) (o : option (option SftpResponse * MockSftpServer)) (n : N) :
    option (result RusshError unit * (MockSftpServer * N)) :=
  match o with
  | None => None
  | Some (None, m) => Some (Ok (), (m, n))
  | Some (Some r, m) => mock_send session_op ch (encode_response id r) m n
  end.

(** Take the branch of one type byte on both sides, and read the fields with [f]. *)
Ltac closed_tests :=
  repeat match goal with
  | |- context [?a =? ?b] =>
      let v := eval vm_compute in (a =? b) in
      match v with true => idtac | false => idtac end;
      change (a =? b) with v; cbv iota
  end.

Ltac mock_type :=
  match goal with
  | |- (if b2z ?t =? ?k then _ else _) = Ok _ → _ =>
      destruct (Z.eqb_spec (b2z t) k) as [->|_]; [closed_tests; intros Hd|]
  end.

(** The lookups a handler makes, on both sides. *)
Ltac mock_cases :=
  cbn [mock_serve];
  repeat match goal with
  | |- context [resolve_handle ?h ?m] => destruct (resolve_handle h m) as [[]|]
  | |- context [read_slice ?a ?b ?c] => destruct (read_slice a b c)
  | |- context [write_file ?a ?b ?c ?d] => destruct (write_file a b c d)
  | |- context [default ?d ?o] =>
      lazymatch type of d with (Z * Z)%type => destruct (default d o) end
  | |- context [?l !! default 0%nat ?o] => destruct (l !! default 0%nat o)
  end; cbn [mbind option_bind].

Ltac mock_case f :=
  mock_type;
  [match goal with
  | H : @mbind _ _ _ _ _ ?d = Ok _ |- _ =>
      let E := fresh "E" in
      destruct d as [v|e] eqn:E; cbn [mbind result_bind] in H; [|discriminate H];
      unfold decode_open_request, decode_close_request, decode_read_request,
        decode_write_request, decode_remove_request, decode_rename_request,
        decode_mkdir_request, decode_rmdir_request, decode_opendir_request,
        decode_readdir_request, decode_stat_request, decode_lstat_request,
        decode_realpath_request, decode_readlink_request, decode_symlink_request in E;
      unfold mock_handle_open, mock_handle_close, mock_handle_read,
        mock_handle_write, mock_handle_lstat, mock_handle_stat, handle_attrs_response,
        mock_handle_opendir, mock_handle_readdir, mock_handle_remove, mock_handle_mkdir,
        mock_handle_rmdir, mock_handle_rename, mock_handle_symlink, simple_status,
        mock_handle_realpath, mock_handle_readlink; change (drop 1 (?x :: ?l)) with l;
      try match type of E with
      | run ?p ?b = Ok ?v =>
        match goal with
        | |- context [mrun ?q _] =>
          let C := fresh in
          assert (C : covers f p q) by mock_fields;
          rewrite (covers_run f p q b v C E); clear C; cbn [mbind option_bind]
        end
      end;
      repeat match goal with v : (_ * _)%type |- _ => destruct v end;
      injection H as <- <-; autorewrite with mock;
      first [reflexivity | mock_cases; autorewrite with mock; reflexivity]
  end|].

Lemma mock_refines ch packet rid r m n :
  decode_request packet = Ok (rid, r) →
  mock_handle_packet session_op ch packet (m, n) = mock_answer ch rid (mock_serve r m) n.
Proof.
  unfold decode_request. destruct packet as [|t body]; [done|].
  change (drop 1 (t :: body)) with body. cbn [decode_packet_type mbind result_bind].
  unfold mock_handle_packet. cbv zeta. unfold decode_body.
  mock_case (λ v : Z * string * Z * SftpFileAttrs, let '(a, b, _, _) := v in (a, b)).
  mock_case (@fst Z string).
  mock_case (λ v : Z * string * Z * Z, v).
  mock_case (λ v : Z * string * Z * list byte, v).
  mock_case (@fst Z string).
  mock_case (λ v : Z * string * string, v.1.1).
  mock_case (λ v : Z * string * SftpFileAttrs, v.1.1).
  mock_case (@fst Z string).
  mock_case (λ v : Z * string, v).
  mock_case (λ v : Z * string, v).
  mock_case (λ v : Z * string, v).
  mock_case (λ v : Z * string, v).
  mock_case (λ v : Z * string, v).
  mock_case (λ v : Z * string, v).
  mock_case (λ v : Z * string, v).
  mock_case (λ v : Z * string, v).
  mock_case (λ v : Z * string, v).
  mock_case (λ v : Z * string * string, v.1.1).
  done.
Qed.

(** ** Reassembly *)

(** The packets of a chunk in order, until a send fails or a handler panics. *)
Fixpoint handle_all (ch : Z) (packets : list (list byte)) : mstep (N:=N) := λ s,
  match packets with
  | [] => Some (Ok (), s)
  | p :: ps =>
      match mock_handle_packet session_op ch p s with
      | Some (Ok _, s) => handle_all ch ps s
      | other => other
      end
  end.

Definition rebuffer (ch : Z) (b : list byte)
    (o : option (result RusshError unit * (MockSftpServer * N))) :=
  '(r, (m, n)) ← o; Some (r, (set_buffer ch b m, n)).

Lemma set_buffer_twice ch b b' m : set_buffer ch b (set_buffer ch b' m) = set_buffer ch b m.
Proof. unfold set_buffer. cbn. by rewrite insert_insert_eq. Qed.

Lemma buffer_of ch b m : default [] (mk_buffers (set_buffer ch b m) !! ch) = b.
Proof. cbn. by rewrite lookup_insert_eq. Qed.

(** No handler looks at the buffers. *)
Lemma handle_packet_rebuffer c ch b packet m n :
  mock_handle_packet session_op c packet (set_buffer ch b m, n)
  = rebuffer ch b (mock_handle_packet session_op c packet (m, n)).
Proof.
  unfold mock_handle_packet. destruct packet as [|t body]; [done|]. cbv zeta.
  repeat match goal with |- context [b2z t =? ?k] => destruct (b2z t =? k) end;
    unfold mock_handle_init, mock_handle_open, mock_handle_close, mock_handle_read,
      mock_handle_write, mock_handle_lstat, mock_handle_stat, handle_attrs_response,
      mock_handle_opendir, mock_handle_readdir, mock_handle_remove, mock_handle_mkdir,
      mock_handle_rmdir, mock_handle_rename, mock_handle_symlink, simple_status,
      mock_handle_realpath, mock_handle_readlink, mock_send, write_file, resolve_handle, alloc_handle;
    cbn [mk_files mk_file_attrs mk_next_handle mk_dir_entries mk_symlinks mk_handles mk_readdir_positions
         set_buffer];
    repeat match goal with
    | |- context [mrun ?q ?l] => destruct (mrun q l); cbn [mbind option_bind]; [|done]
    | |- context [read_slice ?f ?o ?k] => destruct (read_slice f o k); cbn [mbind option_bind]; [|done]
    | |- context [write_slice ?f ?o ?k] => destruct (write_slice f o k); cbn [mbind option_bind]; [|done]
    | |- context [match ?x with _ => _ end] => destruct x
    end; done.
Qed.

Lemma feed_loop_split fuel ch buf m n :
  (length buf ≤ fuel)%nat →
  let '(ps, e) := split_packets buf in
  let rest := match e with NeedMore b => b | BadLength _ => [] end in
  match handle_all ch ps (m, n) with
  | Some (Ok _, (m', n')) =>
      feed_loop session_op fuel ch (set_buffer ch buf m, n) = Some (Ok (), (set_buffer ch rest m', n'))
  | other => ∃ b, feed_loop session_op fuel ch (set_buffer ch buf m, n) = rebuffer ch b other
  end.
Proof.
  revert buf m n. induction fuel as [|fuel IH]; intros buf m n Hf.
  { destruct buf; [|cbn in Hf; lia]. cbn. by rewrite lookup_insert_eq, set_buffer_twice. }
  rewrite split_packets_unfold. cbn [feed_loop]. rewrite !buffer_of.
  destruct (Nat.ltb_spec (length buf) 4) as [H4|H4].
  { cbn [handle_all]. by rewrite set_buffer_twice. }
  cbv zeta. unfold bad_length. rewrite orb_comm. change MAX_SFTP_PACKET_SIZE with (256 * 1024).
  set (l := from_be (slice buf 0 4)).
  destruct ((l =? 0) || _) eqn:Hb; [cbn [handle_all]; by rewrite set_buffer_twice|].
  destruct (Nat.ltb_spec (length buf) (4 + Z.to_nat l)) as [Hl|Hl].
  { cbn [handle_all]. by rewrite set_buffer_twice. }
  rewrite set_buffer_twice, handle_packet_rebuffer.
  assert (Hlen : (length (drop (4 + Z.to_nat l) buf) ≤ fuel)%nat) by (rewrite length_drop; lia).
  destruct (split_packets (drop (4 + Z.to_nat l) buf)) as [ps e] eqn:E. cbn [handle_all].
  destruct (mock_handle_packet session_op ch (slice buf 4 (Z.to_nat l)) (m, n))
    as [[[[]|er] [m' n']]|]; cbn [rebuffer mbind option_bind]; [|by eexists|by exists []].
  specialize (IH (drop (4 + Z.to_nat l) buf) m' n' Hlen). by rewrite E in IH.
Qed.

(** The test server cuts its input exactly like the library's, and answers every packet
    cut before a length field it refuses; the library's server drops those. *)
Theorem mock_feed_cuts (ch : Z) (data : list byte) (m : MockSftpServer) (n : N) :
  let '(ps, e) := split_packets (default [] (mk_buffers m !! ch) ++ data) in
  let rest := match e with NeedMore b => b | BadLength _ => [] end in
  match handle_all ch ps (m, n) with
  | Some (Ok _, (m', n')) =>
      mock_feed session_op ch data (m, n) = Some (Ok (), (set_buffer ch rest m', n'))
  | other => ∃ b, mock_feed session_op ch data (m, n) = rebuffer ch b other
  end.
Proof. by apply feed_loop_split. Qed.
End Refines.
