(* ===== verification/SftpMockClient.v ===== *)
(** * The client against the test server

    The client's operations run over [MockSftpServer] through framing and decoding on
    both sides: what a test of the client sees when it uses the test server. *)
From S2P Require Import Prelude RustStr Channel CoreError Endpoint Config SftpPacket.
From S2P Require Import SftpWire SftpFraming SftpTypes SftpServer SftpClient.
From S2P Require Import SftpLoopback SftpService SftpTransfer SftpFiles ClientErrors.
From S2P Require Import ServerTypes ServerBuild ServerHandler ServerExec SftpMock.

(** ** The wire *)

(** One request and its response on channel [ch]; without a response the request waits
    for ever, as it does when the server panics. *)
Definition mock_loopback (ch : Z) (packet : list byte) (id : Z) (m : MockSftpServer) :
    Result SftpResponse * MockSftpServer :=
  match mock_feed log_op ch packet (m, []) with
  | Some (Ok _, (m', [OpData _ response])) =>
      match deliver response ≫= response_of_packet with
      | None => (Err no_reply, m')
      | Some d =>
          let '(id', r) := response_route d in
          if id' =? id then (r, m') else (Err no_reply, m')
      end
  | Some (_, (m', _)) => (Err no_reply, m')
  | None => (Err no_reply, m)
  end.

Section Exchange.
Context (ch : Z).

(** Nothing of an earlier packet is waiting on the channel. *)
Definition idle (m : MockSftpServer) : Prop := default [] (mk_buffers m !! ch) = [].

Lemma idle_set m : idle (set_buffer ch [] m).
Proof. apply buffer_of. Qed.

(** Cutting one framed request from an idle channel. *)
Lemma mock_feed_request id r m n :
  is_u32 id → request_ok r → fits_packet (request_fields r) → idle m →
  mock_feed log_op ch (encode_request id r) (m, n)
  = rebuffer ch [] (mock_answer log_op ch id (mock_serve (request_wire r) m) n).
Proof.
  intros Hid Hr Hf Hi. pose proof (mock_feed_cuts log_op ch (encode_request id r) m n) as Hc.
  rewrite Hi, app_nil_l in Hc.
  pose proof (deliver_frame (request_type r) id _ Hf) as Hd.
  rewrite <-encode_request_frame in Hd. unfold deliver in Hd.
  destruct (split_packets (encode_request id r)) as [[|p [|]] [[|]|]]; try done.
  injection Hd as ->.
  assert (Hq : decode_request (z2b (request_type r) :: be_bytes 4 id ++ request_fields r)
               = Ok (id, request_wire r)).
  { rewrite <-drop4_frame, <-encode_request_frame. by apply decode_encode_request. }
  cbn [handle_all] in Hc. rewrite (mock_refines _ _ _ _ _ _ _ Hq) in Hc.
  destruct (mock_serve (request_wire r) m) as [[[resp|] m']|]; cbn in Hc |- *; done || by destruct Hc.
Qed.

Lemma mock_exchange id r m resp m' :
  is_u32 id → request_ok r → fits_packet (request_fields r) → idle m →
  mock_serve (request_wire r) m = Some (Some resp, m') →
  response_ok resp → fits_packet (response_fields resp) →
  mock_loopback ch (encode_request id r) id m = (Ok (response_wire resp), set_buffer ch [] m').
Proof.
  intros Hid Hr Hf Hi Hs Ha Hfa. unfold mock_loopback.
  rewrite mock_feed_request, Hs by done. cbn [mock_answer mock_send rebuffer log_op mbind option_bind app].
  rewrite encode_response_frame, deliver_frame by done. cbn [mbind option_bind].
  rewrite response_of_packet_fields by done. cbn [response_route]. by rewrite Z.eqb_refl.
Qed.

(** The version packet has the layout [decode_version] expects, with a count of extensions
    that the protocol does not have. *)
Lemma mock_init_answer m n :
  idle m →
  mock_feed log_op ch (encode_init 3) (m, n)
  = Some (Ok (), (set_buffer ch [] m, n ++ [OpData ch (encode_version_response 3 ∅)])).
Proof.
  intros Hi. pose proof (mock_feed_cuts log_op ch (encode_init 3) m n) as Hc.
  rewrite Hi, app_nil_l in Hc.
  replace (split_packets (encode_init 3)) with ([drop 4 (encode_init 3)], NeedMore []) in Hc
    by by vm_compute.
  exact Hc.
Qed.

(** A request the server does not know is never answered. *)
Lemma mock_silence id r m m' :
  is_u32 id → request_ok r → fits_packet (request_fields r) → idle m →
  mock_serve (request_wire r) m = Some (None, m') →
  mock_loopback ch (encode_request id r) id m = (Err no_reply, set_buffer ch [] m').
Proof.
  intros Hid Hr Hf Hi Hs. unfold mock_loopback. by rewrite mock_feed_request, Hs by done.
Qed.
End Exchange.

(** ** Operations *)

(** The state after a request whose answer left the server in [m]. *)
Definition mock_after (ch : Z) (c : Client MockSftpServer) (m : MockSftpServer) :
    Client MockSftpServer :=
  {| next_id := wrap 32 (next_id c + 1); spawned := spawned c; world := set_buffer ch [] m |}.

Lemma mock_after_ready ch c m :
  is_u32 (next_id (mock_after ch c m)) ∧ idle ch (world (mock_after ch c m)).
Proof. split; [by apply (fits_wrap 32)|apply idle_set]. Qed.

Section Operations.
Context `{!StrDebug} (ch : Z).

Definition mock_ask {A} (r : Request) (f : SftpResponse → Result A) :
    cm (W:=MockSftpServer) A :=
  request (λ id, encode_request id r) (λ packet id,
    cbind (send (mock_loopback ch) packet id) (λ x, cret (f x))).

(** A client that may send: its counter is a [u32] and the channel is idle. *)
Definition mock_ready (c : Client MockSftpServer) : Prop :=
  is_u32 (next_id c) ∧ idle ch (world c).

Lemma mock_ask_answer {A} r (f : SftpResponse → Result A) c resp m' :
  mock_ready c → request_ok r → fits_packet (request_fields r) →
  mock_serve (request_wire r) (world c) = Some (Some resp, m') →
  response_ok resp → fits_packet (response_fields resp) →
  mock_ask r f c = (f (response_wire resp), mock_after ch c m').
Proof.
  intros [Hid Hi] Hr Hf Hs Ha Hfa. unfold mock_ask, request, next_request_id, cbind, send.
  cbn. by rewrite (mock_exchange ch _ r _ resp m').
Qed.

Lemma mock_ask_silence {A} r (f : SftpResponse → Result A) c m' :
  mock_ready c → request_ok r → fits_packet (request_fields r) →
  mock_serve (request_wire r) (world c) = Some (None, m') →
  mock_ask r f c = (Err no_reply, mock_after ch c m').
Proof.
  intros [Hid Hi] Hr Hf Hs. unfold mock_ask, request, next_request_id, cbind, send.
  cbn. by rewrite (mock_silence ch _ r _ m').
Qed.

Lemma done_ok_ok : response_ok done_ok ∧ fits_packet (response_fields done_ok).
Proof. by vm_compute. Qed.
Lemma eof_ok : response_ok eof ∧ fits_packet (response_fields eof).
Proof. by vm_compute. Qed.

(** ** Handles *)

Lemma digits_utf8 s : all_digits s = true → utf8_valid (as_bytes s) = true.
Proof.
  induction s as [|a s IH]; [done|]. cbn [all_digits]. intros [Ha Hs]%andb_prop.
  change (as_bytes (String a s)) with (byte_of_ascii a :: as_bytes s). cbn [utf8_valid].
  destruct (b2z (byte_of_ascii a) <? 128) eqn:E; [by apply IH|]. exfalso. revert Ha E.
  clear. by destruct a as [[][][][][][][][]].
Qed.

Lemma dec_go_length fuel n acc :
  (String.length (dec_go fuel n acc) ≤ fuel + String.length acc)%nat.
Proof.
  revert n acc. induction fuel as [|fuel IH]; intros n acc; cbn [dec_go]; [done|].
  destruct (n <? 10); cbn; [lia|]. etrans; [apply IH|cbn; lia].
Qed.

Lemma length_as_bytes s : length (as_bytes s) = String.length s.
Proof.
  unfold as_bytes, list_byte_of_string. rewrite length_map. induction s; cbn; congruence.
Qed.

Lemma handle_short n : is_u32 n → short ("h-" +:+ dec n).
Proof.
  intros Hn. pose proof (dec_go_length (S (Z.to_nat (Z.log2 n))) n "") as Hl.
  assert (Z.log2 n ≤ 32).
  { unfold fits in Hn. destruct (Z.eq_dec n 0) as [->|]; [done|].
    apply Z.lt_le_incl, Z.log2_lt_pow2; lia. }
  split.
  - unfold is_str. cbn. apply digits_utf8, all_digits_dec. apply Hn.
  - unfold vec_len. rewrite length_as_bytes.
    change (String.length ("h-" +:+ dec n)) with (S (S (String.length (dec n)))).
    unfold dec. cbn [String.length] in Hl. lia.
Qed.

Lemma handle_answer m :
  is_u32 (mk_next_handle m) →
  response_ok (RespHandle ("h-" +:+ dec (mk_next_handle m))) ∧
  fits_packet (response_fields (RespHandle ("h-" +:+ dec (mk_next_handle m)))).
Proof.
  intros Hm%handle_short. split; [by apply short_wire|]. cbn [response_fields].
  rewrite <-(app_nil_r (enc_string _)). by apply fits_short.
Qed.

(** An operation is a request and a reading of its answer. *)
Ltac mock_handle_eq :=
  unfold mock_ask, request, expect_handle, cbind, next_request_id; cbn [encode_request];
  destruct (send (mock_loopback ch) _ _ _) as [[r|e] ?]; [|reflexivity];
  unfold cret; destruct (handle_of_response r); reflexivity.

Lemma mock_open_ask f p c :
  rt_open (mock_loopback ch) f p c
  = cbind (mock_ask (ROpen f p SftpFileAttrs_default) handle_of_response)
      (λ handle, cret (Ok (SftpFile_new handle))) c.
Proof. unfold rt_open. mock_handle_eq. Qed.

Lemma mock_opendir_ask p c :
  rt_opendir (mock_loopback ch) p c
  = cbind (mock_ask (ROpendir p) handle_of_response)
      (λ handle, cret (Ok (SftpDir_new handle))) c.
Proof. unfold rt_opendir. mock_handle_eq. Qed.

Lemma fits_short_only s : short s → fits_packet (enc_string s).
Proof. intros Hs. rewrite <-(app_nil_r (enc_string s)). by apply fits_short. Qed.

(** The handle the server gives next. *)
Definition next_name (m : MockSftpServer) : string := "h-" +:+ dec (mk_next_handle m).

Lemma mock_open_ok p mode c :
  mock_ready c → short p → is_u32 mode → is_u32 (mk_next_handle (world c)) →
  rt_open (mock_loopback ch) p mode c
  = (Ok (SftpFile_new (next_name (world c))), mock_after ch c (snd (alloc_handle 1 p (world c)))).
Proof.
  intros Hc Hp Hmode Hm. destruct (handle_answer _ Hm) as [Ha Hf].
  rewrite mock_open_ask. unfold cbind.
  erewrite (mock_ask_answer _ _ c _ _ Hc); [..|reflexivity|exact Ha|exact Hf]; [done| |].
  - by split; [apply short_wire|split; [|vm_compute]].
  - apply fits_short; [done|]. rewrite vec_len_app, vec_len_be.
    pose proof (vec_len_enc_attrs SftpFileAttrs_default). lia.
Qed.

Lemma mock_opendir_ok p c :
  mock_ready c → short p → is_u32 (mk_next_handle (world c)) →
  rt_opendir (mock_loopback ch) p c
  = (Ok (SftpDir_new (next_name (world c))), mock_after ch c (snd (alloc_handle 2 p (world c)))).
Proof.
  intros Hc Hp Hm. destruct (handle_answer _ Hm) as [Ha Hf].
  rewrite mock_opendir_ask. unfold cbind.
  erewrite (mock_ask_answer _ _ c _ _ Hc); [..|reflexivity|exact Ha|exact Hf]; [done| |].
  - by apply short_wire.
  - by apply fits_short_only.
Qed.

Lemma mock_write_ok h o x c m' :
  mock_ready c → short h → is_u64 o → vec_len x ≤ SFTP_CHUNK_SIZE →
  write_file h o x (world c) = Some m' →
  rt_write (mock_loopback ch) h o x c = (Ok (), mock_after ch c m').
Proof.
  intros Hc Hh Ho Hx Hw. pose proof (chunk_wire x Hx). destruct done_ok_ok as [Ha Hf].
  change (rt_write (mock_loopback ch) h o x) with (mock_ask (RWrite h o x) status_of_response).
  rewrite (mock_ask_answer _ _ c done_ok m' Hc); try done.
  - by split; [apply short_wire|].
  - apply fits_short; [done|].
    rewrite vec_len_app, vec_len_be, vec_len_enc_bytes by done. unfold SFTP_CHUNK_SIZE in Hx. lia.
  - cbn [request_wire mock_serve]. by rewrite Hw.
Qed.

Lemma mock_read_ok h o n c p k d :
  mock_ready c → short h → is_u64 o → is_u32 n →
  mk_handles (world c) !! h = Some (p, k) →
  read_slice (default [] (mk_files (world c) !! p)) o n = Some d → vec_len d ≤ SFTP_CHUNK_SIZE →
  rt_read (mock_loopback ch) h o n c = (Ok d, mock_after ch c (world c)).
Proof.
  intros Hc Hh Ho Hn Hp Hr Hd. pose proof (chunk_wire d Hd).
  change (rt_read (mock_loopback ch) h o n) with (mock_ask (RRead h o n) data_of_response).
  rewrite (mock_ask_answer _ _ c (RespData d) (world c) Hc); try done.
  - by split; [apply short_wire|].
  - apply fits_short; [done|]. rewrite vec_len_app, !vec_len_be. lia.
  - cbn [request_wire mock_serve]. unfold resolve_handle. by rewrite Hp, Hr.
  - cbn [response_fields]. unfold fits_packet. rewrite vec_len_enc_bytes by done.
    unfold MAX_SFTP_PACKET_SIZE, SFTP_CHUNK_SIZE in *. lia.
Qed.

(** ** Files *)

Lemma write_slice_ok d o x :
  0 ≤ o → o + vec_len x ≤ ISIZE_MAX → ∃ d', write_slice d o x = Some d'.
Proof.
  intros Ho Hx. unfold write_slice, ISIZE_MAX in *.
  rewrite (proj2 (Z.leb_gt _ _)), (proj2 (Z.ltb_ge (2 ^ 63 - 1) _)), andb_false_r by lia.
  by eexists.
Qed.

(** Reading back the range just written gives the bytes written, and the bytes outside of
    it are the old ones, with zeros in a gap. *)
Lemma write_slice_read d o x d' :
  0 ≤ o → write_slice d o x = Some d' → read_slice d' o (vec_len x) = Some x.
Proof.
  intros Ho. unfold write_slice, read_slice. destruct (Z.leb_spec (2 ^ 64) (o + vec_len x)); [done|].
  destruct (_ && _); [done|]. set (f := d ++ replicate _ _). intros [= <-]. f_equal.
  assert (Hf : (Z.to_nat (o + vec_len x) ≤ length f)%nat)
    by (unfold f; rewrite length_app, length_replicate; lia).
  unfold vec_len in *. rewrite Z2Nat.inj_add, Nat2Z.id in Hf by lia.
  rewrite !length_app, length_take, length_drop, !Z2Nat.inj_min, !Z2Nat.inj_add, !Nat2Z.id by lia.
  rewrite !Nat.min_l by lia.
  replace (Z.to_nat o + length x - Z.to_nat o)%nat with (length x) by lia.
  pose proof (slice_app (take (Z.to_nat o) f) x (drop (Z.to_nat o + length x) f) (length x) eq_refl)
    as E. by rewrite length_take, Nat.min_l in E by lia.
Qed.

(** A file of the test server written and read back through the client: the bytes written
    come back, the file holds them at their offset, no other file changes. *)
Theorem mock_write_read (p : string) (mode o : Z) (d x : list byte) (c : Client MockSftpServer) :
  mock_ready c → is_u32 (mk_next_handle (world c)) → short p → is_u32 mode →
  mk_files (world c) !! p = Some d →
  0 ≤ o → o + vec_len x ≤ ISIZE_MAX → vec_len x ≤ SFTP_CHUNK_SIZE →
  ∃ file c1 c2 c3 d',
    rt_open (mock_loopback ch) p mode c = (Ok file, c1) ∧
    SftpFile_write (mock_loopback ch) file o x c1 = (Ok (), c2) ∧
    SftpFile_read (mock_loopback ch) file o (vec_len x) c2 = (Ok x, c3) ∧
    write_slice d o x = Some d' ∧
    mk_files (world c3) = <[p := d']> (mk_files (world c)).
Proof.
  intros Hc Hm Hp Hmode Hd Ho Hx Hchunk. destruct (write_slice_ok d o x Ho Hx) as [d' Hw].
  pose proof (vec_len_nonneg x). unfold ISIZE_MAX, SFTP_CHUNK_SIZE in *.
  assert (Hh : short (next_name (world c))) by by apply handle_short.
  rewrite mock_open_ok by done. set (c1 := mock_after ch c _).
  assert (Hr1 : mk_handles (world c1) !! next_name (world c) = Some (p, 1))
    by apply lookup_insert_eq.
  assert (Hw1 : ∃ a, write_file (next_name (world c)) o x (world c1)
                     = Some (set_files (<[p := d']> (mk_files (world c))) a (world c1))).
  { unfold write_file, resolve_handle. rewrite Hr1.
    change (mk_files (world c1)) with (mk_files (world c)). rewrite Hd, Hw. by eexists. }
  destruct Hw1 as [a Hw1].
  eexists (SftpFile_new (next_name (world c))), c1, _, _, d'. split; [done|].
  unfold SftpFile_write, SftpFile_read. cbn [file_handle SftpFile_new].
  rewrite (mock_write_ok _ o x c1 _) by (done || apply mock_after_ready || (unfold fits; lia)).
  split; [done|]. set (c2 := mock_after ch c1 _).
  rewrite (mock_read_ok (next_name (world c)) o (vec_len x) c2 p 1 x).
  - split; [done|]. split; [done|]. done.
  - apply mock_after_ready.
  - done.
  - unfold fits; lia.
  - unfold fits; lia.
  - done.
  - change (mk_files (world c2)) with (<[p := d']> (mk_files (world c))).
    rewrite lookup_insert_eq. cbn [default]. by apply write_slice_read with d.
  - done.
Qed.

(** ** Directories *)

Definition listed (name : string) : SftpDirEntry :=
  SftpDirEntry_from_packet name (mock_longname name) (mock_attrs 0 0x1a4).

Lemma longname_wire e : short e → wire_str (mock_longname e).
Proof.
  intros [Hs Hl]. split; [exact Hs|]. unfold wire_bytes, MAX_SFTP_PACKET_SIZE, vec_len in *.
  rewrite length_as_bytes in *.
  change (String.length (mock_longname e)) with (37 + String.length e)%nat. lia.
Qed.

Lemma listed_answer e :
  short e →
  let r := RespName [(e, mock_longname e, mock_attrs 0 0x1a4)] in
  response_ok r ∧ fits_packet (response_fields r) ∧
  entries_of_response (response_wire r) = Ok [listed e].
Proof.
  intros Hs. pose proof (longname_wire e Hs) as Hl. pose proof (short_wire e Hs) as Hw.
  set (a := mock_attrs 0 0x1a4). assert (Ha : attrs_plain a) by by vm_compute.
  assert (Hsz : vec_len (enc_string e) ≤ 4100) by by apply short_enc.
  assert (Hll : vec_len (enc_string (mock_longname e)) = 41 + vec_len (as_bytes e)).
  { unfold enc_string, push_string. change (push_bytes [] ?x) with (enc_bytes x).
    rewrite vec_len_enc_bytes by apply Hl. unfold vec_len. rewrite !length_as_bytes.
    change (String.length (mock_longname e)) with (37 + String.length e)%nat. lia. }
  pose proof (vec_len_nonneg (as_bytes e)). destruct Hs as [_ Hs].
  pose proof (vec_len_enc_attrs a). pose proof (vec_len_nonneg (enc_attrs a)).
  pose proof (vec_len_nonneg (enc_string e)).
  split; [split; [done|repeat constructor; done || apply Hw || apply Hl]|]. split.
  - cbn [response_fields map tuple_entry concat]. unfold fits_packet, enc_entry.
    cbn [ne_filename ne_longname ne_attrs].
    rewrite !vec_len_app, vec_len_be, Hll. unfold MAX_SFTP_PACKET_SIZE.
    change (vec_len []) with 0. lia.
  - cbn [response_wire map tuple_entry]. rewrite names_kept_all; [done|]. split; [done|].
    unfold names_size, enc_entry. cbn [map concat ne_filename ne_longname ne_attrs length].
    rewrite !vec_len_app, Hll. change (vec_len []) with 0. lia.
Qed.

(** Successive calls of [SftpDir::read]. *)
Fixpoint dir_reads (n : nat) (d : SftpDir) (c : Client MockSftpServer) :
    list (Result (option SftpDirEntry)) :=
  match n with
  | O => []
  | S n => let '(r, (d, c)) := SftpDir_read (mock_loopback ch) d c in r :: dir_reads n d c
  end.

(** An open directory handle and how far it was read. *)
Definition dir_open (h p : string) (names : list string) (pos : nat) (c : Client MockSftpServer) :
    Prop :=
  mock_ready c ∧ (∃ k, mk_handles (world c) !! h = Some (p, k)) ∧
  mk_dir_entries (world c) !! p = Some names ∧
  default 0%nat (mk_readdir_positions (world c) !! h) = pos.

Lemma mock_readdir_step h p names pos c :
  dir_open h p names pos c → short h → Forall short names →
  ∃ c', rt_readdir_batch (mock_loopback ch) h c
        = (Ok match names !! pos with Some e => [listed e] | None => [] end, c') ∧
    dir_open h p names (match names !! pos with Some _ => pos + 1 | None => pos end) c'.
Proof.
  intros (Hc & [k Hk] & Hn & Hpos) Hh Hnames.
  change (rt_readdir_batch (mock_loopback ch) h) with (mock_ask (RReaddir h) entries_of_response).
  assert (Hs : mock_serve (RReaddir h) (world c) = Some
     match names !! pos with
     | Some e => (Some (RespName [(e, mock_longname e, mock_attrs 0 0x1a4)]),
                  set_position h (pos + 1) (world c))
     | None => (Some eof, set_position h pos (world c))
     end).
  { cbn [mock_serve]. unfold resolve_handle. rewrite Hk, Hn, Hpos. cbn [default from_option]. change (id names) with names.
    by destruct (names !! pos). }
  assert (Hopen : ∀ j, dir_open h p names j (mock_after ch c (set_position h j (world c)))).
  { intros j. split; [apply mock_after_ready|]. split; [by exists k|]. split; [done|].
    cbn. by rewrite lookup_insert_eq. }
  destruct (names !! pos) as [e|] eqn:E.
  - destruct (listed_answer e) as (Ha & Hf & Hr); [by eapply Forall_lookup_1|].
    rewrite (mock_ask_answer (RReaddir h) _ c _ _ Hc (short_wire h Hh) (fits_short_only h Hh) Hs Ha Hf), Hr.
    by eexists.
  - destruct eof_ok as [Ha Hf].
    rewrite (mock_ask_answer (RReaddir h) _ c _ _ Hc (short_wire h Hh) (fits_short_only h Hh) Hs Ha Hf).
    by eexists.
Qed.

Lemma dir_reads_names h p names pos c :
  dir_open h p names pos c → short h → Forall short names → (pos ≤ length names)%nat →
  dir_reads (length names - pos + 1) (SftpDir_new h) c
  = map (λ e, Ok (Some (listed e))) (drop pos names) ++ [Ok None].
Proof.
  intros Ho Hh Hn Hpos. remember (length names - pos)%nat as n eqn:E.
  revert pos c Ho Hpos E. induction n as [|n IH]; intros pos c Ho Hpos E; cbn [dir_reads Nat.add];
    unfold SftpDir_read; cbn [pending_entries SftpDir_new dir_handle dir_closed];
    destruct (mock_readdir_step h p names pos c Ho Hh Hn) as (c' & -> & Ho').
  - rewrite drop_ge, lookup_ge_None_2 by lia. done.
  - destruct (lookup_lt_is_Some_2 names pos) as [e He]; [lia|]. rewrite He in *.
    rewrite (drop_S _ e _ He). cbn [map app].
    change {| dir_handle := h; dir_closed := false; pending_entries := [] |} with (SftpDir_new h).
    rewrite Nat.add_1_r in Ho'. rewrite (IH (S pos) c'); [done|done|lia|lia].
Qed.

(** Listing a directory of the test server through the client gives each name once, in
    order, and then the end, however often it was listed before. *)
Theorem mock_listing (p : string) (names : list string) (c : Client MockSftpServer) :
  mock_ready c → is_u32 (mk_next_handle (world c)) → short p → Forall short names →
  mk_dir_entries (world c) !! p = Some names →
  mk_readdir_positions (world c) !! next_name (world c) = None →
  ∃ d c1, rt_opendir (mock_loopback ch) p c = (Ok d, c1) ∧
    dir_reads (length names + 1) d c1 = map (λ e, Ok (Some (listed e))) names ++ [Ok None].
Proof.
  intros Hc Hm Hp Hn Hd Hfresh. rewrite mock_opendir_ok by done.
  eexists _, _. split; [done|]. set (c1 := mock_after ch c _).
  pose proof (dir_reads_names (next_name (world c)) p names 0 c1) as Hr.
  rewrite Nat.sub_0_r in Hr. apply Hr; [|by apply handle_short|done|lia].
  split; [apply mock_after_ready|]. split; [exists 2; apply lookup_insert_eq|].
  split; [done|]. change (mk_readdir_positions (world c1)) with (mk_readdir_positions (world c)).
  by rewrite Hfresh.
Qed.

(** [fstat] is not answered, so [read_to_vec] never returns from this server. *)
Lemma mock_read_to_vec_waits b fuel sc p c :
  runtime_open sc = true → mock_ready c → short p → is_u32 (mk_next_handle (world c)) →
  ∃ c', SftpClient_read_to_vec (mock_loopback ch) b fuel sc p c = (SftpClient.Returned (Err no_reply), c').
Proof.
  intros Hrt Hc Hp Hm. unfold SftpClient_read_to_vec, SftpClient_open, with_runtime. rewrite Hrt.
  rewrite mock_open_ok by done. set (c1 := mock_after ch c _).
  assert (Hh : short (next_name (world c))) by by apply handle_short.
  destruct (mock_after_ready ch c (snd (alloc_handle 1 p (world c)))) as [Hid Hi]. fold c1 in Hid, Hi.
  unfold SftpFile_metadata. cbn [file_handle SftpFile_new].
  change (rt_fstat (mock_loopback ch) (next_name (world c)))
    with (mock_ask (RFstat (next_name (world c))) attrs_of_response).
  rewrite (mock_ask_silence (RFstat (next_name (world c))) _ c1 (world c1));
    [by eexists|done|by apply short_wire|by apply fits_short_only|done].
Qed.
End Operations.
