(* ===== verification/Loopback.v ===== *)
(** * The loopback SSH server of the tests ([russh-extra-test-support/src/lib.rs])

    The server's configuration with its builder methods, the responses configured for
    commands, and the connection handler.  The handler's replies are session operations
    ([session_op], which may fail); the SFTP channels of a connection share the in-memory
    server of the configuration.  The theorems run the client's [Session::command]
    against it. *)
From S2P Require Import Prelude RustStr Channel CoreError Endpoint Config SftpPacket.
From S2P Require Import SftpWire SftpFraming SftpTypes SftpServer SftpClient.
From S2P Require Import SftpLoopback ClientErrors ClientCommand ServerTypes ServerBuild.
From S2P Require Import ServerHandler ServerExec SftpMock.

(** ** Lossy decoding ([String::from_utf8_lossy]) *)

(** Each maximal prefix of a character that is not continued becomes U+FFFD. *)
Definition REPLACEMENT : list byte := [z2b 239; z2b 191; z2b 189].

Definition lead3_prefix (b0 b1 : byte) : bool :=
  in_range 224 224 b0 && in_range 160 191 b1
  || in_range 225 236 b0 && is_cont b1
  || in_range 237 237 b0 && in_range 128 159 b1
  || in_range 238 239 b0 && is_cont b1.
Definition lead4_prefix (b0 b1 : byte) : bool :=
  in_range 240 240 b0 && in_range 144 191 b1
  || in_range 241 243 b0 && is_cont b1
  || in_range 244 244 b0 && in_range 128 143 b1.

Fixpoint lossy (l : list byte) : list byte :=
  match l with
  | [] => []
  | b0 :: r0 =>
      if b2z b0 <? 128 then b0 :: lossy r0
      else match r0 with
           | [] => REPLACEMENT
           | b1 :: r1 =>
               if lead2 b0 b1 then b0 :: b1 :: lossy r1
               else if lead3_prefix b0 b1 then
                 match r1 with
                 | b2 :: r2 =>
                     if is_cont b2 then b0 :: b1 :: b2 :: lossy r2 else REPLACEMENT ++ lossy r1
                 | [] => REPLACEMENT
                 end
               else if lead4_prefix b0 b1 then
                 match r1 with
                 | b2 :: r2 =>
                     if is_cont b2 then
                       match r2 with
                       | b3 :: r3 =>
                           if is_cont b3 then b0 :: b1 :: b2 :: b3 :: lossy r3
                           else REPLACEMENT ++ lossy r2
                       | [] => REPLACEMENT
                       end
                     else REPLACEMENT ++ lossy r1
                 | [] => REPLACEMENT
                 end
               else REPLACEMENT ++ lossy r0
           end
  end.

Definition from_utf8_lossy (l : list byte) : string := of_bytes (lossy l).

(** ** Configured commands *)

Record CommandResponse := {
  cr_stdout : list byte;
  cr_stderr : list byte;
  cr_exit_status : option Z;
  cr_reject_request : bool;
  cr_disconnect : bool;
}.

Definition CommandResponse_new : CommandResponse :=
  {| cr_stdout := []; cr_stderr := []; cr_exit_status := None; cr_reject_request := false;
     cr_disconnect := false |}.
Definition with_stdout (d : list byte) (r : CommandResponse) : CommandResponse :=
  {| cr_stdout := d; cr_stderr := cr_stderr r; cr_exit_status := cr_exit_status r;
     cr_reject_request := cr_reject_request r; cr_disconnect := cr_disconnect r |}.
Definition with_stderr (d : list byte) (r : CommandResponse) : CommandResponse :=
  {| cr_stdout := cr_stdout r; cr_stderr := d; cr_exit_status := cr_exit_status r;
     cr_reject_request := cr_reject_request r; cr_disconnect := cr_disconnect r |}.
Definition with_exit_status (status : Z) (r : CommandResponse) : CommandResponse :=
  {| cr_stdout := cr_stdout r; cr_stderr := cr_stderr r; cr_exit_status := Some status;
     cr_reject_request := cr_reject_request r; cr_disconnect := cr_disconnect r |}.
Definition CommandResponse_stdout (d : list byte) : CommandResponse :=
  with_exit_status 0 (with_stdout d CommandResponse_new).
Definition CommandResponse_success : CommandResponse := with_exit_status 0 CommandResponse_new.
Definition CommandResponse_reject_request : CommandResponse :=
  {| cr_stdout := []; cr_stderr := []; cr_exit_status := None; cr_reject_request := true;
     cr_disconnect := false |}.
Definition CommandResponse_disconnect : CommandResponse :=
  {| cr_stdout := []; cr_stderr := []; cr_exit_status := None; cr_reject_request := false;
     cr_disconnect := true |}.
Definition CommandResponse_missing_status : CommandResponse := CommandResponse_new.

Inductive StreamingStep :=
| StepStdout (data : list byte)
| StepStderr (data : list byte)
| StepExitStatus (status : Z)
| StepDelay (duration : Z).

Record StreamingCommandConfig := { steps : list StreamingStep }.

Definition StreamingCommandConfig_new : StreamingCommandConfig := {| steps := [] |}.
Definition StreamingCommandConfig_push (s : StreamingStep) (c : StreamingCommandConfig) :
    StreamingCommandConfig := {| steps := steps c ++ [s] |}.
Definition StreamingCommandConfig_stdout (d : list byte) :
    StreamingCommandConfig → StreamingCommandConfig := StreamingCommandConfig_push (StepStdout d).
Definition StreamingCommandConfig_stderr (d : list byte) :
    StreamingCommandConfig → StreamingCommandConfig := StreamingCommandConfig_push (StepStderr d).
Definition StreamingCommandConfig_exit_status (status : Z) :
    StreamingCommandConfig → StreamingCommandConfig :=
  StreamingCommandConfig_push (StepExitStatus status).
Definition StreamingCommandConfig_delay (duration : Z) :
    StreamingCommandConfig → StreamingCommandConfig :=
  StreamingCommandConfig_push (StepDelay duration).

Section Loopback.
Context {PubKey : Type} `{!EqDecision PubKey}.

(** ** Configuration *)

Record LoopbackServerConfig := {
  lb_username : string;
  lb_password : string;
  lb_auth_banner : option string;
  lb_authorized_keys : list (string * PubKey);
  lb_commands : gmap string CommandResponse;
  lb_streaming_commands : gmap string StreamingCommandConfig;
  lb_accept_shell : bool;
  lb_accept_pty : bool;
  lb_accept_subsystem : string;
  lb_accept_direct_tcpip : bool;
  lb_accept_tcpip_forward : bool;
  lb_accept_direct_streamlocal : bool;
  lb_accept_streamlocal_forward : bool;
  lb_sftp_mock : MockSftpServer;
}.

Definition LoopbackServerConfig_new : LoopbackServerConfig :=
  {| lb_username := "test"; lb_password := "test"; lb_auth_banner := None;
     lb_authorized_keys := []; lb_commands := ∅; lb_streaming_commands := ∅;
     lb_accept_shell := false; lb_accept_pty := false; lb_accept_subsystem := "";
     lb_accept_direct_tcpip := false; lb_accept_tcpip_forward := false;
     lb_accept_direct_streamlocal := false; lb_accept_streamlocal_forward := false;
     lb_sftp_mock := MockSftpServer_new |}.

Definition with_login (u p : string) (b : option string) (ks : list (string * PubKey))
    (c : LoopbackServerConfig) : LoopbackServerConfig :=
  {| lb_username := u; lb_password := p; lb_auth_banner := b;
     lb_authorized_keys := ks; lb_commands := lb_commands c;
     lb_streaming_commands := lb_streaming_commands c;
     lb_accept_shell := lb_accept_shell c; lb_accept_pty := lb_accept_pty c;
     lb_accept_subsystem := lb_accept_subsystem c;
     lb_accept_direct_tcpip := lb_accept_direct_tcpip c;
     lb_accept_tcpip_forward := lb_accept_tcpip_forward c;
     lb_accept_direct_streamlocal := lb_accept_direct_streamlocal c;
     lb_accept_streamlocal_forward := lb_accept_streamlocal_forward c;
     lb_sftp_mock := lb_sftp_mock c |}.
Definition lb_set_password (username password : string) (c : LoopbackServerConfig) :
    LoopbackServerConfig :=
  with_login username password (lb_auth_banner c) (lb_authorized_keys c) c.
Definition lb_set_auth_banner (banner : string) (c : LoopbackServerConfig) :
    LoopbackServerConfig :=
  with_login (lb_username c) (lb_password c) (Some banner) (lb_authorized_keys c) c.
Definition lb_authorized_key (username : string) (key : PubKey) (c : LoopbackServerConfig) :
    LoopbackServerConfig :=
  with_login (lb_username c) (lb_password c) (lb_auth_banner c)
    (lb_authorized_keys c ++ [(username, key)]) c.

Definition with_commands (cs : gmap string CommandResponse)
    (ss : gmap string StreamingCommandConfig) (m : MockSftpServer) (c : LoopbackServerConfig) :
    LoopbackServerConfig :=
  {| lb_username := lb_username c; lb_password := lb_password c;
     lb_auth_banner := lb_auth_banner c; lb_authorized_keys := lb_authorized_keys c;
     lb_commands := cs; lb_streaming_commands := ss;
     lb_accept_shell := lb_accept_shell c; lb_accept_pty := lb_accept_pty c;
     lb_accept_subsystem := lb_accept_subsystem c;
     lb_accept_direct_tcpip := lb_accept_direct_tcpip c;
     lb_accept_tcpip_forward := lb_accept_tcpip_forward c;
     lb_accept_direct_streamlocal := lb_accept_direct_streamlocal c;
     lb_accept_streamlocal_forward := lb_accept_streamlocal_forward c;
     lb_sftp_mock := m |}.
Definition lb_command (command : string) (response : CommandResponse)
    (c : LoopbackServerConfig) : LoopbackServerConfig :=
  with_commands (<[command := response]> (lb_commands c)) (lb_streaming_commands c)
    (lb_sftp_mock c) c.
Definition lb_streaming_command (command : string) (config : StreamingCommandConfig)
    (c : LoopbackServerConfig) : LoopbackServerConfig :=
  with_commands (lb_commands c) (<[command := config]> (lb_streaming_commands c))
    (lb_sftp_mock c) c.
Definition sftp_file (path : string) (data : list byte) (perms : Z) (c : LoopbackServerConfig) :
    LoopbackServerConfig :=
  with_commands (lb_commands c) (lb_streaming_commands c)
    (add_file path data (vec_len data) perms (lb_sftp_mock c)) c.
Definition sftp_dir (path : string) (entries : list string) (c : LoopbackServerConfig) :
    LoopbackServerConfig :=
  with_commands (lb_commands c) (lb_streaming_commands c) (add_dir path entries (lb_sftp_mock c)) c.
Definition sftp_symlink (linkpath targetpath : string) (c : LoopbackServerConfig) :
    LoopbackServerConfig :=
  with_commands (lb_commands c) (lb_streaming_commands c)
    (add_symlink linkpath targetpath (lb_sftp_mock c)) c.

Definition with_accept (sh pty : bool) (sub : string) (dt tf ds sf : bool)
    (c : LoopbackServerConfig) : LoopbackServerConfig :=
  {| lb_username := lb_username c; lb_password := lb_password c;
     lb_auth_banner := lb_auth_banner c; lb_authorized_keys := lb_authorized_keys c;
     lb_commands := lb_commands c; lb_streaming_commands := lb_streaming_commands c;
     lb_accept_shell := sh; lb_accept_pty := pty; lb_accept_subsystem := sub;
     lb_accept_direct_tcpip := dt; lb_accept_tcpip_forward := tf;
     lb_accept_direct_streamlocal := ds; lb_accept_streamlocal_forward := sf;
     lb_sftp_mock := lb_sftp_mock c |}.
Definition accept_shell (c : LoopbackServerConfig) : LoopbackServerConfig :=
  with_accept true (lb_accept_pty c) (lb_accept_subsystem c) (lb_accept_direct_tcpip c)
    (lb_accept_tcpip_forward c) (lb_accept_direct_streamlocal c)
    (lb_accept_streamlocal_forward c) c.
Definition accept_pty (c : LoopbackServerConfig) : LoopbackServerConfig :=
  with_accept (lb_accept_shell c) true (lb_accept_subsystem c) (lb_accept_direct_tcpip c)
    (lb_accept_tcpip_forward c) (lb_accept_direct_streamlocal c)
    (lb_accept_streamlocal_forward c) c.
Definition accept_subsystem (name : string) (c : LoopbackServerConfig) : LoopbackServerConfig :=
  with_accept (lb_accept_shell c) (lb_accept_pty c) name (lb_accept_direct_tcpip c)
    (lb_accept_tcpip_forward c) (lb_accept_direct_streamlocal c)
    (lb_accept_streamlocal_forward c) c.
Definition accept_direct_tcpip (c : LoopbackServerConfig) : LoopbackServerConfig :=
  with_accept (lb_accept_shell c) (lb_accept_pty c) (lb_accept_subsystem c) true
    (lb_accept_tcpip_forward c) (lb_accept_direct_streamlocal c)
    (lb_accept_streamlocal_forward c) c.
Definition accept_tcpip_forward (c : LoopbackServerConfig) : LoopbackServerConfig :=
  with_accept (lb_accept_shell c) (lb_accept_pty c) (lb_accept_subsystem c)
    (lb_accept_direct_tcpip c) true (lb_accept_direct_streamlocal c)
    (lb_accept_streamlocal_forward c) c.
Definition accept_direct_streamlocal (c : LoopbackServerConfig) : LoopbackServerConfig :=
  with_accept (lb_accept_shell c) (lb_accept_pty c) (lb_accept_subsystem c)
    (lb_accept_direct_tcpip c) (lb_accept_tcpip_forward c) true
    (lb_accept_streamlocal_forward c) c.
Definition accept_streamlocal_forward (c : LoopbackServerConfig) : LoopbackServerConfig :=
  with_accept (lb_accept_shell c) (lb_accept_pty c) (lb_accept_subsystem c)
    (lb_accept_direct_tcpip c) (lb_accept_tcpip_forward c) (lb_accept_direct_streamlocal c)
    true c.

Definition response_for (c : LoopbackServerConfig) (command : list byte) :
    option CommandResponse :=
  lb_commands c !! from_utf8_lossy command.
Definition streaming_command_config (c : LoopbackServerConfig) (command : list byte) :
    option StreamingCommandConfig :=
  lb_streaming_commands c !! from_utf8_lossy command.

(** ** The connection handler *)

Context {N : Type} (session_op : SessionOp → N → result RusshError unit * N).

(** Session operations in order, each followed by [?]. *)
Fixpoint send_ops (ops : list SessionOp) (n : N) : result RusshError unit * N :=
  match ops with
  | [] => (Ok (), n)
  | o :: ops =>
      match session_op o n with
      | (Ok _, n) => send_ops ops n
      | (Err e, n) => (Err e, n)
      end
  end.

(** The configuration's SFTP server is shared; the set of SFTP channels is the
    connection's own. *)
Record LoopbackHandler := {
  lh_state : LoopbackServerConfig;
  lh_sftp_channels : gset Z;
}.

Definition lb_new_client (c : LoopbackServerConfig) : LoopbackHandler :=
  {| lh_state := c; lh_sftp_channels := ∅ |}.

Definition lb_auth_password (user password : string) (h : LoopbackHandler) : Auth :=
  if String.eqb user (lb_username (lh_state h)) && String.eqb password (lb_password (lh_state h))
  then Accept else Reject.
Definition lb_authentication_banner (h : LoopbackHandler) : option string :=
  lb_auth_banner (lh_state h).
Definition lb_auth_publickey (user : string) (key : PubKey) (h : LoopbackHandler) : Auth :=
  if existsb (λ '(name, k), String.eqb name user && bool_decide (k = key))
       (lb_authorized_keys (lh_state h))
  then Accept else Reject.
Definition lb_channel_open_session (h : LoopbackHandler) : bool := true.

Definition step_ops (ch : Z) (s : StreamingStep) : list SessionOp :=
  match s with
  | StepStdout d => [OpData ch d]
  | StepStderr d => [OpExtendedData ch 1 d]
  | StepDelay _ => []
  | StepExitStatus status => [OpExitStatus ch status]
  end.

Definition lb_exec_request (ch : Z) (data : list byte) (h : LoopbackHandler) (n : N) :
    result RusshError unit * N :=
  match streaming_command_config (lh_state h) data with
  | Some config =>
      send_ops (OpSuccess ch :: concat (map (step_ops ch) (steps config))
                ++ [OpEof ch; OpClose ch]) n
  | None =>
      match response_for (lh_state h) data with
      | None => send_ops [OpFailure ch] n
      | Some r =>
          if cr_reject_request r then send_ops [OpFailure ch] n
          else
            match send_ops [OpSuccess ch] n with
            | (Err e, n) => (Err e, n)
            | (Ok _, n) =>
                if cr_disconnect r then (Err Disconnect, n)
                else
                  send_ops
                    ((match cr_stdout r with [] => [] | d => [OpData ch d] end)
                     ++ (match cr_stderr r with [] => [] | d => [OpExtendedData ch 1 d] end)
                     ++ (match cr_exit_status r with Some s => [OpExitStatus ch s] | None => [] end)
                     ++ [OpEof ch; OpClose ch]) n
            end
      end
  end.

Definition accept_or_refuse (accept : bool) (ch : Z) (n : N) : result RusshError unit * N :=
  session_op (if accept then OpSuccess ch else OpFailure ch) n.

Definition lb_shell_request (ch : Z) (h : LoopbackHandler) : N → result RusshError unit * N :=
  accept_or_refuse (lb_accept_shell (lh_state h)) ch.
Definition lb_pty_request (ch : Z) (h : LoopbackHandler) : N → result RusshError unit * N :=
  accept_or_refuse (lb_accept_pty (lh_state h)) ch.
Definition lb_env_request (ch : Z) (h : LoopbackHandler) : N → result RusshError unit * N :=
  session_op (OpSuccess ch).

Definition lb_subsystem_request (ch : Z) (name : string) (h : LoopbackHandler) (n : N) :
    result RusshError unit * (LoopbackHandler * N) :=
  if String.eqb name (lb_accept_subsystem (lh_state h)) then
    match session_op (OpSuccess ch) n with
    | (Err e, n) => (Err e, (h, n))
    | (Ok _, n) =>
        (Ok (), (if String.eqb name "sftp"
                 then {| lh_state := lh_state h; lh_sftp_channels := {[ch]} ∪ lh_sftp_channels h |}
                 else h, n))
    end
  else let '(r, n) := session_op (OpFailure ch) n in (r, (h, n)).

Definition lb_channel_open_direct_tcpip (h : LoopbackHandler) : bool :=
  lb_accept_direct_tcpip (lh_state h).
Definition lb_tcpip_forward (h : LoopbackHandler) : bool := lb_accept_tcpip_forward (lh_state h).
Definition lb_streamlocal_forward (h : LoopbackHandler) : bool :=
  lb_accept_streamlocal_forward (lh_state h).
Definition lb_cancel_streamlocal_forward (h : LoopbackHandler) : bool :=
  lb_accept_streamlocal_forward (lh_state h).
Definition lb_channel_open_direct_streamlocal (h : LoopbackHandler) : bool :=
  lb_accept_direct_streamlocal (lh_state h).

(** [None] when the SFTP server panics. *)
Definition lb_data (ch : Z) (data : list byte) (h : LoopbackHandler) (n : N) :
    option (result RusshError unit * (LoopbackHandler * N)) :=
  let c := lh_state h in
  if bool_decide (ch ∈ lh_sftp_channels h) then
    '(r, (m, n)) ← mock_feed session_op ch data (lb_sftp_mock c, n);
    Some (r, ({| lh_state := with_commands (lb_commands c) (lb_streaming_commands c) m c;
                 lh_sftp_channels := lh_sftp_channels h |}, n))
  else if lb_accept_shell c || negb (String.eqb (lb_accept_subsystem c) "")
          || lb_accept_direct_tcpip c || lb_accept_direct_streamlocal c then
    let '(r, n) := session_op (OpData ch data) n in Some (r, (h, n))
  else Some (Ok (), (h, n)).

Definition lb_channel_close (ch : Z) (h : LoopbackHandler) : LoopbackHandler :=
  {| lh_state := lh_state h; lh_sftp_channels := lh_sftp_channels h ∖ {[ch]} |}.
End Loopback.
Arguments LoopbackServerConfig : clear implicits.
Arguments LoopbackHandler : clear implicits.

(** ** Lossy decoding of valid text *)

Lemma lossy_valid l : utf8_valid l = true → lossy l = l.
Proof.
  remember (length l) as n eqn:Hn. revert l Hn.
  induction n as [n IH] using lt_wf_ind; intros l Hn.
  assert (Hgo : ∀ r, (length r < n)%nat → utf8_valid r = true → lossy r = r)
    by (intros r Hr Hv; by apply (IH (length r) Hr r eq_refl)).
  clear IH. subst n. destruct l as [|b0 r0]; [done|]. cbn [utf8_valid lossy length] in *.
  destruct (b2z b0 <? 128); [intros Hv; by rewrite Hgo by (done || lia)|].
  destruct r0 as [|b1 r1]; [done|]. cbn [length] in *.
  destruct (lead2 b0 b1); [intros Hv; by rewrite Hgo by (done || lia)|].
  destruct r1 as [|b2 r2]; [done|]. cbn [length] in *. unfold lead3, lead4.
  fold (lead3_prefix b0 b1) (lead4_prefix b0 b1).
  destruct (lead3_prefix b0 b1), (is_cont b2); cbn [andb];
    try (intros Hv; by rewrite Hgo by (done || lia)); destruct r2 as [|b3 r3]; try done;
    rewrite ?andb_false_r; try done.
  cbn [length] in *. destruct (lead4_prefix b0 b1), (is_cont b3); cbn [andb]; try done.
  intros Hv. by rewrite Hgo by (done || lia).
Qed.

(** Commands that are valid text are looked up as they are. *)
Lemma from_utf8_lossy_str s : is_str s → from_utf8_lossy (as_bytes s) = s.
Proof.
  intros Hs. unfold from_utf8_lossy. rewrite lossy_valid by done. apply string_of_list_byte_of_string.
Qed.

(** ** Commands through the client *)

(** A buffered response as steps. *)
Definition response_steps (r : CommandResponse) : list StreamingStep :=
  (match cr_stdout r with [] => [] | d => [StepStdout d] end)
  ++ (match cr_stderr r with [] => [] | d => [StepStderr d] end)
  ++ match cr_exit_status r with Some s => [StepExitStatus s] | None => [] end.

(** The first exit status counts; output is collected after it as well. *)
Fixpoint steps_exit (l : list StreamingStep) : CommandExit :=
  match l with
  | [] => Missing
  | StepExitStatus s :: _ => Status s
  | _ :: l => steps_exit l
  end.

Definition steps_output (l : list StreamingStep) : CommandOutput :=
  {| co_exit := steps_exit l;
     co_stdout := concat (map (λ s, match s with StepStdout d => d | _ => [] end) l);
     co_stderr := concat (map (λ s, match s with StepStderr d => d | _ => [] end) l) |}.

Section Exec.
Context {PubKey : Type} (parse_sig : string → Sig)
        (russh_text : RusshError → string) (command : RemoteCommand).

Abbreviation client msgs is_closed :=
  (Session_command russh_text (Ok ()) (Ok ()) command true (Some (Ok ())) (Ok ()) msgs is_closed).
Abbreviation recv := (map (received parse_sig)).

Lemma send_ops_log ops w : send_ops log_op ops w = (Ok (), w ++ ops).
Proof.
  revert w. induction ops as [|o ops IH]; intros w; cbn; [by rewrite app_nil_r|].
  by rewrite IH, <-app_assoc.
Qed.

Definition steps_ops (ch : Z) (l : list StreamingStep) : list SessionOp :=
  OpSuccess ch :: concat (map (step_ops ch) l) ++ [OpEof ch; OpClose ch].

Lemma steps_on_channel ch l : Forall (λ o, op_channel o = ch) (steps_ops ch l).
Proof.
  constructor; [done|]. apply Forall_app. split; [|by repeat constructor].
  induction l as [|s l IH]; [constructor|]. cbn. apply Forall_app. split; [|done].
  destruct s; by repeat constructor.
Qed.

Lemma recv_steps ch l :
  let m := recv (concat (map (step_ops ch) l)) in
  existsb is_close m = false ∧ existsb is_failure m = false ∧
  stdout_of m = co_stdout (steps_output l) ∧ stderr_of m = co_stderr (steps_output l) ∧
  exit_of (m ++ [CEof]) = co_exit (steps_output l).
Proof.
  cbv zeta. induction l as [|[d|d|s|t] l IH]; [done|..];
    destruct IH as (H1 & H2 & H3 & H4 & H5); unfold stdout_of, stderr_of in *; cbn in *;
    by rewrite ?H1, ?H2, ?H3, ?H4.
Qed.

Lemma client_steps ch l rest is_closed :
  bytes_len (co_stdout (steps_output l)) ≤ limit_stdout (limits command) →
  bytes_len (co_stderr (steps_output l)) ≤ limit_stderr (limits command) →
  client (recv (steps_ops ch l) ++ rest) is_closed
  = (Ok (steps_output l), stdin_actions command ++ [SendClose]).
Proof.
  intros Ho He. destruct (recv_steps ch l) as (C1 & C2 & C3 & C4 & C5).
  unfold steps_ops. cbn [map received]. rewrite map_app. cbn [map received].
  set (m := recv _) in *.
  assert (Hc : before_close ((CSuccess :: m ++ [CEof; CClose]) ++ rest) = CSuccess :: m ++ [CEof]).
  { replace ((CSuccess :: m ++ [CEof; CClose]) ++ rest)
      with ((CSuccess :: m ++ [CEof]) ++ CClose :: rest)
      by (cbn; rewrite <-!app_assoc; done).
    apply before_close_app. cbn. by rewrite existsb_app, C1. }
  assert (Hout : stdout_of (CSuccess :: m ++ [CEof]) = co_stdout (steps_output l)).
  { rewrite <-C3. unfold stdout_of. cbn. by rewrite map_app, concat_app, app_nil_r. }
  assert (Herr : stderr_of (CSuccess :: m ++ [CEof]) = co_stderr (steps_output l)).
  { rewrite <-C4. unfold stderr_of. cbn. by rewrite map_app, concat_app, app_nil_r. }
  rewrite session_command_ok; unfold output_of; rewrite ?Hc, ?Hout, ?Herr; try done.
  - cbn [exit_of]. by rewrite C5.
  - cbn. by rewrite existsb_app, C2.
  - cbn. rewrite !existsb_app. cbn. by rewrite !orb_true_r.
Qed.

(** What the configuration says of a command: refused, or this output. *)
Definition configured (c : LoopbackServerConfig PubKey) (data : list byte) :
    option CommandOutput :=
  match streaming_command_config c data with
  | Some config => Some (steps_output (steps config))
  | None =>
      match response_for c data with
      | Some r => if cr_reject_request r then None
                  else Some {| co_exit := from_option Status Missing (cr_exit_status r);
                               co_stdout := cr_stdout r; co_stderr := cr_stderr r |}
      | None => None
      end
  end.

Lemma response_steps_output r :
  steps_output (response_steps r)
  = {| co_exit := from_option Status Missing (cr_exit_status r);
       co_stdout := cr_stdout r; co_stderr := cr_stderr r |}.
Proof.
  unfold response_steps, steps_output.
  destruct (cr_stdout r), (cr_stderr r), (cr_exit_status r); cbn; by rewrite ?app_nil_r.
Qed.

(** A command sent to the test server returns what was configured for it: the client's
    [command] gives the configured bytes and exit, no exit when none was configured, and
    the refusal when it is unknown or rejected. *)
Theorem loopback_exec (h : LoopbackHandler PubKey) (ch : Z) (data : list byte)
    (w : list SessionOp) rest is_closed :
  (∀ r, response_for (lh_state h) data = Some r → cr_disconnect r = false) →
  (∀ out, configured (lh_state h) data = Some out →
     bytes_len (co_stdout out) ≤ limit_stdout (limits command) ∧
     bytes_len (co_stderr out) ≤ limit_stderr (limits command)) →
  ∃ sent, lb_exec_request log_op ch data h w = (Ok (), w ++ sent) ∧
    client (on_channel parse_sig ch sent ++ rest) is_closed
    = match configured (lh_state h) data with
      | Some out => (Ok out, stdin_actions command ++ [SendClose])
      | None => (Err (Error_channel_kind ChannelRequest "remote exec request was rejected"),
                 [SendClose])
      end.
Proof.
  intros Hd Hl. unfold lb_exec_request, configured in *.
  destruct (streaming_command_config _ data) as [config|].
  { exists (steps_ops ch (steps config)). rewrite send_ops_log. split; [done|].
    rewrite on_channel_all by apply steps_on_channel. destruct (Hl _ eq_refl).
    by apply client_steps. }
  assert (Hrefused : ∀ n, send_ops log_op [OpFailure ch] n = (Ok (), n ++ [OpFailure ch]) ∧
    client (on_channel parse_sig ch [OpFailure ch] ++ rest) is_closed
    = (Err (Error_channel_kind ChannelRequest "remote exec request was rejected"), [SendClose])).
  { intros n. rewrite send_ops_log. split; [done|].
    by rewrite on_channel_all by by repeat constructor. }
  destruct (response_for _ data) as [r|]; [|eexists; apply Hrefused].
  destruct (cr_reject_request r); [eexists; apply Hrefused|].
  rewrite (Hd r eq_refl), send_ops_log. exists (steps_ops ch (response_steps r)). split.
  - rewrite send_ops_log, <-app_assoc. unfold steps_ops, response_steps.
    do 3 f_equal. by destruct (cr_stdout r), (cr_stderr r), (cr_exit_status r).
  - rewrite on_channel_all by apply steps_on_channel. destruct (Hl _ eq_refl) as [Ho He].
    rewrite <-response_steps_output in *. by apply client_steps.
Qed.
End Exec.

(** ** SFTP channels *)

Section Sftp.
Context {PubKey : Type} {N : Type} (session_op : SessionOp → N → result RusshError unit * N).

(** Only a channel on which the configured subsystem [sftp] was accepted, and that was not
    closed since, reaches the SFTP server; on any other channel the file server is
    untouched. *)
Lemma data_other_channel ch data (h : LoopbackHandler PubKey) n r h' n' :
  ch ∉ lh_sftp_channels h → lb_data session_op ch data h n = Some (r, (h', n')) → h' = h.
Proof.
  intros Hc. unfold lb_data. rewrite bool_decide_eq_false_2 by done.
  destruct (_ || _); [destruct (session_op _ n)|]; by intros [= _ <- _].
Qed.

Lemma subsystem_opens_sftp ch name (h h' : LoopbackHandler PubKey) n r n' ch' :
  lb_subsystem_request session_op ch name h n = (r, (h', n')) →
  ch' ∈ lh_sftp_channels h' →
  ch' ∈ lh_sftp_channels h ∨ (ch' = ch ∧ name = "sftp" ∧ lb_accept_subsystem (lh_state h) = "sftp").
Proof.
  unfold lb_subsystem_request. destruct (String.eqb_spec name (lb_accept_subsystem (lh_state h)))
    as [<-|_].
  - destruct (session_op _ n) as [[[]|e] n1]; [|intros [= _ <- _]; by left].
    destruct (String.eqb_spec name "sftp") as [->|_]; intros [= _ <- _]; [cbn; set_solver|by left].
  - destruct (session_op _ n) as [r1 n1]. intros [= _ <- _]. by left.
Qed.
End Sftp.
