(* ===== verification/LoopbackRun.v ===== *)
(** * The loopback server's lifecycle ([LoopbackServer] of [russh-extra-test-support])

    Starting the server on an ephemeral port of the local host, the accessors the tests
    connect with, and the shutdown when it is dropped.  The listener, the key generator
    and the runtime's one-shot channel are parameters.  A client that pins the reported
    fingerprint accepts the key the server offers, and no key with another fingerprint. *)
From S2P Require Import Prelude RustStr CoreError Endpoint Config ClientErrors Tunnel.
From S2P Require Import ServerBuild SftpMock Loopback.

Definition localhost_endpoint (port : Z) : Endpoint := Endpoint_new "127.0.0.1" port.

Section LoopbackServer.
Context {PubKey PrivKey Listener : Type}.
(** [TcpListener::bind], [local_addr], [PrivateKey::random] (errors by their text),
    [public_key], and [fingerprint(Sha256).to_string()]. *)
Context (bind : string → Z → result IoError Listener)
        (local_addr : Listener → result IoError SocketAddr)
        (random_key : result BoxError PrivKey)
        (public_key : PrivKey → PubKey) (fingerprint_sha256 : PubKey → string).

(** The fields of [russh]'s server configuration that [start] sets; durations in
    nanoseconds. *)
Record LoopbackRusshConfig := {
  lc_auth_rejection_time : Z;
  lc_auth_rejection_time_initial : option Z;
  lc_keys : list PrivKey;
}.

(** What the spawned task runs on; the handle's shutdown cell and whether the task was
    aborted. *)
Record LoopbackServer := {
  ls_addr : SocketAddr;
  ls_fingerprint : string;
  ls_listener : Listener;
  ls_russh : LoopbackRusshConfig;
  ls_state : LoopbackServerConfig PubKey;
  ls_shutdown : option string;
  ls_aborted : bool;
}.

Definition from_millis (ms : Z) : Z := ms * 1000000.

(** [started] is what [handle_rx] yields: the task sent the handle, or it was gone
    before it could.  An I/O error is boxed as it is. *)
Definition LoopbackServer_start (io_text : IoError → BoxError) (started : result BoxError unit)
    (config : LoopbackServerConfig PubKey) : result BoxError LoopbackServer :=
  match bind "127.0.0.1" 0 with
  | Err e => Err (io_text e)
  | Ok listener =>
      match local_addr listener with
      | Err e => Err (io_text e)
      | Ok addr =>
          host_key ← random_key;
          let fingerprint := fingerprint_sha256 (public_key host_key) in
          let server_config :=
            {| lc_auth_rejection_time := from_millis 1;
               lc_auth_rejection_time_initial := Some (from_millis 0);
               lc_keys := [host_key] |} in
          _ ← started;
          Ok {| ls_addr := addr; ls_fingerprint := fingerprint; ls_listener := listener;
                ls_russh := server_config; ls_state := config; ls_shutdown := None;
                ls_aborted := false |}
      end
  end.

Definition LoopbackServer_endpoint (s : LoopbackServer) : Endpoint :=
  Endpoint_new (sa_ip (ls_addr s)) (sa_port (ls_addr s)).

Definition LoopbackServer_drop (s : LoopbackServer) : LoopbackServer :=
  {| ls_addr := ls_addr s; ls_fingerprint := ls_fingerprint s; ls_listener := ls_listener s;
     ls_russh := ls_russh s; ls_state := ls_state s;
     ls_shutdown := shutdown "russh-extra test fixture shutting down" (ls_shutdown s);
     ls_aborted := true |}.

(** [generate_test_key_pair]; [None] when it panics. *)
Definition generate_test_key_pair : option (PrivKey * PubKey) :=
  match random_key with Ok k => Some (k, public_key k) | Err _ => None end.

Section Start.
Context (io_text : IoError → BoxError) (started : result BoxError unit).

Abbreviation start := (LoopbackServer_start io_text started).

Lemma start_ok c s :
  start c = Ok s →
  ∃ listener addr k, bind "127.0.0.1" 0 = Ok listener ∧ local_addr listener = Ok addr ∧
    random_key = Ok k ∧ ls_addr s = addr ∧ ls_state s = c ∧ lc_keys (ls_russh s) = [k] ∧
    ls_fingerprint s = fingerprint_sha256 (public_key k).
Proof.
  unfold LoopbackServer_start. destruct (bind _ _) as [listener|]; [|done].
  destruct (local_addr listener) as [addr|] eqn:Ea; [|done].
  destruct random_key as [k|]; [|done]. destruct started as [[]|]; [|done].
  intros [= <-]. by exists listener, addr, k.
Qed.

(** A client that pins the fingerprint a started server reports accepts exactly the keys
    with the fingerprint of the server's only key; the server's own is one of them. *)
Lemma pinned_client_accepts_loopback (to_bytes : PubKey → option (list byte))
    (key_data : PubKey → KeyData) c s fp (h : ClientHandler) key :
  start c = Ok s →
  HostKeyFingerprint_sha256 (ls_fingerprint s) = Ok fp →
  ch_known_hosts h = None → ch_policy h = PinnedSha256 [fp] →
  ∃ k, lc_keys (ls_russh s) = [k] ∧
    (fst (check_server_key to_bytes fingerprint_sha256 key_data h key) = Ok true ↔
     fingerprint_sha256 key = fingerprint_sha256 (public_key k)).
Proof.
  intros (listener & addr & k & _ & _ & _ & _ & _ & Hk & Hf)%start_ok Hfp Hh Hp.
  exists k. split; [done|]. rewrite check_server_key_accepts, Hh, Hp.
  assert (Hv : fp_value fp = ls_fingerprint s).
  { unfold HostKeyFingerprint_sha256 in Hfp.
    destruct (validate_sha256_fingerprint _); [by simplify_eq/=|done]. }
  split.
  - intros [?|(pins & [= <-] & fp' & ->%list_elem_of_singleton & E)]; [done|].
    by rewrite <-E, Hv, Hf.
  - intros E. right. exists [fp]. split; [done|]. exists fp.
    split; [by apply list_elem_of_singleton|]. by rewrite Hv, Hf, E.
Qed.

(** Dropping the server asks the accept loop to stop and aborts its task; a reason given
    before is kept. *)
Lemma drop_stops s :
  is_shutdown_requested (ls_shutdown (LoopbackServer_drop s)) = true ∧
  ls_aborted (LoopbackServer_drop s) = true ∧
  (∀ reason, ls_shutdown s = Some reason → ls_shutdown (LoopbackServer_drop s) = Some reason).
Proof.
  unfold LoopbackServer_drop. cbn. split_and!; [|done|intros reason ->; done].
  by destruct (ls_shutdown s).
Qed.
End Start.
End LoopbackServer.
Arguments LoopbackServer : clear implicits.
Arguments LoopbackRusshConfig : clear implicits.
