(* ===== verification/Debug.v ===== *)
(** * Debug output

    The [fmt::Debug] implementations the crates write by hand, and the derived ones
    they print through.  [docs/dev/security.md] asks that types which carry secrets
    redact them in [Debug]: values that differ only in their secrets print the same.
    How the standard library prints strings, durations and bytes, and [russh] channel
    ids, are parameters. *)
From S2P Require Import Prelude RustStr Channel CoreError Endpoint Config SftpPacket SftpTypes.
From S2P Require Import SftpServer SftpClient KnownHosts ClientErrors ClientCommand ClientAuth.
From S2P Require Import Shell ShellIo TunnelStream Tunnel Client ServerTypes ServerBuild.
From S2P Require Import SftpMock Loopback.

Class DebugStd := {
  duration_debug : Z → string;
  bytes_debug : list byte → string;
  channel_id_debug : Z → string;
  addr_debug : SocketAddr → string;
  io_error_debug : IoError → string;
}.

Section Debug.
Context `{!StrDebug} `{!DebugStd}.

(** ** [Formatter] helpers *)

Definition debug_fields (fields : list (string * string)) : string :=
  join ", " (map (λ '(f, v), f +:+ ": " +:+ v) fields).

(** [debug_struct(name).field(..)...finish()]. *)
Definition debug_struct (name : string) (fields : list (string * string)) : string :=
  match fields with
  | [] => name
  | _ => name +:+ " { " +:+ debug_fields fields +:+ " }"
  end.

(** [... .finish_non_exhaustive()]. *)
Definition debug_struct_open (name : string) (fields : list (string * string)) : string :=
  match fields with
  | [] => name +:+ " { .. }"
  | _ => name +:+ " { " +:+ debug_fields fields +:+ ", .. }"
  end.

Definition debug_tuple (name : string) (values : list string) : string :=
  name +:+ "(" +:+ join ", " values +:+ ")".
Definition debug_option {A} (f : A → string) (o : option A) : string :=
  match o with Some x => debug_tuple "Some" [f x] | None => "None" end.
Definition debug_list {A} (f : A → string) (l : list A) : string :=
  "[" +:+ join ", " (map f l) +:+ "]".
Definition debug_map {A B} (f : A → string) (g : B → string) (l : list (A * B)) : string :=
  "{" +:+ join ", " (map (λ '(k, v), f k +:+ ": " +:+ g v) l) +:+ "}".
Definition usize_debug {A} (l : list A) : string := dec (Z.of_nat (length l)).

(** ** Derived implementations *)

Definition SessionId_debug (id : Z) : string := debug_tuple "SessionId" [dec id].
Definition Username_debug (u : Username) : string :=
  debug_tuple "Username" [str_debug (username_text u)].
Definition Endpoint_debug (e : Endpoint) : string :=
  debug_struct "Endpoint" [("host", str_debug (e_host e)); ("port", dec (e_port e))].
Definition Timeouts_debug (t : Timeouts) : string :=
  debug_struct "Timeouts"
    [("connect", duration_debug (connect_timeout t)); ("auth", duration_debug (auth_timeout t));
     ("channel_open", duration_debug (channel_open_timeout t))].
Definition Keepalive_debug (k : Keepalive) : string :=
  debug_struct "Keepalive"
    [("enabled", bool_debug (ka_enabled k)); ("interval", duration_debug (ka_interval k));
     ("max_missed", dec (ka_max_missed k))].
Definition HostKeyFingerprint_debug (f : HostKeyFingerprint) : string :=
  debug_struct "HostKeyFingerprint"
    [("algorithm", match fp_algorithm f with Sha256 => "Sha256" end);
     ("value", str_debug (fp_value f))].
Definition HostKeyPolicy_debug (p : HostKeyPolicy) : string :=
  match p with
  | Strict => "Strict"
  | InsecureAcceptAny => "InsecureAcceptAny"
  | PinnedSha256 pins => debug_tuple "PinnedSha256" [debug_list HostKeyFingerprint_debug pins]
  end.
Definition ClientConfig_debug (c : ClientConfig) : string :=
  debug_struct "ClientConfig"
    [("endpoint", Endpoint_debug (cc_endpoint c));
     ("username", debug_option Username_debug (cc_username c));
     ("credentials", debug_list Credential_debug (cc_credentials c));
     ("timeouts", Timeouts_debug (cc_timeouts c));
     ("keepalive", Keepalive_debug (cc_keepalive c));
     ("host_key_policy", HostKeyPolicy_debug (cc_host_key_policy c))].
Definition ServerConfig_debug (c : ServerConfig) : string :=
  debug_struct "ServerConfig"
    [("listen", Endpoint_debug (sc_listen c)); ("server_id", str_debug (sc_server_id c));
     ("max_sessions", dec (sc_max_sessions c))].
Definition TerminalMode_debug (m : TerminalMode) : string :=
  match m with
  | Interrupt => "Interrupt" | Quit => "Quit" | Erase => "Erase" | Kill => "Kill"
  | EndOfFile => "EndOfFile" | InputSpeed => "InputSpeed" | OutputSpeed => "OutputSpeed"
  | Echo => "Echo" | EchoErase => "EchoErase" | EchoKill => "EchoKill" | EchoNl => "EchoNl"
  | CanonicalInput => "CanonicalInput" | SigCheck => "SigCheck" | CrToNlInput => "CrToNlInput"
  | NlToCrInput => "NlToCrInput" | IgnoreCrInput => "IgnoreCrInput"
  | PostProcessOutput => "PostProcessOutput" | NlToCrNlOutput => "NlToCrNlOutput"
  | CrToNlOutput => "CrToNlOutput" | NoCrOnNl => "NoCrOnNl"
  | Custom b => debug_tuple "Custom" [dec b]
  end.
Definition Pty_debug (p : Pty) : string :=
  debug_struct "Pty"
    [("term", str_debug (pty_term p)); ("width_columns", dec (pty_width_columns p));
     ("height_rows", dec (pty_height_rows p)); ("width_pixels", dec (pty_width_pixels p));
     ("height_pixels", dec (pty_height_pixels p));
     ("modes", debug_map TerminalMode_debug dec (pty_modes p))].
Definition TcpEndpoint_debug (e : TcpEndpoint) : string :=
  debug_struct "TcpEndpoint" [("host", str_debug (tcp_host e)); ("port", dec (tcp_port e))].
Definition StreamLocalSpec_debug (s : StreamLocalSpec) : string :=
  debug_struct "StreamLocalSpec" [("path", str_debug (sl_path s))].
Definition ForwardSpec_debug (s : ForwardSpec) : string :=
  let direction d := match d with Local => "Local" | Remote => "Remote" end in
  match s with
  | Tcp d bind target =>
      debug_struct "Tcp" [("direction", direction d); ("bind", TcpEndpoint_debug bind);
                          ("target", TcpEndpoint_debug target)]
  | StreamLocal d bind target =>
      debug_struct "StreamLocal" [("direction", direction d); ("bind", StreamLocalSpec_debug bind);
                                  ("target", StreamLocalSpec_debug target)]
  end.
Definition TunnelBindPoint_debug (b : TunnelBindPoint) : string :=
  match b with
  | BoundTcp addr => debug_tuple "Tcp" [addr_debug addr]
  | BoundStreamLocal path => debug_tuple "StreamLocal" [str_debug path]
  end.
Definition ExecCommand_debug (c : ExecCommand) : string :=
  debug_struct "ExecCommand" [("bytes", bytes_debug (command_bytes c))].
Definition SessionContext_debug (c : SessionContext) : string :=
  debug_struct "SessionContext"
    [("id", SessionId_debug (sx_id c)); ("username", debug_option Username_debug (sx_username c))].
Definition KnownHostsEntry_debug (e : KnownHostsEntry) : string :=
  debug_struct "KnownHostsEntry"
    [("hostname", str_debug (hostname e)); ("port", dec (port e));
     ("algorithm", str_debug (algorithm e));
     ("key_blob", debug_list (λ b, dec (b2z b)) (key_blob e));
     ("comment", debug_option str_debug (comment e)); ("revoked", bool_debug (revoked e))].
Definition SftpMetadata_debug (m : SftpMetadata) : string :=
  debug_struct "SftpMetadata"
    [("size", debug_option dec (m_size m)); ("uid", debug_option dec (m_uid m));
     ("gid", debug_option dec (m_gid m)); ("permissions", debug_option dec (m_permissions m));
     ("accessed", debug_option dec (m_accessed m)); ("modified", debug_option dec (m_modified m))].
Definition SftpDirEntry_debug (e : SftpDirEntry) : string :=
  debug_struct "SftpDirEntry"
    [("filename", str_debug (de_filename e)); ("longname", str_debug (de_longname e));
     ("metadata", SftpMetadata_debug (de_metadata e))].
Definition KeyboardInteractiveReply_debug (r : KeyboardInteractiveReply) : string :=
  match r with
  | Responses responses => debug_tuple "Responses" [debug_list str_debug responses]
  | AbortAuth => "Abort"
  end.

(** ** Implementations written by hand *)

Definition CategoryError_debug {K} (kind_debug : K → string) (e : CategoryError K) : string :=
  debug_struct "CategoryError"
    [("kind", kind_debug (err_kind e)); ("message", str_debug (err_message e));
     ("has_source", bool_debug (is_some (err_source e)))].

Definition TransportErrorKind_debug (k : TransportErrorKind) : string :=
  match k with
  | TransportDns => "Dns" | TransportTcpConnect => "TcpConnect"
  | TransportNegotiation => "Negotiation" | TransportKeepalive => "Keepalive"
  | TransportEncryption => "Encryption" | TransportIo => "Io" | TransportOther => "Other"
  end.
Definition HostKeyErrorKind_debug (k : HostKeyErrorKind) : string :=
  match k with
  | HostKeyUnknown => "Unknown" | HostKeyChanged => "Changed" | HostKeyRejected => "Rejected"
  | HostKeyUnsupported => "Unsupported" | HostKeyUnavailable => "Unavailable"
  end.
Definition AuthenticationErrorKind_debug (k : AuthenticationErrorKind) : string :=
  match k with
  | AuthRejected => "Rejected" | AuthExhausted => "Exhausted" | AuthPartial => "Partial"
  | AuthUnsupportedMethod => "UnsupportedMethod" | AuthUnavailable => "Unavailable"
  end.
Definition ChannelErrorKind_debug (k : ChannelErrorKind) : string :=
  match k with
  | ChannelOpenFailed => "Open" | ChannelRequest => "Request" | ChannelRead => "Read"
  | ChannelWrite => "Write" | ChannelEof => "Eof" | ChannelClose => "Close"
  | ChannelProtocol => "Protocol"
  end.
Definition SftpErrorKind_debug (k : SftpErrorKind) : string :=
  match k with
  | RemoteStatus => "RemoteStatus" | Protocol => "Protocol" | ChannelIo => "ChannelIo"
  | UnexpectedResponse => "UnexpectedResponse" | UnsupportedVersion => "UnsupportedVersion"
  | Unsupported => "Unsupported" | NoSuchFile => "NoSuchFile"
  | PermissionDenied => "PermissionDenied"
  end.
Definition ForwardingErrorKind_debug (k : ForwardingErrorKind) : string :=
  match k with
  | FwdBind => "Bind" | FwdListen => "Listen" | FwdAccept => "Accept" | FwdConnect => "Connect"
  | FwdGlobalRequest => "GlobalRequest" | FwdChannelOpen => "ChannelOpen"
  | FwdStreamCopy => "StreamCopy" | FwdCancel => "Cancel" | FwdShutdown => "Shutdown"
  end.
Definition Operation_debug (o : Operation) : string :=
  match o with
  | CoreError.OpConnect => "Connect" | CoreError.OpAuthentication => "Authentication"
  | CoreError.OpChannelOpen => "ChannelOpen" | CoreError.OpCommand => "Command"
  | CoreError.OpShell => "Shell" | CoreError.OpSftp => "Sftp"
  | CoreError.OpForwarding => "Forwarding" | CoreError.OpServer => "Server"
  | CoreError.OpShutdown => "Shutdown" | CoreError.OpOther => "Other"
  end.
Definition SshErrorKind_debug (k : SshErrorKind) : string :=
  match k with SshRussh => "Russh" | SshOther => "Other" end.

Definition Error_debug (e : Error) : string :=
  match e with
  | InvalidConfig m => debug_tuple "InvalidConfig" [str_debug m]
  | ETransport c => debug_tuple "Transport" [CategoryError_debug TransportErrorKind_debug c]
  | EHostKey c => debug_tuple "HostKey" [CategoryError_debug HostKeyErrorKind_debug c]
  | EAuthentication c =>
      debug_tuple "Authentication" [CategoryError_debug AuthenticationErrorKind_debug c]
  | EChannel c => debug_tuple "Channel" [CategoryError_debug ChannelErrorKind_debug c]
  | ECommandExit exit => debug_struct "CommandExit" [("exit", CommandExit_debug exit)]
  | ESftp c => debug_tuple "Sftp" [CategoryError_debug SftpErrorKind_debug c]
  | EForwarding c => debug_tuple "Forwarding" [CategoryError_debug ForwardingErrorKind_debug c]
  | ETimeout c => debug_tuple "Timeout" [CategoryError_debug Operation_debug c]
  | ECancelled c => debug_tuple "Cancelled" [CategoryError_debug Operation_debug c]
  | EDisconnected c => debug_tuple "Disconnected" [CategoryError_debug Operation_debug c]
  | EUnsupported m => debug_tuple "Unsupported" [str_debug m]
  | EIo io => debug_tuple "Io" [io_error_debug io]
  | ESsh c => debug_tuple "Ssh" [CategoryError_debug SshErrorKind_debug c]
  end.

Definition ClientKeyboardInteractivePrompt_debug (p : ClientKeyboardInteractivePrompt) : string :=
  debug_struct "ClientKeyboardInteractivePrompt"
    [("prompt", str_debug (prompt p)); ("echo", bool_debug (echo p))].
Definition ClientKeyboardInteractiveInfo_debug (i : ClientKeyboardInteractiveInfo) : string :=
  debug_struct "ClientKeyboardInteractiveInfo"
    [("name", str_debug (ki_name i)); ("instructions", str_debug (ki_instructions i));
     ("prompts", debug_list ClientKeyboardInteractivePrompt_debug (ki_prompts i))].

Definition ShellHandle_debug (channel_id : Z) (h : ShellHandle) : string :=
  debug_struct "ShellHandle"
    [("channel_id", channel_id_debug channel_id); ("exit", CommandExit_debug (exit h));
     ("closed", bool_debug (is_closed h))].

Definition ShellAsyncIo_debug (io : ShellAsyncIo) : string :=
  debug_struct "ShellAsyncIo" [("eof_sent", bool_debug (eof_sent io))].
Definition TunnelStream_debug (s : TunnelStream) : string :=
  debug_struct "TunnelStream" [("closed", bool_debug (ts_closed s))].
Definition Tunnel_debug (t : Tunnel) : string :=
  debug_struct "Tunnel"
    [("session_id", SessionId_debug (t_session_id t)); ("spec", ForwardSpec_debug (t_spec t));
     ("bound", TunnelBindPoint_debug (t_bound t))].

Section Handles.
Context {Handle : Type}.

Definition Shell_debug (s : Shell Handle) : string :=
  debug_struct "Shell"
    [("session_id", SessionId_debug (sh_session_id s)); ("pty", debug_option Pty_debug (Shell.sh_pty s));
     ("env_count", usize_debug (Shell.sh_env s)); ("timeouts", Timeouts_debug (sh_timeouts s));
     ("x11_params", debug_option X11Params_debug (sh_x11_params s));
     ("agent_forward", bool_debug (sh_want_agent_forward s))].
Definition ShellBuilder_debug (s : ShellBuilder Handle) : string :=
  debug_struct "ShellBuilder"
    [("session_id", SessionId_debug (sb_session_id s)); ("pty", debug_option Pty_debug (sb_pty s));
     ("env_count", usize_debug (sb_env s)); ("timeouts", Timeouts_debug (sb_timeouts s));
     ("x11_params", debug_option X11Params_debug (sb_x11_params s));
     ("agent_forward", bool_debug (sb_want_agent_forward s))].
Definition Subsystem_debug (s : SubsystemRequest Handle) : string :=
  debug_struct "Subsystem"
    [("session_id", SessionId_debug (Shell.ss_session_id s)); ("name", str_debug (Shell.ss_name s));
     ("timeouts", Timeouts_debug (ss_timeouts s));
     ("x11_params", debug_option X11Params_debug (ss_x11_params s));
     ("agent_forward", bool_debug (ss_want_agent_forward s))].
Definition SubsystemBuilder_debug (s : SubsystemBuilder Handle) : string :=
  debug_struct "SubsystemBuilder"
    [("session_id", SessionId_debug (ssb_session_id s)); ("name", str_debug (ssb_name s));
     ("timeouts", Timeouts_debug (ssb_timeouts s));
     ("x11_params", debug_option X11Params_debug (ssb_x11_params s));
     ("agent_forward", bool_debug (ssb_want_agent_forward s))].

Definition TunnelBuilder_debug (t : TunnelBuilder Handle) : string :=
  debug_struct "TunnelBuilder"
    [("session_id", SessionId_debug (tb_session_id _ t)); ("spec", ForwardSpec_debug (tb_spec _ t));
     ("timeouts", Timeouts_debug (tb_timeouts _ t))].
Definition DirectTcpBuilder_debug (t : DirectTcpBuilder Handle) : string :=
  debug_struct "DirectTcpBuilder"
    [("session_id", SessionId_debug (TunnelStream.dt_session_id t)); ("target", TcpEndpoint_debug (TunnelStream.dt_target t));
     ("timeouts", Timeouts_debug (TunnelStream.dt_timeouts t))].
Definition DirectStreamLocalBuilder_debug (t : DirectStreamLocalBuilder Handle) : string :=
  debug_struct "DirectStreamLocalBuilder"
    [("session_id", SessionId_debug (TunnelStream.ds_session_id t));
     ("socket_path", str_debug (TunnelStream.ds_socket_path t));
     ("timeouts", Timeouts_debug (TunnelStream.ds_timeouts t))].
Definition Session_debug (s : Session Handle) : string :=
  debug_struct "Session"
    [("id", SessionId_debug (s_id s)); ("endpoint", Endpoint_debug (s_endpoint s));
     ("timeouts", Timeouts_debug (s_timeouts s));
     ("connected", bool_debug (is_some (s_handle s)))].
End Handles.

Section Clients.
Context {PrivKey Cert : Type}.

Definition Client_debug (c : Client PrivKey Cert) : string :=
  debug_struct "Client"
    [("config", ClientConfig_debug (c_config c));
     ("x11_display", debug_option str_debug (c_x11_display c));
     ("cert_count", usize_debug (c_cert_credentials c))].
Definition ClientBuilder_debug (b : ClientBuilder PrivKey Cert) : string :=
  debug_struct "ClientBuilder"
    [("config", ClientConfig_debug (c_config (cb_client b)));
     ("has_known_hosts", bool_debug (is_some (c_known_hosts (cb_client b))));
     ("known_hosts_accept_new", bool_debug (c_known_hosts_accept_new (cb_client b)))].
(** [ClientHandler] also keeps the display and the certificates of its client. *)
Definition ClientHandler_debug (h : ClientHandler) (c : Client PrivKey Cert) : string :=
  debug_struct "ClientHandler"
    [("host_key_policy", HostKeyPolicy_debug (ch_policy h));
     ("x11_display", debug_option str_debug (c_x11_display c));
     ("cert_count", usize_debug (c_cert_credentials c))].
Definition RusshHandleGuard_debug : string := debug_struct_open "RusshHandleGuard" [].
End Clients.

Definition CommandOutput_debug (o : CommandOutput) : string :=
  debug_struct "CommandOutput"
    [("exit", CommandExit_debug (co_exit o));
     ("stdout", "<" +:+ usize_debug (co_stdout o) +:+ " bytes>");
     ("stderr", "<" +:+ usize_debug (co_stderr o) +:+ " bytes>")].

Definition SftpFile_debug (f : SftpFile) : string :=
  debug_struct "SftpFile"
    [("handle", str_debug (file_handle f)); ("closed", bool_debug (file_closed f))].
Definition SftpDir_debug (d : SftpDir) : string :=
  debug_struct "SftpDir"
    [("handle", str_debug (dir_handle d)); ("closed", bool_debug (dir_closed d))].
Definition SftpClient_debug (c : SftpClient) : string :=
  debug_struct "SftpClient"
    [("session_id", SessionId_debug (session_id c)); ("open", bool_debug (runtime_open c))].

(** A [ServerHandle] is the cell it shares with the server. *)
Definition ServerHandle_debug (cell : option string) : string :=
  debug_struct "ServerHandle" [("shutdown_requested", bool_debug (is_shutdown_requested cell))].

Definition AuthContext_debug (server : option string) (c : AuthContext) : string :=
  debug_struct "AuthContext"
    [("session_id", SessionId_debug (ax_session_id c));
     ("username", Username_debug (ax_username c));
     ("peer_addr", debug_option (λ a, a) (ax_peer_addr c));
     ("server", ServerHandle_debug server)].
Definition KeyboardInteractiveContext_debug (server : option string)
    (c : KeyboardInteractiveContext) : string :=
  debug_struct "KeyboardInteractiveContext"
    [("session", AuthContext_debug server (kx_session c));
     ("submethods", str_debug (kx_submethods c));
     ("responses", "<redacted " +:+ usize_debug (kx_responses c) +:+ " responses>")].
Definition StreamingExecContext_debug (c : StreamingExecContext) : string :=
  debug_struct "StreamingExecContext"
    [("session_id", SessionId_debug (sc_session_id c));
     ("username", str_debug (username_text (sc_username c)));
     ("peer_addr", debug_option (λ a, a) (sc_peer_addr c));
     ("channel_id", dec (sc_channel_id c)); ("command", ExecCommand_debug (sc_command c))].
Definition X11RequestContext_debug (server : option string) (c : X11RequestContext) : string :=
  debug_struct "X11RequestContext"
    [("session_id", SessionId_debug (xr_session_id c)); ("username", Username_debug (xr_username c));
     ("channel", channel_id_debug (xr_channel c));
     ("single_connection", bool_debug (xr_single_connection c));
     ("auth_protocol", str_debug (xr_auth_protocol c)); ("auth_cookie", str_debug "<redacted>");
     ("screen_number", dec (xr_screen_number c)); ("server", ServerHandle_debug server)].

Section Servers.
Context {A PubKey Cert PrivKey : Type}.

Definition ServerHostKey_debug (k : ServerHostKey PrivKey) : string :=
  debug_struct "ServerHostKey" [("private_key", str_debug "***")].
Definition ServerHostKeySource_debug (s : ServerHostKeySource PrivKey) : string :=
  match s with
  | Loaded _ => "Loaded(ServerHostKey(***))"
  | OpenSshFile path => debug_tuple "OpenSshFile" [str_debug path]
  end.

Definition Server_debug (r : ServerRuntime A PubKey Cert PrivKey) : string :=
  debug_struct "Server"
    [("config", ServerConfig_debug (r_config r)); ("host_key_count", usize_debug (r_host_keys r));
     ("exec_route_count", dec (Z.of_nat (base.size (exec_routes (c_exec (r_calls r))))))].

Definition ServerBuilder_debug (b : ServerBuilder A PubKey Cert PrivKey) : string :=
  let auth := c_auth (b_calls b) in
  let exec := c_exec (b_calls b) in
  let chan := c_channel (b_calls b) in
  let hooks := c_hooks (b_calls b) in
  debug_struct "ServerBuilder"
    [("config", ServerConfig_debug (b_config b)); ("host_key_count", usize_debug (b_host_keys b));
     ("has_password_auth", bool_debug (is_some (password_auth auth)));
     ("has_public_key_auth", bool_debug (is_some (public_key_auth auth)));
     ("has_keyboard_interactive_auth", bool_debug (is_some (keyboard_interactive_auth auth)));
     ("exec_route_count", dec (Z.of_nat (base.size (exec_routes exec))));
     ("has_fallback_exec", bool_debug (is_some (fallback_exec exec)));
     ("has_shell_handler", bool_debug (is_some (shell_handler chan)));
     ("has_pty_handler", bool_debug (is_some (pty_handler chan)));
     ("has_subsystem_handler", bool_debug (is_some (subsystem_handler chan)));
     ("has_env_handler", bool_debug (is_some (env_handler chan)));
     ("has_window_change_handler", bool_debug (is_some (window_change_handler chan)));
     ("shutdown_grace", duration_debug (b_shutdown_grace b));
     ("has_on_connect", bool_debug (is_some (on_connect hooks)));
     ("has_on_disconnect", bool_debug (is_some (on_disconnect hooks)))].

(** The order in which a [HashMap] is printed is unspecified. *)
Definition LoopbackServerConfig_debug (commands : gmap string CommandResponse → string)
    (streaming : gmap string StreamingCommandConfig → string)
    (c : LoopbackServerConfig PubKey) : string :=
  debug_struct "LoopbackServerConfig"
    [("username", str_debug (lb_username c)); ("password", str_debug "***");
     ("has_auth_banner", bool_debug (is_some (lb_auth_banner c)));
     ("authorized_key_count", usize_debug (lb_authorized_keys c));
     ("commands", commands (lb_commands c));
     ("streaming_commands", streaming (lb_streaming_commands c));
     ("accept_shell", bool_debug (lb_accept_shell c)); ("accept_pty", bool_debug (lb_accept_pty c));
     ("accept_subsystem", str_debug (lb_accept_subsystem c));
     ("accept_direct_tcpip", bool_debug (lb_accept_direct_tcpip c));
     ("accept_tcpip_forward", bool_debug (lb_accept_tcpip_forward c));
     ("accept_direct_streamlocal", bool_debug (lb_accept_direct_streamlocal c));
     ("accept_streamlocal_forward", bool_debug (lb_accept_streamlocal_forward c))].
Definition LoopbackServer_debug (addr : SocketAddr) : string :=
  debug_struct_open "LoopbackServer" [("addr", addr_debug addr)].
End Servers.

(** ** Values that differ only in their secrets

    For each type that carries a secret, the relation that leaves the secret out of the
    comparison.  Its [Debug] is a function of the rest. *)

Definition credential_agree : relation Credential := λ a b, same_but_secrets a b = true.

Definition config_agree : relation ClientConfig := λ a b,
  cc_endpoint a = cc_endpoint b ∧ cc_username a = cc_username b ∧
  Forall2 credential_agree (cc_credentials a) (cc_credentials b) ∧
  cc_timeouts a = cc_timeouts b ∧ cc_keepalive a = cc_keepalive b ∧
  cc_host_key_policy a = cc_host_key_policy b.

(** The keys and passphrases of the certificates, and the known hosts, are left out. *)
Definition client_agree {PrivKey Cert} : relation (Client PrivKey Cert) := λ a b,
  config_agree (c_config a) (c_config b) ∧ c_x11_display a = c_x11_display b ∧
  length (c_cert_credentials a) = length (c_cert_credentials b) ∧
  is_some (c_known_hosts a) = is_some (c_known_hosts b) ∧
  c_known_hosts_accept_new a = c_known_hosts_accept_new b.

Definition certificate_agree {PrivKey Cert} :
    relation (CertificateCredential (PrivKey := PrivKey) (Cert := Cert)) := λ a b,
  has_passphrase (cert_passphrase a) = has_passphrase (cert_passphrase b).

(** The cookie is left out. *)
Definition x11_agree : relation X11Params := λ a b,
  x11_single_connection a = x11_single_connection b ∧ x11_protocol a = x11_protocol b ∧
  x11_screen a = x11_screen b.

(** So are the names and values of the environment. *)
Definition shell_agree {Handle} : relation (ShellBuilder Handle) := λ a b,
  sb_session_id a = sb_session_id b ∧ sb_pty a = sb_pty b ∧
  length (sb_env a) = length (sb_env b) ∧ sb_timeouts a = sb_timeouts b ∧
  option_Forall2 x11_agree (sb_x11_params a) (sb_x11_params b) ∧
  sb_want_agent_forward a = sb_want_agent_forward b.

Definition subsystem_agree {Handle} : relation (SubsystemBuilder Handle) := λ a b,
  ssb_session_id a = ssb_session_id b ∧ ssb_name a = ssb_name b ∧
  ssb_timeouts a = ssb_timeouts b ∧
  option_Forall2 x11_agree (ssb_x11_params a) (ssb_x11_params b) ∧
  ssb_want_agent_forward a = ssb_want_agent_forward b.

Definition keyboard_agree : relation KeyboardInteractiveContext := λ a b,
  kx_session a = kx_session b ∧ kx_submethods a = kx_submethods b ∧
  length (kx_responses a) = length (kx_responses b).

Definition x11_request_agree : relation X11RequestContext := λ a b,
  xr_session_id a = xr_session_id b ∧ xr_username a = xr_username b ∧
  xr_channel a = xr_channel b ∧ xr_single_connection a = xr_single_connection b ∧
  xr_auth_protocol a = xr_auth_protocol b ∧ xr_screen_number a = xr_screen_number b.

Definition output_agree : relation CommandOutput := λ a b,
  co_exit a = co_exit b ∧ length (co_stdout a) = length (co_stdout b) ∧
  length (co_stderr a) = length (co_stderr b).

Definition server_builder_agree {A PubKey Cert PrivKey} :
    relation (ServerBuilder A PubKey Cert PrivKey) := λ a b,
  b_config a = b_config b ∧ length (b_host_keys a) = length (b_host_keys b) ∧
  b_shutdown_grace a = b_shutdown_grace b ∧ b_calls a = b_calls b.

Definition category_agree {K} : relation (CategoryError K) := λ a b,
  err_kind a = err_kind b ∧ err_message a = err_message b ∧
  is_some (err_source a) = is_some (err_source b).

(** Errors of the same category that differ only in the source they wrap. *)
Definition error_agree : relation Error := λ a b,
  match a, b with
  | ETransport c, ETransport d => category_agree c d
  | EHostKey c, EHostKey d => category_agree c d
  | EAuthentication c, EAuthentication d => category_agree c d
  | EChannel c, EChannel d => category_agree c d
  | ESftp c, ESftp d => category_agree c d
  | EForwarding c, EForwarding d => category_agree c d
  | ETimeout c, ETimeout d => category_agree c d
  | ECancelled c, ECancelled d => category_agree c d
  | EDisconnected c, EDisconnected d => category_agree c d
  | ESsh c, ESsh d => category_agree c d
  | _, _ => a = b
  end.

(** Close the goal with the equations of the hypotheses. *)
#[local] Ltac rewrite_fields :=
  repeat match goal with
         | H : _ ∧ _ |- _ => destruct H
         | H : ?x = ?y |- context [?x] => rewrite H
         end.

Lemma usize_agree {X Y} (l : list X) (l' : list Y) :
  length l = length l' → usize_debug l = usize_debug l'.
Proof. unfold usize_debug. by intros ->. Qed.

Lemma list_agree {X} (R : relation X) (f : X → string) l l' :
  Proper (R ==> eq) f → Forall2 R l l' → debug_list f l = debug_list f l'.
Proof.
  intros Hf Hl. unfold debug_list. do 3 f_equal.
  induction Hl as [|x y l l' Hxy _ IH]; [done|]. cbn. by rewrite (Hf _ _ Hxy), IH.
Qed.

Lemma option_agree {X} (R : relation X) (f : X → string) o o' :
  Proper (R ==> eq) f → option_Forall2 R o o' → debug_option f o = debug_option f o'.
Proof. intros Hf [x y Hxy|]; [|done]. cbn. by rewrite (Hf _ _ Hxy). Qed.

Lemma category_redacts {K} (kind : K → string) a b :
  category_agree a b → CategoryError_debug kind a = CategoryError_debug kind b.
Proof. intros (H1 & H2 & H3). unfold CategoryError_debug. by rewrite H1, H2, H3. Qed.

#[export] Instance Error_debug_proper : Proper (error_agree ==> eq) Error_debug.
Proof.
  intros [] [] E; cbn in E; try discriminate E; try (by injection E as ->);
    unfold Error_debug; by rewrite (category_redacts _ _ _ E).
Qed.

#[export] Instance Credential_debug_proper : Proper (credential_agree ==> eq) Credential_debug.
Proof. intros a b. apply debug_redacts_secrets. Qed.

#[export] Instance X11Params_debug_proper : Proper (x11_agree ==> eq) X11Params_debug.
Proof. intros a b H1. unfold X11Params_debug, x11_agree in *. by rewrite_fields. Qed.

#[export] Instance ClientConfig_debug_proper : Proper (config_agree ==> eq) ClientConfig_debug.
Proof.
  intros a b (H1 & H2 & H3 & H4 & H5 & H6). unfold ClientConfig_debug.
  by rewrite H1, H2, H4, H5, H6, (list_agree credential_agree _ _ _ _ H3).
Qed.

Section Agree.
Context {Handle PrivKey Cert A PubKey : Type}.

#[export] Instance Client_debug_proper :
  Proper (client_agree ==> eq) (Client_debug (PrivKey := PrivKey) (Cert := Cert)).
Proof.
  intros a b (H1 & H2 & H3 & _). unfold Client_debug. by rewrite H1, H2, (usize_agree _ _ H3).
Qed.

#[export] Instance ShellBuilder_debug_proper :
  Proper (shell_agree ==> eq) (ShellBuilder_debug (Handle := Handle)).
Proof.
  intros a b (H1 & H2 & H3 & H4 & H5 & H6). unfold ShellBuilder_debug.
  by rewrite H1, H2, H4, H6, (usize_agree _ _ H3), (option_agree x11_agree _ _ _ _ H5).
Qed.

#[export] Instance SubsystemBuilder_debug_proper :
  Proper (subsystem_agree ==> eq) (SubsystemBuilder_debug (Handle := Handle)).
Proof.
  intros a b (H1 & H2 & H3 & H4 & H5). unfold SubsystemBuilder_debug.
  by rewrite H1, H2, H3, H5, (option_agree x11_agree _ _ _ _ H4).
Qed.

Lemma shell_built_agree (a b : ShellBuilder Handle) :
  shell_agree a b → Shell_debug (ShellBuilder_build a) = Shell_debug (ShellBuilder_build b).
Proof.
  intros (H1 & H2 & H3 & H4 & H5 & H6). unfold Shell_debug, ShellBuilder_build.
  cbn [sh_session_id Shell.sh_pty Shell.sh_env sh_timeouts sh_x11_params sh_want_agent_forward].
  by rewrite H1, H2, H4, H6, (usize_agree _ _ H3), (option_agree x11_agree _ _ _ _ H5).
Qed.

Lemma subsystem_built_agree (a b : SubsystemBuilder Handle) :
  subsystem_agree a b →
  Subsystem_debug (SubsystemBuilder_build a) = Subsystem_debug (SubsystemBuilder_build b).
Proof.
  intros (H1 & H2 & H3 & H4 & H5). unfold Subsystem_debug, SubsystemBuilder_build.
  cbn [Shell.ss_session_id Shell.ss_name ss_timeouts ss_x11_params ss_want_agent_forward].
  by rewrite H1, H2, H3, H5, (option_agree x11_agree _ _ _ _ H4).
Qed.

(** C33.  Secret-bearing types redact [Debug]: two clients that differ only in their
    passwords, passphrases, private keys and certificates print the same, and so do
    shells and subsystems that differ in X11 cookies and environment values, keyboard
    challenges that differ in the responses, X11 requests that differ in the cookie,
    servers under construction that differ in their host keys, command outputs that
    differ in the bytes and errors that differ in their source. *)
Theorem debug_reveals_no_secret :
  (∀ a b : Client PrivKey Cert,
     client_agree a b →
     Client_debug a = Client_debug b ∧
     ClientBuilder_debug {| cb_client := a |} = ClientBuilder_debug {| cb_client := b |}) ∧
  (∀ a b : CertificateCredential (PrivKey := PrivKey) (Cert := Cert),
     certificate_agree a b → CertificateCredential_debug a = CertificateCredential_debug b) ∧
  (∀ a b : ShellBuilder Handle,
     shell_agree a b →
     ShellBuilder_debug a = ShellBuilder_debug b ∧
     Shell_debug (ShellBuilder_build a) = Shell_debug (ShellBuilder_build b)) ∧
  (∀ a b : SubsystemBuilder Handle,
     subsystem_agree a b →
     SubsystemBuilder_debug a = SubsystemBuilder_debug b ∧
     Subsystem_debug (SubsystemBuilder_build a) = Subsystem_debug (SubsystemBuilder_build b)) ∧
  (∀ cell a b, keyboard_agree a b →
     KeyboardInteractiveContext_debug cell a = KeyboardInteractiveContext_debug cell b) ∧
  (∀ cell a b, x11_request_agree a b →
     X11RequestContext_debug cell a = X11RequestContext_debug cell b) ∧
  (∀ a b : ServerBuilder A PubKey Cert PrivKey,
     server_builder_agree a b → ServerBuilder_debug a = ServerBuilder_debug b) ∧
  (∀ a b, output_agree a b → CommandOutput_debug a = CommandOutput_debug b) ∧
  (∀ a b, error_agree a b → Error_debug a = Error_debug b).
Proof.
  repeat split; intros.
  - by apply Client_debug_proper.
  - destruct H1 as (H1 & _ & _ & H4 & H5). unfold ClientBuilder_debug. cbn [cb_client].
    by rewrite H1, H4, H5.
  - unfold CertificateCredential_debug. by rewrite H1.
  - by apply ShellBuilder_debug_proper.
  - by apply shell_built_agree.
  - by apply SubsystemBuilder_debug_proper.
  - by apply subsystem_built_agree.
  - destruct H1 as (H1 & H2 & H3). unfold KeyboardInteractiveContext_debug.
    by rewrite H1, H2, (usize_agree _ _ H3).
  - unfold X11RequestContext_debug, x11_request_agree in *. by rewrite_fields.
  - destruct H1 as (H1 & H2 & H3 & H4). unfold ServerBuilder_debug.
    by rewrite H1, H3, H4, (usize_agree _ _ H2).
  - destruct H1 as (H1 & H2 & H3). unfold CommandOutput_debug.
    by rewrite H1, (usize_agree _ _ H2), (usize_agree _ _ H3).
  - by apply Error_debug_proper.
Qed.
End Agree.

End Debug.

(** [KeyboardInteractiveReply] derives [Debug]: the responses, which are passwords and
    one-time codes, are printed as they are. *)
Lemma reply_debug_shows_responses `{!StrDebug} (code : string) :
  KeyboardInteractiveReply_debug (Responses [code])
  = "Responses([" +:+ str_debug code +:+ "])".
Proof. unfold KeyboardInteractiveReply_debug, debug_tuple, debug_list. cbn. by rewrite str_app_assoc. Qed.
