(* ===== verification/SftpPipeline.v ===== *)
(** * Concurrent requests against the server

    The client's tasks ([SftpTasks]) connected to the server's runtime by two byte
    streams: callers issue requests, the writer writes them, the server is given the
    bytes in pieces, the reader is given the responses in pieces, in any
    interleaving.  Every request that returns is answered as if the server had executed
    the requests one after the other, in the order they were written; and no request is
    left without an answer. *)
From Stdlib Require Import Relation_Operators Lexicographic_Product.
From S2P Require Import Prelude RustStr Channel CoreError SftpPacket SftpWire SftpFraming.
From S2P Require Import SftpTypes SftpServer SftpClient SftpLoopback SftpService.
From S2P Require Import SftpTransfer SftpTasks.

Section Pipeline.
Context `{!StrDebug} {S : Type} `{!SftpServerHandler S} (ch : Z).

(** ** The composed system *)

(** Callers that hold an id and have not registered it yet; the client's tasks and
    request counter; the bytes on their way to the server, the server, and the bytes on
    their way back. *)
Record Sys := {
  y_callers : gmap Z Request;
  y_next : Z;
  y_tasks : Tasks;
  y_c2s : list byte;
  y_rt : SftpServerRuntime;
  y_app : S;
  y_s2c : list byte;
}.

Definition Sys_new (rt : SftpServerRuntime) (s : S) : Sys :=
  {| y_callers := ∅; y_next := 10; y_tasks := Tasks_new; y_c2s := []; y_rt := rt; y_app := s;
     y_s2c := [] |}.

Definition with_tasks (st : Sys) (t : Tasks) : Sys :=
  {| y_callers := y_callers st; y_next := y_next st; y_tasks := t; y_c2s := y_c2s st;
     y_rt := y_rt st; y_app := y_app st; y_s2c := y_s2c st |}.

Inductive sys_event :=
| STake (r : Request)        (* a caller takes an id *)
| SRegister (id : Z)         (* and enters the table *)
| SEnqueue (k : nat)         (* hands its packet to the writer *)
| SPoll (k : nat)            (* and looks at its one-shot channel *)
| SWrite                     (* the writer writes a packet *)
| SServer (n : nat)          (* the server is given some bytes *)
| SClient (n : nat)          (* the reader is given some bytes *)
| SCut.                      (* the reader looks at its buffer *)

(** [None]: the event cannot happen now. *)
Definition sys_step (e : sys_event) (st : Sys) : option Sys :=
  match e with
  | STake r =>
      Some {| y_callers := <[y_next st := r]> (y_callers st); y_next := wrap 32 (y_next st + 1);
              y_tasks := y_tasks st; y_c2s := y_c2s st; y_rt := y_rt st; y_app := y_app st;
              y_s2c := y_s2c st |}
  | SRegister id =>
      r ← y_callers st !! id;
      t ← step (EvRegister id (encode_request id r)) (y_tasks st);
      Some {| y_callers := delete id (y_callers st); y_next := y_next st;
              y_tasks := t; y_c2s := y_c2s st; y_rt := y_rt st; y_app := y_app st;
              y_s2c := y_s2c st |}
  | SEnqueue k => with_tasks st <$> step (EvEnqueue k) (y_tasks st)
  | SPoll k => with_tasks st <$> step (EvPoll k) (y_tasks st)
  | SWrite =>
      t ← step EvWrite (y_tasks st);
      Some {| y_callers := y_callers st; y_next := y_next st; y_tasks := t;
              y_c2s := y_c2s st ++ concat (drop (length (t_wire (y_tasks st))) (t_wire t));
              y_rt := y_rt st; y_app := y_app st; y_s2c := y_s2c st |}
  | SServer n =>
      let chunk := take n (y_c2s st) in
      match chunk, handle_data log_data ch chunk (y_rt st) (y_app st) [] with
      | _ :: _, (Ok _, (rt, s, w)) =>
          Some {| y_callers := y_callers st; y_next := y_next st; y_tasks := y_tasks st;
                  y_c2s := drop n (y_c2s st); y_rt := rt; y_app := s;
                  y_s2c := y_s2c st ++ concat w.*2 |}
      | _, _ => None
      end
  | SClient n =>
      let chunk := take n (y_s2c st) in
      match chunk with
      | [] => None
      | _ =>
          t ← step (EvMsg (MsgData chunk)) (y_tasks st);
          Some {| y_callers := y_callers st; y_next := y_next st; y_tasks := t;
                  y_c2s := y_c2s st; y_rt := y_rt st; y_app := y_app st;
                  y_s2c := drop n (y_s2c st) |}
      end
  | SCut => with_tasks st <$> step EvCut (y_tasks st)
  end.

Fixpoint sys_run (es : list sys_event) (st : Sys) : option Sys :=
  match es with
  | [] => Some st
  | e :: es => st' ← sys_step e st; sys_run es st'
  end.

(** The number of requests made in a run. *)
Fixpoint takes (es : list sys_event) : nat :=
  match es with
  | [] => 0
  | STake _ :: es => Datatypes.S (takes es)
  | _ :: es => takes es
  end.

(** The requests callers make are within the wire's limits, and so are their answers. *)
Context (allowed : Request → Prop).
Definition all_allowed (es : list sys_event) : Prop :=
  Forall (λ e, match e with STake r => allowed r | _ => True end) es.

Definition answer_fits (q : Z * SftpResponse) : Prop :=
  is_u32 q.1 ∧ response_ok q.2 ∧ fits_packet (response_fields q.2).

Context (allowed_request : ∀ id r, is_u32 id → allowed r → request_fits (id, r))
        (allowed_answer : ∀ id r s, is_u32 id → allowed r →
           answer_fits (id, (serve id (request_wire r) s).1)).

(** ** Ids *)

(** The id of the [k]-th request made; ids are distinct for 2^32 requests. *)
Definition id_of (k : nat) : Z := wrap 32 (10 + Z.of_nat k).

Lemma id_of_u32 k : is_u32 (id_of k).
Proof. by apply (fits_wrap 32). Qed.

Lemma id_of_next k : wrap 32 (id_of k + 1) = id_of (Datatypes.S k).
Proof. unfold id_of, wrap. rewrite Zplus_mod_idemp_l. f_equal. lia. Qed.

Lemma id_of_inj k k' :
  Z.of_nat k < 2 ^ 32 → Z.of_nat k' < 2 ^ 32 → id_of k = id_of k' → k = k'.
Proof. unfold id_of, wrap. intros. zdm. Qed.

Definition used (n : nat) (id : Z) : Prop := ∃ k, (k < n)%nat ∧ id = id_of k.

Lemma used_fresh n id : Z.of_nat n < 2 ^ 32 → used n id → id ≠ id_of n.
Proof. intros Hn (k & Hk & ->) E. apply id_of_inj in E; lia. Qed.

Lemma used_next n id : used n id → used (Datatypes.S n) id.
Proof. intros (k & Hk & ->). exists k. split; [lia|done]. Qed.

Lemma used_u32 n id : used n id → is_u32 id.
Proof. intros (k & _ & ->). apply id_of_u32. Qed.

(** ** Sequential execution *)

Lemma serve_all_concat l1 l2 (s : S) :
  serve_all (l1 ++ l2) s =
    let '(a1, s1) := serve_all l1 s in
    let '(a2, s2) := serve_all l2 s1 in (a1 ++ a2, s2).
Proof.
  revert s. induction l1 as [|[id r] l1 IH]; intros s; cbn [app serve_all].
  { by destruct (serve_all l2 s). }
  destruct (serve id r s) as [a s1]. rewrite IH. destruct (serve_all l1 s1) as [a1 s2].
  by destruct (serve_all l2 s2).
Qed.

Lemma serve_all_ids l (s : S) : (serve_all l s).1.*1 = l.*1.
Proof.
  revert s. induction l as [|[id r] l IH]; intros s; [done|]. cbn [serve_all].
  destruct (serve id r s) as [a s1]. specialize (IH s1). destruct (serve_all l s1). cbn in *.
  by rewrite IH.
Qed.

(** The answers to a sequence of requests executed one after the other, and the state
    this leaves. *)
Definition answers (s0 : S) (l : list (Z * Request)) : list (Z * SftpResponse) :=
  (serve_all (map request_seen l) s0).1.
Definition executed (s0 : S) (l : list (Z * Request)) : S :=
  (serve_all (map request_seen l) s0).2.

Lemma answers_ids s0 l : (answers s0 l).*1 = l.*1.
Proof.
  unfold answers. rewrite serve_all_ids. induction l as [|q l IH]; [done|]. cbn. by rewrite <-IH.
Qed.

Lemma answers_length s0 l : length (answers s0 l) = length l.
Proof. by rewrite <-(length_fmap fst), answers_ids, length_fmap. Qed.

Lemma answers_app s0 l1 l2 :
  answers s0 (l1 ++ l2) = answers s0 l1 ++ answers (executed s0 l1) l2 ∧
  executed s0 (l1 ++ l2) = executed (executed s0 l1) l2.
Proof.
  unfold answers, executed. rewrite !map_app, serve_all_concat.
  destruct (serve_all (map request_seen l1) s0) as [a1 s1]. cbn.
  by destruct (serve_all _ s1).
Qed.

Lemma answers_take s0 n l : answers s0 (take n l) = take n (answers s0 l).
Proof.
  destruct (decide (n ≤ length l)%nat).
  - rewrite <-(take_drop n l) at 2. rewrite (proj1 (answers_app s0 _ _)).
    rewrite take_app_length'; [done|]. rewrite answers_length, length_take. lia.
  - rewrite !take_ge by (rewrite ?answers_length; lia). done.
Qed.

Lemma take_answers_app s0 n l1 l2 :
  (n ≤ length l1)%nat → take n (answers s0 (l1 ++ l2)) = take n (answers s0 l1).
Proof. intros Hn. by rewrite <-!answers_take, take_app_le. Qed.

Definition answer_body (q : Z * SftpResponse) : list byte :=
  z2b (response_type q.2) :: be_bytes 4 q.1 ++ response_fields q.2.

Lemma answer_body_ok q : answer_fits q → body_ok (answer_body q).
Proof.
  intros (_ & _ & Hf). unfold fits_packet, body_ok, answer_body, vec_len in *.
  cbn [length]. rewrite length_app, length_be_bytes. lia.
Qed.

Lemma answer_framed q : answer_fits q → encode_response q.1 q.2 = framed (answer_body q).
Proof.
  intros (_ & _ & Hf). rewrite encode_response_frame. apply frame_framed.
  unfold fits_packet, vec_len in *. rewrite length_app, length_be_bytes. lia.
Qed.

Lemma answer_reply q :
  answer_fits q → reply_for (answer_body q) = Some (q.1, Ok (response_wire q.2)).
Proof.
  intros (Hid & Hr & _). unfold reply_for, answer_body. by rewrite response_of_packet_fields.
Qed.

Definition issued (q : Z * Request) : Prop := is_u32 q.1 ∧ allowed q.2.

Lemma issued_fits l : Forall issued l → Forall request_fits l.
Proof. intros Hl. eapply Forall_impl; [exact Hl|]. intros [id r] [? ?]. by apply allowed_request. Qed.

Lemma answers_fit s0 l : Forall issued l → Forall answer_fits (answers s0 l).
Proof.
  intros Hl. revert s0. induction Hl as [|[id r] l [Hid Hr] Hl IH]; intros s0; [constructor|].
  change ((id, r) :: l) with ([(id, r)] ++ l). rewrite (proj1 (answers_app _ _ _)).
  apply Forall_app. split; [|apply IH]. unfold answers. cbn [map serve_all request_seen fst snd].
  pose proof (allowed_answer id r s0 Hid Hr) as Ha.
  destruct (serve id (request_wire r) s0) as [a s1]. by constructor.
Qed.

(** ** The invariant of the composed system *)

(** Ids are taken once. *)
Record ids_inv (n : nat) (callers : gmap Z Request) (t : Tasks) : Prop := {
  ids_callers id r :
    callers !! id = Some r →
    used n id ∧ allowed r ∧ ∀ k c, t_calls t !! k = Some c → c_id c ≠ id;
  ids_calls k c : t_calls t !! k = Some c → used n (c_id c) ∧ (k < t_fresh t)%nat;
  ids_inj k k' c c' :
    t_calls t !! k = Some c → t_calls t !! k' = Some c' → c_id c = c_id c' → k = k';
}.

(** [gw] has been written, [gq] waits for the writer. *)
Record flow_inv (gw gq : list (Z * Request)) (t : Tasks) : Prop := {
  flow_call k c :
    t_calls t !! k = Some c →
    ∃ r, allowed r ∧ c_packet c = encode_request (c_id c) r ∧
         (c_phase c = Registered → c_id c ∉ (gw ++ gq).*1) ∧
         (c_phase c ≠ Registered → (c_id c, r) ∈ gw ++ gq);
  flow_sent id : id ∈ (gw ++ gq).*1 → ∃ k c, t_calls t !! k = Some c ∧ c_id c = id;
  flow_issued : Forall issued (gw ++ gq);
  flow_nodup : NoDup (gw ++ gq).*1;
  flow_queue : t_queue t = map (λ q, (q.1, encode_request q.1 q.2)) gq;
  flow_wire : t_wire t = map (λ q, encode_request q.1 q.2) gw;
  flow_running : t_writer t = Running;
}.

(** [done] has been handed to the callers. *)
Record shots_inv (done : list (Z * SftpResponse)) (t : Tasks) : Prop := {
  shots_done k c a :
    t_calls t !! k = Some c → (c_id c, a) ∈ done →
    t_shots t !! k = Some (Sent (Ok (response_wire a)));
  shots_wait k c :
    t_calls t !! k = Some c → c_id c ∉ done.*1 →
    t_shots t !! k = Some Open ∧ t_pending t !! c_id c = Some k;
  shots_pending id k :
    t_pending t !! id = Some k → id ∉ done.*1 ∧ ∃ c, t_calls t !! k = Some c ∧ c_id c = id;
  shots_finished k c r :
    t_calls t !! k = Some c → c_phase c = Finished r →
    ∃ a, (c_id c, a) ∈ done ∧ r = Ok (response_wire a);
}.

(** The server has executed the first [i] requests written. *)
Definition server_inv (s0 : S) (gw : list (Z * Request)) (i : nat) (st : Sys) : Prop :=
  ∃ consumed rest,
    stream_of gw = consumed ++ y_c2s st ∧
    split_packets consumed = (map request_body (take i gw), NeedMore rest) ∧
    buffers (y_rt st) !! ch = Some rest ∧ y_app st = executed s0 (take i gw).

(** The answers to requests [j] to [i] are on their way back. *)
Record reply_inv (s0 : S) (gw : list (Z * Request)) (i j : nat) (s2c : list byte) (t : Tasks) :
    Prop := {
  reply_order : (j ≤ i ≤ length gw)%nat;
  reply_bytes :
    concat (map (λ q, encode_response q.1 q.2) (drop j (take i (answers s0 gw))))
    = t_buf t ++ s2c;
  reply_waiting : t_reader t = Waiting → split_packets (t_buf t) = ([], NeedMore (t_buf t));
  reply_alive : t_reader t ≠ Stopped;
}.

Record sys_inv (s0 : S) (n : nat) (gw gq : list (Z * Request)) (i j : nat) (st : Sys) : Prop := {
  sys_next : y_next st = id_of n;
  sys_ids : ids_inv n (y_callers st) (y_tasks st);
  sys_flow : flow_inv gw gq (y_tasks st);
  sys_shots : shots_inv (take j (answers s0 gw)) (y_tasks st);
  sys_server : server_inv s0 gw i st;
  sys_reply : reply_inv s0 gw i j (y_s2c st) (y_tasks st);
}.

(** ** Callers *)

Lemma ids_ext n callers t t' :
  t_fresh t' = t_fresh t → (∀ k, c_id <$> t_calls t' !! k = c_id <$> t_calls t !! k) →
  ids_inv n callers t → ids_inv n callers t'.
Proof.
  intros Hf Hc [I1 I2 I3].
  assert (Hback : ∀ k c, t_calls t' !! k = Some c →
            ∃ c', t_calls t !! k = Some c' ∧ c_id c = c_id c').
  { intros k c Hk. specialize (Hc k). rewrite Hk in Hc.
    destruct (t_calls t !! k) as [c'|]; naive_solver. }
  split.
  - intros id r Hr. destruct (I1 _ _ Hr) as (Hu & Ha & Hn). split; [done|]. split; [done|].
    intros k c (c' & Hk & ->)%Hback. by eapply Hn.
  - intros k c (c' & Hk & ->)%Hback. rewrite Hf. by apply I2.
  - intros k k' c c' (d & Hk & ->)%Hback (d' & Hk' & ->)%Hback. by eapply I3.
Qed.

Lemma take_ids n callers t r :
  Z.of_nat n < 2 ^ 32 → allowed r → ids_inv n callers t →
  ids_inv (Datatypes.S n) (<[id_of n := r]> callers) t.
Proof.
  intros Hn Hr [I1 I2 I3]. split.
  - intros id r' [[<- <-]|[_ Hid]]%lookup_insert_Some.
    + split; [exists n; split; [lia|done]|]. split; [done|]. intros k c Hk.
      destruct (I2 _ _ Hk) as [Hu _]. by apply used_fresh.
    + destruct (I1 _ _ Hid) as (Hu & Ha & Hc). eauto using used_next.
  - intros k c Hk. destruct (I2 _ _ Hk). eauto using used_next.
  - exact I3.
Qed.

Lemma register_ids n callers t id r p :
  callers !! id = Some r → ids_inv n callers t →
  ids_inv n (delete id callers) (register id p t).
Proof.
  intros Hid [I1 I2 I3]. destruct (I1 _ _ Hid) as (Hu & Ha & Hn).
  split; cbn [register t_calls t_fresh].
  - intros id' r' [Hne Hr]%lookup_delete_Some. destruct (I1 _ _ Hr) as (Hu' & Ha' & Hn').
    split; [done|]. split; [done|].
    intros k c [[<- <-]|[_ Hk]]%lookup_insert_Some; [done|by eapply Hn'].
  - intros k c [[<- <-]|[_ Hk]]%lookup_insert_Some; cbn; [split; [done|lia]|].
    destruct (I2 _ _ Hk). split; [done|lia].
  - intros k k' c c' [[<- <-]|[_ Hk]]%lookup_insert_Some
      [[<- <-]|[_ Hk']]%lookup_insert_Some; cbn; intros E; [done|..].
    + by destruct (Hn _ _ Hk').
    + by destruct (Hn _ _ Hk).
    + by eapply I3.
Qed.

Lemma register_flow n callers t gw gq id r :
  callers !! id = Some r → ids_inv n callers t → flow_inv gw gq t →
  flow_inv gw gq (register id (encode_request id r) t).
Proof.
  intros Hid I [F1 F2 F3 F4 F5 F6 F7]. destruct (ids_callers _ _ _ I _ _ Hid) as (Hu & Ha & Hn).
  split; cbn [register t_calls t_queue t_wire t_writer]; try done.
  - intros k c [[<- <-]|[_ Hk]]%lookup_insert_Some; [|by eapply F1]. cbn.
    exists r. split; [done|]. split; [done|]. split; [|done].
    intros _ (k & c & Hk & E)%F2. by eapply Hn.
  - intros id' (k & c & Hk & E)%F2. exists k, c. split; [|done].
    rewrite lookup_insert_ne; [done|].
    destruct (ids_calls _ _ _ I _ _ Hk). lia.
Qed.

Lemma register_shots n callers t gw gq done id r :
  callers !! id = Some r → ids_inv n callers t → flow_inv gw gq t →
  (∀ id, id ∈ done.*1 → id ∈ gw.*1) → shots_inv done t →
  shots_inv done (register id (encode_request id r) t).
Proof.
  intros Hid I F Hd [P1 P2 P3 P4]. destruct (ids_callers _ _ _ I _ _ Hid) as (Hu & Ha & Hn).
  assert (Hnd : id ∉ done.*1).
  { intros Hin%Hd. destruct (flow_sent _ _ _ F id) as (k & c & Hk & E); [|by eapply Hn].
    rewrite fmap_app. apply elem_of_app. by left. }
  assert (Hnp : t_pending t !! id = None).
  { destruct (t_pending t !! id) as [k|] eqn:E; [|done].
    destruct (P3 _ _ E) as (_ & c & Hk & E'). by destruct (Hn _ _ Hk). }
  assert (Hne : ∀ k c, t_calls t !! k = Some c → t_fresh t ≠ k).
  { intros k c Hk. destruct (ids_calls _ _ _ I _ _ Hk). lia. }
  split; cbn [register t_calls t_shots t_pending]; rewrite ?Hnp.
  - intros k c a [[<- <-]|[_ Hk]]%lookup_insert_Some Hin; cbn in Hin.
    + destruct Hnd. apply list_elem_of_fmap. by exists (id, a).
    + rewrite lookup_insert_ne by by eapply Hne. by eapply P1.
  - intros k c [[<- <-]|[_ Hk]]%lookup_insert_Some; cbn.
    + intros _. by rewrite !lookup_insert_eq.
    + intros Hw. destruct (P2 _ _ Hk Hw) as [H1 H2]. rewrite !lookup_insert_ne; [done|..].
      * intros E. by destruct (Hn _ _ Hk).
      * by eapply Hne.
  - intros id' k [[<- <-]|[_ Hk]]%lookup_insert_Some.
    + split; [done|]. rewrite lookup_insert_eq. by eexists.
    + destruct (P3 _ _ Hk) as (H1 & c & H2 & H3). split; [done|]. exists c.
      rewrite lookup_insert_ne by by eapply Hne. done.
  - intros k c r' [[<- <-]|[_ Hk]]%lookup_insert_Some; [done|]. by apply (P4 k c r').
Qed.

(** Entering the queue. *)
Lemma enqueue_flow t gw gq k c r n callers :
  ids_inv n callers t → flow_inv gw gq t → t_calls t !! k = Some c → c_phase c = Registered →
  allowed r → c_packet c = encode_request (c_id c) r → c_id c ∉ (gw ++ gq).*1 →
  flow_inv gw (gq ++ [(c_id c, r)])
    (set_phase k c Enqueued
       (set_writer (t_queue t ++ [(c_id c, c_packet c)]) (t_writer t) (t_wire t) t)).
Proof.
  intros I [F1 F2 F3 F4 F5 F6 F7] Hk Hp Hr Hpk Hn.
  split; cbn [set_phase set_calls set_writer t_calls t_queue t_wire t_writer]; try done.
  - intros k' c' [[<- <-]|[Hne Hk']]%lookup_insert_Some; cbn.
    + exists r. split; [done|]. split; [done|]. split; [done|]. intros _.
      rewrite app_assoc. apply elem_of_app. right. by apply list_elem_of_singleton.
    + destruct (F1 _ _ Hk') as (r' & H1 & H2 & H3 & H4). exists r'. split; [done|].
      split; [done|]. rewrite app_assoc. split.
      * intros Hreg. rewrite fmap_app, elem_of_app. intros [Hin|Hin]; [by apply H3 in Hreg|].
        apply list_elem_of_singleton in Hin. cbn in Hin.
        by eapply Hne, (ids_inj _ _ _ I).
      * intros Hreg. apply elem_of_app. left. by apply H4.
  - intros id'. rewrite app_assoc, fmap_app, elem_of_app.
    intros [Hin|Hin].
    + destruct (F2 _ Hin) as (k' & c' & H1 & H2). destruct (decide (k' = k)) as [->|Hne].
      * exists k. rewrite lookup_insert_eq. eexists. split; [done|]. cbn. congruence.
      * exists k', c'. by rewrite lookup_insert_ne.
    + apply list_elem_of_singleton in Hin. cbn in Hin. subst id'. exists k.
      rewrite lookup_insert_eq. by eexists.
  - rewrite app_assoc. apply Forall_app. split; [done|]. constructor; [|done]. split; [|done].
    cbn. destruct (ids_calls _ _ _ I _ _ Hk) as [Hu _]. by eapply used_u32.
  - rewrite app_assoc, fmap_app. apply NoDup_app. split; [done|]. split.
    + intros id' Hin Hin'. apply list_elem_of_singleton in Hin'. cbn in Hin'. by subst id'.
    + by apply NoDup_singleton.
  - by rewrite F5, map_app, Hpk.
Qed.

(** Changing a phase touches neither the table nor the one-shot channels. *)
Lemma set_phase_shots done t t' k c p :
  t_calls t !! k = Some c → t_calls t' = <[k := {| c_id := c_id c; c_packet := c_packet c; c_phase := p |}]> (t_calls t) →
  t_shots t' = t_shots t → t_pending t' = t_pending t →
  (∀ r, p = Finished r → ∃ a, (c_id c, a) ∈ done ∧ r = Ok (response_wire a)) →
  shots_inv done t → shots_inv done t'.
Proof.
  intros Hk Hc Hs Hp Hfin [P1 P2 P3 P4].
  split; rewrite ?Hc, ?Hs, ?Hp.
  - intros k' c' a [[<- <-]|[_ Hk']]%lookup_insert_Some; [by apply (P1 k c a)|by eapply P1].
  - intros k' c' [[<- <-]|[_ Hk']]%lookup_insert_Some; [by apply (P2 k c)|by eapply P2].
  - intros id k' Hid. destruct (P3 _ _ Hid) as (H1 & c' & H2 & H3). split; [done|].
    destruct (decide (k' = k)) as [->|Hne].
    + rewrite lookup_insert_eq. eexists. split; [done|]. cbn. congruence.
    + exists c'. by rewrite lookup_insert_ne.
  - intros k' c' r [[<- <-]|[_ Hk']]%lookup_insert_Some; [by apply Hfin|by eapply P4].
Qed.

(** Finishing does not change what is written or waits to be. *)
Lemma finish_flow t gw gq k c r :
  flow_inv gw gq t → t_calls t !! k = Some c → c_phase c = Enqueued →
  flow_inv gw gq (set_phase k c (Finished r) t).
Proof.
  intros [F1 F2 F3 F4 F5 F6 F7] Hk Hp.
  split; cbn [set_phase set_calls t_calls t_queue t_wire t_writer]; try done.
  - intros k' c' [[<- <-]|[Hne Hk']]%lookup_insert_Some; [|by eapply F1]. cbn.
    destruct (F1 _ _ Hk) as (r' & H1 & H2 & _ & H4). exists r'. split; [done|].
    split; [done|]. split; [done|]. intros _. apply H4. by rewrite Hp.
  - intros id (k' & c' & H1 & H2)%F2. destruct (decide (k' = k)) as [->|Hne].
    + exists k. rewrite lookup_insert_eq. eexists. split; [done|]. cbn. congruence.
    + exists k', c'. by rewrite lookup_insert_ne.
Qed.

Lemma write_flow t gw q gq rest :
  flow_inv gw (q :: gq) t → t_queue t = (q.1, encode_request q.1 q.2) :: rest →
  flow_inv (gw ++ [q]) gq (set_writer rest Running (t_wire t ++ [encode_request q.1 q.2]) t).
Proof.
  intros [F1 F2 F3 F4 F5 F6 F7] Hq. rewrite F5 in Hq. injection Hq as <-.
  split; rewrite <-?app_assoc; try done. cbn. by rewrite F6, map_app.
Qed.

(** ** The server *)

Lemma map_prefix {A B} (f : A → B) (l : list A) i ps qs :
  map f l = (map f (take i l) ++ ps) ++ qs → (i ≤ length l)%nat →
  ps = map f (take (length ps) (drop i l)).
Proof.
  intros E Hi. rewrite <-(take_drop i l) in E at 1. rewrite map_app, <-app_assoc in E.
  apply app_inv_head in E. rewrite <-firstn_map, E. by rewrite take_app_length.
Qed.

Lemma reply_log_bytes l :
  concat (reply_log ch l).*2 = concat (map (λ q, encode_response q.1 q.2) l).
Proof. unfold reply_log. induction l as [|q l IH]; [done|]. cbn. by rewrite <-IH. Qed.

Lemma server_step s0 gw i st n :
  Forall request_fits gw → (i ≤ length gw)%nat → server_inv s0 gw i st →
  ∃ i' rt' s' w,
    handle_data log_data ch (take n (y_c2s st)) (y_rt st) (y_app st) [] = (Ok (), (rt', s', w)) ∧
    (i ≤ i' ≤ length gw)%nat ∧
    concat w.*2 = concat (map (λ q, encode_response q.1 q.2) (drop i (take i' (answers s0 gw)))) ∧
    ∀ st', y_c2s st' = drop n (y_c2s st) → y_rt st' = rt' → y_app st' = s' →
      server_inv s0 gw i' st'.
Proof.
  intros Hf Hi (consumed & rest & Hst & Hsp & Hb & Happ).
  set (chunk := take n (y_c2s st)). set (tail := drop n (y_c2s st)).
  assert (Hall : split_packets ((consumed ++ chunk) ++ tail) = (map request_body gw, NeedMore [])).
  { rewrite <-app_assoc. unfold chunk, tail. rewrite take_drop, <-Hst. by apply split_stream. }
  assert (Hcc := split_packets_app consumed chunk). rewrite Hsp in Hcc.
  rewrite split_packets_app, Hcc in Hall.
  destruct (split_packets (rest ++ chunk)) as [ps [rest'|l]] eqn:E1; [|done].
  destruct (split_packets (rest' ++ tail)) as [qs e]. injection Hall as Hps _.
  pose proof (map_prefix _ _ _ _ _ (eq_sym Hps) Hi) as Heq.
  set (m := length ps) in *. set (reqs := take m (drop i gw)) in *.
  assert (Htake : take (i + m) gw = take i gw ++ reqs).
  { unfold reqs. by rewrite take_take_drop. }
  assert (Hm : (i + m ≤ length gw)%nat).
  { apply (f_equal length) in Heq. rewrite length_map in Heq. unfold reqs in Heq.
    rewrite length_take, length_drop in Heq. unfold m in *. lia. }
  assert (Hfr : Forall request_fits reqs) by by apply Forall_take, Forall_drop.
  exists (i + m)%nat. unfold handle_data. rewrite Hb, E1, Heq, answer_requests by done.
  destruct (serve_all (map request_seen reqs) (y_app st)) as [l s'] eqn:Es.
  assert (Hans : answers (y_app st) reqs = l ∧ executed (y_app st) reqs = s').
  { unfold answers, executed. by rewrite Es. }
  eexists _, _, _. split; [done|]. split; [lia|]. split.
  - rewrite <-answers_take, Htake, (proj1 (answers_app _ _ _)), <-Happ, (proj1 Hans).
    rewrite drop_app_length' by (rewrite answers_length, length_take; lia).
    cbn [app]. apply reply_log_bytes.
  - intros st' H1 H2 H3. exists (consumed ++ chunk), rest'. rewrite H1, H2, H3. split.
    { rewrite <-app_assoc. unfold chunk, tail. by rewrite take_drop. }
    split; [rewrite Hcc, Heq, Htake, map_app; done|].
    split; [apply lookup_insert_eq|].
    by rewrite Htake, (proj2 (answers_app _ _ _)), <-Happ, (proj2 Hans).
Qed.

(** ** The reader *)

Lemma cut_short body buf s2c more t :
  body_ok body → framed body ++ more = buf ++ s2c → (length buf < length (framed body))%nat →
  t_buf t = buf →
  cut t = set_reader Waiting buf t ∧ split_packets buf = ([], NeedMore buf).
Proof.
  intros Hb E Hl Hbuf. unfold cut. cbv zeta. rewrite Hbuf, split_packets_unfold.
  destruct (Nat.ltb_spec (length buf) 4) as [|H4]; [done|]. cbv zeta.
  assert (Hu : is_u32 (vec_len body)) by (destruct Hb; apply wire_bytes_u32; done).
  assert (Hs : from_be (slice buf 0 4) = vec_len body).
  { rewrite <-(slice_app_l buf s2c) by lia. rewrite <-E. unfold framed. rewrite <-app_assoc.
    rewrite slice_head, from_be_be_bytes by apply length_be_bytes.
    by rewrite Z.mod_small by apply Hu. }
  rewrite Hs, (proj2 (bad_length_false _)) by (destruct Hb; lia).
  unfold framed in Hl. rewrite length_app, length_be_bytes in Hl.
  by rewrite (proj2 (Nat.ltb_lt _ _)) by (unfold vec_len; lia).
Qed.

Lemma complete_fields id r t :
  t_calls (complete id r t) = t_calls t ∧ t_fresh (complete id r t) = t_fresh t ∧
  t_queue (complete id r t) = t_queue t ∧ t_wire (complete id r t) = t_wire t ∧
  t_writer (complete id r t) = t_writer t ∧ t_buf (complete id r t) = t_buf t ∧
  t_reader (complete id r t) = t_reader t.
Proof. unfold complete. by destruct (t_pending t !! id). Qed.

Lemma flow_ext gw gq t t' :
  t_calls t' = t_calls t → t_queue t' = t_queue t → t_wire t' = t_wire t →
  t_writer t' = t_writer t → flow_inv gw gq t → flow_inv gw gq t'.
Proof. intros E1 E2 E3 E4 [F1 F2 F3 F4 F5 F6 F7]. by split; rewrite ?E1, ?E2, ?E3, ?E4. Qed.

Lemma shots_ext done t t' :
  t_calls t' = t_calls t → t_shots t' = t_shots t → t_pending t' = t_pending t →
  shots_inv done t → shots_inv done t'.
Proof. intros E1 E2 E3 [P1 P2 P3 P4]. by split; rewrite ?E1, ?E2, ?E3. Qed.

Lemma complete_shots n callers done t k c a :
  ids_inv n callers t → shots_inv done t → t_calls t !! k = Some c → c_id c ∉ done.*1 →
  shots_inv (done ++ [(c_id c, a)]) (complete (c_id c) (Ok (response_wire a)) t).
Proof.
  intros I [P1 P2 P3 P4] Hk Hn. destruct (P2 _ _ Hk Hn) as [Ho Hp]. unfold complete.
  rewrite Hp. split; cbn [set_shots t_calls t_shots t_pending].
  - intros k' c' a' Hk' [Hin|Hin]%elem_of_app.
    + rewrite lookup_insert_ne; [by eapply P1|]. intros <-.
      assert (c' = c) as -> by congruence. apply Hn, list_elem_of_fmap. by exists (c_id c, a').
    + apply list_elem_of_singleton in Hin. injection Hin as Hid ->.
      assert (k' = k) as -> by by eapply (ids_inj _ _ _ I). by rewrite lookup_insert_eq.
  - intros k' c' Hk'. rewrite fmap_app, elem_of_app. intros Hnn.
    assert (Hne : c_id c' ≠ c_id c).
    { intros E. apply Hnn. right. by apply list_elem_of_singleton. }
    destruct (P2 _ _ Hk') as [H1 H2]; [naive_solver|].
    rewrite lookup_insert_ne by congruence. by rewrite lookup_delete_ne.
  - intros id k' [Hne Hk']%lookup_delete_Some. destruct (P3 _ _ Hk') as (H1 & c' & H2 & H3).
    split; [|by exists c']. rewrite fmap_app, elem_of_app. intros [Hin|Hin]; [done|].
    apply list_elem_of_singleton in Hin. cbn in Hin. by subst.
  - intros k' c' r Hk' Hf. destruct (P4 _ _ _ Hk' Hf) as (a' & H1 & H2). exists a'.
    split; [|done]. apply elem_of_app. by left.
Qed.

(** ** Every event keeps the invariant *)

Section Steps.
Context (s0 : S).

Lemma done_written gw j id : id ∈ (take j (answers s0 gw)).*1 → id ∈ gw.*1.
Proof.
  rewrite <-(answers_ids s0 gw). intros (q & -> & Hq)%list_elem_of_fmap.
  apply list_elem_of_fmap. exists q. split; [done|].
  rewrite <-(take_drop j (answers s0 gw)). apply elem_of_app. by left.
Qed.

Lemma take_inv n gw gq i j st r st' :
  Z.of_nat n < 2 ^ 32 → allowed r → sys_inv s0 n gw gq i j st →
  sys_step (STake r) st = Some st' → sys_inv s0 (Datatypes.S n) gw gq i j st'.
Proof.
  intros Hn Hr [N I F P V R] [= <-]. split; cbn; try done.
  - by rewrite N, id_of_next.
  - rewrite N. by apply take_ids.
Qed.

Lemma register_sys_inv n gw gq i j st id st' :
  sys_inv s0 n gw gq i j st → sys_step (SRegister id) st = Some st' →
  sys_inv s0 n gw gq i j st'.
Proof.
  intros [N I F P V R]. cbn [sys_step].
  destruct (y_callers st !! id) as [r|] eqn:Hid; [|done]. intros [= <-].
  split; cbn [y_next y_callers y_tasks]; try done.
  - by eapply register_ids.
  - by eapply register_flow.
  - eapply register_shots; try done. apply done_written.
  - by destruct R; split.
Qed.

Lemma enqueue_sys_inv n gw gq i j st k st' :
  sys_inv s0 n gw gq i j st → sys_step (SEnqueue k) st = Some st' →
  ∃ gq', sys_inv s0 n gw gq' i j st'.
Proof.
  intros [N I F P V R]. cbn [sys_step step]. unfold enqueue.
  destruct (t_calls (y_tasks st) !! k) as [c|] eqn:Hk; [|done].
  destruct (c_phase c) eqn:Hp; try done.
  pose proof (flow_running _ _ _ F) as Hw. rewrite Hw.
  destruct (_ <? WRITE_QUEUE)%nat; [|done]. intros [= <-].
  destruct (flow_call _ _ _ F _ _ Hk) as (r & Ha & Hpk & Hn & _).
  exists (gq ++ [(c_id c, r)]). split; cbn [with_tasks y_next y_callers y_tasks]; try done.
  - eapply ids_ext; [..|exact I]; [done|]. intros k'.
    exact (set_phase_ids k c Enqueued (y_tasks st) k' Hk).
  - rewrite <-Hw. eapply enqueue_flow; try done. by apply Hn.
  - by eapply (set_phase_shots _ (y_tasks st) _ k c).
  - by destruct R; split.
Qed.

(** A finished call was given the answer that is in its one-shot channel. *)
Lemma shot_answer gw gq j t k c r :
  flow_inv gw gq t → shots_inv (take j (answers s0 gw)) t →
  t_calls t !! k = Some c → t_shots t !! k = Some (Sent r) →
  ∃ a, (c_id c, a) ∈ take j (answers s0 gw) ∧ r = Ok (response_wire a).
Proof.
  intros F P Hk Hs.
  destruct (decide (c_id c ∈ (take j (answers s0 gw)).*1)) as [Hin|Hn].
  - apply list_elem_of_fmap in Hin as ([id a] & E & Hin). cbn in E. subst id.
    exists a. split; [done|]. pose proof (shots_done _ _ P _ _ _ Hk Hin). congruence.
  - destruct (shots_wait _ _ P _ _ Hk Hn) as [Ho _]. congruence.
Qed.

Lemma shot_not_lost gw j t k c :
  shots_inv (take j (answers s0 gw)) t → t_calls t !! k = Some c → t_shots t !! k ≠ Some Lost.
Proof.
  intros P Hk Hs. destruct (decide (c_id c ∈ (take j (answers s0 gw)).*1)) as [Hin|Hn].
  - apply list_elem_of_fmap in Hin as ([id a] & E & Hin). cbn in E. subst id.
    pose proof (shots_done _ _ P _ _ _ Hk Hin). congruence.
  - destruct (shots_wait _ _ P _ _ Hk Hn) as [Ho _]. congruence.
Qed.

Lemma poll_sys_inv n gw gq i j st k st' :
  sys_inv s0 n gw gq i j st → sys_step (SPoll k) st = Some st' →
  sys_inv s0 n gw gq i j st'.
Proof.
  intros [N I F P V R]. cbn [sys_step step]. unfold poll.
  destruct (t_calls (y_tasks st) !! k) as [c|] eqn:Hk; [|done].
  destruct (t_shots (y_tasks st) !! k) as [[|r|]|] eqn:Hs;
    destruct (c_phase c) eqn:Hp; try done; [|by destruct (shot_not_lost gw j _ k c P Hk)].
  intros [= <-]. split; cbn [with_tasks y_next y_callers y_tasks]; try done.
  - eapply ids_ext; [..|exact I]; [done|]. intros k'. by apply (set_phase_ids k c).
  - by apply finish_flow.
  - eapply (set_phase_shots _ (y_tasks st) _ k c); try done. intros r' [= <-].
    by eapply shot_answer.
  - by destruct R; split.
Qed.

Lemma stream_of_snoc l q : stream_of (l ++ [q]) = stream_of l ++ encode_request q.1 q.2.
Proof. unfold stream_of. rewrite map_app, concat_app. cbn. by rewrite app_nil_r. Qed.

Lemma write_sys_inv n gw gq i j st st' :
  sys_inv s0 n gw gq i j st → sys_step SWrite st = Some st' →
  ∃ q gq', gq = q :: gq' ∧ sys_inv s0 n (gw ++ [q]) gq' i j st'.
Proof.
  intros [N I F P V [R1 R2 R3 R4]]. cbn [sys_step step].
  rewrite (flow_running _ _ _ F). pose proof (flow_queue _ _ _ F) as Hq. rewrite Hq.
  destruct gq as [|q gq]; [done|]. cbn [map mbind option_bind set_writer t_wire].
  intros [= <-]. exists q, gq. split; [done|].
  split; cbn [y_next y_callers y_tasks]; try done.
  - by eapply ids_ext; [..|exact I].
  - by apply (write_flow _ _ _ _ _ F).
  - rewrite take_answers_app by lia. by eapply shots_ext; [..|exact P].
  - destruct V as (consumed & rest & H1 & H2 & H3 & H4). exists consumed, rest.
    rewrite drop_app_length, take_app_le by lia. cbn. rewrite app_nil_r. split; [|done].
    by rewrite stream_of_snoc, H1, app_assoc.
  - split; try done; [rewrite length_app; lia|]. by rewrite take_answers_app by lia.
Qed.

Lemma server_sys_inv n gw gq i j st m st' :
  sys_inv s0 n gw gq i j st → sys_step (SServer m) st = Some st' →
  ∃ i', sys_inv s0 n gw gq i' j st'.
Proof.
  intros [N I F P V [R1 R2 R3 R4]]. cbn [sys_step].
  pose proof (flow_issued _ _ _ F) as [Hiss _]%Forall_app.
  destruct (server_step s0 gw i st m) as (i' & rt' & s' & w & Hh & Hi & Hw & Hinv);
    [by apply issued_fits|lia|done|].
  cbv zeta. destruct (take m (y_c2s st)) as [|b bs] eqn:Et; [done|]. rewrite Hh. intros [= <-].
  exists i'. split; cbn [y_next y_callers y_tasks]; try done; [by apply Hinv|].
  split; [lia| |done..]. cbn [y_s2c]. rewrite app_assoc, <-R2, Hw, <-concat_app, <-map_app.
  do 2 f_equal. rewrite <-(take_drop i (take i' (answers s0 gw))) at 1.
  rewrite take_take, Nat.min_l by lia. rewrite drop_app_le; [done|].
  rewrite length_take, answers_length. lia.
Qed.

Lemma client_sys_inv n gw gq i j st m st' :
  sys_inv s0 n gw gq i j st → sys_step (SClient m) st = Some st' →
  sys_inv s0 n gw gq i j st'.
Proof.
  intros [N I F P V [R1 R2 R3 R4]]. cbn [sys_step].
  destruct (take m (y_s2c st)) as [|b bs] eqn:Et; [done|]. cbn [step].
  case_decide; [|done]. intros [= <-]. split; cbn [y_next y_callers y_tasks]; try done.
  - by eapply ids_ext; [..|exact I].
  - by eapply flow_ext; [..|exact F].
  - by eapply shots_ext; [..|exact P].
  - split; try done. cbn [set_reader t_buf y_s2c]. rewrite R2, <-app_assoc, <-Et.
    by rewrite take_drop.
Qed.

(** The next answer handed over is the answer to a request that waits for it. *)
Lemma next_answer n gw gq i j st a more :
  sys_inv s0 n gw gq i j st → drop j (take i (answers s0 gw)) = a :: more →
  answer_fits a ∧ (j < i)%nat ∧ take (Datatypes.S j) (answers s0 gw) = take j (answers s0 gw) ++ [a] ∧
  drop (Datatypes.S j) (take i (answers s0 gw)) = more ∧ a.1 ∉ (take j (answers s0 gw)).*1 ∧
  ∃ k c, t_calls (y_tasks st) !! k = Some c ∧ c_id c = a.1.
Proof.
  intros [N I F P V [R1 R2 R3 R4]] E.
  assert (Hl : take i (answers s0 gw) !! j = Some a).
  { rewrite <-(Nat.add_0_r j), <-lookup_drop, E. done. }
  apply lookup_take_Some in Hl as [Hl Hji].
  pose proof (take_S_r _ _ _ Hl) as HS.
  pose proof (flow_issued _ _ _ F) as [Hiss _]%Forall_app.
  split; [exact (proj1 (Forall_lookup _ _) (answers_fit s0 gw Hiss) _ _ Hl)|].
  split; [done|]. split; [done|]. split.
  { replace (Datatypes.S j) with (j + 1)%nat by lia. by rewrite <-drop_drop, E. }
  split.
  - assert (Hnd : NoDup (take (Datatypes.S j) (answers s0 gw)).*1).
    { pose proof (flow_nodup _ _ _ F) as Hnd. rewrite fmap_app in Hnd.
      apply NoDup_app in Hnd as [Hnd _]. rewrite <-(answers_ids s0 gw) in Hnd.
      rewrite <-(take_drop (Datatypes.S j) (answers s0 gw)), fmap_app in Hnd.
      by apply NoDup_app in Hnd as [Hnd _]. }
    rewrite HS, fmap_app in Hnd. apply NoDup_app in Hnd as (_ & Hnd & _).
    intros Hin. apply (Hnd _ Hin). by apply list_elem_of_singleton.
  - apply (flow_sent _ _ _ F). rewrite fmap_app. apply elem_of_app. left.
    rewrite <-(answers_ids s0 gw). apply list_elem_of_fmap. exists a.
    split; [done|]. by eapply list_elem_of_lookup_2.
Qed.

(** When the reader has looked at what there is, it waits. *)
Lemma cut_wait_inv n gw gq i j st buf :
  sys_inv s0 n gw gq i j st → t_buf (y_tasks st) = buf →
  split_packets buf = ([], NeedMore buf) →
  sys_inv s0 n gw gq i j (with_tasks st (set_reader Waiting buf (y_tasks st))).
Proof.
  intros [N I F P V [R1 R2 R3 R4]] Hb Hs.
  split; cbn [with_tasks y_next y_callers y_tasks]; try done.
  - by eapply ids_ext; [..|exact I].
  - by eapply flow_ext; [..|exact F].
  - by eapply shots_ext; [..|exact P].
  - split; try done. cbn [set_reader t_buf with_tasks y_s2c]. by rewrite R2, Hb.
Qed.

Lemma cut_take_inv n gw gq i j st a more tail :
  sys_inv s0 n gw gq i j st → drop j (take i (answers s0 gw)) = a :: more →
  t_reader (y_tasks st) = Cutting →
  concat (map (λ q, encode_response q.1 q.2) more) = tail ++ y_s2c st →
  sys_inv s0 n gw gq i (Datatypes.S j)
    (with_tasks st (complete a.1 (Ok (response_wire a.2)) (set_reader Cutting tail (y_tasks st)))).
Proof.
  intros HI E Hr Hm. destruct (next_answer _ _ _ _ _ _ _ _ HI E)
    as (Ha & Hji & HS & HD & Hn & k & c & Hk & Hc).
  destruct HI as [N I F P V [R1 R2 R3 R4]].
  set (t := set_reader Cutting tail (y_tasks st)).
  destruct (complete_fields a.1 (Ok (response_wire a.2)) t) as (C1 & C2 & C3 & C4 & C5 & C6 & C7).
  assert (It : ids_inv n (y_callers st) t) by by eapply ids_ext; [..|exact I].
  assert (Pt : shots_inv (take j (answers s0 gw)) t) by by eapply shots_ext; [..|exact P].
  split; cbn [with_tasks y_next y_callers y_tasks]; try done.
  - eapply ids_ext; [exact C2| |exact It]. intros k'. by rewrite C1.
  - by eapply flow_ext; [..|exact F].
  - rewrite HS. destruct a as [id a]. cbn in *. subst id.
    by eapply (complete_shots _ _ _ t k c).
  - split; rewrite ?C6, ?C7; [lia| |done..]. by rewrite HD.
Qed.

Lemma cut_sys_inv n gw gq i j st st' :
  sys_inv s0 n gw gq i j st → sys_step SCut st = Some st' →
  ∃ j', sys_inv s0 n gw gq i j' st'.
Proof.
  intros HI. cbn [sys_step step]. case_decide as Hr; [|done]. intros [= <-].
  pose proof (reply_bytes _ _ _ _ _ _ (sys_reply _ _ _ _ _ _ _ HI)) as R2.
  destruct (drop j (take i (answers s0 gw))) as [|a more] eqn:E.
  - symmetry in R2. apply app_eq_nil in R2 as [Hb _]. exists j.
    unfold cut. rewrite Hb. cbn. by apply cut_wait_inv.
  - destruct (next_answer _ _ _ _ _ _ _ _ HI E) as (Ha & _).
    pose proof (answer_body_ok _ Ha) as Hbo. cbn [map concat] in R2.
    rewrite answer_framed in R2 by done.
    destruct (decide (length (t_buf (y_tasks st)) < length (framed (answer_body a)))%nat) as [Hl|Hl].
    + destruct (cut_short _ _ _ _ _ Hbo R2 Hl eq_refl) as [Hc Hs]. exists j. rewrite Hc.
      by apply cut_wait_inv.
    + assert (Hp : ∃ tail, t_buf (y_tasks st) = framed (answer_body a) ++ tail ∧
                     concat (map (λ q, encode_response q.1 q.2) more) = tail ++ y_s2c st).
      { apply app_eq_inv in R2 as [(x & H1 & H2)|(x & H1 & H2)]; [|by exists x].
        assert (x = []) as ->.
        { rewrite H1, length_app in Hl. destruct x; [done|cbn in Hl; lia]. }
        exists []. by rewrite H1, !app_nil_r. }
      destruct Hp as (tail & Hb & Hm). exists (Datatypes.S j).
      rewrite (cut_framed _ _ _ Hbo Hb), (reply_dispatch _ _ _ _ (answer_reply _ Ha)).
      by eapply cut_take_inv.
Qed.

Lemma step_sys_inv n gw gq i j st e st' :
  Z.of_nat (n + takes [e]) ≤ 2 ^ 32 → all_allowed [e] → sys_inv s0 n gw gq i j st →
  sys_step e st = Some st' → ∃ gw' gq' i' j', sys_inv s0 (n + takes [e]) gw' gq' i' j' st'.
Proof.
  intros Hn [Ha _]%Forall_cons HI Hs. destruct e; cbn [takes] in *; rewrite ?Nat.add_0_r in *.
  - rewrite Nat.add_1_r in *. exists gw, gq, i, j. eapply take_inv; try done. lia.
  - eauto 10 using register_sys_inv.
  - destruct (enqueue_sys_inv _ _ _ _ _ _ _ _ HI Hs). eauto 10.
  - eauto 10 using poll_sys_inv.
  - destruct (write_sys_inv _ _ _ _ _ _ _ HI Hs) as (? & ? & _ & ?). eauto 10.
  - destruct (server_sys_inv _ _ _ _ _ _ _ _ HI Hs). eauto 10.
  - eauto 10 using client_sys_inv.
  - destruct (cut_sys_inv _ _ _ _ _ _ _ HI Hs). eauto 10.
Qed.

Lemma takes_cons e es : takes (e :: es) = (takes [e] + takes es)%nat.
Proof. by destruct e. Qed.

Lemma run_sys_inv es n gw gq i j st st' :
  Z.of_nat (n + takes es) ≤ 2 ^ 32 → all_allowed es → sys_inv s0 n gw gq i j st →
  sys_run es st = Some st' → ∃ gw' gq' i' j', sys_inv s0 (n + takes es) gw' gq' i' j' st'.
Proof.
  revert n gw gq i j st. induction es as [|e es IH]; intros n gw gq i j st Hn Ha HI; cbn [sys_run].
  { intros [= <-]. cbn. rewrite Nat.add_0_r. eauto. }
  rewrite takes_cons in *. apply Forall_cons in Ha as [Ha1 Ha2].
  destruct (sys_step e st) as [st1|] eqn:E; [|done]. intros Hr.
  destruct (step_sys_inv n gw gq i j st e st1) as (? & ? & ? & ? & HI1); try done;
    [lia|by repeat constructor|].
  rewrite Nat.add_assoc. eapply IH; try done. by rewrite <-Nat.add_assoc.
Qed.

Lemma new_sys_inv rt : buffers rt !! ch = Some [] → sys_inv s0 0 [] [] 0 0 (Sys_new rt s0).
Proof.
  intros Hb. split; cbn.
  - done.
  - split; cbn; intros *; by rewrite lookup_empty.
  - split; cbn; [intros k c; by rewrite lookup_empty|by intros id ?%elem_of_nil|done|..|done].
    all: constructor.
  - split; cbn; intros *; by rewrite lookup_empty.
  - by exists [], [].
  - by split.
Qed.

(** The answer a finished call was given, at its place in the sequence. *)
Lemma finished_answer n gw gq i j st k c r :
  sys_inv s0 n gw gq i j st → t_calls (y_tasks st) !! k = Some c → c_phase c = Finished r →
  ∃ p req a,
    c_packet c = encode_request (c_id c) req ∧ (p < i)%nat ∧ gw !! p = Some (c_id c, req) ∧
    answers s0 gw !! p = Some (c_id c, a) ∧ r = Ok (response_wire a).
Proof.
  intros [N I F P V [R1 R2 R3 R4]] Hk Hf.
  destruct (shots_finished _ _ P _ _ _ Hk Hf) as (a & (p & Hp & Hj)%elem_of_take & ->).
  destruct (flow_call _ _ _ F _ _ Hk) as (req & _ & Hpk & _ & Hin).
  specialize (Hin ltac:(by rewrite Hf)). exists p, req, a. split; [done|]. split; [lia|].
  split; [|done].
  assert (Hid : gw.*1 !! p = Some (c_id c)).
  { by rewrite <-(answers_ids s0 gw), list_lookup_fmap, Hp. }
  rewrite list_lookup_fmap in Hid. destruct (gw !! p) as [[id req']|] eqn:E; [|done].
  injection Hid as ->. do 2 f_equal. apply list_elem_of_lookup in Hin as [q Hq].
  assert (E' : (gw ++ gq) !! p = Some (c_id c, req')) by by apply lookup_app_l_Some.
  assert (q = p) as ->; [|congruence].
  apply (NoDup_lookup _ _ _ (c_id c) (flow_nodup _ _ _ F)); by rewrite list_lookup_fmap, ?Hq, ?E'.
Qed.

(** ** Progress *)

Definition internal (e : sys_event) : bool := match e with STake _ => false | _ => true end.

Definition finished (c : call) : Prop := match c_phase c with Finished _ => True | _ => False end.
#[local] Instance finished_dec c : Decision (finished c).
Proof. unfold finished. destruct (c_phase c); apply _. Defined.

Definition quiet (st : Sys) : Prop :=
  y_callers st = ∅ ∧ map_Forall (λ _ c, finished c) (t_calls (y_tasks st)).

Definition can_step (st : Sys) : Prop := ∃ e, internal e = true ∧ is_Some (sys_step e st).

Lemma unwritten_step n gw q gq i j st : sys_inv s0 n gw (q :: gq) i j st → can_step st.
Proof.
  intros [_ _ F _ _ _]. exists SWrite. split; [done|]. cbn [sys_step step].
  rewrite (flow_running _ _ _ F), (flow_queue _ _ _ F). cbn. eauto.
Qed.

Lemma unread_step n gw gq i j st : sys_inv s0 n gw gq i j st → y_c2s st ≠ [] → can_step st.
Proof.
  intros [_ _ F _ V [R1 _ _ _]] Hc. exists (SServer 1). split; [done|]. cbn [sys_step]. cbv zeta.
  pose proof (flow_issued _ _ _ F) as [Hiss _]%Forall_app.
  destruct (server_step s0 gw i st 1) as (i' & rt' & s' & w & Hh & _);
    [by apply issued_fits|lia|done|].
  destruct (y_c2s st) as [|b bs]; [done|]. cbn [take] in *. rewrite Hh. eauto.
Qed.

Lemma undelivered_step n gw gq i j st :
  sys_inv s0 n gw gq i j st → t_reader (y_tasks st) = Cutting ∨ y_s2c st ≠ [] → can_step st.
Proof.
  intros [_ _ _ _ _ [_ _ _ R4]] Hr. destruct (t_reader (y_tasks st)) eqn:E; [|..|done].
  - destruct Hr as [|Hr]; [done|]. exists (SClient 1). split; [done|]. cbn.
    destruct (y_s2c st); [done|]. cbn. rewrite decide_True by done. eauto.
  - exists SCut. split; [done|]. cbn. rewrite decide_True by done. eauto.
Qed.

(** With nothing under way every request written has been answered. *)
Lemma drained n gw i j st :
  sys_inv s0 n gw [] i j st → y_c2s st = [] → t_reader (y_tasks st) ≠ Cutting →
  y_s2c st = [] → j = length gw.
Proof.
  intros HI Hc Hr Hs. pose proof HI as [_ _ F _ V [R1 R2 R3 R4]].
  pose proof (flow_issued _ _ _ F) as Hiss. rewrite app_nil_r in Hiss.
  assert (i = length gw) as ->.
  { destruct V as (consumed & rest & H1 & H2 & _). rewrite Hc, app_nil_r in H1. subst consumed.
    rewrite split_stream in H2 by by apply issued_fits. injection H2 as H2 _.
    apply (f_equal length) in H2. rewrite !length_map, length_take in H2. lia. }
  rewrite Hs, app_nil_r in R2.
  specialize (R3 ltac:(by destruct (t_reader (y_tasks st)))). rewrite <-R2 in R3.
  destruct (drop j (take (length gw) (answers s0 gw))) as [|a more] eqn:E.
  - apply (f_equal length) in E. rewrite length_drop, length_take, answers_length in E. cbn in E. lia.
  - destruct (next_answer _ _ _ _ _ _ _ _ HI E) as (Ha & _). cbn [map concat] in R3.
    rewrite answer_framed, split_packets_framed in R3 by (done || by apply answer_body_ok).
    by destruct (split_packets _).
Qed.

(** A request that is not finished can take its next step. *)
Lemma waiting_step n gw i j st k c :
  sys_inv s0 n gw [] i j st → j = length gw → t_calls (y_tasks st) !! k = Some c →
  ¬ finished c → can_step st.
Proof.
  intros [_ _ F P _ _] -> Hk Hn. unfold finished in Hn.
  destruct (c_phase c) eqn:Hp; [| |done].
  - exists (SEnqueue k). split; [done|]. cbn [sys_step step]. unfold enqueue.
    rewrite Hk, Hp, (flow_running _ _ _ F), (flow_queue _ _ _ F). cbn. eauto.
  - destruct (flow_call _ _ _ F _ _ Hk) as (r & _ & _ & _ & Hin).
    specialize (Hin ltac:(by rewrite Hp)). rewrite app_nil_r in Hin.
    assert (Hid : c_id c ∈ (answers s0 gw).*1).
    { rewrite answers_ids. apply list_elem_of_fmap. by exists (c_id c, r). }
    rewrite take_ge in P by by rewrite answers_length.
    apply list_elem_of_fmap in Hid as ([id a] & E & Hin'). cbn in E. subst id.
    exists (SPoll k). split; [done|]. cbn [sys_step step]. unfold poll.
    rewrite Hk, (shots_done _ _ P _ _ _ Hk Hin'), Hp. cbn. eauto.
Qed.

Lemma no_deadlock n gw gq i j st : sys_inv s0 n gw gq i j st → quiet st ∨ can_step st.
Proof.
  intros HI.
  destruct gq as [|q gq]; [|right; by eapply unwritten_step].
  destruct (decide (y_c2s st = [])) as [Hc|Hc]; [|right; by eapply unread_step].
  destruct (decide (t_reader (y_tasks st) = Cutting)); [right; eapply undelivered_step; eauto|].
  destruct (decide (y_s2c st = [])) as [Hs|Hs]; [|right; eapply undelivered_step; eauto].
  assert (Hj : j = length gw) by by eapply drained.
  destruct (decide (map_Forall (λ _ c, finished c) (t_calls (y_tasks st)))) as [Hf|Hf].
  - destruct (map_choose_or_empty (y_callers st)) as [(id & r & Hid)|]; [|by left].
    right. exists (SRegister id). split; [done|]. cbn. rewrite Hid. cbn. eauto.
  - apply map_not_Forall in Hf as (k & c & Hk & Hn); [|apply _]. right. by eapply waiting_step.
Qed.
End Steps.

(** ** Termination *)

Definition in_phase (p : phase → bool) (calls : gmap nat call) : nat :=
  base.size (filter (λ kc : nat * call, p (c_phase kc.2) = true) calls).
Definition is_registered (p : phase) : bool := match p with Registered => true | _ => false end.
Definition is_enqueued (p : phase) : bool := match p with Enqueued => true | _ => false end.
Definition reader_work (t : Tasks) : nat :=
  (2 * length (t_buf t) + match t_reader t with Cutting => 1 | _ => 0 end)%nat.

(** What is left to do, most upstream first. *)
Definition work (st : Sys) : nat * (nat * (nat * (nat * (nat * (nat * nat))))) :=
  (base.size (y_callers st), (in_phase is_registered (t_calls (y_tasks st)),
   (length (t_queue (y_tasks st)), (length (y_c2s st), (length (y_s2c st),
    (reader_work (y_tasks st), in_phase is_enqueued (t_calls (y_tasks st)))))))).

Definition less : relation (nat * (nat * (nat * (nat * (nat * (nat * nat)))))) :=
  slexprod _ _ lt (slexprod _ _ lt (slexprod _ _ lt (slexprod _ _ lt (slexprod _ _ lt
    (slexprod _ _ lt lt))))).

Lemma less_wf : well_founded less.
Proof. unfold less. repeat apply wf_slexprod; apply lt_wf. Qed.

Definition moved (c : call) (p : phase) : call :=
  {| c_id := c_id c; c_packet := c_packet c; c_phase := p |}.

Lemma delete_smaller {A} (m : gmap nat A) k x :
  m !! k = Some x → (base.size (delete k m) < base.size m)%nat.
Proof.
  intros Hk. rewrite map_size_delete_Some by eauto. destruct (base.size m) eqn:E; [|lia].
  apply map_size_empty_inv in E. subst m. by rewrite lookup_empty in Hk.
Qed.

Lemma in_phase_leave (p : phase → bool) calls k c q :
  calls !! k = Some c → p (c_phase c) = true → p q = false →
  (in_phase p (<[k := moved c q]> calls) < in_phase p calls)%nat.
Proof.
  intros Hk Hp Hq. unfold in_phase.
  rewrite map_filter_insert_False by (cbn; by rewrite Hq). rewrite map_filter_delete.
  apply (delete_smaller _ k c). by apply map_lookup_filter_Some.
Qed.

Lemma in_phase_keep (p : phase → bool) calls k c q :
  calls !! k = Some c → p (c_phase c) = false → p q = false →
  in_phase p (<[k := moved c q]> calls) = in_phase p calls.
Proof.
  intros Hk Hp Hq. unfold in_phase.
  rewrite map_filter_insert_False by (cbn; by rewrite Hq).
  rewrite map_filter_delete, delete_id; [done|].
  apply map_lookup_filter_None. right. intros c' E. cbn. congruence.
Qed.

Lemma dispatch_fields packet t :
  t_calls (dispatch_response packet t) = t_calls t ∧
  t_queue (dispatch_response packet t) = t_queue t ∧
  t_buf (dispatch_response packet t) = t_buf t ∧
  t_reader (dispatch_response packet t) = t_reader t.
Proof.
  unfold dispatch_response. destruct (response_of_packet packet) as [d|]; [|done].
  destruct (response_route d) as [id r]. by destruct (complete_fields id r t) as (-> & _ & -> & _ & _ & -> & ->).
Qed.

Lemma cut_work t :
  t_reader t = Cutting →
  t_calls (cut t) = t_calls t ∧ t_queue (cut t) = t_queue t ∧ (reader_work (cut t) < reader_work t)%nat.
Proof.
  intros Hr. unfold reader_work. rewrite Hr. unfold cut. cbv zeta.
  destruct (Nat.ltb_spec (length (t_buf t)) 4); [cbn; repeat split; lia|].
  destruct (bad_length _); [cbn; repeat split; lia|].
  destruct (Nat.ltb_spec (length (t_buf t)) (4 + Z.to_nat (from_be (slice (t_buf t) 0 4))));
    [cbn; repeat split; lia|].
  destruct (dispatch_fields (slice (t_buf t) 4 (Z.to_nat (from_be (slice (t_buf t) 0 4))))
    (set_reader Cutting (drop (4 + Z.to_nat (from_be (slice (t_buf t) 0 4))) (t_buf t)) t))
    as (-> & -> & -> & ->).
  cbn [set_reader t_calls t_queue t_buf t_reader]. rewrite length_drop.
  split; [done|]. split; [done|]. lia.
Qed.

(** The calls after a finished wait. *)
Lemma poll_calls k t t' :
  poll k t = Some t' →
  t_queue t' = t_queue t ∧ reader_work t' = reader_work t ∧
  ∃ c r, t_calls t !! k = Some c ∧ c_phase c = Enqueued ∧
         t_calls t' = <[k := moved c (Finished r)]> (t_calls t).
Proof.
  unfold poll. destruct (t_calls t !! k) as [c|] eqn:E; [|done].
  destruct (t_shots t !! k) as [s|]; [|done]. destruct (c_phase c) eqn:Hp; try done.
  destruct s; try done; intros [= <-]; (split; [done|]); (split; [done|]); by eexists c, _.
Qed.

Lemma enqueue_calls k t t' :
  enqueue k t = Some t' →
  ∃ c q, t_calls t !! k = Some c ∧ c_phase c = Registered ∧ is_registered q = false ∧
         t_calls t' = <[k := moved c q]> (t_calls t).
Proof.
  unfold enqueue. destruct (t_calls t !! k) as [c|] eqn:E; [|done].
  destruct (c_phase c) eqn:Hp; try done.
  destruct (length (t_queue t) <? WRITE_QUEUE)%nat, (t_writer t); try done; intros [= <-];
    eexists c, _; (split; [done|]); (split; [done|]); (split; [|reflexivity]); done.
Qed.

Lemma internal_less e st st' :
  internal e = true → sys_step e st = Some st' → less (work st') (work st).
Proof.
  destruct e as [r|id|k|k| |n|n|]; [done|..]; intros _; cbn [sys_step step].
  - destruct (y_callers st !! id) as [r|] eqn:E; [|done]. intros [= <-]. apply left_slex. cbn.
    rewrite map_size_delete_Some by eauto. destruct (base.size (y_callers st)) eqn:Es; [|lia].
    apply map_size_empty_inv in Es. rewrite Es in E. by rewrite lookup_empty in E.
  - destruct (enqueue k (y_tasks st)) as [t|] eqn:E; [|done]. intros [= <-].
    destruct (enqueue_calls _ _ _ E) as (c & q & Hk & Hp & Hq & Hc).
    apply right_slex, left_slex. cbn [with_tasks y_tasks]. rewrite Hc.
    apply in_phase_leave; [done|by rewrite Hp|done].
  - destruct (poll k (y_tasks st)) as [t|] eqn:E; [|done]. intros [= <-].
    destruct (poll_calls _ _ _ E) as (Hq & Hw & c & r & Hk & Hp & Hc).
    unfold work. cbn [with_tasks y_tasks y_callers y_c2s y_s2c]. rewrite Hc, Hq, Hw.
    rewrite (in_phase_keep is_registered) by by rewrite ?Hp. repeat apply right_slex.
    apply in_phase_leave; [done|by rewrite Hp|done].
  - destruct (t_writer (y_tasks st)); try done.
    destruct (t_queue (y_tasks st)) as [|[id packet] q] eqn:E; [done|]. intros [= <-].
    unfold work. cbn [y_tasks y_callers y_c2s y_s2c set_writer t_calls t_queue]. rewrite E.
    do 2 apply right_slex. apply left_slex. cbn. lia.
  - cbv zeta. destruct (y_c2s st) as [|b bs] eqn:E; [by rewrite take_nil|].
    destruct n as [|n]; [done|]. cbn [take].
    destruct (handle_data _ _ _ _ _ _) as [[]  [[rt s] w]]; [|done]. intros [= <-].
    unfold work. cbn [y_tasks y_callers y_c2s y_s2c]. rewrite E.
    do 3 apply right_slex. apply left_slex. cbn. rewrite length_drop. lia.
  - cbv zeta. destruct (y_s2c st) as [|b bs] eqn:E; [by rewrite take_nil|].
    destruct n as [|n]; [done|]. cbn [take]. case_decide; [|done]. intros [= <-].
    unfold work. cbn [y_tasks y_callers y_c2s y_s2c set_reader t_calls t_queue]. rewrite E.
    do 4 apply right_slex. apply left_slex. cbn. rewrite length_drop. lia.
  - case_decide as Hr; [|done]. intros [= <-]. destruct (cut_work _ Hr) as (Hc & Hq & Hw).
    unfold work. cbn [with_tasks y_tasks y_callers y_c2s y_s2c]. rewrite Hc, Hq.
    do 5 apply right_slex. by apply left_slex.
Qed.

(** On every path of the tasks and the server, with no further request made: the path
    ends, and it ends in a state that satisfies [P]. *)
Inductive inevitably (P : Sys → Prop) (st : Sys) : Prop :=
| inevitably_intro :
    P st ∨ can_step st →
    (∀ e st', internal e = true → sys_step e st = Some st' → inevitably P st') →
    inevitably P st.

Lemma internal_takes e : internal e = true → takes [e] = 0%nat ∧ all_allowed [e].
Proof. destruct e; [done|..]; intros _; (split; [done|]); by repeat constructor. Qed.

(** Every request has returned, with an answer of the server. *)
Definition all_answered (st : Sys) : Prop :=
  y_callers st = ∅ ∧
  ∀ k c, t_calls (y_tasks st) !! k = Some c → ∃ a, c_phase c = Finished (Ok a).

Lemma quiet_answered s0 n gw gq i j st : sys_inv s0 n gw gq i j st → quiet st → all_answered st.
Proof.
  intros HI [Hc Hf]. split; [done|]. intros k c Hk. specialize (Hf k c Hk). unfold finished in Hf.
  destruct (c_phase c) as [| |r] eqn:Hp; [done|done|].
  destruct (finished_answer _ _ _ _ _ _ _ _ _ _ HI Hk Hp) as (_ & _ & a & _ & _ & _ & _ & ->). eauto.
Qed.

Lemma inv_inevitably s0 n gw gq i j st :
  Z.of_nat n ≤ 2 ^ 32 → sys_inv s0 n gw gq i j st → inevitably all_answered st.
Proof.
  intros Hn. remember (work st) as w eqn:Hw. revert gw gq i j st Hw.
  induction (less_wf w) as [w _ IH]; intros gw gq i j st Hw HI. constructor.
  { destruct (no_deadlock s0 n gw gq i j st HI); [left; by eapply quiet_answered|by right]. }
  intros e st' He Hs. destruct (internal_takes _ He) as [Ht Ha].
  destruct (step_sys_inv s0 n gw gq i j st e st') as (gw' & gq' & i' & j' & HI');
    [by rewrite Ht, Nat.add_0_r|exact Ha|exact HI|exact Hs|].
  rewrite Ht, Nat.add_0_r in HI'. eapply IH; [|reflexivity|exact HI']. rewrite Hw.
  by eapply internal_less.
Qed.

(** ** Claims *)

(** C3.  Concurrent requests are executed one at a time: whatever the interleaving of
    callers, writer, server and reader, however the two byte streams are cut, the packets
    written are a sequence of requests with distinct ids, the server has executed a prefix
    of it, and every request that has returned was given the answer that the execution of
    the sequence gives at its own position.  (The channel stays up, packets are within the
    limits of the wire, and at most 2^32 requests are made, after which ids repeat.) *)
Theorem requests_linearizable (es : list sys_event) (rt : SftpServerRuntime) (s0 : S) (st : Sys) :
  buffers rt !! ch = Some [] → Z.of_nat (takes es) ≤ 2 ^ 32 → all_allowed es →
  sys_run es (Sys_new rt s0) = Some st →
  ∃ reqs i,
    t_wire (y_tasks st) = map (λ q, encode_request q.1 q.2) reqs ∧ NoDup reqs.*1 ∧
    y_app st = executed s0 (take i reqs) ∧
    ∀ k c r, t_calls (y_tasks st) !! k = Some c → c_phase c = Finished r →
      ∃ p req a,
        c_packet c = encode_request (c_id c) req ∧ (p < i)%nat ∧
        reqs !! p = Some (c_id c, req) ∧ answers s0 reqs !! p = Some (c_id c, a) ∧
        r = Ok (response_wire a).
Proof.
  intros Hb Hn Ha Hr.
  destruct (run_sys_inv s0 es 0 [] [] 0 0 _ _ Hn Ha (new_sys_inv s0 rt Hb) Hr)
    as (gw & gq & i & j & HI). exists gw, i.
  split; [apply (sys_flow _ _ _ _ _ _ _ HI)|]. split.
  { pose proof (flow_nodup _ _ _ (sys_flow _ _ _ _ _ _ _ HI)) as Hnd. rewrite fmap_app in Hnd.
    by apply NoDup_app in Hnd as [Hnd _]. }
  split; [|intros k c r; by eapply finished_answer].
  by destruct (sys_server _ _ _ _ _ _ _ HI) as (? & ? & _ & _ & _ & ?).
Qed.

(** C4.  No request is left without an answer: from every reachable state, in which any
    number of requests are at any stage, every way the tasks and the server can go on
    comes to an end, and when it does every request has returned, with an answer of the
    server and not with an error of the client.  (This is while the channel stays up and
    writes to it succeed; once the server has closed it, requests can wait for ever:
    [stopped_reader_strands_requests].) *)
Theorem every_request_returns (es : list sys_event) (rt : SftpServerRuntime) (s0 : S) (st : Sys) :
  buffers rt !! ch = Some [] → Z.of_nat (takes es) ≤ 2 ^ 32 → all_allowed es →
  sys_run es (Sys_new rt s0) = Some st →
  inevitably all_answered st.
Proof.
  intros Hb Hn Ha Hr.
  destruct (run_sys_inv s0 es 0 [] [] 0 0 _ _ Hn Ha (new_sys_inv s0 rt Hb) Hr)
    as (gw & gq & i & j & HI). exact (inv_inevitably _ _ _ _ _ _ _ Hn HI).
Qed.
End Pipeline.

(** ** Concrete runs *)

Section Witnesses.
#[local] Instance pipe_debug : StrDebug := quote_debug.
#[local] Instance pipe_handler : SftpServerHandler unit := default_handler.

Definition pipe_allowed (r : Request) : Prop := r = RStat "a" ∨ r = RClose "h".

Lemma pipe_request id r : is_u32 id → pipe_allowed r → request_fits (id, r).
Proof. intros Hid [->| ->]; (split; [done|]); split; vm_compute; try done; congruence. Defined.

Lemma pipe_answer id r (s : unit) :
  is_u32 id → pipe_allowed r → answer_fits (id, (serve id (request_wire r) s).1).
Proof. intros Hid [->| ->]; (split; [done|]); split; vm_compute; try done; congruence. Defined.

(** Two callers; the second is written first, both answers come in pieces, and the first
    caller has not looked at its answer yet. *)
Definition pipe_events : list sys_event :=
  [STake (RStat "a"); STake (RClose "h"); SRegister 11; SRegister 10; SEnqueue 0; SEnqueue 1;
   SWrite; SServer 3; SWrite; SServer 100; SClient 7; SCut; SClient 100; SCut; SCut; SCut; SPoll 0].
Definition pipe_end : Sys (S := unit) :=
  default (Sys_new demo_rt ()) (sys_run 7 pipe_events (Sys_new demo_rt ())).

Lemma pipe_runs : sys_run 7 pipe_events (Sys_new demo_rt ()) = Some pipe_end.
Proof. vm_compute. reflexivity. Defined.

Lemma pipe_events_allowed : all_allowed pipe_allowed pipe_events.
Proof. repeat (constructor; [try done; unfold pipe_allowed; auto|]). constructor. Defined.

Lemma requests_linearizable_witness :
  (∃ c r, t_calls (y_tasks pipe_end) !! 0%nat = Some c ∧ c_phase c = Finished r) ∧
  ∃ reqs i,
    t_wire (y_tasks pipe_end) = map (λ q, encode_request q.1 q.2) reqs ∧ NoDup reqs.*1 ∧
    y_app pipe_end = executed () (take i reqs) ∧
    ∀ k c r, t_calls (y_tasks pipe_end) !! k = Some c → c_phase c = Finished r →
      ∃ p req a,
        c_packet c = encode_request (c_id c) req ∧ (p < i)%nat ∧
        reqs !! p = Some (c_id c, req) ∧ answers () reqs !! p = Some (c_id c, a) ∧
        r = Ok (response_wire a).
Proof.
  split; [vm_compute; eauto|].
  apply (requests_linearizable 7 pipe_allowed pipe_request pipe_answer pipe_events demo_rt ());
    [by vm_compute|by vm_compute|apply pipe_events_allowed|apply pipe_runs].
Defined.

Lemma every_request_returns_witness :
  (∃ c, t_calls (y_tasks pipe_end) !! 1%nat = Some c ∧ c_phase c = Enqueued) ∧
  inevitably 7 all_answered pipe_end.
Proof.
  split; [vm_compute; eauto|].
  apply (every_request_returns 7 pipe_allowed pipe_request pipe_answer pipe_events demo_rt ());
    [by vm_compute|by vm_compute|apply pipe_events_allowed|apply pipe_runs].
Defined.
End Witnesses.
