(* ===== verification/ExampleClients.v ===== *)
(** * The example clients ([russh-extra/examples/client_*.rs], [*_forward.rs], [tracing.rs])

    The [main] functions of the examples that connect, over the client this library models:
    [Client::builder] and [connect], [Session::command], the shell and subsystem channels,
    the tunnels and the known-hosts store.  The network, the terminal, the environment and
    the disk are arguments.  The theorem is about two runs of [client_known_hosts]. *)
From S2P Require Import Prelude RustStr RustWords RustPath Channel CoreError Endpoint Config.
From S2P Require Import KnownHosts.
From S2P Require Import KnownHostsSpec KnownHostsFiles ClientErrors ClientCommand ClientAuth.
From S2P Require Import Base64 Shell Tunnel Client Loopback Programs.

(** What a command meets on the network. *)
Record CommandNet := {
  xn_data_sent : result RusshError unit;
  xn_eof_sent : result RusshError unit;
  xn_opened : option (result RusshError unit);
  xn_exec : result RusshError unit;
  xn_msgs : list CommandMsg;
  xn_is_closed : bool;
}.

(** What is not the program: [russh]'s connection and its requests, key files, the agent,
    the operating system's listeners. *)
Record Network (W PrivKey Cert PubKey : Type) := {
  nt_connect : RusshClientConfig → string → Z → Z → ClientHandler → timed W * ClientHandler;
  nt_password : string → string → W → timed AuthResult * W;
  nt_none : string → W → timed AuthResult * W;
  nt_publickey : string → PrivKey → W → timed AuthResult * W;
  nt_publickey_with : string → PubKey → W → option (result string AuthResult) * W;
  nt_cert : string → PrivKey → Cert → W → timed AuthResult * W;
  nt_ki_start : string → W → result RusshError KeyboardInteractiveAuthResponse * W;
  nt_ki_respond : list string → W → result RusshError KeyboardInteractiveAuthResponse * W;
  nt_load_secret_key : string → option string → result string PrivKey;
  nt_from_openssh : list byte → result string PrivKey;
  nt_is_encrypted : PrivKey → bool;
  nt_decrypt : PrivKey → string → result string PrivKey;
  nt_auth_sock : option string;
  nt_connect_agent : string → result string unit;
  nt_identities : result string (list PubKey);
  nt_rounds : nat;
  nt_banners : W → list string;
  nt_command : option W → string → CommandNet;
  nt_channel : W → Timeouts → option (result RusshError ChannelState);
  nt_outcome : nat → result RusshError unit;
  nt_bind_tcp : string → result string (result string SocketAddr);
  nt_bind_unix : string → result string (option string);
  nt_tcpip_forward : W → string → Z → Timeouts → option (result RusshError Z);
  nt_streamlocal_forward : W → string → Timeouts → option (result RusshError unit);
}.
Arguments nt_connect {W PrivKey Cert PubKey} _.
Arguments nt_password {W PrivKey Cert PubKey} _.
Arguments nt_none {W PrivKey Cert PubKey} _.
Arguments nt_publickey {W PrivKey Cert PubKey} _.
Arguments nt_publickey_with {W PrivKey Cert PubKey} _.
Arguments nt_cert {W PrivKey Cert PubKey} _.
Arguments nt_ki_start {W PrivKey Cert PubKey} _.
Arguments nt_ki_respond {W PrivKey Cert PubKey} _.
Arguments nt_load_secret_key {W PrivKey Cert PubKey} _.
Arguments nt_from_openssh {W PrivKey Cert PubKey} _.
Arguments nt_is_encrypted {W PrivKey Cert PubKey} _.
Arguments nt_decrypt {W PrivKey Cert PubKey} _.
Arguments nt_auth_sock {W PrivKey Cert PubKey} _.
Arguments nt_connect_agent {W PrivKey Cert PubKey} _.
Arguments nt_identities {W PrivKey Cert PubKey} _.
Arguments nt_rounds {W PrivKey Cert PubKey} _.
Arguments nt_banners {W PrivKey Cert PubKey} _.
Arguments nt_command {W PrivKey Cert PubKey} _.
Arguments nt_channel {W PrivKey Cert PubKey} _.
Arguments nt_outcome {W PrivKey Cert PubKey} _.
Arguments nt_bind_tcp {W PrivKey Cert PubKey} _.
Arguments nt_bind_unix {W PrivKey Cert PubKey} _.
Arguments nt_tcpip_forward {W PrivKey Cert PubKey} _.
Arguments nt_streamlocal_forward {W PrivKey Cert PubKey} _.

Section Clients.
Context {W PrivKey Cert PubKey : Type} `{!StrDebug}.
Context (russh_text : RusshError → string) (net : Network W PrivKey Cert PubKey)
        (env : string → option string).
Abbreviation builder := (ClientBuilder PrivKey Cert).

(** ** Connecting and running a command *)

(** [build().connect().await?], the process's first session; with the client, whose store
    the application shares. *)
Definition connected {S} (b : builder) : prog S Error (Session W * Client PrivKey Cert) :=
  lift (let '(r, self, _) :=
          Client_connect russh_text (nt_connect net) (nt_password net) (nt_none net)
            (nt_publickey net) (nt_publickey_with net) (nt_cert net) (nt_ki_start net)
            (nt_ki_respond net) (nt_load_secret_key net) (nt_from_openssh net)
            (nt_is_encrypted net) (nt_decrypt net) (nt_auth_sock net) (nt_connect_agent net)
            (nt_identities net) (nt_rounds net) (nt_banners net) (ClientBuilder_build b) 1 in
        s ← r; Ok (s, self)).

(** [session.command(text).await]. *)
Definition command (s : Session W) (text : string) : Result CommandOutput :=
  let x := nt_command net (s_handle s) text in
  fst (Session_command russh_text (xn_data_sent x) (xn_eof_sent x) (RemoteCommand_new text)
         (Session_is_connected s) (xn_opened x) (xn_exec x) (xn_msgs x) (xn_is_closed x)).

Definition ssh_host : string := env_or env "SSH_HOST" "127.0.0.1".
Definition ssh_port : Z := env_u16 env "SSH_PORT" 22.
Definition ssh_user : string := env_or env "SSH_USER" "root".

(** The endpoint and the user every example starts from. *)
Definition user_builder : builder :=
  builder_username (builder_endpoint (Client_builder 0) (Endpoint_new ssh_host ssh_port))
    (Username_new ssh_user).
Definition password_builder : builder :=
  builder_password user_builder (Password_new (env_or env "SSH_PASSWORD" "")).

Definition client_exec_main : prog unit Error unit :=
  '(session, _) ← connected (accept_any_host_key password_builder);
  output ← lift (command session "uname -a");
  println (from_utf8_lossy (co_stdout output)).

Definition client_exec_password_main : prog unit Error unit :=
  '(session, _) ← connected (accept_any_host_key password_builder);
  output ← lift (command session "uname -a");
  println ("exit: " +:+ CommandExit_debug (co_exit output));;
  println ("stdout: " +:+ from_utf8_lossy (co_stdout output));;
  match co_stderr output with
  | [] => mret ()
  | stderr => eprintln ("stderr: " +:+ from_utf8_lossy stderr)
  end.

Definition tracing_main : prog unit Error unit :=
  let builder := match env "SSH_PASSWORD" with
                 | Some password => builder_password user_builder (Password_new password)
                 | None => user_builder
                 end in
  builder ← lift (match env "SSH_HOST_KEY_SHA256" with
                  | Some fingerprint => try_pinned_host_key_sha256 builder fingerprint
                  | None => Ok (accept_any_host_key builder)
                  end);
  '(session, _) ← connected builder;
  output ← lift (command session (env_or env "SSH_COMMAND" "uname -a"));
  println ("stdout: " +:+ from_utf8_lossy (co_stdout output)).

(** ** Known hosts *)

Context (base64_decode_key : string → option (list byte))
        (base64_encode : list byte → Result string).
Abbreviation Files := (string → FileOnDisk).

Definition KNOWN_HOSTS : string := "~/.ssh/known_hosts".

Definition client_private_key_main (keys : string → KeyOnDisk) : prog Files Error unit :=
  let key_path := env_or env "SSH_KEY_PATH" "~/.ssh/id_ed25519" in
  identity ← lift (Identity_load_openssh_file (env "HOME") keys key_path);
  known_hosts ← on_state (λ files,
    (load base64_decode_key (env "HOME") files KNOWN_HOSTS, files));
  '(session, _) ← connected (builder_known_hosts (builder_identity user_builder identity)
                               known_hosts);
  output ← lift (command session "whoami");
  println ("logged in as: " +:+ trim (from_utf8_lossy (co_stdout output))).

(** What the system does with a save: the outcomes of creating and writing the file and of
    setting its mode, and the file a failure leaves. *)
Record Disk := {
  dk_created : result IoError unit;
  dk_written : result IoError unit;
  dk_chmod : result unit unit;
  dk_left : string → FileOnDisk;
}.

Definition written_file (files : Files) (path content : string) (mode : Z) : Files := λ p,
  if String.eqb p path then {| f_mode := Ok mode; f_content := Ok content |} else files p.

Definition save_files (disk : Disk) (store : KnownHosts) (files : Files) : Result unit * Files :=
  match save base64_encode (env "HOME") store KNOWN_HOSTS (dk_created disk) (dk_written disk)
          (dk_chmod disk) with
  | Ok (path, content, mode) => (Ok (), written_file files path content mode)
  | Err e => (Err e, match save_output base64_encode (entries store), dk_created disk with
                     | Ok _, Ok _ => λ p, if String.eqb p (expand_tilde (env "HOME") KNOWN_HOSTS)
                                          then dk_left disk p else files p
                     | _, _ => files
                     end)
  end.

(** Workflow 1. *)
Definition strict_builder (known_hosts : KnownHosts) : builder :=
  builder_known_hosts password_builder known_hosts.
Definition strict_run (known_hosts : KnownHosts) : prog Files Error unit :=
  println ("Loaded known_hosts file (" +:+ dec (entry_count known_hosts) +:+ " entries)");;
  '(session, _) ← connected (strict_builder known_hosts);
  output ← lift (command session "echo strict check passed");
  println (trim (from_utf8_lossy (co_stdout output))).

(** Workflow 2: the store is shared with the client, which adds the key to it. *)
Definition first_builder : builder :=
  builder_known_hosts_accept_new password_builder KnownHosts_new.
Definition first_run (disk : Disk) : prog Files Error unit :=
  '(session, self) ← connected first_builder;
  output ← lift (command session "echo trusted");
  println (trim (from_utf8_lossy (co_stdout output)));;
  on_state (save_files disk (default KnownHosts_new (c_known_hosts self)));;
  println "Saved new host key to known_hosts".

Definition client_known_hosts_main (disk : Disk) : prog Files Error unit := λ files,
  match load base64_decode_key (env "HOME") files KNOWN_HOSTS with
  | Ok known_hosts => strict_run known_hosts files
  | Err _ => first_run disk files
  end.

(** ** Shells and subsystems *)

Context (Pty_from_u8 : Z → option RusshPty).

(** A call on a handle, with [?]. *)
Definition on_handle {S A} (f : ShellHandle → Result A * ShellHandle) (h : ShellHandle) :
    prog S Error (A * ShellHandle) :=
  lift (let '(r, h) := f h in a ← r; Ok (a, h)).

Definition SHELL_BUF : nat := 4096.

(** The loop ends with the first read of nothing. *)
Fixpoint print_shell {S} (fuel : nat) (shell : ShellHandle) : prog S Error ShellHandle :=
  match fuel with
  | O => still_running
  | Datatypes.S fuel =>
      let '(bytes, shell) := ShellHandle_read SHELL_BUF shell in
      match bytes with
      | [] => mret shell
      | _ => eprint (from_utf8_lossy bytes);; print_shell fuel shell
      end
  end.

Definition shell_script : list byte := as_bytes ("uname -a" +:+ NL +:+ "exit" +:+ NL).

Definition example_shell (session : Session W) : Shell W :=
  ShellBuilder_build
    (ShellBuilder_env (ShellBuilder_pty (Session_shell session) (Pty_new "xterm-256color" 120 40))
       "LANG" "C.UTF-8").

Definition shell_talk {S} (fuel : nat) (session : Session W) : prog S Error ShellHandle :=
  shell ← lift (fst (Shell_open russh_text Pty_from_u8 (nt_outcome net) (nt_channel net)
                       (example_shell session)));
  '(_, shell) ← on_handle (ShellHandle_write_all russh_text (nt_outcome net) shell_script) shell;
  shell ← print_shell fuel shell;
  '(_, shell) ← on_handle (ShellHandle_close russh_text (nt_outcome net)) shell;
  mret shell.

Definition client_shell_main (fuel : nat) : prog unit Error unit :=
  '(session, _) ← connected (accept_any_host_key password_builder);
  _ ← shell_talk fuel session;
  mret ().

Definition client_subsystem_main : prog unit Error unit :=
  '(session, _) ← connected (accept_any_host_key password_builder);
  sub ← lift (fst (Subsystem_open russh_text (nt_outcome net) (nt_channel net)
                     (SubsystemBuilder_build (Session_subsystem session "sftp"))));
  let sub := snd (ShellHandle_write_all russh_text (nt_outcome net) (as_bytes "raw payload") sub) in
  '(_, sub) ← on_handle (ShellHandle_close russh_text (nt_outcome net)) sub;
  mret ().

(** ** Tunnels *)

Context (parse_socket_addr : string → option SocketAddr).

(** Starts the tunnel, says where it is, waits for Ctrl-C and closes it. *)
Definition tunnel_until_ctrl_c (session : Session W) (spec : ForwardSpec) (ctrl_c : bool)
    (banner : SocketAddr → string) (closing : string) : prog Forwards Error unit :=
  tunnel ← on_state (TunnelBuilder_start parse_socket_addr (nt_bind_tcp net) (nt_bind_unix net)
                       (nt_tcpip_forward net) (nt_streamlocal_forward net)
                       (Session_tunnel session spec));
  addr ← unwrap (bound_addr tunnel);
  println (banner addr);;
  println "Press Ctrl-C to stop";;
  (if ctrl_c then mret () else still_running);;
  on_state (Tunnel_close tunnel);;
  println closing.

Definition local_forward_main (ctrl_c : bool) : prog Forwards Error unit :=
  let local_port := env_u16 env "LOCAL_PORT" 8080 in
  let remote_host := env_or env "REMOTE_HOST" "127.0.0.1" in
  let remote_port := env_u16 env "REMOTE_PORT" 80 in
  '(session, _) ← connected (accept_any_host_key password_builder);
  tunnel_until_ctrl_c session
    (local_tcp (TcpEndpoint_new "127.0.0.1" local_port) (TcpEndpoint_new remote_host remote_port))
    ctrl_c
    (λ addr, "Forwarding 127.0.0.1:" +:+ dec (sa_port addr) +:+ " -> " +:+ remote_host +:+ ":"
             +:+ dec remote_port)
    "Tunnel closed".

Definition remote_forward_main (ctrl_c : bool) : prog Forwards Error unit :=
  let remote_bind_port := env_u16 env "REMOTE_BIND_PORT" 0 in
  let local_host := env_or env "LOCAL_HOST" "127.0.0.1" in
  let local_port := env_u16 env "LOCAL_PORT" 3000 in
  '(session, _) ← connected (accept_any_host_key password_builder);
  tunnel_until_ctrl_c session
    (remote_tcp (TcpEndpoint_new "0.0.0.0" remote_bind_port) (TcpEndpoint_new local_host local_port))
    ctrl_c
    (λ addr, "Remote " +:+ ssh_host +:+ ":" +:+ dec (sa_port addr) +:+ " -> " +:+ local_host
             +:+ ":" +:+ dec local_port)
    "Remote tunnel closed".
End Clients.

(** ** The shell example *)

(** The loop prints every byte of both streams, in order, as far as the reads cut them. *)
Lemma print_shell_all {S} fuel h (s : S) :
  handle_wf h → [] ∉ coming h → (length (unread h) < fuel)%nat →
  ∃ reads h', print_shell fuel h s
      = (Returns (Ok h'), map (λ b, ToStderr (from_utf8_lossy b)) reads, s) ∧
    concat reads = unread h ∧ exit h' = final_exit h ∧
    requested (channel h') = requested (channel h).
Proof.
  revert h. induction fuel as [|fuel IH]; intros h Hwf Hne Hlen; [lia|]. cbn [print_shell].
  pose proof (read_step_ok SHELL_BUF h ltac:(unfold SHELL_BUF; lia) Hwf) as Hr.
  destruct (ShellHandle_read SHELL_BUF h) as [bytes h1]. destruct Hr as [H1 H2 H3 H4 H5 H6 H7 H8].
  destruct bytes as [|b bytes].
  - destruct (H7 eq_refl) as [[Hc Hu]|]; [|done]. exists [], h1. rewrite H1, Hu.
    split_and!; try done. rewrite <-H4. unfold final_exit. by rewrite Hc.
  - rewrite H1 in Hlen. rewrite length_app in Hlen. cbn in Hlen.
    destruct (IH h1) as (reads & h2 & Hp & Hc & He & Hq); [done|set_solver|lia|].
    exists ((b :: bytes) :: reads), h2. rewrite H1. unfold mbind, prog_bind. cbn [eprint].
    rewrite Hp. cbn [map concat]. rewrite Hc. split_and!; [done|done|congruence|congruence].
Qed.

Lemma on_handle_ok {S A B} (f : ShellHandle → Result A * ShellHandle) h a h'
    (k : A * ShellHandle → prog S Error B) s :
  f h = (Ok a, h') → (on_handle f h ≫= k) s = k (a, h') s.
Proof. intros Hf. unfold on_handle. rewrite Hf. cbn [mbind result_bind]. apply prog_lift_ok. Qed.

(** The handle after a request that went out. *)
Definition asked (h : ShellHandle) (a : ShellAction) : ShellHandle :=
  set_channel h {| inbox := inbox (channel h); requested := requested (channel h) ++ [a] |}.

(** When neither the terminal nor the shell is refused and what the example sends goes out,
    it ends, having sent its script and closed the channel after the requests of its
    configuration, and having printed everything the server sent. *)
Theorem shell_example_prints {W PrivKey Cert PubKey S} `{!StrDebug}
    (russh_text : RusshError → string) (Pty_from_u8 : Z → option RusshPty)
    (net : Network W PrivKey Cert PubKey) (session : Session W) (w : W) (c : ChannelState) (s : S) :
  let shell := example_shell session in
  let output := chunks_of (drop 3 (inbox c)) in
  nt_outcome net = (λ _, Ok ()) → s_handle session = Some w →
  nt_channel net w (s_timeouts session) = Some (Ok c) →
  refused (inbox c !! 0%nat) = false → refused (inbox c !! 2%nat) = false → [] ∉ output →
  ∃ reads h,
    shell_talk russh_text net Pty_from_u8 (Datatypes.S (length (concat output))) session s
    = (Returns (Ok h), map (λ b, ToStderr (from_utf8_lossy b)) reads, s) ∧
    concat reads = concat output ∧
    requested (channel h)
    = requested c ++ shell_requests Pty_from_u8 shell ++ [ChData shell_script; ChClose].
Proof.
  cbv zeta. intros Ho Hw Hc H0 H2 Hne. unfold shell_talk. rewrite Ho.
  set (shell := example_shell session).
  rewrite (shell_open_accepted russh_text Pty_from_u8 (nt_channel net) shell w c) by done.
  cbn [fst]. rewrite prog_lift_ok. set (h0 := handle_of _).
  rewrite (on_handle_ok _ _ () (asked h0 (ChData shell_script))) by done.
  set (output := chunks_of (drop 3 (inbox c))) in *.
  assert (Hu : unread (asked h0 (ChData shell_script)) = concat output) by done.
  destruct (print_shell_all (Datatypes.S (length (concat output)))
    (asked h0 (ChData shell_script)) s) as (reads & h2 & Hp & Hr & He & Hq);
    [by left|done|rewrite Hu; lia|].
  cbn [fst snd]. rewrite (prog_bind_ok _ _ _ _ _ _ Hp).
  rewrite (on_handle_ok _ _ () (asked h2 ChClose)) by done.
  exists reads, (asked h2 ChClose). split; [cbn; by rewrite app_nil_r|]. split; [done|].
  cbn [asked set_channel channel requested]. rewrite Hq. cbn. by rewrite <-!app_assoc.
Qed.

(** ** The tunnel examples *)

Section Tunnels.
Context {W PrivKey Cert PubKey : Type}.
Context (russh_text : RusshError → string) (net : Network W PrivKey Cert PubKey)
        (env : string → option string) (parse_socket_addr : string → option SocketAddr).
Abbreviation start session spec :=
  (TunnelBuilder_start parse_socket_addr (nt_bind_tcp net) (nt_bind_unix net) (nt_tcpip_forward net)
     (nt_streamlocal_forward net) (Session_tunnel session spec)).

(** A TCP tunnel that started has an address: the examples' [unwrap] does not panic. *)
Lemma tcp_tunnel_bound (session : Session W) d bind target f t f' :
  start session (Tcp d bind target) f = (Ok t, f') → is_Some (bound_addr t).
Proof.
  unfold TunnelBuilder_start. cbn. destruct (s_handle session) as [w|]; [|done]. destruct d.
  - unfold start_local_forward. destruct (nt_bind_tcp net _) as [[addr|e]|e]; [|done|done].
    intros [= <- _]. by eexists.
  - unfold start_remote_forward, register_remote_forward, request_remote_forward. destruct (remote_forwards f !! _); [done|].
    destruct (nt_tcpip_forward net _ _ _ _) as [[p|e]|]; [|done|done].
    intros [= <- _]. by eexists.
Qed.

Lemma tunnel_example_ends (session : Session W) d bind target ctrl_c banner closing f :
  let '(r, _, _) := tunnel_until_ctrl_c net parse_socket_addr session (Tcp d bind target) ctrl_c
                      banner closing f in
  r ≠ Panics ∧ (ctrl_c = true → r ≠ StillRunning).
Proof.
  unfold tunnel_until_ctrl_c, mbind, prog_bind, on_state.
  destruct (start session (Tcp d bind target) f) as [[t|e] f'] eqn:E; [|done].
  destruct (tcp_tunnel_bound _ _ _ _ _ _ _ E) as [addr ->]. cbn. by destruct ctrl_c.
Qed.

Lemma tunnel_example_waits (session : Session W) spec banner closing f t f' addr :
  start session spec f = (Ok t, f') → bound_addr t = Some addr →
  tunnel_until_ctrl_c net parse_socket_addr session spec false banner closing f
  = (StillRunning,
     [ToStdout (banner addr +:+ NL); ToStdout ("Press Ctrl-C to stop" +:+ NL)], f').
Proof.
  intros Hs Hb. unfold tunnel_until_ctrl_c, mbind, prog_bind, on_state. rewrite Hs, Hb. done.
Qed.

(** The remote example with its default port 0, while it waits: it has printed the port the
    server chose, and closes every connection that comes in there. *)
Theorem default_remote_forward_unreachable (session : Session W) (w : W) (chosen : Z)
    (client : Client PrivKey Cert) (f : Forwards) :
  env "REMOTE_BIND_PORT" = None → s_handle session = Some w → 0 < chosen < 2 ^ 16 →
  connected russh_text net (accept_any_host_key (password_builder env)) f
  = (Returns (Ok (session, client)), [], f) →
  nt_tcpip_forward net w "0.0.0.0" 0 (s_timeouts session) = Some (Ok chosen) →
  remote_forwards f !! 0 = None → remote_forwards f !! chosen = None →
  parse_socket_addr ("0.0.0.0:" +:+ dec chosen)
  = Some {| sa_ip := "0.0.0.0"; sa_port := chosen |} →
  ∃ out f', remote_forward_main russh_text net env parse_socket_addr false f
      = (StillRunning, out, f') ∧
    head out = Some (ToStdout ("Remote " +:+ ssh_host env +:+ ":" +:+ dec chosen +:+ " -> "
                               +:+ env_or env "LOCAL_HOST" "127.0.0.1" +:+ ":"
                               +:+ dec (env_u16 env "LOCAL_PORT" 3000) +:+ NL)) ∧
    server_channel_open_forwarded_tcpip chosen f' = CloseChannel.
Proof.
  intros He Hw Hp Hc Hf H0 Hch Haddr. unfold remote_forward_main.
  rewrite (prog_bind_ok _ _ _ _ _ _ Hc). unfold env_u16 at 1. rewrite He.
  cbn [mbind option_bind default].
  set (target := TcpEndpoint_new (env_or env "LOCAL_HOST" "127.0.0.1") _).
  destruct (ephemeral_forward_unreachable parse_socket_addr "0.0.0.0" target chosen f Hp H0 Hch)
    as (t & f' & Hs & Hclose & _).
  assert (Hb : bound_addr t = Some {| sa_ip := "0.0.0.0"; sa_port := chosen |}).
  { change ("0.0.0.0:" +:+ dec chosen) with ("0.0.0.0" +:+ ":" +:+ dec chosen) in Haddr.
    revert Hs. unfold start_remote_forward, register_remote_forward, request_remote_forward. cbn [tcp_host tcp_port TcpEndpoint_new].
    rewrite H0, port_u16_small, Haddr by lia. by intros [= <- _]. }
  rewrite (tunnel_example_waits session _ _ _ f t f' {| sa_ip := "0.0.0.0"; sa_port := chosen |});
    [|unfold TunnelBuilder_start; cbn; rewrite Hw, Hf; exact Hs|done].
  eexists _, _. split; [done|]. split; [|done].
  rewrite app_nil_l. cbn [head sa_port]. by rewrite !str_app_assoc.
Qed.
End Tunnels.

(** ** Trust on first use, then a strict check *)

Section TwoRuns.
Context {W PrivKey Cert PubKey PublicKey : Type} `{!StrDebug}.
Context (russh_text : RusshError → string) (env : string → option string).
Context (base64_decode_key : string → option (list byte))
        (base64_encode : list byte → Result string)
        (public_key_to_bytes : PublicKey → option (list byte))
        (fingerprint_sha256 : PublicKey → string) (key_data : PublicKey → KeyData)
        (server_key : W → PublicKey).

(** [russh] completes a handshake only with a server whose key the handler accepted. *)
Definition shakes_hands (net : Network W PrivKey Cert PubKey) : Prop :=
  ∀ cfg host port t h w h', nt_connect net cfg host port t h = (Some (Ok w), h') →
    check_server_key public_key_to_bytes fingerprint_sha256 key_data h (server_key w) = (Ok true, h').

Abbreviation main net disk :=
  (client_known_hosts_main russh_text net env base64_decode_key base64_encode disk).
Abbreviation loaded files := (load base64_decode_key (env "HOME") files KNOWN_HOSTS).
Abbreviation host := (ssh_host env).
Abbreviation port := (ssh_port env).
Abbreviation strict_client known_hosts :=
  (ClientBuilder_build (strict_builder (PrivKey := PrivKey) (Cert := Cert) env known_hosts)).
Abbreviation first_client :=
  (ClientBuilder_build (first_builder (PrivKey := PrivKey) (Cert := Cert) env)).

(** The server a client meets on this network when it connects. *)
Definition meets (net : Network W PrivKey Cert PubKey) (client : Client.Client PrivKey Cert) (w : W) :
    Prop :=
  ∃ h, nt_connect net (russh_client_config (c_config client))
         (e_host (cc_endpoint (c_config client))) (e_port (cc_endpoint (c_config client)))
         (connect_timeout (cc_timeouts (c_config client))) (handler_of_client client)
       = (Some (Ok w), h).

(** A host name a line of the file can carry. *)
Definition nameable (h : string) (p : Z) : Prop :=
  word h ∧ host_head_ok h = true ∧
  if negb (p =? 0) && negb (p =? 22) then strip_suffix "]" h = None else count_char "," h = 0%nat.

(** What the first connection adds to the store. *)
Definition learned (k : PublicKey) (key : list byte) : KnownHostsEntry :=
  {| hostname := host; KnownHosts.port := port; algorithm := public_key_algorithm key_data k;
     key_blob := key; comment := None; revoked := false |}.

Lemma ssh_port_u16 : is_u16 port.
Proof.
  unfold ssh_port, env_u16, is_u16. destruct (env "SSH_PORT") as [v|]; cbn; [|done].
  destruct (parse_u16 v) as [p|] eqn:E; [|done]. apply parse_uint_range in E; cbn; lia.
Qed.

Lemma learned_ok k key : nameable host port → key ≠ [] → entry_ok (learned k key).
Proof.
  intros (Hw & Hh & Hb) Hk. split_and!; [done|done|apply ssh_port_u16| |..|done|done].
  - unfold bracketed. cbn [KnownHosts.port learned]. done.
  - cbn. unfold public_key_algorithm. by destruct (key_data k); apply (bool_decide_unpack _).
Qed.

(** A session was made through the handler that checks the server's key. *)
Lemma connected_ok {S} (net : Network W PrivKey Cert PubKey) (b : ClientBuilder PrivKey Cert) (s s' : S) session self out :
  connected russh_text net b s = (Returns (Ok (session, self)), out, s') →
  let client := ClientBuilder_build b in
  s' = s ∧ out = [] ∧ ∃ w h,
    nt_connect net (russh_client_config (c_config client)) (e_host (cc_endpoint (c_config client)))
      (e_port (cc_endpoint (c_config client))) (connect_timeout (cc_timeouts (c_config client)))
      (handler_of_client client) = (Some (Ok w), h) ∧
    self = with_store client h.
Proof.
  unfold connected, lift. intros [= Hr <- <-]. split; [done|]. split; [done|].
  revert Hr. unfold Client_connect.
  destruct (nt_connect net _ _ _ _ _) as [[[w|e]|] h] eqn:E; try done.
  destruct (authenticate_configured _ _ _ _ _ _ _ _ _ _ _ _ _ _ _ _ _ _ w) as [[[]|e] w'];
    [|done]. cbn. intros [= _ <-]. by exists w, h.
Qed.

(** The first connection is to a server the store knows nothing of. *)
Lemma first_store k key h :
  public_key_to_bytes k = Some key →
  check_server_key public_key_to_bytes fingerprint_sha256 key_data
    (handler_of_client first_client) k = (Ok true, h) →
  ∃ store, ch_known_hosts h = Some store ∧ entries store = [learned k key].
Proof.
  intros Hk. unfold check_server_key, check, add_entry. cbn. rewrite Hk. cbn.
  intros [= <-]. by eexists.
Qed.

(** The line comes back for the same host and port, even when the port was left out. *)
Lemma reloaded_verdict k key key' :
  verdict [reloaded (learned k key)] host port key'
  = if bool_decide (key' = key) then Match else Changed.
Proof.
  unfold verdict, applies, host_matches, reloaded. cbn [learned hostname KnownHosts.port List.filter].
  rewrite eq_ignore_ascii_case_refl.
  replace (_ || _) with true by (destruct (Z.eqb_spec port 22); cbn; by rewrite ?Z.eqb_refl, ?orb_true_r).
  cbn. rewrite orb_false_r, (bool_decide_ext (key = key') (key' = key)) by done.
  by destruct (bool_decide _).
Qed.

Context (base64_inverse : ∀ l s, base64_encode l = Ok s → base64_decode_key s = Some l)
        (base64_word : ∀ l s, l ≠ [] → base64_encode l = Ok s → word s).

Lemma saved_loads disk k key store files files' :
  nameable host port → key ≠ [] → entries store = [learned k key] →
  save_files env base64_encode disk store files = (Ok (), files') →
  ∃ store', loaded files' = Ok store' ∧ entries store' = [reloaded (learned k key)].
Proof.
  intros Hn Hk Hs. unfold save_files, save. rewrite Hs.
  destruct (save_output base64_encode [learned k key]) as [out|] eqn:Eo; [|done]. cbn [mbind result_bind].
  destruct (dk_created disk); [|done]. destruct (dk_written disk); [|done].
  destruct (dk_chmod disk); [|done]. cbn [mbind result_bind map_err]. intros [= <-].
  unfold load, written_file. rewrite !String.eqb_refl. cbn [f_mode f_content mbind result_bind map_err].
  change (validate_known_hosts_permissions _ _) with (Ok (A := unit) (E := Error) ()).
  eexists. split; [done|]. unfold KnownHosts_parse, parse_known_hosts_content.
  rewrite (save_output_lines base64_decode_key base64_encode base64_inverse base64_word
             [learned k key] out 0); [done| |done].
  constructor; [by apply learned_ok|done].
Qed.

(** The verdict on a key in the second run. *)
Lemma second_verdict k key store k' :
  (∀ k, is_Some (public_key_to_bytes k)) →
  public_key_to_bytes k = Some key → entries store = [reloaded (learned k key)] →
  let h := handler_of_client (strict_client store) in
  check_server_key public_key_to_bytes fingerprint_sha256 key_data h k'
  = (if bool_decide (public_key_to_bytes k' = public_key_to_bytes k) then Ok true
     else Err (KeyChanged 0), h).
Proof.
  intros Hall Hk He. cbv zeta. unfold check_server_key. cbn [handler_of_client ch_known_hosts].
  cbn -[check]. rewrite check_verdict, He. destruct (Hall k') as [key' Hk']. rewrite Hk', Hk.
  fold port host. rewrite reloaded_verdict.
  rewrite (bool_decide_ext (Some key' = Some key) (key' = key)) by naive_solver.
  by destruct (bool_decide (key' = key)).
Qed.

(** C31.  Two runs of the example.  The first finds no usable file, trusts the server it meets at
    the configured host and port and saves that server's key; it ends well only if the file was
    written.  Every later run then loads exactly that one entry and says so, leaves the file as
    it is, accepts the key of the server of the first run, for the same host and port, and
    refuses every other one as changed, so that it ends well only if the server it meets has the
    key of the server the first run met.  The host name is one a line of the file can carry. *)
Theorem trusted_then_checked (net1 net2 : Network W PrivKey Cert PubKey) (disk1 disk2 : Disk)
    (files files' : string → FileOnDisk) (out : list Written) :
  (∀ k, is_Some (public_key_to_bytes k) ∧ public_key_to_bytes k ≠ Some []) →
  shakes_hands net1 → shakes_hands net2 → nameable host port →
  is_ok (loaded files) = false →
  main net1 disk1 files = (Returns (Ok ()), out, files') →
  ∃ w1 store, meets net1 first_client w1 ∧ loaded files' = Ok store ∧ entry_count store = 1 ∧
    (∀ k, fst (check_server_key public_key_to_bytes fingerprint_sha256 key_data
                 (handler_of_client (strict_client store)) k)
          = if bool_decide (public_key_to_bytes k = public_key_to_bytes (server_key w1))
            then Ok true else Err (KeyChanged 0)) ∧
    ∀ r out2 files2, main net2 disk2 files' = (r, out2, files2) →
      head out2 = Some (ToStdout ("Loaded known_hosts file (1 entries)" +:+ NL)) ∧
      files2 = files' ∧
      (r = Returns (Ok ()) → ∃ w2, meets net2 (strict_client store) w2 ∧
         public_key_to_bytes (server_key w2) = public_key_to_bytes (server_key w1)).
Proof.
  intros Hkeys Hs1 Hs2 Hn Hl. unfold client_known_hosts_main at 1.
  destruct (loaded files) as [|e]; [done|]. intros Hrun.
  apply prog_bind_returns in Hrun as ([session self] & o1 & f1 & o2 & Hc & Hrun & _).
  apply connected_ok in Hc as (-> & -> & w1 & h & Hc & ->).
  apply prog_lift_returns in Hrun as (output & _ & Hrun). rewrite prog_println in Hrun.
  destruct ((on_state _ ≫= _) _) as [[r o3] f3] eqn:Hsave in Hrun. injection Hrun as -> _ ->.
  apply prog_state_returns in Hsave as ([] & f4 & Hsave & [= _ ->]).
  destruct (Hkeys (server_key w1)) as [[key Hk] Hne].
  destruct (first_store (server_key w1) key h Hk (Hs1 _ _ _ _ _ _ _ Hc)) as (store & Hst & He).
  cbn [with_store c_known_hosts] in Hsave. rewrite Hst in Hsave. cbn [default] in Hsave.
  destruct (saved_loads disk1 (server_key w1) key store files files') as (store' & Hl' & He');
    [done|congruence|done|done|].
  exists w1, store'. split; [by exists h|]. split; [done|].
  split; [by unfold entry_count; rewrite He'|].
  pose proof (λ k, second_verdict (server_key w1) key store' k (λ k, proj1 (Hkeys k)) Hk He') as Hv.
  split; [intros k; by rewrite Hv|]. intros r out2 files2.
  unfold client_known_hosts_main. rewrite Hl'. unfold strict_run. rewrite prog_println.
  destruct ((connected russh_text net2 _ ≫= _) _) as [[r2 o6] f2] eqn:Hrun.
  intros [= <- <- <-]. split; [unfold entry_count; by rewrite He'|].
  assert (Hf : f2 = files').
  { replace f2 with (snd (r2, o6, f2)) by done. rewrite <-Hrun. apply leaves_bind; [done|].
    intros [session' self']. apply leaves_bind; [done|]. done. }
  split; [done|]. intros ->.
  apply prog_bind_returns in Hrun as ([session2 self2] & o4 & f4' & o5 & Hc2 & _ & _).
  apply connected_ok in Hc2 as (_ & _ & w2 & h2 & Hc2 & _).
  exists w2. split; [by exists h2|].
  apply Hs2 in Hc2. rewrite Hv in Hc2. by case_bool_decide.
Qed.
End TwoRuns.

(** ** Concrete runs *)

Section Runs.
#[local] Instance clients_debug : StrDebug := λ s, s.

(** A server with the key [k] that lets everyone in and answers every command; keys are
    their own fingerprints. *)
Definition key_bytes (k : string) : option (list byte) := Some (as_bytes ("k" +:+ k)).
Definition demo_handshake (k : string) (_ : RusshClientConfig) (_ : string) (_ _ : Z)
    (h : ClientHandler) : timed string * ClientHandler :=
  match check_server_key key_bytes (λ k, k) (λ _, Rsa) h k with
  | (Ok true, h') => (Some (Ok k), h')
  | (Ok false, h') => (Some (Err UnknownKey), h')
  | (Err e, h') => (Some (Err e), h')
  end.
Definition demo_net (k : string) : Network string unit unit unit :=
  {| nt_connect := demo_handshake k;
     nt_password := λ _ _ w, (Some (Ok AuthSuccess), w);
     nt_none := λ _ w, (Some (Ok (AuthFailure false)), w);
     nt_publickey := λ _ _ w, (Some (Ok (AuthFailure false)), w);
     nt_publickey_with := λ _ _ w, (Some (Ok (AuthFailure false)), w);
     nt_cert := λ _ _ _ w, (Some (Ok (AuthFailure false)), w);
     nt_ki_start := λ _ w, (Ok (KiFailure false), w);
     nt_ki_respond := λ _ w, (Ok (KiFailure false), w);
     nt_load_secret_key := λ _ _, Err ""; nt_from_openssh := λ _, Err "";
     nt_is_encrypted := λ _, false; nt_decrypt := λ _ _, Err ""; nt_auth_sock := None;
     nt_connect_agent := λ _, Err ""; nt_identities := Err ""; nt_rounds := 1;
     nt_banners := λ _, [];
     nt_command := λ _ _,
       {| xn_data_sent := Ok (); xn_eof_sent := Ok (); xn_opened := Some (Ok ());
          xn_exec := Ok ();
          xn_msgs := [CSuccess; CData (as_bytes "fine"); CExitStatus 0; CEof; CClose];
          xn_is_closed := false |};
     nt_channel := λ _ _, Some (Ok {| inbox := [CSuccess; CSuccess; CSuccess; CData (as_bytes "Linux")];
                                      requested := [] |});
     nt_outcome := λ _, Ok ();
     nt_bind_tcp := λ _, Ok (Ok {| sa_ip := "127.0.0.1"; sa_port := 8080 |});
     nt_bind_unix := λ _, Err ""; nt_tcpip_forward := λ _ _ _ _, Some (Ok 40000);
     nt_streamlocal_forward := λ _ _ _, Some (Ok ()) |}.

Lemma demo_shakes k :
  shakes_hands key_bytes (λ k, k) (λ _, Rsa) (λ w, w) (demo_net k).
Proof.
  intros cfg host port t h w h'. cbn. unfold demo_handshake.
  destruct (check_server_key _ _ _ h k) as [[[]|] h1] eqn:E; intros [= <- <-]. done.
Qed.

Definition demo_env (name : string) : option string :=
  if String.eqb name "HOME" then Some "/home/u" else
  if String.eqb name "SSH_HOST" then Some "example.org" else None.
Definition no_files (_ : string) : FileOnDisk :=
  {| f_mode := Err {| io_kind := IoOtherKind; io_message := "missing" |};
     f_content := Err {| io_kind := IoOtherKind; io_message := "missing" |} |}.
Definition good_disk : Disk :=
  {| dk_created := Ok (); dk_written := Ok (); dk_chmod := Ok (); dk_left := no_files |}.
Abbreviation known_hosts_run k :=
  (client_known_hosts_main (λ _, "") (demo_net k) demo_env b64_decode base64_standard good_disk).
Definition first_files : string → FileOnDisk := snd (known_hosts_run "1" no_files).

(** The second run against the same server prints its two lines; against another key it
    fails. *)
Lemma trusted_then_checked_witness :
  fst (known_hosts_run "1" first_files)
  = (Returns (Ok ()), [ToStdout ("Loaded known_hosts file (1 entries)" +:+ NL);
                       ToStdout ("fine" +:+ NL)]) ∧
  fst (fst (known_hosts_run "2" first_files)) ≠ Returns (Ok ()).
Proof.
  split; [by vm_compute|].
  destruct (trusted_then_checked (λ _, "") demo_env b64_decode base64_standard key_bytes (λ k, k)
    (λ _, Rsa) (λ w, w) base64_inverse base64_word (demo_net "1") (demo_net "2") good_disk good_disk
    no_files first_files (snd (fst (known_hosts_run "1" no_files))))
    as (w1 & store & _ & Hl & Hn & Hcheck & Hrun).
  - intros k. split; [by eexists|by intros [=]].
  - apply demo_shakes.
  - apply demo_shakes.
  - by vm_compute.
  - by vm_compute.
  - by vm_compute.
  - destruct (known_hosts_run "2" first_files) as [[r out2] files2]. cbn [fst].
    destruct (Hrun _ _ _ eq_refl) as (_ & _ & Hok). intros ->.
    destruct (Hok eq_refl) as (w2 & [h Hc] & Hw).
    assert (w2 = "2") as ->.
    { revert Hc. cbn [demo_net nt_connect]. unfold demo_handshake.
      destruct (check_server_key _ _ _ _ "2") as [[[]|] h1]; by intros [= <- _]. }
    specialize (Hcheck "1"). rewrite <-Hw in Hcheck.
    vm_compute in Hl. injection Hl as <-. by vm_compute in Hcheck.
Defined.

(** A file that anyone may write is refused by [load]; the example takes that for a missing
    file, and overwrites its two entries with the one it just learned. *)
Definition shared_files (_ : string) : FileOnDisk :=
  {| f_mode := Ok 438;
     f_content := Ok ("a.example ssh-rsa aw==" +:+ NL +:+ "example.org ssh-rsa aw==" +:+ NL) |}.
Lemma refused_file_overwritten :
  let '(r, _, files) := known_hosts_run "1" shared_files in
  entry_count (KnownHosts_parse b64_decode "" (default "" (match f_content (shared_files "") with
                                                           Ok t => Some t | Err _ => None end))) = 2 ∧
  r = Returns (Ok ()) ∧
  f_content (files "/home/u/.ssh/known_hosts") = Ok ("example.org ssh-rsa azE=" +:+ NL).
Proof. by vm_compute. Qed.

Abbreviation fine := (Returns (E := Error) (Ok ())).
Lemma exec_examples_run :
  fst (client_exec_main (λ _, "") (demo_net "1") demo_env ()) = (fine, [ToStdout ("fine" +:+ NL)]) ∧
  fst (client_exec_password_main (λ _, "") (demo_net "1") demo_env ())
  = (fine, [ToStdout ("exit: Status(0)" +:+ NL); ToStdout ("stdout: fine" +:+ NL)]) ∧
  fst (tracing_main (λ _, "") (demo_net "1")
         (λ n, if String.eqb n "SSH_PASSWORD" then Some "x" else demo_env n) ())
  = (fine, [ToStdout ("stdout: fine" +:+ NL)]).
Proof. by vm_compute. Qed.

Lemma channel_examples_run :
  fst (client_shell_main (λ _, "") (demo_net "1") demo_env (λ _, None) 6 ())
  = (fine, [ToStderr "Linux"]) ∧
  fst (client_subsystem_main (λ _, "") (demo_net "1") demo_env ()) = (fine, []) ∧
  fst (local_forward_main (λ _, "") (demo_net "1") demo_env (λ _, None) true
         (forwards (ForwardSession_new 2)))
  = (fine, [ToStdout ("Forwarding 127.0.0.1:8080 -> 127.0.0.1:80" +:+ NL);
            ToStdout ("Press Ctrl-C to stop" +:+ NL); ToStdout ("Tunnel closed" +:+ NL)]).
Proof. by vm_compute. Qed.
End Runs.
