(* ===== verification/ExampleSftp.v ===== *)
(** * The SFTP example client ([russh-extra/examples/client_sftp.rs])

    Reads a file, asks for its metadata, lists a directory, uploads a file and removes it.
    The state is the SFTP client's; what lies behind its requests is an argument.  The
    concrete run is against a server of this library with an in-memory handler. *)
From S2P Require Import Prelude RustStr Channel CoreError Endpoint Config ClientErrors.
From S2P Require Import ClientCommand ClientAuth Shell Tunnel Client Loopback Programs ExampleClients.
From S2P Require Import SftpPacket SftpWire SftpFraming SftpTypes SftpServer SftpClient SftpTasks.
From S2P Require Import SftpLoopback SftpMemory.

Section Sftp.
Context {W PrivKey Cert PubKey N : Type} `{!StrDebug}.
Context (russh_text : RusshError → string) (net : Network W PrivKey Cert PubKey)
        (env : string → option string).
Context (send_and_await : list byte → Z → N → Result SftpResponse * N) (in_runtime : bool).

(** The outcomes of opening the channel, asking for the subsystem and sending the first
    packet, and what then arrives. *)
Record SftpNet := {
  sn_opened : result BoxError unit;
  sn_subsystem : result BoxError unit;
  sn_sent : result BoxError unit;
  sn_msgs : list SftpTasks.ChannelMsg;
}.
Context (sftp_net : W → SftpNet).

Abbreviation State := (SftpClient.Client N).
Abbreviation run A := (prog State Error A).

(** [session.sftp().await?]. *)
Definition session_sftp (session : Session W) : run SftpClient := on_state (λ c,
  match Session_sftp (λ _ w, SftpTasks.connect (sn_opened (sftp_net w)) (sn_subsystem (sftp_net w))
                               (sn_sent (sftp_net w)) (sn_msgs (sftp_net w))) session with
  | Err e => (Err e, c)
  | Ok first =>
      (Ok {| runtime_open := true; session_id := s_id session |},
       {| next_id := first; spawned := spawned c; world := world c |})
  end).

Definition read_file (fuel : nat) (sftp : SftpClient) (path : string) : run (list byte) := λ c,
  match SftpClient_read_to_vec send_and_await in_runtime fuel sftp path c with
  | (Returned r, c) => (Returns r, [], c)
  | (Panicked, c) => (Panics, [], c)
  | (OutOfFuel, c) => (StillRunning, [], c)
  end.

(** [while let Some(entry) = sftp.readdir(&mut dir).await?]: an error drops the directory. *)
Fixpoint print_dir (fuel : nat) (sftp : SftpClient) (dir : SftpDir) : run SftpDir :=
  match fuel with
  | O => still_running
  | S fuel => λ c,
      match SftpClient_readdir send_and_await sftp dir c with
      | (Err e, (dir, c)) => (Returns (Err e), [], SftpDir_drop in_runtime dir c)
      | (Ok None, (dir, c)) => (Returns (Ok dir), [], c)
      | (Ok (Some entry), (dir, c)) =>
          (println ("  " +:+ de_filename entry);; print_dir fuel sftp dir) c
      end
  end.

Definition UPLOAD : string := "/tmp/russh-extra-example.txt".
Definition greeting : list byte := as_bytes ("Hello from russh-extra SFTP client!" +:+ NL).

Definition client_sftp_main (fuel : nat) : run unit :=
  '(session, _) ← connected russh_text net (accept_any_host_key (password_builder env));
  sftp ← session_sftp session;
  contents ← read_file fuel sftp "/etc/hostname";
  println ("hostname: " +:+ trim (from_utf8_lossy contents));;
  meta ← on_state (SftpClient_metadata send_and_await sftp "/etc/hostname");
  println ("size: " +:+ option_debug (m_size meta) +:+ ", perms: "
           +:+ option_debug (m_permissions meta));;
  dir ← on_state (SftpClient_opendir send_and_await sftp "/tmp");
  println (NL +:+ "/tmp:");;
  dir ← print_dir fuel sftp dir;
  on_state (λ c, (Ok (), snd (SftpDir_close send_and_await in_runtime dir c)));;
  on_state (SftpClient_write_all send_and_await in_runtime sftp UPLOAD greeting);;
  println (NL +:+ "Uploaded " +:+ UPLOAD);;
  on_state (SftpClient_remove send_and_await sftp UPLOAD);;
  println ("Removed " +:+ UPLOAD).

(** ** The listing is complete *)

(** The server answers the reads of a directory with these batches, then with none. *)
Inductive serves (h : string) : State → list (list SftpDirEntry) → State → Prop :=
| serves_end c c' : rt_readdir_batch send_and_await h c = (Ok [], c') → serves h c [] c'
| serves_batch c c1 c' e b bs :
    rt_readdir_batch send_and_await h c = (Ok (e :: b), c1) → serves h c1 bs c' →
    serves h c ((e :: b) :: bs) c'.

Definition printed_entry (e : SftpDirEntry) : Written := ToStdout (("  " +:+ de_filename e) +:+ NL).

Lemma print_pending fuel sftp es h closed c r out c' :
  print_dir fuel sftp {| dir_handle := h; dir_closed := closed; pending_entries := [] |} c
  = (r, out, c') →
  print_dir (length es + fuel) sftp {| dir_handle := h; dir_closed := closed; pending_entries := es |} c
  = (r, map printed_entry es ++ out, c').
Proof.
  intros Hr. induction es as [|e es IH]; [done|]. cbn [length Nat.add print_dir].
  cbn. unfold mbind, prog_bind. cbn. by rewrite IH.
Qed.

Lemma print_dir_end n sftp h c c' :
  rt_readdir_batch send_and_await h c = (Ok [], c') →
  print_dir (S n) sftp (SftpDir_new h) c = (Returns (Ok (SftpDir_new h)), [], c').
Proof.
  intros Hb. cbn [print_dir]. unfold SftpClient_readdir, SftpDir_read.
  cbn [pending_entries SftpDir_new dir_handle]. by rewrite Hb.
Qed.

Lemma print_dir_batch n sftp h c e b c1 :
  rt_readdir_batch send_and_await h c = (Ok (e :: b), c1) →
  print_dir (S n) sftp (SftpDir_new h) c
  = (println ("  " +:+ de_filename e);;
     print_dir n sftp {| dir_handle := h; dir_closed := false; pending_entries := b |}) c1.
Proof.
  intros Hb. cbn [print_dir]. unfold SftpClient_readdir, SftpDir_read.
  cbn [pending_entries SftpDir_new dir_handle]. by rewrite Hb.
Qed.

(** The example prints every entry the server has, in the order of its answers, however it
    splits them, and ends with the directory as it was opened. *)
Theorem sftp_example_lists (sftp : SftpClient) (h : string) (batches : list (list SftpDirEntry))
    (c c' : State) :
  serves h c batches c' →
  print_dir (S (length (concat batches))) sftp (SftpDir_new h) c
  = (Returns (Ok (SftpDir_new h)), map printed_entry (concat batches), c').
Proof.
  induction 1 as [c c' Hb|c c1 c' e b bs Hb Hs IH]; [by apply print_dir_end|].
  rewrite (print_dir_batch _ _ _ _ _ _ _ Hb). cbn [concat].
  replace (length ((e :: b) ++ concat bs)) with (length b + S (length (concat bs)))%nat
    by (rewrite length_app; cbn; lia).
  unfold mbind, prog_bind. cbn [println].
  rewrite (print_pending _ _ _ _ _ _ _ _ _ IH). by rewrite map_app.
Qed.
End Sftp.

(** ** A concrete run *)

Section Runs.
#[local] Instance sftp_example_debug : StrDebug := λ s, s.

(** The in-memory handler, with one directory of two entries in one batch. *)
Definition dir_entry (name : string) : SftpDirEntry :=
  SftpDirEntry_from_packet name name SftpFileAttrs_default.
Definition example_handler : SftpServerHandler Memory := {|
  h_init := h_init (SftpServerHandler := mem_handler); h_open := h_open; h_close := h_close;
  h_read := h_read; h_write := h_write; h_remove := h_remove; h_rename := h_rename;
  h_mkdir := h_mkdir; h_rmdir := h_rmdir;
  h_opendir := λ _ _ s, (Ok "dir", {| mem_files := mem_files s; mem_open := {["dir"]} ∪ mem_open s |});
  h_readdir := λ _ h s,
    if decide (h ∈ mem_open s) then
      (Ok [dir_entry "a.txt"; dir_entry "b.txt"],
       {| mem_files := mem_files s; mem_open := mem_open s ∖ {[h]} |})
    else (Ok [], s);
  h_stat := h_stat; h_lstat := h_lstat; h_fstat := h_fstat; h_setstat := h_setstat;
  h_fsetstat := h_fsetstat; h_realpath := h_realpath; h_readlink := h_readlink;
  h_symlink := h_symlink;
|}.
#[local] Existing Instance example_handler.

Definition example_store : SftpClient.Client (SftpServerRuntime * Memory) :=
  {| next_id := 0; spawned := [];
     world := (SftpServerRuntime_new,
               {| mem_files := {[ "/etc/hostname" := as_bytes ("box" +:+ NL) ]}; mem_open := ∅ |}) |}.
Definition example_version (_ : string) : SftpNet :=
  {| sn_opened := Ok (); sn_subsystem := Ok (); sn_sent := Ok ();
     sn_msgs := [MsgData (encode_version_response 3 ∅)] |}.

(** Everything is printed, and the upload is gone again. *)
Lemma client_sftp_run :
  let '(r, out, c) :=
    client_sftp_main (λ _, "") (demo_net "1") demo_env (loopback (S := Memory)) true
      example_version 10 example_store in
  r = Returns (Ok ()) ∧
  out = map (λ t, ToStdout (t +:+ NL))
          ["hostname: box"; "size: Some(4), perms: None"; NL +:+ "/tmp:"; "  a.txt"; "  b.txt";
           NL +:+ "Uploaded " +:+ UPLOAD; "Removed " +:+ UPLOAD] ∧
  mem_files (snd (world c)) = mem_files (snd (world example_store)).
Proof. by vm_compute. Qed.

Lemma sftp_example_lists_witness :
  print_dir (loopback (S := Memory)) true 3
    {| runtime_open := true; session_id := 1 |} (SftpDir_new "dir")
    (snd (rt_opendir (loopback (S := Memory)) "/tmp" example_store))
  = (Returns (Ok (SftpDir_new "dir")), [printed_entry (dir_entry "a.txt"); printed_entry (dir_entry "b.txt")],
     snd (rt_readdir_batch (loopback (S := Memory)) "dir"
            (snd (rt_readdir_batch (loopback (S := Memory)) "dir"
               (snd (rt_opendir (loopback (S := Memory)) "/tmp" example_store)))))).
Proof.
  apply (sftp_example_lists (loopback (S := Memory)) true {| runtime_open := true; session_id := 1 |}
    "dir" [[dir_entry "a.txt"; dir_entry "b.txt"]]).
  eapply serves_batch; [by vm_compute|]. apply serves_end. by vm_compute.
Defined.
End Runs.
