(* ===== verification/RustTest.v ===== *)
(** * Unit tests of the source as executable definitions

    The [#[test]] functions of the crates are translated into boolean definitions over
    the model: each assertion is evaluated, a failed [unwrap] is a failed test.  The files
    [CoreTests], [KnownHostsTests], [SftpTests], [ClientTests] and [ServerTests] hold the
    translations, each with one lemma that evaluates its suite: the model behaves as the
    program's own tests say the program does. *)
From S2P Require Import Prelude RustStr CoreError SftpService Tunnel Debug.

(** A printer of the standard types, for the tests that look at [Debug] output. *)
#[export] Instance test_debug : StrDebug := quote_debug.
#[export] Instance test_std : DebugStd :=
  {| duration_debug := λ d, dec (d / 1000000000) +:+ "s";
     bytes_debug := λ b, "b" +:+ str_debug (of_bytes b);
     channel_id_debug := λ n, debug_tuple "ChannelId" [dec n];
     addr_debug := λ a, sa_ip a +:+ ":" +:+ dec (sa_port a);
     io_error_debug := io_message |}.

Definition assert_eq {A} `{!EqDecision A} (x y : A) : bool := bool_decide (x = y).
Definition assert_ne {A} `{!EqDecision A} (x y : A) : bool := negb (assert_eq x y).

(** [s.contains(p)], [p] not empty. *)
Definition contains (p s : string) : bool :=
  match split_once p s with Some _ => true | None => false end.

Definition is_none {A} (o : option A) : bool := match o with None => true | Some _ => false end.
Definition is_empty {A} (l : list A) : bool := match l with [] => true | _ => false end.

(** [unwrap] and [expect]: the rest of the test is not reached on a failure. *)
Definition unwrap {E A} (r : result E A) (rest : A → bool) : bool :=
  match r with Ok x => rest x | Err _ => false end.
Definition unwrap_err {E A} (r : result E A) (rest : E → bool) : bool :=
  match r with Ok _ => false | Err e => rest e end.
Definition unwrap_some {A} (o : option A) (rest : A → bool) : bool :=
  match o with Some x => rest x | None => false end.

Declare Scope test_scope.
Delimit Scope test_scope with test.
Notation "'let!' x ':=' e 'in' b" := (unwrap e (λ x, b))
  (at level 200, x name, right associativity) : test_scope.
Notation "'let?' x ':=' e 'in' b" := (unwrap_some e (λ x, b))
  (at level 200, x name, right associativity) : test_scope.
Notation "'let~' x ':=' e 'in' b" := (unwrap_err e (λ x, b))
  (at level 200, x name, right associativity) : test_scope.
#[global] Open Scope test_scope.

(** A suite: test names with their outcome. *)
Definition failures (suite : list (string * bool)) : list string :=
  omap (λ '(name, passed), if passed : bool then None else Some name) suite.
