(* ===== verification/CoreTests.v ===== *)
(** * Unit tests of [russh-extra-core]

    The tests of [channel.rs], [auth.rs], [forward.rs], [error.rs], [config.rs] and
    [session.rs].  Strings are printed by a [StrDebug] that quotes, durations in seconds;
    [HOME] is set.  [client_config_serialization_skips_credentials] is not translated: it
    tests the code [serde] generates. *)
From S2P Require Import Prelude RustStr RustPath Channel CoreError Endpoint Config SftpService.
From S2P Require Import SftpTypes Tunnel Debug RustTest.

Definition test_home : option string := Some "/home/me".

#[local] Instance TransportErrorKind_eq_dec : EqDecision TransportErrorKind.
Proof. solve_decision. Defined.
#[local] Instance HostKeyErrorKind_eq_dec : EqDecision HostKeyErrorKind.
Proof. solve_decision. Defined.
#[local] Instance AuthenticationErrorKind_eq_dec : EqDecision AuthenticationErrorKind.
Proof. solve_decision. Defined.
#[local] Instance SshErrorKind_eq_dec : EqDecision SshErrorKind.
Proof. solve_decision. Defined.
#[local] Instance HostKeyFingerprintAlgorithm_eq_dec : EqDecision HostKeyFingerprintAlgorithm.
Proof. solve_decision. Defined.
#[local] Instance HostKeyFingerprint_eq_dec : EqDecision HostKeyFingerprint.
Proof. solve_decision. Defined.
#[local] Instance HostKeyPolicy_eq_dec : EqDecision HostKeyPolicy.
Proof. solve_decision. Defined.

(** ** [channel.rs] *)

Definition command_limits_default_to_eight_mib_per_stream : bool :=
  let limits := CommandLimits_default in
  assert_eq (limit_stdout limits) DEFAULT_COMMAND_OUTPUT_LIMIT
  && assert_eq (limit_stderr limits) DEFAULT_COMMAND_OUTPUT_LIMIT.

Definition command_limits_are_configurable : bool :=
  let limits :=
    CommandLimits_with_stderr (CommandLimits_with_stdout CommandLimits_default 1024) 2048 in
  assert_eq (limit_stdout limits) 1024 && assert_eq (limit_stderr limits) 2048.

Definition pty_with_term_sets_terminal_type : bool :=
  assert_eq (pty_term (Pty_with_term Pty_default "vt100")) "vt100".

Definition pty_with_term_overrides_default : bool :=
  assert_eq (pty_term (Pty_with_term (Pty_new "screen" 120 40) "xterm")) "xterm".

Definition channel_kind_has_x11_and_auth_agent_variants : bool :=
  assert_eq X11 X11 && assert_eq AuthAgent AuthAgent && assert_ne X11 AuthAgent
  && assert_ne Session X11.

Definition channel_kind_constructors : bool :=
  assert_eq ChannelKind_session Session
  && assert_eq ChannelKind_direct_tcp_ip DirectTcpIp
  && assert_eq ChannelKind_forwarded_tcp_ip ForwardedTcpIp
  && assert_eq ChannelKind_direct_stream_local DirectStreamLocal
  && assert_eq ChannelKind_forwarded_stream_local ForwardedStreamLocal
  && assert_eq (ChannelKind_subsystem "sftp") (Subsystem "sftp")
  && assert_eq ChannelKind_x11 X11 && assert_eq ChannelKind_auth_agent AuthAgent.

Definition command_exit_signal_stores_core_dumped_true : bool :=
  let exit := CommandExit_signal "ABRT" true in
  assert_eq (CommandExit_signal_name exit) (Some "ABRT")
  && match exit with Signal _ true => true | _ => false end.

Definition command_exit_signal_stores_core_dumped_false : bool :=
  let exit := CommandExit_signal "TERM" false in
  assert_eq (CommandExit_signal_name exit) (Some "TERM")
  && match exit with Signal _ false => true | _ => false end.

Definition command_exit_code_ignores_signal_variants : bool :=
  assert_eq (CommandExit_code (CommandExit_signal "KILL" false)) None
  && assert_eq (CommandExit_code (CommandExit_signal "KILL" true)) None.

(** ** [auth.rs] *)

Definition password_debug_redacts_secret : bool :=
  let debug := Password_debug (Password_new "do-not-print") in
  contains "***" debug && negb (contains "do-not-print" debug).

Definition private_key_debug_redacts_key_bytes_and_passphrase : bool :=
  let identity :=
    PrivateKey (as_bytes "private-key-material") (Some (Password_new "do-not-print")) in
  let debug := Identity_debug identity in
  contains "redacted" debug && negb (contains "private-key-material" debug)
  && negb (contains "do-not-print" debug).

Definition credential_debug_redacts_nested_secret : bool :=
  let credential := Credential_password (Password_new "do-not-print") in
  negb (contains "do-not-print" (Credential_debug credential)).

Definition identity_load_openssh_file_permits_pem_round_trip : bool :=
  match Identity_load_openssh_pem (as_bytes "private key data") with
  | PrivateKey data passphrase =>
      assert_eq data (as_bytes "private key data") && is_none passphrase
  | _ => false
  end.

Definition identity_with_passphrase_sets_passphrase_on_key_variants : bool :=
  match Identity_with_passphrase (Identity_key_file test_home "id_rsa") (Password_new "secret") with
  | KeyFile _ passphrase => let? p := passphrase in assert_eq (expose_secret p) "secret"
  | _ => false
  end
  && match Identity_with_passphrase (Identity_load_openssh_pem (as_bytes "key"))
             (Password_new "secret") with
     | PrivateKey _ passphrase => let? p := passphrase in assert_eq (expose_secret p) "secret"
     | _ => false
     end.

Definition keyboard_interactive_credentials_compare_equal : bool :=
  let a := Credential_keyboard_interactive (λ _info, AbortAuth) in
  let b := Credential_keyboard_interactive (λ _info, AbortAuth) in
  Credential_eq a b && Credential_eq b a.

Definition different_credential_kinds_not_equal : bool :=
  let pw1 := Credential_password (Password_new "hello") in
  let pw2 := Credential_password (Password_new "hello") in
  let ki := Credential_keyboard_interactive (λ _info, AbortAuth) in
  Credential_eq pw1 pw2 && negb (Credential_eq pw1 ki) && negb (Credential_eq CredNone ki).

Definition identity_key_file_expands_tilde : bool :=
  match Identity_key_file test_home "~/nonexistent_key" with
  | KeyFile path _ => negb (starts_with "~" path)
  | _ => false
  end.

Definition identity_key_file_no_tilde_passes_through : bool :=
  match Identity_key_file test_home "/absolute/path/to/key" with
  | KeyFile path _ => assert_eq path "/absolute/path/to/key"
  | _ => false
  end.

(** ** [forward.rs] *)

Definition tcp_endpoint_display_ipv4 : bool :=
  assert_eq (TcpEndpoint_display (TcpEndpoint_new "192.168.1.1" 22)) "192.168.1.1:22".
Definition tcp_endpoint_display_ipv6 : bool :=
  assert_eq (TcpEndpoint_display (TcpEndpoint_new "2001:db8::1" 22)) "[2001:db8::1]:22".
Definition tcp_endpoint_display_hostname : bool :=
  assert_eq (TcpEndpoint_display (TcpEndpoint_new "example.com" 8080)) "example.com:8080".

Definition tcp_endpoint_from_str_ipv4 : bool :=
  let! ep := TcpEndpoint_from_str "10.0.0.1:2222" in
  assert_eq (tcp_host ep) "10.0.0.1" && assert_eq (tcp_port ep) 2222.
Definition tcp_endpoint_from_str_ipv6 : bool :=
  let! ep := TcpEndpoint_from_str "[::1]:2200" in
  assert_eq (tcp_host ep) "::1" && assert_eq (tcp_port ep) 2200.
Definition tcp_endpoint_from_str_hostname : bool :=
  let! ep := TcpEndpoint_from_str "db.internal:5432" in
  assert_eq (tcp_host ep) "db.internal" && assert_eq (tcp_port ep) 5432.

Definition tcp_endpoint_display_round_trip_ipv4 : bool :=
  let original := "127.0.0.1:8022" in
  let! ep := TcpEndpoint_from_str original in assert_eq (TcpEndpoint_display ep) original.
Definition tcp_endpoint_display_round_trip_ipv6 : bool :=
  let original := "[2001:db8::1]:22" in
  let! ep := TcpEndpoint_from_str original in assert_eq (TcpEndpoint_display ep) original.

Definition tcp_endpoint_from_str_invalid_missing_port : bool :=
  negb (is_ok (TcpEndpoint_from_str "host")).
Definition tcp_endpoint_from_str_invalid_bad_port : bool :=
  negb (is_ok (TcpEndpoint_from_str "host:abc")).

Definition streamlocal_spec_display : bool :=
  assert_eq (StreamLocalSpec_display (StreamLocalSpec_new test_home "/tmp/app.sock"))
    "/tmp/app.sock".
Definition streamlocal_spec_from_str : bool :=
  assert_eq (sl_path (StreamLocalSpec_from_str test_home "/var/run/service.sock"))
    "/var/run/service.sock".
Definition streamlocal_spec_display_round_trip : bool :=
  let path := "/tmp/my-app.sock" in
  assert_eq (StreamLocalSpec_display (StreamLocalSpec_from_str test_home path)) path.
Definition streamlocal_spec_tilde_expansion : bool :=
  let home := default "" test_home in
  if String.eqb home "" then true
  else
    let spec := StreamLocalSpec_new test_home "~/myapp/agent.sock" in
    assert_eq (StreamLocalSpec_display spec) (home +:+ "/myapp/agent.sock").

(** ** [error.rs] *)

(** The errors the tests wrap, by what they display. *)
Definition SourceError : BoxError := "source display".
Definition SecretSource : BoxError := "secret-source-display".

Definition category_errors_preserve_source_without_debugging_it : bool :=
  let error := CategoryError_with_source TransportDns "failed to resolve host" SecretSource in
  let debug := CategoryError_debug TransportErrorKind_debug error in
  assert_eq (err_kind error) TransportDns
  && assert_eq (err_message error) "failed to resolve host"
  && CategoryError_has_source error
  && is_some (CategoryError_source error)
  && contains "Dns" debug && contains "has_source: true" debug
  && negb (contains "secret-source-display" debug).

Definition top_level_errors_preserve_category_sources : bool :=
  let error := Error_transport_with_source TransportTcpConnect "tcp connect failed" SourceError in
  let? category := Error_source error in
  assert_eq (fst category) "tcp connect failed" && is_some (snd category).

Definition helper_predicates_classify_common_control_flow : bool :=
  Error_is_timeout (Error_timeout OpConnect "connect timed out")
  && Error_is_timeout (EIo {| io_kind := IoTimedOut; io_message := "io" |})
  && Error_is_cancelled (Error_cancelled OpCommand "cancelled")
  && Error_is_disconnected (Error_disconnected OpSftp "disconnect")
  && negb (Error_is_timeout (Error_unsupported "not yet")).

Definition typed_variants_expose_stable_kinds : bool :=
  match Error_authentication_kind AuthExhausted "no credentials" with
  | EAuthentication auth => assert_eq (err_kind auth) AuthExhausted
  | _ => false
  end
  && match EHostKey (CategoryError_new HostKeyChanged "host key changed") with
     | EHostKey host_key => assert_eq (err_kind host_key) HostKeyChanged
     | _ => false
     end.

Definition boxed_sources_convert_to_unclassified_ssh_errors : bool :=
  match Error_from_boxed SourceError with
  | ESsh ssh => assert_eq (err_kind ssh) SshOther && CategoryError_has_source ssh
  | _ => false
  end.

(** ** [config.rs] *)

Definition server_config_defaults_to_loopback_ephemeral_port : bool :=
  assert_eq (sc_listen ServerConfig_default) (Endpoint_new "127.0.0.1" 0).

Definition client_config_defaults_to_strict_host_key_policy : bool :=
  let config := ClientConfig_default in
  assert_eq (cc_host_key_policy config) Strict && strict_host_key_checking config.

Definition disabling_strict_host_key_checking_sets_accept_any_policy : bool :=
  let config := set_strict_host_key_checking ClientConfig_default false in
  assert_eq (cc_host_key_policy config) InsecureAcceptAny
  && negb (strict_host_key_checking config).

Definition validates_sha256_host_key_fingerprints : bool :=
  let! fingerprint := HostKeyFingerprint_sha256 "SHA256:abc123+/=" in
  assert_eq (fp_algorithm fingerprint) Sha256
  && assert_eq (fp_value fingerprint) "SHA256:abc123+/=".

Definition rejects_invalid_sha256_host_key_fingerprints : bool :=
  (let~ error := HostKeyFingerprint_sha256 "MD5:abc" in
   match error with EHostKey _ => true | _ => false end)
  && (let~ error := HostKeyFingerprint_sha256 "SHA256:" in
      match error with EHostKey _ => true | _ => false end).

Definition client_config_debug_does_not_expose_credential_content : bool :=
  let config := ClientConfig_new (Endpoint_new "example.com" 2222) in
  let config := add_credential config (Credential_password (Password_new "my-secret-password")) in
  let debug := ClientConfig_debug config in
  negb (contains "my-secret-password" debug) && contains "Password(***)" debug.

Definition keepalive_defaults_enabled_with_30s_interval : bool :=
  let k := Keepalive_default in
  ka_enabled k && assert_eq (ka_interval k) (from_secs 30) && assert_eq (ka_max_missed k) 3.

Definition keepalive_new_stores_fields : bool :=
  let k := Keepalive_new true (from_secs 15) 5 in
  ka_enabled k && assert_eq (ka_interval k) (from_secs 15) && assert_eq (ka_max_missed k) 5.

Definition keepalive_disabled_still_stores_interval : bool :=
  let k := Keepalive_new false (from_secs 5) 1 in
  negb (ka_enabled k) && assert_eq (ka_interval k) (from_secs 5).

Definition timeouts_new_stores_fields : bool :=
  let t := Timeouts_new (from_secs 5) (from_secs 10) (from_secs 2) in
  assert_eq (connect_timeout t) (from_secs 5) && assert_eq (auth_timeout t) (from_secs 10)
  && assert_eq (channel_open_timeout t) (from_secs 2).

Definition timeouts_defaults_are_reasonable : bool :=
  let t := Timeouts_default in
  (0 <? connect_timeout t) && (0 <? auth_timeout t) && (0 <? channel_open_timeout t).

Definition timeouts_with_zero_durations_stores_them : bool :=
  let t := Timeouts_new 0 0 0 in
  assert_eq (connect_timeout t) 0 && assert_eq (auth_timeout t) 0
  && assert_eq (channel_open_timeout t) 0.

(** ** [session.rs] *)

Definition parses_host_without_port_using_default_ssh_port : bool :=
  let! endpoint := Endpoint_parse "example.com" in
  assert_eq (e_host endpoint) "example.com" && assert_eq (e_port endpoint) DEFAULT_SSH_PORT.

Definition parses_host_with_port : bool :=
  let! endpoint := Endpoint_parse "example.com:2222" in
  assert_eq (e_host endpoint) "example.com" && assert_eq (e_port endpoint) 2222.

Definition parses_bracketed_ipv6_with_port : bool :=
  let! endpoint := Endpoint_parse "[2001:db8::1]:2222" in
  assert_eq (e_host endpoint) "2001:db8::1" && assert_eq (e_port endpoint) 2222.

Definition parses_unbracketed_ipv6_without_port : bool :=
  let! endpoint := Endpoint_parse "2001:db8::1" in
  assert_eq (e_host endpoint) "2001:db8::1" && assert_eq (e_port endpoint) DEFAULT_SSH_PORT.

Definition rejects_invalid_endpoint_ports : bool :=
  let~ error := Endpoint_parse "example.com:not-a-port" in
  contains "valid u16" (Error_display error).

Definition rejects_empty_endpoint_hosts : bool :=
  let~ error := Endpoint_parse ":22" in contains "host cannot be empty" (Error_display error).

Definition endpoint_display_ipv6_round_trip : bool :=
  let! ep := Endpoint_parse "[::1]:22" in
  let formatted := Endpoint_display ep in
  let! reparsed := Endpoint_parse formatted in
  assert_eq formatted "[::1]:22" && assert_eq (e_host reparsed) "::1"
  && assert_eq (e_port reparsed) 22.

Definition endpoint_display_ipv4_round_trip : bool :=
  let formatted := Endpoint_display (Endpoint_new "192.168.1.1" 2222) in
  let! reparsed := Endpoint_parse formatted in
  assert_eq formatted "192.168.1.1:2222" && assert_eq (e_host reparsed) "192.168.1.1"
  && assert_eq (e_port reparsed) 2222.

Definition endpoint_display_hostname_round_trip : bool :=
  let formatted := Endpoint_display (Endpoint_new "example.com" 22) in
  let! reparsed := Endpoint_parse formatted in
  assert_eq formatted "example.com:22" && assert_eq (e_host reparsed) "example.com"
  && assert_eq (e_port reparsed) 22.

(** ** The suite *)

Definition core_tests : list (string * bool) :=
  [("command_limits_default_to_eight_mib_per_stream", command_limits_default_to_eight_mib_per_stream);
   ("command_limits_are_configurable", command_limits_are_configurable);
   ("pty_with_term_sets_terminal_type", pty_with_term_sets_terminal_type);
   ("pty_with_term_overrides_default", pty_with_term_overrides_default);
   ("channel_kind_has_x11_and_auth_agent_variants", channel_kind_has_x11_and_auth_agent_variants);
   ("channel_kind_constructors", channel_kind_constructors);
   ("command_exit_signal_stores_core_dumped_true", command_exit_signal_stores_core_dumped_true);
   ("command_exit_signal_stores_core_dumped_false", command_exit_signal_stores_core_dumped_false);
   ("command_exit_code_ignores_signal_variants", command_exit_code_ignores_signal_variants);
   ("password_debug_redacts_secret", password_debug_redacts_secret);
   ("private_key_debug_redacts_key_bytes_and_passphrase", private_key_debug_redacts_key_bytes_and_passphrase);
   ("credential_debug_redacts_nested_secret", credential_debug_redacts_nested_secret);
   ("identity_load_openssh_file_permits_pem_round_trip", identity_load_openssh_file_permits_pem_round_trip);
   ("identity_with_passphrase_sets_passphrase_on_key_variants", identity_with_passphrase_sets_passphrase_on_key_variants);
   ("keyboard_interactive_credentials_compare_equal", keyboard_interactive_credentials_compare_equal);
   ("different_credential_kinds_not_equal", different_credential_kinds_not_equal);
   ("identity_key_file_expands_tilde", identity_key_file_expands_tilde);
   ("identity_key_file_no_tilde_passes_through", identity_key_file_no_tilde_passes_through);
   ("tcp_endpoint_display_ipv4", tcp_endpoint_display_ipv4);
   ("tcp_endpoint_display_ipv6", tcp_endpoint_display_ipv6);
   ("tcp_endpoint_display_hostname", tcp_endpoint_display_hostname);
   ("tcp_endpoint_from_str_ipv4", tcp_endpoint_from_str_ipv4);
   ("tcp_endpoint_from_str_ipv6", tcp_endpoint_from_str_ipv6);
   ("tcp_endpoint_from_str_hostname", tcp_endpoint_from_str_hostname);
   ("tcp_endpoint_display_round_trip_ipv4", tcp_endpoint_display_round_trip_ipv4);
   ("tcp_endpoint_display_round_trip_ipv6", tcp_endpoint_display_round_trip_ipv6);
   ("tcp_endpoint_from_str_invalid_missing_port", tcp_endpoint_from_str_invalid_missing_port);
   ("tcp_endpoint_from_str_invalid_bad_port", tcp_endpoint_from_str_invalid_bad_port);
   ("streamlocal_spec_display", streamlocal_spec_display);
   ("streamlocal_spec_from_str", streamlocal_spec_from_str);
   ("streamlocal_spec_display_round_trip", streamlocal_spec_display_round_trip);
   ("streamlocal_spec_tilde_expansion", streamlocal_spec_tilde_expansion);
   ("category_errors_preserve_source_without_debugging_it", category_errors_preserve_source_without_debugging_it);
   ("top_level_errors_preserve_category_sources", top_level_errors_preserve_category_sources);
   ("helper_predicates_classify_common_control_flow", helper_predicates_classify_common_control_flow);
   ("typed_variants_expose_stable_kinds", typed_variants_expose_stable_kinds);
   ("boxed_sources_convert_to_unclassified_ssh_errors", boxed_sources_convert_to_unclassified_ssh_errors);
   ("server_config_defaults_to_loopback_ephemeral_port", server_config_defaults_to_loopback_ephemeral_port);
   ("client_config_defaults_to_strict_host_key_policy", client_config_defaults_to_strict_host_key_policy);
   ("disabling_strict_host_key_checking_sets_accept_any_policy", disabling_strict_host_key_checking_sets_accept_any_policy);
   ("validates_sha256_host_key_fingerprints", validates_sha256_host_key_fingerprints);
   ("rejects_invalid_sha256_host_key_fingerprints", rejects_invalid_sha256_host_key_fingerprints);
   ("client_config_debug_does_not_expose_credential_content", client_config_debug_does_not_expose_credential_content);
   ("keepalive_defaults_enabled_with_30s_interval", keepalive_defaults_enabled_with_30s_interval);
   ("keepalive_new_stores_fields", keepalive_new_stores_fields);
   ("keepalive_disabled_still_stores_interval", keepalive_disabled_still_stores_interval);
   ("timeouts_new_stores_fields", timeouts_new_stores_fields);
   ("timeouts_defaults_are_reasonable", timeouts_defaults_are_reasonable);
   ("timeouts_with_zero_durations_stores_them", timeouts_with_zero_durations_stores_them);
   ("parses_host_without_port_using_default_ssh_port", parses_host_without_port_using_default_ssh_port);
   ("parses_host_with_port", parses_host_with_port);
   ("parses_bracketed_ipv6_with_port", parses_bracketed_ipv6_with_port);
   ("parses_unbracketed_ipv6_without_port", parses_unbracketed_ipv6_without_port);
   ("rejects_invalid_endpoint_ports", rejects_invalid_endpoint_ports);
   ("rejects_empty_endpoint_hosts", rejects_empty_endpoint_hosts);
   ("endpoint_display_ipv6_round_trip", endpoint_display_ipv6_round_trip);
   ("endpoint_display_ipv4_round_trip", endpoint_display_ipv4_round_trip);
   ("endpoint_display_hostname_round_trip", endpoint_display_hostname_round_trip)].

(** Every test passes on the model. *)
Example core_tests_pass : failures core_tests = [].
Proof. vm_compute. reflexivity. Qed.
