(* ===== verification/KnownHostsTests.v ===== *)
(** * Unit tests of [known_hosts.rs]

    Base64 is the instance of [Base64]; a public key is its encoding, and the two keys
    stand for the random ones the tests generate.  A temporary directory is a list of
    files with their content and mode. *)
From S2P Require Import Prelude RustStr RustWords RustPath Channel CoreError Base64 KnownHosts.
From S2P Require Import SftpService Debug RustTest.

Definition test_key1 : list byte := as_bytes "ssh-ed25519 first key".
Definition test_key2 : list byte := as_bytes "ssh-ed25519 second key".
Definition to_bytes (k : list byte) : option (list byte) := Some k.
Definition test_home_dir : option string := Some "/home/me".

Abbreviation parse := (KnownHostsEntry_parse b64_decode).
Abbreviation parse_content := (parse_known_hosts_content b64_decode).
Abbreviation store_check := (check to_bytes).
Abbreviation store_add := (add_entry to_bytes).

(** [0o600] and [0o664]. *)
Definition owner_only : Z := 384.
Definition group_writable : Z := 436.

Definition disk (files : list (string * (string * Z))) (path : string) : FileOnDisk :=
  match list_find (λ f, f.1 = path) files with
  | Some (_, (_, (content, mode))) => {| f_mode := Ok mode; f_content := Ok content |}
  | None =>
      let e := {| io_kind := IoOtherKind; io_message := "not found" |} in
      {| f_mode := Err e; f_content := Err e |}
  end.
Definition store_load (files : list (string * (string * Z))) : string → Result KnownHosts :=
  load b64_decode test_home_dir (disk files).
Definition store_save (store : KnownHosts) (path : string) : Result (string * string * Z) :=
  save base64_standard test_home_dir store path (Ok ()) (Ok ()) (Ok ()).
(** The directory after a save. *)
Definition saved_file (f : string * string * Z) : list (string * (string * Z)) :=
  let '(path, content, mode) := f in [(path, (content, mode))].
Definition line_break : string := String LF "".
Definition dir_path (name : string) : string := path_join "/tmp/dir" name.

(** [store.inner.write().unwrap().entries.push(entry)]. *)
Definition push_entry (e : KnownHostsEntry) (s : KnownHosts) : KnownHosts :=
  {| entries := entries s ++ [e]; warnings := warnings s; source_paths := source_paths s;
     hash_hostnames := hash_hostnames s |}.
Definition revoked_entry (host : string) : KnownHostsEntry :=
  {| hostname := host; port := 0; algorithm := "ssh-ed25519"; key_blob := test_key1;
     comment := None; revoked := true |}.

(** ** Parsing *)

Definition parses_plain_hostname_entry : bool :=
  let! encoded := base64_standard (as_bytes "real-key-data") in
  let line := "example.com ssh-ed25519 " +:+ encoded in
  let? entry := head (parse line) in
  assert_eq (hostname entry) "example.com" && assert_eq (port entry) 0
  && assert_eq (algorithm entry) "ssh-ed25519" && negb (is_empty (key_blob entry))
  && negb (revoked entry).

Definition parses_bracketed_port_entry : bool :=
  let! encoded := base64_standard (as_bytes "real-key-data") in
  let line := "[example.com]:2222 ssh-rsa " +:+ encoded in
  let? entry := head (parse line) in
  assert_eq (hostname entry) "example.com" && assert_eq (port entry) 2222
  && assert_eq (algorithm entry) "ssh-rsa".

Definition parses_revoked_entry : bool :=
  let! encoded := base64_standard (as_bytes "revoked-key-data") in
  let line := "@revoked example.com ssh-ed25519 " +:+ encoded in
  let? entry := head (parse line) in revoked entry.

Definition parses_entry_with_comment : bool :=
  let! encoded := base64_standard (as_bytes "key-with-comment") in
  let line := "example.com ssh-ed25519 " +:+ encoded +:+ " extra info here" in
  let? entry := head (parse line) in assert_eq (comment entry) (Some "extra info here").

Definition skips_empty_and_comment_lines : bool :=
  is_empty (parse "") && is_empty (parse "  ") && is_empty (parse "# example.com ssh-ed25519 key").

Definition skips_hashed_hostname_entries : bool :=
  let content := "|1|abc|def ssh-ed25519 AAAAC3NzaC1lZDI1NTE5AAAAIGk8abcdef" +:+ line_break in
  let '(entries, warnings) := parse_content content in
  is_empty entries && Nat.eqb (length warnings) 1
  && (let? w := warnings !! 0%nat in contains "hashed" (w_reason w)).

Definition skips_cert_authority_entries : bool :=
  let! encoded := base64_standard (as_bytes "ca-key") in
  let content := "@cert-authority example.com ssh-ed25519 " +:+ encoded +:+ line_break in
  let '(entries, warnings) := parse_content content in
  is_empty entries && Nat.eqb (length warnings) 1
  && (let? w := warnings !! 0%nat in contains "cert-authority" (w_reason w)).

Definition parses_multiple_valid_entries_and_collects_warnings : bool :=
  let! encoded := base64_standard (as_bytes "multi-key") in
  let content :=
    "example.com ssh-ed25519 " +:+ encoded +:+ line_break
    +:+ "[host]:2222 ssh-rsa " +:+ encoded +:+ line_break
    +:+ "|1|xxx|yyy ssh-ed25519 " +:+ encoded +:+ line_break
    +:+ "bad line without enough parts" +:+ line_break
    +:+ "# comment" +:+ line_break in
  let '(entries, warnings) := parse_content content in
  Nat.eqb (length entries) 2 && Nat.eqb (length warnings) 2
  && (let? e0 := entries !! 0%nat in assert_eq (hostname e0) "example.com")
  && (let? e1 := entries !! 1%nat in
      assert_eq (hostname e1) "host" && assert_eq (port e1) 2222).

Definition new_store_is_empty : bool :=
  let store := KnownHosts_new in
  assert_eq (entry_count store) 0 && is_empty (warnings store).

Definition store_starts_empty_and_accepts_added_entry : bool :=
  assert_eq (entry_count KnownHosts_new) 0.

Definition added_port_specific_entry_matches_plain_hostname : bool :=
  let! store := store_add KnownHosts_new "example.com" 2222 test_key1 "ssh-ed25519" in
  assert_eq (store_check store "example.com" 2222 test_key1) Match.

Definition debug_of_entry_excludes_sensitive_data : bool :=
  let entry := {| hostname := "example.com"; port := 0; algorithm := "ssh-ed25519";
                  key_blob := as_bytes "fake-key-data"; comment := None; revoked := false |} in
  let debug := KnownHostsEntry_debug entry in
  contains "example.com" debug && contains "ssh-ed25519" debug.

Definition known_hosts_clone_shares_store : bool :=
  let store := KnownHosts_new in
  let clone := store in
  assert_eq (entry_count store) (entry_count clone) && assert_eq (entry_count store) 0.

Definition parses_comma_separated_hostname_line : bool :=
  let! encoded := base64_standard (as_bytes "comma-sep-key") in
  let line := "host-a,host-b,host-c ssh-ed25519 " +:+ encoded in
  let es := parse line in
  Nat.eqb (length es) 3 && assert_eq (map hostname es) ["host-a"; "host-b"; "host-c"]
  && forallb (λ e, assert_eq (algorithm e) "ssh-ed25519") es.

Definition parses_ip_address_entry : bool :=
  let! encoded := base64_standard (as_bytes "ip-addr-key") in
  let line := "192.168.1.1 ssh-ed25519 " +:+ encoded in
  let? entry := head (parse line) in
  assert_eq (hostname entry) "192.168.1.1" && assert_eq (port entry) 0.

Definition parses_ecdsa_algorithm_entry : bool :=
  let! encoded := base64_standard (as_bytes "ecdsa-key-data") in
  let line := "example.com ecdsa-sha2-nistp256 " +:+ encoded in
  let? entry := head (parse line) in assert_eq (algorithm entry) "ecdsa-sha2-nistp256".

Definition rejects_line_with_missing_key_type : bool := is_empty (parse "example.com").

Definition rejects_line_with_invalid_base64 : bool :=
  is_empty (parse "example.com ssh-ed25519 not-valid-base64!!!").

Definition rejects_line_with_only_tag_and_key : bool :=
  let! encoded := base64_standard (as_bytes "only-two-parts") in
  is_empty (parse ("ssh-ed25519 " +:+ encoded)).

(** ** Matching *)

Definition host_match_exact : bool :=
  let! store := store_add KnownHosts_new "example.com" 0 test_key1 "ssh-ed25519" in
  assert_eq (store_check store "example.com" 22 test_key1) Match.

Definition host_match_case_insensitive : bool :=
  let! store := store_add KnownHosts_new "example.com" 0 test_key1 "ssh-ed25519" in
  assert_eq (store_check store "EXAMPLE.COM" 22 test_key1) Match.

Definition host_match_non_matching : bool :=
  let! store := store_add KnownHosts_new "example.com" 0 test_key1 "ssh-ed25519" in
  assert_eq (store_check store "other.com" 22 test_key1) NotFound.

Definition host_match_port_specific_only_matches_that_port : bool :=
  let! store := store_add KnownHosts_new "example.com" 2222 test_key1 "ssh-ed25519" in
  assert_eq (store_check store "example.com" 2222 test_key1) Match
  && assert_eq (store_check store "example.com" 22 test_key1) NotFound.

Definition host_match_port_zero_matches_any_port : bool :=
  let! store := store_add KnownHosts_new "example.com" 0 test_key1 "ssh-ed25519" in
  assert_eq (store_check store "example.com" 22 test_key1) Match
  && assert_eq (store_check store "example.com" 2222 test_key1) Match.

Definition key_match_different_key_same_algorithm_is_changed : bool :=
  let! store := store_add KnownHosts_new "example.com" 0 test_key1 "ssh-ed25519" in
  assert_eq (store_check store "example.com" 22 test_key2) Changed.

Definition key_match_different_algorithm : bool :=
  let! store := store_add KnownHosts_new "example.com" 0 test_key1 "ssh-rsa" in
  assert_eq (store_check store "example.com" 22 test_key1) Match.

Definition revoked_entry_returns_revoked_status : bool :=
  let store := push_entry (revoked_entry "evil.com") KnownHosts_new in
  assert_eq (store_check store "evil.com" 22 test_key1) Revoked.

(** ** Saving and loading *)

Definition save_format_plain_hostname_for_port_22 : bool :=
  let! store := store_add KnownHosts_new "example.com" 22 test_key1 "ssh-ed25519" in
  let path := dir_path "known_hosts" in
  let! saved := store_save store path in
  let! content := f_content (disk (saved_file saved) path) in
  contains "example.com " content && negb (contains "[example.com]:22" content).

Definition save_format_bracketed_hostname_for_non_default_port : bool :=
  let! store := store_add KnownHosts_new "example.com" 2222 test_key1 "ssh-ed25519" in
  let path := dir_path "known_hosts" in
  let! saved := store_save store path in
  let! content := f_content (disk (saved_file saved) path) in
  contains "[example.com]:2222" content.

Definition save_format_includes_revoked_marker : bool :=
  let store := push_entry (revoked_entry "revoked-host.com") KnownHosts_new in
  let path := dir_path "known_hosts" in
  let! saved := store_save store path in
  let! content := f_content (disk (saved_file saved) path) in
  starts_with "@revoked " content.

Definition save_and_load_round_trip : bool :=
  let path := dir_path "known_hosts" in
  let! store := store_add KnownHosts_new "example.com" 2222 test_key1 "ssh-ed25519" in
  let! store := store_add store "other.com" 0 test_key1 "ssh-rsa" in
  let! saved := store_save store path in
  let! loaded := store_load (saved_file saved) path in
  assert_eq (entry_count loaded) 2
  && assert_eq (store_check loaded "example.com" 2222 test_key1) Match
  && assert_eq (store_check loaded "other.com" 22 test_key1) Match.

Definition save_and_load_preserves_revoked : bool :=
  let path := dir_path "known_hosts" in
  let store := push_entry (revoked_entry "evil.com") KnownHosts_new in
  let! saved := store_save store path in
  let! loaded := store_load (saved_file saved) path in
  assert_eq (entry_count loaded) 1
  && assert_eq (store_check loaded "evil.com" 22 test_key1) Revoked.

Definition source_paths_recorded_on_load : bool :=
  let path := dir_path "known_hosts" in
  let! encoded := base64_standard (as_bytes "source-path-key") in
  let files := [(path, ("example.com ssh-ed25519 " +:+ encoded +:+ line_break, owner_only))] in
  let! store := store_load files path in
  let paths := source_paths store in
  Nat.eqb (length paths) 1 && assert_eq (paths !! 0%nat) (Some path).

Definition warnings_from_file_load : bool :=
  let path := dir_path "known_hosts" in
  let! encoded := base64_standard (as_bytes "warning-key") in
  let content :=
    "example.com ssh-ed25519 " +:+ encoded +:+ line_break
    +:+ "|1|xxx|yyy ssh-ed25519 " +:+ encoded +:+ line_break
    +:+ "@cert-authority ca.com ssh-ed25519 " +:+ encoded +:+ line_break
    +:+ "bad line" +:+ line_break in
  let! store := store_load [(path, (content, owner_only))] path in
  let ws := warnings store in
  assert_eq (entry_count store) 1 && Nat.eqb (length ws) 3
  && (let? w := ws !! 0%nat in contains "hashed" (w_reason w))
  && (let? w := ws !! 1%nat in contains "cert-authority" (w_reason w))
  && (let? w := ws !! 2%nat in contains "failed to parse" (w_reason w)).

Definition load_merge_and_warnings : bool :=
  let path1 := dir_path "kh1" in
  let path2 := dir_path "kh2" in
  let! encoded1 := base64_standard (as_bytes "merge-key-1") in
  let! encoded2 := base64_standard (as_bytes "merge-key-2") in
  let files :=
    [(path1, ("host-a.com ssh-ed25519 " +:+ encoded1 +:+ line_break, owner_only));
     (path2, ("host-b.com ssh-ed25519 " +:+ encoded2 +:+ line_break, owner_only))] in
  let! store1 := store_load files path1 in
  let! store2 := store_load files path2 in
  let store1 := merge store1 store2 in
  assert_eq (entry_count store1) 2 && Nat.eqb (length (source_paths store1)) 2.

(** [for i in 0..count]. *)
Fixpoint add_hosts (i : nat) (store : KnownHosts) : Result KnownHosts :=
  match i with
  | O => Ok store
  | S n =>
      store ← add_hosts n store;
      store_add store ("host-" +:+ dec (Z.of_nat n) +:+ ".example.com") 0 test_key1 "ssh-ed25519"
  end.

Definition large_number_of_entries : bool :=
  let count := 200%nat in
  let! store := add_hosts count KnownHosts_new in
  assert_eq (entry_count store) (Z.of_nat count)
  && forallb (λ i, assert_eq
       (store_check store ("host-" +:+ dec (Z.of_nat i) +:+ ".example.com") 22 test_key1) Match)
       (seq 0 count).

Definition load_empty_file : bool :=
  let path := dir_path "known_hosts" in
  let! store := store_load [(path, ("", owner_only))] path in
  assert_eq (entry_count store) 0 && is_empty (warnings store).

Definition load_file_with_only_comments_and_blank_lines : bool :=
  let path := dir_path "known_hosts" in
  let content := "# comment one" +:+ line_break +:+ line_break +:+ "# comment two" +:+ line_break
                 +:+ line_break in
  let! store := store_load [(path, (content, owner_only))] path in
  assert_eq (entry_count store) 0 && is_empty (warnings store).

Definition rejects_group_writable_file_on_unix : bool :=
  let path := dir_path "known_hosts" in
  let! encoded := base64_standard (as_bytes "perm-key") in
  let content := "example.com ssh-ed25519 " +:+ encoded +:+ line_break in
  negb (is_ok (store_load [(path, (content, group_writable))] path)).

(** [0o777] is 511. *)
Definition save_creates_file_with_restrictive_permissions : bool :=
  let path := dir_path "known_hosts" in
  let! store := store_add KnownHosts_new "example.com" 22 test_key1 "ssh-ed25519" in
  let! saved := store_save store path in
  let! mode := f_mode (disk (saved_file saved) path) in
  assert_eq (Z.land mode 511) owner_only.

(** ** Paths *)

Definition home_dir : option string := test_home_dir.

Definition tilde_expansion_to_home : bool :=
  let? home := home_dir in
  assert_eq (expand_tilde test_home_dir "~/.ssh/known_hosts") (path_join home ".ssh/known_hosts").

Definition tilde_alone_expands_to_home : bool :=
  let? home := home_dir in assert_eq (expand_tilde test_home_dir "~") home.

Definition tilde_not_expanded_without_slash : bool :=
  assert_eq (expand_tilde test_home_dir "~user") "~user".

Definition tilde_not_expanded_in_middle_of_path : bool :=
  assert_eq (expand_tilde test_home_dir "/home/~user/ssh") "/home/~user/ssh".

(** ** Entries *)

Definition known_hosts_entry_accessors : bool :=
  let entry := {| hostname := "accessor-test.com"; port := 2222; algorithm := "ssh-rsa";
                  key_blob := as_bytes "accessor-key-data"; comment := Some "a comment";
                  revoked := true |} in
  assert_eq (hostname entry) "accessor-test.com" && assert_eq (port entry) 2222
  && assert_eq (algorithm entry) "ssh-rsa"
  && assert_eq (key_blob entry) (as_bytes "accessor-key-data")
  && assert_eq (comment entry) (Some "a comment") && revoked entry.

Definition known_hosts_entry_accessor_no_comment : bool :=
  let entry := {| hostname := "no-comment.com"; port := 0; algorithm := "ssh-ed25519";
                  key_blob := as_bytes "no-comment-key"; comment := None; revoked := false |} in
  assert_eq (comment entry) None && negb (revoked entry).

Definition known_hosts_entry_round_trip_through_parse : bool :=
  let! encoded := base64_standard (as_bytes "round-trip-key-data") in
  let line := "@revoked [example.com]:2222 ssh-ed25519 " +:+ encoded +:+ " my comment" in
  let? entry := head (parse line) in
  assert_eq (hostname entry) "example.com" && assert_eq (port entry) 2222
  && assert_eq (algorithm entry) "ssh-ed25519"
  && assert_eq (key_blob entry) (as_bytes "round-trip-key-data")
  && assert_eq (comment entry) (Some "my comment") && revoked entry.

Definition known_hosts_set_hash_hostnames : bool :=
  let store := KnownHosts_new in
  negb (hash_hostnames store) && hash_hostnames (set_hash_hostnames true store).

Definition ip_address_bracketed_port : bool :=
  let! encoded := base64_standard (as_bytes "ip-bracket-key") in
  let line := "[192.168.1.1]:2222 ssh-ed25519 " +:+ encoded in
  let? entry := head (parse line) in
  assert_eq (hostname entry) "192.168.1.1" && assert_eq (port entry) 2222.

Definition wildcard_looking_entry_does_not_match_unrelated_hosts : bool :=
  let! encoded := base64_standard test_key1 in
  let line := "*.example.com ssh-ed25519 " +:+ encoded in
  let? entry := head (parse line) in
  let! store := store_add KnownHosts_new "*.example.com" 0 test_key1 "ssh-ed25519" in
  assert_eq (hostname entry) "*.example.com"
  && assert_eq (store_check store "*.example.com" 22 test_key1) Match
  && assert_eq (store_check store "foo.example.com" 22 test_key1) NotFound
  && assert_eq (store_check store "example.com" 22 test_key1) NotFound.

Definition hashed_entry_skipped_with_warning_and_not_trusted : bool :=
  let! key_encoded := base64_standard test_key1 in
  let content :=
    "example.com ssh-ed25519 " +:+ key_encoded +:+ line_break
    +:+ "|1|abc123|def456 ssh-ed25519 " +:+ key_encoded +:+ line_break in
  let '(entries, warnings) := parse_content content in
  Nat.eqb (length entries) 1 && Nat.eqb (length warnings) 1
  && (let? w := warnings !! 0%nat in contains "hashed" (w_reason w))
  && (let? e := entries !! 0%nat in assert_eq (hostname e) "example.com").

Definition malformed_lines_collected_as_warnings_not_trusted : bool :=
  let! key_encoded := base64_standard test_key1 in
  let content :=
    "incomplete" +:+ line_break +:+ "example.com ssh-ed25519 " +:+ key_encoded +:+ line_break
    +:+ "another:bad!line!!" +:+ line_break in
  let '(entries, warnings) := parse_content content in
  Nat.eqb (length entries) 1 && Nat.eqb (length warnings) 2
  && forallb (λ w, contains "failed to parse" (w_reason w)) warnings.

Definition set_hash_hostnames_is_documented_as_not_active : bool :=
  let store := KnownHosts_new in
  let hashing := set_hash_hostnames true store in
  let! added := store_add hashing "example.com" 22 test_key1 "ssh-ed25519" in
  let path := dir_path "known_hosts" in
  let! saved := store_save added path in
  let! content := f_content (disk (saved_file saved) path) in
  negb (hash_hostnames store) && hash_hostnames hashing
  && contains "example.com ssh-ed25519" content.

Definition check_finds_match_among_multiple_host_entries : bool :=
  let! store := store_add KnownHosts_new "example.com" 0 test_key1 "ssh-ed25519" in
  let! store := store_add store "example.com" 0 test_key2 "ssh-ed25519" in
  assert_eq (store_check store "example.com" 22 test_key2) Match.

Definition merge_combines_entries_from_two_stores : bool :=
  let! store1 := store_add KnownHosts_new "host-a.example.com" 0 test_key1 "ssh-ed25519" in
  let! store2 := store_add KnownHosts_new "host-b.example.com" 0 test_key2 "ssh-ed25519" in
  let merged := merge store1 store2 in
  assert_eq (entry_count store1) 1 && assert_eq (entry_count store2) 1
  && assert_eq (entry_count merged) 2
  && assert_eq (store_check merged "host-a.example.com" 22 test_key1) Match
  && assert_eq (store_check merged "host-b.example.com" 22 test_key2) Match
  && Nat.eqb (length (warnings merged)) 0.

(** ** What two of the tests do not show *)

(** [check_finds_match_among_multiple_host_entries] speaks of a first entry with another
    key; the second [add_entry] has removed it. *)
Example second_add_replaces_first :
  (store ← store_add KnownHosts_new "example.com" 0 test_key1 "ssh-ed25519";
   store ← store_add store "example.com" 0 test_key2 "ssh-ed25519";
   Ok (map key_blob (entries store)))
  = Ok [test_key2].
Proof. vm_compute. reflexivity. Qed.

(** [debug_of_entry_excludes_sensitive_data] looks only for what is printed: the derived
    [Debug] prints the key as well. *)
Example entry_debug_prints_key :
  contains "key_blob: [107, 101, 121]"
    (KnownHostsEntry_debug
       {| hostname := "example.com"; port := 0; algorithm := "ssh-ed25519";
          key_blob := as_bytes "key"; comment := None; revoked := false |}) = true.
Proof. vm_compute. reflexivity. Qed.

(** ** The suite *)

Definition known_hosts_tests : list (string * bool) :=
  [("parses_plain_hostname_entry", parses_plain_hostname_entry);
   ("parses_bracketed_port_entry", parses_bracketed_port_entry);
   ("parses_revoked_entry", parses_revoked_entry);
   ("parses_entry_with_comment", parses_entry_with_comment);
   ("skips_empty_and_comment_lines", skips_empty_and_comment_lines);
   ("skips_hashed_hostname_entries", skips_hashed_hostname_entries);
   ("skips_cert_authority_entries", skips_cert_authority_entries);
   ("parses_multiple_valid_entries_and_collects_warnings", parses_multiple_valid_entries_and_collects_warnings);
   ("new_store_is_empty", new_store_is_empty);
   ("store_starts_empty_and_accepts_added_entry", store_starts_empty_and_accepts_added_entry);
   ("added_port_specific_entry_matches_plain_hostname", added_port_specific_entry_matches_plain_hostname);
   ("debug_of_entry_excludes_sensitive_data", debug_of_entry_excludes_sensitive_data);
   ("known_hosts_clone_shares_store", known_hosts_clone_shares_store);
   ("parses_comma_separated_hostname_line", parses_comma_separated_hostname_line);
   ("parses_ip_address_entry", parses_ip_address_entry);
   ("parses_ecdsa_algorithm_entry", parses_ecdsa_algorithm_entry);
   ("rejects_line_with_missing_key_type", rejects_line_with_missing_key_type);
   ("rejects_line_with_invalid_base64", rejects_line_with_invalid_base64);
   ("rejects_line_with_only_tag_and_key", rejects_line_with_only_tag_and_key);
   ("host_match_exact", host_match_exact);
   ("host_match_case_insensitive", host_match_case_insensitive);
   ("host_match_non_matching", host_match_non_matching);
   ("host_match_port_specific_only_matches_that_port", host_match_port_specific_only_matches_that_port);
   ("host_match_port_zero_matches_any_port", host_match_port_zero_matches_any_port);
   ("key_match_different_key_same_algorithm_is_changed", key_match_different_key_same_algorithm_is_changed);
   ("key_match_different_algorithm", key_match_different_algorithm);
   ("revoked_entry_returns_revoked_status", revoked_entry_returns_revoked_status);
   ("save_format_plain_hostname_for_port_22", save_format_plain_hostname_for_port_22);
   ("save_format_bracketed_hostname_for_non_default_port", save_format_bracketed_hostname_for_non_default_port);
   ("save_format_includes_revoked_marker", save_format_includes_revoked_marker);
   ("save_and_load_round_trip", save_and_load_round_trip);
   ("save_and_load_preserves_revoked", save_and_load_preserves_revoked);
   ("source_paths_recorded_on_load", source_paths_recorded_on_load);
   ("warnings_from_file_load", warnings_from_file_load);
   ("load_merge_and_warnings", load_merge_and_warnings);
   ("large_number_of_entries", large_number_of_entries);
   ("load_empty_file", load_empty_file);
   ("load_file_with_only_comments_and_blank_lines", load_file_with_only_comments_and_blank_lines);
   ("rejects_group_writable_file_on_unix", rejects_group_writable_file_on_unix);
   ("save_creates_file_with_restrictive_permissions", save_creates_file_with_restrictive_permissions);
   ("tilde_expansion_to_home", tilde_expansion_to_home);
   ("tilde_alone_expands_to_home", tilde_alone_expands_to_home);
   ("tilde_not_expanded_without_slash", tilde_not_expanded_without_slash);
   ("tilde_not_expanded_in_middle_of_path", tilde_not_expanded_in_middle_of_path);
   ("known_hosts_entry_accessors", known_hosts_entry_accessors);
   ("known_hosts_entry_accessor_no_comment", known_hosts_entry_accessor_no_comment);
   ("known_hosts_entry_round_trip_through_parse", known_hosts_entry_round_trip_through_parse);
   ("known_hosts_set_hash_hostnames", known_hosts_set_hash_hostnames);
   ("ip_address_bracketed_port", ip_address_bracketed_port);
   ("wildcard_looking_entry_does_not_match_unrelated_hosts", wildcard_looking_entry_does_not_match_unrelated_hosts);
   ("hashed_entry_skipped_with_warning_and_not_trusted", hashed_entry_skipped_with_warning_and_not_trusted);
   ("malformed_lines_collected_as_warnings_not_trusted", malformed_lines_collected_as_warnings_not_trusted);
   ("set_hash_hostnames_is_documented_as_not_active", set_hash_hostnames_is_documented_as_not_active);
   ("check_finds_match_among_multiple_host_entries", check_finds_match_among_multiple_host_entries);
   ("merge_combines_entries_from_two_stores", merge_combines_entries_from_two_stores)].

(** Every test passes on the model. *)
Example known_hosts_tests_pass : failures known_hosts_tests = [].
Proof. vm_compute. reflexivity. Qed.
