(* ===== verification/SftpTests.v ===== *)
(** * Unit tests of [sftp/packet.rs], [sftp/types.rs] and [sftp/client.rs]

    Reading the fields of a payload one after the other, with a position carried along,
    is a run of the model's parser. *)
From S2P Require Import Prelude RustStr Channel CoreError SftpPacket SftpTypes SftpClient.
From S2P Require Import SftpTasks SftpService Debug RustTest.

Definition test_attrs : SftpFileAttrs := SftpFileAttrs_default.

(** ** [packet.rs] *)

Definition encode_decode_init : bool :=
  let packet := encode_init 3 in
  let len := Z.to_nat (from_be (slice packet 0 4)) in
  let payload := take (len - 1) (drop 5 packet) in
  assert_eq (b2z <$> packet !! 4%nat) (Some FXP_INIT)
  && (let! x := pop_u32 payload 0%nat in assert_eq (fst x) 3)
  && (let! x := pop_u32 payload 4%nat in assert_eq (fst x) 0).

Definition encode_decode_version : bool :=
  let payload := push_u32 (push_u32 [] 3) 0 in
  let! r := decode_version payload in
  assert_eq (fst r) 3 && bool_decide (snd r = ∅).

Definition encode_decode_open_close : bool :=
  let open_packet := encode_open 1 "/test.txt" 0x01 test_attrs in
  let close_packet := encode_close 2 "handle-1" in
  (let! x := run (id ← pop_u32; path ← pop_string; flags ← pop_u32; mret (id, path, flags))
               (drop 5 open_packet) in
   assert_eq x (1, "/test.txt", 0x01))
  && (let! x := run (id ← pop_u32; handle ← pop_string; mret (id, handle)) (drop 5 close_packet) in
      assert_eq x (2, "handle-1")).

Definition encode_decode_read_write : bool :=
  let read_packet := encode_read 3 "h1" 100 4096 in
  let write_packet := encode_write 4 "h2" 200 (as_bytes "hello") in
  (let! x := run (id ← pop_u32; handle ← pop_string; offset ← pop_u64; len ← pop_u32;
                  mret (id, handle, offset, len)) (drop 5 read_packet) in
   assert_eq x (3, "h1", 100, 4096))
  && (let! x := run (id ← pop_u32; handle ← pop_string; offset ← pop_u64; data ← pop_bytes;
                     mret (id, handle, offset, data)) (drop 5 write_packet) in
      assert_eq x (4, "h2", 200, as_bytes "hello")).

Definition decode_status_and_check : bool :=
  let ok := push_string (push_string (push_u32 (push_u32 [] 1) SSH_FX_OK) "OK") "en" in
  let denied :=
    push_string (push_string (push_u32 (push_u32 [] 2) SSH_FX_PERMISSION_DENIED) "denied") "en" in
  (let! r := decode_status ok in
   let '(id, code, msg) := r in
   assert_eq id 1 && assert_eq code SSH_FX_OK && is_ok (check_status code msg))
  && (let! r := decode_status denied in
      let '(id, code, msg) := r in
      assert_eq id 2 && assert_eq code SSH_FX_PERMISSION_DENIED
      && negb (is_ok (check_status code msg))).

Definition test_decode_handle_unit : bool :=
  let payload := push_string (push_u32 [] 5) "my-handle" in
  let! r := decode_handle payload in assert_eq r (5, "my-handle").

Definition test_decode_data_unit : bool :=
  let payload := push_bytes (push_u32 [] 6) (as_bytes "hello world") in
  let! r := decode_data payload in assert_eq r (6, as_bytes "hello world").

Definition decode_name_empty : bool :=
  let payload := push_u32 (push_u32 [] 7) 0 in
  let! r := decode_name payload in assert_eq (fst r) 7 && is_empty (snd r).

Definition decode_name_with_entries : bool :=
  let longname := "-rw-r--r-- 1 user group 100 Jan 1 2024 file.txt" in
  let payload :=
    push_attrs (push_string (push_string (push_u32 (push_u32 [] 8) 1) "file.txt") longname)
      test_attrs in
  let! r := decode_name payload in
  assert_eq (fst r) 8 && Nat.eqb (length (snd r)) 1
  && (let? e := snd r !! 0%nat in
      assert_eq (ne_filename e) "file.txt" && assert_eq (ne_longname e) longname).

(** [0o644] is 420. *)
Definition test_decode_attrs_unit : bool :=
  let payload :=
    push_u32 (push_u64 (push_u32 (push_u32 [] 9)
      (Z.lor SSH_FILEXFER_ATTR_SIZE SSH_FILEXFER_ATTR_PERMISSIONS)) 1024) 420 in
  let! r := decode_attrs payload in
  assert_eq (fst r) 9 && assert_eq (size (snd r)) (Some 1024)
  && assert_eq (permissions (snd r)) (Some 420) && assert_eq (uid (snd r)) None.

Definition truncated_packet_errors : bool :=
  let payload := push_u32 [] 100 in
  negb (is_ok (pop_u32 [z2b 0; z2b 0] 0%nat)) && negb (is_ok (pop_u64 [] 0%nat))
  && negb (is_ok (pop_string payload 0%nat)).

Definition test_encode_rename_unit : bool :=
  let packet := encode_rename 1 "/old.txt" "/new.txt" in
  let! x := run (id ← pop_u32; old ← pop_string; new ← pop_string; mret (id, old, new))
              (drop 5 packet) in
  assert_eq x (1, "/old.txt", "/new.txt").

Definition encode_symlink_readlink : bool :=
  let sym_packet := encode_symlink 1 "/link" "/target" in
  let rl_packet := encode_readlink 2 "/link" in
  (let! x := run (id ← pop_u32; link ← pop_string; target ← pop_string; mret (id, link, target))
               (drop 5 sym_packet) in
   assert_eq x (1, "/link", "/target"))
  && (let! x := run (id ← pop_u32; link ← pop_string; mret (id, link)) (drop 5 rl_packet) in
      assert_eq x (2, "/link")).

(** [0o755] is 493. *)
Definition attrs_round_trip : bool :=
  let attrs :=
    {| flags := Z.lor (Z.lor (Z.lor SSH_FILEXFER_ATTR_SIZE SSH_FILEXFER_ATTR_UIDGID)
                         SSH_FILEXFER_ATTR_PERMISSIONS) SSH_FILEXFER_ATTR_ACMODTIME;
       size := Some 4096; uid := Some 1000; gid := Some 1000; permissions := Some 493;
       atime := Some 1000000; mtime := Some 2000000 |} in
  let! decoded := pop_attrs (push_attrs [] attrs) 0%nat in assert_eq (fst decoded) attrs.

Definition decode_packet_type_identifies_types : bool :=
  (let! t := decode_packet_type (drop 4 (encode_init 3)) in assert_eq t FXP_INIT)
  && (let! t := decode_packet_type (drop 4 (encode_close 1 "h")) in assert_eq t FXP_CLOSE).

Definition status_code_names : bool :=
  assert_eq (status_code_name SSH_FX_OK) "OK"
  && assert_eq (status_code_name SSH_FX_NO_SUCH_FILE) "NO_SUCH_FILE"
  && assert_eq (status_code_name SSH_FX_PERMISSION_DENIED) "PERMISSION_DENIED"
  && assert_eq (status_code_name 999) "UNKNOWN".

(** ** [types.rs] *)

Definition open_mode_constants_have_correct_values : bool :=
  assert_eq (OpenMode_bits OpenMode_READ) 0x00000001
  && assert_eq (OpenMode_bits OpenMode_WRITE) 0x00000002
  && assert_eq (OpenMode_bits OpenMode_APPEND) 0x00000004
  && assert_eq (OpenMode_bits OpenMode_CREATE) 0x00000008
  && assert_eq (OpenMode_bits OpenMode_TRUNCATE) 0x00000010
  && assert_eq (OpenMode_bits OpenMode_EXCLUSIVE) 0x00000020.

(** The derived [Default] of the integer inside. *)
Definition open_mode_default_is_zero : bool := assert_eq (OpenMode_bits 0) 0.

Definition open_mode_bit_or_combines_flags : bool :=
  let rw := OpenMode_bitor OpenMode_READ OpenMode_WRITE in
  assert_eq (OpenMode_bits rw) 0x00000003.

Definition open_mode_bit_or_chains_multiple : bool :=
  let flags :=
    OpenMode_bitor (OpenMode_bitor (OpenMode_bitor OpenMode_READ OpenMode_WRITE) OpenMode_CREATE)
      OpenMode_TRUNCATE in
  assert_eq (OpenMode_bits flags) 0x0000001B.

Definition dir_entry_new_sets_fields : bool :=
  let entry := SftpDirEntry_new "file.txt" "long format" SftpMetadata_default in
  assert_eq (de_filename entry) "file.txt" && assert_eq (de_longname entry) "long format".

Definition dir_entry_metadata_accessor : bool :=
  let meta := SftpMetadata_new (Some 1024) None None (Some 420) None None in
  let entry := SftpDirEntry_new "f" "l" meta in
  assert_eq (m_size (de_metadata entry)) (m_size meta)
  && assert_eq (m_permissions (de_metadata entry)) (m_permissions meta).

Definition dir_entry_debug_format : bool :=
  let entry := SftpDirEntry_new "hello.txt" "-rw-r--r-- 1 user group 0 Jan 1 1970 hello.txt"
                 SftpMetadata_default in
  contains "hello.txt" (SftpDirEntry_debug entry).

Definition metadata_new_stores_fields : bool :=
  let meta := SftpMetadata_new (Some 4096) (Some 1000) (Some 1000) (Some 493)
                (Some 1700000000) (Some 1700000100) in
  assert_eq (m_size meta) (Some 4096) && assert_eq (m_uid meta) (Some 1000)
  && assert_eq (m_gid meta) (Some 1000) && assert_eq (m_permissions meta) (Some 493)
  && assert_eq (m_accessed meta) (Some 1700000000)
  && assert_eq (m_modified meta) (Some 1700000100).

Definition metadata_new_none_fields : bool :=
  let meta := SftpMetadata_new None None None None None None in
  assert_eq (m_size meta) None && assert_eq (m_uid meta) None && assert_eq (m_gid meta) None
  && assert_eq (m_permissions meta) None && assert_eq (m_accessed meta) None
  && assert_eq (m_modified meta) None.

Definition metadata_default_is_all_none : bool :=
  let meta := SftpMetadata_default in
  assert_eq (m_size meta) None && assert_eq (m_uid meta) None
  && assert_eq (m_permissions meta) None.

Definition metadata_with_size : bool :=
  assert_eq (m_size (SftpMetadata_with_size SftpMetadata_default 2048)) (Some 2048).

(** [0o600] is 384. *)
Definition metadata_with_permissions : bool :=
  assert_eq (m_permissions (SftpMetadata_with_permissions SftpMetadata_default 384)) (Some 384).

Definition metadata_with_uid_gid : bool :=
  let meta := SftpMetadata_with_uid_gid SftpMetadata_default 500 500 in
  assert_eq (m_uid meta) (Some 500) && assert_eq (m_gid meta) (Some 500).

Definition metadata_with_accessed : bool :=
  assert_eq (m_accessed (SftpMetadata_with_accessed SftpMetadata_default 1700000000))
    (Some 1700000000).

Definition metadata_with_modified : bool :=
  assert_eq (m_modified (SftpMetadata_with_modified SftpMetadata_default 1700000100))
    (Some 1700000100).

Definition metadata_builder_chained : bool :=
  let meta :=
    SftpMetadata_with_uid_gid
      (SftpMetadata_with_permissions (SftpMetadata_with_size SftpMetadata_default 1024) 420)
      1000 1000 in
  assert_eq (m_size meta) (Some 1024) && assert_eq (m_permissions meta) (Some 420)
  && assert_eq (m_uid meta) (Some 1000) && assert_eq (m_gid meta) (Some 1000)
  && assert_eq (m_accessed meta) None.

Definition metadata_display_full : bool :=
  let meta := SftpMetadata_new (Some 1024) (Some 1000) (Some 1000) (Some 493) None None in
  let display := SftpMetadata_display meta in
  contains "size=1024" display && contains "perm=755" display && contains "uid=1000" display
  && contains "gid=1000" display.

Definition metadata_display_empty : bool :=
  assert_eq (SftpMetadata_display SftpMetadata_default) "SftpMetadata { }".

Definition metadata_display_partial : bool :=
  let display := SftpMetadata_display (SftpMetadata_with_size SftpMetadata_default 555) in
  contains "size=555" display && negb (contains "perm" display)
  && negb (contains "uid" display) && negb (contains "gid" display).

(** ** [client.rs] *)

(** The runtime's abort reason is the cell of the tasks. *)
Definition abort_reason_wired_in_sftp_client_runtime : bool :=
  let runtime :=
    set_abort (Some "SFTP protocol error: invalid packet length 999999") Tasks_new in
  let? reason := t_abort runtime in contains "invalid packet length" reason.

Definition sftp_response_enum_lacks_version_variant : bool :=
  let debug := SftpResponse_debug (RespStatus 0 "ok") in
  negb (contains "Version" debug) && contains "Status" debug.

(** ** The suite *)

Definition sftp_tests : list (string * bool) :=
  [("encode_decode_init", encode_decode_init);
   ("encode_decode_version", encode_decode_version);
   ("encode_decode_open_close", encode_decode_open_close);
   ("encode_decode_read_write", encode_decode_read_write);
   ("decode_status_and_check", decode_status_and_check);
   ("test_decode_handle_unit", test_decode_handle_unit);
   ("test_decode_data_unit", test_decode_data_unit);
   ("decode_name_empty", decode_name_empty);
   ("decode_name_with_entries", decode_name_with_entries);
   ("test_decode_attrs_unit", test_decode_attrs_unit);
   ("truncated_packet_errors", truncated_packet_errors);
   ("test_encode_rename_unit", test_encode_rename_unit);
   ("encode_symlink_readlink", encode_symlink_readlink);
   ("attrs_round_trip", attrs_round_trip);
   ("decode_packet_type_identifies_types", decode_packet_type_identifies_types);
   ("status_code_names", status_code_names);
   ("open_mode_constants_have_correct_values", open_mode_constants_have_correct_values);
   ("open_mode_default_is_zero", open_mode_default_is_zero);
   ("open_mode_bit_or_combines_flags", open_mode_bit_or_combines_flags);
   ("open_mode_bit_or_chains_multiple", open_mode_bit_or_chains_multiple);
   ("dir_entry_new_sets_fields", dir_entry_new_sets_fields);
   ("dir_entry_metadata_accessor", dir_entry_metadata_accessor);
   ("dir_entry_debug_format", dir_entry_debug_format);
   ("metadata_new_stores_fields", metadata_new_stores_fields);
   ("metadata_new_none_fields", metadata_new_none_fields);
   ("metadata_default_is_all_none", metadata_default_is_all_none);
   ("metadata_with_size", metadata_with_size);
   ("metadata_with_permissions", metadata_with_permissions);
   ("metadata_with_uid_gid", metadata_with_uid_gid);
   ("metadata_with_accessed", metadata_with_accessed);
   ("metadata_with_modified", metadata_with_modified);
   ("metadata_builder_chained", metadata_builder_chained);
   ("metadata_display_full", metadata_display_full);
   ("metadata_display_empty", metadata_display_empty);
   ("metadata_display_partial", metadata_display_partial);
   ("abort_reason_wired_in_sftp_client_runtime", abort_reason_wired_in_sftp_client_runtime);
   ("sftp_response_enum_lacks_version_variant", sftp_response_enum_lacks_version_variant)].

(** Every test passes on the model. *)
Example sftp_tests_pass : failures sftp_tests = [].
Proof. vm_compute. reflexivity. Qed.
