(* ===== verification/ServerTests.v ===== *)
(** * Unit tests of [server.rs] and of the loopback server

    Host keys are numbers; the key library reads none.  The loopback test is run on the
    handler the server creates for the connection: the client's waiting loop is translated
    over what the handler sent on the channel. *)
From S2P Require Import Prelude RustStr Channel CoreError Endpoint Config ClientErrors Tunnel.
From S2P Require Import ServerTypes ServerBuild ServerHandler ServerExec Loopback LoopbackRun.
From S2P Require Import Debug RustTest.

(** ** [server.rs] *)

Definition test_host_key : ServerHostKey Z := {| private_key := 7 |}.
Definition no_file (path : string) : result string Z := Err "no such file".
Definition no_pem (pem : list byte) : result string Z := Err "not a key".
Definition no_fs (path : string) : HostKeyFile :=
  {| hk_mode := Err {| io_kind := IoOtherKind; io_message := "no such file" |};
     hk_data := Err {| io_kind := IoOtherKind; io_message := "no such file" |} |}.
Definition test_build (b : ServerBuilder unit unit unit Z) :
    Result (ServerRuntime unit unit unit Z) :=
  build no_file (λ _, false) no_fs b.

Definition server_builder_requires_host_key : bool :=
  let~ error := test_build ServerBuilder_default in
  match error with InvalidConfig _ => true | _ => false end.

Definition server_builder_accepts_host_key : bool :=
  let! server :=
    test_build (builder_max_sessions (builder_host_key ServerBuilder_default test_host_key) 4) in
  assert_eq (sc_max_sessions (r_config server)) 4.

Definition host_key_debug_redacts_private_key : bool :=
  contains "***" (ServerHostKey_debug test_host_key).

Definition auth_decision_defaults_to_reject : bool :=
  negb (accepted AuthDecision_default) && accepted AuthDecision_accept
  && negb (accepted AuthDecision_reject).

Definition exec_command_exposes_utf8_when_valid : bool :=
  let command := {| command_bytes := as_bytes "whoami" |} in
  assert_eq (ExecCommand_as_str command) (Some "whoami")
  && assert_eq (command_bytes command) (as_bytes "whoami")
  && assert_eq (ExecCommand_as_str {| command_bytes := [z2b 255] |}) None.

Definition exec_response_builders_set_output_and_exit : bool :=
  let out := as_bytes (String.append "out" (String "010" "")) in
  let err := as_bytes (String.append "err" (String "010" "")) in
  let response :=
    ExecResponse_exit_status
      (ExecResponse_stderr (ExecResponse_stdout ExecResponse_success out) err) 42 in
  er_accepted response && assert_eq (er_stdout response) out
  && assert_eq (er_stderr response) err
  && assert_eq (er_exit response) (CommandExit_status 42)
  && negb (er_accepted ExecResponse_reject).

(** The handle of these tests is a channel without a shutdown request. *)
Definition keyboard_interactive_context_debug_redacts_responses : bool :=
  let auth := {| ax_session_id := fst (SessionId_next 1);
                 ax_username := {| username_text := "testuser" |}; ax_peer_addr := None |} in
  let ctx := {| kx_session := auth; kx_submethods := ""; kx_responses := [as_bytes "secret123"] |} in
  let debug := KeyboardInteractiveContext_debug None ctx in
  negb (contains "secret" debug) && contains "<redacted" debug.

Definition x11_request_context_debug_redacts_cookie : bool :=
  let ctx := {| xr_session_id := fst (SessionId_next 1);
                xr_username := {| username_text := "testuser" |}; xr_channel := 5;
                xr_single_connection := false; xr_auth_protocol := "MIT-MAGIC-COOKIE-1";
                xr_auth_cookie := "deadbeef1234"; xr_screen_number := 0 |} in
  let debug := X11RequestContext_debug None ctx in
  negb (contains (xr_auth_cookie ctx) debug) && contains "<redacted>" debug.

(** ** [russh-extra-test-support] *)

Definition loopback_config_redacts_password_debug : bool :=
  let config := lb_set_password "demo" "do-not-print" (LoopbackServerConfig_new (PubKey := unit)) in
  let debug := LoopbackServerConfig_debug (λ _, "{}") (λ _, "{}") config in
  contains "***" debug && negb (contains "do-not-print" debug).

(** A system that binds port 40022 when asked for any. *)
Definition test_bind (host : string) (port : Z) : result IoError SocketAddr :=
  Ok {| sa_ip := host; sa_port := if port =? 0 then 40022 else port |}.
Definition test_start (config : LoopbackServerConfig Z) :
    result BoxError (LoopbackServer Z Z SocketAddr) :=
  LoopbackServer_start test_bind (λ l, Ok l) (Ok 7) (λ k, k) (λ k, "SHA256:" +:+ dec k)
    io_message (Ok ()) config.
Definition is_loopback (ip : string) : bool :=
  match strip_prefix "127." ip with Some _ => true | None => false end.

Definition demo_line : list byte := as_bytes (String.append "demo" (String "010" "")).
Definition warning_line : list byte := as_bytes (String.append "warning" (String "010" "")).

Definition loopback_server_binds_ephemeral_localhost_port : bool :=
  let! server :=
    test_start (lb_command "whoami" (CommandResponse_stdout demo_line) LoopbackServerConfig_new) in
  is_loopback (sa_ip (ls_addr server)) && assert_ne (sa_port (ls_addr server)) 0
  && assert_eq (e_port (LoopbackServer_endpoint server)) (sa_port (ls_addr server))
  && negb (is_none (strip_prefix "SHA256:" (ls_fingerprint server))).

(** The client's loop over the messages of its channel: standard output, standard error
    and the exit status, up to the close. *)
Fixpoint wait_all (sent : list SessionOp) (stdout stderr : list byte) (exit_status : option Z) :
    list byte * list byte * option Z :=
  match sent with
  | [] => (stdout, stderr, exit_status)
  | OpData _ data :: sent => wait_all sent (stdout ++ data) stderr exit_status
  | OpExtendedData _ 1 data :: sent => wait_all sent stdout (stderr ++ data) exit_status
  | OpExitStatus _ status :: sent => wait_all sent stdout stderr (Some status)
  | OpClose _ :: _ => (stdout, stderr, exit_status)
  | _ :: sent => wait_all sent stdout stderr exit_status
  end.

Definition loopback_server_executes_configured_command : bool :=
  let config :=
    lb_command "whoami" (with_stderr warning_line (CommandResponse_stdout demo_line))
      (lb_set_password "demo" "demo" LoopbackServerConfig_new) in
  let! server := test_start config in
  let handler := lb_new_client (ls_state server) in
  match lb_auth_password "demo" "demo" handler with
  | Accept =>
      lb_channel_open_session handler &&
      let '(executed, sent) := lb_exec_request log_op 0 (as_bytes "whoami") handler [] in
      let! done := executed in
      let '(stdout, stderr, exit_status) := wait_all sent [] [] None in
      assert_eq stdout demo_line && assert_eq stderr warning_line
      && assert_eq exit_status (Some 0)
  | _ => false
  end.

(** ** The suite *)

Definition server_tests : list (string * bool) :=
  [("server_builder_requires_host_key", server_builder_requires_host_key);
   ("server_builder_accepts_host_key", server_builder_accepts_host_key);
   ("host_key_debug_redacts_private_key", host_key_debug_redacts_private_key);
   ("auth_decision_defaults_to_reject", auth_decision_defaults_to_reject);
   ("exec_command_exposes_utf8_when_valid", exec_command_exposes_utf8_when_valid);
   ("exec_response_builders_set_output_and_exit", exec_response_builders_set_output_and_exit);
   ("keyboard_interactive_context_debug_redacts_responses", keyboard_interactive_context_debug_redacts_responses);
   ("x11_request_context_debug_redacts_cookie", x11_request_context_debug_redacts_cookie);
   ("loopback_config_redacts_password_debug", loopback_config_redacts_password_debug);
   ("loopback_server_binds_ephemeral_localhost_port", loopback_server_binds_ephemeral_localhost_port);
   ("loopback_server_executes_configured_command", loopback_server_executes_configured_command)].

(** Every test passes on the model. *)
Example server_tests_pass : failures server_tests = [].
Proof. vm_compute. reflexivity. Qed.
